(* ===== verification/_CoqProject ===== *)
-Q . S2P
Prelude.v
Text.v
PyVal.v
Json.v
Base64.v
Decimal.v
Schema.v
App.v
Storage.v
Cost.v
SpanSchema.v
Pipeline.v
Ingest.v
Outbox.v
Buckets.v
Worker.v
Sdk.v
SdkTrace.v
SdkTasks.v
SdkProcess.v
Auth.v
Projects.v
Users.v
Retention.v
FailedTasks.v
Otlp.v
Paging.v
Traces.v
PubSub.v
RateLimit.v
Url.v
Alerts.v
Notify.v
AlertEval.v
Metrics.v
Gates.v
SdkIntegrations.v
Http.v
Config.v
Health.v
Lifespan.v
Catalogue.v
Migrations.v
Models.v
Partitions.v
AuditTrail.v
Isolation.v
Tenants.v
Flow.v
Seed.v
Lag.v
