(* ===== verification/Prelude.v ===== *)
(** * LLM Obs: verification of the telemetry backend and SDK

    LLM Obs records the calls an application makes to language models.  The SDK
    ([src/sdk/llm_obs/]) collects spans, buffers them and sends them in batches;
    the API ([src/backend/app/api/v1/]) authenticates a project, accepts a batch
    and queues it; workers ([src/backend/app/workers/]) price the spans, keep
    their payloads, store them with their traces, counters and outbox events,
    and evaluate alert rules; the dashboard endpoints read all of it back.  This
    development translates that code into definitions, one file per component,
    and proves what makes each component correct.

    ** How the program is put together, and where it is modelled

    - Foundations of Python and the libraries it comes with.  [Prelude]:
      exceptions, results, the monad [M] of code that reads and writes a state
      and may raise, SQL-like operations on lists of rows, proof automation
      ([keeps], [preserves], [reads] with their hint databases).  [Text]: [str]
      methods.  [PyVal]: the values of [json.loads] and [json.dumps].  [Json]:
      the reader, and that it inverts the writer.  [Base64], [Decimal], [Url]:
      [base64], [decimal] and [urllib.parse].
    - State.  [Schema] has the rows of the control plane ([models/]) and the
      rules of the migrations; [App] the state of a dashboard handler, its
      sessions ([core/db.py]), audit trail ([services/audit.py]) and role checks
      ([core/rbac.py]); [Pipeline] the state [World] the ingest API and the
      workers share: telemetry tables, batch statuses in Redis, broker queue,
      payload bucket, channels, and the list [w_faults] of failures that the
      environment has in store.
    - Telemetry, from the application to the tables.  [SdkTrace] and [SdkTasks]
      ([decorators.py]), [SdkIntegrations] ([integrations/]), [Sdk]
      ([tracer.py], [transport.py]) and [SdkProcess] ([__init__.py]) are the
      client.  [Http] ([main.py], [core/security_headers.py]) and [RateLimit]
      ([core/ratelimit.py]) stand in front of the API, [Auth] ([core/auth.py],
      [api/v1/auth.py]) names the project.  [SpanSchema] ([schemas/ingest.py])
      validates spans, [Otlp] ([services/otlp.py], [api/v1/otlp.py]) makes them
      out of OpenTelemetry exports, [Ingest] ([services/ingest.py],
      [api/v1/ingest.py]) accepts batches, once per idempotency key.  [Worker]
      ([workers/process_span.py]) processes a batch with [Cost]
      ([services/cost.py], [api/v1/pricing.py]), [Storage]
      ([services/storage.py]), [Outbox] ([services/outbox.py]) and [Buckets]
      ([services/span_metric_buckets.py]); [FailedTasks] ([core/taskiq.py],
      [workers/dlq.py], [services/failed_tasks.py], [api/v1/failed_tasks.py])
      keeps what failed for good.
    - Reading.  [Paging] states what a listing with a cursor promises; [Traces]
      ([services/trace_service.py], [api/v1/traces.py]) and [AuditTrail]
      ([api/v1/audit.py]) keep it.  [Metrics] ([services/metrics_service.py],
      [api/v1/metrics.py]) aggregates, [PubSub] ([services/pubsub.py] and the
      stream of [api/v1/traces.py]) streams.
    - Alerts.  [Alerts] ([schemas/alerts.py], [api/v1/alerts.py]) are the rules,
      [AlertEval] ([services/anomaly.py] and the alert tasks) decides,
      [Notify] ([services/notifications.py]) delivers.
    - Administration and operations.  [Projects] and [Users] ([api/v1/]),
      [Retention] and [Partitions] ([workers/maintenance.py] and the migrations
      that partition the tables), [Health] ([api/v1/health.py],
      [workers/health.py], the gauges of [core/metrics.py]), [Config]
      ([core/config.py]), [Gates] ([scripts/], the dependency audits of CI).
      [Lifespan]: the shared Redis clients ([core/redis.py]) and the startup and
      shutdown of the process ([main.py], [core/db.py]).  [Seed]: the demo data
      of [src/backend/seed/].
    - The schema.  [Catalogue]: the statements of a migration, on the tables,
      indexes, partitions, sequences, policies and privileges they change;
      [Migrations]: every revision of [src/backend/alembic/versions/] and the
      run of [env.py]; [Models]: the declarations of [models/].

    - The parts together.  [Isolation] and [Tenants] let the operations of
      several projects act on one state; [Flow] runs an upload, the broker queue
      and the worker's tasks one after the other.

    Paths without a prefix are under [src/backend/app/] or [src/sdk/llm_obs/].
    A definition has the name of the function it translates; a helper without a
    counterpart is a statement, a condition or an SQL query of one.

    ** Conventions

    A handler is a value of [M S A], that is [S -> result A * S]: a raise keeps
    the state reached so far, as in Python, and a database session is a block
    that rolls the database part back ([atomic]).  Calls that may fail take
    their outcome from the state ([w_faults]; [al_http] and the like for
    alerts), so a theorem about every state is a theorem about every pattern of
    failures.  Randomness, the clock and fresh identifiers are arguments or part
    of the state.  Integers are Python's, unbounded; columns of a fixed scale
    hold the scaled integer.  Timestamps are microseconds in UTC.

    What the repository does not contain is a variable of a section: SHA-256,
    bcrypt and the JWT library ([Auth]), zlib ([Storage]), [ipaddress],
    [urljoin] and the answers of resolver, web and mail servers ([Notify]),
    PostgreSQL's averages, percentiles, quotients and [regexp_replace]
    ([Metrics], [AlertEval]), the glob matcher of Redis ([Cost]), parsing and
    printing of floats and dates, the protobuf parser ([Otlp]), the provider
    clients ([SdkIntegrations]).  Hypotheses on them say what their
    documentation says, and each theorem that has one has a witness in which
    they are concrete functions.

    ** What is proved

    - Nothing is lost or counted twice on the way.  [Sdk.sdk_ledger]: every span
      ever recorded is held, delivered, dropped with its count, or lost with the
      flush it was in or a shutdown told not to flush.
      [SdkProcess.sdk_batch_accepted]: which batches of the SDK the server takes.
      [SdkTasks.tasks_record_trees]: the spans of interleaved tasks form trees,
      as long as no span object is entered twice.
      [Ingest.Interleaving.concurrent_idempotency] and
      [Ingest.ingest_idempotent]: a key is accepted once, whatever interleaves
      and fails.  [Worker.process_span_batch_*]: after any run on spans that
      carry UTC offsets the metric buckets, the outbox and the traces agree with
      the stored spans, a replayed batch adds nothing, and a finished status
      tells the truth.  (Spans without an offset, which the schema lets through,
      are half lost: [Worker.undated_span_half_lost].)
      [Outbox.*]: what is marked delivered was published, and with the services
      up everything due is.
    - The system as a whole.  [Tenants.tenant_isolation]: from any reachable
      state, what other projects do changes no answer to a project's requests;
      [Flow.accepted_spans_visible]: with the services up, a batch of new spans,
      with or without a fresh key, is accepted and ends as priced rows, published
      events and totalled traces.
    - Tenants and secrets.  [Projects.api_key_cache_transparent] and
      [Projects.revoked_key_denied]: the key cache never answers what the tables
      would not; [Storage.store_payload_noninterference] and
      [FailedTasks.summarize_task_args_safe]: what is stored does not depend on
      redacted values; [Notify.alert_posts_safe]: no alert is posted anywhere but
      to Slack, at a host looked up just before, whatever redirects;
      [Notify.alert_cooldown] and [AlertEval.scheduled_alerts_sound]: how often
      an alert reaches anybody, and for what; [Users.*], [Alerts.*]: roles,
      invites and rules stay within their organisation.
    - The optimised agrees with the plain.  [Cost.calculate_refines]: two caches
      against the price table; [Otlp.json_proto_agree]: the two encodings;
      [Metrics.timeseries_reconciles]: the series against the overview, span for
      span but for those dated ahead;
      [Traces.pages_complete] and [AuditTrail.audit_pages_complete]: the pages against
      the whole listing;
      [RateLimit.rate_limit_window]: the sorted set against the window;
      [SdkIntegrations.*]: an instrumented client against the client.
    - The schema is what the program takes it for.  [Migrations.*]: from an empty
      database, with or without a role for the program, the revisions build a
      schema that isolates the projects, eleven of them are undone exactly on
      any well-formed catalogue ([Catalogue.Undoes]), and the chain can be taken
      down again; [Models.models_describe_schema]: the declared models describe
      the migrated tables and the tables the models, but for a list of what no
      model declares.
    - Upkeep.  [Lifespan.*]: one Redis client per process, a shutdown that
      reaches its end.  [Retention.*]: what may go, and that it goes;
      [Partitions.partitions_sound]: for a task that sees all rows, in UTC,
      partitions stay disjoint and secured and the coming months are prepared;
      [Http.payload_limit_enforced],
      [Gates.PipAudit.pip_gate_reviewed].

    Examples beside the theorems record behaviour worth knowing, such as a
    stranded outbox event, a partition task whose role cannot see the rows it
    looks for, a span object that is entered twice, an alert whose cooldown was
    not stored, or a revision whose downgrade leaves another schema than it found.
    One theorem states such a behaviour: [Lifespan.Process.live_stream_silent],
    no subscriber of the live stream is ever sent a span.

    ** Recursion and bounds

    Recursion follows the data where it can.  Elsewhere it carries a bound that
    is proved or seen to suffice: [Json.json_loads] two units per character and
    one more ([json_loads_dumps]); [Retention.retention_loop] one more than the
    rows that are due, and more changes nothing; [Retention.delete_in_batches]
    one unit per key; [Decimal.strip_zeros] and [ndigits] the size of the
    coefficient; [Notify.slack_loop] the redirects the code allows;
    [Otlp.json_any_value] one unit per level of nesting, as many as the input
    has; [Paging.read_pages] one more than the rows listed; [Migrations.plan]
    one unit per revision ([chain_complete]).  Batch sizes, limits
    and time windows are the constants of the code.

    ** Not modelled

    Logging, Prometheus counters, and the connection pools of SQLAlchemy,
    redis-py, httpx and taskiq; rows while a migration runs (a statement that
    would have to fill rows it cannot fill is refused), and Alembic's offline
    mode; the coercions of pydantic before a validator
    runs; SKIP LOCKED and other effects of concurrent transactions apart from
    those of [Ingest.Interleaving], [Users] and [Lifespan.Clients], where
    statements are steps; characters outside ASCII in text that the program compares or folds; column
    widths.  The dashboard
    ([src/frontend/]) is in another language; the examples and the smoke
    scripts drive a deployment and hold no logic of their own. *)

From Stdlib Require Export ZArith Lia Ascii String.
From stdpp Require Export base gmap strings list fin_maps sorting.

#[export] Set Default Goal Selector "!".

(** ** Exceptions and results

    The Python exceptions the modelled code raises or tells apart.  The class
    an exception belongs to is a constructor; the text that reaches a client
    or a status record is kept. *)

Inductive exn : Type :=
| ValueError (msg : string)
| KeyError (key : string)
| TypeError (msg : string)
| RuntimeError (msg : string)
| ParserError (msg : string)
| InvalidOperation
| JSONDecodeError
| SQLAlchemyError (msg : string)
| RedisError (msg : string)
| BotoCoreError (msg : string)
| ClientError (code : string) (http_status : option Z)
| TimeoutError
| ConnectionError
| HTTPException (status_code : Z) (detail : string)
| IdempotencyConflictError
| IdempotencyInProgressError
| OtherError (msg : string).

#[export] Instance exn_eq_dec : EqDecision exn.
Proof. solve_decision. Defined.

Inductive result (A : Type) : Type :=
| Ok (a : A)
| Raise (e : exn).
Arguments Ok {A} a.
Arguments Raise {A} e.

#[export] Instance result_eq_dec `{EqDecision A} : EqDecision (result A).
Proof. solve_decision. Defined.

#[export] Instance result_ret : MRet result := λ A, Ok.
#[export] Instance result_bind : MBind result := λ A B f m,
  match m with Ok a => f a | Raise e => Raise e end.

(** ** The state and exception monad

    [M S A] is a piece of a handler: it reads and writes the state [S] and
    returns a value or raises.  A raise keeps the state reached so far, the
    way a Python exception does; what rolls back is written with [atomic]. *)

Definition M (S A : Type) : Type := S → result A * S.

#[export] Instance M_ret {S} : MRet (M S) := λ A a s, (Ok a, s).
#[export] Instance M_bind {S} : MBind (M S) := λ A B f m s,
  match m s with
  | (Ok a, s') => f a s'
  | (Raise e, s') => (Raise e, s')
  end.

Section operations.
Context {S : Type}.

Definition raise {A} (e : exn) : M S A := λ s, (Raise e, s).
Definition gets {A} (f : S → A) : M S A := λ s, (Ok (f s), s).
Definition modify (f : S → S) : M S unit := λ s, (Ok tt, f s).
Definition lift {A} (r : result A) : M S A := λ s, (r, s).

(** [if b: raise e] *)
Definition raise_when (b : bool) (e : exn) : M S unit :=
  if b then raise e else mret tt.

(** [try: m except Exception as e: h e] *)
Definition try_except {A} (m : M S A) (h : exn → M S A) : M S A := λ s,
  match m s with
  | (Ok a, s') => (Ok a, s')
  | (Raise e, s') => h e s'
  end.

(** [try: m finally: f]: what [f] raises replaces what [m] does. *)
Definition try_finally {A} (m : M S A) (f : M S unit) : M S A := λ s,
  let '(r, s') := m s in
  match f s' with
  | (Ok _, s'') => (r, s'')
  | (Raise e, s'') => (Raise e, s'')
  end.

(** [async with db.begin(): m]: a raise restores the part of the state the
    database owns, chosen by [restore], and keeps the rest. *)
Definition atomic {A} (restore : S → S → S) (m : M S A) : M S A := λ s,
  match m s with
  | (Ok a, s') => (Ok a, s')
  | (Raise e, s') => (Raise e, restore s s')
  end.

(** [for x in l: f x] *)
Fixpoint for_each {A} (l : list A) (f : A → M S unit) : M S unit :=
  match l with
  | [] => mret tt
  | x :: l' => f x ;; for_each l' f
  end.
End operations.

(** ** Invariants of a handler

    [keeps I m]: [m] preserves [I], whether it returns or raises. *)

Definition keeps {S A} (I : S → Prop) (m : M S A) : Prop :=
  ∀ s, I s → I (m s).2.

Section keeps.
Context {S : Type} (I : S → Prop).

Lemma keeps_ret {A} (a : A) : keeps I (mret a : M S A).
Proof. by intros s Hs. Qed.

Lemma keeps_raise {A} e : keeps I (raise e : M S A).
Proof. by intros s Hs. Qed.

Lemma keeps_gets {A} (f : S → A) : keeps I (gets f).
Proof. by intros s Hs. Qed.

Lemma keeps_lift {A} (r : result A) : keeps I (lift r : M S A).
Proof. by intros s Hs. Qed.

Lemma keeps_raise_when b e : keeps I (raise_when b e : M S unit).
Proof. by destruct b; intros s Hs. Qed.

Lemma keeps_modify f : (∀ s, I s → I (f s)) → keeps I (modify f).
Proof. by intros Hf s Hs; apply Hf. Qed.

Lemma keeps_bind {A B} (m : M S A) (f : A → M S B) :
  keeps I m → (∀ a, keeps I (f a)) → keeps I (m ≫= f).
Proof.
  intros Hm Hf s Hs. unfold mbind, M_bind.
  specialize (Hm s Hs). destruct (m s) as [[a|e] s']; [by apply Hf|done].
Qed.

(** The continuation may use that the first part returned from a state
    that satisfies the invariant. *)
Lemma keeps_bind_run {A B} (m : M S A) (f : A → M S B) :
  keeps I m →
  (∀ s a s', I s → m s = (Ok a, s') → I s' → I (f a s').2) →
  keeps I (m ≫= f).
Proof.
  intros Hm Hf s Hs. unfold mbind, M_bind.
  pose proof (Hm s Hs) as Hm'. destruct (m s) as [[a|e] s'] eqn:E; [|done].
  by apply (Hf s a s').
Qed.

Lemma keeps_try {A} (m : M S A) h :
  keeps I m → (∀ e, keeps I (h e)) → keeps I (try_except m h).
Proof.
  intros Hm Hh s Hs. unfold try_except.
  specialize (Hm s Hs). destruct (m s) as [[a|e] s']; [done|by apply Hh].
Qed.

Lemma keeps_for_each {A} (l : list A) f :
  (∀ x, x ∈ l → keeps I (f x)) → keeps I (for_each l f).
Proof.
  induction l as [|x l IH]; intros Hf; [apply keeps_ret|].
  apply keeps_bind; [apply Hf; set_solver|].
  intros _; apply IH. set_solver.
Qed.
End keeps.

Create HintDb keeps discriminated.
#[export] Hint Resolve keeps_ret keeps_raise keeps_gets keeps_lift
  keeps_raise_when keeps_bind keeps_try : keeps.
#[export] Hint Extern 1 (∀ _, keeps _ _) => intros : keeps.

(** ** Running a handler *)

Section running.
Context {S : Type}.

Lemma bind_ok_inv {A B} (m : M S A) (f : A → M S B) s b s' :
  (m ≫= f) s = (Ok b, s') → ∃ a s1, m s = (Ok a, s1) ∧ f a s1 = (Ok b, s').
Proof.
  unfold mbind, M_bind. destruct (m s) as [[a|e] s1]; [eauto|done].
Qed.

Lemma bind_run {A B} (m : M S A) (f : A → M S B) s a s1 :
  m s = (Ok a, s1) → (m ≫= f) s = f a s1.
Proof. unfold mbind, M_bind. by intros ->. Qed.

(** To run a handler it is enough to know its result. *)
Lemma run_result {A} (m : M S A) s a : (m s).1 = Ok a → m s = (Ok a, (m s).2).
Proof. destruct (m s) as [r s']. by intros [= ->]. Qed.

Lemma bind_run_raise {A B} (m : M S A) (f : A → M S B) s e s1 :
  m s = (Raise e, s1) → (m ≫= f) s = (Raise e, s1).
Proof. unfold mbind, M_bind. by intros ->. Qed.

Lemma bind_assoc_run {A B C} (m : M S A) (f : A → M S B) (g : B → M S C) s :
  ((m ≫= f) ≫= g) s = (m ≫= λ a, f a ≫= g) s.
Proof. unfold mbind, M_bind. by destruct (m s) as [[a|e] s1]. Qed.

Lemma raise_when_ok_inv b e (s s' : S) u :
  raise_when b e s = (Ok u, s') → b = false ∧ s' = s.
Proof. destruct b; [done|]. by intros [= _ ->]. Qed.

(** What a raise inside a transaction leaves behind. *)
Lemma atomic_raise {A} restore (m : M S A) s e s' :
  atomic restore m s = (Raise e, s') → ∃ s1, s' = restore s s1.
Proof.
  unfold atomic. destruct (m s) as [[a|e'] s1]; [done|].
  intros [= _ <-]. eauto.
Qed.

Lemma keeps_atomic {A} (I : S → Prop) restore (m : M S A) :
  keeps I m → (∀ s s1, I s → I s1 → I (restore s s1)) →
  keeps I (atomic restore m).
Proof.
  intros Hm Hr s Hs. unfold atomic.
  specialize (Hm s Hs). destruct (m s) as [[a|e] s1]; [done|by apply Hr].
Qed.
End running.

(** Unfolds one run of a handler, step by step. *)
Ltac run_inv :=
  repeat match goal with
  | H : (_ ≫= _) _ = (Ok _, _) |- _ =>
      apply bind_ok_inv in H; destruct H as (? & ? & ? & H)
  | H : raise_when _ _ _ = (Ok _, _) |- _ =>
      apply raise_when_ok_inv in H; destruct H as [? ?]
  | H : gets _ _ = (Ok _, _) |- _ => unfold gets in H; simplify_eq
  | H : modify _ _ = (Ok _, _) |- _ => unfold modify in H; simplify_eq
  | H : mret _ _ = (Ok _, _) |- _ => unfold mret, M_ret in H; simplify_eq
  | H : raise _ _ = (Ok _, _) |- _ => discriminate H
  end; simplify_eq/=.

(** ** Lists *)

Section lists.
Context {A : Type}.

(** Sum of an integer attribute over a list: SQL's [SUM] over a table. *)
Definition sum_of (f : A → Z) (l : list A) : Z :=
  foldr (λ x acc, (f x + acc)%Z) 0%Z l.

Lemma sum_of_app f l1 l2 : sum_of f (l1 ++ l2) = (sum_of f l1 + sum_of f l2)%Z.
Proof. induction l1; simpl; lia. Qed.

Lemma sum_of_Permutation f l1 l2 : l1 ≡ₚ l2 → sum_of f l1 = sum_of f l2.
Proof. induction 1; simpl; lia. Qed.

Lemma sum_of_nonneg f l : (∀ x, x ∈ l → 0 ≤ f x)%Z → (0 ≤ sum_of f l)%Z.
Proof.
  induction l as [|x l IH]; intros Hf; simpl; [lia|].
  pose proof (Hf x ltac:(set_solver)).
  enough (0 ≤ sum_of f l)%Z by lia. apply IH. set_solver.
Qed.

Lemma sum_of_ext f g l : (∀ x, x ∈ l → f x = g x) → sum_of f l = sum_of g l.
Proof.
  induction l as [|x l IH]; intros Hf; simpl; [done|].
  rewrite Hf, IH; set_solver.
Qed.

Lemma filter_sublength (P : A → Prop) `{∀ x, Decision (P x)} (l : list A) :
  (length (filter P l) ≤ length l)%nat.
Proof. apply length_filter. Qed.

Lemma elem_of_take_subset n (l : list A) x : x ∈ take n l → x ∈ l.
Proof. intros Hx. apply (subseteq_take n l). done. Qed.
End lists.

(** Rows ordered by an integer key: the order [ORDER BY k ASC] leaves rows
    with equal keys in. The sort is stable. *)
Section insertion_sort.
Context {A : Type} (key : A → Z).

Fixpoint insert_by (x : A) (l : list A) : list A :=
  match l with
  | [] => [x]
  | y :: l' => if (key x <=? key y)%Z then x :: l else y :: insert_by x l'
  end.

Definition sort_by (l : list A) : list A := foldr insert_by [] l.

Lemma insert_by_Permutation x l : insert_by x l ≡ₚ x :: l.
Proof.
  induction l as [|y l IH]; simpl; [done|].
  case_match; [done|]. rewrite IH. by constructor.
Qed.

Lemma sort_by_Permutation l : sort_by l ≡ₚ l.
Proof.
  induction l as [|x l IH]; simpl; [done|].
  by rewrite insert_by_Permutation, IH.
Qed.

Definition key_le (x y : A) : Prop := (key x ≤ key y)%Z.

Lemma insert_by_StronglySorted x l :
  StronglySorted key_le l → StronglySorted key_le (insert_by x l).
Proof.
  induction 1 as [|y l Hl IH Hy]; simpl; [repeat constructor|].
  case_match eqn:E.
  - apply Z.leb_le in E. constructor; [by constructor|].
    constructor; [done|]. eapply Forall_impl; [exact Hy|].
    unfold key_le; intros; lia.
  - apply Z.leb_gt in E. constructor; [done|].
    rewrite insert_by_Permutation. constructor; [unfold key_le; lia|done].
Qed.

Lemma sort_by_StronglySorted l : StronglySorted key_le (sort_by l).
Proof.
  induction l as [|x l IH]; simpl; [constructor|].
  by apply insert_by_StronglySorted.
Qed.

Lemma sort_by_elem_of x l : x ∈ sort_by l ↔ x ∈ l.
Proof. by rewrite sort_by_Permutation. Qed.

Lemma sort_by_length l : length (sort_by l) = length l.
Proof. apply Permutation_length, sort_by_Permutation. Qed.

(** [ORDER BY k ASC LIMIT 1] is a row with the least key. *)
Lemma sort_by_head_least x l y :
  head (sort_by l) = Some x → y ∈ l → (key x ≤ key y)%Z.
Proof.
  intros Hh Hy. rewrite <- sort_by_elem_of in Hy.
  pose proof (sort_by_StronglySorted l) as Hs.
  destruct (sort_by l) as [|z l']; [done|]. simplify_eq/=.
  apply StronglySorted_inv in Hs as [_ Hall].
  apply elem_of_cons in Hy as [->|Hy]; [lia|].
  rewrite Forall_forall in Hall. by apply Hall.
Qed.

Lemma sort_by_head_elem_of x l : head (sort_by l) = Some x → x ∈ l.
Proof.
  intros Hh. apply sort_by_elem_of.
  destruct (sort_by l) as [|z l']; [done|]. simplify_eq/=. set_solver.
Qed.

Lemma sort_by_head_None l : head (sort_by l) = None ↔ l = [].
Proof.
  split; [|by intros ->].
  destruct l as [|x l]; [done|]. intros Hh.
  assert (x ∈ sort_by (x :: l)) by (rewrite sort_by_elem_of; set_solver).
  destruct (sort_by (x :: l)); [set_solver|done].
Qed.
End insertion_sort.

(** Rows ordered by a comparison of several columns; stable. *)
Section sorted.
Context {A : Type} (le : A → A → bool).

Fixpoint insert_sorted (x : A) (l : list A) : list A :=
  match l with
  | [] => [x]
  | y :: l' => if le x y then x :: l else y :: insert_sorted x l'
  end.

Definition sorted (l : list A) : list A := foldr insert_sorted [] l.

Lemma insert_sorted_Permutation x l : insert_sorted x l ≡ₚ x :: l.
Proof.
  induction l as [|y l IH]; cbn; [done|]. destruct (le x y); [done|].
  rewrite IH. apply perm_swap.
Qed.

Lemma sorted_Permutation l : sorted l ≡ₚ l.
Proof. induction l as [|x l IH]; cbn; [done|]. by rewrite insert_sorted_Permutation, IH. Qed.
End sorted.
