(* ===== verification/Text.v ===== *)
(** * Python text operations

    [str] methods the program uses, on strings whose characters are ASCII:
    [lower], [strip], [split], [startswith], [endswith], [in], slicing and
    [int(s, 16)].  A character outside ASCII is not represented. *)

From S2P Require Import Prelude.
From stdpp Require Export pretty.

Declare Scope text_scope.
Delimit Scope text_scope with text.

Definition code (c : ascii) : nat := nat_of_ascii c.

Definition is_space (c : ascii) : bool :=
  ((9 <=? code c)%nat && (code c <=? 13)%nat)
  || ((28 <=? code c)%nat && (code c <=? 32)%nat).

Definition lower_char (c : ascii) : ascii :=
  if ((65 <=? code c)%nat && (code c <=? 90)%nat)
  then ascii_of_nat (code c + 32) else c.

(** [s.lower()] *)
Fixpoint lower (s : string) : string :=
  match s with
  | EmptyString => EmptyString
  | String c s' => String (lower_char c) (lower s')
  end.

(** [s.lstrip(chars)] and [s.rstrip(chars)] for a set of characters. *)
Fixpoint lstrip_by (p : ascii → bool) (s : string) : string :=
  match s with
  | EmptyString => EmptyString
  | String c s' => if p c then lstrip_by p s' else s
  end.

Fixpoint rstrip_by (p : ascii → bool) (s : string) : string :=
  match s with
  | EmptyString => EmptyString
  | String c s' =>
      match rstrip_by p s' with
      | EmptyString => if p c then EmptyString else String c EmptyString
      | r => String c r
      end
  end.

Definition strip_by (p : ascii → bool) (s : string) : string :=
  rstrip_by p (lstrip_by p s).

(** [s.strip()] *)
Definition strip (s : string) : string := strip_by is_space s.

(** [s.split(sep)] for a one-character separator. *)
Fixpoint split_on (sep : ascii) (s : string) : list string :=
  match s with
  | EmptyString => [EmptyString]
  | String c s' =>
      if Ascii.eqb c sep then EmptyString :: split_on sep s'
      else match split_on sep s' with
           | [] => [String c EmptyString]
           | w :: ws => String c w :: ws
           end
  end.

(** [s.startswith(p)], [s.endswith(p)], [p in s] *)
Definition startswith (p s : string) : bool := String.prefix p s.

Fixpoint endswith (p s : string) : bool :=
  String.eqb p s ||
  match s with EmptyString => false | String _ s' => endswith p s' end.

Fixpoint contains (p s : string) : bool :=
  startswith p s ||
  match s with EmptyString => false | String _ s' => contains p s' end.

(** [s[:n]] *)
Fixpoint str_take (n : nat) (s : string) : string :=
  match n, s with
  | S n', String c s' => String c (str_take n' s')
  | _, _ => EmptyString
  end.

Definition len (s : string) : Z := Z.of_nat (String.length s).

(** [if s:] *)
Definition truthy (s : string) : bool := negb (String.eqb s EmptyString).

(** [x in {...}] for a set of strings given by the list of its members. *)
Definition inb (x : string) (l : list string) : bool := existsb (String.eqb x) l.

Arguments inb : simpl never.

(** [all(p(c) for c in s)] *)
Fixpoint str_all (p : ascii → bool) (s : string) : bool :=
  match s with
  | EmptyString => true
  | String c s' => p c && str_all p s'
  end.

(** [s.replace(c, "")] for one character. *)
Fixpoint remove_char (x : ascii) (s : string) : string :=
  match s with
  | EmptyString => EmptyString
  | String c s' => if Ascii.eqb c x then remove_char x s'
                   else String c (remove_char x s')
  end.

(** [s.replace(p, "")], leftmost matches first.  [skip] counts the characters
    of a match still to be dropped. *)
Fixpoint remove_sub_go (p : string) (skip : nat) (s : string) : string :=
  match s with
  | EmptyString => EmptyString
  | String c s' =>
      match skip with
      | S k => remove_sub_go p k s'
      | O => if startswith p s
             then remove_sub_go p (String.length p - 1) s'
             else String c (remove_sub_go p 0 s')
      end
  end.
Definition remove_sub (p s : string) : string := remove_sub_go p 0 s.

(** Python's [s1 + s2]; string concatenation is stdpp's [+:+]. *)
Definition join (sep : string) (l : list string) : string :=
  match l with
  | [] => EmptyString
  | w :: ws => foldl (λ acc x, acc +:+ sep +:+ x) w ws
  end.

(** [str(n)] of an integer. *)
Definition str_of_int (z : Z) : string := pretty z.

(** Zero-padded decimal, [f"{n:02d}"] for a non-negative [n]. *)
Definition str_02d (z : Z) : string :=
  if (z <? 10)%Z then "0" +:+ str_of_int z else str_of_int z.

(** ** Hexadecimal *)

Definition hex_val (c : ascii) : option Z :=
  let n := Z.of_nat (code c) in
  if (48 <=? n)%Z && (n <=? 57)%Z then Some (n - 48)%Z
  else if (97 <=? n)%Z && (n <=? 102)%Z then Some (n - 87)%Z
  else if (65 <=? n)%Z && (n <=? 70)%Z then Some (n - 55)%Z
  else None.

Definition is_hex_digit (c : ascii) : bool :=
  match hex_val c with Some _ => true | None => false end.

(** The digit run of [int(s, 16)]: digits, with single underscores between
    them. [under] is true right after an underscore or at the start. *)
Fixpoint hex_digits (acc : Z) (under : bool) (s : string) : option Z :=
  match s with
  | EmptyString => if under then None else Some acc
  | String c s' =>
      match hex_val c with
      | Some d => hex_digits (16 * acc + d) false s'
      | None => if Ascii.eqb c "_" && negb under
                then hex_digits acc true s' else None
      end
  end.

(** [int(s, 16)]; [None] where Python raises ValueError.  After a [0x] prefix
    one underscore may come first. *)
Definition int16_unsigned (s : string) : option Z :=
  match s with
  | String "0" (String x s') =>
      if Ascii.eqb x "x" || Ascii.eqb x "X" then
        match s' with
        | String "_" s'' => hex_digits 0 true s''
        | _ => hex_digits 0 true s'
        end
      else hex_digits 0 true s
  | _ => hex_digits 0 true s
  end.

Definition int16 (s : string) : option Z :=
  match strip s with
  | String "+" s' => int16_unsigned s'
  | String "-" s' => Z.opp <$> int16_unsigned s'
  | s' => int16_unsigned s'
  end.

Definition hex_char (d : Z) : ascii :=
  if (d <? 10)%Z then ascii_of_nat (Z.to_nat (48 + d))
  else ascii_of_nat (Z.to_nat (87 + d)).

(** [n] lowercase hexadecimal digits of [z], most significant first:
    ["%0nx" % z] for [0 <= z < 16^n]. *)
Fixpoint hex_pad (n : nat) (z : Z) : string :=
  match n with
  | O => EmptyString
  | S n' => hex_pad n' (z / 16) +:+ String (hex_char (z mod 16)) EmptyString
  end.

(** ** Facts *)

Lemma lower_char_idemp c : lower_char (lower_char c) = lower_char c.
Proof. by destruct c as [[] [] [] [] [] [] [] []]. Qed.

Lemma lower_idemp s : lower (lower s) = lower s.
Proof. induction s as [|c s IH]; simpl; [done|]. by rewrite lower_char_idemp, IH. Qed.

Lemma is_space_lower c : is_space (lower_char c) = is_space c.
Proof. by destruct c as [[] [] [] [] [] [] [] []]. Qed.

Lemma lower_length s : String.length (lower s) = String.length s.
Proof. induction s; simpl; congruence. Qed.

Lemma lower_app s1 s2 : lower (s1 +:+ s2) = lower s1 +:+ lower s2.
Proof. induction s1 as [|c s1 IH]; simpl; [done|]. by rewrite IH. Qed.

Lemma lower_rstrip s :
  lower (rstrip_by is_space s) = rstrip_by is_space (lower s).
Proof.
  induction s as [|c s IH]; simpl; [done|].
  rewrite <- IH, is_space_lower.
  destruct (rstrip_by is_space s); simpl; [by destruct (is_space c)|done].
Qed.

Lemma lower_lstrip s :
  lower (lstrip_by is_space s) = lstrip_by is_space (lower s).
Proof.
  induction s as [|c s IH]; simpl; [done|].
  rewrite is_space_lower. by destruct (is_space c).
Qed.

Lemma lower_strip s : lower (strip s) = strip (lower s).
Proof. unfold strip, strip_by. by rewrite lower_rstrip, lower_lstrip. Qed.

Lemma lstrip_rstrip_fix p s :
  lstrip_by p s = s → lstrip_by p (rstrip_by p s) = rstrip_by p s.
Proof.
  destruct s as [|c s]; simpl; [done|].
  destruct (p c) eqn:Hp.
  - intros H. exfalso.
    assert (Hl : ∀ t, (String.length (lstrip_by p t) ≤ String.length t)%nat).
    { induction t as [|d t IH]; simpl; [lia|]. destruct (p d); simpl; lia. }
    specialize (Hl s). rewrite H in Hl. simpl in Hl. lia.
  - intros _. destruct (rstrip_by p s); simpl; by rewrite Hp.
Qed.

Lemma lstrip_idemp p s : lstrip_by p (lstrip_by p s) = lstrip_by p s.
Proof.
  induction s as [|c s IH]; simpl; [done|].
  destruct (p c) eqn:Hp; [done|]. simpl. by rewrite Hp.
Qed.

Lemma rstrip_idemp p s : rstrip_by p (rstrip_by p s) = rstrip_by p s.
Proof.
  induction s as [|c s IH]; [done|].
  cbn [rstrip_by]. destruct (rstrip_by p s) as [|d t] eqn:E.
  - destruct (p c) eqn:Hp; simpl; [done|]. by rewrite Hp.
  - cbn [rstrip_by] in *. by rewrite IH.
Qed.

Lemma strip_idemp s : strip (strip s) = strip s.
Proof.
  unfold strip, strip_by.
  rewrite lstrip_rstrip_fix; [apply rstrip_idemp|apply lstrip_idemp].
Qed.

Lemma truthy_true s : truthy s = true ↔ s ≠ EmptyString.
Proof. unfold truthy. rewrite negb_true_iff. apply String.eqb_neq. Qed.

Lemma truthy_false s : truthy s = false ↔ s = EmptyString.
Proof. unfold truthy. rewrite negb_false_iff. apply String.eqb_eq. Qed.

Lemma str_app_length s1 s2 :
  String.length (s1 +:+ s2) = (String.length s1 + String.length s2)%nat.
Proof. induction s1 as [|c s1 IH]; simpl; [done|]. by rewrite IH. Qed.

Lemma str_app_cons c (s1 s2 : string) :
  String c s1 +:+ s2 = String c (s1 +:+ s2).
Proof. done. Qed.

Lemma str_app_nil_r (s : string) : s +:+ EmptyString = s.
Proof. induction s as [|c s IH]; [done|]. by rewrite str_app_cons, IH. Qed.

Lemma str_app_assoc (s1 s2 s3 : string) :
  (s1 +:+ s2) +:+ s3 = s1 +:+ (s2 +:+ s3).
Proof. induction s1 as [|c s1 IH]; [done|]. by rewrite !str_app_cons, IH. Qed.

Lemma startswith_app p s : startswith p (p +:+ s) = true.
Proof.
  unfold startswith. induction p as [|c p IH]; [by destruct s|].
  rewrite str_app_cons. simpl. by destruct (ascii_dec c c).
Qed.

Lemma startswith_spec p s : startswith p s = true ↔ ∃ t, s = p +:+ t.
Proof.
  split; [|by intros [t ->]; apply startswith_app].
  unfold startswith. revert s. induction p as [|c p IH]; intros s; simpl; [by eauto|].
  destruct s as [|d s]; simpl; [done|].
  destruct (ascii_dec c d) as [->|]; [|done].
  intros [t ->]%IH. by exists t.
Qed.

Lemma str_take_length n s : (String.length (str_take n s) ≤ n)%nat.
Proof.
  revert s. induction n as [|n IH]; intros s; [simpl; lia|].
  destruct s as [|c s]; simpl; [lia|]. specialize (IH s). lia.
Qed.

Lemma str_take_id n s : (String.length s ≤ n)%nat → str_take n s = s.
Proof.
  revert s. induction n as [|n IH]; intros [|c s]; simpl; intros; try done; [lia|].
  rewrite IH; [done|lia].
Qed.

Lemma split_on_nonempty sep s : split_on sep s ≠ [].
Proof.
  destruct s as [|c s]; simpl; [done|].
  destruct (Ascii.eqb c sep); [done|]. by destruct (split_on sep s).
Qed.

Lemma hex_pad_length n z : String.length (hex_pad n z) = n.
Proof.
  revert z. induction n as [|n IH]; intros z; simpl; [done|].
  rewrite str_app_length, IH. simpl. lia.
Qed.

Lemma inb_true x l : inb x l = true ↔ x ∈ l.
Proof.
  unfold inb. rewrite existsb_exists. split.
  - intros (y & Hy & ->%String.eqb_eq). by apply list_elem_of_In.
  - intros Hx. exists x. split; [by apply list_elem_of_In|apply String.eqb_refl].
Qed.

Lemma inb_false x l : inb x l = false ↔ x ∉ l.
Proof. rewrite <- inb_true. by destruct (inb x l). Qed.

Lemma split_on_lower sep s :
  lower_char sep = sep → (∀ c, lower_char c = sep → c = sep) →
  split_on sep (lower s) = lower <$> split_on sep s.
Proof.
  intros Hsep Hinj. induction s as [|c s IH]; simpl; [done|].
  destruct (Ascii.eqb_spec c sep) as [->|Hne].
  - rewrite Hsep, Ascii.eqb_refl. simpl. by rewrite IH.
  - destruct (Ascii.eqb_spec (lower_char c) sep) as [He|_]; [by apply Hinj in He|].
    rewrite IH. by destruct (split_on sep s).
Qed.

(** ** Injectivity of composed keys *)

Lemma str_app_inj_l (s t1 t2 : string) : s +:+ t1 = s +:+ t2 → t1 = t2.
Proof.
  induction s as [|c s IH]; [done|]. rewrite !str_app_cons. intros [= H]. by apply IH.
Qed.

Lemma str_app_inj_r (s1 s2 t : string) : s1 +:+ t = s2 +:+ t → s1 = s2.
Proof.
  revert s2. induction s1 as [|c s1 IH]; intros [|d s2] H; [done| | |].
  - apply (f_equal String.length) in H.
    rewrite str_app_cons in H. simpl in H. rewrite !str_app_length in H. simpl in H. lia.
  - apply (f_equal String.length) in H.
    rewrite str_app_cons in H. simpl in H. rewrite !str_app_length in H. simpl in H. lia.
  - rewrite !str_app_cons in H. injection H as -> H. f_equal. by apply IH.
Qed.

(** No separator character in a field. *)
Definition free_of (c : ascii) (s : string) : bool :=
  str_all (λ d, negb (Ascii.eqb d c)) s.

Lemma split_at_sep c (p1 p2 t1 t2 : string) :
  free_of c p1 = true → free_of c p2 = true →
  p1 +:+ String c t1 = p2 +:+ String c t2 → p1 = p2 ∧ t1 = t2.
Proof.
  unfold free_of. revert p2. induction p1 as [|d p1 IH]; intros [|e p2] H1 H2 H.
  - by injection H.
  - rewrite str_app_cons in H. injection H as -> H. simpl in H2.
    by rewrite Ascii.eqb_refl in H2.
  - rewrite str_app_cons in H. injection H as -> H. simpl in H1.
    by rewrite Ascii.eqb_refl in H1.
  - rewrite !str_app_cons in H. injection H as -> H. simpl in H1, H2.
    apply andb_true_iff in H1 as [_ H1]. apply andb_true_iff in H2 as [_ H2].
    by destruct (IH p2 H1 H2 H) as [-> ->].
Qed.

Lemma startswith_app_inv p q s :
  startswith (p +:+ q) s = true → startswith p s = true.
Proof.
  rewrite !startswith_spec. intros [t ->]. exists (q +:+ t). apply str_app_assoc.
Qed.

(** ** Character classes and hexadecimal *)

Local Open Scope Z_scope.

(** Lowercase hexadecimal digits. *)
Definition hexl (c : ascii) : bool :=
  existsb (Ascii.eqb c)
    ["0"; "1"; "2"; "3"; "4"; "5"; "6"; "7"; "8"; "9"; "a"; "b"; "c"; "d";
     "e"; "f"]%char.

Lemma str_all_app p s1 s2 : str_all p (s1 +:+ s2) = str_all p s1 && str_all p s2.
Proof.
  induction s1 as [|c s1 IH]; [done|].
  rewrite str_app_cons. simpl. by rewrite IH, andb_assoc.
Qed.

Lemma str_all_impl (p q : ascii → bool) s :
  (∀ c, p c = true → q c = true) → str_all p s = true → str_all q s = true.
Proof.
  intros Hpq. induction s as [|c s IH]; simpl; [done|].
  rewrite !andb_true_iff. naive_solver.
Qed.

Lemma hex_char_hexl d : 0 <= d < 16 → hexl (hex_char d) = true ∧ hex_val (hex_char d) = Some d.
Proof.
  intros Hd.
  assert (Hin : d ∈ [0;1;2;3;4;5;6;7;8;9;10;11;12;13;14;15]).
  { repeat (rewrite elem_of_cons). lia. }
  repeat (apply elem_of_cons in Hin as [->|Hin]; [by vm_compute|]). set_solver.
Qed.

Lemma hex_pad_hexl n z : str_all hexl (hex_pad n z) = true.
Proof.
  revert z. induction n as [|n IH]; intros z; [done|].
  cbn [hex_pad]. rewrite str_all_app, IH. simpl.
  pose proof (Z.mod_pos_bound z 16 ltac:(lia)).
  by rewrite (proj1 (hex_char_hexl (z mod 16) ltac:(lia))).
Qed.

Lemma hexl_facts c : hexl c = true →
  is_space c = false ∧ Ascii.eqb c "-" = false ∧ Ascii.eqb c "+" = false ∧
  Ascii.eqb c "u" = false ∧ Ascii.eqb c "{" = false ∧ Ascii.eqb c "}" = false ∧
  Ascii.eqb c "x" = false ∧ Ascii.eqb c "X" = false ∧ lower_char c = c.
Proof. by destruct c as [[] [] [] [] [] [] [] []]. Qed.

Lemma hex_digits_app acc u s1 s2 :
  str_all hexl s1 = true → s1 ≠ EmptyString →
  hex_digits acc u (s1 +:+ s2) =
    match hex_digits acc true s1 with
    | Some a => hex_digits a false s2
    | None => None
    end.
Proof.
  revert acc u. induction s1 as [|c s1 IH]; intros acc u Hs Hne; [done|].
  rewrite str_app_cons. simpl in *. apply andb_true_iff in Hs as [Hc Hs].
  assert (Hv : is_Some (hex_val c)) by (by destruct c as [[] [] [] [] [] [] [] []]; eauto).
  destruct Hv as [v ->].
  destruct s1 as [|d s1]; [done|].
  rewrite (IH _ _ Hs) by done.
  simpl. destruct (hex_val d) eqn:Hd; [done|].
  apply andb_true_iff in Hs as [Hs _].
  by destruct d as [[] [] [] [] [] [] [] []].
Qed.

Lemma hex_digits_pad n acc z : (0 < n)%nat →
  hex_digits acc true (hex_pad n z)
  = Some (acc * 16 ^ Z.of_nat n + z mod 16 ^ Z.of_nat n).
Proof.
  revert z. induction n as [|n IH]; intros z Hn; [lia|].
  cbn [hex_pad].
  pose proof (Z.mod_pos_bound z 16 ltac:(lia)).
  destruct (hex_char_hexl (z mod 16) ltac:(lia)) as [_ Hv].
  assert (Hp : 16 ^ Z.of_nat (S n) = 16 * 16 ^ Z.of_nat n)
    by (rewrite Nat2Z.inj_succ, Z.pow_succ_r by lia; lia).
  destruct n as [|n].
  - change (hex_pad 0 (z / 16)) with EmptyString.
    change (EmptyString +:+ ?s) with s. cbn [hex_digits]. rewrite Hv. f_equal.
    change (16 ^ Z.of_nat 1) with 16. lia.
  - rewrite hex_digits_app; [|apply hex_pad_hexl|].
    2: { intros E. apply (f_equal String.length) in E.
         rewrite hex_pad_length in E. done. }
    rewrite IH by lia. cbn [hex_digits]. rewrite Hv. f_equal. rewrite Hp.
    rewrite (Z.rem_mul_r z 16) by lia. ring.
Qed.

Lemma str_all_free c s (p : ascii → bool) :
  (∀ d, p d = true → Ascii.eqb d c = false) → str_all p s = true →
  free_of c s = true.
Proof. intros Hp. apply str_all_impl. intros d Hd. by rewrite (Hp d Hd). Qed.

Lemma remove_char_app c s1 s2 :
  remove_char c (s1 +:+ s2) = remove_char c s1 +:+ remove_char c s2.
Proof.
  induction s1 as [|d s1 IH]; [done|]. rewrite str_app_cons. simpl.
  destruct (Ascii.eqb d c); [done|]. by rewrite str_app_cons, IH.
Qed.

Lemma remove_char_free c s : free_of c s = true → remove_char c s = s.
Proof.
  unfold free_of. induction s as [|d s IH]; simpl; [done|].
  rewrite andb_true_iff, negb_true_iff. intros [-> Hs]. by rewrite IH.
Qed.

Lemma remove_sub_free c p s : free_of c s = true → remove_sub (String c p) s = s.
Proof.
  unfold remove_sub, free_of. induction s as [|d s IH]; [done|].
  simpl. rewrite andb_true_iff, negb_true_iff. intros [Hd Hs].
  unfold startswith. simpl.
  destruct (ascii_dec c d) as [->|_]; [by rewrite Ascii.eqb_refl in Hd|].
  by rewrite IH.
Qed.

Lemma strip_by_none p s : str_all (λ c, negb (p c)) s = true → strip_by p s = s.
Proof.
  intros Hs. unfold strip_by.
  assert (lstrip_by p s = s) as ->.
  { destruct s; simpl in *; [done|]. by destruct (p a). }
  induction s as [|c s IH]; [done|]. simpl in *.
  apply andb_true_iff in Hs as [Hc Hs]. rewrite (IH Hs).
  destruct s; [|done]. by destruct (p c).
Qed.

Lemma lower_fix s p :
  (∀ c, p c = true → lower_char c = c) → str_all p s = true → lower s = s.
Proof.
  intros Hp. induction s as [|c s IH]; simpl; [done|].
  rewrite andb_true_iff. intros [Hc Hs]. by rewrite Hp, IH.
Qed.

Lemma int16_hexl s z :
  str_all hexl s = true → s ≠ EmptyString →
  hex_digits 0 true s = Some z → int16 s = Some z.
Proof.
  intros Hs Hne Hz. unfold int16.
  assert (strip s = s) as ->.
  { apply strip_by_none. eapply str_all_impl; [|done].
    by intros c (-> & _)%hexl_facts. }
  destruct s as [|c s]; [done|]. cbn [str_all] in Hs.
  apply andb_true_iff in Hs as [Hc Hs].
  assert (Hu : int16_unsigned (String c s) = Some z).
  { destruct s as [|d s].
    - by destruct c as [[] [] [] [] [] [] [] []].
    - cbn [str_all] in Hs. apply andb_true_iff in Hs as [Hd _].
      destruct (hexl_facts d Hd) as (_ & _ & _ & _ & _ & _ & Hx & HX & _).
      unfold int16_unsigned. rewrite Hx, HX.
      by destruct c as [[] [] [] [] [] [] [] []]. }
  by destruct c as [[] [] [] [] [] [] [] []].
Qed.
