(* ===== verification/PyVal.v ===== *)
(** * JSON-shaped Python values

    The [Any] values that flow through the program come out of [json.loads] or
    are built from string-keyed dictionaries: a closed type of values, with
    dictionaries as association lists in insertion order.  Floats are IEEE
    binary64 values ([spec_float]). *)

From S2P Require Import Prelude Text.
From Stdlib Require Import SpecFloat.

Definition pyfloat : Type := spec_float.

#[export] Instance pyfloat_eq_dec : EqDecision pyfloat.
Proof. unfold pyfloat. solve_decision. Defined.

Inductive pyval : Type :=
| VNone
| VBool (b : bool)
| VInt (z : Z)
| VFloat (f : pyfloat)
| VStr (s : string)
| VList (l : list pyval)
| VDict (d : list (string * pyval)).

Abbreviation dict := (list (string * pyval)) (only parsing).

(** Induction that reaches the elements of lists and dictionaries. *)
Section pyval_ind.
Context (P : pyval → Prop).
Hypothesis P_none : P VNone.
Hypothesis P_bool : ∀ b, P (VBool b).
Hypothesis P_int : ∀ z, P (VInt z).
Hypothesis P_float : ∀ f, P (VFloat f).
Hypothesis P_str : ∀ s, P (VStr s).
Hypothesis P_list : ∀ l, Forall P l → P (VList l).
Hypothesis P_dict : ∀ d, Forall (λ kv : string * pyval, P kv.2) d → P (VDict d).

Fixpoint pyval_rec' (v : pyval) : P v :=
  match v with
  | VNone => P_none
  | VBool b => P_bool b
  | VInt z => P_int z
  | VFloat f => P_float f
  | VStr s => P_str s
  | VList l => P_list l
      ((fix go (l : list pyval) : Forall P l :=
         match l with
         | [] => List.Forall_nil _
         | x :: l' => List.Forall_cons _ _ _ (pyval_rec' x) (go l')
         end) l)
  | VDict d => P_dict d
      ((fix go (d : list (string * pyval)) : Forall (λ kv, P kv.2) d :=
         match d with
         | [] => List.Forall_nil _
         | (k, x) :: d' =>
             List.Forall_cons (λ kv : string * pyval, P kv.2) (k, x) _
               (pyval_rec' x) (go d')
         end) d)
  end.
End pyval_ind.

(** ** Dictionaries *)

(** [d.get(k)] / [d[k]] *)
Fixpoint dict_get {A} (k : string) (d : list (string * A)) : option A :=
  match d with
  | [] => None
  | (k', v) :: d' => if String.eqb k k' then Some v else dict_get k d'
  end.

(** [d[k] = v]: an existing key keeps its place. *)
Fixpoint dict_set {A} (k : string) (v : A) (d : list (string * A)) : list (string * A) :=
  match d with
  | [] => [(k, v)]
  | (k', v') :: d' =>
      if String.eqb k k' then (k, v) :: d' else (k', v') :: dict_set k v d'
  end.

(** [k in d] *)
Definition dict_mem {A} (k : string) (d : list (string * A)) : bool :=
  match dict_get k d with Some _ => true | None => false end.

Definition keys {A} (d : list (string * A)) : list string := d.*1.

(** Truth value of a Python object. *)
Definition truthy_val (v : pyval) : bool :=
  match v with
  | VNone => false
  | VBool b => b
  | VInt z => negb (z =? 0)%Z
  | VFloat (S754_zero _) => false
  | VFloat _ => true
  | VStr s => truthy s
  | VList l => match l with [] => false | _ => true end
  | VDict d => match d with [] => false | _ => true end
  end.

(** [isinstance(v, str | int | float | bool) or v is None] *)
Definition is_scalar (v : pyval) : bool :=
  match v with
  | VList _ | VDict _ => false
  | _ => true
  end.

(** [type(v).__name__] *)
Definition type_name (v : pyval) : string :=
  match v with
  | VNone => "NoneType"
  | VBool _ => "bool"
  | VInt _ => "int"
  | VFloat _ => "float"
  | VStr _ => "str"
  | VList _ => "list"
  | VDict _ => "dict"
  end.

(** ** JSON text *)

Definition dquote : ascii := ascii_of_nat 34.

(** Characters that [json.dumps] escapes. *)
Definition json_escape_char (c : ascii) : string :=
  let n := code c in
  if (n =? 34)%nat then String "\" (String dquote EmptyString)
  else if (n =? 92)%nat then "\\"
  else if (n =? 10)%nat then "\n"
  else if (n =? 13)%nat then "\r"
  else if (n =? 9)%nat then "\t"
  else if (n =? 8)%nat then "\b"
  else if (n =? 12)%nat then "\f"
  else if ((n <? 32) || (126 <? n))%nat then "\u" +:+ hex_pad 4 (Z.of_nat n)
  else String c EmptyString.

Fixpoint json_escape (s : string) : string :=
  match s with
  | EmptyString => EmptyString
  | String c s' => json_escape_char c +:+ json_escape s'
  end.

Definition json_quote (s : string) : string :=
  String dquote (json_escape s +:+ String dquote EmptyString).

Section dumps.
(** [float.__repr__], with [NaN] and [Infinity] as [json.dumps] prints them. *)
Context (float_repr : pyfloat → string).
(** [separators=(item_sep, key_sep)] *)
Context (item_sep key_sep : string).

Fixpoint json_dumps (v : pyval) : string :=
  match v with
  | VNone => "null"
  | VBool true => "true"
  | VBool false => "false"
  | VInt z => str_of_int z
  | VFloat f => float_repr f
  | VStr s => json_quote s
  | VList l => "[" +:+ join item_sep (map json_dumps l) +:+ "]"
  | VDict d =>
      "{" +:+ join item_sep
        (map (λ kv, match kv with
                    | (k, x) => json_quote k +:+ key_sep +:+ json_dumps x
                    end) d) +:+ "}"
  end.
End dumps.

(** ** Facts *)

Section dict_facts.
Context {A : Type}.
Implicit Types (d : list (string * A)) (k : string) (v : A).

Lemma dict_get_set_eq k v d : dict_get k (dict_set k v d) = Some v.
Proof.
  induction d as [|[k' v'] d IH]; simpl; [by rewrite String.eqb_refl|].
  destruct (String.eqb_spec k k') as [->|Hne]; simpl.
  - by rewrite String.eqb_refl.
  - by apply String.eqb_neq in Hne as ->.
Qed.

Lemma dict_get_set_ne k k' v d :
  k ≠ k' → dict_get k' (dict_set k v d) = dict_get k' d.
Proof.
  intros Hne. assert (String.eqb k' k = false) as Hf by by apply String.eqb_neq.
  induction d as [|[j v'] d IH]; simpl; [by rewrite Hf|].
  destruct (String.eqb_spec k j) as [->|Hj]; simpl; [by rewrite Hf|].
  by destruct (String.eqb k' j).
Qed.

Lemma dict_get_elem_of k v d : dict_get k d = Some v → (k, v) ∈ d.
Proof.
  induction d as [|[k' v'] d IH]; simpl; [done|].
  destruct (String.eqb_spec k k') as [->|Hne]; [intros [= ->]|]; set_solver.
Qed.

Lemma dict_set_elem_of k v k' v' d :
  (k', v') ∈ dict_set k v d → (k' = k ∧ v' = v) ∨ (k', v') ∈ d.
Proof.
  induction d as [|[j w] d IH]; simpl.
  - intros H%list_elem_of_singleton. by simplify_eq; left.
  - destruct (String.eqb_spec k j) as [->|Hne]; set_solver.
Qed.

Lemma dict_set_fresh k v d : k ∉ keys d → dict_set k v d = d ++ [(k, v)].
Proof.
  induction d as [|[k' v'] d IH]; simpl; [done|].
  rewrite not_elem_of_cons. intros [Hne Hk].
  apply String.eqb_neq in Hne as ->. by rewrite IH.
Qed.

Lemma dict_get_None k d : dict_get k d = None ↔ k ∉ keys d.
Proof.
  induction d as [|[k' v'] d IH]; simpl; [set_solver|].
  rewrite not_elem_of_cons.
  destruct (String.eqb_spec k k') as [->|Hne]; naive_solver.
Qed.

Lemma dict_mem_true k d : dict_mem k d = true ↔ k ∈ keys d.
Proof.
  unfold dict_mem. pose proof (dict_get_None k d) as H.
  destruct (dict_get k d); destruct (decide (k ∈ keys d)); naive_solver.
Qed.
End dict_facts.
