(* ===== verification/Json.v ===== *)
(** * Reading JSON

    [json.loads] of the standard library on the values of [PyVal], a character
    being a code point below 256, and that it inverts [json.dumps].  A [\u]
    escape beyond that range does not occur in text this program writes; it is
    rejected here. *)

From S2P Require Import Prelude Text PyVal.

Local Open Scope Z_scope.

Definition json_space (c : ascii) : bool :=
  let n := code c in (n =? 32)%nat || (n =? 9)%nat || (n =? 10)%nat || (n =? 13)%nat.

Definition skip_ws (s : string) : string := lstrip_by json_space s.

Definition quad_hex (a b c d : ascii) : option Z :=
  x ← hex_val a; y ← hex_val b; z ← hex_val c; t ← hex_val d;
  Some (((x * 16 + y) * 16 + z) * 16 + t).

Definition short_escape (c : ascii) : option ascii :=
  let n := code c in
  if (n =? 34)%nat || (n =? 92)%nat || (n =? 47)%nat then Some c
  else if (n =? 98)%nat then Some (ascii_of_nat 8)
  else if (n =? 102)%nat then Some (ascii_of_nat 12)
  else if (n =? 110)%nat then Some (ascii_of_nat 10)
  else if (n =? 114)%nat then Some (ascii_of_nat 13)
  else if (n =? 116)%nat then Some (ascii_of_nat 9)
  else None.

Definition push (c : ascii) (r : option (string * string)) : option (string * string) :=
  '(x, rest) ← r; Some (String c x, rest).

(** The rest of a string literal, after its opening quote. *)
Fixpoint scan_string (s : string) : option (string * string) :=
  match s with
  | EmptyString => None
  | String c s1 =>
      if Ascii.eqb c dquote then Some (EmptyString, s1)
      else if (code c =? 92)%nat then
        match s1 with
        | String "u" (String a (String b (String d (String e s2)))) =>
            n ← quad_hex a b d e;
            if n <? 256 then push (ascii_of_nat (Z.to_nat n)) (scan_string s2) else None
        | String e s2 => c' ← short_escape e; push c' (scan_string s2)
        | EmptyString => None
        end
      else if (code c <? 32)%nat then None
      else push c (scan_string s1)
  end.

Definition is_digit (c : ascii) : bool := (48 <=? code c)%nat && (code c <=? 57)%nat.

Definition digit_value (c : ascii) : Z := Z.of_nat (code c) - 48.

(** The longest run of digits, with what follows. *)
Fixpoint digits (s : string) : string * string :=
  match s with
  | String c s' =>
      if is_digit c then let '(d, r) := digits s' in (String c d, r) else (EmptyString, s)
  | EmptyString => (EmptyString, EmptyString)
  end.

Fixpoint value_of_digits (acc : Z) (s : string) : Z :=
  match s with
  | EmptyString => acc
  | String c s' => value_of_digits (10 * acc + digit_value c) s'
  end.

(** [(\.\d+)?] and [([eE][-+]?\d+)?]: the text matched, and the rest. *)
Definition fraction (s : string) : string * string :=
  match s with
  | String "." s' =>
      match digits s' with
      | (EmptyString, _) => (EmptyString, s)
      | (d, r) => (String "." d, r)
      end
  | _ => (EmptyString, s)
  end.

Definition exponent (s : string) : string * string :=
  match s with
  | String c s' =>
      if Ascii.eqb c "e" || Ascii.eqb c "E" then
        let '(sign, s'') :=
          match s' with
          | String x r => if Ascii.eqb x "-" || Ascii.eqb x "+"
                          then (String x EmptyString, r) else (EmptyString, s')
          | EmptyString => (EmptyString, s')
          end in
        match digits s'' with
        | (EmptyString, _) => (EmptyString, s)
        | (d, r) => (String c (sign +:+ d), r)
        end
      else (EmptyString, s)
  | EmptyString => (EmptyString, s)
  end.

(** The integer part: a zero, or digits that do not start with one. *)
Definition integer (s : string) : option (string * string) :=
  match s with
  | String "0" r => Some ("0"%string, r)
  | _ => match digits s with (EmptyString, _) => None | (d, r) => Some (d, r) end
  end.

Section loads.
(** [float] of a number's text *)
Context (float_of_text : string → pyfloat).

Definition scan_number (s : string) : option (pyval * string) :=
  let '(minus, s1) := match s with String "-" r => (true, r) | _ => (false, s) end in
  '(i, s2) ← integer s1;
  let '(f, s3) := fraction s2 in
  let '(e, s4) := exponent s3 in
  let sign := if minus then "-"%string else EmptyString in
  if truthy f || truthy e then Some (VFloat (float_of_text (sign +:+ i +:+ f +:+ e)), s4)
  else let n := value_of_digits 0 i in Some (VInt (if minus then - n else n), s4).

(** [NaN], [Infinity] and [-Infinity] are words of the language too. *)
Definition words : list (string * pyval) :=
  [("null", VNone); ("true", VBool true); ("false", VBool false);
   ("NaN", VFloat (SpecFloat.S754_nan));
   ("Infinity", VFloat (SpecFloat.S754_infinity false));
   ("-Infinity", VFloat (SpecFloat.S754_infinity true))]%string.

Fixpoint str_drop (n : nat) (s : string) : string :=
  match n, s with
  | S n', String _ s' => str_drop n' s'
  | _, _ => s
  end.

Fixpoint scan_word (l : list (string * pyval)) (s : string) : option (pyval * string) :=
  match l with
  | [] => None
  | (w, v) :: l' =>
      if startswith w s then Some (v, str_drop (String.length w) s) else scan_word l' s
  end.

(** A value, the elements of an array after its bracket or a comma, and the
    members of an object after its brace or a comma. *)
Fixpoint scan_value (fuel : nat) (s : string) : option (pyval * string) :=
  match fuel with
  | O => None
  | S fuel =>
      match s with
      | EmptyString => None
      | String c s1 =>
          if Ascii.eqb c dquote then '(x, r) ← scan_string s1; Some (VStr x, r)
          else if Ascii.eqb c "[" then
            match skip_ws s1 with
            | String "]" r => Some (VList [], r)
            | s2 => '(l, r) ← scan_items fuel s2; Some (VList l, r)
            end
          else if Ascii.eqb c "{" then
            match skip_ws s1 with
            | String "}" r => Some (VDict [], r)
            | s2 => '(l, r) ← scan_members fuel [] s2; Some (VDict l, r)
            end
          else match scan_word words s with
               | Some r => Some r
               | None => scan_number s
               end
      end
  end
with scan_items (fuel : nat) (s : string) : option (list pyval * string) :=
  match fuel with
  | O => None
  | S fuel =>
      '(v, r) ← scan_value fuel s;
      match skip_ws r with
      | String "]" r' => Some ([v], r')
      | String "," r' => '(l, r'') ← scan_items fuel (skip_ws r'); Some (v :: l, r'')
      | _ => None
      end
  end
with scan_members (fuel : nat) (d : list (string * pyval)) (s : string)
    : option (list (string * pyval) * string) :=
  match fuel, s with
  | S fuel, String c s1 =>
      if Ascii.eqb c dquote then
        '(k, r) ← scan_string s1;
        match skip_ws r with
        | String ":" r1 =>
            '(v, r2) ← scan_value fuel (skip_ws r1);
            let d' := dict_set k v d in
            match skip_ws r2 with
            | String "}" r3 => Some (d', r3)
            | String "," r3 => scan_members fuel d' (skip_ws r3)
            | _ => None
            end
        | _ => None
        end
      else None
  | _, _ => None
  end.

(** Every two nested calls consume a character, so the fuel suffices. *)
Definition json_loads (s : string) : result pyval :=
  match scan_value (2 * String.length s + 2) (skip_ws s) with
  | Some (v, r) => if truthy (skip_ws r) then Raise JSONDecodeError else Ok v
  | None => Raise JSONDecodeError
  end.
End loads.

(** ** Facts *)

Lemma skip_ws_app w s : str_all json_space w = true → skip_ws (w +:+ s) = skip_ws s.
Proof.
  unfold skip_ws. induction w as [|c w IH]; [done|]. cbn [str_all].
  intros [Hc Hw]%andb_true_iff. rewrite str_app_cons. cbn [lstrip_by]. by rewrite Hc, IH.
Qed.

(** The first character of a value decides how it is read. *)
Definition starts (p : ascii → bool) (s : string) : bool :=
  match s with String c _ => p c | EmptyString => false end.

Lemma skip_ws_starts p s :
  starts p s = true → (∀ c, p c = true → json_space c = false) → skip_ws s = s.
Proof. destruct s as [|c s]; [done|]. intros Hc Hp. unfold skip_ws. simpl. by rewrite Hp. Qed.

Lemma starts_app p s t : starts p s = true → starts p (s +:+ t) = true.
Proof. by destruct s. Qed.

(** *** Strings *)

Lemma scan_escape_char c s : scan_string (json_escape_char c +:+ s) = push c (scan_string s).
Proof. by destruct c as [[] [] [] [] [] [] [] []]. Qed.

Lemma scan_string_quote x s :
  scan_string (json_escape x +:+ String dquote EmptyString +:+ s) = Some (x, s).
Proof.
  induction x as [|c x IH]; [done|]. cbn [json_escape].
  by rewrite str_app_assoc, scan_escape_char, IH.
Qed.

(** *** Integers *)

Lemma value_of_digits_app acc s t :
  value_of_digits acc (s +:+ t) = value_of_digits (value_of_digits acc s) t.
Proof. revert acc. induction s as [|c s IH]; intros acc; [done|]. apply IH. Qed.

Lemma digits_app d s :
  str_all is_digit d = true → starts is_digit s = false → digits (d +:+ s) = (d, s).
Proof.
  intros Hd Hs. induction d as [|c d IH].
  - destruct s as [|c s]; [done|]. simpl in *. by rewrite Hs.
  - simpl in Hd. apply andb_true_iff in Hd as [Hc Hd].
    rewrite str_app_cons. cbn [digits]. by rewrite Hc, (IH Hd).
Qed.

Lemma pretty_N_char_digit n : (n < 10)%N →
  is_digit (pretty_N_char n) = true ∧ digit_value (pretty_N_char n) = Z.of_N n ∧
  (n ≠ 0%N → pretty_N_char n ≠ "0"%char).
Proof.
  intros Hn. assert (n = 0 ∨ n = 1 ∨ n = 2 ∨ n = 3 ∨ n = 4 ∨ n = 5 ∨ n = 6 ∨ n = 7 ∨ n = 8 ∨ n = 9)%N
    as Hc by lia.
  repeat (destruct Hc as [->|Hc]; [by vm_compute|]). by subst.
Qed.

(** The decimal digits of a positive number: no leading zero, and its value. *)
Lemma pretty_N_go_digits x acc : (0 < x)%N →
  ∃ c d, pretty_N_go x acc = String c d +:+ acc ∧ c ≠ "0"%char ∧
    str_all is_digit (String c d) = true ∧ value_of_digits 0 (String c d) = Z.of_N x.
Proof.
  revert acc. induction (N.lt_wf_0 x) as [x _ IH]. intros acc Hx.
  rewrite pretty_N_go_step by done.
  destruct (pretty_N_char_digit (x `mod` 10)) as (Hd & Hv & Hz);
    [by apply N.mod_lt|].
  pose proof (N.div_mod x 10 ltac:(done)) as Hdm.
  destruct (decide (x `div` 10 = 0)%N) as [E|E].
  - rewrite E, pretty_N_go_0. eexists _, EmptyString. split; [reflexivity|].
    rewrite E in Hdm. split_and!.
    + apply Hz. lia.
    + cbn [str_all]. by rewrite Hd.
    + cbn [value_of_digits]. rewrite Hv. lia.
  - destruct (IH (x `div` 10)%N) with (acc := String (pretty_N_char (x `mod` 10)) acc)
      as (c & d & -> & Hc & Ha & Hval); [by apply N.div_lt|by apply N.neq_0_lt_0|].
    exists c, (d +:+ String (pretty_N_char (x `mod` 10)) EmptyString). split_and!.
    + by rewrite !str_app_cons, str_app_assoc, str_app_cons.
    + done.
    + rewrite <- str_app_cons, str_all_app, Ha. cbn [str_all]. by rewrite Hd.
    + rewrite <- str_app_cons, value_of_digits_app, Hval. cbn [value_of_digits].
      rewrite Hv. lia.
Qed.

(** What may not follow a number that is to be read back. *)
Definition number_char (c : ascii) : bool :=
  is_digit c || Ascii.eqb c "." || Ascii.eqb c "e" || Ascii.eqb c "E".

Lemma number_ends s : starts number_char s = false →
  starts is_digit s = false ∧ fraction s = (EmptyString, s) ∧ exponent s = (EmptyString, s).
Proof.
  destruct s as [|c s]; [done|]. unfold number_char, starts, fraction, exponent. intros H.
  apply orb_false_iff in H as [[[H1 H2]%orb_false_iff H3]%orb_false_iff H4].
  rewrite H1, H3, H4. split_and!; [done| |done].
  apply Ascii.eqb_neq in H2. by destruct c as [[] [] [] [] [] [] [] []].
Qed.

Lemma integer_pretty n s : starts number_char s = false →
  ∃ d, integer (pretty n +:+ s) = Some (d, s) ∧ value_of_digits 0 d = Z.of_N n.
Proof.
  intros Hs. destruct (number_ends s Hs) as [Hd _].
  destruct (decide (n = 0)%N) as [->|Hn]; [by exists "0"%string|].
  assert (pretty n = pretty_N_go n "") as -> by (unfold pretty, pretty_N; by rewrite decide_False).
  destruct (pretty_N_go_digits n "") as (c & d & -> & Hc & Ha & Hv); [lia|].
  rewrite str_app_nil_r. exists (String c d). split; [|done].
  assert (E : digits (String c d +:+ s) = (String c d, s)) by (by apply digits_app).
  rewrite str_app_cons in E |- *. unfold integer. rewrite E.
  destruct c as [[] [] [] [] [] [] [] []]; by try done.
Qed.

Lemma pretty_N_starts (n : N) : starts is_digit (pretty n) = true.
Proof.
  destruct (decide (n = 0)%N) as [->|Hn]; [done|].
  unfold pretty, pretty_N. rewrite decide_False by done.
  destruct (pretty_N_go_digits n "") as (c & d & -> & _ & Ha & _); [lia|].
  rewrite str_app_cons. cbn [str_all starts] in *. by apply andb_true_iff in Ha as [-> _].
Qed.

(** *** Values *)

Section loads_facts.
Context (float_repr : pyfloat → string) (float_of_text : string → pyfloat).
(** The separators of [json.dumps]: a comma and a colon, then spaces. *)
Context (w1 w2 : string).
Hypothesis w1_space : str_all json_space w1 = true.
Hypothesis w2_space : str_all json_space w2 = true.

Abbreviation dumps := (json_dumps float_repr ("," +:+ w1) (":" +:+ w2)).
Abbreviation scan := (scan_value float_of_text).

Definition value_char (c : ascii) : bool :=
  negb (json_space c) && negb (Ascii.eqb c "]") && negb (Ascii.eqb c "}").

(** The text of the float scans as that float, whatever follows it. *)
Definition float_scans (x : pyfloat) : Prop :=
  starts value_char (float_repr x) = true ∧
  ∀ f s, starts number_char s = false → scan (S f) (float_repr x +:+ s) = Some (VFloat x, s).

(** A value whose floats scan back and whose dictionaries have distinct keys. *)
Fixpoint readable (v : pyval) : Prop :=
  match v with
  | VFloat x => float_scans x
  | VList l => (fix go l := match l with [] => True | x :: l' => readable x ∧ go l' end) l
  | VDict d =>
      NoDup (keys d) ∧
      (fix go d := match d : list (string * pyval) with
                   | [] => True | (_, x) :: d' => readable x ∧ go d' end) d
  | _ => True
  end.

Lemma readable_list l : readable (VList l) ↔ Forall readable l.
Proof.
  induction l as [|x l IH]; simpl; [by split|]. rewrite Forall_cons. simpl in IH. by rewrite IH.
Qed.

Lemma readable_dict d :
  readable (VDict d) ↔ NoDup (keys d) ∧ Forall (λ kv, readable kv.2) d.
Proof.
  simpl. generalize (NoDup (keys d)). intros P. apply and_iff_compat_l.
  induction d as [|[k x] d IH]; simpl; [by split|]. rewrite Forall_cons. by rewrite IH.
Qed.

Lemma scan_number_N n s : starts number_char s = false →
  ∃ d, integer (pretty n +:+ s) = Some (d, s) ∧ value_of_digits 0 d = Z.of_N n ∧
    fraction s = (EmptyString, s) ∧ exponent s = (EmptyString, s).
Proof.
  intros Hs. destruct (integer_pretty n s Hs) as (d & H1 & H2).
  destruct (number_ends s Hs) as (_ & H3 & H4). eauto.
Qed.

Lemma scan_nonneg n s f : starts number_char s = false →
  scan (S f) (pretty n +:+ s) = Some (VInt (Z.of_N n), s).
Proof.
  intros Hs. destruct (scan_number_N n s Hs) as (d & Hi & Hv & Hf & He).
  pose proof (starts_app _ _ s (pretty_N_starts n)) as Hd.
  destruct (pretty n +:+ s) as [|c r]; [done|]. cbn [starts] in Hd.
  assert (Hn : scan_number float_of_text (String c r) = Some (VInt (Z.of_N n), s)).
  { unfold scan_number. destruct c as [[] [] [] [] [] [] [] []]; try discriminate Hd;
      rewrite Hi; cbn; rewrite Hf, He; cbn; by rewrite Hv. }
  cbn [scan_value]. rewrite Hn. by destruct c as [[] [] [] [] [] [] [] []].
Qed.

Lemma scan_negative n s f : starts number_char s = false →
  scan (S f) (String "-" (pretty n +:+ s)) = Some (VInt (- Z.of_N n), s).
Proof.
  intros Hs. destruct (scan_number_N n s Hs) as (d & Hi & Hv & Hf & He).
  pose proof (starts_app _ _ s (pretty_N_starts n)) as Hd.
  assert (Hn : scan_number float_of_text (String "-" (pretty n +:+ s))
               = Some (VInt (- Z.of_N n), s)).
  { unfold scan_number. rewrite Hi. cbn. rewrite Hf, He. cbn. by rewrite Hv. }
  cbn [scan_value]. rewrite Hn. destruct (pretty n +:+ s) as [|c r]; [done|].
  cbn [starts] in Hd. by destruct c as [[] [] [] [] [] [] [] []].
Qed.

Lemma scan_int z s f : starts number_char s = false →
  scan (S f) (str_of_int z +:+ s) = Some (VInt z, s).
Proof.
  intros Hs. destruct z as [|p|p]; unfold str_of_int, pretty, pretty_Z.
  - apply (scan_nonneg 0). done.
  - apply (scan_nonneg (N.pos p)). done.
  - apply (scan_negative (N.pos p)). done.
Qed.

Lemma foldl_join sep a b ws :
  foldl (λ acc x : string, acc +:+ sep +:+ x) (a +:+ b) ws
  = a +:+ foldl (λ acc x, acc +:+ sep +:+ x) b ws.
Proof.
  revert b. induction ws as [|y ws IH]; intros b; [done|]. cbn [foldl].
  by rewrite str_app_assoc, IH.
Qed.

Lemma join_cons sep w x ws : join sep (w :: x :: ws) = w +:+ sep +:+ join sep (x :: ws).
Proof. unfold join. cbn [foldl]. by rewrite !foldl_join. Qed.

Lemma value_char_space c : value_char c = true → json_space c = false.
Proof. by intros [[?%negb_true_iff _]%andb_true_iff _]%andb_true_iff. Qed.

Lemma dumps_starts v : readable v → starts value_char (dumps v) = true.
Proof.
  destruct v as [|[]|[|p|p]|f|s|l|d]; try done; [|by intros []].
  intros _. cbn [json_dumps]. unfold str_of_int, pretty, pretty_Z.
  pose proof (pretty_N_starts (N.pos p)) as H. unfold pretty, pretty_N in *.
  change (pretty_positive p) with (pretty_N (N.pos p)). unfold pretty_N.
  destruct (if decide _ then _ else _) as [|c r]; [done|]. cbn [starts] in *.
  by destruct c as [[] [] [] [] [] [] [] []].
Qed.

(** What the scanner must do with a value, whatever follows it. *)
Definition scans (v : pyval) : Prop := ∀ f s,
  (2 * String.length (dumps v) ≤ f)%nat → starts number_char s = false →
  scan f (dumps v +:+ s) = Some (v, s).

Lemma skip_dumps v s : readable v → skip_ws (dumps v +:+ s) = dumps v +:+ s.
Proof.
  intros Hv. eapply skip_ws_starts; [|apply value_char_space].
  by apply starts_app, dumps_starts.
Qed.

Lemma scan_items_dumps l f s :
  l ≠ [] → Forall (λ v, readable v ∧ scans v) l →
  (2 * String.length (join ("," +:+ w1) (map dumps l)) < f)%nat →
  scan_items float_of_text f (join ("," +:+ w1) (map dumps l) +:+ String "]" s)
  = Some (l, s).
Proof.
  revert f. induction l as [|x [|y l] IH]; intros f Hl Hs Hf; [done| |].
  - apply Forall_cons in Hs as [[Hr Hx] _]. destruct f as [|f]; [lia|].
    cbn [map join foldl scan_items] in *. rewrite Hx by (done || lia). done.
  - apply Forall_cons in Hs as [[Hr Hx] Hs]. destruct f as [|f]; [lia|].
    cbn [map] in *. rewrite join_cons in *. rewrite !str_app_length in Hf. cbn [String.length] in Hf.
    cbn [scan_items]. rewrite !str_app_assoc, Hx by (done || lia). cbn [mbind option_bind].
    rewrite str_app_cons.
    change (skip_ws (String "," ?t)) with (String "," t). cbn iota beta.
    rewrite 2!skip_ws_app by done. apply Forall_cons in Hs as Hy. destruct Hy as [[Hry _] _].
    assert (skip_ws (join ("," +:+ w1) (dumps y :: map dumps l) +:+ String "]" s)
            = join ("," +:+ w1) (dumps y :: map dumps l) +:+ String "]" s) as ->.
    { destruct l as [|z l]; [by apply skip_dumps|].
      cbn [map]. rewrite join_cons, !str_app_assoc. by apply skip_dumps. }
    rewrite IH; [done|done|done|lia].
Qed.

Definition dump_member (kv : string * pyval) : string :=
  match kv with (k, x) => json_quote k +:+ (":" +:+ w2) +:+ dumps x end.

Lemma scan_member f d kv s : scans kv.2 → readable kv.2 →
  (2 * String.length (dump_member kv) < f)%nat → starts number_char s = false →
  scan_members float_of_text f d (dump_member kv +:+ s)
  = match skip_ws s with
    | String "}" r3 => Some (dict_set kv.1 kv.2 d, r3)
    | String "," r3 => scan_members float_of_text (pred f) (dict_set kv.1 kv.2 d) (skip_ws r3)
    | _ => None
    end.
Proof.
  destruct kv as [k x]. cbn [fst snd dump_member]. intros Hx Hr Hf Hs.
  destruct f as [|f]; [lia|]. rewrite !str_app_length in Hf. cbn [String.length] in Hf.
  unfold json_quote. rewrite !str_app_assoc, str_app_cons. cbn [scan_members].
  rewrite Ascii.eqb_refl, !str_app_assoc, scan_string_quote. cbn [mbind option_bind].
  rewrite str_app_cons. change (skip_ws (String ":" ?t)) with (String ":" t). cbn iota beta.
  rewrite 2!skip_ws_app, skip_dumps by done. rewrite Hx by (done || lia).
  cbn [mbind option_bind pred]. done.
Qed.

Lemma scan_members_dumps d0 d f s :
  d ≠ [] → Forall (λ kv, readable kv.2 ∧ scans kv.2) d → NoDup (keys (d0 ++ d)) →
  (2 * String.length (join ("," +:+ w1) (map dump_member d)) < f)%nat →
  scan_members float_of_text f d0 (join ("," +:+ w1) (map dump_member d) +:+ String "}" s)
  = Some (d0 ++ d, s).
Proof.
  revert d0 f. induction d as [|kv [|kv' d] IH]; intros d0 f Hd Hs Hn Hf; [done| |].
  - apply Forall_cons in Hs as [[Hr Hx] _]. cbn [map join foldl] in *.
    rewrite scan_member by done. change (skip_ws (String "}" s)) with (String "}" s).
    cbn iota beta. rewrite dict_set_fresh; [by destruct kv|].
    unfold keys in *. rewrite fmap_app, NoDup_app in Hn. destruct Hn as (_ & Hn & _).
    intros Hk. apply (Hn _ Hk). by left.
  - apply Forall_cons in Hs as [[Hr Hx] Hs].
    cbn [map] in *. rewrite join_cons in *. rewrite !str_app_length in Hf.
    cbn [String.length] in Hf. rewrite !str_app_assoc, scan_member by (done || lia).
    change (skip_ws (("," +:+ ?t) +:+ ?u)) with (String "," (t +:+ u)).
    rewrite str_app_cons. change (skip_ws (String "," ?t)) with (String "," t).
    cbn iota beta. rewrite 2!skip_ws_app by done.
    assert (skip_ws (join ("," +:+ w1) (dump_member kv' :: map dump_member d) +:+ String "}" s)
            = join ("," +:+ w1) (dump_member kv' :: map dump_member d) +:+ String "}" s) as ->.
    { destruct kv' as [k' x'], d as [|z d]; [done|]. cbn [map]. by rewrite join_cons. }
    rewrite dict_set_fresh.
    + rewrite IH; [by destruct kv; rewrite <- app_assoc|done|done| |lia].
      destruct kv. by rewrite <- app_assoc.
    + unfold keys in *. rewrite fmap_app, NoDup_app in Hn. destruct Hn as (_ & Hn & _).
      intros Hk. apply (Hn _ Hk). by left.
Qed.

Lemma scan_list f s : starts value_char (skip_ws s) = true →
  scan (S f) (String "[" s)
  = '(l, r) ← scan_items float_of_text f (skip_ws s); Some (VList l, r).
Proof.
  cbn [scan_value]. simpl Ascii.eqb. cbn iota.
  destruct (skip_ws s) as [|[[] [] [] [] [] [] [] []] r]; by try done.
Qed.

Lemma scan_dict f s : starts value_char (skip_ws s) = true →
  scan (S f) (String "{" s)
  = '(l, r) ← scan_members float_of_text f [] (skip_ws s); Some (VDict l, r).
Proof.
  cbn [scan_value]. simpl Ascii.eqb. cbn iota.
  destruct (skip_ws s) as [|[[] [] [] [] [] [] [] []] r]; by try done.
Qed.

Lemma join_starts p sep x l s :
  starts p x = true → starts p (join sep (x :: l) +:+ s) = true.
Proof.
  intros Hx. destruct l as [|y l]; [by apply starts_app|].
  rewrite join_cons, str_app_assoc. by apply starts_app.
Qed.

(** A text that begins a value is read from there. *)
Lemma skip_join x l s : starts value_char x = true →
  skip_ws (EmptyString +:+ join ("," +:+ w1) (x :: l) +:+ s) = join ("," +:+ w1) (x :: l) +:+ s.
Proof.
  intros Hx. eapply skip_ws_starts; [by apply join_starts|apply value_char_space].
Qed.

Lemma dumps_scans v : readable v → scans v.
Proof.
  induction v as [|b|z|x|x|l IH|d IH] using pyval_rec'; intros Hv f s Hf Hs;
    (destruct f as [|f]; [exfalso; revert Hf; pose proof (dumps_starts _ Hv) as Hd;
       destruct (dumps _); [done|cbn; lia]|]).
  - by destruct s.
  - by destruct b, s.
  - by apply scan_int.
  - by apply Hv.
  - cbn [json_dumps]. unfold json_quote. rewrite str_app_cons, str_app_assoc.
    cbn [scan_value]. by rewrite Ascii.eqb_refl, scan_string_quote.
  - apply readable_list in Hv. cbn [json_dumps] in *.
    rewrite !str_app_length in Hf. cbn [String.length] in Hf.
    destruct l as [|x l]; [done|].
    assert (Hall : Forall (λ v, readable v ∧ scans v) (x :: l)).
    { rewrite !Forall_forall in *. eauto. }
    pose proof (scan_items_dumps (x :: l) f s ltac:(done) Hall ltac:(lia)) as E.
    apply Forall_cons in Hv as [Hx%dumps_starts _].
    rewrite !str_app_assoc, str_app_cons. change ("]" +:+ s) with (String "]" s).
    cbn [map] in *. rewrite scan_list; rewrite skip_join by done; [by rewrite E|by apply join_starts].
  - apply readable_dict in Hv as [Hn Hv]. destruct d as [|kv d]; [done|].
    change (dumps (VDict (kv :: d)))
      with ("{" +:+ join ("," +:+ w1) (map dump_member (kv :: d)) +:+ "}") in *.
    rewrite !str_app_length in Hf. cbn [String.length] in Hf.
    assert (Hall : Forall (λ kv, readable kv.2 ∧ scans kv.2) (kv :: d)).
    { rewrite !Forall_forall in *. eauto. }
    pose proof (scan_members_dumps [] (kv :: d) f s ltac:(done) Hall Hn ltac:(lia)) as E.
    rewrite !str_app_assoc, str_app_cons. destruct kv as [k x].
    change ("}" +:+ s) with (String "}" s). cbn [map] in *. rewrite scan_dict; rewrite skip_join by done;
      [by rewrite E|by apply join_starts].
Qed.

(** What [json.dumps] writes, [json.loads] reads back. *)
Lemma json_loads_dumps v : readable v → json_loads float_of_text (dumps v) = Ok v.
Proof.
  intros Hv. unfold json_loads. rewrite <- (str_app_nil_r (dumps v)) at 2.
  rewrite skip_dumps, dumps_scans by (done || lia). done.
Qed.
End loads_facts.
