(* ===== verification/Base64.v ===== *)
(** * Base64

    [base64.urlsafe_b64encode] and [base64.urlsafe_b64decode] of the standard
    library.  The decoder is not strict: characters outside both alphabets are
    skipped, and text after a complete padding is ignored. *)

From S2P Require Import Prelude Text.

Local Open Scope Z_scope.

Definition byte (c : ascii) : Z := Z.of_nat (code c).
Definition chr (z : Z) : ascii := ascii_of_nat (Z.to_nat z).

(** The URL-safe alphabet. *)
Definition b64_char (n : Z) : ascii :=
  if n <? 26 then chr (65 + n)
  else if n <? 52 then chr (71 + n)
  else if n <? 62 then chr (n - 4)
  else if n =? 62 then "-"%char
  else "_"%char.

(** [-] and [_] are translated to [+] and [/] before they are decoded. *)
Definition b64_val (c : ascii) : option Z :=
  let n := byte c in
  if (65 <=? n) && (n <=? 90) then Some (n - 65)
  else if (97 <=? n) && (n <=? 122) then Some (n - 71)
  else if (48 <=? n) && (n <=? 57) then Some (n + 4)
  else if (n =? 45) || (n =? 43) then Some 62
  else if (n =? 95) || (n =? 47) then Some 63
  else None.

Fixpoint b64encode (s : string) : string :=
  match s with
  | EmptyString => EmptyString
  | String a EmptyString =>
      String (b64_char (byte a / 4)) (String (b64_char (byte a mod 4 * 16)) "==")
  | String a (String b EmptyString) =>
      String (b64_char (byte a / 4))
        (String (b64_char (byte a mod 4 * 16 + byte b / 16))
          (String (b64_char (byte b mod 16 * 4)) "="))
  | String a (String b (String c s')) =>
      String (b64_char (byte a / 4))
        (String (b64_char (byte a mod 4 * 16 + byte b / 16))
          (String (b64_char (byte b mod 16 * 4 + byte c / 64))
            (String (b64_char (byte c mod 64)) (b64encode s'))))
  end.

(** [binascii.a2b_base64]: [quad] characters of the current group are read,
    [left] holds the bits not yet written, [pads] counts the padding seen. *)
Fixpoint b64_go (quad left pads : Z) (s : string) : option string :=
  match s with
  | EmptyString => if quad =? 0 then Some EmptyString else None
  | String c s' =>
      if Ascii.eqb c "=" then
        if 2 <=? quad then
          if 4 <=? quad + (pads + 1) then Some EmptyString
          else b64_go quad left (pads + 1) s'
        else b64_go quad left pads s'
      else
        match b64_val c with
        | None => b64_go quad left pads s'
        | Some v =>
            if quad =? 0 then b64_go 1 v 0 s'
            else if quad =? 1 then String (chr (left * 4 + v / 16)) <$> b64_go 2 (v mod 16) 0 s'
            else if quad =? 2 then String (chr (left * 16 + v / 4)) <$> b64_go 3 (v mod 4) 0 s'
            else String (chr (left * 64 + v)) <$> b64_go 0 0 0 s'
        end
  end.

(** [None] is [binascii.Error]. *)
Definition b64decode (s : string) : option string := b64_go 0 0 0 s.

(** ** Facts *)

#[local] Ltac Zify.zify_post_hook ::= Z.to_euclidean_division_equations.

Lemma byte_bound c : 0 <= byte c < 256.
Proof. unfold byte, code. pose proof (nat_ascii_bounded c). lia. Qed.

Lemma chr_byte c : chr (byte c) = c.
Proof. unfold chr, byte, code. rewrite Nat2Z.id. apply ascii_nat_embedding. Qed.

Lemma chr_eq z c : z = byte c → chr z = c.
Proof. intros ->. apply chr_byte. Qed.

Lemma b64_val_char n : 0 <= n < 64 →
  Ascii.eqb (b64_char n) "=" = false ∧ b64_val (b64_char n) = Some n.
Proof.
  intros Hn.
  assert (Hall : forallb (λ k, let n := Z.of_nat k in
    negb (Ascii.eqb (b64_char n) "=") && bool_decide (b64_val (b64_char n) = Some n))
    (seq 0 64) = true) by by vm_compute.
  rewrite forallb_forall in Hall. specialize (Hall (Z.to_nat n)).
  rewrite in_seq, Z2Nat.id in Hall by lia.
  apply andb_true_iff in Hall as [H1%negb_true_iff H2%bool_decide_eq_true]; [done|lia].
Qed.

Lemma b64_step quad left pads n s : 0 <= n < 64 →
  b64_go quad left pads (String (b64_char n) s)
  = (if quad =? 0 then b64_go 1 n 0 s
     else if quad =? 1 then String (chr (left * 4 + n / 16)) <$> b64_go 2 (n mod 16) 0 s
     else if quad =? 2 then String (chr (left * 16 + n / 4)) <$> b64_go 3 (n mod 4) 0 s
     else String (chr (left * 64 + n)) <$> b64_go 0 0 0 s).
Proof. intros Hn. cbn [b64_go]. by destruct (b64_val_char n Hn) as [-> ->]. Qed.

(** Decoding undoes encoding. *)
Theorem b64_roundtrip s : b64decode (b64encode s) = Some s.
Proof.
  unfold b64decode. remember (String.length s) as n eqn:Hn.
  revert s Hn. induction (lt_wf n) as [n _ IH]. intros s ->.
  destruct s as [|a [|b [|c s]]]; [done|..]; cbn [b64encode];
    pose proof (byte_bound a);
    try pose proof (byte_bound b); try pose proof (byte_bound c).
  - rewrite !b64_step by lia.
    transitivity (Some (String (chr (byte a / 4 * 4 + byte a mod 4 * 16 / 16)) EmptyString));
      [done|]. repeat f_equal. apply chr_eq. lia.
  - rewrite !b64_step by lia.
    transitivity (Some (String (chr (byte a / 4 * 4 + (byte a mod 4 * 16 + byte b / 16) / 16))
      (String (chr ((byte a mod 4 * 16 + byte b / 16) mod 16 * 16 + byte b mod 16 * 4 / 4))
         EmptyString))); [done|].
    do 2 f_equal; [|f_equal]; apply chr_eq; lia.
  - rewrite !b64_step by lia. cbn [Z.eqb]. rewrite (IH (String.length s)) by (simpl; lia).
    cbn. do 2 f_equal; [|f_equal; [|f_equal]]; apply chr_eq; lia.
Qed.
