(* ===== verification/Decimal.v ===== *)
(** * Python [decimal] arithmetic

    Finite [Decimal] values under the default context: 28 significant digits,
    ROUND_HALF_EVEN.  A value is [coef * 10^expo]; the sign of zero, NaN and
    infinities are not represented, and the exponent is not bounded. *)

From S2P Require Import Prelude.

Local Open Scope Z_scope.

Record decimal : Type := mkdec { coef : Z; expo : Z }.

#[export] Instance decimal_eq_dec : EqDecision decimal.
Proof. solve_decision. Defined.

Definition context_prec : Z := 28.

(** Number of decimal digits of [|z|], at least one: [len(self._int)]. *)
Fixpoint ndigits_go (fuel : nat) (z : Z) : Z :=
  match fuel with
  | O => 1
  | S n => if z <? 10 then 1 else 1 + ndigits_go n (z / 10)
  end.
Definition ndigits (z : Z) : Z :=
  ndigits_go (Z.to_nat (Z.log2 (Z.abs z)) + 1) (Z.abs z).

(** [n / d] to the nearest integer, ties to even. *)
Definition round_half_even (n d : Z) : Z :=
  let q := n / d in
  let r := n mod d in
  if 2 * r <? d then q
  else if d <? 2 * r then q + 1
  else if Z.even q then q else q + 1.

(** Rounding to the context's precision. *)
Definition _fix (x : decimal) : decimal :=
  let k := ndigits (coef x) - context_prec in
  if k <=? 0 then x
  else
    let c := round_half_even (coef x) (10 ^ k) in
    if context_prec <? ndigits c then mkdec (c / 10) (expo x + k + 1)
    else mkdec c (expo x + k).

Definition of_int (z : Z) : decimal := mkdec z 0.

(** [x * y] *)
Definition mul (x y : decimal) : decimal :=
  _fix (mkdec (coef x * coef y) (expo x + expo y)).

(** [x + y] *)
Definition add (x y : decimal) : decimal :=
  let e := Z.min (expo x) (expo y) in
  _fix (mkdec (coef x * 10 ^ (expo x - e) + coef y * 10 ^ (expo y - e)) e).

(** Trailing zeros are dropped while the exponent is below [ideal]. *)
Fixpoint strip_zeros (fuel : nat) (c e ideal : Z) : decimal :=
  match fuel with
  | O => mkdec c e
  | S n => if (e <? ideal) && (c mod 10 =? 0)
           then strip_zeros n (c / 10) (e + 1) ideal
           else mkdec c e
  end.

(** [x / y] for a positive [y]. *)
Definition div (x y : decimal) : decimal :=
  let ideal := expo x - expo y in
  if coef x =? 0 then mkdec 0 ideal
  else
    let shift := ndigits (coef y) - ndigits (coef x) + context_prec + 1 in
    let e := ideal - shift in
    let n := if 0 <=? shift then Z.abs (coef x) * 10 ^ shift else Z.abs (coef x) in
    let d := if 0 <=? shift then coef y else coef y * 10 ^ (- shift) in
    let q := n / d in
    let s := Z.sgn (coef x) in
    if n mod d =? 0
    then let r := strip_zeros (Z.to_nat (ideal - e)) q e ideal in
         _fix (mkdec (s * coef r) (expo r))
    else _fix (mkdec (s * (if q mod 5 =? 0 then q + 1 else q)) e).

(** [x.quantize(Decimal(10) ** target)]; a result of more than 28 digits is an
    InvalidOperation. *)
Definition quantize (x : decimal) (target : Z) : result decimal :=
  let c := if target <=? expo x then coef x * 10 ^ (expo x - target)
           else round_half_even (coef x) (10 ^ (target - expo x)) in
  if context_prec <? ndigits c then Raise InvalidOperation
  else Ok (mkdec c target).

(** ** Values

    [scaled n x] is [x * 10^n], for an [n] at which it is an integer. *)
Definition scaled (n : Z) (x : decimal) : Z := coef x * 10 ^ (n + expo x).

Definition has_scale (n : Z) (x : decimal) : Prop := 0 <= n + expo x.

Lemma ndigits_go_le fuel k z :
  1 <= k -> 0 <= z < 10 ^ k -> ndigits_go fuel z <= k.
Proof.
  revert k z. induction fuel as [|n IH]; intros k z Hk Hz; simpl; [lia|].
  destruct (z <? 10) eqn:E; [lia|].
  assert (Hk2 : 2 <= k).
  { destruct (Z.eq_dec k 1) as [->|]; [|lia]. change (10 ^ 1) with 10 in Hz. lia. }
  enough (ndigits_go n (z / 10) <= k - 1) by lia.
  apply IH; [lia|]. split; [apply Z.div_pos; lia|].
  apply Z.div_lt_upper_bound; [lia|].
  replace (10 * 10 ^ (k - 1)) with (10 ^ k); [lia|].
  rewrite <- (Z.pow_succ_r 10 (k - 1)) by lia. f_equal. lia.
Qed.

Lemma ndigits_le k z : 1 <= k -> Z.abs z < 10 ^ k -> ndigits z <= k.
Proof. intros. apply ndigits_go_le; lia. Qed.

Lemma ndigits_go_pos fuel z : 1 <= ndigits_go fuel z.
Proof.
  revert z. induction fuel as [|n IH]; intros z; simpl; [lia|].
  specialize (IH (z / 10)). destruct (z <? 10); lia.
Qed.

Lemma ndigits_pos z : 1 <= ndigits z.
Proof. apply ndigits_go_pos. Qed.

Lemma fixed_exact x : Z.abs (coef x) < 10 ^ 28 -> _fix x = x.
Proof.
  intros H. unfold _fix, context_prec.
  pose proof (ndigits_le 28 (coef x) ltac:(lia) H).
  destruct (ndigits (coef x) - 28 <=? 0) eqn:E; [done|lia].
Qed.

Lemma strip_zeros_spec fuel c e ideal :
  e <= ideal ->
  let r := strip_zeros fuel c e ideal in
  e <= expo r <= ideal /\ c = coef r * 10 ^ (expo r - e).
Proof.
  revert c e. induction fuel as [|n IH]; intros c e He; simpl.
  - split; [lia|]. replace (e - e) with 0 by lia. lia.
  - destruct ((e <? ideal) && (c mod 10 =? 0)) eqn:E; simpl.
    + apply andb_true_iff in E as [E1 E2].
      destruct (IH (c / 10) (e + 1) ltac:(lia)) as [Hb Hc]. split; [lia|].
      set (r := strip_zeros n (c / 10) (e + 1) ideal) in *.
      replace (expo r - e) with (Z.succ (expo r - (e + 1))) by lia.
      rewrite Z.pow_succ_r by lia.
      pose proof (Z.div_mod c 10 ltac:(lia)). lia.
    + split; [lia|]. replace (e - e) with 0 by lia. lia.
Qed.

Lemma scaled_mono n m x :
  has_scale n x -> n <= m -> scaled m x = scaled n x * 10 ^ (m - n).
Proof.
  unfold has_scale, scaled. intros H Hnm.
  replace (m + expo x) with ((n + expo x) + (m - n)) by lia.
  rewrite Z.pow_add_r by lia. lia.
Qed.

(** Product, when the coefficients stay within the precision. *)
Lemma mul_exact x y :
  Z.abs (coef x * coef y) < 10 ^ 28 ->
  mul x y = mkdec (coef x * coef y) (expo x + expo y).
Proof. intros H. unfold mul. by rewrite fixed_exact. Qed.

(** Sum, when the aligned sum stays within the precision. *)
Lemma add_exact n x y :
  has_scale n x -> has_scale n y ->
  Z.abs (scaled n x + scaled n y) < 10 ^ 28 ->
  has_scale n (add x y) /\ scaled n (add x y) = scaled n x + scaled n y.
Proof.
  unfold has_scale. intros Hx Hy Hb. unfold add.
  set (e := Z.min (expo x) (expo y)).
  set (c := coef x * 10 ^ (expo x - e) + coef y * 10 ^ (expo y - e)).
  assert (Hc : scaled n x + scaled n y = c * 10 ^ (n + e)).
  { unfold scaled, c. replace (n + expo x) with ((expo x - e) + (n + e)) by lia.
    replace (n + expo y) with ((expo y - e) + (n + e)) by lia.
    rewrite (Z.pow_add_r 10 (expo x - e) (n + e)) by lia.
    rewrite (Z.pow_add_r 10 (expo y - e) (n + e)) by lia. ring. }
  assert (Z.abs c < 10 ^ 28).
  { pose proof (Z.pow_pos_nonneg 10 (n + e) ltac:(lia) ltac:(lia)).
    rewrite Hc, Z.abs_mul in Hb.
    enough (Z.abs c * 1 <= Z.abs c * Z.abs (10 ^ (n + e))) by lia.
    apply Z.mul_le_mono_nonneg_l; lia. }
  rewrite fixed_exact by done. unfold scaled at 1. simpl. split; [lia|].
  by rewrite Hc.
Qed.

(** Enough fuel: stripping stops at the ideal exponent or at a coefficient
    that does not end in zero. *)
Lemma strip_zeros_done fuel c e ideal :
  ideal - e <= Z.of_nat fuel ->
  let r := strip_zeros fuel c e ideal in
  ideal <= expo r \/ coef r mod 10 <> 0.
Proof.
  revert c e. induction fuel as [|n IH]; intros c e Hf; simpl; [left; lia|].
  destruct ((e <? ideal) && (c mod 10 =? 0)) eqn:E; simpl; [apply IH; lia|].
  apply andb_false_iff in E as [E|E]; [left|right]; lia.
Qed.

(** Dividing a non-negative value by [Decimal("1000")] is exact. *)
Lemma div_1000_exact c e :
  0 <= c < 10 ^ 19 ->
  let r := div (mkdec c e) (mkdec 1000 0) in
  e - 3 <= expo r /\ 0 <= coef r /\ coef r * 10 ^ (expo r - (e - 3)) = c.
Proof.
  intros Hc. unfold div. cbn [coef expo].
  destruct (c =? 0) eqn:Hz; cbn [coef expo].
  { split; [lia|]. split; [lia|]. lia. }
  change (ndigits 1000) with 4. unfold context_prec.
  pose proof (ndigits_le 19 c ltac:(lia) ltac:(lia)) as Hnd.
  set (shift := 4 - ndigits c + 28 + 1) in *.
  assert (Hs : 14 <= shift) by lia.
  destruct (0 <=? shift) eqn:E; [|lia].
  rewrite Z.abs_eq by lia.
  assert (Hsplit : c * 10 ^ shift = c * 10 ^ (shift - 3) * 1000).
  { replace shift with ((shift - 3) + 3) at 1 by lia.
    rewrite Z.pow_add_r by lia. change (10 ^ 3) with 1000. lia. }
  rewrite Hsplit, Z.div_mul, Z.mod_mul by lia. rewrite Z.eqb_refl.
  rewrite Z.sgn_pos by lia.
  replace (e - 0) with e by lia.
  set (q := c * 10 ^ (shift - 3)).
  set (r := strip_zeros (Z.to_nat (e - (e - shift))) q (e - shift) e).
  destruct (strip_zeros_spec (Z.to_nat (e - (e - shift))) q (e - shift) e
              ltac:(lia)) as [Hr1 Hr2]. fold r in Hr1, Hr2.
  assert (Hlow : e - 3 <= expo r).
  { destruct (Z_lt_le_dec (expo r) (e - 3)) as [Hlt|]; [exfalso|lia].
    destruct (strip_zeros_done (Z.to_nat (e - (e - shift))) q (e - shift) e
                ltac:(lia)) as [Hd|Hd]; fold r in Hd; [lia|].
    apply Hd.
    set (m := expo r - (e - shift)) in *.
    assert (coef r = c * 10 ^ (shift - 3 - m)) as ->.
    { apply (Z.mul_reg_r _ _ (10 ^ m)); [apply Z.pow_nonzero; lia|].
      rewrite <- Hr2, <- Z.mul_assoc, <- Z.pow_add_r by lia.
      unfold q. do 2 f_equal. lia. }
    replace (shift - 3 - m) with (Z.succ (shift - 4 - m)) by lia.
    rewrite Z.pow_succ_r by lia.
    replace (c * (10 * 10 ^ (shift - 4 - m)))
      with (c * 10 ^ (shift - 4 - m) * 10) by lia.
    by rewrite Z.mod_mul. }
  assert (Hval : coef r * 10 ^ (expo r - (e - 3)) = c).
  { apply (Z.mul_reg_r _ _ (10 ^ (shift - 3))); [apply Z.pow_nonzero; lia|].
    rewrite <- Z.mul_assoc, <- Z.pow_add_r by lia. fold q. rewrite Hr2.
    do 2 f_equal. lia. }
  assert (Hpos : 0 <= coef r).
  { pose proof (Z.pow_pos_nonneg 10 (expo r - (e - 3)) ltac:(lia) ltac:(lia)). nia. }
  assert (Hle : coef r <= c).
  { pose proof (Z.pow_pos_nonneg 10 (expo r - (e - 3)) ltac:(lia) ltac:(lia)). nia. }
  rewrite fixed_exact; cbn [coef expo]; [|lia].
  split; [done|]. rewrite Z.mul_1_l. done.
Qed.

(** Rounding to a coarser exponent depends on the value only. *)
Lemma round_half_even_scale n d m :
  0 < d -> 0 < m -> round_half_even (n * m) (d * m) = round_half_even n d.
Proof.
  intros Hd Hm. unfold round_half_even.
  rewrite Z.div_mul_cancel_r by lia. rewrite Z.mul_mod_distr_r by lia.
  set (r := n mod d). set (q := n / d).
  replace (2 * (r * m) <? d * m) with (2 * r <? d);
    [|apply eq_true_iff_eq; rewrite !Z.ltb_lt; nia].
  replace (d * m <? 2 * (r * m)) with (d <? 2 * r);
    [|apply eq_true_iff_eq; rewrite !Z.ltb_lt; nia].
  done.
Qed.

Lemma round_half_even_1 n : round_half_even n 1 = n.
Proof.
  unfold round_half_even. rewrite Z.div_1_r, Z.mod_1_r.
  by destruct (2 * 0 <? 1) eqn:E; [|lia].
Qed.

(** The rounded quotient is within half a unit. *)
Lemma round_half_even_error n d :
  0 < d -> Z.abs (2 * (d * round_half_even n d - n)) <= d.
Proof.
  intros Hd. unfold round_half_even.
  pose proof (Z.div_mod n d ltac:(lia)). pose proof (Z.mod_pos_bound n d Hd).
  set (q := n / d) in *. set (r := n mod d) in *.
  destruct (2 * r <? d) eqn:E1; [lia|].
  destruct (d <? 2 * r) eqn:E2; [lia|].
  destruct (Z.even q); lia.
Qed.

(** Quantizing a value with scale [n >= 8] to eight places. *)
Lemma quantize_8 n x :
  has_scale n x -> 8 <= n -> 0 <= scaled n x < 10 ^ (n + 19) ->
  quantize x (-8) = Ok (mkdec (round_half_even (scaled n x) (10 ^ (n - 8))) (-8)).
Proof.
  unfold has_scale. intros Hx Hn Hb.
  assert (Hc : (if -8 <=? expo x then coef x * 10 ^ (expo x - -8)
                else round_half_even (coef x) (10 ^ (-8 - expo x)))
               = round_half_even (scaled n x) (10 ^ (n - 8))).
  { unfold scaled in *. destruct (-8 <=? expo x) eqn:E.
    - replace (n + expo x) with ((expo x + 8) + (n - 8)) by lia.
      rewrite Z.pow_add_r, Z.mul_assoc by lia.
      rewrite <- (Z.mul_1_l (10 ^ (n - 8))) at 2.
      rewrite round_half_even_scale, round_half_even_1;
        [f_equal; f_equal; lia|lia|apply Z.pow_pos_nonneg; lia].
    - replace (10 ^ (n - 8)) with (10 ^ (-8 - expo x) * 10 ^ (n + expo x))
        by (rewrite <- Z.pow_add_r by lia; f_equal; lia).
      rewrite round_half_even_scale; [done| |]; apply Z.pow_pos_nonneg; lia. }
  unfold quantize. rewrite Hc.
  assert (Hr : Z.abs (round_half_even (scaled n x) (10 ^ (n - 8))) < 10 ^ 28).
  { pose proof (Z.pow_pos_nonneg 10 (n - 8) ltac:(lia) ltac:(lia)) as Hp.
    pose proof (round_half_even_error (scaled n x) (10 ^ (n - 8)) Hp) as He.
    replace (n + 19) with ((n - 8) + 27) in Hb by lia.
    rewrite Z.pow_add_r in Hb by lia.
    set (P := 10 ^ (n - 8)) in *. set (R := round_half_even (scaled n x) P) in *.
    assert (10 ^ 28 = 10 * 10 ^ 27) as -> by reflexivity.
    assert (P * R <= P * 10 ^ 27 + P) by lia.
    assert (- P <= P * R) by lia.
    assert (R <= 10 ^ 27 + 1) by nia. assert (-1 <= R) by nia. lia. }
  pose proof (ndigits_le 28 _ ltac:(lia) Hr). unfold context_prec.
  destruct (28 <? _) eqn:E; [lia|done].
Qed.
