(* ===== verification/Schema.v ===== *)
(** * Relational tables of the control plane

    The rows of [backend/app/models/] that the dashboard API reads and writes,
    with the columns the code uses, the database value that holds the tables,
    and the uniqueness rules of the migrations.  A table is the list of its
    rows in insertion order.  Timestamps are integers, microseconds since the
    epoch (UTC); UUIDs are their canonical text. *)

From S2P Require Import Prelude Text PyVal Decimal.

Local Open Scope Z_scope.

Definition timestamp : Type := Z.
Definition second : Z := 1000000.
Definition minute : Z := 60 * second.
Definition hour : Z := 60 * minute.
Definition day : Z := 24 * hour.

Record Organization : Type := {
  org_id : string; org_name : string; org_slug : string;
}.

Record User : Type := {
  u_id : string; u_org : string; u_email : string; u_password_hash : string;
  u_role : string; u_active : bool; u_platform_admin : bool;
  u_created : timestamp;
}.

Record Project : Type := {
  p_id : string; p_org : string; p_name : string; p_key_hash : string;
  p_retention_days : Z; p_payload_mode : string; p_payload_max_bytes : Z;
  p_redact_keys : string; p_active : bool; p_created : timestamp;
}.

Record ProjectMembership : Type := {
  m_id : string; m_project : string; m_user : string; m_role : string;
  m_created : timestamp; m_updated : timestamp;
}.

Record ProjectApiKey : Type := {
  k_id : string; k_project : string; k_name : string;
  k_description : option string; k_hash : string; k_scope : string;
  k_active : bool; k_created : timestamp; k_last_used : option timestamp;
  k_revoked : option timestamp;
}.

Record OrganizationInvite : Type := {
  i_id : string; i_org : string; i_email : string; i_role : string;
  i_token_hash : string; i_expires : timestamp; i_accepted : option timestamp;
  i_created_by : string; i_assignments : pyval;
}.

Record AuditLog : Type := {
  a_org : string; a_user : option string; a_action : string;
  a_resource : option string; a_metadata : pyval;
}.

Record ModelPrice : Type := {
  pr_id : Z; pr_provider : string; pr_model : string;
  pr_input : decimal; pr_output : decimal;
  pr_from : timestamp; pr_to : option timestamp;
}.

Record FailedTask : Type := {
  f_id : Z; f_org : option string; f_project : option string;
  f_task : string; f_args : option string; f_error : string;
  f_attempts : Z; f_failed_at : timestamp; f_resolved : bool;
}.

Record Db : Type := {
  organizations : list Organization;
  users : list User;
  projects : list Project;
  memberships : list ProjectMembership;
  api_keys : list ProjectApiKey;
  invites : list OrganizationInvite;
  audit_log : list AuditLog;
  model_pricing : list ModelPrice;
  failed_tasks : list FailedTask;
}.

Definition empty_db : Db := Build_Db [] [] [] [] [] [] [] [] [].

Definition set_organizations (f : list Organization → list Organization) (d : Db) : Db :=
  Build_Db (f (organizations d)) (users d) (projects d) (memberships d)
    (api_keys d) (invites d) (audit_log d) (model_pricing d) (failed_tasks d).
Definition set_users (f : list User → list User) (d : Db) : Db :=
  Build_Db (organizations d) (f (users d)) (projects d) (memberships d)
    (api_keys d) (invites d) (audit_log d) (model_pricing d) (failed_tasks d).
Definition set_projects (f : list Project → list Project) (d : Db) : Db :=
  Build_Db (organizations d) (users d) (f (projects d)) (memberships d)
    (api_keys d) (invites d) (audit_log d) (model_pricing d) (failed_tasks d).
Definition set_memberships (f : list ProjectMembership → list ProjectMembership)
    (d : Db) : Db :=
  Build_Db (organizations d) (users d) (projects d) (f (memberships d))
    (api_keys d) (invites d) (audit_log d) (model_pricing d) (failed_tasks d).
Definition set_api_keys (f : list ProjectApiKey → list ProjectApiKey) (d : Db) : Db :=
  Build_Db (organizations d) (users d) (projects d) (memberships d)
    (f (api_keys d)) (invites d) (audit_log d) (model_pricing d) (failed_tasks d).
Definition set_invites (f : list OrganizationInvite → list OrganizationInvite)
    (d : Db) : Db :=
  Build_Db (organizations d) (users d) (projects d) (memberships d)
    (api_keys d) (f (invites d)) (audit_log d) (model_pricing d) (failed_tasks d).
Definition set_audit_log (f : list AuditLog → list AuditLog) (d : Db) : Db :=
  Build_Db (organizations d) (users d) (projects d) (memberships d)
    (api_keys d) (invites d) (f (audit_log d)) (model_pricing d) (failed_tasks d).
Definition set_model_pricing (f : list ModelPrice → list ModelPrice) (d : Db) : Db :=
  Build_Db (organizations d) (users d) (projects d) (memberships d)
    (api_keys d) (invites d) (audit_log d) (f (model_pricing d)) (failed_tasks d).
Definition set_failed_tasks (f : list FailedTask → list FailedTask) (d : Db) : Db :=
  Build_Db (organizations d) (users d) (projects d) (memberships d)
    (api_keys d) (invites d) (audit_log d) (model_pricing d) (f (failed_tasks d)).

(** ** Statements

    A constraint violation is an [IntegrityError], a subclass of
    [SQLAlchemyError]. *)
Definition integrity_error : exn := SQLAlchemyError "IntegrityError".

(** [UPDATE t SET ... WHERE p]: the rows that match are rewritten in place. *)
Definition update_where {A} (p : A → bool) (f : A → A) (t : list A) : list A :=
  map (λ r, if p r then f r else r) t.

(** [DELETE FROM t WHERE p] *)
Definition delete_where {A} (p : A → bool) (t : list A) : list A :=
  List.filter (λ r, negb (p r)) t.

(** [SELECT ... FROM t WHERE p], [.one_or_none()] on a key. *)
Definition select {A} (p : A → bool) (t : list A) : list A := List.filter p t.
Definition select_one {A} (p : A → bool) (t : list A) : option A := List.find p t.
Definition exists_where {A} (p : A → bool) (t : list A) : bool := existsb p t.
Definition count_where {A} (p : A → bool) (t : list A) : Z :=
  Z.of_nat (length (List.filter p t)).

(** [INSERT INTO t]: [conflict] is the primary-key and uniqueness rule. *)
Definition insert_row {A} (conflict : A → A → bool) (r : A) (t : list A)
    : result (list A) :=
  if existsb (conflict r) t then Raise integrity_error else Ok (t ++ [r]).

Definition user_conflict (r s : User) : bool :=
  String.eqb (u_id r) (u_id s) || String.eqb (u_email r) (u_email s).
Definition organization_conflict (r s : Organization) : bool :=
  String.eqb (org_id r) (org_id s) || String.eqb (org_slug r) (org_slug s).
Definition project_conflict (r s : Project) : bool :=
  String.eqb (p_id r) (p_id s) || String.eqb (p_key_hash r) (p_key_hash s)
  || (String.eqb (p_org r) (p_org s) && String.eqb (p_name r) (p_name s)).
Definition api_key_conflict (r s : ProjectApiKey) : bool :=
  String.eqb (k_id r) (k_id s) || String.eqb (k_hash r) (k_hash s).
Definition invite_conflict (r s : OrganizationInvite) : bool :=
  String.eqb (i_id r) (i_id s) || String.eqb (i_token_hash r) (i_token_hash s).
Definition pricing_conflict (r s : ModelPrice) : bool :=
  (pr_id r =? pr_id s)
  || (String.eqb (pr_provider r) (pr_provider s)
      && String.eqb (pr_model r) (pr_model s) && (pr_from r =? pr_from s)).

(** ** Facts on statements *)

Section statements.
Context {A : Type}.
Implicit Types (t : list A) (p : A → bool).

Lemma elem_of_update_where p f t r :
  r ∈ update_where p f t ↔ ∃ r0, r0 ∈ t ∧ r = if p r0 then f r0 else r0.
Proof.
  unfold update_where. rewrite list_elem_of_fmap.
  split; intros (x & ? & ?); eauto.
Qed.

Lemma elem_of_delete_where p t r :
  r ∈ delete_where p t ↔ r ∈ t ∧ p r = false.
Proof.
  unfold delete_where. rewrite list_elem_of_In, filter_In, <- list_elem_of_In.
  by rewrite negb_true_iff.
Qed.

Lemma elem_of_select p t r : r ∈ select p t ↔ r ∈ t ∧ p r = true.
Proof. unfold select. by rewrite list_elem_of_In, filter_In, <- list_elem_of_In. Qed.

Lemma select_one_Some p t r : select_one p t = Some r → r ∈ t ∧ p r = true.
Proof. intros [H1 H2]%find_some. by rewrite list_elem_of_In. Qed.

Lemma select_one_None p t r : select_one p t = None → r ∈ t → p r = false.
Proof. intros H Hr%list_elem_of_In. by eapply find_none. Qed.

Lemma exists_where_true p t : exists_where p t = true ↔ ∃ r, r ∈ t ∧ p r = true.
Proof.
  unfold exists_where. rewrite existsb_exists. by setoid_rewrite list_elem_of_In.
Qed.

Lemma exists_where_false p t :
  exists_where p t = false ↔ ∀ r, r ∈ t → p r = false.
Proof.
  rewrite <- not_true_iff_false, exists_where_true. split.
  - intros H r Hr. destruct (p r) eqn:E; [exfalso; eauto|done].
  - intros H (r & Hr & Hp). by rewrite H in Hp.
Qed.

Lemma insert_row_Ok conflict r t t' :
  insert_row conflict r t = Ok t' →
  t' = t ++ [r] ∧ ∀ s, s ∈ t → conflict r s = false.
Proof.
  unfold insert_row. destruct (existsb _ t) eqn:E; [done|].
  intros [= <-]. split; [done|]. by apply exists_where_false.
Qed.

Lemma count_where_pos p t r : r ∈ t → p r = true → 1 <= count_where p t.
Proof.
  intros Hr Hp. unfold count_where.
  assert (Hin : r ∈ List.filter p t) by (by apply elem_of_select).
  destruct (List.filter p t); [set_solver|]. simpl. lia.
Qed.

Lemma count_where_pos_inv p t : 1 <= count_where p t → ∃ r, r ∈ t ∧ p r = true.
Proof.
  unfold count_where. destruct (List.filter p t) as [|r l] eqn:E; simpl; [lia|].
  intros _. exists r. apply elem_of_select. unfold select. rewrite E. set_solver.
Qed.

Lemma length_update_where p f t : length (update_where p f t) = length t.
Proof. unfold update_where. by rewrite length_map. Qed.

Lemma select_one_update p q f t :
  (∀ r, r ∈ t → q r = true → p (f r) = p r) →
  select_one p (update_where q f t) = (λ r, if q r then f r else r) <$> select_one p t.
Proof.
  induction t as [|r t IH]; intros H; [done|]. simpl.
  assert (Hr : p (if q r then f r else r) = p r).
  { destruct (q r) eqn:Hq; [|done]. apply H; [by left|done]. }
  rewrite Hr. destruct (p r); [done|]. apply IH. intros x Hx. apply H. by right.
Qed.

Lemma select_one_app p t r :
  select_one p (t ++ [r])
  = match select_one p t with Some x => Some x | None => if p r then Some r else None end.
Proof. induction t as [|x t IH]; simpl; [done|]. by destruct (p x). Qed.

Lemma update_where_column {B} (g : A → B) q f t :
  (∀ r, g (f r) = g r) → g <$> update_where q f t = g <$> t.
Proof.
  intros Hg. induction t as [|r t IH]; [done|]. unfold update_where in *. cbn [map].
  rewrite !fmap_cons, IH. f_equal. by destruct (q r).
Qed.

(** A row with a fresh key keeps the keys unique. *)
Lemma NoDup_column_app {B} (g : A → B) t r :
  (∀ x, x ∈ t → g x ≠ g r) → NoDup (g <$> t) → NoDup (g <$> t ++ [r]).
Proof.
  intros Hr Ht. rewrite fmap_app. apply NoDup_app. split; [done|].
  split; [|apply NoDup_singleton].
  intros b Hb ->%list_elem_of_singleton. apply list_elem_of_fmap in Hb as (x & E & Hx).
  by destruct (Hr x Hx).
Qed.

Lemma NoDup_column_delete {B} (g : A → B) p t :
  NoDup (g <$> t) → NoDup (g <$> delete_where p t).
Proof.
  induction t as [|y t IH]; [done|]. rewrite fmap_cons. intros [Hy Hn]%NoDup_cons.
  unfold delete_where in *. simpl. destruct (negb (p y)); [|by apply IH].
  rewrite fmap_cons. apply NoDup_cons. split; [|by apply IH].
  intros Hin. destruct Hy. apply list_elem_of_fmap in Hin as (z & -> & Hz).
  apply elem_of_delete_where in Hz as [Hz _]. by apply list_elem_of_fmap_2.
Qed.

(** Rows of a table with unique keys are equal when their keys are. *)
Lemma NoDup_column_inj {B} (g : A → B) t x y :
  NoDup (g <$> t) → x ∈ t → y ∈ t → g x = g y → x = y.
Proof.
  induction t as [|r t IH]; intros Hn Hx Hy E; [by apply not_elem_of_nil in Hx|].
  apply NoDup_cons in Hn as [Hr Hn].
  apply elem_of_cons in Hx as [->|Hx]; apply elem_of_cons in Hy as [->|Hy]; [done| | |by auto].
  - destruct Hr. rewrite E. apply list_elem_of_fmap. eauto.
  - destruct Hr. rewrite <- E. apply list_elem_of_fmap. eauto.
Qed.
End statements.
