(* ===== verification/App.v ===== *)
(** * Application state of the dashboard API

    What a request handler of [backend/app/api/v1/] can read and write: the
    relational tables, the API-key and pricing caches in Redis, and the
    environment's answer to the next audit insert.  Sessions and transactions
    of [core/db.py], the audit trail of [services/audit.py], the role checks of
    [core/rbac.py]. *)

From S2P Require Import Prelude Text PyVal Decimal Schema.

Local Open Scope Z_scope.

(** The project record an API key resolves to ([core/auth.py]). *)
Record ApiProject : Type := {
  ap_id : string; ap_org : string; ap_name : string; ap_scope : option string;
  ap_key_id : option string; ap_legacy : bool;
}.

(** The pricing dictionary of [services/cost.py]; [c_from] is absent from
    entries an older release may have cached. *)
Record CachedPricing : Type := {
  c_input : decimal; c_output : decimal;
  c_from : option timestamp; c_to : option timestamp;
}.

#[export] Instance CachedPricing_eq_dec : EqDecision CachedPricing.
Proof. solve_decision. Defined.

Record App : Type := {
  db : Db;
  (** [apikey:{hash}], with the expiry that [setex] sets *)
  apikey_cache : gmap string (ApiProject * timestamp);
  (** [pricing:...] keys *)
  pricing_cache : gmap string CachedPricing;
  (** whether the database refuses the next audit insert *)
  audit_fault : option exn;
}.

Definition with_db (f : Db → Db) (s : App) : App :=
  {| db := f (db s); apikey_cache := apikey_cache s;
     pricing_cache := pricing_cache s; audit_fault := audit_fault s |}.
Definition with_apikeys
    (f : gmap string (ApiProject * timestamp) → gmap string (ApiProject * timestamp))
    (s : App) : App :=
  {| db := db s; apikey_cache := f (apikey_cache s);
     pricing_cache := pricing_cache s; audit_fault := audit_fault s |}.
Definition with_pricing
    (f : gmap string CachedPricing → gmap string CachedPricing) (s : App) : App :=
  {| db := db s; apikey_cache := apikey_cache s;
     pricing_cache := f (pricing_cache s); audit_fault := audit_fault s |}.

(** ** Sessions

    [async with get_db() as db: async with db.begin(): ...] commits at the end
    of the block and rolls back on an exception.  A session whose block ends
    in [await db.commit()] behaves the same. *)
Definition rollback (before after : App) : App := with_db (λ _, db before) after.

Definition begin {A} (m : M App A) : M App A := atomic rollback m.

Definition query {A} (f : Db → A) : M App A := gets (λ s, f (db s)).

Definition execute (f : Db → Db) : M App unit := modify (with_db f).

(** [INSERT]: the constraint check reads the table, the row is appended. *)
Definition insert_into {A} (get : Db → list A)
    (set : (list A → list A) → Db → Db) (conflict : A → A → bool) (r : A)
    : M App unit :=
  t ← query get;
  t' ← lift (insert_row conflict r t);
  execute (set (λ _, t')).

(** ** Audit trail *)

(** [log_audit(db=db, ...)] inside an open transaction. *)
Definition log_audit (org : string) (action : string) (user_id : option string)
    (resource_id : option string) (metadata : list (string * pyval)) : M App unit :=
  fault ← gets audit_fault;
  match fault with
  | Some e => raise e
  | None =>
      execute (set_audit_log (λ t, t ++
        [{| a_org := org; a_user := user_id; a_action := action;
            a_resource := resource_id; a_metadata := VDict metadata |}]))
  end.

(** [log_audit] without a session: failures are swallowed. *)
Definition log_audit_best_effort (org : string) (action : string)
    (user_id : option string) (resource_id : option string)
    (metadata : list (string * pyval)) : M App unit :=
  try_except (begin (log_audit org action user_id resource_id metadata))
             (λ _, mret tt).

(** ** Roles *)

(** The current user, as [load_current_user_from_token] builds it. *)
Record CurrentUser : Type := {
  sub : string; cu_org : string; cu_role : string; cu_platform_admin : bool;
}.

(** [ROLE_LEVELS], with -1 for a value that is not a role name. *)
Definition role_level (role : string) : Z :=
  if String.eqb role "viewer" then 0
  else if String.eqb role "member" then 1
  else if String.eqb role "admin" then 2
  else -1.

Definition is_role_name (role : string) : bool :=
  inb role ["viewer"; "member"; "admin"].

Definition capitalize (s : string) : string :=
  match s with
  | String c s' =>
      let n := code c in
      String (if (97 <=? n)%nat && (n <=? 122)%nat
              then ascii_of_nat (n - 32) else c) (lower s')
  | EmptyString => EmptyString
  end.

Definition require_role (user : CurrentUser) (minimum_role : string) : M App unit :=
  raise_when (role_level (cu_role user) <? role_level minimum_role)
    (HTTPException 403 (capitalize minimum_role +:+ " role required")).

Definition require_admin (user : CurrentUser) : M App unit :=
  require_role user "admin".
Definition require_member (user : CurrentUser) : M App unit :=
  require_role user "member".

Definition require_platform_admin (user : CurrentUser) : M App unit :=
  raise_when (negb (cu_platform_admin user))
    (HTTPException 403 "Platform admin role required").

(** ** Facts *)

Lemma with_db_id s : with_db (λ _, db s) s = s.
Proof. by destruct s. Qed.

(** A handler that raises inside [begin] leaves the tables as they were. *)
Lemma begin_raise_db {A} (m : M App A) s e s' :
  begin m s = (Raise e, s') → db s' = db s.
Proof. by intros (s1 & ->)%atomic_raise. Qed.

Lemma begin_ok {A} (m : M App A) s a s' :
  begin m s = (Ok a, s') ↔ m s = (Ok a, s').
Proof. unfold begin, atomic. by destruct (m s) as [[]]. Qed.

Lemma begin_ok_inv {A} (m : M App A) s a s' :
  begin m s = (Ok a, s') → m s = (Ok a, s').
Proof. by rewrite begin_ok. Qed.

Lemma require_admin_ok user s u s' :
  require_admin user s = (Ok u, s') → cu_role user = "admin" ∧ s' = s.
Proof.
  unfold require_admin, require_role. intros [H ->]%raise_when_ok_inv.
  split; [|done]. change (role_level "admin") with 2 in H.
  unfold role_level in H.
  destruct (String.eqb_spec (cu_role user) "viewer"); [done|].
  destruct (String.eqb_spec (cu_role user) "member"); [done|].
  by destruct (String.eqb_spec (cu_role user) "admin").
Qed.

Lemma require_admin_run user s :
  cu_role user = "admin" → require_admin user s = (Ok tt, s).
Proof. unfold require_admin, require_role. by intros ->. Qed.

Lemma require_admin_denied user s :
  cu_role user ≠ "admin" →
  require_admin user s = (Raise (HTTPException 403 "Admin role required"), s).
Proof.
  intros Hne. unfold require_admin, require_role.
  change (role_level "admin") with 2.
  assert (role_level (cu_role user) <? 2 = true) as ->; [|done].
  unfold role_level.
  destruct (String.eqb_spec (cu_role user) "viewer"); [done|].
  destruct (String.eqb_spec (cu_role user) "member"); [done|].
  by destruct (String.eqb_spec (cu_role user) "admin").
Qed.

Lemma execute_ok f s a s' : execute f s = (Ok a, s') → s' = with_db f s.
Proof. unfold execute, modify. by intros [= _ <-]. Qed.

Lemma query_ok {A} (f : Db → A) s a s' :
  query f s = (Ok a, s') → a = f (db s) ∧ s' = s.
Proof. unfold query, gets. by intros [= <- <-]. Qed.

Lemma lift_ok {S A} (r : result A) (s s' : S) a :
  lift r s = (Ok a, s') → r = Ok a ∧ s' = s.
Proof. unfold lift. by intros [= -> ->]. Qed.

Lemma log_audit_ok org action uid rid meta s a s' :
  log_audit org action uid rid meta s = (Ok a, s') →
  audit_fault s = None ∧
  s' = with_db (set_audit_log (λ t, t ++
        [{| a_org := org; a_user := uid; a_action := action;
            a_resource := rid; a_metadata := VDict meta |}])) s.
Proof.
  unfold log_audit. intros H. run_inv. destruct (audit_fault _) eqn:E.
  - done.
  - split; [done|]. by apply execute_ok in H.
Qed.

Lemma insert_into_ok {A} (get : Db → list A) set conflict r s a s' :
  insert_into get set conflict r s = (Ok a, s') →
  (∀ x, x ∈ get (db s) → conflict r x = false) ∧
  s' = with_db (set (λ _, get (db s) ++ [r])) s.
Proof.
  unfold insert_into. intros H. run_inv.
  match goal with H : query _ _ = _ |- _ => apply query_ok in H as [-> ->] end.
  match goal with H : lift _ _ = _ |- _ => apply lift_ok in H as [H ->] end.
  apply execute_ok in H as ->.
  match goal with H : insert_row _ _ _ = _ |- _ => apply insert_row_Ok in H as [-> ?] end.
  done.
Qed.

(** [run_inv] for handlers over [App]. *)
Ltac app_inv :=
  repeat first
    [ progress run_inv
    | match goal with
      | H : begin _ _ = (Ok _, _) |- _ => apply begin_ok_inv in H
      | H : query _ _ = (Ok _, _) |- _ => apply query_ok in H; destruct H as [? ?]
      | H : lift _ _ = (Ok _, _) |- _ => apply lift_ok in H; destruct H as [? ?]
      | H : execute _ _ = (Ok _, _) |- _ => apply execute_ok in H
      | H : require_admin _ _ = (Ok _, _) |- _ =>
          apply require_admin_ok in H; destruct H as [? ?]
      | H : log_audit _ _ _ _ _ _ = (Ok _, _) |- _ =>
          apply log_audit_ok in H; destruct H as [? ?]
      | H : insert_into _ _ _ _ _ = (Ok _, _) |- _ =>
          apply insert_into_ok in H; destruct H as [? ?]
      | H : (match ?x with _ => _ end) _ = (Ok _, _) |- _ =>
          let E := fresh "E" in destruct x eqn:E; try discriminate H
      end ];
  simplify_eq/=.
