(* ===== verification/Storage.v ===== *)
(** * Payload storage and privacy

    [backend/app/services/storage.py] and the metadata allowlist of
    [backend/app/workers/process_span.py]: redaction of payload objects, the
    storage policy, the write to and read from object storage, the bucket
    checks. *)

From S2P Require Import Prelude Text PyVal.

Definition DEFAULT_PAYLOAD_MAX_BYTES : Z := 256 * 1024.
Definition DEFAULT_REDACT_KEYS : string := "api_key,password,secret,token,authorization".
Definition REDACTED_VALUE : pyval := VStr "[redacted]".
Definition MISSING_BUCKET_CODES : list string := ["404"; "NoSuchBucket"; "NotFound"].

(** ** Redaction *)

(** The set comprehension is given by the list of its members. *)
Definition parse_redact_keys (value : option string) : list string :=
  let value := match value with
               | Some v => if truthy v then v else DEFAULT_REDACT_KEYS
               | None => DEFAULT_REDACT_KEYS
               end in
  map (λ item, lower (strip item))
      (List.filter (λ item, truthy (strip item)) (split_on "," value)).

Fixpoint redact_payload (redact_keys : list string) (value : pyval) : pyval :=
  match value with
  | VList l => VList (map (redact_payload redact_keys) l)
  | VDict d =>
      VDict (foldl (λ redacted kv,
        match kv with
        | (key_text, item) =>
            if inb (lower key_text) redact_keys
            then dict_set key_text REDACTED_VALUE redacted
            else dict_set key_text (redact_payload redact_keys item) redacted
        end) [] d)
  | _ => value
  end.

(** ** Span metadata *)

Definition PAYLOAD_LIKE_METADATA_KEYS : list string :=
  ["messages"; "input_messages"; "input"; "output"; "prompt"; "system";
   "system_prompt"].
Definition SENSITIVE_METADATA_KEY_PARTS : list string :=
  ["api_key"; "authorization"; "cookie"; "password"; "secret"; "token"].
Definition SAFE_SPAN_METADATA_KEYS : list string :=
  ["route"; "source"; "stream"; "stream_complete"].

Definition sanitize_span_metadata (metadata : pyval) (redact_keys : list string)
    : list (string * pyval) :=
  match redact_payload redact_keys metadata with
  | VDict redacted =>
      foldl (λ sanitized kv,
        match kv with
        | (key_text, value) =>
            let key_lower := lower key_text in
            if inb key_lower PAYLOAD_LIKE_METADATA_KEYS then sanitized
            else if existsb (λ part, contains part key_lower)
                            SENSITIVE_METADATA_KEY_PARTS then sanitized
            else if negb (inb key_lower SAFE_SPAN_METADATA_KEYS) then sanitized
            else if negb (is_scalar value) then sanitized
            else dict_set key_text value sanitized
        end) [] redacted
  | _ => []
  end.

(** ** Storage policy *)

Definition should_store_payload (mode : string) (has_error : bool) : bool :=
  if String.eqb mode "none" then false
  else if String.eqb mode "errors" then has_error
  else true.

(** [PayloadStorageStatus] *)
Inductive payload_status : Type :=
| stored | stored_redacted | omitted | too_large | storage_failed.

#[export] Instance payload_status_eq_dec : EqDecision payload_status.
Proof. solve_decision. Defined.

Record PayloadStorageResult : Type := {
  s3_key : option string;
  status : payload_status;
  drop_reason : option string;
}.

Definition skipped_payload_result (payload_mode : string) : PayloadStorageResult :=
  if String.eqb payload_mode "none" then
    {| s3_key := None; status := omitted; drop_reason := Some "storage_mode_none" |}
  else
    {| s3_key := None; status := omitted;
       drop_reason := Some "errors_only_non_error" |}.

(** ** Object storage *)

(** The objects of the payload bucket, by key. *)
Abbreviation bucket := (gmap string string).

Section service.
Context (float_repr : pyfloat → string).
(** zlib, reached through [gzip]. *)
Context (gzip_compress : string → string)
        (gzip_decompress : string → result string).
Context (json_loads : string → result pyval).

Definition payload_key (project_id span_id : string) : string :=
  "payloads/" +:+ project_id +:+ "/" +:+ str_take 2 span_id +:+ "/"
    +:+ span_id +:+ ".json.gz".

(** The JSON text of a payload, [json.dumps(..., ensure_ascii=False)]. *)
Definition payload_text (messages output : pyval) (redact_keys : list string)
    : string :=
  let payload_data := VDict [("messages", messages); ("output", output)] in
  let payload_data := match redact_keys with
                      | [] => payload_data
                      | _ => redact_payload redact_keys payload_data
                      end in
  json_dumps float_repr ", " ": " payload_data.

(** [put] is the answer of the object store to [put_object]. *)
Definition store_payload (project_id span_id : string)
    (messages output : pyval) (max_bytes : option Z) (redact_keys : list string)
    (put : result unit) : M bucket PayloadStorageResult :=
  let payload := payload_text messages output redact_keys in
  if match max_bytes with Some m => (m <? len payload)%Z | None => false end then
    mret {| s3_key := None; status := too_large;
            drop_reason := Some "max_bytes_exceeded" |}
  else
    let compressed := gzip_compress payload in
    let key := payload_key project_id span_id in
    match put with
    | Ok _ =>
        modify <[key := compressed]> ;;
        mret {| s3_key := Some key;
                status := match redact_keys with [] => stored
                                               | _ => stored_redacted end;
                drop_reason := None |}
    | Raise _ =>
        mret {| s3_key := None; status := storage_failed;
                drop_reason := Some "s3_error" |}
    end.

(** [get] is the answer to [get_object]: the error, or the body found. *)
Definition get_payload (key : string) (fault : option exn)
    : M bucket (option pyval) :=
  try_except
    (b ← gets (λ b : bucket, b !! key);
     body ← lift (match fault, b with
                  | Some e, _ => Raise e
                  | None, Some body => Ok body
                  | None, None => Raise (ClientError "NoSuchKey" (Some 404%Z))
                  end);
     data ← lift (gzip_decompress body);
     v ← lift (json_loads data);
     mret (Some v))
    (λ _, mret None).
End service.

(** ** Bucket checks *)

Definition is_missing_bucket_error (exc : exn) : bool :=
  match exc with
  | ClientError error_code http_status =>
      inb error_code MISSING_BUCKET_CODES || bool_decide (http_status = Some 404%Z)
  | _ => false
  end.

(** [head] and [create] are the answers to [head_bucket] and
    [create_bucket]. *)
Definition check_payload_bucket (head : result unit) : string :=
  match head with
  | Ok _ => "ok"
  | Raise exc => if is_missing_bucket_error exc then "missing" else "degraded"
  end.

Definition ensure_payload_bucket (head create : result unit) : string :=
  match head with
  | Ok _ => "ok"
  | Raise exc =>
      if negb (is_missing_bucket_error exc) then "degraded"
      else match create with
           | Ok _ => "created"
           | Raise _ => "degraded"
           end
  end.

(** ** Rebuilding a dictionary key by key *)

Section rebuild.
Context {A B : Type} (f : string → A → B).

Definition rebuild (d : list (string * A)) (acc : list (string * B))
    : list (string * B) :=
  foldl (λ acc kv, match kv with (k, x) => dict_set k (f k x) acc end) acc d.

Lemma rebuild_elem_of d acc k v :
  (k, v) ∈ rebuild d acc →
  (k, v) ∈ acc ∨ ∃ x, (k, x) ∈ d ∧ v = f k x.
Proof.
  revert acc. induction d as [|[k' x] d IH]; intros acc; simpl; [by left|].
  intros [H|(y & Hy & ->)]%IH.
  - apply dict_set_elem_of in H as [[-> ->]|H]; [right|by left].
    exists x. split; [set_solver|done].
  - right. exists y. split; [set_solver|done].
Qed.

Lemma rebuild_NoDup d acc :
  NoDup (keys d) → (∀ k, k ∈ keys d → k ∉ keys acc) →
  rebuild d acc = acc ++ map (λ kv, (kv.1, f kv.1 kv.2)) d.
Proof.
  revert acc. induction d as [|[k x] d IH]; intros acc; simpl.
  - by rewrite app_nil_r.
  - intros [Hk Hnd]%NoDup_cons Hacc.
    rewrite dict_set_fresh; [|apply Hacc; set_solver].
    rewrite IH; [by rewrite <- app_assoc|done|].
    intros j Hj. unfold keys. rewrite fmap_app, elem_of_app. simpl.
    intros [Hj'|Hj']; [eapply Hacc; [|done]; set_solver|].
    apply list_elem_of_singleton in Hj'. subst. done.
Qed.

Lemma rebuild_keys_NoDup d acc : NoDup (keys acc) → NoDup (keys (rebuild d acc)).
Proof.
  revert acc. induction d as [|[k x] d IH]; intros acc Hacc; simpl; [done|].
  apply IH. clear IH. induction acc as [|[j w] acc IH]; simpl.
  - apply NoDup_cons; split; [set_solver|apply NoDup_nil_2].
  - destruct (String.eqb_spec k j) as [->|Hne]; [done|].
    apply NoDup_cons in Hacc as [Hj Hacc]. apply NoDup_cons.
    split; [|by apply IH].
    intros Hj'. apply list_elem_of_fmap in Hj' as ((j' & w') & Heq & Hin).
    simpl in Heq. subst j'.
    apply dict_set_elem_of in Hin as [[-> _]|Hin]; [done|].
    apply Hj, list_elem_of_fmap. by exists (j, w').
Qed.
End rebuild.

Definition redact_item (redact_keys : list string) (k : string) (x : pyval) : pyval :=
  if inb (lower k) redact_keys then REDACTED_VALUE else redact_payload redact_keys x.

Lemma redact_payload_dict rk d :
  redact_payload rk (VDict d) = VDict (rebuild (redact_item rk) d []).
Proof.
  simpl. f_equal. unfold rebuild. generalize (@nil (string * pyval)).
  induction d as [|[k x] d IH]; intros acc; simpl; [done|].
  rewrite IH. unfold redact_item. by destruct (inb (lower k) rk).
Qed.

(** ** What redaction guarantees *)

(** Every dictionary entry, at any depth, whose key is in the redaction set
    holds the placeholder. *)
Fixpoint clean (redact_keys : list string) (v : pyval) : Prop :=
  match v with
  | VList l => foldr (λ x P, clean redact_keys x ∧ P) True l
  | VDict d =>
      foldr (λ kv P, match kv with
                     | (k, x) => (if inb (lower k) redact_keys
                                  then x = REDACTED_VALUE
                                  else clean redact_keys x) ∧ P
                     end) True d
  | _ => True
  end.

Lemma clean_dict rk d :
  clean rk (VDict d) ↔
  ∀ k x, (k, x) ∈ d →
    if inb (lower k) rk then x = REDACTED_VALUE else clean rk x.
Proof.
  simpl. induction d as [|[k x] d IH]; simpl; [set_solver|].
  rewrite IH. split.
  - intros [Hx Hd] k' x' [[= -> ->]|H]%elem_of_cons; [done|by apply Hd].
  - intros Hd. split; [apply Hd; set_solver|].
    intros k' x' H. apply Hd. set_solver.
Qed.

Lemma clean_list rk l : clean rk (VList l) ↔ ∀ x, x ∈ l → clean rk x.
Proof.
  simpl. induction l as [|x l IH]; simpl; [set_solver|].
  rewrite IH. set_solver.
Qed.

(** redaction reaches every depth. Whatever the payload, in the redacted
    payload every entry of every dictionary whose lower-cased key is in the
    redaction set holds the placeholder. *)
Theorem redact_payload_clean rk v : clean rk (redact_payload rk v).
Proof.
  induction v as [| | | | |l IH|d IH] using pyval_rec'; try done.
  - change (clean rk (VList (map (redact_payload rk) l))).
    apply clean_list. intros x (y & -> & Hy)%list_elem_of_fmap.
    rewrite Forall_forall in IH. by apply IH.
  - rewrite redact_payload_dict. apply clean_dict.
    intros k x [H|(y & Hy & ->)]%rebuild_elem_of; [set_solver|].
    unfold redact_item. destruct (inb (lower k) rk); [done|].
    rewrite Forall_forall in IH. by apply (IH (k, y)).
Qed.

(** Two payloads that differ only in values stored under redacted keys. *)
Inductive agree (rk : list string) : pyval → pyval → Prop :=
| agree_refl v : agree rk v v
| agree_list l1 l2 : Forall2 (agree rk) l1 l2 → agree rk (VList l1) (VList l2)
| agree_dict d1 d2 : Forall2 (agree_entry rk) d1 d2 → agree rk (VDict d1) (VDict d2)
with agree_entry (rk : list string) : string * pyval → string * pyval → Prop :=
| agree_secret k x1 x2 : lower k ∈ rk → agree_entry rk (k, x1) (k, x2)
| agree_public k x1 x2 : agree rk x1 x2 → agree_entry rk (k, x1) (k, x2).

Lemma redact_item_secret rk k x : lower k ∈ rk → redact_item rk k x = REDACTED_VALUE.
Proof. unfold redact_item. by intros ->%inb_true. Qed.

Lemma redact_payload_agree rk v1 v2 :
  agree rk v1 v2 → redact_payload rk v1 = redact_payload rk v2.
Proof.
  revert v2. induction v1 as [| | | | |l IH|d IH] using pyval_rec';
    intros v2 Ha; inversion Ha as [|? l2 Hl|? d2 Hd]; subst; try done.
  - simpl. f_equal. clear Ha. revert IH.
    induction Hl as [|x y l l2 Hxy Hl IHl]; intros IH; [done|].
    apply Forall_cons in IH as [IHx IH]. simpl. f_equal; [by apply IHx|by apply IHl].
  - rewrite !redact_payload_dict. f_equal. clear Ha. revert IH.
    generalize (@nil (string * pyval)).
    induction Hd as [|kv1 kv2 d d2 Hkv Hd IHd]; intros acc IH; [done|].
    apply Forall_cons in IH as [IHx IH]. unfold rebuild in *. simpl.
    destruct Hkv as [k x1 x2 Hk|k x1 x2 Hx].
    + rewrite !redact_item_secret by done. by apply IHd.
    + assert (redact_item rk k x1 = redact_item rk k x2) as ->
        by (unfold redact_item; simpl in IHx; by rewrite (IHx _ Hx)).
      by apply IHd.
Qed.

Lemma redact_payload_idemp rk v :
  redact_payload rk (redact_payload rk v) = redact_payload rk v.
Proof.
  induction v as [| | | | |l IH|d IH] using pyval_rec'; try done.
  - simpl. f_equal. induction IH as [|x l Hx _ IHl]; simpl; [done|].
    by rewrite Hx, IHl.
  - rewrite redact_payload_dict, redact_payload_dict. f_equal.
    rewrite rebuild_NoDup; [simpl|apply rebuild_keys_NoDup, NoDup_nil_2|set_solver].
    assert (Hall : ∀ k x, (k, x) ∈ rebuild (redact_item rk) d [] →
                     redact_item rk k x = x).
    { intros k x [H|(y & Hy & ->)]%rebuild_elem_of; [set_solver|].
      unfold redact_item. destruct (inb (lower k) rk); [done|].
      rewrite Forall_forall in IH. by apply (IH (k, y)). }
    revert Hall. generalize (rebuild (redact_item rk) d []). clear.
    induction l as [|[k x] l IH]; intros Hall; simpl; [done|].
    rewrite IH; [|intros; apply Hall; set_solver].
    rewrite Hall; [done|set_solver].
Qed.

(** The concrete payload of the witnesses below. *)
Definition sample_payload (secret : string) : pyval :=
  VList [VDict [("role", VStr "user"); ("headers", VDict [("API_Key", VStr secret)]);
                ("content", VStr "hi")]].

Lemma sample_payload_agree s1 s2 :
  agree ["api_key"] (sample_payload s1) (sample_payload s2).
Proof.
  apply agree_list. constructor; [|constructor].
  apply agree_dict. constructor; [apply agree_public, agree_refl|].
  constructor; [|constructor; [apply agree_public, agree_refl|constructor]].
  apply agree_public, agree_dict. constructor; [|constructor].
  apply agree_secret. set_solver.
Qed.

(** ** Properties of the storage service *)

Section service_properties.
Context (float_repr : pyfloat → string) (gzip_compress : string → string).

(** C6: redacted values cannot be observed through the object store. Two
    payloads that differ only under redacted keys produce the same stored
    object, the same size decision, the same status and the same key. *)
Theorem store_payload_noninterference pid sid m1 m2 o1 o2 maxb rk put b :
  rk ≠ [] → agree rk m1 m2 → agree rk o1 o2 →
  store_payload float_repr gzip_compress pid sid m1 o1 maxb rk put b
  = store_payload float_repr gzip_compress pid sid m2 o2 maxb rk put b.
Proof.
  intros Hrk Hm Ho. unfold store_payload, payload_text.
  destruct rk as [|k rk]; [done|].
  assert (redact_payload (k :: rk) (VDict [("messages", m1); ("output", o1)])
          = redact_payload (k :: rk) (VDict [("messages", m2); ("output", o2)])) as ->;
    [|done].
  apply redact_payload_agree, agree_dict.
  constructor; [by apply agree_public|]. constructor; [by apply agree_public|].
  constructor.
Qed.

(** what [store_payload] may do to the bucket. It never raises; either
    the object was written, under the key it reports, with a text within
    [max_bytes], or the bucket is untouched and no key is reported. *)
Theorem store_payload_spec pid sid m o maxb rk put b :
  let r := store_payload float_repr gzip_compress pid sid m o maxb rk put b in
  ∃ res, r.1 = Ok res ∧
    match s3_key res with
    | Some k =>
        k = payload_key pid sid ∧ put = Ok () ∧
        status res = (match rk with [] => stored | _ => stored_redacted end) ∧
        (∀ limit, maxb = Some limit → len (payload_text float_repr m o rk) ≤ limit)%Z ∧
        r.2 = <[k := gzip_compress (payload_text float_repr m o rk)]> b
    | None =>
        r.2 = b ∧ (status res = too_large ∨ status res = storage_failed) ∧
        drop_reason res ≠ None
    end.
Proof.
  unfold store_payload.
  destruct (match maxb with Some _ => _ | None => false end) eqn:Hbig.
  - eexists; split; [done|]. simpl. eauto.
  - destruct put as [[]|e]; (eexists; split; [done|]); simpl; [|by eauto].
    repeat split; try done. intros limit ->. lia.
Qed.
End service_properties.

Definition zero_repr (_ : pyfloat) : string := "0.0".

Lemma store_payload_noninterference_witness :
  store_payload zero_repr (λ s, s) "p" "sid" (sample_payload "k1") VNone
    (Some 100%Z) ["api_key"] (Ok ()) ∅
  = store_payload zero_repr (λ s, s) "p" "sid" (sample_payload "k2") VNone
      (Some 100%Z) ["api_key"] (Ok ()) ∅.
Proof.
  apply (store_payload_noninterference zero_repr (λ s, s));
    [done|apply sample_payload_agree|apply agree_refl].
Defined.

Lemma safe_key_allowed k :
  inb k SAFE_SPAN_METADATA_KEYS = true →
  inb k PAYLOAD_LIKE_METADATA_KEYS = false ∧
  existsb (λ part, contains part k) SENSITIVE_METADATA_KEY_PARTS = false.
Proof.
  intros Hk%inb_true. unfold SAFE_SPAN_METADATA_KEYS in Hk.
  repeat (apply elem_of_cons in Hk as [->|Hk]; [by vm_compute|]). set_solver.
Qed.

(** The entries the allowlist lets through. *)
Definition metadata_kept (k : string) (v : pyval) : bool :=
  inb (lower k) SAFE_SPAN_METADATA_KEYS && is_scalar v.

Lemma sanitize_rebuild d acc :
  foldl (λ sanitized kv,
        match kv with
        | (key_text, value) =>
            let key_lower := lower key_text in
            if inb key_lower PAYLOAD_LIKE_METADATA_KEYS then sanitized
            else if existsb (λ part, contains part key_lower)
                            SENSITIVE_METADATA_KEY_PARTS then sanitized
            else if negb (inb key_lower SAFE_SPAN_METADATA_KEYS) then sanitized
            else if negb (is_scalar value) then sanitized
            else dict_set key_text value sanitized
        end) acc d
  = rebuild (λ _ (x : pyval), x) (List.filter (λ kv, metadata_kept kv.1 kv.2) d) acc.
Proof.
  revert acc. induction d as [|[k x] d IH]; intros acc; [done|].
  cbn [foldl List.filter fst snd]. cbv zeta. rewrite IH.
  unfold metadata_kept at 2.
  destruct (inb (lower k) SAFE_SPAN_METADATA_KEYS) eqn:Hs; cbn [negb andb].
  - apply safe_key_allowed in Hs as [-> ->]. by destruct (is_scalar x).
  - destruct (inb (lower k) PAYLOAD_LIKE_METADATA_KEYS); [done|].
    by destruct (existsb (λ part, contains part (lower k)) _).
Qed.

Lemma keys_filter_NoDup {A} (f : string * A → bool) (d : list (string * A)) :
  NoDup (keys d) → NoDup (keys (List.filter f d)).
Proof.
  induction d as [|[k x] d IH]; [done|]. unfold keys in *. simpl.
  intros [Hk Hd]%NoDup_cons. destruct (f (k, x)); [|by apply IH].
  simpl. apply NoDup_cons. split; [|by apply IH].
  intros (y & Hy & Hin)%list_elem_of_fmap. apply Hk, list_elem_of_fmap.
  exists y. split; [done|].
  by apply list_elem_of_In, filter_In, proj1, list_elem_of_In in Hin.
Qed.

Lemma rebuild_elem_of_NoDup {A B} (f : string → A → B) d k v :
  NoDup (keys d) →
  (k, v) ∈ rebuild f d [] ↔ ∃ x, (k, x) ∈ d ∧ v = f k x.
Proof.
  intros Hd. rewrite rebuild_NoDup; [simpl|done|set_solver].
  rewrite list_elem_of_fmap. split.
  - intros ([k' x] & [= -> ->] & Hin). by exists x.
  - intros (x & Hin & ->). by exists (k, x).
Qed.

(** span metadata that reaches the database is exactly an allowlist.  An
    entry is kept if and only if its key is, up to case, one of the four
    technical keys and its value, after redaction, is a scalar; a key that is
    also in the redaction set is kept with the placeholder as its value. *)
Theorem sanitize_span_metadata_allowlist d rk k v :
  NoDup (keys d) →
  (k, v) ∈ sanitize_span_metadata (VDict d) rk ↔
  ∃ x, (k, x) ∈ d ∧ v = redact_item rk k x ∧
       lower k ∈ SAFE_SPAN_METADATA_KEYS ∧ is_scalar v = true.
Proof.
  intros Hd. unfold sanitize_span_metadata. rewrite redact_payload_dict.
  rewrite sanitize_rebuild, rebuild_elem_of_NoDup;
    [|apply keys_filter_NoDup, rebuild_keys_NoDup, NoDup_nil_2].
  setoid_rewrite list_elem_of_In. setoid_rewrite filter_In.
  setoid_rewrite <- list_elem_of_In.
  unfold metadata_kept. cbn [fst snd].
  setoid_rewrite andb_true_iff. setoid_rewrite inb_true.
  setoid_rewrite (rebuild_elem_of_NoDup _ _ _ _ Hd). naive_solver.
Qed.

Lemma sanitize_span_metadata_allowlist_witness :
  ("Stream", VBool true) ∈
    sanitize_span_metadata
      (VDict [("prompt", VStr "x"); ("Stream", VBool true)]) ["token"].
Proof.
  apply sanitize_span_metadata_allowlist.
  - apply NoDup_cons. split; [set_solver|apply NoDup_singleton].
  - exists (VBool true). split; [set_solver|]. split; [reflexivity|].
    split; [|reflexivity]. apply inb_true. reflexivity.
Defined.

(** Redaction keys are normalised, so the lower-cased key test is exact. *)
Lemma parse_redact_keys_normal value k :
  k ∈ parse_redact_keys value → k ≠ EmptyString ∧ lower k = k ∧ strip k = k.
Proof.
  unfold parse_redact_keys. generalize (split_on "," (match value with
    Some v => if truthy v then v else DEFAULT_REDACT_KEYS
    | None => DEFAULT_REDACT_KEYS end)) as l. intros l.
  intros (item & -> & Hin)%list_elem_of_fmap.
  apply list_elem_of_In, filter_In in Hin as [_ Ht%truthy_true].
  split; [|split].
  - intros He. apply Ht. destruct (strip item); [done|discriminate He].
  - apply lower_idemp.
  - by rewrite <- lower_strip, strip_idemp.
Qed.
