(* ===== verification/Cost.v ===== *)
(** * Pricing and cost

    [backend/app/services/cost.py] and [backend/app/api/v1/pricing.py]: the
    cost of a span, the two caches in front of the pricing table, the pricing
    catalogue. *)

From S2P Require Import Prelude Text PyVal Decimal Schema App.

Local Open Scope Z_scope.

(** The answers of Redis and PostgreSQL during one lookup. *)
Record LookupEnv : Type := {
  redis_get_fault : option exn;
  db_fault : option exn;
  redis_set_fault : option exn;
}.
Definition no_faults : LookupEnv := Build_LookupEnv None None None.

Definition fault {S} (o : option exn) : M S unit :=
  match o with Some e => raise e | None => mret tt end.

(** [CostService._batch_pricing_intervals]: the intervals fetched for a batch,
    next to the application state. *)
Abbreviation intervals := (gmap (string * string) (list CachedPricing)).
Record CostState : Type := { app : App; batch : intervals }.

Definition with_app (f : App → App) (s : CostState) : CostState :=
  {| app := f (app s); batch := batch s |}.
Definition with_batch (f : intervals → intervals) (s : CostState) : CostState :=
  {| app := app s; batch := f (batch s) |}.

Definition cache_key (provider model : string) : string :=
  "pricing:" +:+ provider +:+ ":" +:+ model +:+ ":active".

Definition covers (from : timestamp) (to : option timestamp) (at_time : timestamp) : bool :=
  (from <=? at_time) && match to with None => true | Some t => at_time <? t end.

Definition _cached_interval_covers (pricing : CachedPricing) (at_time : timestamp) : bool :=
  match c_from pricing with
  | None => false
  | Some valid_from => covers valid_from (c_to pricing) at_time
  end.

(** The dictionary built from a row. *)
Definition pricing_of_row (r : ModelPrice) : CachedPricing :=
  {| c_input := pr_input r; c_output := pr_output r;
     c_from := Some (pr_from r); c_to := pr_to r |}.

(** The rows of one provider and model that are valid at a time. *)
Definition row_matches (provider model : string) (at_time : timestamp)
    (r : ModelPrice) : bool :=
  String.eqb (pr_provider r) provider && String.eqb (pr_model r) model
  && covers (pr_from r) (pr_to r) at_time.

(** [ORDER BY valid_from DESC LIMIT 1] *)
Definition pricing_row (rows : list ModelPrice) (provider model : string)
    (at_time : timestamp) : option ModelPrice :=
  head (sort_by (λ r, - pr_from r) (select (row_matches provider model at_time) rows)).

Definition _get_pricing (env : LookupEnv) (provider model : string)
    (at_time : timestamp) : M CostState (option CachedPricing) :=
  let key := cache_key provider model in
  fault (redis_get_fault env) ;;
  cached ← gets (λ s, pricing_cache (app s) !! key);
  match cached with
  | Some p =>
      if _cached_interval_covers p at_time then mret (Some p)
      else
        fault (db_fault env) ;;
        row ← gets (λ s, pricing_row (model_pricing (db (app s))) provider model at_time);
        match row with
        | None => mret None
        | Some r =>
            fault (redis_set_fault env) ;;
            modify (with_app (with_pricing <[key := pricing_of_row r]>)) ;;
            mret (Some (pricing_of_row r))
        end
  | None =>
      fault (db_fault env) ;;
      row ← gets (λ s, pricing_row (model_pricing (db (app s))) provider model at_time);
      match row with
      | None => mret None
      | Some r =>
          fault (redis_set_fault env) ;;
          modify (with_app (with_pricing <[key := pricing_of_row r]>)) ;;
          mret (Some (pricing_of_row r))
      end
  end.

Definition _get_batch_pricing (env : LookupEnv) (provider model : string)
    (at_time : timestamp) : M CostState (option CachedPricing) :=
  known ← gets (λ s, default [] (batch s !! (provider, model)));
  match List.find (λ p, _cached_interval_covers p at_time) known with
  | Some pricing => mret (Some pricing)
  | None =>
      fetched ← _get_pricing env provider model at_time;
      match fetched with
      | Some p =>
          modify (with_batch (λ b,
            <[(provider, model) := default [] (b !! (provider, model)) ++ [p]]> b)) ;;
          mret (Some p)
      | None => mret None
      end
  end.

(** The arithmetic of [calculate], on a pricing entry. *)
Definition cost_of (pricing : CachedPricing) (input_tokens output_tokens : Z)
    : result decimal :=
  let input_cost := div (mul (c_input pricing) (of_int input_tokens)) (mkdec 1000 0) in
  let output_cost := div (mul (c_output pricing) (of_int output_tokens)) (mkdec 1000 0) in
  quantize (add input_cost output_cost) (-8).

Definition calculate (env : LookupEnv) (provider model : string)
    (input_tokens output_tokens : Z) (at_time : timestamp) : M CostState decimal :=
  pricing ← _get_batch_pricing env provider model at_time;
  match pricing with
  | None => mret (mkdec 0 0)
  | Some p => lift (cost_of p input_tokens output_tokens)
  end.

(** ** The pricing catalogue *)

Definition normalize_name (value : string) : string := lower (strip value).

Section catalogue.
(** Redis's [SCAN MATCH]: does a key match a glob pattern? *)
Context (glob_match : string → string → bool).

Definition legacy_key (provider model : string) : string :=
  "pricing:" +:+ provider +:+ ":" +:+ model.

Definition invalidate_pricing_cache (provider model : string) : M App unit :=
  let k := legacy_key provider model in
  modify (with_pricing (λ c,
    filter (λ kv, kv.1 ≠ k ∧ glob_match (k +:+ ":*") kv.1 = false) c)).

Record PricingCreate : Type := {
  pc_provider : string; pc_model : string;
  pc_input : decimal; pc_output : decimal; pc_from : option timestamp;
}.

(** The [WHERE] and the [SET] of the statement that ends current prices. *)
Definition closes (provider model : string) (valid_from : timestamp)
    (r : ModelPrice) : bool :=
  String.eqb (pr_provider r) provider && String.eqb (pr_model r) model
  && (pr_from r <? valid_from)
  && match pr_to r with None => true | Some t => valid_from <? t end.

Definition close_row (valid_from : timestamp) (r : ModelPrice) : ModelPrice :=
  {| pr_id := pr_id r; pr_provider := pr_provider r;
     pr_model := pr_model r; pr_input := pr_input r;
     pr_output := pr_output r; pr_from := pr_from r;
     pr_to := Some valid_from |}.

Definition close_price (provider model : string) (valid_from : timestamp)
    : list ModelPrice → list ModelPrice :=
  update_where (closes provider model valid_from) (close_row valid_from).

(** [next_id] is the value of the table's sequence. *)
Definition create_pricing (body : PricingCreate) (user : CurrentUser)
    (now : timestamp) (next_id : Z) : M App ModelPrice :=
  require_platform_admin user ;;
  let provider := normalize_name (pc_provider body) in
  let model := strip (pc_model body) in
  raise_when (negb (truthy model)) (HTTPException 422 "Model is required") ;;
  let valid_from := default now (pc_from body) in
  let row := {| pr_id := next_id; pr_provider := provider; pr_model := model;
                pr_input := pc_input body; pr_output := pc_output body;
                pr_from := valid_from; pr_to := None |} in
  begin (execute (set_model_pricing (close_price provider model valid_from)) ;;
         insert_into model_pricing set_model_pricing pricing_conflict row) ;;
  invalidate_pricing_cache provider model ;;
  mret row.

Record PricingUpdate : Type := {
  pu_input : option decimal; pu_output : option decimal;
  pu_from : option timestamp; pu_to : option timestamp;
}.

Definition apply_update (u : PricingUpdate) (r : ModelPrice) : ModelPrice :=
  {| pr_id := pr_id r; pr_provider := pr_provider r; pr_model := pr_model r;
     pr_input := default (pr_input r) (pu_input u);
     pr_output := default (pr_output r) (pu_output u);
     pr_from := default (pr_from r) (pu_from u);
     pr_to := match pu_to u with Some t => Some t | None => pr_to r end |}.

Definition no_updates (u : PricingUpdate) : bool :=
  match pu_input u, pu_output u, pu_from u, pu_to u with
  | None, None, None, None => true
  | _, _, _, _ => false
  end.

(** The uniqueness rule also guards an update. *)
Definition update_pricing (pricing_id : Z) (body : PricingUpdate)
    (user : CurrentUser) : M App ModelPrice :=
  require_platform_admin user ;;
  raise_when (no_updates body) (HTTPException 400 "No fields to update") ;;
  rows ← query model_pricing;
  match select_one (λ r, pr_id r =? pricing_id) rows with
  | None => raise (HTTPException 404 "Pricing record not found")
  | Some old =>
      let new := apply_update body old in
      raise_when (existsb (pricing_conflict new)
                    (delete_where (λ r, pr_id r =? pricing_id) rows))
                 integrity_error ;;
      execute (set_model_pricing
        (update_where (λ r, pr_id r =? pricing_id) (apply_update body))) ;;
      invalidate_pricing_cache (pr_provider new) (pr_model new) ;;
      mret new
  end.

Definition end_pricing (pricing_id : Z) (body_valid_to : option timestamp)
    (user : CurrentUser) (now : timestamp) : M App ModelPrice :=
  require_platform_admin user ;;
  let valid_to := default now body_valid_to in
  let end_row := apply_update (Build_PricingUpdate None None None (Some valid_to)) in
  rows ← query model_pricing;
  match select_one (λ r, pr_id r =? pricing_id) rows with
  | None => raise (HTTPException 404 "Pricing record not found")
  | Some old =>
      execute (set_model_pricing
        (update_where (λ r, pr_id r =? pricing_id) end_row)) ;;
      invalidate_pricing_cache (pr_provider old) (pr_model old) ;;
      mret (end_row old)
  end.
End catalogue.

(** The listing; [ILIKE] and the places of texts in the collation are the
    database's. *)
Section listing.
Context (ilike : string → string → bool) (text_rank : string → Z).

Definition optional_filter (f : string → string) (v : option string) : option string :=
  match v with Some s => if truthy s then Some (f s) else None | None => None end.

Definition listed (provider model : option string) (include_expired : bool) (now : timestamp)
    (r : ModelPrice) : bool :=
  match provider with Some p => String.eqb (pr_provider r) p | None => true end &&
  match model with
  | Some m => if truthy m then ilike (pr_model r) ("%" +:+ m +:+ "%")
              else false
  | None => true
  end &&
  (include_expired || match pr_to r with Some t => now <? t | None => true end).

Definition list_pricing (provider model : option string) (include_expired : bool)
    (user : CurrentUser) (now : timestamp) : M App (list ModelPrice) :=
  require_platform_admin user;;
  let provider_filter := optional_filter normalize_name provider in
  let model_filter := optional_filter strip model in
  rows ← query (λ d,
    sort_by (λ r, text_rank (pr_provider r)) (sort_by (λ r, text_rank (pr_model r))
      (sort_by (λ r, - pr_from r)
         (select (listed provider_filter model_filter include_expired now) (model_pricing d)))));
  mret (take 500 rows).

(** Only platform admins see prices, and only those asked for. *)
Lemma list_pricing_rows provider model include_expired user now s rows s' :
  list_pricing provider model include_expired user now s = (Ok rows, s') →
  cu_platform_admin user = true ∧ s' = s ∧ (length rows ≤ 500)%nat ∧
  ∀ r, r ∈ rows → r ∈ model_pricing (db s) ∧
    (include_expired = true ∨ pr_to r = None ∨ ∃ t, pr_to r = Some t ∧ now < t).
Proof.
  unfold list_pricing, require_platform_admin, raise_when.
  destruct (cu_platform_admin user); cbn [negb]; [|done].
  erewrite bind_run; [|reflexivity]. cbv zeta. erewrite bind_run; [|reflexivity].
  intros [= <- <-]. split; [done|]. split; [done|]. split; [rewrite length_take; lia|].
  intros r Hr%elem_of_take_subset. rewrite !sort_by_elem_of, elem_of_select in Hr.
  destruct Hr as [Hr Hl]. split; [done|]. unfold listed in Hl.
  apply andb_true_iff in Hl as [_ [-> |Ht]%orb_true_iff]; [by left|right].
  destruct (pr_to r) as [t|]; [right; exists t; split; [done|lia]|by left].
Qed.
End listing.

(** ** Arithmetic *)

(** A price that fits the column [Numeric(precision=12, scale=10)]. *)
Definition valid_price (x : decimal) : Prop :=
  -10 <= expo x <= 0 /\ 0 <= scaled 10 x < 10 ^ 12.

Lemma valid_price_coef x : valid_price x → 0 <= coef x < 10 ^ 12.
Proof.
  unfold valid_price, scaled. intros [He Hs].
  pose proof (Z.pow_pos_nonneg 10 (10 + expo x) ltac:(lia) ltac:(lia)). nia.
Qed.

(** One side of the sum: [Decimal(str(price)) * tokens / Decimal("1000")]. *)
Lemma part_cost x tokens :
  valid_price x → 0 <= tokens <= 10 ^ 7 →
  let r := div (mul x (of_int tokens)) (mkdec 1000 0) in
  has_scale 13 r ∧ scaled 13 r = scaled 10 x * tokens.
Proof.
  intros Hx Ht. pose proof (valid_price_coef x Hx) as Hc.
  destruct Hx as [He Hs].
  assert (0 <= coef x * tokens < 10 ^ 12 * 10 ^ 7 + 1) as Hp.
  { split; [apply Z.mul_nonneg_nonneg; lia|].
    assert (coef x * tokens <= 10 ^ 12 * 10 ^ 7)
      by (apply Z.mul_le_mono_nonneg; lia). lia. }
  assert (Hlt : coef x * tokens < 10 ^ 19).
  { change (10 ^ 19) with (10 ^ 12 * 10 ^ 7).
    destruct (Z.eq_dec tokens 0) as [->|]; [lia|].
    apply Z.lt_le_trans with (10 ^ 12 * tokens);
      [apply Z.mul_lt_mono_pos_r; lia|apply Z.mul_le_mono_nonneg_l; lia]. }
  rewrite mul_exact by (simpl; lia).
  simpl. destruct (div_1000_exact (coef x * tokens) (expo x + 0) ltac:(lia))
    as (H1 & H2 & H3).
  set (r := div _ _) in *. unfold has_scale, scaled in *.
  split; [lia|].
  replace (13 + expo r) with ((expo r - (expo x + 0 - 3)) + (10 + expo x)) by lia.
  rewrite Z.pow_add_r, Z.mul_assoc, H3 by lia. ring.
Qed.

(** the cost of a span is exact. For prices of the catalogue and token
    counts within the limits of the ingest schema, [calculate]'s decimal
    arithmetic returns the true value [(in * i + out * o) / 1000] rounded once,
    half to even, to eight places; no intermediate step rounds and no
    InvalidOperation is raised. *)
Theorem cost_of_exact p i o :
  valid_price (c_input p) → valid_price (c_output p) →
  0 <= i <= 10 ^ 7 → 0 <= o <= 10 ^ 7 →
  cost_of p i o =
    Ok (mkdec (round_half_even (scaled 10 (c_input p) * i + scaled 10 (c_output p) * o)
                               (10 ^ 5)) (-8)).
Proof.
  intros Hin Hout Hi Ho. unfold cost_of.
  destruct (part_cost _ i Hin Hi) as [Hsi Hvi].
  destruct (part_cost _ o Hout Ho) as [Hso Hvo].
  set (a := div (mul (c_input p) _) _) in *. set (b := div (mul (c_output p) _) _) in *.
  destruct Hin as [_ Hin], Hout as [_ Hout].
  assert (Hb : 0 <= scaled 13 a + scaled 13 b < 10 ^ 20).
  { rewrite Hvi, Hvo. change (10 ^ 20) with (10 * (10 ^ 12 * 10 ^ 7)).
    assert (0 <= scaled 10 (c_input p) * i <= 10 ^ 12 * 10 ^ 7)
      by (split; [apply Z.mul_nonneg_nonneg; lia|apply Z.mul_le_mono_nonneg; lia]).
    assert (0 <= scaled 10 (c_output p) * o <= 10 ^ 12 * 10 ^ 7)
      by (split; [apply Z.mul_nonneg_nonneg; lia|apply Z.mul_le_mono_nonneg; lia]).
    lia. }
  destruct (add_exact 13 a b Hsi Hso ltac:(lia)) as [Hs Hv].
  rewrite (quantize_8 13); [|done|lia|].
  - by rewrite Hv, Hvi, Hvo.
  - rewrite Hv. change (13 + 19) with 32. lia.
Qed.

Definition sample_pricing : CachedPricing :=
  {| c_input := mkdec 25000000 (-10); c_output := mkdec 100000000 (-10);
     c_from := Some 0; c_to := None |}.

Lemma cost_of_exact_witness :
  cost_of sample_pricing 1234 567 = Ok (mkdec 875500 (-8)).
Proof.
  rewrite cost_of_exact; [reflexivity| | |lia|lia]; vm_compute; intuition discriminate.
Defined.

(** The column [spans.cost_usd] is [Numeric(12, 8)]. *)
Definition fits_cost_column (c : decimal) : bool := scaled 8 c <? 10 ^ 12.

(** catalogue prices and accepted token counts can overflow the cost
    column. There is a price the catalogue accepts and a token count the
    ingest schema accepts whose cost has five integer digits. *)
Theorem cost_can_overflow_column :
  ∃ p i, valid_price (c_input p) ∧ valid_price (c_output p) ∧ 0 <= i <= 10 ^ 7 ∧
    ∃ c, cost_of p i 0 = Ok c ∧ fits_cost_column c = false.
Proof.
  exists {| c_input := mkdec 2 0; c_output := mkdec 0 0; c_from := Some 0; c_to := None |},
    (10 ^ 7).
  split; [by vm_compute|]. split; [by vm_compute|]. split; [by vm_compute|].
  eexists. split; [vm_compute; reflexivity|]. reflexivity.
Qed.

(** ** The caches agree with the table *)

Definition row_colon_free (r : ModelPrice) : Prop :=
  free_of ":" (pr_provider r) = true.

(** Every cached entry is the dictionary of a current row of its key. *)
Definition coherent_cache (rows : list ModelPrice) (c : gmap string CachedPricing) : Prop :=
  ∀ k p, c !! k = Some p →
    ∃ r, r ∈ rows ∧ k = cache_key (pr_provider r) (pr_model r) ∧ p = pricing_of_row r.

Definition coherent_batch (rows : list ModelPrice) (b : intervals) : Prop :=
  ∀ provider model l p, b !! (provider, model) = Some l → p ∈ l →
    ∃ r, r ∈ rows ∧ pr_provider r = provider ∧ pr_model r = model ∧ p = pricing_of_row r.

(** At most one row of a provider and model is in force at a time. *)
Definition disjoint_rows (rows : list ModelPrice) : Prop :=
  ∀ provider model t r1 r2, r1 ∈ rows → r2 ∈ rows →
    row_matches provider model t r1 = true →
    row_matches provider model t r2 = true → r1 = r2.

Record priced (s : CostState) : Prop := {
  priced_disjoint : disjoint_rows (model_pricing (db (app s)));
  priced_colons : ∀ r, r ∈ model_pricing (db (app s)) → row_colon_free r;
  priced_cache : coherent_cache (model_pricing (db (app s))) (pricing_cache (app s));
  priced_batch : coherent_batch (model_pricing (db (app s))) (batch s);
}.

Lemma cache_key_inj p1 m1 p2 m2 :
  free_of ":" p1 = true → free_of ":" p2 = true →
  cache_key p1 m1 = cache_key p2 m2 → p1 = p2 ∧ m1 = m2.
Proof.
  intros H1 H2 H. unfold cache_key in H. apply str_app_inj_l in H.
  rewrite !str_app_cons in H. change (EmptyString +:+ ?x) with x in H.
  apply (split_at_sep ":" p1 p2) in H as [-> H]; [|done|done].
  split; [done|]. by apply str_app_inj_r in H.
Qed.

Lemma row_matches_true p m t r :
  row_matches p m t r = true ↔
  pr_provider r = p ∧ pr_model r = m ∧ covers (pr_from r) (pr_to r) t = true.
Proof.
  unfold row_matches. rewrite !andb_true_iff, !String.eqb_eq. tauto.
Qed.

Lemma pricing_row_Some rows p m t r :
  pricing_row rows p m t = Some r → r ∈ rows ∧ row_matches p m t r = true.
Proof. intros H%sort_by_head_elem_of. by apply elem_of_select in H. Qed.

(** Under disjointness a matching row is the one the query returns. *)
Lemma pricing_row_unique rows p m t r :
  disjoint_rows rows → r ∈ rows → row_matches p m t r = true →
  pricing_row rows p m t = Some r.
Proof.
  intros Hd Hr Hm. destruct (pricing_row rows p m t) as [r'|] eqn:E.
  - apply pricing_row_Some in E as [Hr' Hm']. f_equal. by apply (Hd p m t).
  - apply sort_by_head_None in E.
    assert (r ∈ select (row_matches p m t) rows) as Hin by by apply elem_of_select.
    rewrite E in Hin. set_solver.
Qed.

Lemma covers_row_matches p m t r :
  pr_provider r = p → pr_model r = m →
  _cached_interval_covers (pricing_of_row r) t = true → row_matches p m t r = true.
Proof. intros. by apply row_matches_true. Qed.

(** What a lookup may do: raise an environment fault, or return the row in
    force, and keep the caches coherent. *)
Definition env_faults (env : LookupEnv) (e : exn) : Prop :=
  redis_get_fault env = Some e ∨ db_fault env = Some e ∨ redis_set_fault env = Some e.

Definition lookup_ok (env : LookupEnv) (s : CostState) (provider model : string)
    (t : timestamp) (res : result (option CachedPricing) * CostState) : Prop :=
  match res.1 with
  | Ok o =>
      o = pricing_of_row <$> pricing_row (model_pricing (db (app s))) provider model t
  | Raise e => env_faults env e
  end ∧
  db (app res.2) = db (app s) ∧ priced res.2.

(** The query path of [_get_pricing], shared by the cache-miss and the
    stale-interval branches. *)
Definition fetch_pricing (env : LookupEnv) (provider model : string)
    (at_time : timestamp) : M CostState (option CachedPricing) :=
  fault (db_fault env) ;;
  row ← gets (λ s, pricing_row (model_pricing (db (app s))) provider model at_time);
  match row with
  | None => mret None
  | Some r =>
      fault (redis_set_fault env) ;;
      modify (with_app (with_pricing
        <[cache_key provider model := pricing_of_row r]>)) ;;
      mret (Some (pricing_of_row r))
  end.

Lemma fetch_pricing_ok env p m t s :
  priced s → lookup_ok env s p m t (fetch_pricing env p m t s).
Proof.
  intros Hs. unfold lookup_ok, env_faults, fetch_pricing, mbind, M_bind, fault,
    raise, gets, modify, mret, M_ret.
  destruct (db_fault env) as [e|]; [by naive_solver|].
  destruct (pricing_row _ p m t) as [r|] eqn:E; [|done].
  destruct (redis_set_fault env) as [e|]; [by naive_solver|].
  split; [done|]. split; [done|].
  destruct Hs as [Hd Hc Hk Hb]. split; [done|done| |done]. simpl.
  intros k q Hq. destruct (decide (k = cache_key p m)) as [->|Hne].
  - rewrite lookup_insert_eq in Hq. injection Hq as <-.
    apply pricing_row_Some in E as [Hr Hm]. apply row_matches_true in Hm as (<- & <- & _).
    by exists r.
  - rewrite lookup_insert_ne in Hq by done. by apply Hk.
Qed.

Lemma _get_pricing_ok env p m t s :
  free_of ":" p = true → priced s → lookup_ok env s p m t (_get_pricing env p m t s).
Proof.
  intros Hp Hs.
  assert (_get_pricing env p m t s =
    (fault (redis_get_fault env) ;;
     cached ← gets (λ s, pricing_cache (app s) !! cache_key p m);
     match cached with
     | Some q => if _cached_interval_covers q t then mret (Some q)
                 else fetch_pricing env p m t
     | None => fetch_pricing env p m t
     end) s) as -> by done.
  unfold fault at 1. destruct (redis_get_fault env) as [e|] eqn:Hf;
    [by split; [left|]|].
  unfold mbind at 1, M_bind at 1. cbn. unfold mbind at 1, M_bind at 1. cbn.
  destruct (pricing_cache (app s) !! cache_key p m) as [q|] eqn:E;
    [|by apply fetch_pricing_ok].
  destruct (_cached_interval_covers q t) eqn:Hcov; [|by apply fetch_pricing_ok].
  split; [|done].
  pose proof Hs as [Hd Hc Hk _].
  destruct (Hk _ _ E) as (r & Hr & Hkey & ->).
  apply cache_key_inj in Hkey as [Hrp Hrm]; [|done|by apply Hc].
  rewrite (pricing_row_unique _ _ _ _ r Hd Hr); [done|].
  by apply covers_row_matches.
Qed.

Lemma _get_batch_pricing_ok env p m t s :
  free_of ":" p = true → priced s → lookup_ok env s p m t (_get_batch_pricing env p m t s).
Proof.
  intros Hp Hs. unfold _get_batch_pricing. unfold mbind at 1, M_bind at 1. cbn.
  destruct (List.find _ (default [] (batch s !! (p, m)))) as [q|] eqn:E.
  - apply find_some in E as [Hq%list_elem_of_In Hcov].
    split; [|done]. pose proof Hs as [Hd Hc _ Hb].
    destruct (batch s !! (p, m)) as [l|] eqn:El; simpl in Hq; [|set_solver].
    destruct (Hb _ _ _ _ El Hq) as (r & Hr & Hrp & Hrm & ->).
    rewrite (pricing_row_unique _ _ _ _ r Hd Hr); [done|].
    by apply covers_row_matches.
  - pose proof (_get_pricing_ok env p m t s Hp Hs) as (Hok & Hdb & Hpr).
    unfold mbind, M_bind. destruct (_get_pricing env p m t s) as [[[q|]|e] s'];
      simpl in *; [|by split|by split].
    split; [done|]. split; [done|].
    destruct Hpr as [Hd Hc Hk Hb]. split; [done|done|done|]. simpl.
    intros p' m' l q' Hl Hq'.
    destruct (decide ((p', m') = (p, m))) as [[= -> ->]|Hne].
    + rewrite lookup_insert_eq in Hl. injection Hl as <-.
      apply elem_of_app in Hq' as [Hq'|Hq'].
      * destruct (batch s' !! (p, m)) as [l0|] eqn:El; simpl in Hq'; [|set_solver].
        by apply (Hb p m l0).
      * apply list_elem_of_singleton in Hq' as ->.
        rewrite Hdb. destruct (pricing_row _ p m t) as [r|] eqn:Er; [|done].
        injection Hok as ->. apply pricing_row_Some in Er as [Hr Hm].
        apply row_matches_true in Hm as (<- & <- & _). by exists r.
    + rewrite lookup_insert_ne in Hl by done. by apply (Hb p' m' l).
Qed.

(** The abstract specification of the cost service: the price row in force at
    the span's start time decides the cost. *)
Definition cost_spec (rows : list ModelPrice) (provider model : string)
    (input_tokens output_tokens : Z) (at_time : timestamp) : result decimal :=
  match pricing_row rows provider model at_time with
  | None => Ok (mkdec 0 0)
  | Some r => cost_of (pricing_of_row r) input_tokens output_tokens
  end.

(** C14: the cached cost service implements the uncached one. While the
    intervals of a provider and model do not overlap and the caches hold rows
    of the table, [calculate] either raises because Redis or PostgreSQL failed
    or returns exactly what the pricing table prescribes at the span's start
    time, whatever mixture of batch cache, Redis cache and query answered; and
    the caches stay coherent for the next span. *)
Theorem calculate_refines env p m i o t s :
  free_of ":" p = true → priced s →
  let res := calculate env p m i o t s in
  (res.1 = cost_spec (model_pricing (db (app s))) p m i o t ∨
   ∃ e, res.1 = Raise e ∧ (redis_get_fault env = Some e ∨ db_fault env = Some e ∨
                           redis_set_fault env = Some e)) ∧
  db (app res.2) = db (app s) ∧ priced res.2.
Proof.
  intros Hp Hs. unfold calculate, mbind, M_bind, cost_spec.
  pose proof (_get_batch_pricing_ok env p m t s Hp Hs) as (Hok & Hdb & Hpr).
  destruct (_get_batch_pricing env p m t s) as [[[q|]|e] s']; simpl in *.
  - split; [left|by split]. destruct (pricing_row _ p m t); by simplify_eq/=.
  - split; [left|by split]. destruct (pricing_row _ p m t); by simplify_eq/=.
  - split; [right; by exists e|by split].
Qed.

(** The price list of the witnesses: one model, repriced at time 100. *)
Definition sample_rows : list ModelPrice :=
  [{| pr_id := 1; pr_provider := "openai"; pr_model := "gpt-4o";
      pr_input := mkdec 25000000 (-10); pr_output := mkdec 100000000 (-10);
      pr_from := 0; pr_to := Some 100 |};
   {| pr_id := 2; pr_provider := "openai"; pr_model := "gpt-4o";
      pr_input := mkdec 20000000 (-10); pr_output := mkdec 80000000 (-10);
      pr_from := 100; pr_to := None |}].

Definition app_of_rows (rows : list ModelPrice) : App :=
  {| db := set_model_pricing (λ _, rows) empty_db; apikey_cache := ∅;
     pricing_cache := ∅; audit_fault := None |}.

Definition cost_state (rows : list ModelPrice) : CostState :=
  {| app := app_of_rows rows; batch := ∅ |}.

Ltac enum_rows :=
  repeat match goal with
  | H : _ ∈ _ :: _ |- _ => apply elem_of_cons in H as [->|H]
  | H : _ ∈ [] |- _ => by apply elem_of_nil in H
  end.

Lemma sample_rows_disjoint : disjoint_rows sample_rows.
Proof.
  intros p m t r1 r2 H1 H2 Hm1 Hm2. unfold sample_rows in *.
  apply row_matches_true in Hm1 as (_ & _ & Hm1).
  apply row_matches_true in Hm2 as (_ & _ & Hm2).
  unfold covers in *. enum_rows; try done; simpl in *; lia.
Qed.

Lemma sample_priced : priced (cost_state sample_rows).
Proof.
  split; simpl.
  - apply sample_rows_disjoint.
  - intros r Hr. unfold sample_rows in Hr. by enum_rows.
  - intros k p H. by rewrite lookup_empty in H.
  - intros p m l q H. by rewrite lookup_empty in H.
Qed.

Lemma calculate_refines_witness :
  let res := calculate no_faults "openai" "gpt-4o" 1000 0 50 (cost_state sample_rows) in
  res.1 = Ok (mkdec 250000 (-8)) ∧ priced res.2.
Proof.
  destruct (calculate_refines no_faults "openai" "gpt-4o" 1000 0 50
              (cost_state sample_rows) eq_refl sample_priced) as (_ & _ & H).
  split; [reflexivity|exact H].
Defined.

(** ** Changing the catalogue *)

Record catalogue_ok (a : App) : Prop := {
  cat_disjoint : disjoint_rows (model_pricing (db a));
  cat_colons : ∀ r, r ∈ model_pricing (db a) → row_colon_free r;
  cat_cache : coherent_cache (model_pricing (db a)) (pricing_cache a);
}.

(** Characters with a meaning in a Redis glob pattern. *)
Definition glob_special (c : ascii) : bool :=
  existsb (Ascii.eqb c) ["*"; "?"; "["; "]"; "\"]%char.
Definition glob_literal (s : string) : bool := str_all (λ c, negb (glob_special c)) s.

Section catalogue_properties.
Context (glob_match : string → string → bool).
(** A literal prefix followed by [*] matches every key with that prefix. *)
Hypothesis glob_star : ∀ p s, glob_literal p = true →
  glob_match (p +:+ "*") (p +:+ s) = true.

Lemma invalidated_key p m :
  glob_literal p = true → glob_literal m = true →
  glob_match (legacy_key p m +:+ ":*") (cache_key p m) = true.
Proof.
  intros Hp Hm. unfold legacy_key, cache_key.
  set (pre := "pricing:" +:+ p +:+ ":" +:+ m +:+ ":").
  assert (("pricing:" +:+ p +:+ ":" +:+ m) +:+ ":*" = pre +:+ "*") as ->
    by (unfold pre; by rewrite !str_app_assoc).
  assert ("pricing:" +:+ p +:+ ":" +:+ m +:+ ":active" = pre +:+ "active") as ->
    by (unfold pre; by rewrite !str_app_assoc).
  apply glob_star. unfold glob_literal, pre in *. rewrite !str_all_app, Hp, Hm. done.
Qed.

Lemma closes_true p m from r :
  closes p m from r = true →
  pr_provider r = p ∧ pr_model r = m ∧ pr_from r < from ∧
  ∀ t, covers (pr_from r) (Some from) t = true → covers (pr_from r) (pr_to r) t = true.
Proof.
  unfold closes, covers. rewrite !andb_true_iff, !String.eqb_eq.
  intros (((-> & ->) & Hf) & Ht). do 2 (split; [done|]). split; [lia|].
  intros t. rewrite !andb_true_iff. intros [H1 H2]. split; [done|].
  destruct (pr_to r); [lia|done].
Qed.

(** A closed row covers less than the row it was. *)
Lemma close_weaker p m from q n t r :
  row_matches q n t (if closes p m from r then close_row from r else r) = true →
  row_matches q n t r = true.
Proof.
  destruct (closes p m from r) eqn:E; [|by intros].
  apply closes_true in E as (_ & _ & _ & Hc).
  rewrite !row_matches_true. simpl. naive_solver.
Qed.

Lemma close_price_disjoint p m from rows :
  disjoint_rows rows → disjoint_rows (close_price p m from rows).
Proof.
  intros Hd q n t r1 r2 (a1 & Ha1 & ->)%elem_of_update_where
    (a2 & Ha2 & ->)%elem_of_update_where Hm1%close_weaker Hm2%close_weaker.
  by rewrite (Hd q n t a1 a2).
Qed.

(** Rows of the other models are not touched. *)
Lemma close_price_other p m from rows r :
  pr_provider r ≠ p ∨ pr_model r ≠ m → r ∈ rows → r ∈ close_price p m from rows.
Proof.
  intros Hne Hr. apply elem_of_update_where. exists r. split; [done|].
  destruct (closes p m from r) eqn:E; [|done].
  apply closes_true in E as (? & ? & _). naive_solver.
Qed.

(** The price in force before the new start is the one it was. *)
Lemma close_price_before p m from (rows : list ModelPrice) t r :
  t < from → r ∈ rows → row_matches p m t r = true →
  row_matches p m t (if closes p m from r then close_row from r else r) = true.
Proof.
  intros Ht Hr Hm. destruct (closes p m from r) eqn:E; [|done].
  rewrite row_matches_true in *. simpl. destruct Hm as (-> & -> & Hc).
  do 2 (split; [done|]). unfold covers in *. lia.
Qed.

Definition price_of (r : ModelPrice) : decimal * decimal := (pr_input r, pr_output r).

Section newer.
Context (rows : list ModelPrice) (row : ModelPrice).
Let p := pr_provider row.
Let m := pr_model row.
Let rows' := close_price p m (pr_from row) rows ++ [row].
Hypothesis Hdisj : disjoint_rows rows.
Hypothesis Hopen : pr_to row = None.
Hypothesis Hnewest : ∀ r, r ∈ rows → pr_provider r = p → pr_model r = m →
                          pr_from r < pr_from row.

Lemma newer_match t : row_matches p m t row = (pr_from row <=? t).
Proof.
  unfold row_matches, covers, p, m. rewrite !String.eqb_refl, Hopen. simpl.
  apply andb_true_r.
Qed.

(** From its start on, only the new row matches. *)
Lemma newer_only r t :
  r ∈ close_price p m (pr_from row) rows → row_matches p m t r = true →
  t < pr_from row.
Proof.
  intros (a & Ha & ->)%elem_of_update_where Hm.
  pose proof (close_weaker _ _ _ _ _ _ _ Hm) as Hm'.
  apply row_matches_true in Hm' as (Hp & Hmo & Hc).
  specialize (Hnewest a Ha Hp Hmo).
  destruct (closes p m (pr_from row) a) eqn:E.
  - apply row_matches_true in Hm as (_ & _ & Hcl). simpl in Hcl.
    unfold covers in Hcl. lia.
  - unfold closes, covers in *. rewrite Hp, Hmo, !String.eqb_refl in E. simpl in E.
    destruct (pr_to a); lia.
Qed.

Lemma newer_disjoint : disjoint_rows rows'.
Proof.
  intros q n t r1 r2 H1 H2 Hm1 Hm2. unfold rows' in *.
  assert (Hboth : ∀ r, r ∈ close_price p m (pr_from row) rows →
            row_matches q n t r = true → row_matches q n t row = true → False).
  { intros r Hr Hm Hrow.
    pose proof Hrow as (Hq & Hn & _)%row_matches_true. fold p in Hq. fold m in Hn.
    subst q n. pose proof (newer_only r t Hr Hm).
    rewrite newer_match in Hrow. lia. }
  apply elem_of_app in H1 as [H1|H1%list_elem_of_singleton];
    apply elem_of_app in H2 as [H2|H2%list_elem_of_singleton]; subst.
  - by apply (close_price_disjoint p m (pr_from row) rows Hdisj q n t).
  - exfalso. by eapply Hboth.
  - exfalso. by eapply Hboth.
  - done.
Qed.

Lemma newer_price t :
  price_of <$> pricing_row rows' p m t =
  if pr_from row <=? t then Some (price_of row)
  else price_of <$> pricing_row rows p m t.
Proof.
  destruct (pr_from row <=? t) eqn:E.
  - rewrite (pricing_row_unique _ _ _ _ row newer_disjoint); [done| |].
    + unfold rows'. set_solver.
    + by rewrite newer_match.
  - destruct (pricing_row rows p m t) as [r|] eqn:Er.
    + apply pricing_row_Some in Er as [Hr Hm].
      set (r' := if closes p m (pr_from row) r then close_row (pr_from row) r else r).
      rewrite (pricing_row_unique _ _ _ _ r' newer_disjoint).
      * unfold r'. by destruct (closes _ _ _ _).
      * unfold rows'. apply elem_of_app. left. apply elem_of_update_where. by exists r.
      * apply (close_price_before _ _ _ rows); [lia|done|done].
    + destruct (pricing_row rows' p m t) as [r|] eqn:Er'; [exfalso|done].
      apply pricing_row_Some in Er' as [Hr Hm].
      apply elem_of_app in Hr as [Hr|Hr%list_elem_of_singleton].
      * apply elem_of_update_where in Hr as (a & Ha & ->).
        apply close_weaker in Hm.
        by rewrite (pricing_row_unique _ _ _ _ a Hdisj Ha Hm) in Er.
      * subst. rewrite newer_match in Hm. lia.
Qed.
End newer.

(** Invalidation drops every entry whose row may have changed. *)
Lemma invalidate_coherent p m rows rows' c :
  coherent_cache rows c → glob_literal p = true → glob_literal m = true →
  (∀ r, r ∈ rows → pr_provider r ≠ p ∨ pr_model r ≠ m → r ∈ rows') →
  coherent_cache rows' (filter (λ kv : string * CachedPricing,
    kv.1 ≠ legacy_key p m ∧ glob_match (legacy_key p m +:+ ":*") kv.1 = false) c).
Proof.
  intros Hk Hp Hm Hsub k q [Hq [_ Hg]]%map_lookup_filter_Some.
  destruct (Hk k q Hq) as (r & Hr & -> & ->). exists r.
  split; [|done]. apply Hsub; [done|].
  destruct (decide (pr_provider r = p)) as [<-|]; [|by left].
  destruct (decide (pr_model r = m)) as [<-|]; [|by right].
  simpl in Hg. by rewrite invalidated_key in Hg.
Qed.

(** publishing a newer price. When the new price starts after every
    price of its provider and model, [create_pricing] keeps the intervals
    disjoint and the Redis cache coherent, the new price is in force from its
    start on, and the price in force at any earlier time does not change. *)
Theorem create_pricing_newer body user now next_id a row a' :
  catalogue_ok a →
  create_pricing glob_match body user now next_id a = (Ok row, a') →
  free_of ":" (pr_provider row) = true →
  glob_literal (pr_provider row) = true → glob_literal (pr_model row) = true →
  (∀ r, r ∈ model_pricing (db a) → pr_provider r = pr_provider row →
        pr_model r = pr_model row → pr_from r < pr_from row) →
  catalogue_ok a' ∧
  (∀ t, price_of <$>
          pricing_row (model_pricing (db a')) (pr_provider row) (pr_model row) t =
        if pr_from row <=? t then Some (pc_input body, pc_output body)
        else price_of <$>
          pricing_row (model_pricing (db a)) (pr_provider row) (pr_model row) t).
Proof.
  intros [Hd Hc Hk] Hrun Hcol Hgp Hgm Hnew. unfold create_pricing in Hrun.
  unfold require_platform_admin, invalidate_pricing_cache in Hrun. app_inv.
  pose (nrow := Build_ModelPrice next_id (normalize_name (pc_provider body))
    (strip (pc_model body)) (pc_input body) (pc_output body)
    (default now (pc_from body)) None).
  split; [split|]; simpl.
  - by apply (newer_disjoint _ nrow).
  - intros r [(r0 & Hr0 & ->)%elem_of_update_where|
      ->%list_elem_of_singleton]%elem_of_app; [|done].
    specialize (Hc r0 Hr0). by destruct (closes _ _ _ r0).
  - eapply invalidate_coherent; [done|done|done|].
    intros r Hr Hne. apply elem_of_app. left. by apply close_price_other.
  - by apply (newer_price _ nrow).
Qed.
End catalogue_properties.

(** A glob matcher for the witnesses: a trailing [*] matches any suffix, every
    other pattern matches itself. *)
Definition glob_prefix (pattern key : string) : bool :=
  if endswith "*" pattern
  then startswith (str_take (String.length pattern - 1) pattern) key
  else String.eqb pattern key.

Lemma endswith_app s t : endswith t (s +:+ t) = true.
Proof.
  induction s as [|c s IH].
  - change (EmptyString +:+ t) with t.
    destruct t; cbn [endswith]; by rewrite String.eqb_refl.
  - rewrite str_app_cons. cbn [endswith]. by rewrite IH, orb_true_r.
Qed.

Lemma str_take_app s t : str_take (String.length s) (s +:+ t) = s.
Proof.
  induction s as [|c s IH]; [by destruct t|].
  rewrite str_app_cons. simpl. by rewrite IH.
Qed.

Lemma glob_prefix_star p s :
  glob_literal p = true → glob_prefix (p +:+ "*") (p +:+ s) = true.
Proof.
  intros _. unfold glob_prefix. rewrite endswith_app, str_app_length.
  replace (String.length p + String.length "*" - 1)%nat with (String.length p)
    by (simpl; lia).
  by rewrite str_take_app, startswith_app.
Qed.

Definition platform_admin : CurrentUser :=
  {| sub := "root"; cu_org := "org"; cu_role := "admin"; cu_platform_admin := true |}.

Definition newer_price_body : PricingCreate :=
  {| pc_provider := " OpenAI "; pc_model := "gpt-4o"; pc_input := mkdec 1 (-3);
     pc_output := mkdec 2 (-3); pc_from := Some 200 |}.

Definition newer_price_row : ModelPrice :=
  {| pr_id := 3; pr_provider := "openai"; pr_model := "gpt-4o";
     pr_input := mkdec 1 (-3); pr_output := mkdec 2 (-3); pr_from := 200;
     pr_to := None |}.

Lemma create_pricing_newer_witness :
  catalogue_ok (create_pricing glob_prefix newer_price_body platform_admin 0 3
                  (app_of_rows sample_rows)).2.
Proof.
  eapply (create_pricing_newer glob_prefix glob_prefix_star
            newer_price_body platform_admin 0 3 (app_of_rows sample_rows)
            newer_price_row);
    [|reflexivity|reflexivity|reflexivity|reflexivity|].
  - split; apply sample_priced.
  - intros r Hr _ _. simpl in Hr. unfold sample_rows in Hr. enum_rows; simpl; lia.
Defined.

(** a backdated price makes the cost depend on cache history. Creating a
    price that starts before an existing price of the same model leaves the new
    interval open, so the two overlap; the table prescribes one price for a
    later span and the cache, warmed by an earlier span, answers with the
    other. *)
Theorem backdated_price_history_dependent :
  ∃ body row a',
    catalogue_ok (app_of_rows sample_rows) ∧
    create_pricing glob_prefix body platform_admin 0 3 (app_of_rows sample_rows)
      = (Ok row, a') ∧
    let fresh := {| app := a'; batch := ∅ |} in
    let warmed := (calculate no_faults "openai" "gpt-4o" 1000 0 60 fresh).2 in
    (calculate no_faults "openai" "gpt-4o" 1000 0 150 fresh).1
    ≠ (calculate no_faults "openai" "gpt-4o" 1000 0 150 warmed).1.
Proof.
  set (body := {| pc_provider := "openai"; pc_model := "gpt-4o"; pc_input := mkdec 9 (-3);
                  pc_output := mkdec 9 (-3); pc_from := Some 50 |}).
  exists body, (Build_ModelPrice 3 "openai" "gpt-4o" (mkdec 9 (-3)) (mkdec 9 (-3)) 50 None),
    (create_pricing glob_prefix body platform_admin 0 3 (app_of_rows sample_rows)).2.
  split; [split; apply sample_priced|].
  split; [reflexivity|]. vm_compute. discriminate.
Qed.
