(* ===== verification/SpanSchema.v ===== *)
(** * Ingest schema

    [backend/app/schemas/ingest.py]: the identifiers, limits and validators a
    span goes through before it is accepted.  The input is a span whose fields
    already have their declared types; the conversions Pydantic does before
    that are not modelled. *)

From S2P Require Import Prelude Text PyVal Decimal Schema.

Local Open Scope Z_scope.

Definition OTLP_ID_NAMESPACE : string := "61f8f03a-8b8b-4f2d-a76f-68162f24f2b4".

Definition ALLOWED_PROVIDERS : list string :=
  ["openai"; "anthropic"; "gigachat"; "yandexgpt"; "ollama"; "gemini";
   "mistral"; "cohere"; "custom"].

(** ** UUID text *)

(** [str(uuid.UUID(int=n))]: 8-4-4-4-12 lowercase hexadecimal digits. *)
Definition str_of_uuid (n : Z) : string :=
  hex_pad 8 (n / 16 ^ 24) +:+ "-" +:+ hex_pad 4 (n / 16 ^ 20 mod 16 ^ 4) +:+ "-"
  +:+ hex_pad 4 (n / 16 ^ 16 mod 16 ^ 4) +:+ "-"
  +:+ hex_pad 4 (n / 16 ^ 12 mod 16 ^ 4) +:+ "-" +:+ hex_pad 12 (n mod 16 ^ 12).

(** [uuid.UUID(value).int]; [None] where the constructor raises ValueError. *)
Definition uuid_of_str (value : string) : option Z :=
  let hex := remove_sub "uuid:" (remove_sub "urn:" value) in
  let hex := remove_char "-"
    (strip_by (λ c, Ascii.eqb c "{" || Ascii.eqb c "}") hex) in
  if (String.length hex =? 32)%nat then
    match int16 hex with
    | Some n => if (0 <=? n) && (n <? 2 ^ 128) then Some n else None
    | None => None
    end
  else None.

Section schema.
(** [uuid.uuid5] (SHA-1). *)
Context (uuid5 : string → string → string).
(** [len(str(metadata))] *)
Context (str_len : list (string * pyval) → Z).

Definition otlp_hex (lowered : string) : bool :=
  negb (contains "-" lowered)
  && ((len lowered =? 16) || (len lowered =? 32))
  && str_all (λ c, existsb (Ascii.eqb c)
       ["0"; "1"; "2"; "3"; "4"; "5"; "6"; "7"; "8"; "9"; "a"; "b"; "c"; "d";
        "e"; "f"]%char) lowered.

Definition normalize_span_identifier (value : option string) (field_name : string)
    : result (option string) :=
  match value with
  | None => Ok None
  | Some value =>
      let value := strip value in
      if negb (truthy value) then Raise (ValueError (field_name +:+ " cannot be empty"))
      else
        let lowered := lower value in
        if otlp_hex lowered then Ok (Some (uuid5 OTLP_ID_NAMESPACE lowered))
        else match uuid_of_str value with
             | Some n => Ok (Some (str_of_uuid n))
             | None => Raise (ValueError
                 (field_name +:+ " must be a valid UUID or OTLP hex ID"))
             end
  end.

Definition normalize_provider (v : string) : string :=
  let v := strip (lower v) in
  if inb v ALLOWED_PROVIDERS then v else "custom".

(** A [datetime]: microseconds on its own clock, and its UTC offset if it has
    one. *)
Record pydatetime : Type := { dt_local : Z; dt_offset : option Z }.

(** A naive value is read as UTC. *)
Definition dt_utc (v : pydatetime) : timestamp :=
  match dt_offset v with None => dt_local v | Some off => dt_local v - off end.

Definition no_future_timestamps (v : pydatetime) (now : timestamp) : result pydatetime :=
  let v_utc := dt_utc v in
  if now + 5 * minute <? v_utc then
    Raise (ValueError "started_at cannot be in the future (max 5 min clock skew)")
  else Ok v.

Definition limit_metadata_size (v : list (string * pyval))
    : result (list (string * pyval)) :=
  if 10000 <? str_len v then Raise (ValueError "metadata exceeds 10KB limit") else Ok v.

(** A span as the client sent it, and a validated span. The latency is the
    decimal its text denotes. *)
Record RawSpan : Type := {
  raw_span_id : option string;
  raw_trace_id : string;
  raw_parent_span_id : option string;
  raw_name : string;
  raw_provider : string;
  raw_model : string;
  raw_input_messages : list pyval;
  raw_output : option string;
  raw_error : option string;
  raw_input_tokens : Z;
  raw_output_tokens : Z;
  raw_latency_ms : decimal;
  raw_started_at : pydatetime;
  raw_metadata : list (string * pyval);
}.

Record SpanSchema : Type := {
  span_id : string;
  trace_id : string;
  parent_span_id : option string;
  name : string;
  provider : string;
  model : string;
  input_messages : list pyval;
  output : option string;
  error : option string;
  input_tokens : Z;
  output_tokens : Z;
  latency_ms : decimal;
  started_at : pydatetime;
  metadata : list (string * pyval);
}.

Definition field_limit (ok : bool) (field : string) : result unit :=
  if ok then Ok tt else Raise (ValueError field).

Definition max_length (n : Z) (s : string) : bool := len s <=? n.
Definition opt_max_length (n : Z) (s : option string) : bool :=
  match s with None => true | Some s => max_length n s end.

(** [0 <= x <= bound] of a decimal, on a common scale. *)
Definition decimal_between (x : decimal) (bound : Z) : bool :=
  let e := Z.min (expo x) 0 in
  let c := coef x * 10 ^ (expo x - e) in
  (0 <=? c) && (c <=? bound * 10 ^ (- e)).

(** [SpanSchema(...)]: the constraints and validators, in field order; the
    first failure is the error. [fresh] is [uuid.uuid4()], used without
    validation when the client sends no span id. *)
Definition validate_span (r : RawSpan) (fresh : string) (now : timestamp)
    : result SpanSchema :=
  sid ← match raw_span_id r with
        | None => Ok (Some fresh)
        | Some v => normalize_span_identifier (Some v) "span_id"
        end;
  _ ← field_limit ((1 <=? len (raw_trace_id r)) && max_length 64 (raw_trace_id r))
        "trace_id";
  tid ← normalize_span_identifier (Some (raw_trace_id r)) "trace_id";
  _ ← field_limit (opt_max_length 64 (raw_parent_span_id r)) "parent_span_id";
  pid ← normalize_span_identifier (raw_parent_span_id r) "parent_span_id";
  _ ← field_limit (max_length 255 (raw_name r)) "name";
  _ ← field_limit (max_length 50 (raw_provider r)) "provider";
  _ ← field_limit (max_length 100 (raw_model r)) "model";
  _ ← field_limit (Z.of_nat (length (raw_input_messages r)) <=? 1000) "input_messages";
  _ ← field_limit (opt_max_length 100000 (raw_output r)) "output";
  _ ← field_limit (opt_max_length 10000 (raw_error r)) "error";
  _ ← field_limit ((0 <=? raw_input_tokens r) && (raw_input_tokens r <=? 10000000))
        "input_tokens";
  _ ← field_limit ((0 <=? raw_output_tokens r) && (raw_output_tokens r <=? 10000000))
        "output_tokens";
  _ ← field_limit (decimal_between (raw_latency_ms r) 3600000) "latency_ms";
  started ← no_future_timestamps (raw_started_at r) now;
  meta ← limit_metadata_size (raw_metadata r);
  Ok {| span_id := default EmptyString sid; trace_id := default EmptyString tid;
        parent_span_id := pid; name := raw_name r;
        provider := normalize_provider (raw_provider r); model := raw_model r;
        input_messages := raw_input_messages r; output := raw_output r;
        error := raw_error r; input_tokens := raw_input_tokens r;
        output_tokens := raw_output_tokens r; latency_ms := raw_latency_ms r;
        started_at := started; metadata := meta |}.

(** [IngestRequest] *)
Record IngestRequest : Type := {
  spans : list SpanSchema;
  idempotency_key : option string;
}.

Definition MAX_SPANS_PER_REQUEST : Z := 100.

(** [validate_all]: the spans of a body, all or the first error. *)
Fixpoint validate_all (l : list (RawSpan * string)) (now : timestamp)
    : result (list SpanSchema) :=
  match l with
  | [] => Ok []
  | (r, fresh) :: l' =>
      s ← validate_span r fresh now;
      ss ← validate_all l' now;
      Ok (s :: ss)
  end.

Definition validate_request (l : list (RawSpan * string)) (key : option string)
    (now : timestamp) : result IngestRequest :=
  ss ← validate_all l now;
  _ ← field_limit ((1 <=? Z.of_nat (length l))
                   && (Z.of_nat (length l) <=? MAX_SPANS_PER_REQUEST)) "spans";
  _ ← field_limit (opt_max_length 128 key) "idempotency_key";
  Ok {| spans := ss; idempotency_key := key |}.
End schema.

(** ** UUID round trip *)

Definition canonical (c : ascii) : bool := hexl c || Ascii.eqb c "-".

Lemma str_of_uuid_canonical n : str_all canonical (str_of_uuid n) = true.
Proof.
  assert (Hh : ∀ k z, str_all canonical (hex_pad k z) = true).
  { intros k z. eapply str_all_impl; [|apply hex_pad_hexl].
    unfold canonical. by intros c ->. }
  unfold str_of_uuid. by rewrite !str_all_app, !Hh.
Qed.

Lemma canonical_facts c : canonical c = true →
  is_space c = false ∧ Ascii.eqb c "u" = false ∧ Ascii.eqb c "{" = false ∧
  Ascii.eqb c "}" = false ∧ lower_char c = c.
Proof. by destruct c as [[] [] [] [] [] [] [] []]. Qed.

Lemma hex_digits_groups n :
  0 <= n < 2 ^ 128 →
  hex_digits 0 true
    (hex_pad 8 (n / 16 ^ 24) +:+ hex_pad 4 (n / 16 ^ 20 mod 16 ^ 4) +:+
     hex_pad 4 (n / 16 ^ 16 mod 16 ^ 4) +:+ hex_pad 4 (n / 16 ^ 12 mod 16 ^ 4)
     +:+ hex_pad 12 (n mod 16 ^ 12)) = Some n.
Proof.
  intros Hn.
  assert (Hstep : ∀ k acc z s, (0 < k)%nat →
    hex_digits acc true (hex_pad k z +:+ s)
    = hex_digits (acc * 16 ^ Z.of_nat k + z mod 16 ^ Z.of_nat k) false s).
  { intros k acc z s Hk. rewrite hex_digits_app; [|apply hex_pad_hexl|].
    - by rewrite hex_digits_pad.
    - intros E. apply (f_equal String.length) in E.
      rewrite hex_pad_length in E. simpl in E. lia. }
  assert (Hu : ∀ k acc z s, (0 < k)%nat →
    hex_digits acc false (hex_pad k z +:+ s) = hex_digits acc true (hex_pad k z +:+ s)).
  { intros k acc z s Hk.
    assert (Hne : hex_pad k z ≠ EmptyString).
    { intros E. apply (f_equal String.length) in E.
      rewrite hex_pad_length in E. simpl in E. lia. }
    by rewrite !(hex_digits_app _ _ _ _ (hex_pad_hexl k z) Hne). }
  rewrite Hstep, Hu, Hstep, Hu, Hstep, Hu, Hstep by lia.
  rewrite <- (str_app_nil_r (hex_pad 12 _)).
  rewrite Hu, Hstep by lia. cbn [hex_digits]. f_equal.
  change (Z.of_nat 8) with 8. change (Z.of_nat 4) with 4. change (Z.of_nat 12) with 12.
  rewrite !Z.mod_mod by lia.
  assert (H8 : n / 16 ^ 24 mod 16 ^ 8 = n / 16 ^ 24).
  { apply Z.mod_small. split; [apply Z.div_pos; lia|].
    apply Z.div_lt_upper_bound; [lia|]. change (16 ^ 24 * 16 ^ 8) with (2 ^ 128). lia. }
  rewrite H8.
  assert (E1 : n / 16 ^ 24 = n / 16 ^ 20 / 16 ^ 4) by (rewrite Z.div_div by lia; done).
  assert (E2 : n / 16 ^ 20 = n / 16 ^ 16 / 16 ^ 4) by (rewrite Z.div_div by lia; done).
  assert (E3 : n / 16 ^ 16 = n / 16 ^ 12 / 16 ^ 4) by (rewrite Z.div_div by lia; done).
  pose proof (Z.div_mod (n / 16 ^ 20) (16 ^ 4) ltac:(lia)) as D1.
  pose proof (Z.div_mod (n / 16 ^ 16) (16 ^ 4) ltac:(lia)) as D2.
  pose proof (Z.div_mod (n / 16 ^ 12) (16 ^ 4) ltac:(lia)) as D3.
  pose proof (Z.div_mod n (16 ^ 12) ltac:(lia)) as D4.
  rewrite <- E1 in D1. rewrite <- E2 in D2. rewrite <- E3 in D3. lia.
Qed.

(** [uuid.UUID(str(u))] is [u], for every 128-bit value. *)
Theorem uuid_roundtrip (n : Z) :
  0 <= n < 2 ^ 128 → uuid_of_str (str_of_uuid n) = Some n.
Proof.
  intros Hn. pose proof (str_of_uuid_canonical n) as Hc.
  assert (Hu : free_of "u" (str_of_uuid n) = true).
  { eapply str_all_free; [|exact Hc]. by intros d (_ & -> & _)%canonical_facts. }
  assert (Hnone : ∀ k z, remove_char "-" (hex_pad k z) = hex_pad k z).
  { intros k z. apply remove_char_free. eapply str_all_free; [|apply hex_pad_hexl].
    by intros d (_ & -> & _)%hexl_facts. }
  unfold uuid_of_str.
  rewrite (remove_sub_free _ _ (str_of_uuid n) Hu), (remove_sub_free _ _ _ Hu).
  rewrite strip_by_none.
  2: { eapply str_all_impl; [|exact Hc].
       by intros d (_ & _ & -> & -> & _)%canonical_facts. }
  unfold str_of_uuid. rewrite !remove_char_app, !Hnone.
  change (remove_char "-" "-") with EmptyString.
  assert (Hnil : ∀ t : string, EmptyString +:+ t = t) by done. rewrite !Hnil.
  set (hex := hex_pad 8 _ +:+ _).
  assert (Hlen : String.length hex = 32%nat).
  { unfold hex. by rewrite !str_app_length, !hex_pad_length. }
  rewrite Hlen. cbn [Nat.eqb].
  rewrite (int16_hexl hex n).
  - destruct (Z.leb_spec 0 n); [|lia]. by destruct (Z.ltb_spec n (2 ^ 128)); [|lia].
  - unfold hex. by rewrite !str_all_app, !hex_pad_hexl.
  - intros E. by rewrite E in Hlen.
  - by apply hex_digits_groups.
Qed.

(** ** Validated spans *)

Lemma rbind_ok_inv {A B} (r : result A) (f : A → result B) b :
  (r ≫= f) = Ok b → ∃ a, r = Ok a ∧ f a = Ok b.
Proof. destruct r as [a|e]; [by exists a|done]. Qed.

Ltac res_inv :=
  repeat match goal with
  | H : (_ ≫= _) = Ok _ |- _ =>
      apply rbind_ok_inv in H; destruct H as (? & ? & H)
  end; simplify_eq/=.

Lemma field_limit_ok b f u : field_limit b f = Ok u → b = true.
Proof. by destruct b. Qed.

#[local] Arguments normalize_span_identifier : simpl never.
#[local] Arguments no_future_timestamps : simpl never.
#[local] Arguments limit_metadata_size : simpl never.
#[local] Arguments field_limit : simpl never.

Section validated.
Context (uuid5 : string → string → string).
Context (str_len : list (string * pyval) → Z).
(** [uuid.uuid5] returns a UUID. *)
Hypothesis uuid5_is_uuid :
  ∀ ns s, ∃ n, 0 <= n < 2 ^ 128 ∧ uuid5 ns s = str_of_uuid n.

Definition is_uuid (s : string) : Prop := ∃ n, 0 <= n < 2 ^ 128 ∧ s = str_of_uuid n.

Lemma uuid_of_str_range s n : uuid_of_str s = Some n → 0 <= n < 2 ^ 128.
Proof.
  unfold uuid_of_str. repeat case_match; try done. intros [= <-].
  match goal with H : _ && _ = true |- _ => apply andb_true_iff in H as [H1 H2] end.
  apply Z.leb_le in H1. apply Z.ltb_lt in H2. done.
Qed.

Lemma normalize_is_uuid v f r :
  normalize_span_identifier uuid5 (Some v) f = Ok r → ∃ s, r = Some s ∧ is_uuid s.
Proof.
  unfold normalize_span_identifier. case_match; [done|]. case_match.
  - intros [= <-]. eexists. split; [done|]. apply uuid5_is_uuid.
  - case_match eqn:E; [|done]. intros [= <-].
    eexists. split; [done|]. eexists. split; [by eapply uuid_of_str_range|done].
Qed.

Lemma contains_dash s1 s2 : contains "-" (s1 +:+ "-" +:+ s2) = true.
Proof.
  induction s1 as [|c s1 IH].
  - change (EmptyString +:+ "-" +:+ s2) with (String "-" s2).
    cbn [contains]. unfold startswith. by destruct s2.
  - rewrite str_app_cons. cbn [contains]. rewrite IH. apply orb_true_r.
Qed.

Lemma str_of_uuid_contains_dash n : contains "-" (str_of_uuid n) = true.
Proof. unfold str_of_uuid. apply contains_dash. Qed.

Lemma str_of_uuid_strip n : strip (str_of_uuid n) = str_of_uuid n.
Proof.
  apply strip_by_none. eapply str_all_impl; [|apply str_of_uuid_canonical].
  by intros c (-> & _)%canonical_facts.
Qed.

Lemma str_of_uuid_lower n : lower (str_of_uuid n) = str_of_uuid n.
Proof.
  eapply lower_fix; [|apply str_of_uuid_canonical].
  by intros c (_ & _ & _ & _ & ?)%canonical_facts.
Qed.

Lemma str_of_uuid_truthy n : truthy (str_of_uuid n) = true.
Proof.
  apply truthy_true. intros E.
  pose proof (str_of_uuid_contains_dash n) as H. by rewrite E in H.
Qed.

Lemma uuid_of_str_of_uuid n : 0 <= n < 2 ^ 128 → uuid_of_str (str_of_uuid n) = Some n.
Proof. apply uuid_roundtrip. Qed.

(** Canonical identifiers are a fixed point of the normalisation. *)
Lemma normalize_canonical s f :
  is_uuid s → normalize_span_identifier uuid5 (Some s) f = Ok (Some s).
Proof.
  intros (n & Hn & ->). unfold normalize_span_identifier, otlp_hex.
  rewrite str_of_uuid_strip, str_of_uuid_truthy, str_of_uuid_lower,
    str_of_uuid_contains_dash.
  cbn [negb andb]. by rewrite uuid_of_str_of_uuid.
Qed.

(** What every stored span satisfies. *)
Record span_ok (now : timestamp) (s : SpanSchema) : Prop := {
  ok_trace : is_uuid (trace_id s);
  ok_parent : ∀ p, parent_span_id s = Some p → is_uuid p;
  ok_provider : provider s ∈ ALLOWED_PROVIDERS;
  ok_input : 0 <= input_tokens s <= 10000000;
  ok_output : 0 <= output_tokens s <= 10000000;
  ok_latency : decimal_between (latency_ms s) 3600000 = true;
  ok_started : dt_utc (started_at s) <= now + 5 * minute;
  ok_name : len (name s) <= 255;
  ok_model : len (model s) <= 100;
  ok_messages : Z.of_nat (length (input_messages s)) <= 1000;
  ok_metadata : str_len (metadata s) <= 10000;
}.

Lemma normalize_provider_allowed v : normalize_provider v ∈ ALLOWED_PROVIDERS.
Proof.
  unfold normalize_provider. case_match eqn:E; [by apply inb_true|].
  apply inb_true. by vm_compute.
Qed.

Lemma validate_span_ok r fresh now s :
  validate_span uuid5 str_len r fresh now = Ok s → span_ok now s.
Proof.
  unfold validate_span. intros H. res_inv.
  repeat match goal with
  | H : field_limit _ _ = Ok _ |- _ => apply field_limit_ok in H
  | H : _ && _ = true |- _ => apply andb_true_iff in H; destruct H
  | H : (_ <=? _) = true |- _ => apply Z.leb_le in H
  | H : max_length _ _ = true |- _ => unfold max_length in H
  end.
  constructor; simpl; try done.
  - match goal with H : normalize_span_identifier _ (Some (raw_trace_id r)) _ = _ |- _ =>
      apply normalize_is_uuid in H as (? & -> & ?) end. done.
  - intros p ->.
    match goal with H : normalize_span_identifier _ (raw_parent_span_id r) _ = _ |- _ =>
      destruct (raw_parent_span_id r); [|done];
      apply normalize_is_uuid in H as (? & [= <-] & ?) end. done.
  - apply normalize_provider_allowed.
  - match goal with H : no_future_timestamps _ _ = _ |- _ =>
      unfold no_future_timestamps in H; case_match eqn:E; [done|];
      apply Z.ltb_ge in E; injection H as <- end. done.
  - match goal with H : limit_metadata_size _ _ = _ |- _ =>
      unfold limit_metadata_size in H; case_match eqn:E; [done|];
      apply Z.ltb_ge in E; injection H as <- end. done.
Qed.

Lemma validate_all_ok l now ss :
  validate_all uuid5 str_len l now = Ok ss →
  length ss = length l ∧ Forall (span_ok now) ss.
Proof.
  revert ss. induction l as [|[r fresh] l IH]; intros ss H; simpl in H.
  - by simplify_eq/=.
  - res_inv.
    match goal with H : validate_all _ _ _ _ = _ |- _ => apply IH in H as [? ?] end.
    split; [simpl; lia|]. constructor; [by eapply validate_span_ok|done].
Qed.

(** the spans of an accepted body are as many as were sent, between 1 and
    100, and each has canonical UUID identifiers, a known provider, token
    counts and latency in range, and a start at most five minutes ahead; a
    body with more than 100 spans is therefore rejected. *)
Theorem validate_request_ok (l : list (RawSpan * string)) key now req :
  validate_request uuid5 str_len l key now = Ok req →
  length (spans req) = length l ∧ (1 <= Z.of_nat (length l) <= 100) ∧
  Forall (span_ok now) (spans req) ∧
  ∀ k, idempotency_key req = Some k → len k <= 128.
Proof.
  unfold validate_request. intros H. res_inv.
  match goal with H : validate_all _ _ _ _ = _ |- _ =>
    apply validate_all_ok in H as [? ?] end.
  repeat match goal with
  | H : field_limit _ _ = Ok _ |- _ => apply field_limit_ok in H
  | H : _ && _ = true |- _ => apply andb_true_iff in H; destruct H
  | H : (_ <=? _) = true |- _ => apply Z.leb_le in H
  end.
  split_and!; try done. intros k ->. by apply Z.leb_le.
Qed.

(** [normalize_span_identifier] returns a canonical UUID whatever spelling
    of the identifier it accepts, and normalising its result changes nothing,
    so a span that is retried or relayed keeps its identity. *)
Theorem normalize_span_identifier_idempotent v f u :
  normalize_span_identifier uuid5 (Some v) f = Ok (Some u) →
  is_uuid u ∧ ∀ f', normalize_span_identifier uuid5 (Some u) f' = Ok (Some u).
Proof.
  intros H. apply normalize_is_uuid in H as (s & [= <-] & Hs).
  split; [done|]. intros f'. by apply normalize_canonical.
Qed.
End validated.

(** A constant [uuid5] for the witnesses. *)
Definition uuid5_zero (ns s : string) : string := str_of_uuid 0.

Lemma uuid5_zero_is_uuid ns s : ∃ n, 0 <= n < 2 ^ 128 ∧ uuid5_zero ns s = str_of_uuid n.
Proof. exists 0. split; [lia|done]. Qed.

Lemma normalize_span_identifier_idempotent_witness :
  is_uuid "00112233-4455-6677-8899-aabbccddeeff" ∧
  ∀ f', normalize_span_identifier uuid5_zero
          (Some "00112233-4455-6677-8899-aabbccddeeff") f'
        = Ok (Some "00112233-4455-6677-8899-aabbccddeeff").
Proof.
  apply (normalize_span_identifier_idempotent uuid5_zero uuid5_zero_is_uuid
    " {00112233-4455-6677-8899-AABBCCDDEEFF} " "trace_id").
  by vm_compute.
Defined.

Definition sample_raw : RawSpan := {|
  raw_span_id := None; raw_trace_id := "0123456789abcdef";
  raw_parent_span_id := None; raw_name := "llm_call"; raw_provider := " OpenAI ";
  raw_model := "gpt-4o"; raw_input_messages := []; raw_output := Some "hi";
  raw_error := None; raw_input_tokens := 12; raw_output_tokens := 3;
  raw_latency_ms := mkdec 1205 (-1);
  raw_started_at := {| dt_local := 3 * hour; dt_offset := Some hour |};
  raw_metadata := [] |}.

Definition sample_request : IngestRequest :=
  match validate_request uuid5_zero (λ _, 2) [(sample_raw, str_of_uuid 7)]
          (Some "k") (2 * hour) with
  | Ok r => r
  | Raise _ => {| spans := []; idempotency_key := None |}
  end.

Lemma validate_request_ok_witness :
  length (spans sample_request) = 1%nat ∧ (1 <= 1 <= 100) ∧
  Forall (span_ok (λ _, 2) (2 * hour)) (spans sample_request) ∧
  ∀ k, idempotency_key sample_request = Some k → len k <= 128.
Proof.
  apply (validate_request_ok uuid5_zero (λ _, 2) uuid5_zero_is_uuid
    [(sample_raw, str_of_uuid 7)] (Some "k") (2 * hour)).
  by vm_compute.
Defined.
