(* ===== verification/Pipeline.v ===== *)
(** * State of the ingestion pipeline

    What the ingest API and the workers share: the telemetry tables
    ([models/span.py], [models/trace.py], [models/outbox_event.py],
    [models/span_metric_bucket.py], [models/idempotency_record.py]), the batch
    statuses in Redis, the objects of the payload bucket, the broker queue of
    [core/taskiq.py] and the channels of [services/pubsub.py], with the faults
    the environment has in store.

    Every call to Redis, PostgreSQL, the broker or the object store takes the
    next entry of [w_faults]: [Some e] makes it raise [e], [None] and an
    exhausted list let it through.  A claim that holds for every list holds
    for every pattern of failures.  Columns of a fixed scale hold the scaled
    integer: costs in units of 10^-8 dollars, bucket latencies in units of
    10^-3 milliseconds.  UUIDs are their 128-bit values. *)

From S2P Require Import Prelude Text PyVal Decimal Schema App Cost SpanSchema Storage.

Local Open Scope Z_scope.

Record SpanRow : Type := {
  sp_id : Z; sp_trace : Z; sp_project : Z; sp_parent : option Z;
  sp_name : string; sp_provider : string; sp_model : string;
  sp_input : Z; sp_output : Z; sp_cost : Z; sp_latency : decimal;
  sp_status : string; sp_error : option string; sp_started : timestamp;
  sp_payload_key : option string; sp_payload_status : payload_status;
  sp_drop_reason : option string; sp_metadata : string;
}.

Record TraceRow : Type := {
  tr_id : Z; tr_project : Z; tr_started : timestamp; tr_ended : option timestamp;
  tr_tokens : Z; tr_cost : Z; tr_spans : Z; tr_status : string;
}.

Inductive outbox_status : Type := PENDING | PROCESSING | DELIVERED | FAILED.

#[export] Instance outbox_status_eq_dec : EqDecision outbox_status.
Proof. solve_decision. Defined.

Record OutboxEvent : Type := {
  ob_id : Z; ob_project : Z; ob_type : string; ob_key : string;
  ob_payload : string; ob_status : outbox_status; ob_attempts : Z;
  ob_available : timestamp; ob_locked : option timestamp;
  ob_delivered : option timestamp; ob_error : option string;
  ob_created : timestamp;
}.

Record MetricBucket : Type := {
  bk_spans : Z; bk_errors : Z; bk_cost : Z; bk_latency : Z;
}.

(** [IngestResponse] *)
Record IngestResponse : Type := { resp_batch : string; resp_accepted : Z }.

#[export] Instance IngestResponse_eq_dec : EqDecision IngestResponse.
Proof. solve_decision. Defined.

Inductive idempotency_status : Type := IPending | ICommitted | IFailed.

#[export] Instance idempotency_status_eq_dec : EqDecision idempotency_status.
Proof. solve_decision. Defined.

Record IdempotencyRecord : Type := {
  ir_hash : string; ir_status : idempotency_status;
  ir_result : option IngestResponse;
}.

(** The JSON value under [ingest_batch:{project}:{batch}]. *)
Record BatchStatus : Type := {
  b_batch : string; b_status : string; b_accepted : Z; b_processed : Z;
  b_failed : Z; b_error : option string; b_created : timestamp;
  b_updated : timestamp;
}.

(** One span of a task's arguments: the JSON object [SpanSchema.model_dump]
    writes.  [None] is a key that is absent; a value that may be null or
    absent with the same effect is one option. *)
Record SpanData : Type := {
  sd_span_id : option string; sd_trace_id : option string;
  sd_parent : option string; sd_name : option string;
  sd_provider : option string; sd_model : option string;
  sd_input : option Z; sd_output : option Z; sd_latency : option decimal;
  sd_error : option string; sd_started : option string;
  sd_messages : list pyval; sd_text : option string;
  sd_metadata : list (string * pyval);
}.

Inductive Task : Type :=
| process_span_batch_task (batch_id project_id : string) (spans : list SpanData)
| deliver_span_outbox_events_task (project_id : option string)
| update_trace_aggregates_task (project_id : string) (trace_id : Z)
    (started_at : timestamp)
| check_batch_anomalies_task (project_id : string) (spans : list SpanData).

Record World : Type := {
  w_app : App;
  w_pricing : intervals;
  w_spans : list SpanRow;
  w_traces : list TraceRow;
  w_outbox : list OutboxEvent;
  w_buckets : gmap (Z * timestamp) MetricBucket;
  w_idempotency : gmap (string * string) IdempotencyRecord;
  w_batches : gmap string (BatchStatus * timestamp);
  w_objects : gmap string string;
  w_queue : list Task;
  w_published : list (string * string);
  w_now : timestamp;
  w_faults : list (option exn);
}.

Definition set_w_app (f : App → App) (w : World) : World :=
  Build_World (f (w_app w)) (w_pricing w) (w_spans w) (w_traces w) (w_outbox
    w) (w_buckets w) (w_idempotency w) (w_batches w) (w_objects w) (w_queue
    w) (w_published w) (w_now w) (w_faults w).
Definition set_w_pricing (f : intervals → intervals) (w : World) : World :=
  Build_World (w_app w) (f (w_pricing w)) (w_spans w) (w_traces w) (w_outbox
    w) (w_buckets w) (w_idempotency w) (w_batches w) (w_objects w) (w_queue
    w) (w_published w) (w_now w) (w_faults w).
Definition set_w_spans (f : list SpanRow → list SpanRow) (w : World) : World :=
  Build_World (w_app w) (w_pricing w) (f (w_spans w)) (w_traces w) (w_outbox
    w) (w_buckets w) (w_idempotency w) (w_batches w) (w_objects w) (w_queue
    w) (w_published w) (w_now w) (w_faults w).
Definition set_w_traces (f : list TraceRow → list TraceRow) (w : World) : World :=
  Build_World (w_app w) (w_pricing w) (w_spans w) (f (w_traces w)) (w_outbox
    w) (w_buckets w) (w_idempotency w) (w_batches w) (w_objects w) (w_queue
    w) (w_published w) (w_now w) (w_faults w).
Definition set_w_outbox (f : list OutboxEvent → list OutboxEvent) (w : World) : World :=
  Build_World (w_app w) (w_pricing w) (w_spans w) (w_traces w) (f (w_outbox
    w)) (w_buckets w) (w_idempotency w) (w_batches w) (w_objects w) (w_queue
    w) (w_published w) (w_now w) (w_faults w).
Definition set_w_buckets (f : gmap (Z * timestamp) MetricBucket → gmap (Z * timestamp) MetricBucket) (w : World) : World :=
  Build_World (w_app w) (w_pricing w) (w_spans w) (w_traces w) (w_outbox w)
    (f (w_buckets w)) (w_idempotency w) (w_batches w) (w_objects w) (w_queue
    w) (w_published w) (w_now w) (w_faults w).
Definition set_w_idempotency (f : gmap (string * string) IdempotencyRecord → gmap (string * string) IdempotencyRecord) (w : World) : World :=
  Build_World (w_app w) (w_pricing w) (w_spans w) (w_traces w) (w_outbox w)
    (w_buckets w) (f (w_idempotency w)) (w_batches w) (w_objects w) (w_queue
    w) (w_published w) (w_now w) (w_faults w).
Definition set_w_batches (f : gmap string (BatchStatus * timestamp) → gmap string (BatchStatus * timestamp)) (w : World) : World :=
  Build_World (w_app w) (w_pricing w) (w_spans w) (w_traces w) (w_outbox w)
    (w_buckets w) (w_idempotency w) (f (w_batches w)) (w_objects w) (w_queue
    w) (w_published w) (w_now w) (w_faults w).
Definition set_w_objects (f : gmap string string → gmap string string) (w : World) : World :=
  Build_World (w_app w) (w_pricing w) (w_spans w) (w_traces w) (w_outbox w)
    (w_buckets w) (w_idempotency w) (w_batches w) (f (w_objects w)) (w_queue
    w) (w_published w) (w_now w) (w_faults w).
Definition set_w_queue (f : list Task → list Task) (w : World) : World :=
  Build_World (w_app w) (w_pricing w) (w_spans w) (w_traces w) (w_outbox w)
    (w_buckets w) (w_idempotency w) (w_batches w) (w_objects w) (f (w_queue
    w)) (w_published w) (w_now w) (w_faults w).
Definition set_w_published (f : list (string * string) → list (string * string)) (w : World) : World :=
  Build_World (w_app w) (w_pricing w) (w_spans w) (w_traces w) (w_outbox w)
    (w_buckets w) (w_idempotency w) (w_batches w) (w_objects w) (w_queue w)
    (f (w_published w)) (w_now w) (w_faults w).
Definition set_w_now (f : timestamp → timestamp) (w : World) : World :=
  Build_World (w_app w) (w_pricing w) (w_spans w) (w_traces w) (w_outbox w)
    (w_buckets w) (w_idempotency w) (w_batches w) (w_objects w) (w_queue w)
    (w_published w) (f (w_now w)) (w_faults w).
Definition set_w_faults (f : list (option exn) → list (option exn)) (w : World) : World :=
  Build_World (w_app w) (w_pricing w) (w_spans w) (w_traces w) (w_outbox w)
    (w_buckets w) (w_idempotency w) (w_batches w) (w_objects w) (w_queue w)
    (w_published w) (w_now w) (f (w_faults w)).

(** ** Input and output *)

(** The text of an exception, [str(e)]. *)
Definition exn_str (e : exn) : string :=
  match e with
  | ValueError msg | TypeError msg | RuntimeError msg | ParserError msg
  | SQLAlchemyError msg | RedisError msg | BotoCoreError msg | OtherError msg => msg
  | KeyError key => "'" +:+ key +:+ "'"
  | ClientError c _ => "An error occurred (" +:+ c +:+ ")"
  | HTTPException c detail => str_of_int c +:+ ": " +:+ detail
  | InvalidOperation => "[<class 'decimal.InvalidOperation'>]"
  | _ => EmptyString
  end.

(** The environment's answer to the next call. *)
Definition next_fault : M World (option exn) := λ w,
  match w_faults w with
  | [] => (Ok None, w)
  | o :: rest => (Ok o, set_w_faults (λ _, rest) w)
  end.

Definition io : M World unit :=
  o ← next_fault;
  match o with Some e => raise e | None => mret tt end.

Definition now : M World timestamp := gets w_now.

(** What a session that raises undoes: the tables, not Redis, the broker, the
    object store or the clock. *)
Definition db_rollback (before after : World) : World :=
  set_w_spans (λ _, w_spans before) (set_w_traces (λ _, w_traces before)
    (set_w_outbox (λ _, w_outbox before) (set_w_buckets (λ _, w_buckets before)
      (set_w_idempotency (λ _, w_idempotency before) after)))).

(** [async with get_db() as db: m].  A session writes nothing after its
    [db.commit()], so undoing the whole block on a raise undoes exactly what
    was not committed. *)
Definition get_db {A} (m : M World A) : M World A := atomic db_rollback m.

Definition commit : M World unit := io.

(** [await db.execute(...)] of a statement that writes, or that reads. *)
Definition sql_exec (f : World → World) : M World unit := io ;; modify f.
Definition sql_query {A} (f : World → A) : M World A := io ;; gets f.

(** [await task.kiq(...)] *)
Definition kiq (t : Task) : M World unit :=
  io ;; modify (set_w_queue (λ q, q ++ [t])).

(** [uuid.UUID(s)] *)
Definition parse_uuid (s : string) : result Z :=
  match uuid_of_str s with
  | Some n => Ok n
  | None => Raise (ValueError "badly formed hexadecimal UUID string")
  end.

(** ** Facts *)

(** Part of the state a handler leaves alone. *)
Definition preserves {S A B} (f : S → B) (m : M S A) : Prop :=
  ∀ s, f (m s).2 = f s.

Lemma preserves_keeps {S A B} (f : S → B) (m : M S A) :
  preserves f m ↔ ∀ b, keeps (λ s, f s = b) m.
Proof.
  split.
  - intros H b s <-. apply H.
  - intros H s. by apply (H (f s)).
Qed.

Section preserves.
Context {S B : Type} (f : S → B).

Lemma preserves_ret {A} (a : A) : preserves f (mret a : M S A).
Proof. done. Qed.
Lemma preserves_raise {A} e : preserves f (raise e : M S A).
Proof. done. Qed.
Lemma preserves_gets {A} (g : S → A) : preserves f (gets g).
Proof. done. Qed.
Lemma preserves_lift {A} (r : result A) : preserves f (lift r : M S A).
Proof. done. Qed.
Lemma preserves_raise_when b e : preserves f (raise_when b e : M S unit).
Proof. by destruct b. Qed.
Lemma preserves_modify g : (∀ s, f (g s) = f s) → preserves f (modify g).
Proof. intros Hg s. apply Hg. Qed.
Lemma preserves_bind {A C} (m : M S A) (k : A → M S C) :
  preserves f m → (∀ a, preserves f (k a)) → preserves f (m ≫= k).
Proof.
  intros Hm Hk s. unfold mbind, M_bind. specialize (Hm s).
  destruct (m s) as [[a|e] s']; simpl in *; [by rewrite Hk|done].
Qed.
Lemma preserves_try {A} (m : M S A) h :
  preserves f m → (∀ e, preserves f (h e)) → preserves f (try_except m h).
Proof.
  intros Hm Hh s. unfold try_except. specialize (Hm s).
  destruct (m s) as [[a|e] s']; simpl in *; [done|by rewrite Hh].
Qed.
Lemma preserves_for_each {A} (l : list A) k :
  (∀ x, preserves f (k x)) → preserves f (for_each l k).
Proof.
  intros Hk. induction l as [|x l IH]; simpl; [done|]. by apply preserves_bind.
Qed.
Lemma preserves_atomic {A} restore (m : M S A) :
  preserves f m → (∀ s s', f s' = f s → f (restore s s') = f s) →
  preserves f (atomic restore m).
Proof.
  intros Hm Hr s. unfold atomic. specialize (Hm s).
  destruct (m s) as [[a|e] s']; simpl in *; [done|by apply Hr].
Qed.
End preserves.

Create HintDb preserves discriminated.
#[export] Hint Resolve preserves_ret preserves_raise preserves_gets preserves_lift
  preserves_raise_when preserves_bind preserves_try : preserves.
#[export] Hint Extern 1 (∀ _, preserves _ _) => intros : preserves.
#[export] Hint Extern 2 (preserves _ (modify _)) =>
  apply preserves_modify; intros; reflexivity : preserves.
#[export] Hint Extern 3 (preserves _ (match ?x with _ => _ end)) =>
  destruct x : preserves.

(** The parts of the state the environment's answers do not touch. *)
Lemma next_fault_preserves {B} (f : World → B) :
  (∀ g w, f (set_w_faults g w) = f w) → preserves f next_fault.
Proof. intros Hf w. unfold next_fault. destruct (w_faults w); simpl; [done|by rewrite Hf]. Qed.

Lemma io_preserves {B} (f : World → B) :
  (∀ g w, f (set_w_faults g w) = f w) → preserves f io.
Proof.
  intros Hf. apply preserves_bind; [by apply next_fault_preserves|].
  intros [e|]; auto with preserves.
Qed.

#[export] Hint Extern 1 (preserves _ io) => apply io_preserves; reflexivity : preserves.
#[export] Hint Extern 1 (preserves _ next_fault) =>
  apply next_fault_preserves; reflexivity : preserves.

Lemma get_db_preserves {A B} (f : World → B) (m : M World A) :
  preserves f m → (∀ w w', f w' = f w → f (db_rollback w w') = f w) →
  preserves f (get_db m).
Proof. apply preserves_atomic. Qed.

Lemma io_ok_inv w u w' : io w = (Ok u, w') → ∃ fs, w' = set_w_faults (λ _, fs) w.
Proof.
  unfold io, next_fault, mbind, M_bind. destruct (w_faults w) as [|[e|] rest] eqn:E.
  - intros [= _ <-]. exists []. destruct w; simpl in *; by subst.
  - done.
  - intros [= _ <-]. by eexists.
Qed.

Lemma io_run w : w_faults w = [] → io w = (Ok tt, w).
Proof. unfold io, next_fault, mbind, M_bind. by intros ->. Qed.

(** What a raise inside a session leaves: the tables of before. *)
Record same_tables (w w' : World) : Prop := {
  same_spans : w_spans w' = w_spans w;
  same_traces : w_traces w' = w_traces w;
  same_outbox : w_outbox w' = w_outbox w;
  same_buckets : w_buckets w' = w_buckets w;
  same_idempotency : w_idempotency w' = w_idempotency w;
}.

Lemma get_db_raise {A} (m : M World A) w e w' :
  get_db m w = (Raise e, w') → same_tables w w'.
Proof. by intros (w1 & ->)%atomic_raise. Qed.

Lemma get_db_ok {A} (m : M World A) w a w' :
  get_db m w = (Ok a, w') → m w = (Ok a, w').
Proof. unfold get_db, atomic. by destruct (m w) as [[]]. Qed.

Lemma sql_exec_ok f w u w' :
  sql_exec f w = (Ok u, w') → ∃ fs, w' = f (set_w_faults (λ _, fs) w).
Proof.
  unfold sql_exec. intros H. run_inv.
  match goal with H : io _ = _ |- _ => apply io_ok_inv in H as (fs & ->) end.
  by exists fs.
Qed.

Lemma sql_query_ok {A} (f : World → A) w a w' :
  sql_query f w = (Ok a, w') →
  ∃ fs, w' = set_w_faults (λ _, fs) w ∧ a = f w'.
Proof.
  unfold sql_query. intros H. run_inv.
  match goal with H : io _ = _ |- _ => apply io_ok_inv in H as (fs & ->) end.
  by exists fs.
Qed.

Lemma kiq_ok t w u w' :
  kiq t w = (Ok u, w') →
  ∃ fs, w' = set_w_queue (λ q, q ++ [t]) (set_w_faults (λ _, fs) w).
Proof. apply sql_exec_ok. Qed.

(** ** Automation *)

Lemma try_ok_inv {S A} (m : M S A) h s a s' :
  try_except m h s = (Ok a, s') →
  (m s = (Ok a, s')) ∨ ∃ e s1, m s = (Raise e, s1) ∧ h e s1 = (Ok a, s').
Proof. unfold try_except. destruct (m s) as [[x|e] s1]; naive_solver. Qed.

Lemma bind_raise_inv {S A B} (m : M S A) (k : A → M S B) s e s' :
  (m ≫= k) s = (Raise e, s') →
  m s = (Raise e, s') ∨ ∃ a s1, m s = (Ok a, s1) ∧ k a s1 = (Raise e, s').
Proof. unfold mbind, M_bind. destruct (m s) as [[a|x] s1]; naive_solver. Qed.

(** Solves [preserves] goals about code made of the monad's operations. *)
Ltac preserve := repeat (intros; eauto 20 with preserves).

(** Inverts a handler over [World] that returned. *)
Ltac world_inv :=
  repeat first
    [ progress run_inv
    | match goal with
      | H : io _ = (Ok _, _) |- _ => apply io_ok_inv in H; destruct H as (? & H)
      | H : commit _ = (Ok _, _) |- _ => apply io_ok_inv in H; destruct H as (? & H)
      | H : now _ = (Ok _, _) |- _ => unfold now in H
      | H : lift _ _ = (Ok _, _) |- _ => apply lift_ok in H; destruct H as [? ?]
      | H : get_db _ _ = (Ok _, _) |- _ => apply get_db_ok in H
      | H : sql_exec _ _ = (Ok _, _) |- _ =>
          apply sql_exec_ok in H; destruct H as (? & H)
      | H : sql_query _ _ = (Ok _, _) |- _ =>
          apply sql_query_ok in H; destruct H as (? & H & ?)
      | H : kiq _ _ = (Ok _, _) |- _ => apply kiq_ok in H; destruct H as (? & H)
      end ];
  simplify_eq/=.

(** Evaluates a handler whose next answers are known. *)
Ltac evaluate :=
  repeat (unfold mbind, M_bind, try_except, get_db, atomic, commit, sql_exec, sql_query,
            io, next_fault, modify, gets, raise, now, lift, mret, M_ret, kiq in *;
          simpl in *).

(** ** A world with nothing in it yet *)

Definition empty_app : App :=
  {| db := empty_db; apikey_cache := ∅; pricing_cache := ∅; audit_fault := None |}.

Definition empty_world (t : timestamp) (faults : list (option exn)) : World :=
  Build_World empty_app ∅ [] [] [] ∅ ∅ ∅ ∅ [] [] t faults.

(** ** Reading *)

(** A world apart from the answers to come. *)
Definition clear (w : World) : World := set_w_faults (λ _, []) w.

Lemma clear_faults g w : clear (set_w_faults g w) = clear w.
Proof. by destruct w. Qed.

(** A computation that only reads, and gives the same without faults. *)
Definition reads {A} (m : M World A) : Prop :=
  preserves clear m ∧ ∀ w r w', m w = (Ok r, w') → m (clear w) = (Ok r, clear w).

Lemma reads_ret {A} (x : A) : reads (mret x).
Proof. split; [done|]. by intros w r w' [= -> _]. Qed.

Lemma reads_lift {A} (r : result A) : reads (lift r).
Proof. split; [done|]. intros w x w' [= -> _]. done. Qed.

Lemma reads_raise {A} e : reads (raise e : M World A).
Proof. split; [done|]. by intros w x w' H. Qed.

Lemma reads_gets {A} (f : World → A) : (∀ w, f (clear w) = f w) → reads (gets f).
Proof. intros Hf. split; [done|]. intros w x w' [= <- _]. unfold gets. by rewrite Hf. Qed.

Lemma reads_io : reads io.
Proof.
  split; [apply io_preserves; intros; apply clear_faults|].
  intros w [] w' _. by apply io_run.
Qed.

Lemma reads_bind {A B} (m : M World A) (k : A → M World B) :
  reads m → (∀ x, reads (k x)) → reads (m ≫= k).
Proof.
  intros [Hp Hm] Hk. split.
  - apply preserves_bind; [done|]. intros x. by destruct (Hk x).
  - intros w r w'. intros (x & w1 & E1 & E2)%bind_ok_inv.
    rewrite (bind_run _ _ _ _ _ (Hm _ _ _ E1)).
    pose proof (Hp w) as Hw. rewrite E1 in Hw. cbn in Hw. rewrite <- Hw.
    by apply (Hk x) in E2.
Qed.

Lemma reads_query {A} (f : World → A) : (∀ w, f (clear w) = f w) → reads (sql_query f).
Proof. intros Hf. apply reads_bind; [apply reads_io|]. intros _. by apply reads_gets. Qed.

(** A session that only reads has nothing to roll back. *)
Lemma reads_get_db {A} (m : M World A) : reads m → reads (get_db m).
Proof.
  intros [Hp Hm]. unfold get_db, atomic. split.
  - intros w. specialize (Hp w). destruct (m w) as [[r|e] w1]; [exact Hp|].
    destruct w, w1. unfold clear, set_w_faults in *. cbn in *. congruence.
  - intros w r w'. specialize (Hm w). destruct (m w) as [[x|e] w1]; [|done].
    intros [= -> ->]. by rewrite (Hm r w' eq_refl).
Qed.

Create HintDb reads discriminated.
#[export] Hint Resolve reads_ret reads_lift reads_raise reads_gets reads_query reads_bind
  reads_get_db : reads.
#[export] Hint Extern 1 (∀ _, reads _) => intros : reads.
#[export] Hint Extern 1 (∀ _, _ = _) => done : reads.
