(* ===== verification/Ingest.v ===== *)
(** * Accepting batches

    [backend/app/services/ingest.py] and [backend/app/api/v1/ingest.py]: the
    status record of a batch, the idempotency store, the ingest endpoint.
    [Module Interleaving] runs several requests at once, a step for each SQL
    statement. *)

From S2P Require Import Prelude Text PyVal Json Decimal Schema App SpanSchema Pipeline.

Local Open Scope Z_scope.

Definition BATCH_STATUS_TTL : Z := 86400 * second.

(** ** BatchStatusService *)

Definition batch_key (project_id batch_id : string) : string :=
  "ingest_batch:" +:+ project_id +:+ ":" +:+ batch_id.

(** [redis.get]: a key whose expiry has passed is gone. *)
Definition batch_lookup (key : string) (w : World) : option BatchStatus :=
  match w_batches w !! key with
  | Some (b, expires) => if w_now w <? expires then Some b else None
  | None => None
  end.

Definition get_batch (project_id batch_id : string) : M World (option BatchStatus) :=
  io ;; gets (batch_lookup (batch_key project_id batch_id)).

Definition _save (project_id batch_id : string) (status : BatchStatus)
    : M World unit :=
  io ;;
  t ← now;
  modify (set_w_batches <[batch_key project_id batch_id := (status, t + BATCH_STATUS_TTL)]>).

Definition create_accepted (project_id batch_id : string) (accepted : Z)
    : M World unit :=
  t ← now;
  _save project_id batch_id
    {| b_batch := batch_id; b_status := "accepted"; b_accepted := accepted;
       b_processed := 0; b_failed := 0; b_error := None;
       b_created := t; b_updated := t |}.

(** [_merge]: [updates] is [status.update(updates)]. *)
Definition _merge (project_id batch_id : string)
    (updates : BatchStatus → BatchStatus) : M World unit :=
  existing ← get_batch project_id batch_id;
  t ← now;
  let status := match existing with
                | Some b => b
                | None => {| b_batch := batch_id; b_status := EmptyString;
                             b_accepted := 0; b_processed := 0; b_failed := 0;
                             b_error := None; b_created := t; b_updated := t |}
                end in
  let status := updates status in
  _save project_id batch_id
    {| b_batch := b_batch status; b_status := b_status status;
       b_accepted := b_accepted status; b_processed := b_processed status;
       b_failed := b_failed status; b_error := b_error status;
       b_created := b_created status; b_updated := t |}.

Definition mark_processing (project_id batch_id : string) : M World unit :=
  _merge project_id batch_id (λ b,
    {| b_batch := b_batch b; b_status := "processing"; b_accepted := b_accepted b;
       b_processed := b_processed b; b_failed := b_failed b; b_error := None;
       b_created := b_created b; b_updated := b_updated b |}).

Definition mark_finished (project_id batch_id : string) (processed failed : Z)
    : M World unit :=
  _merge project_id batch_id (λ b,
    {| b_batch := b_batch b;
       b_status := if negb (failed =? 0) then "partial_failed" else "processed";
       b_accepted := b_accepted b; b_processed := processed; b_failed := failed;
       b_error := None; b_created := b_created b; b_updated := b_updated b |}).

Definition mark_failed (project_id batch_id error : string) : M World unit :=
  _merge project_id batch_id (λ b,
    {| b_batch := b_batch b; b_status := "failed"; b_accepted := b_accepted b;
       b_processed := b_processed b; b_failed := b_failed b;
       b_error := Some (str_take 1000 error);
       b_created := b_created b; b_updated := b_updated b |}).

(** ** PostgresIdempotencyStore

    The three statements, on the table keyed by project and key. *)
Abbreviation idempotency_table := (gmap (string * string) IdempotencyRecord).

(** [INSERT ... 'PENDING' ... ON CONFLICT DO NOTHING RETURNING status] *)
Definition insert_pending (pk : string * string) (request_hash : string)
    (result : IngestResponse) (t : idempotency_table) : bool * idempotency_table :=
  match t !! pk with
  | Some _ => (false, t)
  | None => (true, <[pk := {| ir_hash := request_hash; ir_status := IPending;
                              ir_result := Some result |}]> t)
  end.

(** [UPDATE ... SET status = 'PENDING', result = ...] by key alone. *)
Definition reopen (pk : string * string) (result : IngestResponse)
    (t : idempotency_table) : idempotency_table :=
  alter (λ r, {| ir_hash := ir_hash r; ir_status := IPending;
                 ir_result := Some result |}) pk t.

(** [_set_status]: by key and request hash. *)
Definition set_status (pk : string * string) (request_hash : string)
    (status : idempotency_status) (result : option IngestResponse)
    (t : idempotency_table) : idempotency_table :=
  alter (λ r, if String.eqb (ir_hash r) request_hash
              then {| ir_hash := ir_hash r; ir_status := status; ir_result := result |}
              else r) pk t.

(** What [reserve] does with the row it selected: [Ok (Some r)] replays,
    [Ok None] goes on to reopen the record. *)
Definition judge_record (request_hash : string) (row : IdempotencyRecord)
    : result (option IngestResponse * bool) :=
  if negb (String.eqb (ir_hash row) request_hash) then Raise IdempotencyConflictError
  else match ir_status row with
       | ICommitted => Ok (ir_result row, false)
       | IFailed => Ok (None, true)
       | IPending => Raise IdempotencyInProgressError
       end.

Definition reserve (project_id key request_hash : string) (result : IngestResponse)
    : M World (option IngestResponse) :=
  let pk := (project_id, key) in
  get_db (
    io ;;
    inserted ← gets (λ w, (insert_pending pk request_hash result (w_idempotency w)).1);
    modify (set_w_idempotency (λ t, (insert_pending pk request_hash result t).2)) ;;
    if (inserted : bool) then commit ;; mret None
    else
      row ← sql_query (λ w, w_idempotency w !! pk);
      match row with
      | None => raise (OtherError "NoResultFound")
      | Some row =>
          verdict ← lift (judge_record request_hash row);
          if (verdict.2 : bool)
          then sql_exec (set_w_idempotency (reopen pk result)) ;; commit ;; mret None
          else mret verdict.1
      end).

Definition _set_status (project_id key request_hash : string)
    (status : idempotency_status) (result : option IngestResponse) : M World unit :=
  get_db (
    sql_exec (set_w_idempotency
      (set_status (project_id, key) request_hash status result)) ;;
    commit).

Definition commit_idempotency_result (project_id key request_hash : string)
    (result : IngestResponse) : M World unit :=
  _set_status project_id key request_hash ICommitted (Some result).

Definition mark_idempotency_failed (project_id key request_hash : string)
    : M World unit :=
  _set_status project_id key request_hash IFailed None.

(** ** Request hash *)

(** Keys in the order of [sort_keys=True], at every depth. *)
Fixpoint insert_key {A} (k : string) (v : A) (d : list (string * A))
    : list (string * A) :=
  match d with
  | [] => [(k, v)]
  | (k', v') :: d' => if String.leb k k' then (k, v) :: d
                      else (k', v') :: insert_key k v d'
  end.

Fixpoint sort_keys (v : pyval) : pyval :=
  match v with
  | VList l => VList (map sort_keys l)
  | VDict d => VDict (foldr (λ kv acc, match kv with
                                       | (k, x) => insert_key k (sort_keys x) acc
                                       end) [] d)
  | _ => v
  end.

Section service.
(** SHA-256 in hexadecimal, the text of a datetime in JSON, [float] of the
    latency and its [repr]. *)
Context (sha256 : string → string) (isoformat : pydatetime → string)
        (latency_float : decimal → pyfloat) (float_repr : pyfloat → string).

Definition opt_str (o : option string) : pyval :=
  match o with Some s => VStr s | None => VNone end.

(** [span.model_dump(mode="json")], as a JSON value and as task arguments. *)
Definition span_json (s : SpanSchema) : pyval :=
  VDict [("span_id", VStr (span_id s)); ("trace_id", VStr (trace_id s));
         ("parent_span_id", opt_str (parent_span_id s)); ("name", VStr (name s));
         ("provider", VStr (provider s)); ("model", VStr (model s));
         ("input_messages", VList (input_messages s));
         ("output", opt_str (output s)); ("error", opt_str (error s));
         ("input_tokens", VInt (input_tokens s));
         ("output_tokens", VInt (output_tokens s));
         ("latency_ms", VFloat (latency_float (latency_ms s)));
         ("started_at", VStr (isoformat (started_at s)));
         ("metadata", VDict (metadata s))].

Definition span_data (s : SpanSchema) : SpanData :=
  {| sd_span_id := Some (span_id s); sd_trace_id := Some (trace_id s);
     sd_parent := parent_span_id s; sd_name := Some (name s);
     sd_provider := Some (provider s); sd_model := Some (model s);
     sd_input := Some (input_tokens s); sd_output := Some (output_tokens s);
     sd_latency := Some (latency_ms s); sd_error := error s;
     sd_started := Some (isoformat (started_at s));
     sd_messages := input_messages s; sd_text := output s;
     sd_metadata := metadata s |}.

Definition ingest_request_hash (spans : list SpanSchema) : string :=
  sha256 (json_dumps float_repr "," ":" (sort_keys (VList (map span_json spans)))).

(** ** IngestService and the endpoint *)

(** [new_id] is the batch id [new_batch_id] returns. *)
Definition accept_batch (project_id : string) (spans : list SpanSchema)
    (batch_id : option string) (new_id : string) : M World string :=
  let batch_id := match batch_id with
                  | Some b => if truthy b then b else new_id
                  | None => new_id
                  end in
  create_accepted project_id batch_id (Z.of_nat (length spans)) ;;
  try_except
    (kiq (process_span_batch_task batch_id project_id (map span_data spans)))
    (λ e, mark_failed project_id batch_id (exn_str e) ;; raise e) ;;
  mret batch_id.

Definition conflict_409 : exn :=
  HTTPException 409 "Idempotency key was already used with a different request body".
Definition in_progress_409 : exn :=
  HTTPException 409 "Idempotency key is already being processed".

(** The rate limiter is a dependency of the endpoint. *)
Definition ingest_spans (rate_limiter_check : M World unit) (project_id : string)
    (payload : IngestRequest) (new_id : string) : M World IngestResponse :=
  rate_limiter_check ;;
  let accepted := Z.of_nat (length (spans payload)) in
  match idempotency_key payload with
  | Some key =>
      if truthy key then
        let idempotency_result := {| resp_batch := new_id; resp_accepted := accepted |} in
        let request_hash := ingest_request_hash (spans payload) in
        existing ← try_except (reserve project_id key request_hash idempotency_result)
          (λ e, match e with
                | IdempotencyConflictError => raise conflict_409
                | IdempotencyInProgressError => raise in_progress_409
                | _ => raise e
                end);
        match existing with
        | Some r => mret r
        | None =>
            accepted_batch_id ← try_except
              (accept_batch project_id (spans payload) (Some new_id) new_id)
              (λ e, mark_idempotency_failed project_id key request_hash ;; raise e);
            let result := {| resp_batch := accepted_batch_id; resp_accepted := accepted |} in
            commit_idempotency_result project_id key request_hash result ;;
            mret result
        end
      else
        batch_id ← accept_batch project_id (spans payload) None new_id;
        mret {| resp_batch := batch_id; resp_accepted := accepted |}
  | None =>
      batch_id ← accept_batch project_id (spans payload) None new_id;
      mret {| resp_batch := batch_id; resp_accepted := accepted |}
  end.
End service.

Definition get_ingest_batch_status (project_id batch_id : string)
    : M World BatchStatus :=
  batch_status ← get_batch project_id batch_id;
  match batch_status with
  | None => raise (HTTPException 404 "Batch not found")
  | Some b => mret b
  end.

(** ** Request bodies

    The hash is of a text with sorted keys: it forgets the order of the keys of
    a dictionary and nothing else. *)

(** The least equivalence and congruence that forgets the order of keys. *)
Inductive same_value : pyval → pyval → Prop :=
| same_refl v : same_value v v
| same_sym v v' : same_value v v' → same_value v' v
| same_trans v1 v2 v3 : same_value v1 v2 → same_value v2 v3 → same_value v1 v3
| same_list l l' : Forall2 same_value l l' → same_value (VList l) (VList l')
| same_dict d d' : Forall2 (λ kv kv', kv.1 = kv'.1 ∧ same_value kv.2 kv'.2) d d' →
    same_value (VDict d) (VDict d')
| same_order d d' : d ≡ₚ d' → same_value (VDict d) (VDict d').

#[export] Instance same_value_equiv : Equivalence same_value.
Proof. split; [exact same_refl|exact same_sym|exact same_trans]. Qed.

Lemma insert_key_perm {A} k (v : A) d : insert_key k v d ≡ₚ (k, v) :: d.
Proof.
  induction d as [|[k' v'] d IH]; simpl; [done|]. destruct (String.leb k k'); [done|].
  rewrite IH. apply Permutation_swap.
Qed.

Definition sorted_entry (kv : string * pyval) : string * pyval := (kv.1, sort_keys kv.2).

Lemma sort_keys_dict d : ∃ d', sort_keys (VDict d) = VDict d' ∧ d' ≡ₚ map sorted_entry d.
Proof.
  simpl. eexists. split; [done|]. induction d as [|[k x] d IH]; simpl; [done|].
  by rewrite insert_key_perm, IH.
Qed.

Lemma sort_keys_same v : same_value v (sort_keys v).
Proof.
  induction v as [| | | | |l IH|d IH] using pyval_rec'; try reflexivity.
  - apply same_list. by apply Forall2_fmap_r, Forall_Forall2_diag.
  - destruct (sort_keys_dict d) as (d' & -> & Hp).
    transitivity (VDict (map sorted_entry d)); [|by apply same_order].
    apply same_dict, Forall2_fmap_r, Forall_Forall2_diag.
    eapply Forall_impl; [exact IH|]. by intros [k x] H.
Qed.

Lemma sort_keys_readable fr ft v : readable fr ft v → readable fr ft (sort_keys v).
Proof.
  induction v as [| | | | |l IH|d IH] using pyval_rec'; try done; intros Hv.
  - apply readable_list in Hv. apply readable_list, Forall_fmap. rewrite !Forall_forall in *.
    intros x Hx. by apply IH, Hv.
  - apply readable_dict in Hv as [Hn Hv]. destruct (sort_keys_dict d) as (d' & -> & Hp).
    assert (Hk : keys (map sorted_entry d) = keys d)
      by (unfold keys; by rewrite <- list_fmap_compose).
    apply readable_dict. unfold keys in *. rewrite Hp, Hk. split; [done|].
    apply Forall_fmap. rewrite !Forall_forall in *. intros kv Hin. by apply (IH kv Hin), Hv.
Qed.

(** ** Facts *)

(** The status record touches nothing but its own key in Redis. *)
Lemma save_preserves {B} (f : World → B) p b st :
  (∀ g w, f (set_w_faults g w) = f w) →
  (∀ v w, f (set_w_batches <[batch_key p b := v]> w) = f w) →
  preserves f (_save p b st).
Proof.
  intros Hf Hb. unfold _save. apply preserves_bind; [by apply io_preserves|intros _].
  apply preserves_bind; [preserve|]. intros t. apply preserves_modify. intros. apply Hb.
Qed.

Lemma merge_preserves {B} (f : World → B) p b u :
  (∀ g w, f (set_w_faults g w) = f w) →
  (∀ v w, f (set_w_batches <[batch_key p b := v]> w) = f w) →
  preserves f (_merge p b u).
Proof.
  intros Hf Hb. unfold _merge, get_batch.
  assert (preserves f io) by by apply io_preserves.
  apply preserves_bind; [by apply preserves_bind; [|preserve]|]. intros o.
  apply preserves_bind; [preserve|]. intros t. by apply save_preserves.
Qed.

Lemma accept_batch_preserves {B} (f : World → B) iso p ss b id :
  (∀ g w, f (set_w_faults g w) = f w) →
  (∀ b v w, f (set_w_batches <[batch_key p b := v]> w) = f w) →
  (∀ g w, f (set_w_queue g w) = f w) →
  preserves f (accept_batch iso p ss b id).
Proof.
  intros Hf Hb Hq. unfold accept_batch, create_accepted.
  apply preserves_bind.
  { apply preserves_bind; [preserve|]. intros t. by apply save_preserves. }
  intros _. apply preserves_bind; [|preserve].
  apply preserves_try.
  - apply preserves_bind; [by apply io_preserves|]. intros _. apply preserves_modify.
    intros; apply Hq.
  - intros e. apply preserves_bind; [by apply merge_preserves|preserve].
Qed.

Lemma accept_batch_ok iso p ss b id w r w' :
  accept_batch iso p ss b id w = (Ok r, w') →
  r = match b with Some x => if truthy x then x else id | None => id end.
Proof. unfold accept_batch. intros H. by run_inv. Qed.

(** [reserve] on each state of the record. *)
Lemma reserve_ok p k h r w o w' :
  reserve p k h r w = (Ok o, w') →
  match w_idempotency w !! (p, k) with
  | None => o = None ∧ w_idempotency w' =
      <[(p, k) := {| ir_hash := h; ir_status := IPending; ir_result := Some r |}]>
        (w_idempotency w)
  | Some rec =>
      ir_hash rec = h ∧
      match ir_status rec with
      | IPending => False
      | ICommitted => o = ir_result rec ∧ w_idempotency w' = w_idempotency w
      | IFailed => o = None ∧ w_idempotency w' = reopen (p, k) r (w_idempotency w)
      end
  end ∧ w_queue w' = w_queue w.
Proof.
  unfold reserve, insert_pending. intros H. world_inv.
  destruct (w_idempotency w !! (p, k)) as [rec|] eqn:E.
  - simpl in H. world_inv. repeat (rewrite E in H; world_inv).
    match goal with H : judge_record _ _ = _ |- _ =>
      unfold judge_record in H; destruct (String.eqb_spec (ir_hash rec) h); [|done];
      destruct (ir_status rec); try done; injection H as <- end.
    + simpl in H. world_inv. by rewrite E.
    + simpl in H. world_inv. by rewrite E.
  - simpl in H. world_inv. by rewrite E.
Qed.

(** *** What a request touches *)

(** [g] changes records of the keys [own] only. *)
Definition keys_within (own : string * string → Prop)
    (g : gmap (string * string) IdempotencyRecord → gmap (string * string) IdempotencyRecord)
    : Prop := ∀ t pk, ¬ own pk → g t !! pk = t !! pk.

Lemma insert_pending_within own pk h r : own pk → keys_within own (λ t, (insert_pending pk h r t).2).
Proof.
  intros Ho t pk' Hpk. unfold insert_pending. destruct (t !! pk); [done|].
  apply lookup_insert_ne. congruence.
Qed.

Lemma reopen_within own pk r : own pk → keys_within own (reopen pk r).
Proof. intros Ho t pk' Hpk. apply lookup_alter_ne. congruence. Qed.

Lemma set_status_within own pk h st r : own pk → keys_within own (set_status pk h st r).
Proof. intros Ho t pk' Hpk. apply lookup_alter_ne. congruence. Qed.

Section touching.
Context {B : Type} (f : World → B) (pid : string) (own : string * string → Prop).
Hypothesis f_faults : ∀ g w, f (set_w_faults g w) = f w.
Hypothesis f_queue : ∀ g w, f (set_w_queue g w) = f w.
Hypothesis f_batches : ∀ b v w, f (set_w_batches <[batch_key pid b := v]> w) = f w.
Hypothesis f_keys : ∀ g w, keys_within own g → f (set_w_idempotency g w) = f w.
Hypothesis f_rollback : ∀ w w', f w' = f w → f (db_rollback w w') = f w.

Lemma exec_within g : keys_within own g → preserves f (sql_exec (set_w_idempotency g)).
Proof.
  intros Hg. apply preserves_bind; [by apply io_preserves|intros _].
  apply preserves_modify. intros w. by apply f_keys.
Qed.

Lemma reserve_touches key h r : own (pid, key) → preserves f (reserve pid key h r).
Proof.
  intros Ho. assert (Hio : preserves f io) by by apply io_preserves.
  unfold reserve, commit, sql_query. apply get_db_preserves; [|done].
  apply preserves_bind; [done|intros _]. apply preserves_bind; [preserve|intros ins].
  apply preserves_bind; [|intros _].
  { apply preserves_modify. intros w. by apply f_keys, insert_pending_within. }
  destruct ins; [by apply preserves_bind|].
  apply preserves_bind; [by apply preserves_bind; [|preserve]|]. intros [row|]; [|preserve].
  apply preserves_bind; [preserve|]. intros [o []]; cbn; [|preserve].
  apply preserves_bind; [by apply exec_within, reopen_within|by intros _; apply preserves_bind].
Qed.

Lemma set_status_touches key h st r : own (pid, key) → preserves f (_set_status pid key h st r).
Proof.
  intros Ho. unfold _set_status. apply get_db_preserves; [|done].
  apply preserves_bind; [by apply exec_within, set_status_within|intros _]. by apply io_preserves.
Qed.

Lemma ingest_touches sha iso lf fr check payload id :
  preserves f check →
  (∀ key, idempotency_key payload = Some key → truthy key = true → own (pid, key)) →
  preserves f (ingest_spans sha iso lf fr check pid payload id).
Proof.
  intros Hc Ho. pose proof set_status_touches. pose proof reserve_touches.
  assert (Ha : ∀ ss b, preserves f (accept_batch iso pid ss b id)).
  { intros. by apply accept_batch_preserves. }
  unfold ingest_spans, mark_idempotency_failed, commit_idempotency_result.
  apply preserves_bind; [done|intros _]. destruct (idempotency_key payload) as [key|]; [|preserve].
  destruct (truthy key) eqn:Ht; [|preserve]. specialize (Ho key eq_refl Ht).
  apply preserves_bind; [apply preserves_try; [by auto|preserve]|]. intros [r|]; [preserve|].
  apply preserves_bind; [apply preserves_try; [done|]; intros e; preserve|]. preserve.
Qed.
End touching.

Section ingest.
Context (sha256 : string → string) (isoformat : pydatetime → string)
        (latency_float : decimal → pyfloat) (float_repr : pyfloat → string).
Abbreviation hash := (ingest_request_hash sha256 isoformat latency_float float_repr).
Abbreviation ingest := (ingest_spans sha256 isoformat latency_float float_repr).

(** A rate limiter reads and writes its own keys only. *)
Definition limiter_ok (check : M World unit) : Prop :=
  preserves w_idempotency check ∧ preserves w_queue check.

Lemma set_status_lookup pk h st r t rec :
  t !! pk = Some rec → ir_hash rec = h →
  set_status pk h st r t !! pk
  = Some {| ir_hash := h; ir_status := st; ir_result := r |}.
Proof.
  intros Ht Hh. unfold set_status. rewrite lookup_alter_eq, Ht. simpl.
  by rewrite Hh, String.eqb_refl.
Qed.

(** A keyed request that returned left its key committed to its answer. *)
Lemma ingest_ok_committed check p payload key id w r w' :
  limiter_ok check → idempotency_key payload = Some key → truthy key = true →
  ingest check p payload id w = (Ok r, w') →
  w_idempotency w' !! (p, key)
  = Some {| ir_hash := hash (spans payload); ir_status := ICommitted;
            ir_result := Some r |}.
Proof.
  intros [Hci _] Hk Ht H. unfold ingest_spans in H. rewrite Hk, Ht in H.
  apply bind_ok_inv in H as (u & w0 & H0 & H).
  apply bind_ok_inv in H as (existing & w1 & H1 & H).
  apply try_ok_inv in H1 as [H1|(e & w2 & _ & H1)]; [|by destruct e].
  apply reserve_ok in H1 as [H1 _].
  destruct existing as [r0|].
  - run_inv. case_match; [|by destruct H1].
    destruct H1 as [Hh H1]. destruct i as [ih [] ir]; simpl in *; try done.
    + destruct H1 as [<- ->]. by subst ih.
    + by destruct H1.
  - apply bind_ok_inv in H as (b & w2 & H2 & H).
    apply try_ok_inv in H2 as [H2|(e & w3 & _ & H2)].
    2: { apply bind_ok_inv in H2 as (? & ? & _ & H2). done. }
    pose proof (accept_batch_preserves w_idempotency isoformat p (spans payload)
      (Some id) id) as Hp.
    specialize (Hp (λ _ _, eq_refl) (λ _ _ _, eq_refl) (λ _ _, eq_refl) w1).
    rewrite H2 in Hp. simpl in Hp.
    apply bind_ok_inv in H as (? & w3 & H3 & H). run_inv.
    unfold commit_idempotency_result, _set_status in H3. world_inv.
    rewrite Hp.
    destruct (w_idempotency w0 !! (p, key)) as [rec|] eqn:E.
    + destruct H1 as [Hh H1]. destruct (ir_status rec); [done| |]; destruct H1 as [_ ->].
      * by eapply set_status_lookup.
      * eapply set_status_lookup; [unfold reopen; by rewrite lookup_alter_eq, E|done].
    + destruct H1 as [_ ->].
      eapply set_status_lookup; [by rewrite lookup_insert_eq|done].
Qed.

Lemma reserve_preserves_queue p k h r : preserves w_queue (reserve p k h r).
Proof.
  unfold reserve, commit, sql_query, sql_exec. apply get_db_preserves; [|done].
  apply preserves_bind; [preserve|]. intros _.
  apply preserves_bind; [preserve|]. intros b.
  apply preserves_bind; [preserve|]. intros _.
  destruct b; [preserve|]. apply preserves_bind; [preserve|]. intros [row|]; [|preserve].
  apply preserves_bind; [preserve|]. intros [o []]; preserve.
Qed.

(** The record a request finds decides what it can return. *)
Lemma ingest_on_record check p payload key id w rec res w' :
  limiter_ok check → idempotency_key payload = Some key → truthy key = true →
  w_idempotency w !! (p, key) = Some rec →
  (ir_status rec = ICommitted ∧ is_Some (ir_result rec) ∨ ir_status rec = IPending) →
  ingest check p payload id w = (res, w') →
  w_queue w' = w_queue w ∧ w_idempotency w' = w_idempotency w ∧
  match res with
  | Ok r => ir_status rec = ICommitted ∧ ir_hash rec = hash (spans payload)
            ∧ ir_result rec = Some r
  | Raise _ => True
  end.
Proof.
  intros [Hci Hcq] Hk Ht Hrec Hst H. unfold ingest_spans in H. rewrite Hk, Ht in H.
  specialize (Hci w). specialize (Hcq w).
  unfold mbind, M_bind in H. destruct (check w) as [[u|e] w0]; simpl in *.
  2: { by injection H as <- <-. }
  unfold try_except in H. destruct (reserve _ _ _ _ w0) as [[o|e] w1] eqn:E1.
  - apply reserve_ok in E1 as [E1 Hq]. rewrite Hci, Hrec in E1.
    destruct E1 as [Hh E1].
    destruct Hst as [(Hst & r0 & Hr0)|Hst]; rewrite Hst in E1; [|done].
    destruct E1 as [-> Hi]. rewrite Hr0 in H. injection H as <- <-. simpl.
    split_and!; congruence.
  - pose proof (reserve_preserves_queue p key (hash (spans payload))
      {| resp_batch := id; resp_accepted := Z.of_nat (length (spans payload)) |} w0) as Hq.
    rewrite E1 in Hq. simpl in Hq. unfold reserve in E1.
    apply get_db_raise in E1 as [_ _ _ _ E1].
    destruct e; injection H as <- <-; (split; [congruence|]; split; [congruence|done]).
Qed.

(** A request leaves the records of other keys alone. *)
Lemma ingest_other_key check p payload id pk :
  preserves w_idempotency check →
  (∀ key, idempotency_key payload = Some key → truthy key = true → (p, key) ≠ pk) →
  preserves (λ w, w_idempotency w !! pk) (ingest check p payload id).
Proof.
  intros Hc Hk. apply (ingest_touches _ p (λ k, k ≠ pk)); try done.
  - intros g w Hg. apply Hg. by intros ?.
  - intros w. by rewrite Hc.
Qed.

(** What the program may do between two requests: another request, of any
    project and key, or anything that leaves the idempotency table alone. *)
Inductive meanwhile : World → World → Prop :=
| meanwhile_ingest check p payload id w :
    limiter_ok check → meanwhile w (ingest check p payload id w).2
| meanwhile_other w w' : w_idempotency w' = w_idempotency w → meanwhile w w'.

(** A committed record stays as it is. *)
Lemma committed_stays pk rec w w' :
  rtc meanwhile w w' → w_idempotency w !! pk = Some rec → ir_status rec = ICommitted →
  is_Some (ir_result rec) → w_idempotency w' !! pk = Some rec.
Proof.
  intros Hs Hrec Hst Hres. induction Hs as [|w w1 w' H _ IH]; [done|]. apply IH. clear IH.
  destruct H as [check p payload id w Hc|w w1 Heq]; [|by rewrite Heq].
  destruct pk as [q key].
  destruct (decide (idempotency_key payload = Some key ∧ truthy key = true ∧ p = q))
    as [(Hk & Ht & ->)|Hne].
  - destruct (ingest check q payload id w) as [res w1] eqn:E.
    eapply ingest_on_record in E as (_ & E & _); [|done..|by left]. simpl. by rewrite E.
  - rewrite (ingest_other_key check p payload id (q, key)); [done|apply Hc|].
    intros key' Hk Ht [= -> ->]. by apply Hne.
Qed.

(** *** The body behind a hash *)

(** The floats of the span, as JSON prints them, read back, and its dictionaries
    have distinct keys. *)
Definition span_readable (ft : string → pyfloat) (s : SpanSchema) : Prop :=
  readable float_repr ft (VList (input_messages s)) ∧
  readable float_repr ft (VDict (metadata s)) ∧
  float_scans float_repr ft (latency_float (latency_ms s)).

(** Equal in every field: messages and metadata up to the order of keys, latency
    and time as the text prints them. *)
Record same_span (s s' : SpanSchema) : Prop := {
  ss_ids : (span_id s, trace_id s, parent_span_id s)
           = (span_id s', trace_id s', parent_span_id s');
  ss_texts : (name s, provider s, model s) = (name s', provider s', model s');
  ss_outcome : (output s, error s) = (output s', error s');
  ss_tokens : (input_tokens s, output_tokens s) = (input_tokens s', output_tokens s');
  ss_latency : latency_float (latency_ms s) = latency_float (latency_ms s');
  ss_started : isoformat (started_at s) = isoformat (started_at s');
  ss_messages : same_value (VList (input_messages s)) (VList (input_messages s'));
  ss_metadata : same_value (VDict (metadata s)) (VDict (metadata s'));
}.

Lemma span_json_readable ft s : span_readable ft s → readable float_repr ft (span_json isoformat latency_float s).
Proof.
  intros (Hm & Hd & Hf). apply readable_dict. split.
  - apply (bool_decide_unpack (NoDup ["span_id"; "trace_id"; "parent_span_id"; "name";
      "provider"; "model"; "input_messages"; "output"; "error"; "input_tokens";
      "output_tokens"; "latency_ms"; "started_at"; "metadata"]%string)). by vm_compute.
  - rewrite !Forall_cons, Forall_nil. cbn -[readable].
    destruct (parent_span_id s), (output s), (error s); by split_and!.
Qed.

Lemma span_json_same s s' :
  sort_keys (span_json isoformat latency_float s)
  = sort_keys (span_json isoformat latency_float s') → same_span s s'.
Proof.
  intros H.
  assert (Hv : ∀ v v', sort_keys v = sort_keys v' → same_value v v').
  { intros v v' E. by rewrite (sort_keys_same v), E, <- (sort_keys_same v'). }
  assert (Ho : ∀ o o', sort_keys (opt_str o) = sort_keys (opt_str o') → o = o')
    by (intros [] []; simpl; congruence).
  pose proof (Ho (parent_span_id s) (parent_span_id s')) as Hp.
  pose proof (Ho (output s) (output s')) as Hout. pose proof (Ho (error s) (error s')) as Herr.
  pose proof (Hv (VList (input_messages s)) (VList (input_messages s'))) as Hm.
  pose proof (Hv (VDict (metadata s)) (VDict (metadata s'))) as Hd.
  cbn -[opt_str] in *. injection H as H1 H2 H3 H4 H5 H6 H7 H8 H9 H10 H11 H12 H13 H14.
  specialize (Hp H10). specialize (Hout H8). specialize (Herr H1).
  constructor; try congruence; [apply Hm|apply Hd]; congruence.
Qed.

(** With a hash that does not collide, equal hashes are of the same body. *)
Lemma hash_same_body ft ss ss' :
  Inj (=) (=) sha256 → Forall (span_readable ft) ss → Forall (span_readable ft) ss' →
  hash ss = hash ss' → Forall2 same_span ss ss'.
Proof.
  intros Hinj Hr Hr' H. apply Hinj in H.
  assert (Hread : ∀ l, Forall (span_readable ft) l →
    readable float_repr ft (sort_keys (VList (map (span_json isoformat latency_float) l)))).
  { intros l Hl. apply sort_keys_readable, readable_list, Forall_fmap.
    eapply Forall_impl; [exact Hl|]. intros s. apply span_json_readable. }
  assert (Hrt : ∀ v, readable float_repr ft v →
    json_loads ft (json_dumps float_repr "," ":" v) = Ok v).
  { exact (json_loads_dumps float_repr ft EmptyString EmptyString eq_refl eq_refl). }
  pose proof (Hrt _ (Hread ss Hr)) as E. rewrite H in E.
  pose proof (Hrt _ (Hread ss' Hr')) as E'. rewrite E' in E. injection E as E. symmetry in E.
  clear -E. revert ss' E. induction ss as [|s ss IH]; intros [|s' ss'] E; try done.
  apply (f_equal (λ l, (head l, tail l))) in E. cbn -[sort_keys span_json] in E.
  apply pair_equal_spec in E as [Es Ess]. constructor; [|by apply IH].
  apply span_json_same. by apply (inj Some) in Es.
Qed.


(** a record left pending blocks its key for good. While the record is
    pending every request with the key fails and enqueues nothing, and the
    record stays pending, so only an operator's edit unblocks it. *)
Theorem pending_key_blocks check p payload key id w rec res w' :
  limiter_ok check → idempotency_key payload = Some key → truthy key = true →
  w_idempotency w !! (p, key) = Some rec → ir_status rec = IPending →
  ingest check p payload id w = (res, w') →
  (∃ e, res = Raise e) ∧ w_queue w' = w_queue w ∧
  w_idempotency w' !! (p, key) = Some rec.
Proof.
  intros Hc Hk Ht Hrec Hst H.
  pose proof (ingest_on_record check p payload key id w rec res w' Hc Hk Ht Hrec
    (or_intror Hst) H) as (Hq & Hi & Hres).
  destruct res as [r|e].
  { destruct Hres as [Hres _]. by rewrite Hst in Hres. }
  split; [by exists e|]. split; [done|]. by rewrite Hi.
Qed.

Lemma reserve_fresh p k h r w :
  w_faults w = [] → w_idempotency w !! (p, k) = None →
  reserve p k h r w
  = (Ok None, set_w_idempotency (λ t, (insert_pending (p, k) h r t).2) w).
Proof.
  intros Hf Hn. unfold reserve. evaluate. rewrite Hf. evaluate.
  unfold insert_pending at 1. rewrite Hn. simpl. by rewrite Hf.
Qed.

Lemma accept_batch_run p ss id w :
  w_faults w = [] → truthy id = true →
  accept_batch isoformat p ss (Some id) id w
  = (Ok id,
     set_w_queue (λ q, q ++ [process_span_batch_task id p (map (span_data isoformat) ss)])
       (set_w_batches <[batch_key p id :=
         ({| b_batch := id; b_status := "accepted";
             b_accepted := Z.of_nat (length ss); b_processed := 0; b_failed := 0;
             b_error := None; b_created := w_now w; b_updated := w_now w |},
          w_now w + BATCH_STATUS_TTL)]> w)).
Proof.
  intros Hf Ht. unfold accept_batch, create_accepted, _save. rewrite Ht.
  evaluate. rewrite Hf. evaluate. by rewrite Hf.
Qed.

Lemma set_status_run p k h st r w :
  w_faults w = [] →
  _set_status p k h st r w
  = (Ok tt, set_w_idempotency (set_status (p, k) h st r) w).
Proof. intros Hf. unfold _set_status. evaluate. rewrite Hf. evaluate. by rewrite Hf. Qed.

(** with the services up and a key not seen before, the endpoint accepts
    the batch: it answers with the new batch id and the number of spans, the
    task with exactly those spans is the last of the queue, the status reads
    back as accepted and the key is committed to the answer. *)
Theorem ingest_accepts check p payload key id w :
  check w = (Ok tt, w) → idempotency_key payload = Some key → truthy key = true →
  truthy id = true → w_faults w = [] → w_idempotency w !! (p, key) = None →
  let n := Z.of_nat (length (spans payload)) in
  ∃ w', ingest check p payload id w
        = (Ok {| resp_batch := id; resp_accepted := n |}, w') ∧
    w_queue w' = w_queue w ++
      [process_span_batch_task id p (map (span_data isoformat) (spans payload))] ∧
    (get_ingest_batch_status p id w').1
      = Ok {| b_batch := id; b_status := "accepted"; b_accepted := n;
              b_processed := 0; b_failed := 0; b_error := None;
              b_created := w_now w; b_updated := w_now w |} ∧
    w_idempotency w' !! (p, key)
      = Some {| ir_hash := hash (spans payload); ir_status := ICommitted;
                ir_result := Some {| resp_batch := id; resp_accepted := n |} |}.
Proof.
  intros Hc Hk Ht Hid Hf Hn n. unfold ingest_spans. rewrite Hk, Ht.
  rewrite (bind_run _ _ _ _ _ Hc).
  erewrite bind_run; [|by unfold try_except; rewrite reserve_fresh].
  set (w1 := set_w_idempotency _ w).
  pose proof (accept_batch_run p (spans payload) id w1 Hf Hid) as Ha.
  cbn beta iota. erewrite bind_run; [|by unfold try_except; rewrite Ha].
  set (w2 := set_w_queue _ _).
  assert (Hf2 : w_faults w2 = []) by done.
  unfold commit_idempotency_result.
  rewrite (bind_run _ _ _ _ _ (set_status_run p key _ ICommitted _ w2 Hf2)).
  eexists. split; [done|]. split; [done|]. split.
  - unfold get_ingest_batch_status, get_batch. evaluate. rewrite Hf. evaluate.
    unfold batch_lookup. simpl. rewrite lookup_insert_eq. simpl.
    destruct (Z.ltb_spec (w_now w) (w_now w + BATCH_STATUS_TTL)) as [_|Hl]; [done|].
    unfold BATCH_STATUS_TTL, second in Hl. lia.
  - simpl. eapply set_status_lookup;
      [unfold insert_pending; rewrite Hn; simpl; by rewrite lookup_insert_eq|done].
Qed.
End ingest.

(** ** Concurrent requests *)

Module Interleaving.

(** A keyed request: what [ingest_spans] holds while it runs. *)
Record Request : Type := {
  rq_project : string; rq_key : string; rq_hash : string; rq_answer : IngestResponse;
}.

Definition rq_pk (r : Request) : string * string := (rq_project r, rq_key r).

Inductive outcome : Type :=
| Accepted
| Replayed (answer : IngestResponse)
| Rejected (e : exn).

(** The statement the request runs next. *)
Inductive pc : Type :=
| Insert | Select | Reopen | Enqueue | Commit | MarkFailed | Done (o : outcome).

Record Shared : Type := {
  table : gmap (string * string) IdempotencyRecord;
  enqueued : list Request;
}.

(** One statement of one request; [fails] is the broker's answer to [kiq]. *)
Definition statement (fails : bool) (r : Request) (c : pc) (s : Shared)
    : option (pc * Shared) :=
  match c with
  | Insert =>
      let x := insert_pending (rq_pk r) (rq_hash r) (rq_answer r) (table s) in
      Some (if x.1 then Enqueue else Select,
            {| table := x.2; enqueued := enqueued s |})
  | Select =>
      Some (match table s !! rq_pk r with
            | None => Done (Rejected (OtherError "NoResultFound"))
            | Some row =>
                match judge_record (rq_hash r) row with
                | Raise e => Done (Rejected e)
                | Ok (_, true) => Reopen
                | Ok (Some a, false) => Done (Replayed a)
                | Ok (None, false) => Enqueue
                end
            end, s)
  | Reopen =>
      Some (Enqueue, {| table := reopen (rq_pk r) (rq_answer r) (table s);
                        enqueued := enqueued s |})
  | Enqueue =>
      if fails then Some (MarkFailed, s)
      else Some (Commit, {| table := table s; enqueued := enqueued s ++ [r] |})
  | Commit =>
      Some (Done Accepted,
        {| table := set_status (rq_pk r) (rq_hash r) ICommitted (Some (rq_answer r))
                      (table s);
           enqueued := enqueued s |})
  | MarkFailed =>
      Some (Done (Rejected (OtherError "enqueue")),
        {| table := set_status (rq_pk r) (rq_hash r) IFailed None (table s);
           enqueued := enqueued s |})
  | Done _ => None
  end.

Record State : Type := { shared : Shared; threads : list (Request * pc) }.

Definition start (requests : list Request) : State :=
  {| shared := {| table := ∅; enqueued := [] |};
     threads := map (λ r, (r, Insert)) requests |}.

Inductive step (broker_up : bool) : State → State → Prop :=
| step_thread fails i r c c' sh sh' ths :
    (broker_up = true → fails = false) →
    ths !! i = Some (r, c) → statement fails r c sh = Some (c', sh') →
    step broker_up {| shared := sh; threads := ths |}
                   {| shared := sh'; threads := <[i := (r, c')]> ths |}.

(** A run as a list of thread numbers and broker answers. *)
Fixpoint run (schedule : list (nat * bool)) (s : State) : State :=
  match schedule with
  | [] => s
  | (i, fails) :: rest =>
      match threads s !! i with
      | Some (r, c) =>
          match statement fails r c (shared s) with
          | Some (c', sh') =>
              run rest {| shared := sh'; threads := <[i := (r, c')]> (threads s) |}
          | None => run rest s
          end
      | None => run rest s
      end
  end.

Lemma run_reachable schedule s : rtc (step false) s (run schedule s).
Proof.
  revert s. induction schedule as [|[i fails] rest IH]; intros s; simpl; [done|].
  destruct s as [sh ths]; simpl.
  destruct (ths !! i) as [[r c]|] eqn:E; [|apply IH].
  destruct (statement fails r c sh) as [[c' sh']|] eqn:Es; [|apply IH].
  eapply rtc_l; [|apply IH]. eapply step_thread; [|exact E|exact Es]. done.
Qed.

(** The request that holds its key. *)
Definition owner (c : pc) : bool :=
  match c with Enqueue | Commit | Done Accepted => true | _ => false end.

Definition held (r : Request) (st : idempotency_status) : IdempotencyRecord :=
  {| ir_hash := rq_hash r; ir_status := st; ir_result := Some (rq_answer r) |}.

Definition pc_ok (sh : Shared) (r : Request) (c : pc) : Prop :=
  match c with
  | Insert | Done (Rejected _) => True
  | Select => is_Some (table sh !! rq_pk r)
  | Enqueue => table sh !! rq_pk r = Some (held r IPending)
               ∧ rq_pk r ∉ rq_pk <$> enqueued sh
  | Commit => table sh !! rq_pk r = Some (held r IPending)
  | Done Accepted => table sh !! rq_pk r = Some (held r ICommitted)
  | Done (Replayed a) => ∃ h, table sh !! rq_pk r
      = Some {| ir_hash := h; ir_status := ICommitted; ir_result := Some a |}
  | Reopen | MarkFailed => False
  end.

Record inv (s : State) : Prop := {
  inv_unique : ∀ i j r r' c c', threads s !! i = Some (r, c) →
    threads s !! j = Some (r', c') → owner c = true → owner c' = true →
    rq_pk r = rq_pk r' → i = j;
  inv_pc : ∀ i r c, threads s !! i = Some (r, c) → pc_ok (shared s) r c;
  inv_owned : ∀ pk, is_Some (table (shared s) !! pk) →
    ∃ i r c, threads s !! i = Some (r, c) ∧ owner c = true ∧ rq_pk r = pk;
  inv_nodup : NoDup (rq_pk <$> enqueued (shared s));
  inv_enqueued : ∀ r, r ∈ enqueued (shared s) →
    ∃ i c, threads s !! i = Some (r, c) ∧ (c = Commit ∨ c = Done Accepted);
}.

Lemma start_inv requests : inv (start requests).
Proof.
  assert (H : ∀ i r c, threads (start requests) !! i = Some (r, c) → c = Insert).
  { simpl. intros i r c Hi. apply list_lookup_fmap_Some in Hi as (? & ? & ?).
    by simplify_eq. }
  constructor.
  - intros i j r r' c c' Hi Hj Hc. by apply H in Hi as ->.
  - intros i r c Hi. by apply H in Hi as ->.
  - intros pk [rec Hpk]. simpl in Hpk. by rewrite lookup_empty in Hpk.
  - apply NoDup_nil_2.
  - intros r Hr. simpl in Hr. set_solver.
Qed.

Lemma owner_present sh r c : owner c = true → pc_ok sh r c → is_Some (table sh !! rq_pk r).
Proof. destruct c as [| | | | | |[]]; simpl; naive_solver. Qed.

Lemma lookup_threads (ths : list (Request * pc)) i j x y :
  <[i := x]> ths !! j = Some y → (j = i ∧ y = x) ∨ (j ≠ i ∧ ths !! j = Some y).
Proof.
  intros H. destruct (decide (i = j)) as [->|Hne].
  - left. split; [done|]. apply list_lookup_insert_Some in H. naive_solver.
  - right. rewrite list_lookup_insert_ne in H by done. done.
Qed.

(** A step of thread [i] that keeps the table entries of the other keys, the
    shape of the invariant's clauses being given for the thread itself. *)
Lemma inv_update sh sh' ths i r c c' :
  inv {| shared := sh; threads := ths |} → ths !! i = Some (r, c) →
  (∀ pk, pk ≠ rq_pk r → table sh' !! pk = table sh !! pk) →
  pc_ok sh' r c' →
  (∀ j r' d, j ≠ i → ths !! j = Some (r', d) → rq_pk r' = rq_pk r →
     pc_ok sh' r' d ∧ (owner c' = true → owner d = false)) →
  (∀ j r' d, j ≠ i → ths !! j = Some (r', d) → rq_pk r' ≠ rq_pk r →
     pc_ok sh' r' d) →
  (owner c = true → owner c' = true) →
  (is_Some (table sh' !! rq_pk r) → owner c' = true ∨ is_Some (table sh !! rq_pk r)) →
  (enqueued sh' = enqueued sh ∧ (c = Commit → c' = Done Accepted) ∧ c ≠ Done Accepted ∨
   enqueued sh' = enqueued sh ++ [r] ∧ c = Enqueue ∧ c' = Commit) →
  inv {| shared := sh'; threads := <[i := (r, c')]> ths |}.
Proof.
  intros [H1 H2 H3 H4 H5] Hi Ht Hpc Hsame Hother Hown Hpres Hq. simpl in *.
  assert (Hlen : <[i := (r, c')]> ths !! i = Some (r, c')).
  { apply list_lookup_insert_eq. by eapply lookup_lt_Some. }
  constructor; simpl.
  - intros j k r1 r2 c1 c2 [[-> [= -> ->]]|[Hj Hj']]%lookup_threads
      [[-> [= -> ->]]|[Hk Hk']]%lookup_threads Ho1 Ho2 Hpk; [done| | |by eapply H1].
    + destruct (Hsame k r2 c2 Hk Hk' (eq_sym Hpk)) as [_ Hf]. by rewrite Hf in Ho2.
    + destruct (Hsame j r1 c1 Hj Hj' Hpk) as [_ Hf]. by rewrite Hf in Ho1.
  - intros j r1 c1 [[-> [= -> ->]]|[Hj Hj']]%lookup_threads; [done|].
    destruct (decide (rq_pk r1 = rq_pk r)); [by eapply Hsame|by eapply Hother].
  - intros pk Hpk.
    assert (is_Some (table sh !! pk) ∨ pk = rq_pk r ∧ owner c' = true)
      as [Hold|[-> Ho]]; [|..|by exists i, r, c'].
    { destruct (decide (pk = rq_pk r)) as [->|Hne].
      - destruct (Hpres Hpk) as [?|?]; [by right|by left].
      - left. by rewrite <- Ht. }
    destruct (H3 pk Hold) as (j & r1 & c1 & Hj & Ho & Hpk1).
    destruct (decide (j = i)) as [->|Hne].
    + rewrite Hi in Hj. simplify_eq. exists i, r1, c'. auto.
    + exists j, r1, c1. by rewrite list_lookup_insert_ne.
  - destruct Hq as [[-> _]|(-> & -> & ->)]; [done|].
    rewrite fmap_app. apply NoDup_app. split; [done|]. split; [|apply NoDup_singleton].
    intros x Hx Hx'. apply list_elem_of_singleton in Hx' as ->.
    by destruct (H2 i r Enqueue Hi) as [_ []].
  - intros q Hqin.
    assert (Hcase : (q ∈ enqueued sh ∧ (c = Commit → c' = Done Accepted) ∧
                     c ≠ Done Accepted) ∨ (q = r ∧ c' = Commit)).
    { destruct Hq as [(Eq & ? & ?)|(Eq & -> & ->)]; rewrite Eq in Hqin; [by left|].
      apply elem_of_app in Hqin as [Hq1|Hq1]; [by left|right].
      by apply list_elem_of_singleton in Hq1. }
    destruct Hcase as [(Hold & Hc1 & Hc2)|[-> ->]]; [|by exists i, Commit; auto].
    destruct (H5 q Hold) as (j & d & Hj & Hd). destruct (decide (j = i)) as [->|Hne].
    + rewrite Hi in Hj. injection Hj as -> ->. destruct Hd as [Hd|Hd]; [|done].
      exists i, c'. split; [done|]. right. by apply Hc1.
    + exists j, d. by rewrite list_lookup_insert_ne.
Qed.

(** The record of a key is the one its owner wrote. *)
Lemma record_of_owner s pk rec :
  inv s → table (shared s) !! pk = Some rec →
  ∃ r st, rq_pk r = pk ∧ rec = held r st ∧ (st = IPending ∨ st = ICommitted).
Proof.
  intros H Hrec. destruct (inv_owned s H pk) as (i & r & c & Hi & Ho & Hpk); [by eauto|].
  pose proof (inv_pc s H i r c Hi) as Hp. subst pk.
  destruct c as [| | | | | |[]]; simpl in *; try done; rewrite Hrec in Hp.
  - destruct Hp as [[= ->] _]. exists r, IPending. auto.
  - injection Hp as ->. exists r, IPending. auto.
  - injection Hp as ->. exists r, ICommitted. auto.
Qed.

(** Threads keep their clause when the table entry of their key and the queue
    do not change. *)
Lemma pc_ok_same sh sh' r c :
  table sh' !! rq_pk r = table sh !! rq_pk r → enqueued sh' = enqueued sh →
  pc_ok sh r c → pc_ok sh' r c.
Proof. intros Ht Hq. destruct c as [| | | | | |[]]; simpl; by rewrite ?Ht, ?Hq. Qed.

(** A step that changes no shared state. *)
Lemma inv_local sh ths i r c c' :
  inv {| shared := sh; threads := ths |} → ths !! i = Some (r, c) →
  owner c = false → owner c' = false → pc_ok sh r c' →
  inv {| shared := sh; threads := <[i := (r, c')]> ths |}.
Proof.
  intros H Hi Hc Hc' Hp.
  eapply (inv_update sh sh ths i r c c' H Hi); try done.
  - intros j r' d Hj Hd _. split; [by apply (inv_pc _ H j)|by rewrite Hc'].
  - intros j r' d Hj Hd _. by apply (inv_pc _ H j).
  - by rewrite Hc.
  - by right.
  - left. split; [done|]. split; by intros ->.
Qed.

Lemma inv_insert sh ths i r :
  inv {| shared := sh; threads := ths |} → ths !! i = Some (r, Insert) →
  table sh !! rq_pk r = None →
  inv {| shared := {| table := <[rq_pk r := held r IPending]> (table sh);
                      enqueued := enqueued sh |};
         threads := <[i := (r, Enqueue)]> ths |}.
Proof.
  intros H Hi Hn.
  assert (Hnone : ∀ j r' d, ths !! j = Some (r', d) → rq_pk r' = rq_pk r →
                  owner d = false ∧ (d = Insert ∨ ∃ e, d = Done (Rejected e))).
  { intros j r' d Hj Hpk. pose proof (inv_pc _ H j r' d Hj) as Hp. simpl in Hp.
    destruct d as [| | | | | |[]]; simpl in Hp; rewrite ?Hpk, ?Hn in Hp;
      try (by destruct Hp); split; by eauto. }
  eapply (inv_update sh _ ths i r Insert Enqueue H Hi); simpl; try done.
  - intros pk Hpk. by rewrite lookup_insert_ne.
  - split; [by rewrite lookup_insert_eq|]. intros Hin.
    apply list_elem_of_fmap in Hin as (q & Hq & Hqin).
    destruct (inv_enqueued _ H q Hqin) as (j & d & Hj & Hd).
    destruct (Hnone j q d Hj (eq_sym Hq)) as [Ho _]. by destruct Hd; subst.
  - intros j r' d _ Hj Hpk. destruct (Hnone j r' d Hj Hpk) as [Ho [->|[e ->]]]; done.
  - intros j r' d _ Hj Hpk. eapply pc_ok_same; [..|by apply (inv_pc _ H j)]; simpl; [|done].
    by rewrite lookup_insert_ne.
  - by left.
  - left. split; [done|]. split; [done|done].
Qed.

Lemma inv_commit sh ths i r :
  inv {| shared := sh; threads := ths |} → ths !! i = Some (r, Commit) →
  inv {| shared := {| table := set_status (rq_pk r) (rq_hash r) ICommitted
                                 (Some (rq_answer r)) (table sh);
                      enqueued := enqueued sh |};
         threads := <[i := (r, Done Accepted)]> ths |}.
Proof.
  intros H Hi. pose proof (inv_pc _ H i r Commit Hi) as Hr. simpl in Hr.
  assert (Hset : set_status (rq_pk r) (rq_hash r) ICommitted (Some (rq_answer r))
    (table sh) !! rq_pk r = Some (held r ICommitted)) by by eapply set_status_lookup.
  assert (Hne : ∀ pk, pk ≠ rq_pk r →
    set_status (rq_pk r) (rq_hash r) ICommitted (Some (rq_answer r)) (table sh) !! pk
    = table sh !! pk).
  { intros pk Hpk. unfold set_status. by rewrite lookup_alter_ne. }
  eapply (inv_update sh _ ths i r Commit (Done Accepted) H Hi); simpl; try done.
  - intros j r' d Hji Hj Hpk.
    assert (Hod : owner d = false).
    { destruct (owner d) eqn:Ho; [|done]. exfalso. apply Hji.
      by eapply (inv_unique _ H j i r' r d Commit). }
    split; [|done]. pose proof (inv_pc _ H j r' d Hj) as Hp. simpl in Hp.
    destruct d as [| | | | | |[]]; simpl in *; try done; rewrite Hpk in *.
    + rewrite Hset. by eauto.
    + destruct Hp as (h & Hp). rewrite Hr in Hp. done.
  - intros j r' d _ Hj Hpk. eapply pc_ok_same; [..|by apply (inv_pc _ H j)]; simpl; [|done].
    by apply Hne.
  - by left.
  - left. split; [done|]. split; [done|]. done.
Qed.

Lemma inv_enqueue sh ths i r :
  inv {| shared := sh; threads := ths |} → ths !! i = Some (r, Enqueue) →
  inv {| shared := {| table := table sh; enqueued := enqueued sh ++ [r] |};
         threads := <[i := (r, Commit)]> ths |}.
Proof.
  intros H Hi. pose proof (inv_pc _ H i r Enqueue Hi) as [Hr Hq]. simpl in Hr, Hq.
  eapply (inv_update sh _ ths i r Enqueue Commit H Hi); simpl; try done.
  - intros j r' d Hji Hj Hpk.
    assert (Hod : owner d = false).
    { destruct (owner d) eqn:Ho; [|done]. exfalso. apply Hji.
      by eapply (inv_unique _ H j i r' r d Enqueue). }
    split; [|done]. pose proof (inv_pc _ H j r' d Hj) as Hp.
    by destruct d as [| | | | | |[]].
  - intros j r' d _ Hj Hpk. pose proof (inv_pc _ H j r' d Hj) as Hp.
    destruct d as [| | | | | |[]]; simpl in *; try done.
    destruct Hp as [Hp1 Hp2]. split; [done|]. rewrite fmap_app, elem_of_app.
    intros [Hx|Hx]; [done|]. by apply list_elem_of_singleton in Hx.
  - by left.
  - right. done.
Qed.

Lemma step_inv s s' : inv s → step true s s' → inv s'.
Proof.
  intros H Hs. destruct Hs as [fails i r c c' sh sh' ths Hf Hi Hst].
  assert (Hfails : fails = false) by auto. subst fails.
  destruct c; simpl in Hst; try done.
  - unfold insert_pending in Hst. destruct (table sh !! rq_pk r) as [rec|] eqn:E.
    + injection Hst as <- <-. simpl.
      assert (Heq : {| table := table sh; enqueued := enqueued sh |} = sh)
        by by destruct sh.
      rewrite Heq. eapply inv_local; [done|exact Hi|done..|]. simpl. by rewrite E.
    + injection Hst as <- <-. by apply inv_insert.
  - pose proof (inv_pc _ H i r Select Hi) as Hp. simpl in Hp.
    destruct (table sh !! rq_pk r) as [rec|] eqn:E; [|by destruct Hp].
    destruct (record_of_owner _ _ _ H E) as (r0 & st & Hpk & -> & Hstt).
    unfold judge_record in Hst. simpl in Hst.
    destruct (String.eqb (rq_hash r0) (rq_hash r)); simpl in Hst.
    2: { injection Hst as <- <-. by eapply inv_local. }
    destruct Hstt as [->| ->]; injection Hst as <- <-; eapply inv_local; try done.
    simpl. exists (rq_hash r0). by rewrite E.
  - pose proof (inv_pc _ H i r Reopen Hi) as Hp. done.
  - injection Hst as <- <-. by apply inv_enqueue.
  - injection Hst as <- <-. by apply inv_commit.
  - pose proof (inv_pc _ H i r MarkFailed Hi) as Hp. done.
Qed.

Lemma reachable_inv requests s : rtc (step true) (start requests) s → inv s.
Proof.
  intros H. pose proof (start_inv requests) as Hi. revert Hi.
  induction H as [|s0 s1 s2 Hs _ IH]; intros Hi; [done|]. apply IH. by eapply step_inv.
Qed.

(** The answer a request that succeeded gave. *)
Definition answered (r : Request) (c : pc) : option IngestResponse :=
  match c with
  | Done Accepted => Some (rq_answer r)
  | Done (Replayed a) => Some a
  | _ => None
  end.

(** C4: while the broker takes every task, any interleaving of the SQL
    statements of any number of concurrent requests enqueues at most one batch
    for each project and key, and all the requests of a key that succeed give
    the same answer. *)
Theorem concurrent_idempotency requests s :
  rtc (step true) (start requests) s →
  NoDup (rq_pk <$> enqueued (shared s)) ∧
  ∀ i j r r' c c' a a', threads s !! i = Some (r, c) → threads s !! j = Some (r', c') →
    rq_pk r = rq_pk r' → answered r c = Some a → answered r' c' = Some a' → a = a'.
Proof.
  intros Hr%reachable_inv. split; [apply (inv_nodup _ Hr)|].
  assert (Hrec : ∀ i r c a, threads s !! i = Some (r, c) → answered r c = Some a →
    ∃ h, table (shared s) !! rq_pk r
         = Some {| ir_hash := h; ir_status := ICommitted; ir_result := Some a |}).
  { intros i r c a Hi Ha. pose proof (inv_pc _ Hr i r c Hi) as Hp.
    destruct c as [| | | | | |[]]; simpl in *; try done; injection Ha as <-; by eauto. }
  intros i j r r' c c' a a' Hi Hj Hpk Ha Ha'.
  destruct (Hrec _ _ _ _ Hi Ha) as [h H1]. destruct (Hrec _ _ _ _ Hj Ha') as [h' H2].
  rewrite Hpk, H2 in H1. by injection H1.
Qed.

Definition sample_request (id : string) : Request :=
  {| rq_project := "p"; rq_key := "k"; rq_hash := "h";
     rq_answer := {| resp_batch := id; resp_accepted := 3 |} |}.

Definition three_requests : list Request :=
  [sample_request "b1"; sample_request "b2"; sample_request "b3"].

(** The first request wins; the second waits for its commit and replays. *)
Definition replay_schedule : list (nat * bool) :=
  [(0, false); (1, false); (0, false); (0, false); (1, false)]%nat.

Lemma concurrent_idempotency_witness :
  NoDup (rq_pk <$> enqueued (shared (run replay_schedule (start three_requests)))).
Proof.
  apply (concurrent_idempotency three_requests).
  apply (rtc_l _ _ (run [(0, false)]%nat (start three_requests))).
  { by apply (step_thread true false 0 (sample_request "b1") Insert). }
  eapply rtc_l; [by apply (step_thread true false 1 (sample_request "b2") Insert)|].
  eapply rtc_l; [by apply (step_thread true false 0 (sample_request "b1") Enqueue)|].
  eapply rtc_l; [by apply (step_thread true false 0 (sample_request "b1") Commit)|].
  eapply rtc_l; [by apply (step_thread true false 1 (sample_request "b2") Select)|].
  apply rtc_refl.
Defined.

(** The first request fails to enqueue; both retries read the failed record
    before either reopens it. *)
Definition race_schedule : list (nat * bool) :=
  [(0, false); (0, true); (0, false);
   (1, false); (2, false); (1, false); (2, false); (1, false); (2, false);
   (1, false); (2, false); (1, false); (2, false)]%nat.

(** after one failed enqueue the guarantee is lost. [reserve] reopens a
    failed record by key alone, so two retries that both read it as failed
    both go on: two tasks for one key are queued and the two retries both
    succeed, with different batch ids. *)
Theorem concurrent_retries_enqueue_twice :
  ∃ s, rtc (step false) (start three_requests) s ∧
    enqueued (shared s) = [sample_request "b2"; sample_request "b3"] ∧
    threads s !! 1%nat = Some (sample_request "b2", Done Accepted) ∧
    threads s !! 2%nat = Some (sample_request "b3", Done Accepted).
Proof.
  exists (run race_schedule (start three_requests)).
  split; [apply run_reachable|]. by vm_compute.
Qed.
End Interleaving.

(** ** Witnesses *)

Section witnesses.
Definition sample_hash : list SpanSchema → string :=
  ingest_request_hash (λ s, s) (λ _, "2026-01-01T00:00:00Z")
    (λ _, SpecFloat.S754_zero false) (λ _, "0.0").

Definition sample_ingest : string → World → result IngestResponse * World :=
  ingest_spans (λ s, s) (λ _, "2026-01-01T00:00:00Z")
    (λ _, SpecFloat.S754_zero false) (λ _, "0.0") (mret tt) "p" sample_request.

Lemma no_limiter_ok : limiter_ok (mret tt).
Proof. by split. Qed.

Lemma ingest_accepts_witness :
  ∃ w', sample_ingest "b1" (empty_world 7 [])
        = (Ok {| resp_batch := "b1"; resp_accepted := 1 |}, w') ∧
    w_queue w' = [process_span_batch_task "b1" "p"
      (map (span_data (λ _, "2026-01-01T00:00:00Z")) (spans sample_request))] ∧
    (get_ingest_batch_status "p" "b1" w').1
      = Ok {| b_batch := "b1"; b_status := "accepted"; b_accepted := 1;
              b_processed := 0; b_failed := 0; b_error := None;
              b_created := 7; b_updated := 7 |} ∧
    w_idempotency w' !! ("p", "k")
      = Some {| ir_hash := sample_hash (spans sample_request); ir_status := ICommitted;
                ir_result := Some {| resp_batch := "b1"; resp_accepted := 1 |} |}.
Proof.
  by apply (ingest_accepts (λ s, s) (λ _, "2026-01-01T00:00:00Z")
    (λ _, SpecFloat.S754_zero false) (λ _, "0.0") (mret tt) "p" sample_request "k" "b1"
    (empty_world 7 [])).
Defined.

Definition after_first : World := (sample_ingest "b1" (empty_world 7 [])).2.

(** The retry, with the status read failing. *)
Lemma zero_float_scans :
  float_scans (λ _, "0.0") (λ _, SpecFloat.S754_zero false) (SpecFloat.S754_zero false).
Proof.
  split; [done|]. intros f s (Hd & _ & He)%number_ends.
  change ("0.0" +:+ s) with (String "0" (String "." (String "0" s))).
  cbn -[digits exponent]. unfold scan_number. cbn -[digits exponent].
  assert (Hz : digits (String "0" s) = ("0"%string, s)).
  { cbn. destruct s as [|c s]; [done|]. cbn in *. by rewrite Hd. }
  rewrite Hz. by rewrite He.
Qed.

Lemma sample_readable :
  Forall (span_readable (λ _, SpecFloat.S754_zero false) (λ _, "0.0")
            (λ _, SpecFloat.S754_zero false)) (spans sample_request).
Proof.
  apply (Forall_impl (λ s, input_messages s = [] ∧ metadata s = [])).
  - vm_compute. repeat constructor.
  - intros s [Hm Hd]. unfold span_readable. rewrite Hm, Hd. split; [done|].
    split; [split; [apply NoDup_nil_2|done]|exact zero_float_scans].
Qed.

(** In between the clock moves and another project uses the same key. *)
Definition other_project : World :=
  (ingest_spans (λ s, s) (λ _, "2026-01-01T00:00:00Z") (λ _, SpecFloat.S754_zero false)
     (λ _, "0.0") (mret tt) "q" sample_request "b3" (set_w_now (λ _, 99) after_first)).2.


(** The statement that commits the record fails after the batch is queued. *)
Definition commit_fails : World :=
  (sample_ingest "b1" (empty_world 7
     [None; None; None; None; Some (SQLAlchemyError "connection is closed")])).2.

Lemma pending_key_blocks_witness :
  length (w_queue commit_fails) = 1%nat ∧
  (∃ e, (sample_ingest "b2" commit_fails).1 = Raise e) ∧
  w_queue (sample_ingest "b2" commit_fails).2 = w_queue commit_fails ∧
  w_idempotency (sample_ingest "b2" commit_fails).2 !! ("p", "k")
    = Some {| ir_hash := sample_hash (spans sample_request); ir_status := IPending;
              ir_result := Some {| resp_batch := "b1"; resp_accepted := 1 |} |}.
Proof.
  split; [by vm_compute|].
  apply (pending_key_blocks (λ s, s) (λ _, "2026-01-01T00:00:00Z")
    (λ _, SpecFloat.S754_zero false) (λ _, "0.0") (mret tt) "p" sample_request "k" "b2"
    commit_fails);
    first [done | apply no_limiter_ok | apply surjective_pairing].
Defined.
End witnesses.
