(* ===== verification/Outbox.v ===== *)
(** * Transactional outbox

    [backend/app/services/outbox.py] and [deliver_span_outbox_events] of
    [backend/app/workers/process_span.py]: events written with the spans,
    claimed, published and marked by a scheduled task.  The id of an event,
    [uuid.uuid4()] in the code, is the next unused number. *)

From S2P Require Import Prelude Text PyVal Decimal Schema App SpanSchema Pipeline Ingest.

Local Open Scope Z_scope.

Definition OUTBOX_SPAN_INSERTED : string := "span.inserted".
Definition OUTBOX_MAX_ATTEMPTS : Z := 5.

Definition fresh_event_id (t : list OutboxEvent) : Z :=
  1 + foldr (λ e acc, Z.max (ob_id e) acc) 0 t.

(** [UNIQUE (project_id, event_type, event_key)] *)
Definition same_event (project_id : Z) (event_type event_key : string)
    (e : OutboxEvent) : bool :=
  (ob_project e =? project_id) && String.eqb (ob_type e) event_type
  && String.eqb (ob_key e) event_key.

Definition pending_event (id project_id : Z) (event_type event_key payload : string)
    (t : timestamp) : OutboxEvent :=
  {| ob_id := id; ob_project := project_id; ob_type := event_type;
     ob_key := event_key; ob_payload := payload; ob_status := PENDING;
     ob_attempts := 0; ob_available := t; ob_locked := None; ob_delivered := None;
     ob_error := None; ob_created := t |}.

(** [INSERT ... ON CONFLICT (project_id, event_type, event_key) DO NOTHING] *)
Definition insert_event (project_id : Z) (event_type event_key payload : string)
    (now : timestamp) (t : list OutboxEvent) : list OutboxEvent :=
  if existsb (same_event project_id event_type event_key) t then t
  else t ++ [pending_event (fresh_event_id t) project_id event_type event_key payload now].

Definition enqueue_outbox_event (project_id : Z) (event_type event_key payload : string)
    : M World unit :=
  t ← now;
  sql_exec (set_w_outbox (insert_event project_id event_type event_key payload t)).

Module OutboxService.

Definition claimable (event_type : string) (project_id : option Z) (t : timestamp)
    (e : OutboxEvent) : bool :=
  String.eqb (ob_type e) event_type
  && match ob_status e with PENDING | FAILED => true | _ => false end
  && (ob_attempts e <? OUTBOX_MAX_ATTEMPTS)
  && (ob_available e <=? t)
  && match project_id with Some p => ob_project e =? p | None => true end.

(** The ids [next_events] selects. *)
Definition next_events (event_type : string) (project_id : option Z) (limit : nat)
    (t : timestamp) (l : list OutboxEvent) : list Z :=
  map ob_id (take limit (sort_by ob_created (select (claimable event_type project_id t) l))).

Definition has_id (ids : list Z) (e : OutboxEvent) : bool :=
  bool_decide (ob_id e ∈ ids).

Definition processing (t : timestamp) (e : OutboxEvent) : OutboxEvent :=
  {| ob_id := ob_id e; ob_project := ob_project e; ob_type := ob_type e;
     ob_key := ob_key e; ob_payload := ob_payload e; ob_status := PROCESSING;
     ob_attempts := ob_attempts e + 1; ob_available := ob_available e;
     ob_locked := Some t; ob_delivered := ob_delivered e; ob_error := ob_error e;
     ob_created := ob_created e |}.

Definition claim_pending (event_type : string) (project_id : option Z) (limit : nat)
    : M World (list OutboxEvent) :=
  t ← now;
  get_db (
    ids ← sql_query (λ w, next_events event_type project_id limit t (w_outbox w));
    modify (set_w_outbox (update_where (has_id ids) (processing t))) ;;
    rows ← gets (λ w, select (has_id ids) (w_outbox w));
    commit ;;
    mret rows).

Definition delivered (t : timestamp) (e : OutboxEvent) : OutboxEvent :=
  {| ob_id := ob_id e; ob_project := ob_project e; ob_type := ob_type e;
     ob_key := ob_key e; ob_payload := ob_payload e; ob_status := DELIVERED;
     ob_attempts := ob_attempts e; ob_available := ob_available e; ob_locked := None;
     ob_delivered := Some t; ob_error := None; ob_created := ob_created e |}.

Definition mark_delivered (event_id : Z) : M World unit :=
  t ← now;
  get_db (
    sql_exec (set_w_outbox (update_where (has_id [event_id]) (delivered t))) ;;
    commit).

(** Retries wait ten seconds per attempt, five minutes at most. *)
Definition failed (t : timestamp) (error : string) (e : OutboxEvent) : OutboxEvent :=
  {| ob_id := ob_id e; ob_project := ob_project e; ob_type := ob_type e;
     ob_key := ob_key e; ob_payload := ob_payload e;
     ob_status := if OUTBOX_MAX_ATTEMPTS <=? ob_attempts e then FAILED else PENDING;
     ob_attempts := ob_attempts e;
     ob_available := t + Z.min 300 (ob_attempts e * 10) * second;
     ob_locked := None; ob_delivered := ob_delivered e;
     ob_error := Some (str_take 1000 error); ob_created := ob_created e |}.

Definition mark_failed (event_id : Z) (error : string) : M World unit :=
  t ← now;
  get_db (
    sql_exec (set_w_outbox (update_where (has_id [event_id]) (failed t error))) ;;
    commit).
End OutboxService.
Import OutboxService.

(** The message of an event: channel and JSON text. *)
Definition message (e : OutboxEvent) : string * string :=
  ("project:" +:+ str_of_uuid (ob_project e) +:+ ":new_span", ob_payload e).

(** [await redis.publish(...)] *)
Definition publish (m : string * string) : M World unit :=
  io ;; modify (set_w_published (λ l, l ++ [m])).

Definition deliver_event (e : OutboxEvent) : M World unit :=
  try_except (publish (message e))
    (λ x, OutboxService.mark_failed (ob_id e) (exn_str x) ;; raise x) ;;
  mark_delivered (ob_id e).

Definition deliver_span_outbox_events (project_id : option Z) (limit : nat)
    : M World unit :=
  events ← claim_pending OUTBOX_SPAN_INSERTED project_id limit;
  for_each events deliver_event.

(** ** Facts *)

(** What no operation on an event changes. *)
Definition content (e : OutboxEvent) : Z * Z * string * string * string :=
  (ob_id e, ob_project e, ob_type e, ob_key e, ob_payload e).

Definition contents (w : World) : list (Z * Z * string * string * string) :=
  content <$> w_outbox w.

Lemma update_where_content p f (t : list OutboxEvent) :
  (∀ e, content (f e) = content e) → content <$> update_where p f t = content <$> t.
Proof.
  intros Hf. induction t as [|e t IH]; [done|]. simpl. f_equal; [|exact IH].
  by destruct (p e).
Qed.

Lemma claim_pending_contents ty p n : preserves contents (claim_pending ty p n).
Proof.
  unfold claim_pending, sql_query, commit, now. apply preserves_bind; [preserve|].
  intros t. apply get_db_preserves; [|done].
  apply preserves_bind; [preserve|]. intros ids.
  apply preserves_bind; [|preserve].
  apply preserves_modify. intros w. by apply update_where_content.
Qed.

Lemma mark_contents id f :
  (∀ e, content (f e) = content e) →
  preserves contents (get_db (sql_exec (set_w_outbox (update_where (has_id [id]) f)) ;; commit)).
Proof.
  intros Hf. apply get_db_preserves; [|done]. unfold sql_exec, commit.
  apply preserves_bind; [|preserve]. apply preserves_bind; [preserve|].
  intros _. apply preserves_modify. intros w. by apply update_where_content.
Qed.

Lemma mark_delivered_contents id : preserves contents (mark_delivered id).
Proof.
  unfold mark_delivered, now. apply preserves_bind; [preserve|].
  intros t. by apply mark_contents.
Qed.

Lemma mark_failed_contents id x : preserves contents (OutboxService.mark_failed id x).
Proof.
  unfold OutboxService.mark_failed, now. apply preserves_bind; [preserve|].
  intros t. by apply mark_contents.
Qed.

#[export] Hint Resolve claim_pending_contents mark_delivered_contents
  mark_failed_contents : preserves.

Lemma publish_contents m : preserves contents (publish m).
Proof. unfold publish. preserve. Qed.
#[export] Hint Resolve publish_contents : preserves.

Lemma deliver_event_contents e : preserves contents (deliver_event e).
Proof. unfold deliver_event. preserve. Qed.

(** Same id, same content. *)
Lemma same_content w e r :
  NoDup (ob_id <$> w_outbox w) → content e ∈ contents w → r ∈ w_outbox w →
  ob_id r = ob_id e → content r = content e.
Proof.
  intros Hnd He Hr Hid. apply list_elem_of_fmap in He as (e' & He' & Hin).
  assert (Hid' : ob_id r = ob_id e') by (unfold content in He'; congruence).
  apply list_elem_of_lookup in Hr as [i Hi]. apply list_elem_of_lookup in Hin as [j Hj].
  assert (i = j) as ->.
  { eapply NoDup_lookup; [exact Hnd|by rewrite list_lookup_fmap, Hi|].
    by rewrite list_lookup_fmap, Hj, Hid'. }
  rewrite Hi in Hj. by injection Hj as ->.
Qed.

Lemma ids_of_contents w : ob_id <$> w_outbox w = (λ c : Z * Z * string * string * string, c.1.1.1.1) <$> contents w.
Proof. unfold contents. by rewrite <- list_fmap_compose. Qed.

(** A session either commits its update of the table or leaves it. *)
Lemma mark_run id g w res w' :
  get_db (sql_exec (set_w_outbox (update_where (has_id [id]) g)) ;; commit) w = (res, w') →
  w_published w' = w_published w ∧ w_now w' = w_now w ∧
  (w_outbox w' = w_outbox w ∧ (∃ e, res = Raise e) ∨
   w_outbox w' = update_where (has_id [id]) g (w_outbox w) ∧ res = Ok tt).
Proof.
  intros H.
  assert (Hp : preserves (λ w, (w_published w, w_now w))
    (get_db (sql_exec (set_w_outbox (update_where (has_id [id]) g)) ;; commit))).
  { apply get_db_preserves; [|intros ?? [= ??]; simpl; congruence]. unfold sql_exec, commit. preserve. }
  specialize (Hp w). rewrite H in Hp. simpl in Hp. injection Hp as Hp1 Hp2.
  split; [done|]. split; [done|]. destruct res as [[]|e].
  - right. world_inv. done.
  - left. apply get_db_raise in H as [_ _ H _ _]. eauto.
Qed.

Record outbox_inv (w : World) : Prop := {
  oi_ids : NoDup (ob_id <$> w_outbox w);
  oi_delivered : ∀ e, e ∈ w_outbox w → ob_status e = DELIVERED →
    message e ∈ w_published w;
  oi_attempts : ∀ e, e ∈ w_outbox w → 0 <= ob_attempts e <= OUTBOX_MAX_ATTEMPTS ∧
    (ob_status e = FAILED → ob_attempts e = OUTBOX_MAX_ATTEMPTS) ∧
    (ob_status e = PROCESSING → 1 <= ob_attempts e);
}.

(** An update of some rows that keeps their content. *)
Lemma outbox_inv_update w w' p g :
  outbox_inv w → w_outbox w' = update_where p g (w_outbox w) →
  w_published w' = w_published w → (∀ e, content (g e) = content e) →
  (∀ e, e ∈ w_outbox w → p e = true →
     (ob_status (g e) = DELIVERED → message e ∈ w_published w) ∧
     0 <= ob_attempts (g e) <= OUTBOX_MAX_ATTEMPTS ∧
     (ob_status (g e) = FAILED → ob_attempts (g e) = OUTBOX_MAX_ATTEMPTS) ∧
     (ob_status (g e) = PROCESSING → 1 <= ob_attempts (g e))) →
  outbox_inv w'.
Proof.
  intros [Hn Hd Ha] Ho Hp Hg Hrow. constructor.
  - rewrite ids_of_contents. unfold contents. rewrite Ho, update_where_content by done.
    by rewrite <- list_fmap_compose.
  - rewrite Ho, Hp. intros e (e0 & He0 & ->)%elem_of_update_where Hst.
    destruct (p e0) eqn:E; [|by apply Hd].
    assert (message (g e0) = message e0) as ->.
    { specialize (Hg e0). unfold content in Hg. unfold message. congruence. }
    by apply Hrow.
  - rewrite Ho. intros e (e0 & He0 & ->)%elem_of_update_where.
    destruct (p e0) eqn:E; [|by apply Ha]. destruct (Hrow e0 He0 E) as [_ H]. exact H.
Qed.

Lemma has_id_one id e : has_id [id] e = true → ob_id e = id.
Proof. unfold has_id. rewrite bool_decide_eq_true. by intros ?%list_elem_of_singleton. Qed.

Lemma mark_delivered_inv e w :
  outbox_inv w → content e ∈ contents w → message e ∈ w_published w →
  outbox_inv (mark_delivered (ob_id e) w).2.
Proof.
  intros Hi He Hm. destruct (mark_delivered (ob_id e) w) as [res w'] eqn:E.
  unfold mark_delivered, now, gets, mbind, M_bind in E.
  apply mark_run in E as (Hp & _ & [[Ho _]|[Ho _]]); simpl.
  - destruct Hi as [H1 H2 H3]. constructor; rewrite Ho, ?Hp; done.
  - eapply outbox_inv_update; [done|exact Ho|done|done|].
    intros r Hr Hid%has_id_one.
    assert (Hc : content r = content e)
      by (eapply same_content; [apply (oi_ids _ Hi)|..]; done).
    destruct (oi_attempts w Hi r Hr) as (? & ? & ?). split_and!; simpl; try done; [|lia..].
    intros _. assert (message r = message e) as ->; [|done].
    unfold content in Hc. unfold message. congruence.
Qed.

Lemma mark_failed_inv id x w :
  outbox_inv w → outbox_inv (OutboxService.mark_failed id x w).2.
Proof.
  intros Hi. destruct (OutboxService.mark_failed id x w) as [res w'] eqn:E.
  unfold OutboxService.mark_failed, now, gets, mbind, M_bind in E.
  apply mark_run in E as (Hp & _ & [[Ho _]|[Ho _]]); simpl.
  - destruct Hi as [H1 H2 H3]. constructor; rewrite Ho, ?Hp; done.
  - eapply outbox_inv_update; [done|exact Ho|done|done|].
    intros r Hr _. destruct (oi_attempts w Hi r Hr) as (? & ? & ?). simpl.
    unfold OUTBOX_MAX_ATTEMPTS in *.
    destruct (5 <=? ob_attempts r) eqn:E5; split_and!; try done; intros; lia.
Qed.

Lemma claim_pending_run ty p n w res w' :
  claim_pending ty p n w = (res, w') →
  w_published w' = w_published w ∧ w_now w' = w_now w ∧
  (w_outbox w' = w_outbox w ∧ (∃ e, res = Raise e) ∨
   let ids := next_events ty p n (w_now w) (w_outbox w) in
   w_outbox w' = update_where (has_id ids) (processing (w_now w)) (w_outbox w) ∧
   res = Ok (select (has_id ids) (w_outbox w'))).
Proof.
  intros H.
  assert (Hp : preserves (λ w, (w_published w, w_now w)) (claim_pending ty p n)).
  { unfold claim_pending, now. apply preserves_bind; [preserve|]. intros t.
    apply get_db_preserves; [|intros ?? [= ??]; simpl; congruence]. unfold sql_query, commit. preserve. }
  specialize (Hp w). rewrite H in Hp. simpl in Hp. injection Hp as Hp1 Hp2.
  split; [done|]. split; [done|]. destruct res as [l|e].
  - right. unfold claim_pending in H. world_inv. done.
  - left. unfold claim_pending, now, gets, mbind, M_bind in H.
    apply get_db_raise in H as [_ _ H _ _]. eauto.
Qed.

Lemma next_events_claimable ty p n w e :
  NoDup (ob_id <$> w_outbox w) → e ∈ w_outbox w →
  has_id (next_events ty p n (w_now w) (w_outbox w)) e = true →
  claimable ty p (w_now w) e = true.
Proof.
  unfold has_id, next_events. rewrite bool_decide_eq_true. intros Hnd He Hin.
  apply list_elem_of_fmap in Hin as (e' & Hid & Hin).
  apply elem_of_take_subset, sort_by_elem_of, elem_of_select in Hin as [Hin Hc].
  assert (e' = e) as ->; [|done].
  apply list_elem_of_lookup in He as [i Hi]. apply list_elem_of_lookup in Hin as [j Hj].
  assert (i = j) as ->.
  { eapply NoDup_lookup; [exact Hnd|by rewrite list_lookup_fmap, Hi|].
    by rewrite list_lookup_fmap, Hj, Hid. }
  rewrite Hi in Hj. by injection Hj.
Qed.

Lemma claim_pending_inv ty p n w :
  outbox_inv w → outbox_inv (claim_pending ty p n w).2.
Proof.
  intros Hi. destruct (claim_pending ty p n w) as [res w'] eqn:E.
  apply claim_pending_run in E as (Hp & _ & [[Ho _]|[Ho _]]); simpl.
  - destruct Hi as [H1 H2 H3]. constructor; rewrite Ho, ?Hp; done.
  - eapply outbox_inv_update; [done|exact Ho|done|done|].
    intros e He Hc. apply next_events_claimable in Hc; [|apply (oi_ids _ Hi)|done].
    unfold claimable in Hc. rewrite !andb_true_iff in Hc.
    destruct Hc as ((((_ & _) & Hlt) & _) & _). apply Z.ltb_lt in Hlt.
    destruct (oi_attempts w Hi e He) as (? & ? & ?).
    unfold OUTBOX_MAX_ATTEMPTS in *. split_and!; simpl; try done; intros; lia.
Qed.

(** The claimed events, while they are being delivered. *)
Definition claimed_inv (es : list OutboxEvent) (w : World) : Prop :=
  outbox_inv w ∧ ∀ e, e ∈ es → content e ∈ contents w.

Lemma publish_run m w res w' :
  publish m w = (res, w') →
  w_outbox w' = w_outbox w ∧
  (res = Ok tt ∧ w_published w' = w_published w ++ [m] ∨
   ∃ e, res = Raise e ∧ w_published w' = w_published w).
Proof.
  intros H. assert (Hp : preserves w_outbox (publish m)) by (unfold publish; preserve).
  specialize (Hp w). rewrite H in Hp. split; [done|]. unfold publish, mbind, M_bind in H.
  assert (Hq : preserves w_published io) by preserve. specialize (Hq w).
  destruct (io w) as [[u|e] w1]; unfold modify in H; simplify_eq/=.
  - left. by rewrite Hq.
  - right. eauto.
Qed.

Lemma outbox_inv_published w w' :
  outbox_inv w → w_outbox w' = w_outbox w →
  (∀ m, m ∈ w_published w → m ∈ w_published w') → outbox_inv w'.
Proof.
  intros [H1 H2 H3] Ho Hp. constructor; rewrite Ho; [done| |done].
  intros e He Hst. by apply Hp, H2.
Qed.

Lemma deliver_event_inv es e : e ∈ es → keeps (claimed_inv es) (deliver_event e).
Proof.
  intros He w [Hi Hc].
  assert (Hc' : ∀ e, e ∈ es → content e ∈ contents (deliver_event e w).2).
  { intros e' He'. rewrite deliver_event_contents. by apply Hc. }
  split.
  2: { intros e' He'. rewrite deliver_event_contents. by apply Hc. }
  unfold deliver_event. unfold mbind, M_bind, try_except.
  destruct (publish (message e) w) as [r w1] eqn:E1.
  apply publish_run in E1 as [Ho1 [[-> Hp1]|(x & -> & Hp1)]].
  - apply mark_delivered_inv.
    + eapply outbox_inv_published; [done|done|]. rewrite Hp1. set_solver.
    + unfold contents. rewrite Ho1. by apply Hc.
    + rewrite Hp1. set_solver.
  - assert (Hi1 : outbox_inv w1).
    { eapply outbox_inv_published; [done|done|]. by rewrite Hp1. }
    pose proof (mark_failed_inv (ob_id e) (exn_str x) w1 Hi1) as Hf.
    by destruct (OutboxService.mark_failed _ _ w1) as [[u|y] w2].
Qed.

(** C10: an event is marked delivered only after it was published, attempts
    stay within five, and an event gives up only after the fifth, whatever
    calls fail and wherever a run of the delivery task stops. *)
Theorem deliver_keeps_outbox_inv p n : keeps outbox_inv (deliver_span_outbox_events p n).
Proof.
  unfold deliver_span_outbox_events.
  apply keeps_bind_run; [intros w Hi; by apply claim_pending_inv|].
  intros w es w' Hi E Hi'.
  assert (Hc : claimed_inv es w').
  { split; [done|]. apply claim_pending_run in E as (_ & _ & [[_ [? ?]]|[_ Hes]]); [done|].
    injection Hes as ->. intros e [He _]%elem_of_select.
    apply list_elem_of_fmap. by exists e. }
  apply (keeps_for_each (claimed_inv es) es deliver_event); [|done].
  intros e He. by apply deliver_event_inv.
Qed.

Lemma fresh_event_id_lt e t : e ∈ t → ob_id e < fresh_event_id t.
Proof.
  unfold fresh_event_id. induction t as [|x t IH]; [set_solver|].
  intros [->|Hin]%elem_of_cons; simpl; [lia|]. specialize (IH Hin). lia.
Qed.

Lemma insert_event_ids p ty k pl now t :
  NoDup (ob_id <$> t) → NoDup (ob_id <$> insert_event p ty k pl now t).
Proof.
  unfold insert_event. destruct (existsb _ t); [done|]. apply NoDup_column_app.
  intros e He%fresh_event_id_lt. simpl. lia.
Qed.

Lemma insert_event_inv p ty k pl w :
  outbox_inv w → outbox_inv (enqueue_outbox_event p ty k pl w).2.
Proof.
  intros Hi. unfold enqueue_outbox_event, now, gets, sql_exec, mbind, M_bind.
  assert (Hio : preserves (λ w, (w_outbox w, w_published w)) io) by preserve.
  specialize (Hio w). destruct (io w) as [[u|e] w1]; simpl in *; injection Hio as Ho Hp.
  2: { eapply outbox_inv_published; [done|done|by rewrite Hp]. }
  destruct Hi as [H1 H2 H3]. unfold insert_event.
  destruct (existsb (same_event p ty k) (w_outbox w1)) eqn:Ex.
  { constructor; simpl; rewrite Ex, Ho, ?Hp; done. }
  constructor; simpl; rewrite Ex, Ho, ?Hp.
  - rewrite Ho in Ex. pose proof (insert_event_ids p ty k pl (w_now w) _ H1) as Hn.
    unfold insert_event in Hn. by rewrite Ex in Hn.
  - intros e [He| ->%list_elem_of_singleton]%elem_of_app Hst; [by apply H2|done].
  - intros e [He| ->%list_elem_of_singleton]%elem_of_app; [by apply H3|]. simpl.
    unfold OUTBOX_MAX_ATTEMPTS. split_and!; try done; lia.
Qed.

(** ** Events nobody is delivering *)

(** A later run of the task, at any time, under any faults. *)
Definition later_run (w w' : World) : Prop :=
  ∃ p n t fs, w' = (deliver_span_outbox_events p n
                      (set_w_faults (λ _, fs) (set_w_now (λ _, t) w))).2.

Lemma update_where_keeps {A} p f (t : list A) r :
  r ∈ t → p r = false → r ∈ update_where p f t.
Proof. intros Hr Hp. apply elem_of_update_where. exists r. by rewrite Hp. Qed.

Lemma has_id_ne id r : ob_id r ≠ id → has_id [id] r = false.
Proof.
  intros H. unfold has_id. apply bool_decide_eq_false.
  by intros ?%list_elem_of_singleton.
Qed.

Lemma mark_keeps_other r id g :
  ob_id r ≠ id → keeps (λ w, r ∈ w_outbox w)
    (get_db (sql_exec (set_w_outbox (update_where (has_id [id]) g)) ;; commit)).
Proof.
  intros Hid w Hr. destruct (get_db _ w) as [res w'] eqn:E.
  apply mark_run in E as (_ & _ & [[Ho _]|[Ho _]]); simpl; rewrite Ho; [done|].
  apply update_where_keeps; [done|by apply has_id_ne].
Qed.

Lemma deliver_event_keeps_other r e :
  ob_id r ≠ ob_id e → keeps (λ w, r ∈ w_outbox w) (deliver_event e).
Proof.
  intros Hid. unfold deliver_event.
  assert (Hd : keeps (λ w, r ∈ w_outbox w) (mark_delivered (ob_id e))).
  { unfold mark_delivered, now. apply keeps_bind; [apply keeps_gets|].
    intros t. by apply mark_keeps_other. }
  assert (Hf : ∀ x, keeps (λ w, r ∈ w_outbox w) (OutboxService.mark_failed (ob_id e) x)).
  { intros x. unfold OutboxService.mark_failed, now. apply keeps_bind; [apply keeps_gets|].
    intros t. by apply mark_keeps_other. }
  apply keeps_bind; [|done]. apply keeps_try.
  - intros w Hr. destruct (publish _ w) as [res w'] eqn:E.
    apply publish_run in E as [Ho _]. simpl. by rewrite Ho.
  - intros x. apply keeps_bind; [apply Hf|]. intros _. apply keeps_raise.
Qed.

(** A run of the task does not see an event in state PROCESSING. *)
Lemma deliver_keeps_processing p n w r :
  NoDup (ob_id <$> w_outbox w) → r ∈ w_outbox w → ob_status r = PROCESSING →
  r ∈ w_outbox (deliver_span_outbox_events p n w).2.
Proof.
  intros Hnd Hr Hst. unfold deliver_span_outbox_events, mbind, M_bind.
  destruct (claim_pending _ p n w) as [[es|x] w1] eqn:E;
    apply claim_pending_run in E as (_ & _ & [[Ho Hres]|[Ho Hres]]);
    [by destruct Hres| |simpl; by rewrite Ho|done].
  injection Hres as ->.
  assert (Hid : has_id (next_events OUTBOX_SPAN_INSERTED p n (w_now w) (w_outbox w)) r
                = false).
  { apply not_true_iff_false. intros Hid.
    apply next_events_claimable in Hid; [|done..]. unfold claimable in Hid.
    rewrite Hst, andb_false_r in Hid. done. }
  apply (keeps_for_each (λ w, r ∈ w_outbox w)).
  2: { rewrite Ho. by apply update_where_keeps. }
  intros e [_ He]%elem_of_select. apply deliver_event_keeps_other.
  intros Heq. unfold has_id in Hid, He. rewrite Heq in Hid. by rewrite Hid in He.
Qed.

Lemma deliver_ids p n : preserves (λ w, ob_id <$> w_outbox w) (deliver_span_outbox_events p n).
Proof.
  assert (Hc : preserves contents (deliver_span_outbox_events p n)).
  { unfold deliver_span_outbox_events. apply preserves_bind; [preserve|].
    intros es. apply preserves_for_each. apply deliver_event_contents. }
  intros w. by rewrite !ids_of_contents, Hc.
Qed.

(** C39: the first failed publication strands the rest of the claim. When the
    message of the first claimed event cannot be published, the task raises
    and every other claimed event keeps the state PROCESSING; no later run of
    the task, whenever and however it goes, delivers or even looks at it. *)
Theorem publish_failure_strands p n w e rest w1 x w' r w'' :
  NoDup (ob_id <$> w_outbox w) →
  claim_pending OUTBOX_SPAN_INSERTED p n w = (Ok (e :: rest), w1) →
  w_faults w1 = [Some x] →
  deliver_span_outbox_events p n w = (Raise x, w') →
  r ∈ rest → ob_id r ≠ ob_id e →
  rtc later_run w' w'' → r ∈ w_outbox w'' ∧ ob_status r = PROCESSING.
Proof.
  intros Hnd Hclaim Hf Hrun Hr Hid Hlater.
  assert (Hnd' : NoDup (ob_id <$> w_outbox w')).
  { pose proof (deliver_ids p n w) as Hd. rewrite Hrun in Hd. simpl in Hd. by rewrite Hd. }
  assert (Hst : ob_status r = PROCESSING ∧ r ∈ w_outbox w1).
  { apply claim_pending_run in Hclaim as (_ & _ & [[_ [? ?]]|[Ho Hes]]); [done|].
    injection Hes as Hes.
    assert (Hin : r ∈ e :: rest) by set_solver. rewrite Hes in Hin.
    apply elem_of_select in Hin as [Hin Hh]. split; [|done]. rewrite Ho in Hin.
    apply elem_of_update_where in Hin as (r0 & Hr0 & ->).
    destruct (has_id _ r0) eqn:E0; [done|]. by rewrite E0 in Hh. }
  destruct Hst as [Hst Hin1]. split; [|done].
  assert (Hin' : r ∈ w_outbox w').
  { unfold deliver_span_outbox_events, mbind, M_bind in Hrun. rewrite Hclaim in Hrun.
    simpl in Hrun. unfold mbind, M_bind in Hrun.
    pose proof (deliver_event_keeps_other r e Hid w1 Hin1) as Hk.
    unfold deliver_event, mbind, M_bind, try_except, publish, io, next_fault,
      mbind, M_bind in Hrun, Hk. rewrite Hf in Hrun, Hk. simpl in Hrun, Hk.
    by injection Hrun as <-. }
  clear -Hlater Hin' Hnd' Hst. induction Hlater as [|a b c Hab _ IH]; [done|].
  destruct Hab as (p & n & t & fs & ->).
  apply IH; [by rewrite deliver_ids|]. by apply deliver_keeps_processing.
Qed.

(** ** The task when every call succeeds *)

Lemma mark_delivered_run id w :
  w_faults w = [] →
  mark_delivered id w
  = (Ok tt, set_w_outbox (update_where (has_id [id]) (delivered (w_now w))) w).
Proof.
  intros Hf. unfold mark_delivered. evaluate. rewrite Hf. evaluate. by rewrite Hf.
Qed.

Lemma update_where_one_more id ids g (t : list OutboxEvent) :
  (∀ e, ob_id (g e) = ob_id e) → (∀ e, g (g e) = g e) →
  update_where (has_id ids) g (update_where (has_id [id]) g t)
  = update_where (has_id (id :: ids)) g t.
Proof.
  intros Hid Hg. unfold update_where. rewrite map_map. apply map_ext. intros e.
  unfold has_id. destruct (decide (ob_id e = id)) as [He|He].
  - rewrite (bool_decide_eq_true_2 (ob_id e ∈ [id])) by (rewrite He; set_solver).
    rewrite (bool_decide_eq_true_2 (ob_id e ∈ id :: ids)) by (rewrite He; set_solver).
    rewrite Hid, Hg. by case_match.
  - rewrite (bool_decide_eq_false_2 (ob_id e ∈ [id])) by set_solver.
    assert (bool_decide (ob_id e ∈ id :: ids) = bool_decide (ob_id e ∈ ids)) as ->; [|done].
    apply bool_decide_ext. set_solver.
Qed.

Lemma deliver_loop_run es w :
  w_faults w = [] →
  for_each es deliver_event w
  = (Ok tt, set_w_outbox (update_where (has_id (ob_id <$> es)) (delivered (w_now w)))
              (set_w_published (λ l, l ++ map message es) w)).
Proof.
  revert w. induction es as [|e es IH]; intros w Hf; simpl.
  - unfold mret, M_ret. f_equal. destruct w; unfold set_w_outbox, set_w_published; simpl.
    rewrite app_nil_r. f_equal. symmetry. unfold update_where.
    rewrite <- (map_id w_outbox) at 2. apply map_ext. intros r. unfold has_id.
    by rewrite bool_decide_eq_false_2 by set_solver.
  - erewrite bind_run.
    2: { unfold deliver_event, publish. evaluate. rewrite Hf. evaluate.
         by rewrite mark_delivered_run. }
    rewrite IH by done. f_equal. destruct w; unfold set_w_outbox, set_w_published; simpl.
    rewrite <- app_assoc. f_equal. by apply update_where_one_more.
Qed.

(** With room for all of them, the claimed rows are the claimable ones. *)
Lemma next_events_all ty p n w e :
  NoDup (ob_id <$> w_outbox w) → e ∈ w_outbox w →
  (length (select (claimable ty p (w_now w)) (w_outbox w)) ≤ n)%nat →
  has_id (next_events ty p n (w_now w) (w_outbox w)) e = claimable ty p (w_now w) e.
Proof.
  intros Hnd He Hlen. destruct (claimable ty p (w_now w) e) eqn:Ec.
  - unfold has_id, next_events. apply bool_decide_eq_true.
    rewrite take_ge by (rewrite sort_by_length; done).
    apply list_elem_of_fmap. exists e. split; [done|].
    apply sort_by_elem_of, elem_of_select. done.
  - apply not_true_iff_false. intros Hid.
    apply next_events_claimable in Hid; [congruence|done..].
Qed.

(** [RETURNING]: the rows of the update, as updated. *)
Lemma select_update_where {A} (p : A → bool) g (t : list A) :
  (∀ e, p (g e) = p e) → select p (update_where p g t) = map g (select p t).
Proof.
  intros Hp. unfold select, update_where. induction t as [|e t IH]; [done|]. simpl.
  rewrite IH. destruct (p e) eqn:E; [by rewrite Hp, E|by rewrite E].
Qed.

Lemma update_where_ext {A} (p q : A → bool) g (t : list A) :
  (∀ e, e ∈ t → p e = q e) → update_where p g t = update_where q g t.
Proof.
  intros H. unfold update_where. apply map_ext_in.
  intros e He%list_elem_of_In. by rewrite H.
Qed.

Lemma select_ext {A} (p q : A → bool) (t : list A) :
  (∀ e, e ∈ t → p e = q e) → select p t = select q t.
Proof.
  intros H. unfold select. apply filter_ext_in.
  intros e He%list_elem_of_In. by rewrite H.
Qed.

Lemma has_id_select p (t : list OutboxEvent) e :
  NoDup (ob_id <$> t) → e ∈ t → has_id (ob_id <$> select p t) e = p e.
Proof.
  intros Hnd He. unfold has_id. destruct (p e) eqn:Ep.
  - apply bool_decide_eq_true, list_elem_of_fmap. exists e. split; [done|].
    by apply elem_of_select.
  - apply bool_decide_eq_false. intros Hin.
    apply list_elem_of_fmap in Hin as (e' & Hid & [He' Hp]%elem_of_select).
    apply list_elem_of_lookup in He as [i Hi]. apply list_elem_of_lookup in He' as [j Hj].
    assert (i = j) as ->.
    { eapply NoDup_lookup; [exact Hnd|by rewrite list_lookup_fmap, Hi|].
      by rewrite list_lookup_fmap, Hj, Hid. }
    rewrite Hi in Hj. injection Hj as ->. congruence.
Qed.

(** Every claimable event, published and marked. *)
Lemma deliver_run p n w :
  w_faults w = [] → NoDup (ob_id <$> w_outbox w) →
  let ready := select (claimable OUTBOX_SPAN_INSERTED p (w_now w)) (w_outbox w) in
  (length ready ≤ n)%nat →
  deliver_span_outbox_events p n w
  = (Ok tt, set_w_outbox (λ _, update_where (claimable OUTBOX_SPAN_INSERTED p (w_now w))
      (λ e, delivered (w_now w) (processing (w_now w) e)) (w_outbox w))
      (set_w_published (λ l, l ++ map message ready) w)).
Proof.
  intros Hf Hnd ready Hlen.
  set (cl := claimable OUTBOX_SPAN_INSERTED p (w_now w)) in *.
  set (ids := next_events OUTBOX_SPAN_INSERTED p n (w_now w) (w_outbox w)).
  set (g := processing (w_now w)).
  assert (Hids : ∀ e, e ∈ w_outbox w → has_id ids e = cl e)
    by (intros; by apply next_events_all).
  assert (Hup : update_where (has_id ids) g (w_outbox w) = update_where cl g (w_outbox w))
    by by apply update_where_ext.
  assert (Hrows : select (has_id ids) (update_where cl g (w_outbox w)) = map g ready).
  { rewrite <- Hup, select_update_where by done. f_equal. by apply select_ext. }
  assert (Hclaim : claim_pending OUTBOX_SPAN_INSERTED p n w
    = (Ok (map g ready), set_w_outbox (update_where cl g) w)).
  { unfold claim_pending. evaluate. rewrite Hf. evaluate. fold ids. fold g.
    rewrite Hup, Hrows, Hf. f_equal. destruct w; unfold set_w_outbox; simpl in *.
    by rewrite Hup. }
  unfold deliver_span_outbox_events. rewrite (bind_run _ _ _ _ _ Hclaim).
  rewrite deliver_loop_run by done. f_equal.
  assert (Hmsg : map message (map g ready) = map message ready)
    by (rewrite map_map; by apply map_ext).
  rewrite Hmsg. unfold set_w_outbox, set_w_published. cbn. f_equal.
  unfold update_where. rewrite map_map. apply map_ext_in. intros e He%list_elem_of_In.
  assert (Hm : has_id (ob_id <$> map g ready) (if cl e then g e else e) = cl e).
  { transitivity (has_id (ob_id <$> ready) e); [|by apply has_id_select]. unfold has_id.
    assert (ob_id (if cl e then g e else e) = ob_id e) as -> by by destruct (cl e).
    assert (ob_id <$> map g ready = ob_id <$> ready) as ->; [|done].
    symmetry. exact (list_fmap_compose g ob_id ready). }
  rewrite Hm. by destruct (cl e).
Qed.

(** with the services up a run of the task publishes each claimable event
    once, in table order, and marks exactly those delivered, with one more
    attempt; the other events are left as they were. *)
Theorem deliver_delivers_all p n w :
  w_faults w = [] → NoDup (ob_id <$> w_outbox w) →
  let ready := select (claimable OUTBOX_SPAN_INSERTED p (w_now w)) (w_outbox w) in
  (length ready ≤ n)%nat →
  ∃ w', deliver_span_outbox_events p n w = (Ok tt, w') ∧
    w_published w' = w_published w ++ map message ready ∧
    w_outbox w' = update_where (claimable OUTBOX_SPAN_INSERTED p (w_now w))
      (λ e, delivered (w_now w) (processing (w_now w) e)) (w_outbox w).
Proof.
  intros Hf Hnd ready Hlen. eexists. split; [by apply deliver_run|done].
Qed.

(** ** Witnesses *)

Definition two_events : list OutboxEvent :=
  insert_event 7 OUTBOX_SPAN_INSERTED "b" "{}" 0
    (insert_event 7 OUTBOX_SPAN_INSERTED "a" "{}" 0 []).

Definition outbox_world (faults : list (option exn)) : World :=
  set_w_outbox (λ _, two_events) (empty_world 60 faults).

Lemma deliver_keeps_outbox_inv_witness :
  outbox_inv (outbox_world [None; None; Some (RedisError "down")]) ∧
  outbox_inv (deliver_span_outbox_events None 100
    (outbox_world [None; None; Some (RedisError "down")])).2.
Proof.
  assert (H : outbox_inv (outbox_world [None; None; Some (RedisError "down")])).
  { constructor.
    - apply (bool_decide_unpack (NoDup [1; 2])). by vm_compute.
    - intros e He Hst. simpl in He.
      repeat (apply elem_of_cons in He as [->|He]; [done|]). by apply not_elem_of_nil in He.
    - intros e He. simpl in He.
      repeat (apply elem_of_cons in He as [->|He]; [by vm_compute|]).
      by apply not_elem_of_nil in He. }
  split; [exact H|]. exact (deliver_keeps_outbox_inv None 100 _ H).
Defined.

Lemma deliver_delivers_all_witness :
  ∃ w', deliver_span_outbox_events None 100 (outbox_world []) = (Ok tt, w') ∧
    w_published w' = map message two_events ∧
    w_outbox w' = map (λ e, delivered 60 (processing 60 e)) two_events.
Proof.
  apply (deliver_delivers_all None 100 (outbox_world [])).
  - done.
  - apply (bool_decide_unpack (NoDup [1; 2])). by vm_compute.
  - apply (bool_decide_unpack (2 ≤ 100)%nat). by vm_compute.
Defined.

Definition stranded : OutboxEvent :=
  processing 60 (pending_event 2 7 OUTBOX_SPAN_INSERTED "b" "{}" 0).

Definition publish_down : World :=
  outbox_world [None; None; Some (RedisError "down")].

Lemma publish_failure_strands_witness :
  stranded ∈ w_outbox (deliver_span_outbox_events None 100
    (set_w_now (λ _, 86400 * second)
       (deliver_span_outbox_events None 100 publish_down).2)).2 ∧
  ob_status stranded = PROCESSING.
Proof.
  eapply (publish_failure_strands None 100 publish_down
    (processing 60 (pending_event 1 7 OUTBOX_SPAN_INSERTED "a" "{}" 0)) [stranded]
    (claim_pending OUTBOX_SPAN_INSERTED None 100 publish_down).2 (RedisError "down")
    (deliver_span_outbox_events None 100 publish_down).2 stranded).
  - apply (bool_decide_unpack (NoDup [1; 2])). by vm_compute.
  - by vm_compute.
  - by vm_compute.
  - by vm_compute.
  - apply elem_of_cons. by left.
  - by vm_compute.
  - apply rtc_once. exists None, 100%nat, (86400 * second), []. by vm_compute.
Defined.
