(* ===== verification/Buckets.v ===== *)
(** * Metric buckets

    [backend/app/services/span_metric_buckets.py]: per-minute counters that the
    worker adds inserted spans to and the alert rules read. *)

From S2P Require Import Prelude Text PyVal Decimal Schema App SpanSchema Storage Pipeline.
From Stdlib Require Import SpecFloat.

Local Open Scope Z_scope.

(** The dictionary [process_span_batch] prepares for a span. *)
Record PreparedSpan : Type := {
  ps_id : Z; ps_trace : Z; ps_project : Z; ps_parent : option Z;
  ps_name : string; ps_provider : string; ps_model : string;
  ps_input : Z; ps_output : Z; ps_cost : decimal; ps_latency : decimal;
  ps_status : string; ps_error : option string; ps_started : pydatetime;
  ps_payload_key : option string; ps_payload_status : payload_status;
  ps_drop_reason : option string; ps_metadata : string;
}.

(** [value.replace(second=0, microsecond=0)], on the datetime's own clock. *)
Definition floor_to_minute (value : pydatetime) : pydatetime :=
  {| dt_local := dt_local value / minute * minute; dt_offset := dt_offset value |}.

(** One entry of the accumulator. *)
Record BucketAcc : Type := {
  acc_spans : Z; acc_errors : Z; acc_cost : decimal; acc_latency : decimal;
}.

Definition empty_acc : BucketAcc :=
  {| acc_spans := 0; acc_errors := 0; acc_cost := mkdec 0 0; acc_latency := mkdec 0 0 |}.

Definition is_error (status : string) : Z := if String.eqb status "error" then 1 else 0.

Definition add_span (span : PreparedSpan) (b : BucketAcc) : BucketAcc :=
  {| acc_spans := acc_spans b + 1;
     acc_errors := acc_errors b + is_error (ps_status span);
     acc_cost := add (acc_cost b) (ps_cost span);
     acc_latency := add (acc_latency b) (ps_latency span) |}.

(** The start of a span's bucket, as an instant. *)
Definition bucket_start (span : PreparedSpan) : timestamp :=
  dt_utc (floor_to_minute (ps_started span)).

(** [for span in spans: ...] over the [defaultdict]. *)
Definition accumulate (spans : list PreparedSpan) : gmap timestamp BucketAcc :=
  foldl (λ buckets span,
    let start := bucket_start span in
    <[start := add_span span (default empty_acc (buckets !! start))]> buckets)
    ∅ spans.

(** A [numeric(_, n)] column holds a value rounded to [n] places, halves away
    from zero, as a multiple of [10^-n]; the values are not negative. *)
Definition to_column (n : Z) (x : decimal) : Z :=
  if 0 <=? n + expo x then scaled n x
  else let d := 10 ^ (- (n + expo x)) in (2 * coef x + d) / (2 * d).

Definition row_of (b : BucketAcc) : MetricBucket :=
  {| bk_spans := acc_spans b; bk_errors := acc_errors b;
     bk_cost := to_column 8 (acc_cost b); bk_latency := to_column 3 (acc_latency b) |}.

(** [_bucket_payload]: the rows in the order of their starts. *)
Definition _bucket_payload (buckets : gmap timestamp BucketAcc)
    : list (timestamp * MetricBucket) :=
  map (λ kv, (kv.1, row_of kv.2)) (sort_by fst (map_to_list buckets)).

Definition merge_rows (old excluded : MetricBucket) : MetricBucket :=
  {| bk_spans := bk_spans old + bk_spans excluded;
     bk_errors := bk_errors old + bk_errors excluded;
     bk_cost := bk_cost old + bk_cost excluded;
     bk_latency := bk_latency old + bk_latency excluded |}.

(** [INSERT ... ON CONFLICT (project_id, bucket_start) DO UPDATE] *)
Definition upsert (project_id : Z) (t : gmap (Z * timestamp) MetricBucket)
    (row : timestamp * MetricBucket) : gmap (Z * timestamp) MetricBucket :=
  let k := (project_id, row.1) in
  <[k := match t !! k with
         | Some old => merge_rows old row.2
         | None => row.2
         end]> t.

Definition update_span_metric_buckets (project_id : Z) (spans : list PreparedSpan)
    : M World unit :=
  match spans with
  | [] => mret tt
  | _ =>
      sql_exec (set_w_buckets (λ t,
        foldl (upsert project_id) t (_bucket_payload (accumulate spans))))
  end.

(** ** Reading a window *)

(** The rows of [WHERE project_id = ... AND bucket_start >=
    date_trunc('minute', NOW() - make_interval(mins => window))]. *)
Definition window_rows (project_id : Z) (window_minutes : Z) (t : timestamp)
    (b : gmap (Z * timestamp) MetricBucket) : list MetricBucket :=
  map snd (select (λ kv : (Z * timestamp) * MetricBucket,
      (kv.1.1 =? project_id) && ((t - window_minutes * minute) / minute * minute <=? kv.1.2))
    (map_to_list b)).

(** Double precision of PostgreSQL and Python. *)
Definition float_of_Z (z : Z) : pyfloat := binary_normalize 53 1024 z 0 false.
Definition float_div : pyfloat → pyfloat → pyfloat := SFdiv 53 1024.
Definition float_mul : pyfloat → pyfloat → pyfloat := SFmul 53 1024.

Section query.
(** [float(Decimal)] *)
Context (float_of_decimal : decimal → pyfloat).

Definition query_bucketed_alert_value (project_id : Z) (metric : string)
    (window_minutes : Z) : M World (pyfloat * Z) :=
  t ← now;
  rows ← (if String.eqb metric "error_rate" || String.eqb metric "cost_hourly"
          then sql_query (λ w, window_rows project_id window_minutes t (w_buckets w))
          else raise (ValueError ("Unsupported bucketed alert metric: " +:+ metric)));
  let spans := sum_of bk_spans rows in
  if String.eqb metric "error_rate" then
    mret (if spans =? 0 then float_of_Z 0
          else float_mul (float_div (float_of_Z (sum_of bk_errors rows))
                                    (float_of_Z spans)) (float_of_Z 100),
          spans)
  else mret (float_of_decimal (mkdec (sum_of bk_cost rows) (-8)), spans).
End query.

(** ** Facts *)

(** The spans of one bucket. *)
Definition in_bucket (start : timestamp) (spans : list PreparedSpan)
    : list PreparedSpan :=
  List.filter (λ s, bucket_start s =? start) spans.

Definition total_acc (spans : list PreparedSpan) : BucketAcc :=
  foldl (λ b s, add_span s b) empty_acc spans.

Lemma accumulate_snoc spans s :
  accumulate (spans ++ [s])
  = <[bucket_start s := add_span s (default empty_acc (accumulate spans !! bucket_start s))]>
      (accumulate spans).
Proof. unfold accumulate. by rewrite foldl_app. Qed.

(** An entry is the accumulated total of the spans of its minute. *)
Lemma accumulate_lookup spans start :
  accumulate spans !! start
  = match in_bucket start spans with
    | [] => None
    | l => Some (total_acc l)
    end.
Proof.
  induction spans as [|s spans IH] using rev_ind; [done|].
  rewrite accumulate_snoc. unfold in_bucket. rewrite List.filter_app. simpl.
  destruct (Z.eqb_spec (bucket_start s) start) as [->|Hne].
  - rewrite lookup_insert_eq, IH. unfold in_bucket.
    destruct (List.filter _ spans) as [|x l]; [done|].
    simpl. f_equal. unfold total_acc. simpl. by rewrite foldl_app.
  - rewrite lookup_insert_ne by done. rewrite app_nil_r, IH. done.
Qed.

(** An upsert of rows with distinct starts adds each row to its key. *)
Lemma upsert_other p t row k : k ≠ (p, row.1) → upsert p t row !! k = t !! k.
Proof. intros Hk. unfold upsert. by rewrite lookup_insert_ne. Qed.

Lemma upsert_all_lookup (p : Z) (t : gmap (Z * timestamp) MetricBucket)
    (rows : list (timestamp * MetricBucket)) (k : Z * timestamp) :
  NoDup rows.*1 →
  foldl (upsert p) t rows !! k
  = match select_one (λ row : timestamp * MetricBucket,
            (k.1 =? p) && (row.1 =? k.2)) rows with
    | Some row => Some (match t !! k with
                        | Some old => merge_rows old row.2 | None => row.2 end)
    | None => t !! k
    end.
Proof.
  revert t. induction rows as [|row rows IH]; intros t Hnd; [done|].
  apply NoDup_cons in Hnd as [Hrow Hnd]. simpl. rewrite IH by done.
  destruct k as [q start]; simpl.
  destruct (Z.eqb_spec q p) as [->|Hq]; simpl.
  - destruct (Z.eqb_spec row.1 start) as [<-|Hs]; simpl.
    + assert (select_one (λ r : timestamp * MetricBucket, r.1 =? row.1) rows = None) as ->.
      { unfold select_one. destruct (List.find _ rows) as [r|] eqn:E; [|done].
        apply find_some in E as [E1 E2%Z.eqb_eq]. exfalso. apply Hrow.
        apply list_elem_of_fmap. exists r. split; [done|by apply list_elem_of_In]. }
      unfold upsert. by rewrite lookup_insert_eq.
    + rewrite upsert_other by congruence. done.
  - assert (Hf : ∀ l : list (timestamp * MetricBucket),
      List.find (λ _ : timestamp * MetricBucket, false) l = None) by by induction l.
    unfold select_one. rewrite !Hf. rewrite upsert_other by congruence. done.
Qed.

Lemma map_values_fst {A B C} (f : B → C) (l : list (A * B)) :
  (map (λ kv, (kv.1, f kv.2)) l).*1 = l.*1.
Proof. induction l as [|x l IH]; simpl; [done|by f_equal]. Qed.

Lemma payload_starts_NoDup m : NoDup (_bucket_payload m).*1.
Proof.
  unfold _bucket_payload. rewrite map_values_fst.
  rewrite sort_by_Permutation. apply NoDup_fst_map_to_list.
Qed.

Lemma payload_find m p q start :
  select_one (λ row : timestamp * MetricBucket, (q =? p) && (row.1 =? start))
    (_bucket_payload m)
  = if q =? p then (λ b, (start, row_of b)) <$> m !! start else None.
Proof.
  destruct (select_one _ _) as [row|] eqn:E.
  - apply select_one_Some in E as [Hin Hp]. apply andb_true_iff in Hp as [-> Hs].
    apply Z.eqb_eq in Hs. subst start.
    apply list_elem_of_fmap in Hin as ([k b] & -> & Hin). simpl.
    apply sort_by_elem_of, elem_of_map_to_list in Hin. by rewrite Hin.
  - destruct (Z.eqb_spec q p) as [->|_]; [|done].
    destruct (m !! start) as [b|] eqn:Eb; [|done]. exfalso.
    assert (Hin : (start, row_of b) ∈ _bucket_payload m).
    { apply list_elem_of_fmap. exists (start, b). split; [done|].
      by apply sort_by_elem_of, elem_of_map_to_list. }
    pose proof (select_one_None _ _ _ E Hin) as Hf. simpl in Hf.
    by rewrite !Z.eqb_refl in Hf.
Qed.

(** What a bucket counts, with zeros for a missing row. *)
Definition bucket_counts (o : option MetricBucket) : Z * Z * Z :=
  match o with
  | Some b => (bk_spans b, bk_errors b, bk_cost b)
  | None => (0, 0, 0)
  end.

Definition add3 (x y : Z * Z * Z) : Z * Z * Z :=
  (x.1.1 + y.1.1, x.1.2 + y.1.2, x.2 + y.2).

(** The cost in units of 10^-8, of a cost that [calculate] returned. *)
Definition cost_units (s : PreparedSpan) : Z := scaled 8 (ps_cost s).

Definition cost_exact (s : PreparedSpan) : Prop := has_scale 8 (ps_cost s).

(** A bound on every partial sum of the costs. *)
Definition cost_mass (spans : list PreparedSpan) : Z :=
  sum_of (λ s, Z.abs (cost_units s)) spans.

Lemma cost_mass_bound spans : Z.abs (sum_of cost_units spans) <= cost_mass spans.
Proof. unfold cost_mass. induction spans as [|s l IH]; simpl; lia. Qed.

Lemma total_acc_counts l :
  acc_spans (total_acc l) = Z.of_nat (length l) ∧
  acc_errors (total_acc l) = sum_of (λ s, is_error (ps_status s)) l.
Proof.
  induction l as [|s l IH] using rev_ind; [done|].
  unfold total_acc in *. rewrite foldl_app. simpl. destruct IH as [-> ->].
  rewrite length_app, sum_of_app. simpl. lia.
Qed.

Lemma total_acc_cost l :
  Forall cost_exact l → cost_mass l < 10 ^ 28 →
  has_scale 8 (acc_cost (total_acc l)) ∧
  scaled 8 (acc_cost (total_acc l)) = sum_of cost_units l.
Proof.
  unfold cost_mass. induction l as [|s l IH] using rev_ind; [done|].
  rewrite Forall_app, Forall_singleton, !sum_of_app. intros [Hl Hs] Hsum.
  simpl in Hsum. destruct (IH Hl ltac:(lia)) as [H1 H2].
  pose proof (cost_mass_bound l) as Hb. unfold cost_mass in Hb.
  unfold total_acc in *. rewrite foldl_app. simpl. unfold cost_units in *.
  destruct (add_exact 8 (acc_cost (foldl (λ b s, add_span s b) empty_acc l)) (ps_cost s))
    as [H3 H4]; [done|done|rewrite H2; lia|].
  split; [done|]. rewrite H4, H2. lia.
Qed.

Lemma update_run p spans w :
  w_faults w = [] →
  update_span_metric_buckets p spans w
  = (Ok tt, match spans with
            | [] => w
            | _ => set_w_buckets (λ t, foldl (upsert p) t
                     (_bucket_payload (accumulate spans))) w
            end).
Proof.
  intros Hf. unfold update_span_metric_buckets. destruct spans; [done|].
  evaluate. by rewrite Hf.
Qed.

Lemma upsert_batch_counts (p : Z) (spans : list PreparedSpan) (t : gmap (Z * timestamp) MetricBucket)
    (q : Z) (start : timestamp) :
  Forall cost_exact spans → cost_mass spans < 10 ^ 28 →
  bucket_counts (foldl (upsert p) t (_bucket_payload (accumulate spans)) !! (q, start))
  = add3 (bucket_counts (t !! (q, start)))
      (let l := in_bucket start spans in
       if q =? p then (Z.of_nat (length l), sum_of (λ s, is_error (ps_status s)) l,
                       sum_of cost_units l)
       else (0, 0, 0)).
Proof.
  intros Hc Hsum. rewrite upsert_all_lookup by apply payload_starts_NoDup.
  cbn [fst snd]. rewrite payload_find.
  assert (H0 : ∀ x, add3 x (0, 0, 0) = x).
  { intros [[a b] c]. unfold add3. simpl. by rewrite !Z.add_0_r. }
  destruct (q =? p); [|by rewrite H0].
  rewrite accumulate_lookup. destruct (in_bucket start spans) as [|x l] eqn:El.
  { simpl. by rewrite H0. }
  rewrite <- El. simpl.
  assert (Hin : Forall cost_exact (in_bucket start spans)).
  { apply Forall_forall. intros s Hs. rewrite Forall_forall in Hc. apply Hc.
    by apply elem_of_select in Hs as [Hs _]. }
  assert (Hle : cost_mass (in_bucket start spans) <= cost_mass spans).
  { unfold cost_mass. clear. induction spans as [|s l IH]; simpl; [done|].
    destruct (bucket_start s =? start); simpl; lia. }
  destruct (total_acc_counts (in_bucket start spans)) as [Hn He].
  destruct (total_acc_cost _ Hin ltac:(lia)) as [Hs Hv].
  assert (Hcol : to_column 8 (acc_cost (total_acc (in_bucket start spans)))
                 = sum_of cost_units (in_bucket start spans)).
  { unfold to_column. unfold has_scale in Hs. by destruct (Z.leb_spec 0 (8 + expo
      (acc_cost (total_acc (in_bucket start spans))))); [|lia]. }
  unfold add3, bucket_counts, row_of, merge_rows.
  destruct (t !! (q, start)) as [old|]; simpl; by rewrite Hn, He, Hcol, ?Z.add_0_l.
Qed.

(** a batch is added to the minute buckets exactly. In each bucket of the
    project the span count, the error count and the cost grow by those of the
    batch's spans that start in that minute; buckets of other projects do not
    change. *)
Theorem update_span_metric_buckets_adds p spans w q start :
  w_faults w = [] → Forall cost_exact spans → cost_mass spans < 10 ^ 28 →
  ∃ w', update_span_metric_buckets p spans w = (Ok tt, w') ∧
    bucket_counts (w_buckets w' !! (q, start))
    = add3 (bucket_counts (w_buckets w !! (q, start)))
        (let l := in_bucket start spans in
         if q =? p then (Z.of_nat (length l), sum_of (λ s, is_error (ps_status s)) l,
                         sum_of cost_units l)
         else (0, 0, 0)).
Proof.
  intros Hf Hc Hsum. eexists. split; [by apply update_run|].
  destruct spans as [|s0 l0]; [|by apply (upsert_batch_counts p (s0 :: l0))].
  simpl. unfold add3. destruct (q =? p);
    destruct (bucket_counts (w_buckets w !! (q, start))) as [[a b] c]; simpl;
    by rewrite !Z.add_0_r.
Qed.

Definition sample_prepared (id local : Z) (status : string) : PreparedSpan :=
  {| ps_id := id; ps_trace := 1; ps_project := 7; ps_parent := None; ps_name := "n";
     ps_provider := "openai"; ps_model := "m"; ps_input := 1; ps_output := 1;
     ps_cost := mkdec 125 (-8); ps_latency := mkdec 15 (-1); ps_status := status;
     ps_error := None; ps_started := {| dt_local := local; dt_offset := Some 0 |};
     ps_payload_key := None; ps_payload_status := stored; ps_drop_reason := None;
     ps_metadata := "{}" |}.

Lemma update_span_metric_buckets_adds_witness :
  ∃ w', update_span_metric_buckets 7
      [sample_prepared 1 (65 * second) "ok"; sample_prepared 2 (90 * second) "error";
       sample_prepared 3 (200 * second) "ok"] (empty_world 0 []) = (Ok tt, w') ∧
    bucket_counts (w_buckets w' !! (7, minute)) = (2, 1, 250).
Proof.
  apply (update_span_metric_buckets_adds 7
    [sample_prepared 1 (65 * second) "ok"; sample_prepared 2 (90 * second) "error";
     sample_prepared 3 (200 * second) "ok"] (empty_world 0 []) 7 minute).
  - done.
  - repeat constructor; by vm_compute.
  - by vm_compute.
Defined.
