(* ===== verification/Worker.v ===== *)
(** * The batch worker

    [process_span_batch] and [update_trace_aggregates] of
    [backend/app/workers/process_span.py], with [bulk_insert_spans] of
    [services/ingest.py]: spans are prepared one by one, stored in one
    transaction together with their traces, outbox events and metric buckets,
    and follow-up tasks are enqueued. *)

From S2P Require Import Prelude Text PyVal Decimal Schema App Cost SpanSchema Storage Pipeline Ingest Outbox Buckets.

Local Open Scope Z_scope.

(** ** Errors *)

Definition is_transient_span_processing_error (e : exn) : bool :=
  match e with
  | SQLAlchemyError _ | RedisError _ | BotoCoreError _ | ClientError _ _
  | TimeoutError | ConnectionError => true
  | _ => false
  end.

Definition classify_span_processing_failure (e : exn) : string :=
  match e with
  | ParserError _ => "invalid_timestamp"
  | KeyError _ => "missing_required_field"
  | InvalidOperation => "invalid_numeric_field"
  | TypeError _ | ValueError _ | JSONDecodeError => "invalid_field"
  | _ => "processing_error"
  end.

(** ** Settings *)

Record PayloadPrivacySettings : Type := {
  payload_storage_mode : string; payload_max_bytes : Z; payload_redact_keys : string;
}.

Definition load_payload_privacy_settings (project_id : string)
    : M World PayloadPrivacySettings :=
  row ← sql_query (λ w, select_one (λ p, String.eqb (p_id p) project_id)
                          (projects (db (w_app w))));
  mret (match row with
        | None => {| payload_storage_mode := "all";
                     payload_max_bytes := DEFAULT_PAYLOAD_MAX_BYTES;
                     payload_redact_keys := DEFAULT_REDACT_KEYS |}
        | Some p =>
            {| payload_storage_mode :=
                 if truthy (p_payload_mode p) then p_payload_mode p else "all";
               payload_max_bytes :=
                 if p_payload_max_bytes p =? 0 then DEFAULT_PAYLOAD_MAX_BYTES
                 else p_payload_max_bytes p;
               payload_redact_keys :=
                 if truthy (p_redact_keys p) then p_redact_keys p
                 else DEFAULT_REDACT_KEYS |}
        end).

(** [d[k]] of a key that may be missing. *)
Definition getitem {A} (k : string) (o : option A) : result A :=
  match o with Some v => Ok v | None => Raise (KeyError k) end.

Section worker.
(** [dateutil.parser.parse]; the instant the database driver takes a datetime
    without offset for; zlib; the text of floats. *)
Context (parse_dt : string → result pydatetime) (driver_utc : Z → timestamp)
        (gzip_compress : string → string)
        (latency_float : decimal → pyfloat) (float_repr : pyfloat → string).
(** PostgreSQL's [make_interval(secs => latency_ms / 1000.0)], in
    microseconds. *)
Context (latency_interval : decimal → Z).

(** ** Cost of a span

    The service looks at the clock of the pricing interval through Python
    comparisons, which raise for a datetime without offset. *)

Definition on_cost {A} (m : M CostState A) : M World A := λ w,
  match m {| app := w_app w; batch := w_pricing w |} with
  | (r, s) => (r, set_w_pricing (λ _, batch s) (set_w_app (λ _, app s) w))
  end.

Definition has_start (p : CachedPricing) : bool :=
  match c_from p with Some _ => true | None => false end.

(** [calculate] at a datetime without offset: an interval known to the batch
    or to Redis cannot be compared with it; the SQL query can. *)
Definition calculate_naive (env : LookupEnv) (provider model : string)
    (input_tokens output_tokens : Z) (local : Z) : M CostState decimal :=
  known ← gets (λ s, default [] (batch s !! (provider, model)));
  let incomparable :=
    TypeError "can't compare offset-naive and offset-aware datetimes" in
  raise_when (existsb has_start known) incomparable ;;
  fault (redis_get_fault env) ;;
  cached ← gets (λ s, pricing_cache (app s) !! Cost.cache_key provider model);
  raise_when (match cached with Some p => has_start p | None => false end) incomparable ;;
  fault (db_fault env) ;;
  row ← gets (λ s, pricing_row (model_pricing (db (app s))) provider model
                     (driver_utc local));
  match row with
  | None => mret (mkdec 0 0)
  | Some r =>
      fault (redis_set_fault env) ;;
      modify (with_app (with_pricing
        <[Cost.cache_key provider model := pricing_of_row r]>)) ;;
      modify (with_batch (λ b, <[(provider, model) := known ++ [pricing_of_row r]]> b)) ;;
      lift (cost_of (pricing_of_row r) input_tokens output_tokens)
  end.

(** The answers of the three services, then the calculation. *)
Definition span_cost (provider model : string) (input_tokens output_tokens : Z)
    (at_time : pydatetime) : M World decimal :=
  a ← next_fault;
  b ← next_fault;
  c ← next_fault;
  let env := Build_LookupEnv a b c in
  on_cost (match dt_offset at_time with
           | Some _ => calculate env provider model input_tokens output_tokens
                         (dt_utc at_time)
           | None => calculate_naive env provider model input_tokens output_tokens
                       (dt_local at_time)
           end).

(** ** Preparing a span *)

Definition on_objects {A} (m : M bucket A) : M World A := λ w,
  match m (w_objects w) with (r, o) => (r, set_w_objects (λ _, o) w) end.

Definition put_payload (settings : PayloadPrivacySettings) (redact_keys : list string)
    (project_id : string) (sd : SpanData) : M World PayloadStorageResult :=
  if should_store_payload (payload_storage_mode settings)
       (match sd_error sd with Some e => truthy e | None => false end) then
    span_id ← lift (getitem "span_id" (sd_span_id sd));
    o ← next_fault;
    on_objects (store_payload float_repr gzip_compress project_id span_id
      (VList (sd_messages sd))
      (match sd_text sd with Some t => VStr t | None => VNone end)
      (Some (payload_max_bytes settings)) redact_keys
      (match o with Some e => Raise e | None => Ok tt end))
  else mret (skipped_payload_result (payload_storage_mode settings)).

Definition prepare_span (settings : PayloadPrivacySettings) (redact_keys : list string)
    (project_id : string) (sd : SpanData) : M World PreparedSpan :=
  text ← lift (getitem "started_at" (sd_started sd));
  started_at ← lift (parse_dt text);
  provider ← lift (getitem "provider" (sd_provider sd));
  model ← lift (getitem "model" (sd_model sd));
  input_tokens ← lift (getitem "input_tokens" (sd_input sd));
  output_tokens ← lift (getitem "output_tokens" (sd_output sd));
  cost ← span_cost provider model input_tokens output_tokens started_at;
  payload_result ← put_payload settings redact_keys project_id sd;
  span_id ← lift (getitem "span_id" (sd_span_id sd));
  id ← lift (parse_uuid span_id);
  trace_id ← lift (getitem "trace_id" (sd_trace_id sd));
  trace ← lift (parse_uuid trace_id);
  project ← lift (parse_uuid project_id);
  parent ← lift (match sd_parent sd with
                 | Some p => if truthy p then n ← parse_uuid p; Ok (Some n) else Ok None
                 | None => Ok None
                 end);
  latency ← lift (getitem "latency_ms" (sd_latency sd));
  mret {| ps_id := id; ps_trace := trace; ps_project := project; ps_parent := parent;
          ps_name := default "llm_call" (sd_name sd);
          ps_provider := provider; ps_model := model;
          ps_input := input_tokens; ps_output := output_tokens;
          ps_cost := cost; ps_latency := latency;
          ps_status := match sd_error sd with
                       | Some e => if truthy e then "error" else "ok"
                       | None => "ok"
                       end;
          ps_error := sd_error sd; ps_started := started_at;
          ps_payload_key := s3_key payload_result;
          ps_payload_status := status payload_result;
          ps_drop_reason := drop_reason payload_result;
          ps_metadata := json_dumps float_repr ", " ": "
            (VDict (sanitize_span_metadata (VDict (sd_metadata sd)) redact_keys)) |}.

(** The loop: a transient error ends it, any other error drops the span. *)
Fixpoint prepare_all (settings : PayloadPrivacySettings) (redact_keys : list string)
    (project_id : string) (spans : list SpanData) : M World (list PreparedSpan * Z) :=
  match spans with
  | [] => mret ([], 0)
  | sd :: rest =>
      p ← try_except (p ← prepare_span settings redact_keys project_id sd; mret (Some p))
            (λ e, if is_transient_span_processing_error e then raise e else mret None);
      r ← prepare_all settings redact_keys project_id rest;
      mret (match p with
            | Some p => (p :: r.1, r.2)
            | None => (r.1, r.2 + 1)
            end)
  end.

(** ** Storing spans *)

(** The instant the driver sends. *)
Definition db_time (dt : pydatetime) : timestamp :=
  match dt_offset dt with Some _ => dt_utc dt | None => driver_utc (dt_local dt) end.

Definition span_row (s : PreparedSpan) : SpanRow :=
  {| sp_id := ps_id s; sp_trace := ps_trace s; sp_project := ps_project s;
     sp_parent := ps_parent s; sp_name := ps_name s; sp_provider := ps_provider s;
     sp_model := ps_model s; sp_input := ps_input s; sp_output := ps_output s;
     sp_cost := to_column 8 (ps_cost s); sp_latency := ps_latency s;
     sp_status := ps_status s; sp_error := ps_error s;
     sp_started := db_time (ps_started s); sp_payload_key := ps_payload_key s;
     sp_payload_status := ps_payload_status s; sp_drop_reason := ps_drop_reason s;
     sp_metadata := ps_metadata s |}.

Definition row_identity (r : SpanRow) : Z * timestamp := (sp_id r, sp_started r).

(** [ON CONFLICT (id, started_at) DO NOTHING], row by row. *)
Definition insert_span (acc : list SpanRow * list (Z * timestamp)) (r : SpanRow)
    : list SpanRow * list (Z * timestamp) :=
  if existsb (λ r', bool_decide (row_identity r' = row_identity r)) acc.1 then acc
  else (acc.1 ++ [r], acc.2 ++ [row_identity r]).

Definition insert_spans (rows table : list SpanRow) : list SpanRow * list (Z * timestamp) :=
  foldl insert_span (table, []) rows.

Definition numeric_overflow : exn := SQLAlchemyError "numeric field overflow".

Definition bulk_insert_spans (spans : list PreparedSpan) : M World (list (Z * timestamp)) :=
  match spans with
  | [] => mret []
  | _ =>
      io ;;
      raise_when (existsb (λ s, 10 ^ 12 <=? Z.abs (to_column 8 (ps_cost s))) spans)
        numeric_overflow ;;
      ids ← gets (λ w, (insert_spans (map span_row spans) (w_spans w)).2);
      modify (set_w_spans (λ t, (insert_spans (map span_row spans) t).1)) ;;
      mret ids
  end.

(** [(span["id"], span["started_at"])]: a datetime without offset differs from
    every datetime the database returns. *)
Definition identity (s : PreparedSpan) : option (Z * timestamp) :=
  match dt_offset (ps_started s) with
  | Some _ => Some (ps_id s, dt_utc (ps_started s))
  | None => None
  end.

Fixpoint remove_first (x : Z * timestamp) (l : list (Z * timestamp))
    : list (Z * timestamp) :=
  match l with
  | [] => []
  | y :: l' => if decide (y = x) then l' else y :: remove_first x l'
  end.

(** The counter is the multiset of the identities that remain. *)
Fixpoint select_inserted_spans (prepared : list PreparedSpan)
    (remaining : list (Z * timestamp)) : list PreparedSpan :=
  match prepared with
  | [] => []
  | s :: rest =>
      match identity s with
      | Some i => if decide (i ∈ remaining)
                  then s :: select_inserted_spans rest (remove_first i remaining)
                  else select_inserted_spans rest remaining
      | None => select_inserted_spans rest remaining
      end
  end.

(** ** Traces *)

(** [trace_map]: the earliest inserted span of each trace, in the order the
    traces appear. *)
Fixpoint trace_map_set (s : PreparedSpan) (m : list (Z * PreparedSpan))
    : list (Z * PreparedSpan) :=
  match m with
  | [] => [(ps_trace s, s)]
  | (tid, first) :: m' =>
      if tid =? ps_trace s then
        (if dt_utc (ps_started s) <? dt_utc (ps_started first)
         then (tid, s) :: m' else m)
      else (tid, first) :: trace_map_set s m'
  end.

Definition trace_map (inserted : list PreparedSpan) : list (Z * PreparedSpan) :=
  foldl (λ m s, trace_map_set s m) [] inserted.

Definition is_trace (project_id trace_id : Z) (t : TraceRow) : bool :=
  (tr_project t =? project_id) && (tr_id t =? trace_id).

Definition new_trace (project_id trace_id : Z) (started_at : timestamp)
    (status : string) : TraceRow :=
  {| tr_id := trace_id; tr_project := project_id; tr_started := started_at;
     tr_ended := None; tr_tokens := 0; tr_cost := 0; tr_spans := 0;
     tr_status := status |}.

(** [ON CONFLICT (id, started_at) DO NOTHING] *)
Definition insert_trace (r : TraceRow) (t : list TraceRow) : list TraceRow :=
  if existsb (λ r', (tr_id r' =? tr_id r) && (tr_started r' =? tr_started r)) t
  then t else t ++ [r].

Definition move_trace (started_at : timestamp) (r : TraceRow) : TraceRow :=
  {| tr_id := tr_id r; tr_project := tr_project r; tr_started := started_at;
     tr_ended := tr_ended r; tr_tokens := tr_tokens r; tr_cost := tr_cost r;
     tr_spans := tr_spans r; tr_status := tr_status r |}.

Definition ensure_trace_row (project_id trace_id : Z) (started_at : timestamp)
    (status : string) : M World timestamp :=
  row ← sql_query (λ w,
    head (sort_by tr_started (select (is_trace project_id trace_id) (w_traces w))));
  match row with
  | None =>
      sql_exec (set_w_traces (insert_trace (new_trace project_id trace_id started_at status))) ;;
      mret started_at
  | Some r =>
      if tr_started r <=? started_at then mret (tr_started r)
      else
        io ;;
        clash ← gets (λ w, existsb (λ r', (tr_id r' =? trace_id)
                                          && (tr_started r' =? started_at)) (w_traces w));
        raise_when clash integrity_error ;;
        modify (set_w_traces (update_where
          (λ r', is_trace project_id trace_id r' && (tr_started r' =? tr_started r))
          (move_trace started_at))) ;;
        mret started_at
  end.

Fixpoint ensure_traces (project_id : Z) (m : list (Z * PreparedSpan))
    : M World (list (Z * timestamp)) :=
  match m with
  | [] => mret []
  | (tid, s) :: rest =>
      t ← ensure_trace_row project_id tid (dt_utc (ps_started s)) (ps_status s);
      ts ← ensure_traces project_id rest;
      mret ((tid, t) :: ts)
  end.

(** ** The transaction *)

Definition event_payload (s : PreparedSpan) : string :=
  json_dumps float_repr ", " ": "
    (VDict [("span_id", VStr (str_of_uuid (ps_id s))); ("name", VStr (ps_name s));
            ("latency_ms", VFloat (latency_float (ps_latency s)));
            ("status", VStr (ps_status s))]).

Definition enqueue_span_event (project_id : Z) (s : PreparedSpan) : M World unit :=
  enqueue_outbox_event project_id OUTBOX_SPAN_INSERTED (str_of_uuid (ps_id s))
    (event_payload s).

(** What the transaction leaves to the code after it. *)
Record Stored : Type := {
  st_inserted : list PreparedSpan;
  st_starts : list (Z * timestamp);
  st_failed : Z;
}.

(** The body of [async with get_db(...)], up to its commit. *)
Definition store_prepared (project_id : string) (prepared : list PreparedSpan)
    (failed : Z) : M World Stored :=
  inserted_identities ← bulk_insert_spans prepared;
  let inserted := select_inserted_spans prepared inserted_identities in
  starts ← match trace_map inserted with
           | [] => mret []
           | m => project ← lift (parse_uuid project_id); ensure_traces project m
           end;
  match inserted with
  | [] => mret tt
  | _ =>
      project ← lift (parse_uuid project_id);
      for_each inserted (enqueue_span_event project) ;;
      update_span_metric_buckets project inserted
  end ;;
  commit ;;
  mret {| st_inserted := inserted; st_starts := starts; st_failed := failed |}.

Definition store_batch (project_id : string) (spans : list SpanData) : M World Stored :=
  get_db (
    settings ← load_payload_privacy_settings project_id;
    let redact_keys := parse_redact_keys (Some (payload_redact_keys settings)) in
    modify (set_w_pricing (λ _, ∅)) ;;
    pf ← prepare_all settings redact_keys project_id spans;
    store_prepared project_id pf.1 pf.2).

(** ** The task *)

Definition after_commit (batch_id project_id : string) (spans : list SpanData)
    (r : Stored) : M World unit :=
  match st_inserted r with
  | [] => mret tt
  | _ => try_except (kiq (deliver_span_outbox_events_task (Some project_id)))
                    (λ _, mret tt)
  end ;;
  for_each (st_starts r)
    (λ ts, kiq (update_trace_aggregates_task project_id ts.1 ts.2)) ;;
  kiq (check_batch_anomalies_task project_id spans) ;;
  mark_finished project_id batch_id (Z.of_nat (length (st_inserted r))) (st_failed r).

Definition process_span_batch (batch_id project_id : string) (spans : list SpanData)
    : M World unit :=
  get_batch project_id batch_id ;;
  mark_processing project_id batch_id ;;
  try_except
    (r ← store_batch project_id spans;
     after_commit batch_id project_id spans r)
    (λ e, Ingest.mark_failed project_id batch_id (exn_str e) ;; raise e).

(** ** Trace aggregates *)

Definition trace_spans (project_id trace_id : Z) (started_at : timestamp)
    (t : list SpanRow) : list SpanRow :=
  select (λ r, (sp_project r =? project_id) && (sp_trace r =? trace_id)
               && (started_at <=? sp_started r)) t.

Definition aggregate (rows : list SpanRow) (r : TraceRow) : TraceRow :=
  {| tr_id := tr_id r; tr_project := tr_project r; tr_started := tr_started r;
     tr_ended := foldr (λ s acc,
       let e := sp_started s + latency_interval (sp_latency s) in
       match acc with None => Some e | Some m => Some (Z.max e m) end) None rows;
     tr_tokens := sum_of (λ s, sp_input s + sp_output s) rows;
     tr_cost := sum_of sp_cost rows;
     tr_spans := Z.of_nat (length rows);
     tr_status := if existsb (λ s, String.eqb (sp_status s) "error") rows
                  then "error" else "ok" |}.

Definition update_trace_aggregates (project_id : string) (trace_id : Z)
    (started_at : timestamp) : M World unit :=
  project ← lift (parse_uuid project_id);
  get_db (
    io ;;
    rows ← gets (λ w, trace_spans project trace_id started_at (w_spans w));
    raise_when (10 ^ 12 <=? Z.abs (sum_of sp_cost rows)) numeric_overflow ;;
    modify (set_w_traces (update_where
      (λ r, is_trace project trace_id r && (tr_started r =? started_at))
      (aggregate rows))) ;;
    commit).
End worker.

(** ** Inserting rows *)

(** The rows of an insert that are new, in order. *)
Fixpoint new_rows (table rows : list SpanRow) : list SpanRow :=
  match rows with
  | [] => []
  | r :: rest =>
      if decide (row_identity r ∈ row_identity <$> table) then new_rows table rest
      else r :: new_rows (table ++ [r]) rest
  end.

Lemma existsb_identity r t :
  existsb (λ r', bool_decide (row_identity r' = row_identity r)) t
  = bool_decide (row_identity r ∈ row_identity <$> t).
Proof.
  apply eq_true_iff_eq. rewrite existsb_exists, bool_decide_eq_true, list_elem_of_fmap.
  split.
  - intros (r' & Hin & Hb). apply bool_decide_eq_true in Hb. exists r'.
    split; [done|by apply list_elem_of_In].
  - intros (r' & He & Hin). exists r'.
    split; [by apply list_elem_of_In|by apply bool_decide_eq_true].
Qed.

Lemma insert_spans_go rows t ids :
  foldl insert_span (t, ids) rows
  = (t ++ new_rows t rows, ids ++ (row_identity <$> new_rows t rows)).
Proof.
  revert t ids. induction rows as [|r rows IH]; intros t ids; simpl.
  - by rewrite !app_nil_r.
  - unfold insert_span at 2. cbn [fst]. rewrite existsb_identity.
    destruct (decide (row_identity r ∈ row_identity <$> t)) as [Hin|Hin].
    + rewrite bool_decide_eq_true_2 by done. apply IH.
    + rewrite bool_decide_eq_false_2 by done. rewrite IH. simpl.
      by rewrite <- !app_assoc.
Qed.

Lemma insert_spans_spec rows t :
  insert_spans rows t = (t ++ new_rows t rows, row_identity <$> new_rows t rows).
Proof. unfold insert_spans. by rewrite insert_spans_go. Qed.

Lemma new_rows_fresh rows t r :
  r ∈ new_rows t rows → row_identity r ∉ row_identity <$> t.
Proof.
  revert t. induction rows as [|x rows IH]; intros t; simpl; [set_solver|].
  case_decide as Hx; [apply IH|].
  intros [->|Hr]%elem_of_cons; [done|]. apply IH in Hr.
  intros Hin. apply Hr. rewrite fmap_app. apply elem_of_app. by left.
Qed.

Lemma new_rows_sub rows t r : r ∈ new_rows t rows → r ∈ rows.
Proof.
  revert t. induction rows as [|x rows IH]; intros t; simpl; [done|].
  rewrite (elem_of_cons rows). case_decide; [by eauto|].
  intros [->|Hr]%elem_of_cons; [by left|by eauto].
Qed.

(** Every row of the statement is in the table afterwards. *)
Lemma new_rows_stored rows t r :
  r ∈ rows → row_identity r ∈ row_identity <$> (t ++ new_rows t rows).
Proof.
  revert t. induction rows as [|x rows IH]; intros t; simpl; [set_solver|].
  intros [->|Hr]%elem_of_cons; case_decide as Hx.
  - rewrite fmap_app. apply elem_of_app. by left.
  - rewrite fmap_app. apply elem_of_app. right. apply elem_of_cons. by left.
  - by apply IH.
  - specialize (IH (t ++ [x]) Hr). by rewrite <- app_assoc in IH.
Qed.

Lemma new_rows_none rows t :
  (∀ r, r ∈ rows → row_identity r ∈ row_identity <$> t) → new_rows t rows = [].
Proof.
  induction rows as [|x rows IH]; intros H; simpl; [done|].
  rewrite decide_True by (apply H, elem_of_cons; by left).
  apply IH. intros r Hr. apply H, elem_of_cons. by right.
Qed.

Section facts.
Context (parse_dt : string → result pydatetime) (driver_utc : Z → timestamp)
        (gzip_compress : string → string)
        (latency_float : decimal → pyfloat) (float_repr : pyfloat → string)
        (latency_interval : decimal → Z).

Abbreviation row := (span_row driver_utc).

Definition aware (s : PreparedSpan) : Prop := is_Some (dt_offset (ps_started s)).

Lemma aware_identity s : aware s → identity s = Some (row_identity (row s)).
Proof.
  intros [off Ho]. unfold identity, row_identity, span_row, db_time. simpl. by rewrite Ho.
Qed.

(** For spans with an offset, the spans selected after the insert are those
    whose rows are new. *)
Lemma select_inserted_rows prepared t :
  Forall aware prepared →
  map row (select_inserted_spans prepared (row_identity <$> new_rows t (map row prepared)))
  = new_rows t (map row prepared).
Proof.
  revert t. induction prepared as [|s l IH]; intros t Ha; [done|].
  apply Forall_cons in Ha as [Hs Ha]. simpl. rewrite (aware_identity s Hs).
  destruct (decide (row_identity (row s) ∈ row_identity <$> t)) as [Hin|Hin].
  - rewrite decide_False; [by apply IH|].
    intros (r & Hr & Hnew)%list_elem_of_fmap.
    apply new_rows_fresh in Hnew. by rewrite <- Hr in Hnew.
  - rewrite fmap_cons, decide_True by (apply elem_of_cons; by left). simpl. f_equal.
    rewrite decide_True by done. by apply IH.
Qed.

Lemma select_inserted_sub prepared ids s :
  s ∈ select_inserted_spans prepared ids → s ∈ prepared.
Proof.
  revert ids. induction prepared as [|x l IH]; intros ids; simpl; [done|].
  destruct (identity x); [case_decide|]; rewrite ?elem_of_cons; naive_solver.
Qed.

Lemma select_inserted_length prepared ids :
  (length (select_inserted_spans prepared ids) ≤ length prepared)%nat.
Proof.
  revert ids. induction prepared as [|x l IH]; intros ids; simpl; [done|].
  destruct (identity x) as [i|]; [destruct (decide (i ∈ ids))|]; simpl.
  - specialize (IH (remove_first i ids)). lia.
  - specialize (IH ids). lia.
  - specialize (IH ids). lia.
Qed.

Lemma select_inserted_nil prepared : select_inserted_spans prepared [] = [].
Proof.
  induction prepared as [|x l IH]; simpl; [done|].
  by destruct (identity x).
Qed.

Lemma bulk_insert_ok prepared w ids w' :
  bulk_insert_spans driver_utc prepared w = (Ok ids, w') →
  ids = row_identity <$> new_rows (w_spans w) (map row prepared) ∧
  (∃ fs, w' = set_w_spans (λ t, t ++ new_rows t (map row prepared))
                (set_w_faults (λ _, fs) w)) ∧
  Forall (λ s, Z.abs (to_column 8 (ps_cost s)) < 10 ^ 12) prepared.
Proof.
  unfold bulk_insert_spans. destruct prepared as [|s l].
  - intros H. world_inv. split; [done|]. split; [|constructor].
    exists (w_faults w'). destruct w'; unfold set_w_spans, set_w_faults; simpl.
    by rewrite app_nil_r.
  - generalize (s :: l). clear s l. intros prepared H. world_inv.
    match goal with H : existsb _ _ = false |- _ => rename H into Hc end.
    rewrite insert_spans_spec. split; [done|]. split.
    + eexists. unfold set_w_spans. simpl. by rewrite insert_spans_spec.
    + apply Forall_forall. intros s Hs.
      apply exists_where_false with (r := s) in Hc; [|done]. by apply Z.leb_gt in Hc.
Qed.

(** ** What preparing a span reads and writes *)

(** Parts of the state a span's preparation leaves alone. *)
Definition outside_prepare {B} (p : string) (f : World → B) : Prop :=
  (∀ g w, f (set_w_faults g w) = f w) ∧ (∀ g w, f (set_w_pricing g w) = f w) ∧
  (∀ g w, f (set_w_app g w) = f w) ∧
  (∀ k v w, f (set_w_objects <[payload_key p k := v]> w) = f w).

Abbreviation prepare := (prepare_span parse_dt driver_utc gzip_compress float_repr).
Abbreviation prepares := (prepare_all parse_dt driver_utc gzip_compress float_repr).

Lemma span_cost_preserves {B} (f : World → B) p pr m i o t :
  outside_prepare p f → preserves f (span_cost driver_utc pr m i o t).
Proof.
  intros (H1 & H2 & H3 & _). unfold span_cost.
  assert (preserves f next_fault) by by apply next_fault_preserves.
  repeat (apply preserves_bind; [done|intros ?]).
  intros w. unfold on_cost. destruct (dt_offset t);
    [destruct (calculate _ _ _ _ _ _ _)|destruct (calculate_naive _ _ _ _ _ _ _ _)];
    simpl; by rewrite H2, H3.
Qed.

Lemma prepare_span_preserves {B} (f : World → B) st rk p sd :
  outside_prepare p f → preserves f (prepare st rk p sd).
Proof.
  intros Hf. pose proof Hf as (H1 & _ & _ & H4). unfold prepare_span.
  do 6 (apply preserves_bind; [preserve|intros ?]).
  apply preserves_bind; [by eapply span_cost_preserves|intros ?].
  apply preserves_bind; [|preserve].
  unfold put_payload. destruct (should_store_payload _ _); [|preserve].
  apply preserves_bind; [preserve|intros ?].
  apply preserves_bind; [by apply next_fault_preserves|]. intros o w.
  assert (Hid : f (set_w_objects (λ _, w_objects w) w) = f w) by by destruct w.
  unfold on_objects, store_payload. destruct (_ <? _); [exact Hid|].
  destruct o; [exact Hid|apply H4].
Qed.

Lemma prepare_all_preserves {B} (f : World → B) st rk p sds :
  outside_prepare p f → preserves f (prepares st rk p sds).
Proof.
  intros Hf. induction sds as [|sd l IH]; simpl; [preserve|].
  apply preserves_bind; [|intros ?; apply preserves_bind; [done|preserve]].
  apply preserves_try; [|preserve].
  apply preserves_bind; [by apply prepare_span_preserves|preserve].
Qed.

(** Every cost is zero or a result of [quantize]. *)
Lemma cost_of_scale p i o c : cost_of p i o = Ok c → has_scale 8 c.
Proof.
  unfold cost_of. generalize (add (div (mul (c_input p) (of_int i)) (mkdec 1000 0))
    (div (mul (c_output p) (of_int o)) (mkdec 1000 0))). intros x. unfold quantize.
  destruct (_ <? _); [discriminate|]. intros [= <-]. unfold has_scale. simpl. lia.
Qed.

Lemma span_cost_scale pr m i o t w c w' :
  span_cost driver_utc pr m i o t w = (Ok c, w') → has_scale 8 c.
Proof.
  unfold span_cost. intros H.
  do 3 (apply bind_ok_inv in H as (? & ? & _ & H)). unfold on_cost in H.
  destruct (dt_offset t).
  - destruct (calculate _ _ _ _ _ _ _) as [r s] eqn:E. injection H as -> _.
    unfold calculate in E. apply bind_ok_inv in E as (pr0 & s1 & _ & E).
    destruct pr0; [|by run_inv]. apply lift_ok in E as [E _]. by eapply cost_of_scale.
  - destruct (calculate_naive _ _ _ _ _ _ _ _) as [r s] eqn:E. injection H as -> _.
    unfold calculate_naive in E.
    do 6 (apply bind_ok_inv in E as (? & ? & _ & E)).
    apply bind_ok_inv in E as (row & ? & _ & E). destruct row; [|by run_inv].
    do 3 (apply bind_ok_inv in E as (? & ? & _ & E)).
    apply lift_ok in E as [E _]. by eapply cost_of_scale.
Qed.

(** The prepared span of an argument. *)
Record prepared_from (p : string) (sd : SpanData) (s : PreparedSpan) : Prop := {
  pf_id : ∃ t, sd_span_id sd = Some t ∧ parse_uuid t = Ok (ps_id s);
  pf_trace : ∃ t, sd_trace_id sd = Some t ∧ parse_uuid t = Ok (ps_trace s);
  pf_project : parse_uuid p = Ok (ps_project s);
  pf_started : ∃ t, sd_started sd = Some t ∧ parse_dt t = Ok (ps_started s);
  pf_cost : has_scale 8 (ps_cost s);
  pf_key : ∀ k, ps_payload_key s = Some k → ∃ id, k = payload_key p id;
}.

(** A payload is stored under the key of the project and the span. *)
Lemma put_payload_key st rk p sd w r w' k :
  put_payload gzip_compress float_repr st rk p sd w = (Ok r, w') → s3_key r = Some k →
  ∃ id, k = payload_key p id.
Proof.
  unfold put_payload. intros H Hk. destruct (should_store_payload _ _).
  2: { unfold mret, M_ret, skipped_payload_result in H. simplify_eq/=.
       by repeat case_match. }
  apply bind_ok_inv in H as (id & w1 & _ & H). apply bind_ok_inv in H as (o & w2 & _ & H).
  exists id. unfold on_objects, store_payload in H. destruct (_ <? _); [by simplify_eq/=|].
  by destruct o; simplify_eq/=.
Qed.

Lemma getitem_ok {A} k (o : option A) v : getitem k o = Ok v → o = Some v.
Proof. destruct o; [by intros [= ->]|done]. Qed.

Lemma prepare_span_ok st rk p sd w s w' :
  prepare st rk p sd w = (Ok s, w') → prepared_from p sd s.
Proof.
  unfold prepare_span. intros H. run_inv.
  repeat match goal with
  | H : lift _ _ = (Ok _, _) |- _ => apply lift_ok in H; destruct H as [? ->]
  | H : getitem _ _ = Ok _ |- _ => apply getitem_ok in H
  | H : span_cost _ _ _ _ _ _ _ = _ |- _ => apply span_cost_scale in H
  end; simplify_eq/=.
  constructor; simpl; eauto. intros k Hk. by eapply put_payload_key.
Qed.

Lemma prepare_all_ok st rk p sds w ps n w' :
  prepares st rk p sds w = (Ok (ps, n), w') →
  0 <= n ∧ Z.of_nat (length ps) + n = Z.of_nat (length sds) ∧
  (∀ s, s ∈ ps → ∃ sd, sd ∈ sds ∧ prepared_from p sd s) ∧
  (n = 0 → ∀ sd, sd ∈ sds → ∃ s, s ∈ ps ∧ prepared_from p sd s).
Proof.
  revert w ps n w'. induction sds as [|sd l IH]; intros w ps n w' H; simpl in H.
  { run_inv. split_and!; try done; set_solver. }
  apply bind_ok_inv in H as (o & w1 & H1 & H).
  apply bind_ok_inv in H as ([ps' n'] & w2 & H2 & H).
  apply IH in H2 as (Hn & Hlen & Hall & Hzero). simpl in H.
  assert (Ho : ∀ s, o = Some s → prepared_from p sd s).
  { intros s ->. apply try_ok_inv in H1 as [H1|(e & w3 & _ & H1)].
    - apply bind_ok_inv in H1 as (s' & w3 & H1 & H3). run_inv.
      by eapply prepare_span_ok.
    - destruct (is_transient_span_processing_error e); by run_inv. }
  destruct o as [s|]; run_inv; (split; [lia|]); (split; [lia|]).
  - specialize (Ho s eq_refl). split.
    + intros x [->|Hx]%elem_of_cons; [exists sd; split; [by left|done]|].
      destruct (Hall x Hx) as (sd' & ? & ?). exists sd'. split; [by right|done].
    + intros Hz x [->|Hx]%elem_of_cons; [exists s; split; [by left|done]|].
      destruct (Hzero Hz x Hx) as (s' & ? & ?). exists s'. split; [by right|done].
  - split; [|lia]. intros x Hx.
    destruct (Hall x Hx) as (sd' & ? & ?). exists sd'. split; [by right|done].
Qed.

(** ** The transaction *)

Definition tables (w : World)
    : list SpanRow * list TraceRow * list OutboxEvent * gmap (Z * timestamp) MetricBucket :=
  (w_spans w, w_traces w, w_outbox w, w_buckets w).

Abbreviation stores := (store_prepared driver_utc latency_float float_repr).
Abbreviation batches := (store_batch parse_dt driver_utc gzip_compress latency_float float_repr).
Abbreviation process :=
  (process_span_batch parse_dt driver_utc gzip_compress latency_float float_repr).

Lemma ensure_traces_preserves {B} (f : World → B) p m :
  (∀ g w, f (set_w_faults g w) = f w) → (∀ g w, f (set_w_traces g w) = f w) →
  preserves f (ensure_traces p m).
Proof.
  intros Hf Ht. assert (Hio : preserves f io) by by apply io_preserves.
  assert (He : ∀ tid t st, preserves f (ensure_trace_row p tid t st)).
  { intros tid t st. unfold ensure_trace_row, sql_query, sql_exec.
    apply preserves_bind; [apply preserves_bind; [done|preserve]|]. intros [r|].
    - destruct (_ <=? _); [preserve|]. apply preserves_bind; [done|intros _].
      apply preserves_bind; [preserve|intros c]. apply preserves_bind; [preserve|intros _].
      apply preserves_bind; [apply preserves_modify; intros; apply Ht|preserve].
    - apply preserves_bind; [|preserve]. apply preserves_bind; [done|intros _].
      apply preserves_modify. intros; apply Ht. }
  induction m as [|[tid s] m IH]; simpl; [preserve|].
  apply preserves_bind; [done|intros t]. apply preserves_bind; [done|preserve].
Qed.

(** The outbox after the events of some spans were enqueued. *)
Definition with_events (project : Z) (t : timestamp) (spans : list PreparedSpan)
    (l : list OutboxEvent) : list OutboxEvent :=
  foldl (λ l s, insert_event project OUTBOX_SPAN_INSERTED (str_of_uuid (ps_id s))
                  (event_payload latency_float float_repr s) t l) l spans.

Lemma enqueue_all_ok project spans w u w' :
  for_each spans (enqueue_span_event latency_float float_repr project) w = (Ok u, w') →
  ∃ fs, w' = set_w_outbox (with_events project (w_now w) spans) (set_w_faults (λ _, fs) w).
Proof.
  revert w u w'. induction spans as [|s l IH]; intros w u w' H; simpl in H.
  - run_inv. exists (w_faults w'). by destruct w'.
  - apply bind_ok_inv in H as (v & w1 & H1 & H). apply IH in H as (fs & ->).
    unfold enqueue_span_event, enqueue_outbox_event in H1. world_inv.
    exists fs. reflexivity.
Qed.

(** The events and counters of the inserted spans. *)
Lemma events_and_buckets_ok p project inserted w u w' :
  match inserted with
  | [] => mret tt
  | _ =>
      project ← lift (parse_uuid p);
      for_each inserted (enqueue_span_event latency_float float_repr project) ;;
      update_span_metric_buckets project inserted
  end w = (Ok u, w') →
  (inserted ≠ [] → parse_uuid p = Ok project) →
  w_spans w' = w_spans w ∧ w_traces w' = w_traces w ∧
  w_outbox w' = with_events project (w_now w) inserted (w_outbox w) ∧
  w_buckets w' = foldl (upsert project) (w_buckets w)
                   (_bucket_payload (accumulate inserted)).
Proof.
  intros H Hp. destruct inserted as [|s0 l0]; [by run_inv|].
  rewrite Hp in H by done. unfold update_span_metric_buckets in H.
  revert H. generalize (s0 :: l0). clear. intros l H.
  apply bind_ok_inv in H as (q & w1 & [= <- <-] & H).
  apply bind_ok_inv in H as (v & w1 & H1 & H).
  apply enqueue_all_ok in H1 as (fs & ->). by world_inv.
Qed.

Lemma store_prepared_ok p project prepared n w r w' :
  stores p prepared n w = (Ok r, w') →
  (prepared ≠ [] → parse_uuid p = Ok project) →
  let new := new_rows (w_spans w) (map row prepared) in
  let inserted := select_inserted_spans prepared (row_identity <$> new) in
  st_inserted r = inserted ∧ st_failed r = n ∧
  w_spans w' = w_spans w ++ new ∧
  w_outbox w' = with_events project (w_now w) inserted (w_outbox w) ∧
  w_buckets w' = foldl (upsert project) (w_buckets w)
                   (_bucket_payload (accumulate inserted)) ∧
  (inserted = [] → w_traces w' = w_traces w) ∧
  Forall (λ s, Z.abs (to_column 8 (ps_cost s)) < 10 ^ 12) prepared.
Proof.
  intros H Hp new inserted. unfold store_prepared in H.
  apply bind_ok_inv in H as (ids & w1 & H1 & H).
  apply bulk_insert_ok in H1 as (-> & (fs & Hw1) & Hcost). fold new inserted in H, Hw1.
  assert (H1 : w_spans w1 = w_spans w ++ new ∧ w_outbox w1 = w_outbox w ∧
    w_buckets w1 = w_buckets w ∧ w_now w1 = w_now w ∧ w_traces w1 = w_traces w)
    by by rewrite Hw1.
  clear Hw1. destruct H1 as (<- & <- & <- & <- & <-).
  apply bind_ok_inv in H as (starts & w2 & H2 & H).
  match type of H2 with ?m w1 = _ =>
    assert (Hpr : preserves (λ w, (w_spans w, w_outbox w, w_buckets w, w_now w)) m) end.
  { destruct (trace_map inserted); [preserve|].
    apply preserves_bind; [preserve|intros q]. by apply ensure_traces_preserves. }
  specialize (Hpr w1). rewrite H2 in Hpr. injection Hpr as <- <- <- <-.
  assert (Hin : inserted ≠ [] → parse_uuid p = Ok project).
  { intros Hne. apply Hp. intros ->. by apply Hne. }
  apply bind_ok_inv in H as (u & w3 & H3 & H).
  apply (events_and_buckets_ok p project) in H3 as (E1 & E2 & E3 & E4); [|done].
  apply bind_ok_inv in H as (u2 & w4 & H4 & H). world_inv.
  split_and!; try done. intros Hnil. rewrite E2.
  rewrite Hnil in H2. by injection H2 as _ ->.
Qed.

(** Sessions aside, the task touches no table. *)
Definition outside_redis {B} (p b : string) (f : World → B) : Prop :=
  (∀ g w, f (set_w_faults g w) = f w) ∧
  (∀ v w, f (set_w_batches <[batch_key p b := v]> w) = f w) ∧
  (∀ g w, f (set_w_queue g w) = f w).

Lemma after_commit_preserves {B} (f : World → B) b p sds r :
  outside_redis p b f → preserves f (after_commit b p sds r).
Proof.
  intros (H1 & H2 & H3). assert (Hio : preserves f io) by by apply io_preserves.
  assert (Hk : ∀ t, preserves f (kiq t)).
  { intros t. unfold kiq. apply preserves_bind; [done|intros _].
    apply preserves_modify. intros; apply H3. }
  unfold after_commit. apply preserves_bind.
  { destruct (st_inserted r); [preserve|]. apply preserves_try; [done|preserve]. }
  intros _. apply preserves_bind; [by apply preserves_for_each|intros _].
  apply preserves_bind; [done|intros _]. exact (merge_preserves f p b _ H1 H2).
Qed.

Lemma outside_redis_tables p b : outside_redis p b tables.
Proof. done. Qed.

(** Reading and marking the status, before the transaction. *)
Lemma start_tables p b w :
  tables (get_batch p b w).2 = tables w ∧ tables (mark_processing p b w).2 = tables w ∧
  ∀ e, tables ((Ingest.mark_failed p b e ;; raise (A:=unit) (OtherError e)) w).2 = tables w.
Proof.
  destruct (outside_redis_tables p b) as (Hf & Hb & _). split_and!.
  - revert w. unfold get_batch. change (preserves tables (io ;;
      gets (batch_lookup (batch_key p b)))).
    apply preserves_bind; [by apply io_preserves|preserve].
  - revert w. exact (merge_preserves tables p b _ Hf Hb).
  - intros e. revert w. change (preserves tables (Ingest.mark_failed p b e ;;
      raise (A:=unit) (OtherError e))).
    apply preserves_bind; [exact (merge_preserves tables p b _ Hf Hb)|].
    intros _. apply preserves_raise.
Qed.

(** A committed transaction prepared the spans on the tables it found. *)
Lemma store_batch_ok p sds w r w' :
  batches p sds w = (Ok r, w') →
  ∃ st rk prepared n wa wb,
    prepares st rk p sds wa = (Ok (prepared, n), wb) ∧ tables wb = tables w ∧
    stores p prepared n wb = (Ok r, w').
Proof.
  intros H. unfold store_batch in H. apply get_db_ok in H.
  apply bind_ok_inv in H as (st & wa & H1 & H).
  apply bind_ok_inv in H as (u1 & wa1 & H2 & H).
  apply bind_ok_inv in H as ([prepared n] & wb & H3 & H).
  exists st, (parse_redact_keys (Some (payload_redact_keys st))), prepared, n, wa1, wb.
  split; [done|]. split; [|done].
  assert (Hl : preserves tables (load_payload_privacy_settings p)).
  { unfold load_payload_privacy_settings, sql_query.
    apply preserves_bind; [|preserve]. apply preserves_bind; [by apply io_preserves|preserve]. }
  specialize (Hl w). rewrite H1 in Hl. simpl in Hl.
  unfold modify in H2. injection H2 as _ <-.
  pose proof (prepare_all_preserves tables st
    (parse_redact_keys (Some (payload_redact_keys st))) p sds) as Hp.
  specialize (Hp ltac:(done) (set_w_pricing (λ _, ∅) wa)). rewrite H3 in Hp. simpl in Hp.
  by rewrite Hp, <- Hl.
Qed.

(** A run of the task either leaves every table as it was, or commits the
    transaction of its whole batch; what follows the commit changes no table. *)
Lemma process_tables b p sds w res w' :
  process b p sds w = (res, w') →
  tables w' = tables w ∨
  ∃ st rk prepared n wa wb r wc,
    prepares st rk p sds wa = (Ok (prepared, n), wb) ∧ tables wb = tables w ∧
    stores p prepared n wb = (Ok r, wc) ∧ tables w' = tables wc.
Proof.
  intros H. unfold process_span_batch in H.
  destruct (start_tables p b w) as (Hg & _ & _).
  destruct (get_batch p b w) as [[o|e] w1] eqn:Eg.
  2: { rewrite (bind_run_raise _ _ _ _ _ Eg) in H. left. by injection H as <- <-. }
  rewrite (bind_run _ _ _ _ _ Eg) in H. clear Eg. simpl in Hg.
  destruct (start_tables p b w1) as (_ & Hm & _).
  destruct (mark_processing p b w1) as [[u|e] w2] eqn:Em; simpl in Hm; rewrite Hg in Hm.
  2: { rewrite (bind_run_raise _ _ _ _ _ Em) in H. left. by injection H as <- <-. }
  rewrite (bind_run _ _ _ _ _ Em) in H. clear Em. unfold try_except in H.
  destruct ((batches p sds ≫= λ r, after_commit b p sds r) w2) as [res1 w3] eqn:E.
  assert (Hlast : tables w' = tables w3).
  { destruct res1 as [v|e]; [by injection H as <- <-|].
    destruct (start_tables p b w3) as (_ & _ & Hf). specialize (Hf (exn_str e)).
    unfold mbind, M_bind in H, Hf.
    destruct (Ingest.mark_failed p b (exn_str e) w3) as [[v|x] w4];
      simpl in Hf; by injection H as <- <-. }
  rewrite Hlast. clear H Hlast. unfold mbind, M_bind in E.
  destruct (batches p sds w2) as [[r|e] w4] eqn:Es.
  - pose proof (after_commit_preserves tables b p sds r (outside_redis_tables p b) w4) as Ha.
    rewrite E in Ha. simpl in Ha. rewrite Ha, <- Hm. right.
    apply store_batch_ok in Es as (st & rk & prepared & n & wa & wb & H1 & H2 & H3).
    by exists st, rk, prepared, n, wa, wb, r, w4.
  - left. injection E as <- <-. unfold store_batch in Es.
    apply get_db_raise in Es as [E1 E2 E3 E4 _]. unfold tables.
    rewrite E1, E2, E3, E4. exact Hm.
Qed.

(** ** Redelivery *)

(** The row of a span argument. *)
Definition stored_span (t : list SpanRow) (sd : SpanData) : Prop :=
  ∀ s, (∃ x, sd_span_id sd = Some x ∧ parse_uuid x = Ok (ps_id s)) →
       (∃ x, sd_started sd = Some x ∧ parse_dt x = Ok (ps_started s)) →
  (ps_id s, db_time driver_utc (ps_started s)) ∈ row_identity <$> t.

(** C17: redelivering a batch whose spans are stored is harmless. Whatever the
    broker repeats, and wherever the repeated run fails, it inserts no span,
    moves no trace, enqueues no event and adds to no metric bucket. *)
Theorem process_span_batch_replay b p sds w :
  (∀ sd, sd ∈ sds → stored_span (w_spans w) sd) →
  tables (process b p sds w).2 = tables w.
Proof.
  intros Hst. destruct (process b p sds w) as [res w'] eqn:E. simpl.
  apply process_tables in E
    as [?|(st & rk & prepared & n & wa & wb & r & wc & H1 & H2 & H3 & ->)]; [done|].
  apply prepare_all_ok in H1 as (_ & _ & Hall & _).
  injection H2 as Es Et Eo Eb.
  assert (Hnew : new_rows (w_spans wb) (map row prepared) = []).
  { apply new_rows_none. intros r0 Hr0. apply list_elem_of_fmap in Hr0 as (s & -> & Hs).
    destruct (Hall s Hs) as (sd & Hsd & [Hid _ _ Hstart _]). rewrite Es.
    by apply (Hst sd Hsd s). }
  destruct (decide (prepared = [])) as [->|Hne].
  { apply (store_prepared_ok p 0) in H3 as (_ & _ & E1 & E2 & E3 & E4 & _); [|done].
    simpl in E1, E2, E3. rewrite app_nil_r in E1. unfold tables. rewrite E1, E2, E3, E4; [|done].
    by rewrite Es, Eo, Eb, Et. }
  destruct prepared as [|s l] eqn:Ep; [done|].
  destruct (Hall s ltac:(by left)) as (sd & _ & [_ _ Hproj _ _]).
  apply (store_prepared_ok p (ps_project s)) in H3 as (_ & _ & E1 & E2 & E3 & E4 & _); [|done].
  rewrite Hnew in E1, E2, E3, E4. rewrite fmap_nil, select_inserted_nil in E2, E3, E4.
  rewrite app_nil_r in E1. simpl in E2, E3. unfold tables.
  rewrite E1, E2, E3, E4 by done. by rewrite Es, Eo, Eb, Et.
Qed.

(** ** Consistency of the derived tables *)

(** Every datetime of the batch has an offset of whole minutes. *)
Definition offsets_ok (sds : list SpanData) : Prop :=
  ∀ sd x dt, sd ∈ sds → sd_started sd = Some x → parse_dt x = Ok dt →
  ∃ off, dt_offset dt = Some off ∧ off mod minute = 0.

Definition offset_ok (s : PreparedSpan) : Prop :=
  ∃ off, dt_offset (ps_started s) = Some off ∧ off mod minute = 0.

Lemma offset_ok_aware s : offset_ok s → aware s.
Proof. intros (off & Ho & _). by exists off. Qed.

(** The minute of a row is the bucket of its span. *)
Lemma bucket_start_row s :
  offset_ok s → bucket_start s = sp_started (row s) / minute * minute.
Proof.
  intros (off & Ho & Hm). unfold bucket_start, floor_to_minute, span_row, db_time, dt_utc.
  simpl. rewrite Ho.
  assert (Hk : minute > 0) by by vm_compute.
  apply Z_div_exact_2 in Hm; [|done]. set (k := off / minute) in *.
  replace (dt_local (ps_started s) - off) with (dt_local (ps_started s) + (- k) * minute)
    by lia.
  rewrite Z.div_add by lia. lia.
Qed.

(** What the rows of a project and minute count. *)
Definition row_counts (q : Z) (m : timestamp) (rows : list SpanRow) : Z * Z * Z :=
  let l := select (λ r, (sp_project r =? q) && (sp_started r / minute * minute =? m)) rows in
  (Z.of_nat (length l), sum_of (λ r, is_error (sp_status r)) l, sum_of sp_cost l).

Lemma triple_eq {A B C} (a a' : A) (b b' : B) (c c' : C) :
  a = a' → b = b' → c = c' → (a, b, c) = (a', b', c').
Proof. by intros -> -> ->. Qed.

Lemma row_counts_app q m l1 l2 :
  row_counts q m (l1 ++ l2) = add3 (row_counts q m l1) (row_counts q m l2).
Proof.
  unfold row_counts, add3, select. rewrite List.filter_app, length_app, !sum_of_app.
  simpl. apply triple_eq; lia.
Qed.

Lemma row_counts_spans q m project (l : list PreparedSpan) :
  Forall offset_ok l → Forall cost_exact l → Forall (λ s, ps_project s = project) l →
  row_counts q m (map row l)
  = if q =? project
    then let b := in_bucket m l in
         (Z.of_nat (length b), sum_of (λ s, is_error (ps_status s)) b, sum_of cost_units b)
    else (0, 0, 0).
Proof.
  induction l as [|s l IH]; [by destruct (q =? project)|].
  rewrite !Forall_cons. intros [Ho Hos] [Hc Hcs] [Hp Hps].
  specialize (IH Hos Hcs Hps). change (map row (s :: l)) with ([row s] ++ map row l).
  rewrite row_counts_app, IH. unfold row_counts, select, in_bucket. simpl.
  pose proof (bucket_start_row s Ho) as Hb. simpl in Hb.
  rewrite Hp, <- Hb, (Z.eqb_sym project q).
  destruct (q =? project); [|done].
  destruct (bucket_start s =? m); unfold add3; simpl; [|done].
  assert (to_column 8 (ps_cost s) = cost_units s) as ->.
  { unfold to_column, cost_units. unfold cost_exact, has_scale in Hc.
    by destruct (Z.leb_spec 0 (8 + expo (ps_cost s))); [|lia]. }
  apply triple_eq; lia.
Qed.

(** The buckets of [w] are those its span rows count. *)
Definition buckets_match (w : World) : Prop :=
  ∀ q m, bucket_counts (w_buckets w !! (q, m)) = row_counts q m (w_spans w).

(** Every stored span has an event of its own. *)
Definition events_match (w : World) : Prop :=
  ∀ r, r ∈ w_spans w → ∃ e, e ∈ w_outbox w ∧
    same_event (sp_project r) OUTBOX_SPAN_INSERTED (str_of_uuid (sp_id r)) e = true.

Lemma prepared_project p sds st rk wa prepared n wb :
  prepares st rk p sds wa = (Ok (prepared, n), wb) →
  ∃ project, prepared ≠ [] → parse_uuid p = Ok project.
Proof.
  intros (_ & _ & Hall & _)%prepare_all_ok.
  destruct prepared as [|s l]; [by exists 0|]. exists (ps_project s). intros _.
  by destruct (Hall s ltac:(by left)) as (sd & _ & []).
Qed.

(** What preparing a batch of dated spans gives the transaction. *)
Lemma prepared_facts p sds st rk wa prepared n wb :
  offsets_ok sds → prepares st rk p sds wa = (Ok (prepared, n), wb) →
  (length prepared ≤ length sds)%nat ∧ Forall offset_ok prepared ∧
  Forall cost_exact prepared ∧
  ∃ project, Forall (λ s, ps_project s = project) prepared ∧
             (prepared ≠ [] → parse_uuid p = Ok project).
Proof.
  intros Hoff H. apply prepare_all_ok in H as (Hn & Hlen & Hall & _).
  split; [lia|]. split_and!.
  - apply Forall_forall. intros s Hs.
    destruct (Hall s Hs) as (sd & Hsd & [_ _ _ (x & Hx & Hdt) _]). by eapply Hoff.
  - apply Forall_forall. intros s Hs. by destruct (Hall s Hs) as (sd & _ & []).
  - destruct prepared as [|s0 l]; [by exists 0|]. exists (ps_project s0).
    destruct (Hall s0 ltac:(by left)) as (sd0 & _ & [_ _ H0 _ _]). split; [|done].
    apply Forall_forall. intros s Hs.
    destruct (Hall s Hs) as (sd & _ & [_ _ Hs0 _ _]). rewrite H0 in Hs0. by injection Hs0.
Qed.

Lemma cost_mass_columns l :
  Forall cost_exact l → Forall (λ s, Z.abs (to_column 8 (ps_cost s)) < 10 ^ 12) l →
  cost_mass l <= Z.of_nat (length l) * 10 ^ 12.
Proof.
  unfold cost_mass. intros Hc Hcol. induction l as [|s l IH]; [simpl; lia|].
  apply Forall_cons in Hc as [Hc Hcs]. apply Forall_cons in Hcol as [Hcol Hcols].
  specialize (IH Hcs Hcols). cbn [sum_of foldr length].
  unfold to_column in Hcol. unfold cost_exact, has_scale in Hc.
  destruct (Z.leb_spec 0 (8 + expo (ps_cost s))); [|lia].
  unfold cost_units, sum_of in *. lia.
Qed.

(** C1: the per-minute counters stay equal to what the span rows count, for
    every project and minute: spans, errors and cost. Whatever batch
    of at most a billion spans is processed, repeated or not, whichever calls
    fail, provided its spans carry a UTC offset of whole minutes. *)
Theorem process_span_batch_buckets b p sds w :
  offsets_ok sds → Z.of_nat (length sds) <= 10 ^ 9 →
  buckets_match w → buckets_match (process b p sds w).2.
Proof.
  intros Hoff Hlen Hm. destruct (process b p sds w) as [res w'] eqn:E. simpl.
  apply process_tables in E
    as [Ht|(st & rk & prepared & n & wa & wb & r & wc & H1 & H2 & H3 & H4)].
  { injection Ht as Es _ _ Eb. intros q m. by rewrite Es, Eb. }
  destruct (prepared_facts _ _ _ _ _ _ _ _ Hoff H1)
    as (Hl & Ho & Hc & project & Hproj & Hparse).
  injection H2 as Es _ _ Eb. injection H4 as Es' _ _ Eb'.
  destruct (store_prepared_ok p project _ _ _ _ _ H3 Hparse)
    as (_ & _ & E1 & _ & E2 & _ & Hcol).
  assert (Haware : Forall aware prepared)
    by (eapply Forall_impl; [exact Ho|apply offset_ok_aware]).
  pose proof (select_inserted_rows prepared (w_spans wb) Haware) as Hnew.
  set (inserted := select_inserted_spans _ _) in *.
  assert (Hsub : ∀ P : PreparedSpan → Prop, Forall P prepared → Forall P inserted).
  { intros P HP. apply Forall_forall. intros s Hs%select_inserted_sub.
    rewrite Forall_forall in HP. by apply HP. }
  assert (Hmass : cost_mass inserted < 10 ^ 28).
  { pose proof (cost_mass_columns inserted (Hsub _ Hc) (Hsub _ Hcol)) as Hb.
    assert ((length inserted ≤ length prepared)%nat) by apply select_inserted_length.
    assert (Z.of_nat (length inserted) * 10 ^ 12 <= 10 ^ 9 * 10 ^ 12); lia. }
  intros q m. rewrite Es', Eb', E1, E2, <- Hnew, row_counts_app.
  rewrite (row_counts_spans q m project inserted) by by apply Hsub.
  rewrite (upsert_batch_counts project inserted) by (done || by apply Hsub).
  rewrite Eb, Es, Hm. done.
Qed.

Lemma insert_event_mono project ty k pl t l e :
  e ∈ l → e ∈ insert_event project ty k pl t l.
Proof. unfold insert_event. destruct (existsb _ l); [done|]. intros. apply elem_of_app. by left. Qed.

Lemma with_events_mono project t spans l e : e ∈ l → e ∈ with_events project t spans l.
Proof.
  revert l. induction spans as [|s spans IH]; intros l He; [done|].
  apply IH. by apply insert_event_mono.
Qed.

Lemma insert_event_present project ty k pl t l :
  ∃ e, e ∈ insert_event project ty k pl t l ∧ same_event project ty k e = true.
Proof.
  unfold insert_event. destruct (existsb (same_event project ty k) l) eqn:Ex.
  - apply exists_where_true in Ex as (e & ? & ?). by exists e.
  - eexists. split; [apply elem_of_app; right; by apply list_elem_of_singleton|].
    unfold same_event, pending_event. simpl.
    by rewrite Z.eqb_refl, !String.eqb_refl.
Qed.

Lemma with_events_present project t spans l s :
  s ∈ spans → ∃ e, e ∈ with_events project t spans l ∧
    same_event project OUTBOX_SPAN_INSERTED (str_of_uuid (ps_id s)) e = true.
Proof.
  revert l. induction spans as [|x spans IH]; intros l Hs; [by apply not_elem_of_nil in Hs|].
  apply elem_of_cons in Hs as [->|Hs]; [|by apply IH].
  destruct (insert_event_present project OUTBOX_SPAN_INSERTED (str_of_uuid (ps_id x))
    (event_payload latency_float float_repr x) t l) as (e & He & Hsame).
  exists e. split; [exact (with_events_mono project t spans _ e He)|done].
Qed.

(** C28: no stored span goes unannounced. Every span row has an outbox event of
    its project and id, before and after any run of the task on spans that
    carry a UTC offset, whichever calls fail. *)
Theorem process_span_batch_events b p sds w :
  offsets_ok sds → events_match w → events_match (process b p sds w).2.
Proof.
  intros Hoff Hm. destruct (process b p sds w) as [res w'] eqn:E. simpl.
  apply process_tables in E
    as [Ht|(st & rk & prepared & n & wa & wb & r & wc & H1 & H2 & H3 & H4)].
  { injection Ht as Es _ Eo _. intros r. rewrite Es, Eo. apply Hm. }
  destruct (prepared_facts _ _ _ _ _ _ _ _ Hoff H1)
    as (_ & Ho & _ & project & Hproj & Hparse).
  injection H2 as Es _ Eo _. injection H4 as Es' _ Eo' _.
  destruct (store_prepared_ok p project _ _ _ _ _ H3 Hparse)
    as (_ & _ & E1 & E2 & _ & _ & _).
  assert (Haware : Forall aware prepared)
    by (eapply Forall_impl; [exact Ho|apply offset_ok_aware]).
  pose proof (select_inserted_rows prepared (w_spans wb) Haware) as Hnew.
  intros x. rewrite Es', Eo', E1, E2, Es, Eo. intros [Hx|Hx]%elem_of_app.
  - destruct (Hm x Hx) as (e & He & Hs). exists e. split; [by apply with_events_mono|done].
  - rewrite <- Es, <- Hnew in Hx. apply list_elem_of_fmap in Hx as (s & -> & Hs). simpl.
    assert (ps_project s = project) as ->.
    { rewrite Forall_forall in Hproj. apply Hproj. by eapply select_inserted_sub. }
    rewrite Es in Hs. by apply with_events_present.
Qed.

(** ** The status of a finished batch *)

Lemma merge_ok p b u w x w' :
  _merge p b u w = (Ok x, w') →
  ∃ old, batch_lookup (batch_key p b) w' =
    Some {| b_batch := b_batch (u old); b_status := b_status (u old);
            b_accepted := b_accepted (u old); b_processed := b_processed (u old);
            b_failed := b_failed (u old); b_error := b_error (u old);
            b_created := b_created (u old); b_updated := w_now w' |}.
Proof.
  unfold _merge, get_batch, _save. intros H. world_inv.
  match goal with |- context [u ?o] => exists o end.
  unfold batch_lookup. simpl. rewrite lookup_insert_eq.
  assert (w_now w <? w_now w + BATCH_STATUS_TTL = true) as ->; [|done].
  apply Z.ltb_lt. unfold BATCH_STATUS_TTL, second. lia.
Qed.

(** The status that the end of the task leaves. *)
Lemma finished_status b p sds r w u w' :
  after_commit b p sds r w = (Ok u, w') →
  ∃ old, batch_lookup (batch_key p b) w' = Some
    {| b_batch := b_batch old;
       b_status := if negb (st_failed r =? 0) then "partial_failed" else "processed";
       b_accepted := b_accepted old; b_processed := Z.of_nat (length (st_inserted r));
       b_failed := st_failed r; b_error := None; b_created := b_created old;
       b_updated := w_now w' |}.
Proof.
  intros Ha. unfold after_commit in Ha.
  do 3 (apply bind_ok_inv in Ha as (? & ? & _ & Ha)).
  unfold mark_finished in Ha. apply merge_ok in Ha as (old & Hb). by exists old.
Qed.

(** A span whose preparation fails for good. *)
Definition unpreparable (p : string) (sd : SpanData) : Prop :=
  ∃ st rk w e w', prepare st rk p sd w = (Raise e, w') ∧
    is_transient_span_processing_error e = false.

(** The loop divides the batch: what it prepared, in order, and what it counted. *)
Lemma prepare_all_split st rk p sds w ps n w' :
  prepares st rk p sds w = (Ok (ps, n), w') →
  ∃ kept dropped, sds ≡ₚ kept ++ dropped ∧ n = Z.of_nat (length dropped) ∧
    Forall2 (prepared_from p) kept ps ∧ Forall (unpreparable p) dropped.
Proof.
  revert w ps n w'. induction sds as [|sd l IH]; intros w ps n w' H; simpl in H.
  { run_inv. exists [], []. split_and!; constructor. }
  apply bind_ok_inv in H as (o & w1 & H1 & H).
  apply bind_ok_inv in H as ([ps' n'] & w2 & H2 & H). simpl in H.
  apply IH in H2 as (kept & dropped & Hperm & -> & Hk & Hd).
  apply try_ok_inv in H1 as [H1|(e & w3 & H1 & H3)].
  - apply bind_ok_inv in H1 as (s & w3 & H1 & H3). run_inv.
    exists (sd :: kept), dropped. split_and!; [by rewrite Hperm|done| |done].
    constructor; [by eapply prepare_span_ok|done].
  - destruct (is_transient_span_processing_error e) eqn:He; run_inv.
    exists kept, (sd :: dropped). split_and!; [|simpl; lia|done|].
    + rewrite Hperm. apply Permutation_middle.
    + constructor; [|done]. unfold mbind, M_bind in H1.
      destruct (prepare st rk p sd w) as [[s|e'] w4] eqn:Ep; [done|].
      injection H1 as -> ->. by eexists _, _, _, _, _.
Qed.


(** ** Traces *)

(** One row for each project and trace id. *)
Definition trace_key (t : TraceRow) : Z * Z := (tr_project t, tr_id t).
Definition one_row (l : list TraceRow) : Prop := NoDup (trace_key <$> l).

(** No other project uses the trace ids of [ids]. *)
Definition own_ids (project : Z) (ids : list Z) (l : list TraceRow) : Prop :=
  ∀ t, t ∈ l → tr_id t ∈ ids → tr_project t = project.

(** A row of the trace that starts no later than [t]. *)
Definition covered (l : list TraceRow) (project tid : Z) (t : timestamp) : Prop :=
  ∃ r, r ∈ l ∧ is_trace project tid r = true ∧ tr_started r <= t.

Lemma is_trace_spec project tid r :
  is_trace project tid r = true ↔ trace_key r = (project, tid).
Proof.
  unfold is_trace, trace_key. rewrite andb_true_iff, !Z.eqb_eq.
  split; [intros [-> ->]; done|intros [= -> ->]; done].
Qed.

Lemma one_row_unique l r r' :
  one_row l → r ∈ l → r' ∈ l → trace_key r = trace_key r' → r = r'.
Proof.
  intros Hnd Hr Hr' Hk.
  apply list_elem_of_lookup in Hr as [i Hi]. apply list_elem_of_lookup in Hr' as [j Hj].
  assert (i = j) as ->.
  { eapply NoDup_lookup; [exact Hnd|by rewrite list_lookup_fmap, Hi|].
    by rewrite list_lookup_fmap, Hj, Hk. }
  rewrite Hi in Hj. by injection Hj.
Qed.

Lemma move_traces_keys p t l : trace_key <$> update_where p (move_trace t) l = trace_key <$> l.
Proof.
  induction l as [|x l IH]; [done|]. simpl. f_equal; [|exact IH]. by destruct (p x).
Qed.

Lemma insert_trace_fresh project ids r l :
  own_ids project ids l → tr_id r ∈ ids → (∀ t, t ∈ l → trace_key t ≠ trace_key r) →
  tr_project r = project → insert_trace r l = l ++ [r].
Proof.
  intros Hown Hid Hk Hp. unfold insert_trace.
  destruct (existsb _ l) eqn:Ex; [|done]. exfalso.
  apply exists_where_true in Ex as (t & Ht & Hb).
  apply andb_true_iff in Hb as [Hb _]. apply Z.eqb_eq in Hb.
  apply (Hk t Ht). unfold trace_key. rewrite Hb, Hp. f_equal.
  apply (Hown t Ht). by rewrite Hb.
Qed.

(** What [ensure_trace_row] leaves: the trace is covered from the given start,
    the returned start is that of its row, and what was covered stays so. *)
Record ensured (project : Z) (ids : list Z) (tid : Z) (t0 t : timestamp)
    (l l' : list TraceRow) : Prop := {
  en_one : one_row l';
  en_own : own_ids project ids l';
  en_covered : covered l' project tid t0;
  en_row : ∃ r, r ∈ l' ∧ is_trace project tid r = true ∧ tr_started r = t;
  en_mono : ∀ q i y, covered l q i y → covered l' q i y;
}.

(** The row moved to an earlier start. *)
Lemma move_trace_ensured project ids tid r t l :
  one_row l → own_ids project ids l → r ∈ l → is_trace project tid r = true →
  t < tr_started r →
  ensured project ids tid t t l (update_where
    (λ r', is_trace project tid r' && (tr_started r' =? tr_started r)) (move_trace t) l).
Proof.
  intros Hone Hown Hr Hir Hlt.
  set (mv := λ r', is_trace project tid r' && (tr_started r' =? tr_started r)).
  assert (Hmr : mv r = true) by (unfold mv; by rewrite Hir, Z.eqb_refl).
  assert (Hin : move_trace t r ∈ update_where mv (move_trace t) l).
  { apply elem_of_update_where. exists r. by rewrite Hmr. }
  constructor.
  - unfold one_row. by rewrite move_traces_keys.
  - intros t1 (t2 & Ht2 & ->)%elem_of_update_where.
    destruct (mv t2); intros; by apply (Hown t2).
  - exists (move_trace t r). split; [done|]. split; [done|]. simpl. lia.
  - by exists (move_trace t r).
  - intros q i y (r1 & Hr1 & Hi1 & Hy).
    exists (if mv r1 then move_trace t r1 else r1).
    split; [apply elem_of_update_where; by exists r1|].
    destruct (mv r1) eqn:Em; [|done]. split; [done|]. simpl.
    unfold mv in Em. apply andb_true_iff in Em as [_ Em]. apply Z.eqb_eq in Em. lia.
Qed.

(** A row for a trace that had none. *)
Lemma insert_trace_ensured project ids tid st t l :
  one_row l → own_ids project ids l → tid ∈ ids →
  select (is_trace project tid) l = [] →
  ensured project ids tid t t l (insert_trace (new_trace project tid t st) l).
Proof.
  intros Hone Hown Hid Eh.
  assert (Hno : ∀ t1, t1 ∈ l → trace_key t1 ≠ (project, tid)).
  { intros t1 Ht1 Hk%is_trace_spec.
    assert (Hs : t1 ∈ select (is_trace project tid) l) by by apply elem_of_select.
    rewrite Eh in Hs. by apply not_elem_of_nil in Hs. }
  rewrite (insert_trace_fresh project ids) by done.
  assert (Hin : new_trace project tid t st ∈ l ++ [new_trace project tid t st])
    by (apply elem_of_app; right; by left).
  assert (Hnew : is_trace project tid (new_trace project tid t st) = true)
    by by apply is_trace_spec.
  constructor.
  - unfold one_row. rewrite fmap_app. apply NoDup_app. split; [done|].
    split; [|apply NoDup_singleton]. intros k Hk Hk'.
    apply list_elem_of_singleton in Hk' as ->.
    apply list_elem_of_fmap in Hk as (t1 & Hk1 & Ht1). by apply (Hno t1 Ht1).
  - intros t1 [Ht1|Ht1]%elem_of_app; [by apply Hown|].
    by apply list_elem_of_singleton in Ht1 as ->.
  - exists (new_trace project tid t st). split_and!; [done..|simpl; lia].
  - by exists (new_trace project tid t st).
  - intros q i y (r1 & Hr1 & ?). exists r1. split; [apply elem_of_app; by left|done].
Qed.

Lemma ensure_trace_row_ok project ids tid t0 st w t w' :
  ensure_trace_row project tid t0 st w = (Ok t, w') →
  one_row (w_traces w) → own_ids project ids (w_traces w) → tid ∈ ids →
  ensured project ids tid t0 t (w_traces w) (w_traces w').
Proof.
  intros H Hone Hown Hid. unfold ensure_trace_row in H.
  apply bind_ok_inv in H as (row0 & w1 & H1 & H).
  apply sql_query_ok in H1 as (fs & -> & ->). simpl in H.
  destruct (head (sort_by tr_started (select (is_trace project tid) (w_traces w))))
    as [r|] eqn:Eh.
  - pose proof (sort_by_head_elem_of _ _ _ Eh) as Hr. apply elem_of_select in Hr as [Hr Hir].
    destruct (Z.leb_spec (tr_started r) t0) as [Hle|Hlt].
    { run_inv. constructor; try done; by exists r. }
    apply bind_ok_inv in H as (? & w2 & H2 & H). apply io_ok_inv in H2 as (fs2 & ->).
    run_inv. by apply move_trace_ensured.
  - apply sort_by_head_None in Eh.
    apply bind_ok_inv in H as (? & w2 & H2 & H). apply sql_exec_ok in H2 as (fs2 & ->).
    run_inv. by apply insert_trace_ensured.
Qed.

Lemma ensure_traces_ok project ids m w ts w' :
  ensure_traces project m w = (Ok ts, w') →
  one_row (w_traces w) → own_ids project ids (w_traces w) → m.*1 ⊆ ids →
  one_row (w_traces w') ∧
  (∀ tid s, (tid, s) ∈ m → covered (w_traces w') project tid (dt_utc (ps_started s))) ∧
  ∀ q i x, covered (w_traces w) q i x → covered (w_traces w') q i x.
Proof.
  revert w ts w'. induction m as [|[tid s] m IH]; intros w ts w' H Hone Hown Hsub.
  - simpl in H. run_inv. split_and!; try done. by intros ? ? ?%not_elem_of_nil.
  - simpl in H. apply bind_ok_inv in H as (t & w1 & H1 & H).
    apply bind_ok_inv in H as (ts1 & w2 & H2 & H). run_inv.
    apply (ensure_trace_row_ok project ids) in H1 as [G1 G2 G3 _ G5];
      [|done|done|apply Hsub; by left].
    apply IH in H2 as (K1 & K2 & K3); [|done|done|intros i Hi; apply Hsub; by right].
    split; [done|]. split; [|by eauto].
    intros tid' s' [[= -> ->]|Hin]%elem_of_cons; [by apply K3|by apply K2].
Qed.

(** [trace_map] has an entry for each span, no later than it. *)
Lemma trace_map_set_spec s m :
  (∃ s', (ps_trace s, s') ∈ trace_map_set s m ∧
         dt_utc (ps_started s') <= dt_utc (ps_started s)) ∧
  (∀ tid s1, (tid, s1) ∈ m → ∃ s2, (tid, s2) ∈ trace_map_set s m ∧
         dt_utc (ps_started s2) <= dt_utc (ps_started s1)) ∧
  (∀ tid, tid ∈ (trace_map_set s m).*1 → tid = ps_trace s ∨ tid ∈ m.*1).
Proof.
  induction m as [|[tid first] m (IH1 & IH2 & IH3)]; simpl.
  - split_and!.
    + exists s. split; [by left|lia].
    + by intros ? ? ?%not_elem_of_nil.
    + intros tid Ht%list_elem_of_singleton. by left.
  - destruct (Z.eqb_spec tid (ps_trace s)) as [->|Hne].
    + destruct (Z.ltb_spec (dt_utc (ps_started s)) (dt_utc (ps_started first))).
      * split_and!.
        -- exists s. split; [by left|lia].
        -- intros tid s1 [[= -> ->]|Hin]%elem_of_cons;
             [exists s; split; [by left|lia]|exists s1; split; [by right|lia]].
        -- intros tid. simpl. by right.
      * split_and!; [exists first; split; [by left|lia]| |by right].
        intros tid s1 Hin. exists s1. split; [done|lia].
    + destruct IH1 as (s' & Hs' & Hle). split_and!.
      * exists s'. split; [by right|done].
      * intros tid' s1 [[= -> ->]|Hin]%elem_of_cons; [exists first; split; [by left|lia]|].
        destruct (IH2 tid' s1 Hin) as (s2 & ? & ?). exists s2. split; [by right|done].
      * intros tid' [->|Hin]%elem_of_cons; [right; by left|].
        destruct (IH3 tid' Hin); [by left|right; by right].
Qed.

Lemma trace_map_spec inserted :
  (∀ s, s ∈ inserted → ∃ s', (ps_trace s, s') ∈ trace_map inserted ∧
     dt_utc (ps_started s') <= dt_utc (ps_started s)) ∧
  (∀ tid, tid ∈ (trace_map inserted).*1 → tid ∈ ps_trace <$> inserted).
Proof.
  unfold trace_map. induction inserted as [|s l [IH1 IH2]] using rev_ind.
  - split; [by intros ? ?%not_elem_of_nil|done].
  - rewrite foldl_app. simpl. set (m := foldl _ [] l) in *.
    destruct (trace_map_set_spec s m) as (G1 & G2 & G3). split.
    + intros s1 [Hs|Hs]%elem_of_app.
      * destruct (IH1 s1 Hs) as (s2 & Hs2 & Hle).
        destruct (G2 _ _ Hs2) as (s3 & Hs3 & Hle3). exists s3. split; [done|lia].
      * apply list_elem_of_singleton in Hs as ->. done.
    + intros tid Ht. rewrite fmap_app. apply elem_of_app.
      destruct (G3 tid Ht) as [->|Hin]; [right; by left|left; by apply IH2].
Qed.

(** The traces after the transaction are those [ensure_traces] left. *)
Lemma store_prepared_traces p project prepared n w r w' :
  stores p prepared n w = (Ok r, w') →
  (prepared ≠ [] → parse_uuid p = Ok project) →
  let inserted := select_inserted_spans prepared
    (row_identity <$> new_rows (w_spans w) (map row prepared)) in
  ∃ wx ts wy, w_traces wx = w_traces w ∧
    ensure_traces project (trace_map inserted) wx = (Ok ts, wy) ∧
    w_traces w' = w_traces wy.
Proof.
  intros H Hp inserted. unfold store_prepared in H.
  apply bind_ok_inv in H as (ids & w1 & H1 & H).
  apply bulk_insert_ok in H1 as (-> & (fs & ->) & _). fold inserted in H.
  apply bind_ok_inv in H as (ts & w2 & H2 & H).
  assert (Hin : inserted ≠ [] → parse_uuid p = Ok project).
  { intros Hne. apply Hp. intros ->. by apply Hne. }
  apply bind_ok_inv in H as (u & w3 & H3 & H).
  apply (events_and_buckets_ok p project) in H3 as (_ & E2 & _ & _); [|done].
  apply bind_ok_inv in H as (u2 & w4 & H4 & H). world_inv.
  match type of H2 with _ ?wx = _ => exists wx, ts, w2 end.
  split; [done|]. split; [|by rewrite E2].
  destruct (trace_map inserted) as [|ks m] eqn:Em; [exact H2|].
  rewrite Hin in H2; [exact H2|]. intros Hnil. by rewrite Hnil in Em.
Qed.

(** Every span row lies after the start of a row of its trace. *)
Definition traces_match (w : World) : Prop :=
  one_row (w_traces w) ∧
  ∀ r, r ∈ w_spans w → covered (w_traces w) (sp_project r) (sp_trace r) (sp_started r).

(** The trace ids of the batch are not used by another project. *)
Definition own_traces (p : string) (sds : list SpanData) (l : list TraceRow) : Prop :=
  ∀ sd x tid project t, sd ∈ sds → sd_trace_id sd = Some x → parse_uuid x = Ok tid →
    parse_uuid p = Ok project → t ∈ l → tr_id t = tid → tr_project t = project.

(** C29: every span row belongs to a trace row that starts no later than it,
    and a project has one row for a trace, before and after any run of the
    task on spans that carry a UTC offset and name no trace of another project,
    whichever calls fail and in whatever order the spans of a trace arrive. *)
Theorem process_span_batch_traces b p sds w :
  offsets_ok sds → own_traces p sds (w_traces w) →
  traces_match w → traces_match (process b p sds w).2.
Proof.
  intros Hoff Hown [Hone Hm]. destruct (process b p sds w) as [res w'] eqn:E. simpl.
  apply process_tables in E
    as [Ht|(st & rk & prepared & n & wa & wb & r & wc & H1 & H2 & H3 & H4)].
  { injection Ht as Es Et _ _. unfold traces_match. by rewrite Es, Et. }
  destruct (prepared_facts _ _ _ _ _ _ _ _ Hoff H1)
    as (_ & Ho & _ & project & Hproj & Hparse).
  pose proof (prepare_all_ok _ _ _ _ _ _ _ _ H1) as (_ & _ & Hall & _).
  injection H2 as Es Et _ _. injection H4 as Es' Et' _ _.
  destruct (store_prepared_ok p project _ _ _ _ _ H3 Hparse) as (_ & _ & E1 & _).
  destruct (store_prepared_traces p project _ _ _ _ _ H3 Hparse)
    as (wx & ts & wy & Hx & He & Hy).
  assert (Haware : Forall aware prepared)
    by (eapply Forall_impl; [exact Ho|apply offset_ok_aware]).
  pose proof (select_inserted_rows prepared (w_spans wb) Haware) as Hnew.
  set (inserted := select_inserted_spans _ _) in *.
  destruct (trace_map_spec inserted) as [M1 M2].
  apply (ensure_traces_ok project (ps_trace <$> inserted)) in He as (G1 & G2 & G3);
    [|by rewrite Hx, Et| |exact M2].
  2: { intros t Ht Hid. rewrite Hx, Et in Ht.
       apply list_elem_of_fmap in Hid as (s & Hs & Hin).
       apply select_inserted_sub in Hin.
       destruct (Hall s Hin) as (sd & Hsd & [_ (x & Hx1 & Hx2) Hp _ _]).
       rewrite Forall_forall in Hproj. rewrite <- (Hproj s Hin).
       by eapply (Hown sd x (ps_trace s) (ps_project s) t). }
  split; [by rewrite Et', Hy|]. intros r0. rewrite Es', Et', E1, Hy, <- Hnew.
  intros [Hr|Hr]%elem_of_app.
  - apply G3. rewrite Hx, Et. apply Hm. by rewrite <- Es.
  - apply list_elem_of_fmap in Hr as (s & -> & Hs).
    destruct (M1 s Hs) as (s' & Hs' & Hle).
    assert (Hin : s ∈ prepared) by (by eapply select_inserted_sub).
    rewrite Forall_forall in Hproj, Ho. simpl. rewrite (Hproj s Hin).
    destruct (G2 _ _ Hs') as (t & Ht & Hit & Hst). exists t. split_and!; try done.
    destruct (Ho s Hin) as (off & Hoff' & _). unfold db_time. rewrite Hoff'. lia.
Qed.

(** The spans of a trace. *)
Definition spans_of (project tid : Z) (t : list SpanRow) : list SpanRow :=
  select (λ r, (sp_project r =? project) && (sp_trace r =? tid)) t.

(** The task of a trace selects all its spans. *)
Lemma trace_spans_all spans traces project tid r :
  one_row traces →
  (∀ s, s ∈ spans → covered traces (sp_project s) (sp_trace s) (sp_started s)) →
  r ∈ traces → is_trace project tid r = true →
  trace_spans project tid (tr_started r) spans = spans_of project tid spans.
Proof.
  intros Hone Hc Hr Hir. unfold trace_spans, spans_of. apply select_ext. intros s Hs.
  destruct ((sp_project s =? project) && (sp_trace s =? tid)) eqn:Ek; [|done].
  apply andb_true_iff in Ek as [<-%Z.eqb_eq <-%Z.eqb_eq].
  destruct (Hc s Hs) as (r1 & Hr1 & Hi1 & Hle). apply is_trace_spec in Hir, Hi1.
  rewrite (one_row_unique _ r1 r Hone Hr1 Hr) in Hle by congruence. by apply Z.leb_le in Hle.
Qed.

(** the aggregates of a trace are those of all its spans. With a row for
    the trace that covers every span, the task enqueued for its start sets the
    row's token, cost and span totals to the sums over all spans of the trace
    and its status to error exactly if one of them failed. *)
Theorem update_trace_aggregates_totals p project tid r w u w' :
  update_trace_aggregates latency_interval p tid (tr_started r) w = (Ok u, w') →
  parse_uuid p = Ok project → traces_match w →
  r ∈ w_traces w → is_trace project tid r = true →
  let all := spans_of project tid (w_spans w) in
  ∃ r', r' ∈ w_traces w' ∧ is_trace project tid r' = true ∧
    tr_started r' = tr_started r ∧
    tr_tokens r' = sum_of (λ s, sp_input s + sp_output s) all ∧
    tr_cost r' = sum_of sp_cost all ∧ tr_spans r' = Z.of_nat (length all) ∧
    (tr_status r' = "error" ↔ ∃ s, s ∈ all ∧ sp_status s = "error").
Proof.
  intros H Hp [Hone Hm] Hr Hir all. unfold update_trace_aggregates in H. rewrite Hp in H.
  apply bind_ok_inv in H as (q & w1 & [= <- <-] & H). world_inv.
  assert (Hall : trace_spans project tid (tr_started r) (w_spans w) = all)
    by by eapply trace_spans_all.
  rewrite Hall. exists (aggregate latency_interval all r). split_and!; try done.
  - apply elem_of_update_where. exists r. by rewrite Hir, Z.eqb_refl.
  - simpl. destruct (existsb (λ s, String.eqb (sp_status s) "error") all) eqn:Ex.
    + apply exists_where_true in Ex as (s & Hs & ?%String.eqb_eq).
      split; [by exists s|done].
    + split; [done|]. intros (s & Hs & Hst).
      eapply exists_where_false in Ex; [|exact Hs]. by rewrite Hst in Ex.
Qed.
End facts.

(** ** Witnesses *)

(** A parser that knows two texts, with and without a UTC offset. *)
Definition sample_parse_dt (s : string) : result pydatetime :=
  if String.eqb s "2026-01-01T00:01:05Z"
  then Ok {| dt_local := 1767225665 * second; dt_offset := Some 0 |}
  else if String.eqb s "2026-01-01T00:01:05"
  then Ok {| dt_local := 1767225665 * second; dt_offset := None |}
  else Raise (ParserError s).

Definition sample_data (id : Z) (started : string) : SpanData :=
  {| sd_span_id := Some (str_of_uuid id); sd_trace_id := Some (str_of_uuid 1);
     sd_parent := None; sd_name := Some "chat"; sd_provider := Some "openai";
     sd_model := Some "gpt-4o"; sd_input := Some 10; sd_output := Some 20;
     sd_latency := Some (mkdec 125 (-1)); sd_error := None; sd_started := Some started;
     sd_messages := []; sd_text := Some "hi"; sd_metadata := [] |}.

Definition sample_process : list SpanData → World → result unit * World :=
  process_span_batch sample_parse_dt id id (λ _, SpecFloat.S754_zero false) (λ _, "0.0")
    "b" (str_of_uuid 7).

Definition dated : list SpanData :=
  [sample_data 11 "2026-01-01T00:01:05Z"; sample_data 12 "2026-01-01T00:01:05Z"].

Definition after_batch : World := (sample_process dated (empty_world 0 [])).2.

Lemma dated_offsets_ok : offsets_ok sample_parse_dt dated.
Proof.
  intros sd x dt Hin Hx Hdt. exists 0. split; [|done].
  assert (Hst : sd_started sd = Some "2026-01-01T00:01:05Z").
  { unfold dated in Hin. repeat (apply elem_of_cons in Hin as [->|Hin]; [done|]).
    by apply not_elem_of_nil in Hin. }
  rewrite Hst in Hx. injection Hx as <-. injection Hdt as <-. done.
Qed.

Lemma process_span_batch_replay_witness :
  length (w_spans after_batch) = 2%nat ∧
  tables (sample_process dated after_batch).2 = tables after_batch.
Proof.
  split; [by vm_compute|].
  apply (process_span_batch_replay sample_parse_dt id id
    (λ _, SpecFloat.S754_zero false) (λ _, "0.0") "b" (str_of_uuid 7) dated after_batch).
  intros sd Hin s (x & Hx & Hid) (y & Hy & Hdt). unfold dated in Hin.
  assert (Hdt' : ps_started s = {| dt_local := 1767225665 * second; dt_offset := Some 0 |}).
  { assert (Hst : sd_started sd = Some "2026-01-01T00:01:05Z").
    { repeat (apply elem_of_cons in Hin as [->|Hin]; [done|]).
      by apply not_elem_of_nil in Hin. }
    rewrite Hst in Hy. injection Hy as <-. by injection Hdt. }
  rewrite Hdt'.
  assert (Hid' : ps_id s = 11 ∨ ps_id s = 12).
  { apply elem_of_cons in Hin as [->|Hin].
    - injection Hx as <-. left. vm_compute in Hid. injection Hid as Hid. by symmetry.
    - apply list_elem_of_singleton in Hin as ->. injection Hx as <-. right.
      vm_compute in Hid. injection Hid as Hid. by symmetry. }
  destruct Hid' as [-> | ->];
    apply (bool_decide_unpack (_ ∈ row_identity <$> w_spans after_batch)); by vm_compute.
Defined.

Lemma process_span_batch_buckets_witness : buckets_match after_batch.
Proof.
  apply (process_span_batch_buckets sample_parse_dt id id
    (λ _, SpecFloat.S754_zero false) (λ _, "0.0") "b" (str_of_uuid 7) dated
    (empty_world 0 [])).
  - apply dated_offsets_ok.
  - by vm_compute.
  - intros q m. done.
Defined.

Lemma process_span_batch_events_witness : events_match after_batch.
Proof.
  apply (process_span_batch_events sample_parse_dt id id
    (λ _, SpecFloat.S754_zero false) (λ _, "0.0") "b" (str_of_uuid 7) dated
    (empty_world 0 [])).
  - apply dated_offsets_ok.
  - intros r Hr. by apply not_elem_of_nil in Hr.
Defined.

Lemma process_span_batch_traces_witness : traces_match after_batch.
Proof.
  apply (process_span_batch_traces sample_parse_dt id id
    (λ _, SpecFloat.S754_zero false) (λ _, "0.0") "b" (str_of_uuid 7) dated
    (empty_world 0 [])).
  - apply dated_offsets_ok.
  - intros ? ? ? ? t _ _ _ _ Ht. by apply not_elem_of_nil in Ht.
  - split; [apply NoDup_nil_2|]. intros r Hr. by apply not_elem_of_nil in Hr.
Defined.

(** A span without a parsable date, between two others. *)
Definition one_dropped : list SpanData :=
  [sample_data 11 "2026-01-01T00:01:05Z"; sample_data 13 "today";
   sample_data 12 "2026-01-01T00:01:05Z"].

Definition after_partial : World := (sample_process one_dropped (empty_world 0 [])).2.


Definition sample_trace : TraceRow :=
  new_trace 7 1 (1767225665 * second) "ok".

Lemma update_trace_aggregates_totals_witness :
  ∃ r', r' ∈ w_traces (update_trace_aggregates (λ _, 0) (str_of_uuid 7) 1
                         (tr_started sample_trace) after_batch).2 ∧
    is_trace 7 1 r' = true ∧ tr_started r' = tr_started sample_trace ∧
    tr_tokens r' = 60 ∧ tr_cost r' = 0 ∧ tr_spans r' = 2 ∧
    (tr_status r' = "error" ↔
     ∃ s, s ∈ spans_of 7 1 (w_spans after_batch) ∧ sp_status s = "error").
Proof.
  apply (update_trace_aggregates_totals (λ _, 0) (str_of_uuid 7) 7 1
    sample_trace after_batch tt).
  - refine (run_result (update_trace_aggregates (λ _, 0) (str_of_uuid 7) 1
              (tr_started sample_trace)) after_batch _ _). by vm_compute.
  - by vm_compute.
  - apply process_span_batch_traces_witness.
  - apply list_elem_of_singleton. by vm_compute.
  - by vm_compute.
Defined.

Definition undated : list SpanData := [sample_data 11 "2026-01-01T00:01:05"].

(** A catalogue price for the span's model, cached by an earlier batch. *)
Definition priced_world : World :=
  set_w_app (λ a, with_pricing (λ _,
    <[Cost.cache_key "openai" "gpt-4o" :=
      {| c_input := mkdec 1 0; c_output := mkdec 1 0; c_from := Some 0; c_to := None |}]> ∅)
    a) (empty_world 0 []).

(** a span whose start carries no UTC offset, which the ingest schema
    accepts, is lost by halves. Without a cached price its row is stored, but
    no event, no trace and no counter, and the status reports a processed
    batch of zero spans; with a cached price the same span is dropped as an
    invalid field. *)
Theorem undated_span_half_lost :
  no_future_timestamps {| dt_local := 1767225665 * second; dt_offset := None |}
    (1767225700 * second)
  = Ok {| dt_local := 1767225665 * second; dt_offset := None |} ∧
  (∃ w, sample_process undated (empty_world 0 []) = (Ok tt, w) ∧
     length (w_spans w) = 1%nat ∧ w_outbox w = [] ∧ w_traces w = [] ∧ w_buckets w = ∅ ∧
     (b_status <$> batch_lookup (batch_key (str_of_uuid 7) "b") w) = Some "processed") ∧
  (∃ w, sample_process undated priced_world = (Ok tt, w) ∧ w_spans w = [] ∧
     (b_failed <$> batch_lookup (batch_key (str_of_uuid 7) "b") w) = Some 1).
Proof.
  split; [by vm_compute|]. split.
  - exists (sample_process undated (empty_world 0 [])).2. by vm_compute.
  - exists (sample_process undated priced_world).2. by vm_compute.
Qed.

(** A span id sent again with another output: the row stays, its payload object
    is replaced. *)
Definition other_output : SpanData :=
  {| sd_span_id := Some (str_of_uuid 11); sd_trace_id := Some (str_of_uuid 1);
     sd_parent := None; sd_name := Some "chat"; sd_provider := Some "openai";
     sd_model := Some "gpt-4o"; sd_input := Some 10; sd_output := Some 20;
     sd_latency := Some (mkdec 125 (-1)); sd_error := None;
     sd_started := Some "2026-01-01T00:01:05Z";
     sd_messages := []; sd_text := Some "bye"; sd_metadata := [] |}.

Example resent_span_replaces_payload :
  let w := (sample_process [other_output] after_batch).2 in
  let key := payload_key (str_of_uuid 7) (str_of_uuid 11) in
  w_spans w = w_spans after_batch ∧
  sp_payload_key <$> head (w_spans w) = Some (Some key) ∧
  w_objects w !! key ≠ w_objects after_batch !! key.
Proof. split; [by vm_compute|]. split; [by vm_compute|]. by vm_compute. Qed.
