(* ===== verification/Sdk.v ===== *)
(** * The client SDK: buffering and transport

    [sdk/llm_obs/tracer.py] and [sdk/llm_obs/transport.py]: the bounded span
    buffer, the batch that waits for its retry, the flush loop, shutdown, and
    the HTTP transport with its bounded retries.  The ledger fields of a tracer
    ([recorded], [delivered], [dropped], [lost]) are not in the code: they say
    what became of each span that was ever recorded. *)

From S2P Require Import Prelude Text PyVal Decimal Schema App SpanSchema.

Local Open Scope Z_scope.

(** ** Data *)

(** [SpanData] of the tracer. *)
Record TracerSpan : Type := {
  t_trace_id : string; t_span_id : string; t_name : string; t_provider : string;
  t_model : string; t_input_messages : list pyval; t_parent : option string;
  t_output : option string; t_error : option string; t_input_tokens : Z;
  t_output_tokens : Z; t_latency_ms : pyfloat; t_started_at : pydatetime;
  t_metadata : list (string * pyval);
}.

Record FlushBatch : Type := { fb_spans : list TracerSpan; fb_key : string }.

Record TransportDiagnostics : Type := {
  td_ok : bool; td_reason : string; td_spans : Z; td_attempts : Z;
  td_status : option Z; td_retry_after : option pyfloat;
  td_error_type : option string;
}.

Record Tracer : Type := {
  buffer : list TracerSpan;
  maxlen : nat;
  pending_batches : list FlushBatch;
  pending_spans : Z;
  (** the batch a running [_flush] has taken out and not yet settled *)
  in_flight : option FlushBatch;
  dropped_spans : Z;
  failed_flushes : Z;
  final_delivery_failures : Z;
  last_drop_reason : option string;
  last_diagnostics : option TransportDiagnostics;
  closed : bool;
  recorded : list TracerSpan;
  delivered : list TracerSpan;
  dropped : list TracerSpan;
  lost : list TracerSpan;
}.

(** [LLMTracer(..., buffer_size=...)] *)
Definition new_tracer (buffer_size : nat) : Tracer :=
  {| buffer := []; maxlen := buffer_size; pending_batches := []; pending_spans := 0;
     in_flight := None; dropped_spans := 0; failed_flushes := 0;
     final_delivery_failures := 0; last_drop_reason := None; last_diagnostics := None;
     closed := false; recorded := []; delivered := []; dropped := []; lost := [] |}.

(** ** Transport *)

(** What one [POST /v1/ingest] ends in. *)
Inductive reply : Type :=
| Status (code : Z) (retry_after : option string)
| ConnectError (** [httpx.ConnectError] *)
| TimeoutException (** [httpx.TimeoutException] *)
| OtherException. (** any other exception: [httpx.ReadError], encoding, ... *)

Inductive outcome : Type :=
| Sent (d : TransportDiagnostics)
| NotSent (d : TransportDiagnostics)
| Escaped. (** the exception leaves [send_batch] *)

Definition MAX_ATTEMPTS : nat := 3.

Section transport.
(** [float] of a header, [None] where it raises ValueError. *)
Context (float_of_header : string → option pyfloat).

Definition diagnostics (ok : bool) (reason : string) (n attempts : Z)
    (status : option Z) (retry_after : option pyfloat) (error_type : option string)
    : TransportDiagnostics :=
  {| td_ok := ok; td_reason := reason; td_spans := n; td_attempts := attempts;
     td_status := status; td_retry_after := retry_after; td_error_type := error_type |}.

(** The body of the loop from attempt number [attempt] on; [left] attempts
    remain. [post k] is the reply to attempt [k]. *)
Fixpoint send_attempts (post : nat → reply) (n : Z) (attempt left : nat) : outcome :=
  match left with
  | O => NotSent (diagnostics false "unknown_failure" n (Z.of_nat MAX_ATTEMPTS)
                    None None None)
  | S left' =>
      let tried := Z.of_nat attempt + 1 in
      let last := (Nat.eqb attempt (MAX_ATTEMPTS - 1)) in
      match post attempt with
      | Status code retry_after =>
          if (200 <=? code) && (code <? 300) then
            Sent (diagnostics true "sent" n tried (Some code) None None)
          else if code =? 429 then
            match float_of_header (default "60" retry_after) with
            | Some seconds => NotSent (diagnostics false "rate_limited" n tried
                                         (Some code) (Some seconds) None)
            | None => Escaped
            end
          else if (500 <=? code) && negb last then send_attempts post n (S attempt) left'
          else NotSent (diagnostics false "http_error" n tried (Some code) None None)
      | ConnectError =>
          if negb last then send_attempts post n (S attempt) left'
          else NotSent (diagnostics false "connection_error" n tried None None
                          (Some "ConnectError"))
      | TimeoutException =>
          if negb last then send_attempts post n (S attempt) left'
          else NotSent (diagnostics false "connection_error" n tried None None
                          (Some "TimeoutException"))
      | OtherException => Escaped
      end
  end.

Definition send_batch (post : nat → reply) (spans : list TracerSpan) : outcome :=
  send_attempts post (Z.of_nat (length spans)) 0 MAX_ATTEMPTS.
End transport.

(** ** The buffer *)

Definition set_buffer (b : list TracerSpan) (t : Tracer) : Tracer :=
  {| buffer := b; maxlen := maxlen t; pending_batches := pending_batches t;
     pending_spans := pending_spans t; in_flight := in_flight t;
     dropped_spans := dropped_spans t; failed_flushes := failed_flushes t;
     final_delivery_failures := final_delivery_failures t;
     last_drop_reason := last_drop_reason t; last_diagnostics := last_diagnostics t;
     closed := closed t; recorded := recorded t; delivered := delivered t;
     dropped := dropped t; lost := lost t |}.

(** [record]: a full [deque(maxlen=n)] drops from its left end. *)
Definition record (span : TracerSpan) (t : Tracer) : Tracer :=
  let full := (maxlen t <=? length (buffer t))%nat in
  let all := buffer t ++ [span] in
  let excess := (length all - maxlen t)%nat in
  {| buffer := drop excess all; maxlen := maxlen t;
     pending_batches := pending_batches t; pending_spans := pending_spans t;
     in_flight := in_flight t;
     dropped_spans := if full then dropped_spans t + 1 else dropped_spans t;
     failed_flushes := failed_flushes t;
     final_delivery_failures := final_delivery_failures t;
     last_drop_reason := if full then Some "buffer_overflow" else last_drop_reason t;
     last_diagnostics := last_diagnostics t; closed := closed t;
     recorded := recorded t ++ [span]; delivered := delivered t;
     dropped := dropped t ++ take excess all; lost := lost t |}.

(** [_pop_next_flush_batch]; [key] is the fresh [uuid.uuid4()]. The popped
    batch is in flight. *)
Definition _pop_next_flush_batch (key : string) (t : Tracer) : option FlushBatch * Tracer :=
  let taken b pend cnt buf :=
    (Some b, {| buffer := buf; maxlen := maxlen t; pending_batches := pend;
                pending_spans := cnt; in_flight := Some b;
                dropped_spans := dropped_spans t; failed_flushes := failed_flushes t;
                final_delivery_failures := final_delivery_failures t;
                last_drop_reason := last_drop_reason t;
                last_diagnostics := last_diagnostics t; closed := closed t;
                recorded := recorded t; delivered := delivered t;
                dropped := dropped t; lost := lost t |}) in
  match pending_batches t with
  | b :: rest =>
      taken b rest (pending_spans t - Z.of_nat (length (fb_spans b))) (buffer t)
  | [] =>
      match buffer t with
      | [] => (None, t)
      | active => taken {| fb_spans := active; fb_key := key |} [] (pending_spans t) []
      end
  end.

(** What [_flush] does with the outcome of its batch. *)
Definition settle (b : FlushBatch) (o : outcome) (t : Tracer) : Tracer :=
  {| buffer := buffer t; maxlen := maxlen t;
     pending_batches := match o with NotSent _ => b :: pending_batches t
                                   | _ => pending_batches t end;
     pending_spans := match o with
                      | NotSent _ => pending_spans t + Z.of_nat (length (fb_spans b))
                      | _ => pending_spans t end;
     in_flight := None; dropped_spans := dropped_spans t;
     failed_flushes := match o with NotSent _ => failed_flushes t + 1
                                  | _ => failed_flushes t end;
     final_delivery_failures := final_delivery_failures t;
     last_drop_reason := last_drop_reason t;
     last_diagnostics := match o with Sent d | NotSent d => Some d
                                    | Escaped => last_diagnostics t end;
     closed := closed t; recorded := recorded t;
     delivered := match o with Sent _ => delivered t ++ fb_spans b
                             | _ => delivered t end;
     dropped := dropped t;
     lost := match o with Escaped => lost t ++ fb_spans b | _ => lost t end |}.

(** The flush task is cancelled while it waits for the reply: the
    [CancelledError] passes through [send_batch] and [_flush]. *)
Definition cancel_flush (t : Tracer) : Tracer :=
  match in_flight t with Some b => settle b Escaped t | None => t end.

Definition _has_buffered_spans (t : Tracer) : bool :=
  negb (Nat.eqb (length (buffer t)) 0) || (0 <? pending_spans t).

Definition _buffered_spans_count (t : Tracer) : Z :=
  Z.of_nat (length (buffer t)) + pending_spans t.

(** [sdk_diagnostics] *)
Record SDKDiagnostics : Type := {
  sd_dropped : Z; sd_failed_flushes : Z; sd_final_failures : Z; sd_buffered : Z;
  sd_active : Z; sd_pending_spans : Z; sd_pending_batches : Z; sd_buffer_size : Z;
  sd_last_drop_reason : option string; sd_last_flush_reason : option string;
}.

Definition sdk_diagnostics (t : Tracer) : SDKDiagnostics :=
  {| sd_dropped := dropped_spans t; sd_failed_flushes := failed_flushes t;
     sd_final_failures := final_delivery_failures t;
     sd_buffered := _buffered_spans_count t;
     sd_active := Z.of_nat (length (buffer t)); sd_pending_spans := pending_spans t;
     sd_pending_batches := Z.of_nat (length (pending_batches t));
     sd_buffer_size := Z.of_nat (maxlen t);
     sd_last_drop_reason := last_drop_reason t;
     sd_last_flush_reason := td_reason <$> last_diagnostics t |}.

(** ** Flush and shutdown

    [post k] is the reply to attempt [k] of one flush: a batch sent again may be
    answered otherwise. *)
Section flush.
Context (float_of_header : string → option pyfloat).

Definition send (post : nat → reply) (b : FlushBatch) : outcome :=
  send_batch float_of_header post (fb_spans b).

(** [_flush]; [None] when the exception leaves it. *)
Definition _flush (key : string) (post : nat → reply) (t : Tracer) : option bool * Tracer :=
  match _pop_next_flush_batch key t with
  | (None, t') => (Some true, t')
  | (Some b, t') =>
      let o := send post b in
      (match o with Sent _ => Some true | NotSent _ => Some false | Escaped => None end,
       settle b o t')
  end.

Definition count_final_failure (t : Tracer) : Tracer :=
  {| buffer := buffer t; maxlen := maxlen t; pending_batches := pending_batches t;
     pending_spans := pending_spans t; in_flight := in_flight t;
     dropped_spans := dropped_spans t; failed_flushes := failed_flushes t;
     final_delivery_failures := final_delivery_failures t + 1;
     last_drop_reason := last_drop_reason t; last_diagnostics := last_diagnostics t;
     closed := closed t; recorded := recorded t; delivered := delivered t;
     dropped := dropped t; lost := lost t |}.

(** [while self._has_buffered_spans(): ...] of [shutdown]; [turns] are the
    fresh key and the replies of each turn the fuel allows. [None]: the fuel ran
    out; the boolean says whether an exception left the loop. *)
Fixpoint shutdown_flush (turns : list (string * (nat → reply))) (t : Tracer)
    : option (bool * Tracer) :=
  if negb (_has_buffered_spans t) then Some (true, t)
  else match turns with
       | [] => None
       | (key, post) :: turns' =>
           match _flush key post t with
           | (Some true, t') => shutdown_flush turns' t'
           | (Some false, t') => Some (true, count_final_failure t')
           | (None, t') => Some (false, t')
           end
       end.

Definition close (t : Tracer) : Tracer :=
  {| buffer := buffer t; maxlen := maxlen t; pending_batches := pending_batches t;
     pending_spans := pending_spans t; in_flight := in_flight t;
     dropped_spans := dropped_spans t; failed_flushes := failed_flushes t;
     final_delivery_failures := final_delivery_failures t;
     last_drop_reason := last_drop_reason t; last_diagnostics := last_diagnostics t;
     closed := true; recorded := recorded t; delivered := delivered t;
     dropped := dropped t; lost := lost t |}.

(** [shutdown(flush=False)] forgets what is buffered. *)
Definition discard (t : Tracer) : Tracer :=
  {| buffer := []; maxlen := maxlen t; pending_batches := []; pending_spans := 0;
     in_flight := in_flight t; dropped_spans := dropped_spans t;
     failed_flushes := failed_flushes t;
     final_delivery_failures := final_delivery_failures t;
     last_drop_reason := last_drop_reason t; last_diagnostics := last_diagnostics t;
     closed := closed t; recorded := recorded t; delivered := delivered t;
     dropped := dropped t;
     lost := lost t ++ mjoin (map fb_spans (pending_batches t)) ++ buffer t |}.

Definition shutdown (flush : bool) (turns : list (string * (nat → reply))) (t : Tracer)
    : option (bool * Tracer) :=
  if closed t then Some (true, t)
  else
    let t := cancel_flush t in
    if flush then
      match shutdown_flush turns t with
      | Some (true, t') => Some (true, close t')
      | r => r
      end
    else Some (true, close (discard t)).

(** The loop of [_sync_flush_on_exit]; an exception ends it. *)
Fixpoint exit_flush (turns : list (string * (nat → reply))) (t : Tracer) : option Tracer :=
  if negb (_has_buffered_spans t) then Some t
  else match turns with
       | [] => None
       | (key, post) :: turns' =>
           match _flush key post t with
           | (Some true, t') => exit_flush turns' t'
           | (_, t') => Some t'
           end
       end.

(** [_sync_flush_on_exit]; [usable]: there is an event loop that neither runs
    nor is closed. *)
Definition _sync_flush_on_exit (usable : bool) (turns : list (string * (nat → reply)))
    (t : Tracer) : option Tracer :=
  if closed t || negb (_has_buffered_spans t) then Some t
  else if negb usable then Some t
  else exit_flush turns t.
End flush.

(** ** Concurrency

    The event loop switches only where a flush waits for the server, so a span
    is recorded before, between or while a batch is in flight.  One flush runs
    at a time: the loop's, then those of one [shutdown], which cancels the loop
    first, or of the exit handler. *)

(** [server b post]: [post] is a possible sequence of replies to [b]. *)
Section stepping.
Context (float_of_header : string → option pyfloat).
Context (server : FlushBatch → (nat → reply) → Prop).

(** The program while the flush loop runs. *)
Inductive running : Tracer → Tracer → Prop :=
| running_record span t : running t (record span t)
| running_begin key b t t' :
    in_flight t = None → _pop_next_flush_batch key t = (Some b, t') → running t t'
| running_end post b t :
    in_flight t = Some b → server b post →
    running t (settle b (send float_of_header post b) t).

(** The same, and the parts of [shutdown]: it cancels the flush loop, discards
    what is buffered when it is told not to flush, counts a failed last flush,
    and closes. *)
Inductive step : Tracer → Tracer → Prop :=
| step_running t t' : running t t' → step t t'
| step_cancel b t : in_flight t = Some b → step t (cancel_flush t)
| step_discard t : closed t = false → in_flight t = None → step t (discard t)
| step_give_up t : step t (count_final_failure t)
| step_close t : in_flight t = None → step t (close t).
End stepping.

(** ** Facts *)

Definition flight_spans (t : Tracer) : list TracerSpan :=
  match in_flight t with Some b => fb_spans b | None => [] end.

Definition held_spans (t : Tracer) : list TracerSpan :=
  flight_spans t ++ mjoin (map fb_spans (pending_batches t)) ++ buffer t.

Record tracer_inv (t : Tracer) : Prop := {
  ti_ledger : recorded t ≡ₚ delivered t ++ dropped t ++ lost t ++ held_spans t;
  ti_count : dropped_spans t = Z.of_nat (length (dropped t));
  ti_pending : pending_spans t
    = Z.of_nat (length (mjoin (map fb_spans (pending_batches t))));
  ti_one : (length (pending_batches t)
            + match in_flight t with Some _ => 1 | None => 0 end ≤ 1)%nat;
  ti_buffer : (length (buffer t) ≤ maxlen t)%nat;
  ti_flight : ∀ b, in_flight t = Some b ∨ b ∈ pending_batches t →
    (1 ≤ length (fb_spans b) ≤ maxlen t)%nat;
}.

Lemma new_tracer_inv n : tracer_inv (new_tracer n).
Proof.
  constructor; simpl; try done; [lia|lia|].
  intros b [H|H]; [done|by apply not_elem_of_nil in H].
Qed.

Lemma record_inv span t : tracer_inv t → tracer_inv (record span t).
Proof.
  intros [H1 H2 H3 H4 H5 H6].
  assert (Hd : ∀ l : list TracerSpan, ∀ n, take n l ++ drop n l = l)
    by (intros; apply take_drop).
  constructor; try done; simpl.
  - unfold held_spans, flight_spans in *. simpl.
    set (k := (length (buffer t ++ [span]) - maxlen t)%nat).
    rewrite H1, <- !app_assoc. apply Permutation_app_head.
    etransitivity; [|apply Permutation_app_comm]. rewrite <- !app_assoc.
    rewrite <- (Hd (buffer t ++ [span]) k) at 1.
    rewrite !app_assoc. solve_Permutation.
  - rewrite length_app, length_take, length_app, H2. simpl.
    destruct (Nat.leb_spec (maxlen t) (length (buffer t))); lia.
  - rewrite length_drop. lia.
Qed.

Lemma pop_inv key t o t' :
  tracer_inv t → in_flight t = None → _pop_next_flush_batch key t = (o, t') →
  tracer_inv t' ∧ in_flight t' = o ∧ (o = None → t' = t) ∧
  (o ≠ None → pending_batches t' = []) ∧
  maxlen t' = maxlen t ∧ delivered t' = delivered t ∧ lost t' = lost t ∧
  dropped t' = dropped t ∧ recorded t' = recorded t ∧ closed t' = closed t.
Proof.
  intros [H1 H2 H3 H4 H5 H6] Hf H. unfold _pop_next_flush_batch in H.
  unfold held_spans, flight_spans in H1. rewrite Hf in H1, H4.
  destruct (pending_batches t) as [|b rest] eqn:Ep; simpl in H1, H3, H4.
  - destruct (buffer t) as [|s l] eqn:Eb.
    + injection H as <- <-. split_and!; try done. constructor; rewrite ?Ep, ?Hf; try done.
      * unfold held_spans, flight_spans. by rewrite Hf, Ep, Eb.
      * by rewrite Eb.
      * intros b [Hb|Hb]; [done|]. apply H6. by right.
    + injection H as <- <-. split_and!; try done. constructor; simpl; try done; [..|lia|].
      * unfold held_spans, flight_spans. simpl. by rewrite app_nil_r.
      * intros b [[= <-]|Hb]; [simpl in *; lia|by apply not_elem_of_nil in Hb].
  - assert (rest = []) as -> by (destruct rest; simpl in H4; [done|lia]).
    injection H as <- <-. split_and!; try done. constructor; simpl; try done.
    + unfold held_spans, flight_spans. simpl. by rewrite app_nil_r in H1.
    + rewrite H3, app_nil_r. lia.
    + intros x [[= <-]|Hx]; [apply H6; right; by left|by apply not_elem_of_nil in Hx].
Qed.

Lemma settle_inv b o t :
  tracer_inv t → in_flight t = Some b → tracer_inv (settle b o t).
Proof.
  intros [H1 H2 H3 H4 H5 H6] Hf. unfold held_spans, flight_spans in H1.
  rewrite Hf in H1, H4.
  assert (Hp : pending_batches t = [])
    by (destruct (pending_batches t); simpl in H4; [done|lia]).
  rewrite Hp in H1, H3. simpl in H1, H3.
  destruct o; (constructor; unfold held_spans, flight_spans; simpl;
    [|done| | |done|]); rewrite ?Hp; simpl; try done; try lia;
    rewrite ?app_nil_r; try (rewrite H1; solve_Permutation).
  - intros x [Hx|Hx]; [done|by apply not_elem_of_nil in Hx].
  - rewrite H3. lia.
  - intros x [Hx|Hx]; [done|]. apply list_elem_of_singleton in Hx as ->. apply H6. by left.
  - intros x [Hx|Hx]; [done|by apply not_elem_of_nil in Hx].
Qed.

Lemma discard_inv t : tracer_inv t → in_flight t = None → tracer_inv (discard t).
Proof.
  intros [H1 H2 H3 H4 H5 H6] Hf. unfold held_spans, flight_spans in H1. rewrite Hf in H1.
  constructor; unfold held_spans, flight_spans; simpl; rewrite ?Hf; try done; try lia.
  - rewrite H1. simpl. by rewrite !app_nil_r.
  - intros b [Hb|Hb]; [done|by apply not_elem_of_nil in Hb].
Qed.

Section behaviour.
Context (float_of_header : string → option pyfloat).
Context (server : FlushBatch → (nat → reply) → Prop).

Abbreviation runs := (rtc (running float_of_header server)).
Abbreviation steps := (rtc (step float_of_header server)).

Lemma running_inv t t' : tracer_inv t → running float_of_header server t t' → tracer_inv t'.
Proof.
  intros Hi Hs. destruct Hs as [s t|key b t t' Hf Hp|post b t Hf _].
  - by apply record_inv.
  - by apply (pop_inv key t (Some b)) in Hp as [? _].
  - by apply settle_inv.
Qed.

Lemma tracer_step_inv t t' : tracer_inv t → step float_of_header server t t' → tracer_inv t'.
Proof.
  intros Hi Hst. destruct Hst as [t t1 Hr|b t Hf|t Hc Hf|t|t Hf].
  - exact (running_inv t t1 Hi Hr).
  - unfold cancel_flush. rewrite Hf. by apply settle_inv.
  - by apply discard_inv.
  - by destruct Hi; constructor.
  - by destruct Hi; constructor.
Qed.

(** Replies the transport handles: a status, with a readable header when it is
    429, a refused connection, a timeout. *)
Definition expected (r : reply) : Prop :=
  match r with
  | Status code ra => code = 429 → is_Some (float_of_header (default "60" ra))
  | ConnectError | TimeoutException => True
  | OtherException => False
  end.

Lemma send_attempts_expected post n k left :
  (∀ k, expected (post k)) → send_attempts float_of_header post n k left ≠ Escaped.
Proof.
  intros He. revert k. induction left as [|left IH]; intros k; simpl; [done|].
  specialize (He k). destruct (post k) as [code ra| | |]; simpl in *; try done.
  - destruct (_ && _); [done|]. destruct (Z.eqb_spec code 429) as [->|Hne].
    + destruct He as [f ->]; done.
    + destruct (_ && _); [apply IH|done].
  - destruct (negb _); [apply IH|done].
  - destruct (negb _); [apply IH|done].
Qed.

Lemma running_lost t t' :
  (∀ b post k, server b post → expected (post k)) →
  running float_of_header server t t' → lost t' = lost t.
Proof.
  intros He [s t0|key b t0 t1 Hf Hp|post b t0 Hf Hs0]; [done| |].
  - unfold _pop_next_flush_batch in Hp.
    destruct (pending_batches t0); [destruct (buffer t0)|]; by simplify_eq/=.
  - simpl. pose proof (send_attempts_expected post
      (Z.of_nat (length (fb_spans b))) 0 MAX_ATTEMPTS (λ k, He b post k Hs0)) as Hs.
    unfold send, send_batch. by destruct (send_attempts _ _ _ _ _).
Qed.


(** *** The operations are made of steps *)

Lemma flush_steps key post t r t' :
  (∀ b, server b post) → in_flight t = None → _flush float_of_header key post t = (r, t') →
  steps t t' ∧ in_flight t' = None.
Proof.
  intros Hs Hf H. unfold _flush in H.
  destruct (_pop_next_flush_batch key t) as [[b|] t1] eqn:Ep; injection H as <- <-.
  - assert (Hf1 : in_flight t1 = Some b).
    { unfold _pop_next_flush_batch in Ep.
      destruct (pending_batches t); [destruct (buffer t); [done|]|]; by injection Ep as <- <-. }
    split; [|done]. eapply rtc_l; [by eapply step_running, running_begin|].
    by apply rtc_once, step_running, running_end.
  - unfold _pop_next_flush_batch in Ep.
    destruct (pending_batches t); [destruct (buffer t)|]; try done. injection Ep as <-.
    by split; [apply rtc_refl|].
Qed.

Lemma shutdown_flush_steps turns t ok t' :
  (∀ key post b, (key, post) ∈ turns → server b post) → in_flight t = None →
  shutdown_flush float_of_header turns t = Some (ok, t') → steps t t' ∧ in_flight t' = None.
Proof.
  revert t. induction turns as [|[key post] turns IH]; intros t Hs Hf H; simpl in H.
  { destruct (negb _); [|done]. injection H as <- <-. by split; [apply rtc_refl|]. }
  destruct (negb _); [injection H as <- <-; by split; [apply rtc_refl|]|].
  destruct (_flush float_of_header key post t) as [r t1] eqn:E.
  apply flush_steps in E as [E Hf1]; [|intros b; apply (Hs key); by left|done].
  destruct r as [[]|].
  - apply IH in H as [H ?]; [|intros ? ? ? Hin; eapply Hs; by right|done].
    split; [by etransitivity|done].
  - injection H as <- <-. split; [|done]. eapply rtc_r; [exact E|apply step_give_up].
  - injection H as <- <-. by split.
Qed.

(** A whole [shutdown], answered as the server may, is a run of steps. *)
Lemma shutdown_steps flush turns t ok t' :
  (∀ key post b, (key, post) ∈ turns → server b post) →
  shutdown float_of_header flush turns t = Some (ok, t') → steps t t'.
Proof.
  intros Hs H. unfold shutdown in H. destruct (closed t) eqn:Hc; [by injection H as <- <-|].
  assert (Hcancel : steps t (cancel_flush t) ∧ in_flight (cancel_flush t) = None ∧
                    closed (cancel_flush t) = false).
  { destruct (in_flight t) as [b|] eqn:Hf.
    - split; [by eapply rtc_once, step_cancel|]. unfold cancel_flush. by rewrite Hf.
    - unfold cancel_flush. by rewrite Hf. }
  destruct Hcancel as (Hst & Hf & Hc'). etransitivity; [exact Hst|]. destruct flush.
  - destruct (shutdown_flush float_of_header turns _) as [[ok1 t1]|] eqn:E; [|done].
    apply shutdown_flush_steps in E as [E Hf1]; [|done|done].
    destruct ok1; injection H as <- <-; [|done]. eapply rtc_r; [exact E|by apply step_close].
  - injection H as <- <-. eapply rtc_l; [by apply step_discard|].
    by apply rtc_once, step_close.
Qed.

(** So is the exit handler, when no flush is suspended. *)
Lemma exit_steps usable turns t t' :
  (∀ key post b, (key, post) ∈ turns → server b post) → in_flight t = None →
  _sync_flush_on_exit float_of_header usable turns t = Some t' → steps t t'.
Proof.
  intros Hs Hf H. unfold _sync_flush_on_exit in H.
  destruct (_ || _); [by injection H as <-|]. destruct usable; [|by injection H as <-].
  simpl in H. revert t Hf H.
  induction turns as [|[key post] turns IH]; intros t Hf H; simpl in H.
  { destruct (negb _); [|done]. by injection H as <-. }
  destruct (negb _); [by injection H as <-|].
  destruct (_flush float_of_header key post t) as [r t1] eqn:E.
  apply flush_steps in E as [E Hf1]; [|intros b; apply (Hs key); by left|done].
  destruct r as [[]|]; [|by injection H as <-..].
  etransitivity; [exact E|]. apply IH; [|done|done]. intros ? ? ? Hin. eapply Hs. by right.
Qed.

(** A batch the server always refuses stays where it is. *)
Lemma blocked_step b t t' :
  (∀ post k, server b post → post k = Status 422 None) → tracer_inv t →
  (in_flight t = Some b ∨ pending_batches t = [b] ∧ in_flight t = None) →
  running float_of_header server t t' →
  delivered t' = delivered t ∧
  (in_flight t' = Some b ∨ pending_batches t' = [b] ∧ in_flight t' = None).
Proof.
  intros Hs Hi Hb Hr. destruct Hr as [s t|key b' t t' Hf Hp|post b' t Hf Hpost].
  - done.
  - destruct Hb as [Hb|[Hb _]]; [by rewrite Hb in Hf|].
    unfold _pop_next_flush_batch in Hp. rewrite Hb in Hp. injection Hp as <- <-.
    split; [done|by left].
  - destruct Hb as [Hb|[_ Hb]]; rewrite Hf in Hb; [|done]. injection Hb as ->.
    assert (Hsend : send float_of_header post b
      = NotSent (diagnostics false "http_error" (Z.of_nat (length (fb_spans b))) 1
                   (Some 422) None None)).
    { unfold send, send_batch, MAX_ATTEMPTS. simpl. by rewrite (Hs post 0%nat Hpost). }
    rewrite Hsend. split; [done|]. right. split; [|done]. simpl.
    pose proof (ti_one t Hi) as H1. rewrite Hf in H1.
    by destruct (pending_batches t); [|simpl in H1; lia].
Qed.

(** one oversized batch stops all delivery. The tracer sends whatever has
    accumulated, up to the buffer size, as one request; the server refuses
    more than 100 spans with a 422; the transport reports it as not sent and
    the tracer puts the batch back in front. From then on, while the loop
    runs, no span is ever delivered again. *)
Theorem oversized_batch_blocks b t t' :
  (∀ b post k, (Z.to_nat MAX_SPANS_PER_REQUEST < length (fb_spans b))%nat →
     server b post → post k = Status 422 None) →
  tracer_inv t → (100 < length (fb_spans b))%nat →
  in_flight t = Some b ∨ pending_batches t = [b] ∧ in_flight t = None →
  runs t t' → delivered t' = delivered t.
Proof.
  intros Hs Hi Hlen Hb Hr. induction Hr as [|t t1 t2 Hst _ IH]; [done|].
  destruct (blocked_step b t t1) as [Hd Hb1]; [by intros post k; apply Hs|done..|].
  rewrite IH; [done|by eapply running_inv|done].
Qed.

(** A flush of a tracer with nothing in flight. *)
Lemma flush_inv key post t r t' :
  tracer_inv t → in_flight t = None → _flush float_of_header key post t = (r, t') →
  tracer_inv t' ∧ in_flight t' = None ∧ closed t' = closed t ∧ dropped t' = dropped t ∧
  (r = Some true → pending_batches t' = [] ∧ lost t' = lost t ∧
     (pending_batches t = [] → buffer t' = []) ∧
     (pending_batches t ≠ [] → buffer t' = buffer t)).
Proof.
  intros Hi Hf H. unfold _flush in H.
  destruct (_pop_next_flush_batch key t) as [o t1] eqn:Ep.
  pose proof (pop_inv key t o t1 Hi Hf Ep)
    as (Hi1 & Hf1 & Hsame & Hpend & _ & _ & Hlost & Hdrop & _ & Hclosed).
  destruct o as [b|].
  - injection H as <- <-. split_and!; try done.
    + by apply settle_inv.
    + intros Hr. destruct (send float_of_header post b); [|done..].
      simpl. rewrite Hpend by done. split_and!; try done.
      * unfold _pop_next_flush_batch in Ep. intros Hp. rewrite Hp in Ep.
        destruct (buffer t); by simplify_eq/=.
      * unfold _pop_next_flush_batch in Ep. intros Hp.
        destruct (pending_batches t); [done|]. by simplify_eq/=.
  - injection H as <- <-. rewrite Hsame by done. split_and!; try done. intros _.
    unfold _pop_next_flush_batch in Ep.
    destruct (pending_batches t) eqn:E1; [|done]. destruct (buffer t) eqn:E2; [|done].
    by split_and!.
Qed.

(** No batch waits and the buffer is empty: nothing is left to send. *)
Lemma nothing_buffered t :
  tracer_inv t → pending_batches t = [] → buffer t = [] → _has_buffered_spans t = false.
Proof.
  intros Hi Hp Hb. unfold _has_buffered_spans.
  by rewrite (ti_pending t Hi), Hp, Hb.
Qed.

Lemma nothing_buffered_inv t :
  tracer_inv t → _has_buffered_spans t = false → in_flight t = None → held_spans t = [].
Proof.
  intros Hi Hb Hf. unfold _has_buffered_spans in Hb. apply orb_false_iff in Hb as [H1 H2].
  apply negb_false_iff, Nat.eqb_eq, nil_length_inv in H1. apply Z.ltb_ge in H2.
  rewrite (ti_pending t Hi) in H2. unfold held_spans, flight_spans. rewrite Hf, H1.
  destruct (mjoin (map fb_spans (pending_batches t))); [done|simpl in H2; lia].
Qed.

(** One flush empties the buffer, unless a batch was waiting, which takes one
    more. *)
Lemma shutdown_flush_two t key1 post1 key2 post2 :
  tracer_inv t → in_flight t = None →
  ∃ ok t', shutdown_flush float_of_header [(key1, post1); (key2, post2)] t = Some (ok, t') ∧
    dropped t' = dropped t ∧ closed t' = closed t ∧
    ((∀ k, post1 k = Status 202 None ∧ post2 k = Status 202 None) → ok = true ∧ tracer_inv t' ∧
       lost t' = lost t ∧ held_spans t' = []).
Proof.
  intros Hi Hf. cbn [shutdown_flush].
  destruct (_has_buffered_spans t) eqn:E0; simpl negb.
  2: { exists true, t. split_and!; try done. intros _. by rewrite nothing_buffered_inv. }
  assert (Hok : ∀ key post t, (∀ k, post k = Status 202 None) →
    (_flush float_of_header key post t).1 = Some true).
  { intros key post t0 Hs. unfold _flush.
    destruct (_pop_next_flush_batch key t0) as [[b|] t1]; [|done].
    unfold send, send_batch, MAX_ATTEMPTS. simpl. by rewrite Hs. }
  destruct (_flush float_of_header key1 post1 t) as [r1 t1] eqn:E1.
  destruct (flush_inv key1 post1 t r1 t1 Hi Hf E1) as (Hi1 & Hf1 & Hc1 & Hd1 & Hr1).
  assert (Hbad : ∀ key post t r t' X, _flush float_of_header key post t = (r, t') →
    r ≠ Some true → (∀ k, post k = Status 202 None) → X).
  { intros key post t0 r t0' X E Hr Hs. pose proof (Hok key post t0 Hs) as H.
    by rewrite E in H. }
  destruct r1 as [[]|];
    [|do 2 eexists; (split; [done|]); split_and!; try done; intros Hs;
      (eapply Hbad; [exact E1|done|]); intros k; apply Hs..].
  destruct Hr1 as (Hp1 & Hl1 & Hb1 & _); [done|].
  destruct (_has_buffered_spans t1) eqn:E2; simpl negb.
  2: { exists true, t1. split_and!; try done. intros _. by rewrite nothing_buffered_inv. }
  destruct (_flush float_of_header key2 post2 t1) as [r2 t2] eqn:E3.
  destruct (flush_inv key2 post2 t1 r2 t2 Hi1 Hf1 E3) as (Hi2 & Hf2 & Hc2 & Hd2 & Hr2).
  destruct r2 as [[]|];
    [|do 2 eexists; (split; [done|]); split_and!; try (simpl; congruence); intros Hs;
      (eapply Hbad; [exact E3|done|]); intros k; apply Hs..].
  destruct Hr2 as (Hp2 & Hl2 & Hb2 & _); [done|].
  rewrite (nothing_buffered t2 Hi2 Hp2 (Hb2 Hp1)). simpl.
  exists true, t2. split_and!; try congruence. intros _. split_and!; try congruence.
  apply nothing_buffered_inv; [done|by apply nothing_buffered; auto|done].
Qed.

(** shutdown ends, and with a server that accepts it leaves nothing
    behind. The closing loop needs at most two flushes; if every request is
    answered with success and no flush was in flight, each span recorded so
    far is delivered unless it had been dropped or lost before. *)
Theorem shutdown_delivers t key1 post1 key2 post2 :
  tracer_inv t → in_flight t = None → closed t = false →
  let turns := [(key1, post1); (key2, post2)] in
  (∃ ok t', shutdown float_of_header true turns t = Some (ok, t')) ∧
  ((∀ k, post1 k = Status 202 None ∧ post2 k = Status 202 None) →
   ∃ t', shutdown float_of_header true turns t = Some (true, t') ∧
     closed t' = true ∧ held_spans t' = [] ∧
     recorded t' ≡ₚ delivered t' ++ dropped t ++ lost t).
Proof.
  intros Hi Hf Hc turns. unfold turns, shutdown. rewrite Hc. unfold cancel_flush. rewrite Hf.
  destruct (shutdown_flush_two t key1 post1 key2 post2 Hi Hf) as (ok & t' & -> & Hd & _ & Hserver).
  split; [destruct ok; by do 2 eexists|]. intros Hs.
  destruct (Hserver Hs) as (-> & Hi' & Hl & Hh). eexists. split_and!; try done. simpl.
  rewrite (ti_ledger t' Hi'), Hh, app_nil_r. by rewrite Hd, Hl.
Qed.
End behaviour.

(** ** Witnesses *)

Definition sample_span (n : nat) : TracerSpan :=
  {| t_trace_id := "t"; t_span_id := str_of_int (Z.of_nat n); t_name := "n";
     t_provider := "custom"; t_model := "unknown"; t_input_messages := [];
     t_parent := None; t_output := None; t_error := None; t_input_tokens := 0;
     t_output_tokens := 0; t_latency_ms := SpecFloat.S754_zero false;
     t_started_at := {| dt_local := 0; dt_offset := Some 0 |}; t_metadata := [] |}.

Definition no_header (s : string) : option pyfloat := None.

Definition accepting (k : nat) : reply := Status 202 None.

Definition any_server (b : FlushBatch) (post : nat → reply) : Prop := True.

(** [n] spans recorded by a fresh tracer, and the batch taken out of it. *)
Definition recorded_spans (n : nat) : Tracer :=
  foldl (λ t s, record s t) (new_tracer 500) (map sample_span (seq 0 n)).

Definition flushing (n : nat) : Tracer := (_pop_next_flush_batch "k" (recorded_spans n)).2.

Lemma record_steps server n :
  rtc (running no_header server) (new_tracer 500) (recorded_spans n).
Proof.
  unfold recorded_spans. generalize (map sample_span (seq 0 n)) (new_tracer 500).
  intros l. induction l as [|s l IH]; intros t; simpl; [done|].
  eapply rtc_l; [apply running_record|apply IH].
Qed.

(** Three spans: the first flush is refused, the same batch is sent again and
    accepted, and a fourth span is discarded by the shutdown. *)
Definition sent_again : Tracer :=
  let t := (_flush no_header "k" (λ _, Status 400 None) (recorded_spans 3)).2 in
  let t := (_flush no_header "k2" accepting t).2 in
  close (discard (record (sample_span 3) t)).


(** A server with the limit of the ingest schema. *)
Definition limited (b : FlushBatch) (post : nat → reply) : Prop :=
  ∀ k, post k = if (Z.to_nat MAX_SPANS_PER_REQUEST <? length (fb_spans b))%nat
                then Status 422 None else Status 202 None.

Definition oversized : FlushBatch :=
  {| fb_spans := map sample_span (seq 0 101); fb_key := "k" |}.

Lemma flushing_inv n : (1 <= n <= 500)%nat → tracer_inv (recorded_spans n).
Proof.
  intros _. pose proof (new_tracer_inv 500) as Hi. revert Hi.
  induction (record_steps any_server n) as [|? ? ? Hs _ IH]; [done|].
  intros Hi. apply IH. by eapply running_inv.
Qed.

Lemma oversized_batch_blocks_witness :
  delivered (record (sample_span 7) (settle oversized
    (send no_header (λ _, Status 422 None) oversized) (flushing 101))) = [].
Proof.
  apply (oversized_batch_blocks no_header limited oversized (flushing 101)).
  - intros b post k Hb Hs. rewrite (Hs k). by apply Nat.ltb_lt in Hb as ->.
  - destruct (pop_inv "k" (recorded_spans 101) (Some oversized) (flushing 101)) as [H _];
      [apply flushing_inv; lia|by vm_compute|by vm_compute|done].
  - apply Nat.ltb_lt. by vm_compute.
  - left. by vm_compute.
  - eapply rtc_l; [by apply (running_end _ _ (λ _, Status 422 None)); vm_compute|].
    eapply rtc_l; [apply running_record|]. apply rtc_refl.
Defined.

Lemma shutdown_delivers_witness :
  ∃ t', shutdown no_header true [("a", accepting); ("b", accepting)] (recorded_spans 3)
        = Some (true, t') ∧
    closed t' = true ∧ held_spans t' = [] ∧
    recorded t' ≡ₚ delivered t' ++ dropped (recorded_spans 3) ++ lost (recorded_spans 3).
Proof.
  apply (shutdown_delivers no_header (recorded_spans 3) "a" accepting "b" accepting).
  - apply flushing_inv. lia.
  - by vm_compute.
  - by vm_compute.
  - done.
Defined.

(** a flush that is interrupted loses its batch. When shutdown cancels the
    flush loop while a batch is in flight, or when the request ends in an
    exception other than those [send_batch] names, the batch has already left
    the buffer and is not put back, although the server would accept it. *)
Theorem interrupted_flush_loses_batch :
  (∃ t, shutdown no_header true [("a", accepting); ("b", accepting)] (flushing 3)
        = Some (true, t) ∧
     closed t = true ∧ delivered t = [] ∧ lost t = map sample_span [0; 1; 2]%nat) ∧
  (∃ t, _flush no_header "k" (λ _, OtherException) (recorded_spans 3) = (None, t) ∧
     held_spans t = [] ∧ lost t = map sample_span [0; 1; 2]%nat).
Proof.
  split.
  - exists (close (cancel_flush (flushing 3))). by vm_compute.
  - exists (settle {| fb_spans := map sample_span [0; 1; 2]%nat; fb_key := "k" |}
              Escaped (flushing 3)). by vm_compute.
Qed.
