(* ===== verification/SdkTrace.v ===== *)
(** * The client SDK: trace context

    [sdk/llm_obs/decorators.py]: nested [@trace] functions and [span(...)]
    blocks share a trace id and link to their parents through context
    variables.  One task is modelled: each asyncio task has its own copy of the
    context.  Exceptions are [Exception]s: a [BaseException] leaves the error
    field of a [@trace] span empty. *)

From S2P Require Import Prelude Text PyVal Decimal Schema App SpanSchema Sdk.

Local Open Scope Z_scope.

(** ** Programs

    An instrumented call, a [@trace] function or a [span] block, runs the calls
    of its body in order until one raises; it may catch what they raise, and
    may raise itself at its end. *)
Inductive call : Type :=
| Call (manual : bool) (name : string) (body : calls) (catches raises : bool)
with calls : Type :=
| Done
| Then (c : call) (rest : calls).

Scheme call_mut := Induction for call Sort Prop
with calls_mut := Induction for calls Sort Prop.
Combined Scheme call_calls_ind from call_mut, calls_mut.

(** The part of a recorded span that places it. *)
Record Placed : Type := {
  x_trace : string; x_span : string; x_parent : option string; x_name : string;
  x_error : bool;
}.

(** The context variables, the number of ids drawn, the recorded spans. *)
Record Ctx : Type := {
  _current_trace_id : option string; _current_span_id : option string;
  drawn : nat; placed : list Placed;
}.

Section run.
(** The successive results of [uuid.uuid4()]. *)
Context (uuid4 : nat → string).

Definition enter (trace_id span_id : string) (drawn' : nat) (s : Ctx) : Ctx :=
  {| _current_trace_id := Some trace_id; _current_span_id := Some span_id;
     drawn := drawn'; placed := placed s |}.

(** The tokens restore the values the variables had; then the span is
    recorded. *)
Definition leave (before : Ctx) (p : Placed) (s : Ctx) : Ctx :=
  {| _current_trace_id := _current_trace_id before;
     _current_span_id := _current_span_id before;
     drawn := drawn s; placed := placed s ++ [p] |}.

(** The ids a call takes: [trace] draws the span id first, [ManualSpan] the
    trace id; a trace id is drawn only when there is none. *)
Definition call_ids (manual : bool) (s : Ctx) : string * string * nat :=
  match _current_trace_id s with
  | Some t => if truthy t then (t, uuid4 (drawn s), S (drawn s))
              else if manual then (uuid4 (drawn s), uuid4 (S (drawn s)), S (S (drawn s)))
              else (uuid4 (S (drawn s)), uuid4 (drawn s), S (S (drawn s)))
  | None => if manual then (uuid4 (drawn s), uuid4 (S (drawn s)), S (S (drawn s)))
            else (uuid4 (S (drawn s)), uuid4 (drawn s), S (S (drawn s)))
  end.

(** The boolean says whether the call raises. *)
Fixpoint run_call (c : call) (s : Ctx) : bool * Ctx :=
  match c with
  | Call manual name body catches raises =>
      match call_ids manual s with
      | (trace_id, span_id, n) =>
          match run_calls body (enter trace_id span_id n s) with
          | (raised, s') =>
              let error := (raised && negb catches) || raises in
              (error, leave s {| x_trace := trace_id; x_span := span_id;
                                 x_parent := _current_span_id s; x_name := name;
                                 x_error := error |} s')
          end
      end
  end
with run_calls (cs : calls) (s : Ctx) : bool * Ctx :=
  match cs with
  | Done => (false, s)
  | Then c rest =>
      match run_call c s with
      | (true, s') => (true, s')
      | (false, s') => run_calls rest s'
      end
  end.

(** ** Facts *)

(** [l] lies below the span [p] in the trace [t]: each span belongs to [t],
    and its parent is [p] or another span of [l]. *)
Definition below (t : string) (p : option string) (l : list Placed) : Prop :=
  Forall (λ x, x_trace x = t ∧
    (x_parent x = p ∨ ∃ y, y ∈ l ∧ x_parent x = Some (x_span y))) l.

Lemma below_app t p l1 l2 : below t p l1 → below t p l2 → below t p (l1 ++ l2).
Proof.
  unfold below. rewrite !Forall_forall. intros H1 H2 x [Hx|Hx]%elem_of_app.
  - destruct (H1 x Hx) as [? [?|(y & Hy & ?)]]; split; auto.
    right. exists y. split; [apply elem_of_app; by left|done].
  - destruct (H2 x Hx) as [? [?|(y & Hy & ?)]]; split; auto.
    right. exists y. split; [apply elem_of_app; by right|done].
Qed.

(** Closing a call: its body's spans lie below its own. *)
Lemma below_close t p l x :
  below t (Some (x_span x)) l → x_trace x = t → x_parent x = p → below t p (l ++ [x]).
Proof.
  unfold below. rewrite Forall_app, Forall_singleton, !Forall_forall. intros Hl Ht Hp.
  split; [|by auto]. intros z Hz. destruct (Hl z Hz) as [? [Hpar|(y & Hy & Hpar)]];
    (split; [done|right]).
  - exists x. split; [apply elem_of_app; right; by left|done].
  - exists y. split; [apply elem_of_app; by left|done].
Qed.

(** Span ids drawn between two points. *)
Definition drawn_ids (l : list Placed) (a b : nat) : Prop :=
  (∀ x, x ∈ l → ∃ k, (a <= k < b)%nat ∧ x_span x = uuid4 k) ∧ NoDup (x_span <$> l).

Hypothesis uuid4_inj : ∀ i j, uuid4 i = uuid4 j → i = j.
Hypothesis uuid4_truthy : ∀ i, truthy (uuid4 i) = true.

Lemma drawn_ids_app l1 l2 a b c :
  (a <= b)%nat → (b <= c)%nat → drawn_ids l1 a b → drawn_ids l2 b c →
  drawn_ids (l1 ++ l2) a c.
Proof.
  intros Hab Hbc [H1 N1] [H2 N2]. split.
  - intros x [Hx|Hx]%elem_of_app; [destruct (H1 x Hx) as (k & ? & ?)|
      destruct (H2 x Hx) as (k & ? & ?)]; exists k; (split; [lia|done]).
  - rewrite fmap_app. apply NoDup_app. split; [done|]. split; [|done].
    intros i Hi Hi'. apply list_elem_of_fmap in Hi as (x & -> & Hx).
    apply list_elem_of_fmap in Hi' as (y & Hy & Hyl).
    destruct (H1 x Hx) as (k & Hk & Ek). destruct (H2 y Hyl) as (k' & Hk' & Ek').
    rewrite Ek, Ek' in Hy. apply uuid4_inj in Hy. lia.
Qed.

(** The ids of a call: a fresh span id and the trace of the context. *)
Lemma call_ids_spec manual s t sp n :
  call_ids manual s = (t, sp, n) →
  (∃ k, (drawn s <= k < n)%nat ∧ sp = uuid4 k) ∧ truthy t = true ∧
  (∀ t0, _current_trace_id s = Some t0 → truthy t0 = true → t = t0).
Proof.
  unfold call_ids.
  destruct (_current_trace_id s) as [t0|]; [destruct (truthy t0) eqn:Et|]; [|destruct manual..];
    intros [= <- <- <-]; (split; [by eexists; (split; [|reflexivity]; lia)|]);
    (split; [done|]); intros t1 [=]; subst; congruence.
Qed.

(** What running leaves: the context restored, the new spans in one trace. *)
Definition ran (s s' : Ctx) (t : string) : Prop :=
  _current_trace_id s' = _current_trace_id s ∧
  _current_span_id s' = _current_span_id s ∧ (drawn s <= drawn s')%nat ∧
  ∃ l, placed s' = placed s ++ l ∧ below t (_current_span_id s) l ∧
       drawn_ids l (drawn s) (drawn s').

Lemma run_all :
  (∀ c s r s', run_call c s = (r, s') →
     ∃ t x l, ran s s' t ∧ placed s' = placed s ++ l ++ [x] ∧ x_trace x = t ∧
       x_parent x = _current_span_id s ∧ x_error x = r ∧
       (∀ t0, _current_trace_id s = Some t0 → truthy t0 = true → t = t0)) ∧
  (∀ cs s t r s', _current_trace_id s = Some t → truthy t = true →
     run_calls cs s = (r, s') → ran s s' t).
Proof.
  apply call_calls_ind.
  - intros manual name body IH catches raises s r s' H. simpl in H.
    destruct (call_ids manual s) as [[t sp] n] eqn:Eids.
    destruct (call_ids_spec _ _ _ _ _ Eids) as ((k & Hk & ->) & Ht & Hctx).
    destruct (run_calls body _) as [raised s1] eqn:Ebody. injection H as <- <-.
    destruct (IH (enter t (uuid4 k) n s) t raised s1 eq_refl Ht Ebody) as (_ & _ & Hd & l & Hl & Hb & Hn & Hnd).
    simpl in *. set (x := Build_Placed _ _ _ _ _).
    exists t, x, l. simpl. rewrite Hl, <- app_assoc. split_and!; try done.
    split_and!; try done; [simpl; lia|]. exists (l ++ [x]). simpl. rewrite Hl, <- app_assoc.
    split; [done|]. split; [by apply below_close|]. split.
    + intros y [Hy|Hy]%elem_of_app.
      * destruct (Hn y Hy) as (j & ? & ?). exists j. split; [lia|done].
      * apply list_elem_of_singleton in Hy as ->. exists k. split; [lia|done].
    + rewrite fmap_app. apply NoDup_app. split; [done|]. split; [|apply NoDup_singleton].
      intros i Hi Hi'. apply list_elem_of_singleton in Hi' as ->.
      apply list_elem_of_fmap in Hi as (y & Hy & Hyl).
      destruct (Hn y Hyl) as (j & ? & Ej). simpl in Hy. rewrite Ej in Hy.
      apply uuid4_inj in Hy. lia.
  - intros s t r s' _ _ [= <- <-]. split_and!; try done. exists [].
    rewrite app_nil_r. split; [done|]. split; [constructor|]. split; [|constructor].
    by intros x ?%not_elem_of_nil.
  - intros c IHc rest IHr s t r s' Hs Ht H. simpl in H.
    destruct (run_call c s) as [rc s1] eqn:Ec.
    destruct (IHc _ _ _ Ec) as (t1 & _ & _ & Hran & _ & _ & _ & _ & Heq).
    rewrite (Heq t Hs Ht) in Hran. clear Heq t1.
    destruct rc; [by injection H as <- <-|].
    destruct Hran as (H1 & H2 & H3 & l1 & Hl1 & Hb1 & Hd1).
    apply IHr with (t := t) in H as (K1 & K2 & K3 & l2 & Hl2 & Hb2 & Hd2);
      [|congruence|done].
    split_and!; [congruence..|lia|]. exists (l1 ++ l2). rewrite Hl2, Hl1, app_assoc.
    split; [done|]. rewrite H2 in Hb2. split; [by apply below_app|].
    by eapply drawn_ids_app.
Qed.

(** whatever the nesting and whatever raises, an instrumented call records
    a well-formed piece of one trace: the context is as before, the spans it
    records share one trace id, the enclosing one if there is one, their ids
    are distinct, the call's own span is recorded last with the enclosing span
    as parent and says whether it raised, and every other span's parent is
    among the recorded ones. *)
Theorem call_records_tree c s r s' :
  run_call c s = (r, s') →
  _current_trace_id s' = _current_trace_id s ∧ _current_span_id s' = _current_span_id s ∧
  ∃ t x l, placed s' = placed s ++ l ++ [x] ∧ below t (_current_span_id s) (l ++ [x]) ∧
    NoDup (x_span <$> l ++ [x]) ∧ x_parent x = _current_span_id s ∧ x_error x = r ∧
    (∀ t0, _current_trace_id s = Some t0 → truthy t0 = true → t = t0).
Proof.
  intros H. destruct run_all as [Hrun _].
  destruct (Hrun _ _ _ _ H) as (t & x & l0 & (H1 & H2 & _ & l & Hl & Hb & _ & Hnd) &
    Hlast & _ & Hp & He & Ht).
  split; [done|]. split; [done|]. rewrite Hl in Hlast. apply app_inv_head in Hlast as ->.
  exists t, x. eexists. split; [exact Hl|]. done.
Qed.
End run.

(** Distinct ids for the witness. *)
Definition id_of (n : nat) : string := "id-" +:+ str_of_int (Z.of_nat n).

Lemma id_of_inj i j : id_of i = id_of j → i = j.
Proof.
  unfold id_of. intros H. apply (inj (String.append "id-")) in H.
  unfold str_of_int in H. apply (inj pretty) in H. lia.
Qed.

(** [@trace] around a [span] that raises, which is caught, then another. *)
Definition sample_call : call :=
  Call false "outer"
    (Then (Call true "failing" (Then (Call false "leaf" Done false true) Done) false false)
       Done) true false.

Definition fresh_ctx : Ctx :=
  {| _current_trace_id := None; _current_span_id := None; drawn := 0; placed := [] |}.

Lemma call_records_tree_witness :
  (run_call id_of sample_call fresh_ctx).1 = false ∧
  (x_name <$> placed (run_call id_of sample_call fresh_ctx).2) = ["leaf"; "failing"; "outer"] ∧
  ∃ t x l, placed (run_call id_of sample_call fresh_ctx).2 = l ++ [x] ∧
    below t None (l ++ [x]) ∧ NoDup (x_span <$> l ++ [x]).
Proof.
  split; [by vm_compute|]. split; [by vm_compute|].
  destruct (call_records_tree id_of id_of_inj (λ _, eq_refl) sample_call fresh_ctx _ _
    (surjective_pairing (run_call id_of sample_call fresh_ctx)))
    as (_ & _ & t & x & l & H & Hb & Hn & _).
  by exists t, x, l.
Defined.
