(* ===== verification/SdkTasks.v ===== *)
(** * The client SDK: spans of several tasks

    [sdk/llm_obs/decorators.py] under asyncio: every task has its own context
    variables, copied from the task that creates it, and its own stack of open
    [@trace] functions and [async with span(...)] blocks; the tasks interleave
    in any way.  A [ManualSpan] is an object: it draws its ids when it is made,
    any task may enter it, at any time and more than once, and change it through
    its setters; its tokens are those of its last entry.  [SdkTrace] has the
    calls of one task with what they catch. *)

From S2P Require Import Prelude Text PyVal SdkTrace.

(** ** Spans *)

(** What [ManualSpan] holds for the record; a [@trace] function has the defaults. *)
Record Fields : Type := {
  f_name : string; f_provider : string; f_model : string; f_input_messages : list pyval;
  f_metadata : list (string * pyval); f_output : option string;
  f_input_tokens : Z; f_output_tokens : Z;
}.

(** What [ManualSpan.__init__] keeps of its arguments, for [span] too. *)
Definition span (name provider model : string) (input_messages : option (list pyval))
    (metadata : option (list (string * pyval))) : Fields :=
  {| f_name := name; f_provider := provider; f_model := model;
     f_input_messages := default [] input_messages; f_metadata := default [] metadata;
     f_output := None; f_input_tokens := 0; f_output_tokens := 0 |}.

(** What the wrapper of [@trace] records. *)
Definition trace_fields (func_name : string) (metadata : option (list (string * pyval))) : Fields :=
  span func_name "custom" "unknown" None metadata.

Definition set_output (output : option string) (f : Fields) : Fields :=
  {| f_name := f_name f; f_provider := f_provider f; f_model := f_model f;
     f_input_messages := f_input_messages f; f_metadata := f_metadata f; f_output := output;
     f_input_tokens := f_input_tokens f; f_output_tokens := f_output_tokens f |}.

Definition set_tokens (input_tokens output_tokens : Z) (f : Fields) : Fields :=
  {| f_name := f_name f; f_provider := f_provider f; f_model := f_model f;
     f_input_messages := f_input_messages f; f_metadata := f_metadata f; f_output := f_output f;
     f_input_tokens := input_tokens; f_output_tokens := output_tokens |}.

(** [self.metadata.update(metadata)] *)
Definition update_metadata (metadata : list (string * pyval)) (f : Fields) : Fields :=
  {| f_name := f_name f; f_provider := f_provider f; f_model := f_model f;
     f_input_messages := f_input_messages f;
     f_metadata := foldl (λ d kv, dict_set kv.1 kv.2 d) (f_metadata f) metadata;
     f_output := f_output f; f_input_tokens := f_input_tokens f;
     f_output_tokens := f_output_tokens f |}.

(** The [SpanData] handed to the tracer; times are left out.  Its [metadata] is
    the dictionary of the span itself, see [sent_metadata]. *)
Record Recorded : Type := {
  rc_trace : string; rc_span : string; rc_parent : option string; rc_error : option string;
  rc_fields : Fields;
}.

(** ** Tasks *)

(** The two context variables. *)
Record Vars : Type := { v_trace : option string; v_span : option string }.

Definition no_vars : Vars := {| v_trace := None; v_span := None |}.

(** The ids of an entered call, and the variables it found. *)
Record Open : Type := {
  op_trace : string; op_span : string; op_parent : option string; op_before : Vars;
}.

(** The two tokens of an entry, which are set and reset together: the context
    they belong to, the values they restore, whether they were used. *)
Record Token : Type := { to_task : nat; to_before : Vars; to_used : bool }.

(** A [ManualSpan]; its token by number. *)
Record Object : Type := {
  ob_trace : string; ob_span : string; ob_parent : option string; ob_fields : Fields;
  ob_token : option nat;
}.

(** An open call: a [@trace] wrapper with its local variables, or a block of a
    span object. *)
Inductive Frame : Type :=
| Traced (call : Open) (f : Fields)
| Block (o : nat).

(** The variables, the open calls, innermost first, and what the task began with. *)
Record Task : Type := { tk_vars : Vars; tk_stack : list Frame; tk_base : Vars }.

Record State : Type := {
  st_tasks : gmap nat Task;
  st_drawn : nat;
  st_objects : list Object;
  st_tokens : list Token;
  st_recorded : list Recorded;
  (** every call that was entered, in order *)
  st_entered : list Open;
}.

(** One task, outside any call. *)
Definition main : State :=
  {| st_tasks := {[ 0 := {| tk_vars := no_vars; tk_stack := []; tk_base := no_vars |} ]};
     st_drawn := 0; st_objects := []; st_tokens := []; st_recorded := []; st_entered := [] |}.

(** A setter, applied to a span object. *)
Inductive Setter : Type :=
| Output (output : option string)
| Tokens (input_tokens output_tokens : Z)
| Metadata (metadata : list (string * pyval)).

Definition apply_setter (x : Setter) : Fields → Fields :=
  match x with
  | Output o => set_output o
  | Tokens i o => set_tokens i o
  | Metadata md => update_metadata md
  end.

(** What can happen next: task [t] creates task [u], makes a span object, calls
    a [@trace] function, enters a span object, leaves its innermost call, or some
    task uses a setter.  [tracer] says whether [_get_or_create_tracer] gives a
    tracer. *)
Inductive Event : Type :=
| Create (t u : nat)
| New (t : nat) (f : Fields)
| Enter_call (t : nat) (f : Fields)
| Enter_block (t o : nat)
| Leave (t : nat) (error : option string) (tracer : bool)
| Set_ (o : nat) (x : Setter).

Section run.
(** The successive results of [uuid.uuid4()]. *)
Context (uuid4 : nat → string).

Definition with_task (t : nat) (k : Task) (s : State) : State :=
  {| st_tasks := <[t := k]> (st_tasks s); st_drawn := st_drawn s; st_objects := st_objects s;
     st_tokens := st_tokens s; st_recorded := st_recorded s; st_entered := st_entered s |}.

(** [asyncio.create_task]: the new task runs in a copy of the context. *)
Definition create (t u : nat) (s : State) : State :=
  match st_tasks s !! t, st_tasks s !! u with
  | Some k, None => with_task u {| tk_vars := tk_vars k; tk_stack := []; tk_base := tk_vars k |} s
  | _, _ => s
  end.

(** [_current_trace_id.get() or other] *)
Definition trace_or (v : Vars) (other : string) : string :=
  match v_trace v with Some t => if truthy t then t else other | None => other end.

(** The ids a call takes, as in [SdkTrace.call_ids]. *)
Definition take_ids (manual : bool) (v : Vars) (n : nat) : string * string * nat :=
  call_ids uuid4 manual
    {| _current_trace_id := v_trace v; _current_span_id := v_span v; drawn := n; placed := [] |}.

(** [ManualSpan.__init__] *)
Definition make_span (t : nat) (f : Fields) (s : State) : State :=
  match st_tasks s !! t with
  | None => s
  | Some k =>
      let '(trace_id, span_id, n) := take_ids true (tk_vars k) (st_drawn s) in
      {| st_tasks := st_tasks s; st_drawn := n;
         st_objects := st_objects s ++
           [{| ob_trace := trace_id; ob_span := span_id; ob_parent := v_span (tk_vars k);
               ob_fields := f; ob_token := None |}];
         st_tokens := st_tokens s; st_recorded := st_recorded s; st_entered := st_entered s |}
  end.

(** The task after an entry. *)
Definition push (fr : Frame) (c : Open) (k : Task) : Task :=
  {| tk_vars := {| v_trace := Some (op_trace c); v_span := Some (op_span c) |};
     tk_stack := fr :: tk_stack k; tk_base := tk_base k |}.

(** The part of the [@trace] wrapper before the call. *)
Definition enter_call (t : nat) (f : Fields) (s : State) : State :=
  match st_tasks s !! t with
  | None => s
  | Some k =>
      let '(trace_id, span_id, n) := take_ids false (tk_vars k) (st_drawn s) in
      let c := {| op_trace := trace_id; op_span := span_id; op_parent := v_span (tk_vars k);
                  op_before := tk_vars k |} in
      {| st_tasks := <[t := push (Traced c f) c k]> (st_tasks s); st_drawn := n;
         st_objects := st_objects s; st_tokens := st_tokens s;
         st_recorded := st_recorded s; st_entered := st_entered s ++ [c] |}
  end.

(** [ManualSpan.__aenter__]: the span id is the object's. *)
Definition enter_block (t o : nat) (s : State) : State :=
  match st_tasks s !! t, st_objects s !! o with
  | Some k, Some ob =>
      let trace_id := trace_or (tk_vars k) (ob_trace ob) in
      let c := {| op_trace := trace_id; op_span := ob_span ob; op_parent := v_span (tk_vars k);
                  op_before := tk_vars k |} in
      {| st_tasks := <[t := push (Block o) c k]> (st_tasks s); st_drawn := st_drawn s;
         st_objects := <[o := {| ob_trace := trace_id; ob_span := ob_span ob;
                                 ob_parent := v_span (tk_vars k); ob_fields := ob_fields ob;
                                 ob_token := Some (length (st_tokens s)) |}]> (st_objects s);
         st_tokens := st_tokens s ++
           [{| to_task := t; to_before := tk_vars k; to_used := false |}];
         st_recorded := st_recorded s; st_entered := st_entered s ++ [c] |}
  | _, _ => s
  end.

(** [reset] raises for tokens that were used, or that another context set. *)
Definition usable (t : nat) (x : Token) : bool := negb (to_used x) && (to_task x =? t)%nat.

Definition used (x : Token) : Token :=
  {| to_task := to_task x; to_before := to_before x; to_used := true |}.

Definition recorded_as (c : Open) (f : Fields) (error : option string) : Recorded :=
  {| rc_trace := op_trace c; rc_span := op_span c; rc_parent := op_parent c;
     rc_error := error; rc_fields := f |}.

(** The object's tokens, with its ids as they stand. *)
Definition object_call (t : nat) (ob : Object) (tokens : list Token) : option Open :=
  n ← ob_token ob;
  x ← tokens !! n;
  if usable t x
  then Some {| op_trace := ob_trace ob; op_span := ob_span ob; op_parent := ob_parent ob;
               op_before := to_before x |}
  else None.

(** The task left its innermost call, whose variables were [v]. *)
Definition pop (t : nat) (v : Vars) (rest : list Frame) (base : Vars) (s : State) : State :=
  with_task t {| tk_vars := v; tk_stack := rest; tk_base := base |} s.

Definition add_record (tracer : bool) (x : Recorded) (s : State) : State :=
  {| st_tasks := st_tasks s; st_drawn := st_drawn s; st_objects := st_objects s;
     st_tokens := st_tokens s; st_recorded := st_recorded s ++ (if tracer then [x] else []);
     st_entered := st_entered s |}.

Definition use_token (n : option nat) (s : State) : State :=
  {| st_tasks := st_tasks s; st_drawn := st_drawn s; st_objects := st_objects s;
     st_tokens := match n with Some n => alter used n (st_tokens s) | None => st_tokens s end;
     st_recorded := st_recorded s; st_entered := st_entered s |}.

(** The [finally] of the wrapper, and [__aexit__]: the tokens are reset, then
    the span is recorded as it stands.  Where the reset raises, the block ends
    with that error, the variables stay and nothing is recorded. *)
Definition leave_call (t : nat) (error : option string) (tracer : bool) (s : State) : State :=
  match st_tasks s !! t with
  | Some {| tk_vars := v; tk_stack := Traced c f :: rest; tk_base := base |} =>
      add_record tracer (recorded_as c f error) (pop t (op_before c) rest base s)
  | Some {| tk_vars := v; tk_stack := Block o :: rest; tk_base := base |} =>
      match ob ← st_objects s !! o; c ← object_call t ob (st_tokens s); Some (ob, c) with
      | Some (ob, c) =>
          add_record tracer (recorded_as c (ob_fields ob) error)
            (use_token (ob_token ob) (pop t (op_before c) rest base s))
      | None => pop t v rest base s
      end
  | _ => s
  end.

(** A setter used after the span was left changes the object alone. *)
Definition set_fields (o : nat) (x : Setter) (s : State) : State :=
  {| st_tasks := st_tasks s; st_drawn := st_drawn s;
     st_objects := alter (λ ob, {| ob_trace := ob_trace ob; ob_span := ob_span ob;
                                   ob_parent := ob_parent ob;
                                   ob_fields := apply_setter x (ob_fields ob);
                                   ob_token := ob_token ob |}) o (st_objects s);
     st_tokens := st_tokens s; st_recorded := st_recorded s; st_entered := st_entered s |}.

(** The metadata a recorded span is sent with: the record of a block shares the
    dictionary of its object. *)
Definition sent_metadata (s : State) (x : Recorded) : list (string * pyval) :=
  f_metadata (default (rc_fields x)
    (ob_fields <$> List.find (λ ob, String.eqb (ob_span ob) (rc_span x)) (st_objects s))).

Definition apply_event (e : Event) (s : State) : State :=
  match e with
  | Create t u => create t u s
  | New t f => make_span t f s
  | Enter_call t f => enter_call t f s
  | Enter_block t o => enter_block t o s
  | Leave t error tracer => leave_call t error tracer s
  | Set_ o x => set_fields o x s
  end.

Definition run (es : list Event) (s : State) : State := foldl (λ s e, apply_event e s) s es.

(** The object an event enters. *)
Definition enters (e : Event) : option nat :=
  match e with Enter_block _ o => Some o | _ => None end.

(** ** Facts *)

(** The ids of an object and its token, which setters leave alone. *)
Definition ob_key (ob : Object) : string * string * option string * option nat :=
  (ob_trace ob, ob_span ob, ob_parent ob, ob_token ob).

(** What leaving a frame would restore and record. *)
Definition resolve (obs : list Object) (tokens : list Token) (t : nat) (fr : Frame)
    : option Open :=
  match fr with
  | Traced c _ => Some c
  | Block o => ob ← obs !! o; object_call t ob tokens
  end.

(** The variables of a task, from its open calls and what it began with. *)
Definition vars_of (opens : list Open) (base : Vars) : Vars :=
  match opens with
  | [] => base
  | c :: _ => {| v_trace := Some (op_trace c); v_span := Some (op_span c) |}
  end.

(** Every open call restores what the calls around it, or the beginning, set. *)
Fixpoint stack_ok (opens : list Open) (base : Vars) : Prop :=
  match opens with
  | [] => True
  | c :: rest => op_before c = vars_of rest base ∧ stack_ok rest base
  end.

(** The variables name a call that was entered, or nothing. *)
Definition vars_ok (entered : list Open) (v : Vars) : Prop :=
  v = no_vars ∨ ∃ c, c ∈ entered ∧ truthy (op_trace c) = true ∧
    v = {| v_trace := Some (op_trace c); v_span := Some (op_span c) |}.

Record opens_ok (entered : list Open) (recorded : list Recorded) (v base : Vars)
    (opens : list Open) : Prop := {
  oo_vars : v = vars_of opens base;
  oo_stack : stack_ok opens base;
  oo_known : vars_ok entered v;
  oo_entered : ∀ c, c ∈ opens → c ∈ entered ∧ op_span c ∉ map rc_span recorded;
  oo_before : ∀ c, c ∈ opens → vars_ok entered (op_before c);
  oo_distinct : NoDup (map op_span opens);
}.

(** The parent of a call is one that was entered, of the same trace. *)
Definition parent_ok (entered : list Open) (trace_id : string) (parent : option string) : Prop :=
  ∀ p, parent = Some p → ∃ c, c ∈ entered ∧ op_span c = p ∧ op_trace c = trace_id.

(** An object that was never entered holds an id no call has. *)
Record object_ok (drawn' : nat) (entered : list Open) (tokens : list Token) (ob : Object)
    : Prop := {
  bo_trace : truthy (ob_trace ob) = true;
  bo_drawn : ∃ n, n < drawn' ∧ ob_span ob = uuid4 n;
  bo_unused : ob_token ob = None → ob_span ob ∉ map op_span entered;
  bo_token : ∀ n, ob_token ob = Some n → n < length tokens;
}.

(** No two objects share a token. *)
Definition own_tokens (obs : list Object) : Prop := ∀ i j ob ob' n,
  obs !! i = Some ob → obs !! j = Some ob' → ob_token ob = Some n → ob_token ob' = Some n → i = j.

(** The open calls of a task. *)
Definition opens_of (s : State) (t : nat) (k : Task) (opens : list Open) : Prop :=
  Forall2 (λ fr c, resolve (st_objects s) (st_tokens s) t fr = Some c) (tk_stack k) opens.

(** [opens] gives the open calls of every task. *)
Record state_ok (opens : nat → list Open) (s : State) : Prop := {
  ok_tasks : ∀ t k, st_tasks s !! t = Some k → opens_of s t k (opens t) ∧
    opens_ok (st_entered s) (st_recorded s) (tk_vars k) (tk_base k) (opens t);
  ok_apart : ∀ t t' k k' c c', st_tasks s !! t = Some k → st_tasks s !! t' = Some k' →
    c ∈ opens t → c' ∈ opens t' → op_span c = op_span c' → t = t';
  ok_entered : NoDup (map op_span (st_entered s));
  ok_drawn : ∀ c, c ∈ st_entered s → ∃ n, n < st_drawn s ∧ op_span c = uuid4 n;
  ok_parents : ∀ c, c ∈ st_entered s → parent_ok (st_entered s) (op_trace c) (op_parent c);
  ok_recorded : ∀ x, x ∈ st_recorded s → ∃ c, c ∈ st_entered s ∧
    rc_trace x = op_trace c ∧ rc_span x = op_span c ∧ rc_parent x = op_parent c;
  ok_once : NoDup (map rc_span (st_recorded s));
  ok_objects : ∀ ob, ob ∈ st_objects s →
    object_ok (st_drawn s) (st_entered s) (st_tokens s) ob;
  ok_spans : NoDup (map ob_span (st_objects s));
  ok_tokens : own_tokens (st_objects s);
}.

Hypothesis uuid4_inj : ∀ i j, uuid4 i = uuid4 j → i = j.
Hypothesis uuid4_truthy : ∀ i, truthy (uuid4 i) = true.

Lemma state_ok_main : state_ok (λ _, []) main.
Proof.
  split; cbn; try (by intros ? ?%not_elem_of_nil); try apply NoDup_nil_2.
  - intros t k [<- <-]%lookup_singleton_Some. split; [by constructor|].
    split; cbn; try done; [by left| | |]; try (by intros c ?%not_elem_of_nil). apply NoDup_nil_2.
  - by intros t t' k k' c c' _ _ ?%not_elem_of_nil.
  - by intros i j ob ob' n Hi.
Qed.

Lemma vars_ok_more entered c v : vars_ok entered v → vars_ok (entered ++ [c]) v.
Proof. intros [->|(x & Hx & ? & ->)]; [by left|right]. exists x. set_solver. Qed.

Lemma parent_ok_more entered c t p : parent_ok entered t p → parent_ok (entered ++ [c]) t p.
Proof. intros H q Hq. destruct (H q Hq) as (x & Hx & ? & ?). exists x. set_solver. Qed.

Lemma opens_ok_more entered c recorded v base l :
  opens_ok entered recorded v base l → opens_ok (entered ++ [c]) recorded v base l.
Proof.
  intros [? ? ? He ? ?]. split; auto using vars_ok_more.
  intros x Hx. destruct (He x Hx). set_solver.
Qed.

(** *** Creating tasks and objects, and setters *)

Lemma create_ok opens t u s :
  state_ok opens s → ∃ opens', state_ok opens' (create t u s).
Proof.
  intros H. unfold create. destruct (st_tasks s !! t) as [k|] eqn:Et; [|by eexists].
  destruct (st_tasks s !! u) eqn:Eu; [by eexists|].
  exists (λ i, if decide (i = u) then [] else opens i).
  destruct H as [Ht Ha He Hd Hp Hr Ho Hb Hs Hk]. split; try done; cbn.
  - intros t' k' [[<- <-]|[Hne Htk]]%lookup_insert_Some.
    + rewrite decide_True by done. destruct (Ht t k Et) as (_ & [? ? Hkn ? ? ?]).
      split; [by constructor|].
      split; cbn; try done; try (by intros c ?%not_elem_of_nil). apply NoDup_nil_2.
    + rewrite decide_False by done. by apply (Ht t').
  - intros t1 t2 k1 k2 c1 c2 H1 H2 C1 C2 E.
    destruct (decide (t1 = u)) as [->|N1]; [by apply not_elem_of_nil in C1|].
    destruct (decide (t2 = u)) as [->|N2]; [by apply not_elem_of_nil in C2|].
    rewrite lookup_insert_ne in H1, H2 by done. by apply (Ha t1 t2 k1 k2 c1 c2).
Qed.

(** Calls stay as they are where the objects keep their ids and tokens. *)
Lemma resolve_same obs obs' tokens tokens' t fr c :
  resolve obs tokens t fr = Some c →
  (∀ o ob n, fr = Block o → obs !! o = Some ob → ob_token ob = Some n →
     (∃ ob', obs' !! o = Some ob' ∧ ob_key ob' = ob_key ob) ∧ tokens' !! n = tokens !! n) →
  resolve obs' tokens' t fr = Some c.
Proof.
  destruct fr as [c' f|o]; [done|]. cbn. intros H Hsame.
  apply bind_Some in H as (ob & Hob & H). apply bind_Some in H as (n & Hn & H).
  destruct (Hsame o ob n eq_refl Hob Hn) as [(ob' & -> & [= E1 E2 E3 E4]) E].
  cbn. unfold object_call. rewrite E1, E2, E3, E4, Hn. cbn. by rewrite E.
Qed.

Lemma opens_same s s' t k l :
  opens_of s t k l →
  (∀ o ob n, Block o ∈ tk_stack k → st_objects s !! o = Some ob → ob_token ob = Some n →
     (∃ ob', st_objects s' !! o = Some ob' ∧ ob_key ob' = ob_key ob) ∧
     st_tokens s' !! n = st_tokens s !! n) →
  opens_of s' t k l.
Proof.
  unfold opens_of. intros H Hsame. induction H as [|fr c st l Hc _ IH]; constructor.
  - eapply resolve_same; [exact Hc|]. intros o ob n ->. apply Hsame. by left.
  - apply IH. intros o ob n Hin. apply Hsame. by right.
Qed.
(** Objects and tokens added, and setters used. *)
Lemma grow_ok opens s s' :
  state_ok opens s → st_tasks s' = st_tasks s → st_drawn s <= st_drawn s' →
  st_recorded s' = st_recorded s → st_entered s' = st_entered s →
  (∀ o ob n, st_objects s !! o = Some ob → ob_token ob = Some n →
     (∃ ob', st_objects s' !! o = Some ob' ∧ ob_key ob' = ob_key ob) ∧
     st_tokens s' !! n = st_tokens s !! n) →
  (∀ ob, ob ∈ st_objects s' →
     object_ok (st_drawn s') (st_entered s) (st_tokens s') ob) →
  NoDup (map ob_span (st_objects s')) → own_tokens (st_objects s') → state_ok opens s'.
Proof.
  intros [Ht Ha He Hd Hp Hr Ho Hb Hs Hk] Etk Hn Erc Een Hsame Hb' Hs' Hk'.
  split; rewrite ?Etk, ?Erc, ?Een; try done.
  - intros t k Htk. destruct (Ht t k Htk) as [Hops Hok]. split; [|done].
    eapply opens_same; [exact Hops|]. intros o ob n _. apply Hsame.
  - intros c Hc. destruct (Hd c Hc) as (n & Hlt & ?). exists n. split; [lia|done].
Qed.

Lemma object_ok_mono d d' entered tokens tokens' ob :
  object_ok d entered tokens ob → d <= d' → length tokens <= length tokens' →
  object_ok d' entered tokens' ob.
Proof.
  intros [H1 (n & Hn & E) H3 H4] Hd Hl. split; [done| |done|].
  - exists n. split; [lia|done].
  - intros m Hm. specialize (H4 m Hm). lia.
Qed.

(** Objects that gained no token. *)
Lemma own_tokens_same obs obs' :
  (∀ i ob n, obs' !! i = Some ob → ob_token ob = Some n →
     ∃ ob', obs !! i = Some ob' ∧ ob_token ob' = Some n) →
  own_tokens obs → own_tokens obs'.
Proof.
  intros Hsame Hk i j ob ob' n Hi Hj Hn Hn'.
  destruct (Hsame i ob n Hi Hn) as (a & Ha & Ea). destruct (Hsame j ob' n Hj Hn') as (b & Hb & Eb).
  by apply (Hk i j a b n).
Qed.

Lemma alter_spans (f : Object → Object) o obs :
  (∀ ob, ob_span (f ob) = ob_span ob) → map ob_span (alter f o obs) = map ob_span obs.
Proof.
  intros Hf. revert o. induction obs as [|ob obs IH]; intros [|o]; cbn; [done..| |].
  - by rewrite Hf.
  - f_equal. apply IH.
Qed.

Lemma set_fields_ok opens o x s : state_ok opens s → state_ok opens (set_fields o x s).
Proof.
  intros H. apply (grow_ok opens s); try done; cbn.
  - intros o' ob n Hob Hn. split; [|done]. destruct (decide (o = o')) as [->|Hne].
    + rewrite list_lookup_alter_eq, Hob. eexists. split; [reflexivity|done].
    + rewrite list_lookup_alter_ne by done. by exists ob.
  - intros ob Hin. apply list_elem_of_lookup in Hin as [i Hi].
    destruct (decide (o = i)) as [->|Hne].
    + rewrite list_lookup_alter_eq in Hi. apply fmap_Some in Hi as (ob0 & Hob & ->).
      destruct (ok_objects _ _ H ob0) as [? ? ? ?]; [by eapply list_elem_of_lookup_2|]. by split.
    + rewrite list_lookup_alter_ne in Hi by done.
      destruct (ok_objects _ _ H ob) as [? ? ? ?]; [by eapply list_elem_of_lookup_2|]. by split.
  - rewrite alter_spans by done. apply (ok_spans _ _ H).
  - apply (own_tokens_same (st_objects s)); [|apply (ok_tokens _ _ H)].
    intros i ob n. rewrite list_lookup_alter. case_decide as Hi; [|by eauto].
    intros (y & Hy & ->)%fmap_Some Hn. subst i. by exists y.
Qed.

(** [ManualSpan.__init__]: the ids are the next ones. *)
Lemma take_ids_spec manual v entered n t sp n' : vars_ok entered v →
  take_ids manual v n = (t, sp, n') →
  (∃ m, n <= m < n' ∧ sp = uuid4 m) ∧ truthy t = true ∧ parent_ok entered t (v_span v).
Proof.
  intros Hv H. destruct (call_ids_spec uuid4 uuid4_truthy _ _ _ _ _ H) as (Hsp & Ht & Hctx).
  split_and!; [done|done|]. intros p Hp.
  destruct Hv as [->|(c & Hc & Htr & ->)]; [done|]. cbn in *. injection Hp as <-.
  exists c. split_and!; [done|done|]. symmetry. by apply Hctx.
Qed.

(** An id drawn later is no object's and no call's. *)
Lemma fresh_span opens s m : state_ok opens s → st_drawn s <= m →
  uuid4 m ∉ map op_span (st_entered s) ∧ uuid4 m ∉ map ob_span (st_objects s).
Proof.
  intros H Hm. split; intros (x & E & Hx)%list_elem_of_fmap.
  - destruct (ok_drawn _ _ H x Hx) as (j & Hj & Ej). rewrite Ej in E. apply uuid4_inj in E. lia.
  - destruct (ok_objects _ _ H x Hx) as [_ (j & Hj & Ej) _ _].
    rewrite Ej in E. apply uuid4_inj in E. lia.
Qed.

Lemma make_span_ok opens t f s : state_ok opens s → state_ok opens (make_span t f s).
Proof.
  intros H. unfold make_span. destruct (st_tasks s !! t) as [k|] eqn:Et; [|done].
  destruct (take_ids _ _ _) as [[tr sp] n] eqn:Eids.
  destruct (ok_tasks _ _ H t k Et) as [_ [_ _ Hv _ _ _]].
  destruct (take_ids_spec _ _ _ _ _ _ _ Hv Eids) as ((m & Hm & ->) & Htr & _).
  destruct (fresh_span opens s m H ltac:(lia)) as [Hne Hno].
  apply (grow_ok opens s); try done; cbn.
  - lia.
  - intros o ob x Ho Hx. split; [|done]. exists ob. split; [|done].
    by apply lookup_app_l_Some.
  - intros ob [Hob| ->%list_elem_of_singleton]%elem_of_app.
    + eapply object_ok_mono; [by apply (ok_objects _ _ H)|lia|lia].
    + split; cbn; [done|exists m; split; [lia|done]|done|done].
  - rewrite map_app. apply NoDup_app. split; [apply (ok_spans _ _ H)|].
    split; [|apply NoDup_singleton]. intros x Hx ->%list_elem_of_singleton. by apply Hno.
  - apply (own_tokens_same (st_objects s)); [|apply (ok_tokens _ _ H)].
    intros i ob x [Hi|[_ Hi]]%lookup_app_Some Hx; [by eauto|].
    apply list_lookup_singleton_Some in Hi as [_ <-]. done.
Qed.

(** *** Entering *)

Lemma entered_ok opens s s' t k fr c :
  state_ok opens s → st_tasks s !! t = Some k →
  st_tasks s' = <[t := push fr c k]> (st_tasks s) → st_drawn s <= st_drawn s' →
  st_recorded s' = st_recorded s → st_entered s' = st_entered s ++ [c] →
  resolve (st_objects s') (st_tokens s') t fr = Some c →
  op_before c = tk_vars k → truthy (op_trace c) = true →
  parent_ok (st_entered s) (op_trace c) (op_parent c) →
  op_span c ∉ map op_span (st_entered s) → (∃ n, n < st_drawn s' ∧ op_span c = uuid4 n) →
  (∀ o ob n, st_objects s !! o = Some ob → ob_token ob = Some n →
     (∃ ob', st_objects s' !! o = Some ob' ∧ ob_key ob' = ob_key ob) ∧
     st_tokens s' !! n = st_tokens s !! n) →
  (∀ ob, ob ∈ st_objects s' →
     object_ok (st_drawn s') (st_entered s') (st_tokens s') ob) →
  NoDup (map ob_span (st_objects s')) → own_tokens (st_objects s') →
  ∃ opens', state_ok opens' s'.
Proof.
  intros H Et Etk Hn Erc Een Hres Hbef Htr Hpar Hnew Hdrawn Hsame Hb' Hs' Hk'.
  pose proof H as [Ht Ha He Hd Hp Hr Ho _ _ _].
  assert (Hother : ∀ i x, st_tasks s !! i = Some x → opens_of s' i x (opens i)).
  { intros i x Hi. destruct (Ht i x Hi) as [Hops _].
    eapply opens_same; [exact Hops|]. intros o ob n _. apply Hsame. }
  assert (Hnone : ∀ i x y, st_tasks s !! i = Some x → y ∈ opens i → op_span y ≠ op_span c).
  { intros i x y Hi Hy E. destruct (Ht i x Hi) as (_ & [_ _ _ Hent _ _]).
    apply Hnew. rewrite <- E. apply list_elem_of_fmap_2. by apply Hent. }
  exists (λ i, if decide (i = t) then c :: opens t else opens i).
  split; rewrite ?Etk, ?Erc, ?Een; try done.
  - intros i x [[<- <-]|[Hne Hi]]%lookup_insert_Some.
    + rewrite decide_True by done. split; [constructor; [done|by apply Hother]|].
      destruct (Ht t k Et) as (_ & [Kv Ks Kk Kf Kb Kd]). split; cbn.
      * done.
      * by rewrite Hbef, Kv.
      * right. exists c. set_solver.
      * intros y [->|Hy]%elem_of_cons; [split; [set_solver|]|destruct (Kf y Hy); set_solver].
        intros (z & E & Hz)%list_elem_of_fmap. destruct (Hr z Hz) as (w & Hw & _ & Ew & _).
        apply Hnew. rewrite E, Ew. by apply list_elem_of_fmap_2.
      * intros y [->|Hy]%elem_of_cons; apply vars_ok_more; [by rewrite Hbef|by apply Kb].
      * constructor; [|done]. intros (y & E & Hy)%list_elem_of_fmap.
        by apply (Hnone t k y).
    + rewrite decide_False by done. split; [by apply Hother|].
      apply opens_ok_more, (Ht i x Hi).
  - intros t1 t2 k1 k2 c1 c2 H1 H2 C1 C2 E.
    destruct (decide (t1 = t)) as [->|N1], (decide (t2 = t)) as [->|N2]; [done|..];
      rewrite ?lookup_insert_ne in H1 by done; rewrite ?lookup_insert_ne in H2 by done.
    + apply elem_of_cons in C1 as [->|C1]; [by destruct (Hnone t2 k2 c2)|].
      by apply (Ha t t2 k k2 c1 c2).
    + apply elem_of_cons in C2 as [->|C2]; [by destruct (Hnone t1 k1 c1)|].
      by apply (Ha t1 t k1 k c1 c2).
    + by apply (Ha t1 t2 k1 k2 c1 c2).
  - rewrite map_app. apply NoDup_app. split; [done|]. split; [|apply NoDup_singleton].
    intros i Hi ->%list_elem_of_singleton. by apply Hnew.
  - intros x [Hx| ->%list_elem_of_singleton]%elem_of_app; [|done].
    destruct (Hd x Hx) as (j & Hj & ?). exists j. split; [lia|done].
  - intros x [Hx| ->%list_elem_of_singleton]%elem_of_app; apply parent_ok_more; [by apply Hp|done].
  - intros x Hx. destruct (Hr x Hx) as (y & Hy & ?). exists y. set_solver.
  - by rewrite <- Een.
Qed.

Lemma enter_call_ok opens t f s : state_ok opens s → ∃ opens', state_ok opens' (enter_call t f s).
Proof.
  intros H. unfold enter_call. destruct (st_tasks s !! t) as [k|] eqn:Et; [|by eexists].
  destruct (take_ids _ _ _) as [[tr sp] n] eqn:Eids.
  destruct (ok_tasks _ _ H t k Et) as [_ [_ _ Hv _ _ _]].
  destruct (take_ids_spec _ _ _ _ _ _ _ Hv Eids) as ((m & Hm & ->) & Htr & Hpar).
  destruct (fresh_span opens s m H ltac:(lia)) as [Hne Hno].
  set (c := Build_Open _ _ _ _). eapply (entered_ok opens s _ t k _ c); try done; cbn.
  - lia.
  - exists m. split; [lia|done].
  - intros o ob x Ho _. split; [by exists ob|done].
  - intros ob Hob. destruct (ok_objects _ _ H ob Hob) as [H1 (j & Hj & E) H3 H4]. split; [done| | |done].
    + exists j. split; [lia|done].
    + intros Hnone. rewrite map_app, not_elem_of_app. split; [by apply H3|].
      intros E'%list_elem_of_singleton. apply Hno. cbn in E'. rewrite <- E'.
      by apply list_elem_of_fmap_2.
  - apply (ok_spans _ _ H).
  - apply (ok_tokens _ _ H).
Qed.
(** A span object entered for the first time. *)
Lemma enter_block_ok opens t o s :
  state_ok opens s → (∀ ob, st_objects s !! o = Some ob → ob_token ob = None) →
  ∃ opens', state_ok opens' (enter_block t o s).
Proof.
  intros H Hfirst. unfold enter_block. destruct (st_tasks s !! t) as [k|] eqn:Et; [|by eexists].
  destruct (st_objects s !! o) as [ob|] eqn:Eo; [|by eexists]. specialize (Hfirst ob eq_refl).
  destruct (ok_tasks _ _ H t k Et) as [_ [_ _ Hv _ _ _]].
  destruct (ok_objects _ _ H ob) as [Htr Hdr Hun _]; [by eapply list_elem_of_lookup_2|].
  set (c := Build_Open _ _ _ _). set (ob' := Build_Object _ _ _ _ _).
  assert (Hlen : o < length (st_objects s)) by by eapply lookup_lt_Some.
  assert (Hget : <[o := ob']> (st_objects s) !! o = Some ob') by by apply list_lookup_insert_eq.
  assert (Hct : truthy (op_trace c) = true).
  { cbn. unfold trace_or. destruct (v_trace _) as [x|]; [|done]. by destruct (truthy x) eqn:Ex. }
  eapply (entered_ok opens s _ t k _ c); try done; cbn.
  - rewrite Hget. cbn. unfold object_call. cbn.
    rewrite lookup_app_r, Nat.sub_diag by lia. cbn. unfold usable. cbn. by rewrite Nat.eqb_refl.
  - intros p Hp. destruct Hv as [E|(x & Hx & Htx & E)]; rewrite E in *; [done|].
    injection Hp as <-. exists x. split_and!; [done|done|]. unfold trace_or. cbn. by rewrite Htx.
  - by apply Hun.
  - intros i y n Hy Hn. assert (i ≠ o) by congruence. split.
    + exists y. by rewrite list_lookup_insert_ne.
    + rewrite lookup_app_l; [done|].
      destruct (ok_objects _ _ H y) as [_ _ _ Htok]; [by eapply list_elem_of_lookup_2|]. by apply Htok.
  - intros y Hy. apply list_elem_of_lookup in Hy as [i Hi].
    apply list_lookup_insert_Some in Hi as [(<- & <- & _)|[Hne Hi]].
    + split; cbn; [done|done|done|]. intros n [= <-].
      rewrite length_app. cbn. lia.
    + destruct (ok_objects _ _ H y) as [H1 H2 H3 H4]; [by eapply list_elem_of_lookup_2|].
      split; [done|done| |intros n Hn; specialize (H4 n Hn); rewrite length_app; lia].
      intros Hnone. rewrite map_app, not_elem_of_app. split; [by apply H3|].
      intros E%list_elem_of_singleton. cbn in E. apply Hne.
      eapply NoDup_lookup; [apply (ok_spans _ _ H)| |];
        rewrite list_lookup_fmap; [by rewrite Eo|by rewrite Hi; cbn; rewrite E].
  - rewrite list_fmap_insert, list_insert_id; [apply (ok_spans _ _ H)|].
    by rewrite list_lookup_fmap, Eo.
  - intros i j x y n Hi Hj Hx Hy.
    assert (Hnew : ∀ z i, i ≠ o → <[o := ob']> (st_objects s) !! i = Some z →
      ob_token z = Some (length (st_tokens s)) → False).
    { intros z i' Hne Hz Hn. rewrite list_lookup_insert_ne in Hz by done.
      destruct (ok_objects _ _ H z) as [_ _ _ Htok]; [by eapply list_elem_of_lookup_2|].
      specialize (Htok _ Hn). lia. }
    destruct (decide (i = o)) as [->|Ni], (decide (j = o)) as [->|Nj]; [done|..].
    + rewrite Hget in Hi. injection Hi as <-. cbn in Hx. injection Hx as <-.
      by destruct (Hnew y j Nj Hj Hy).
    + rewrite Hget in Hj. injection Hj as <-. cbn in Hy. injection Hy as <-.
      by destruct (Hnew x i Ni Hi Hx).
    + rewrite list_lookup_insert_ne in Hi, Hj by done. by apply (ok_tokens _ _ H i j x y n).
Qed.

(** *** Leaving *)

(** The state after the task [t] left its innermost call [c]; the token it used,
    if any, is [n]. *)
Lemma left_ok opens s s' t k c rest l fr new n :
  state_ok opens s → st_tasks s !! t = Some k → tk_stack k = fr :: rest → opens t = c :: l →
  st_tasks s' = <[t := {| tk_vars := op_before c; tk_stack := rest; tk_base := tk_base k |}]>
                  (st_tasks s) →
  st_drawn s' = st_drawn s → st_objects s' = st_objects s → st_entered s' = st_entered s →
  st_tokens s' = st_tokens (use_token n s) →
  (∀ m, n = Some m → ∃ o ob, st_objects s !! o = Some ob ∧ ob_token ob = Some m ∧
     ob_span ob = op_span c) →
  st_recorded s' = st_recorded s ++ new →
  (new = [] ∨ ∃ x, new = [x] ∧ rc_trace x = op_trace c ∧ rc_span x = op_span c ∧
     rc_parent x = op_parent c) →
  state_ok (λ i, if decide (i = t) then l else opens i) s'.
Proof.
  intros H Et Est Eops Etk Edr Eob Een Etok Hn Erc Hnew.
  pose proof H as [Ht Ha He Hd Hp Hr Ho Hb Hs Hk].
  destruct (Ht t k Et) as [Hres [Kv Ks Kk Kf Kb Kd]]. rewrite Eops in *.
  destruct Ks as [Kbf Ks]. cbn in Kd. apply NoDup_cons in Kd as [Knew Kd].
  unfold opens_of in Hres. rewrite Est in Hres. apply Forall2_cons in Hres as [_ Hres].
  destruct (Kf c ltac:(by left)) as [Hent Hnrec].
  assert (Hspan : ∀ i, i ∈ map rc_span new → i = op_span c).
  { intros i (x & -> & Hx)%list_elem_of_fmap. destruct Hnew as [->|(y & -> & _ & E & _)].
    - by apply not_elem_of_nil in Hx.
    - by apply list_elem_of_singleton in Hx as ->. }
  assert (Hstay : ∀ i stack ops, Forall2 (λ fr c, resolve (st_objects s) (st_tokens s) i fr = Some c)
      stack ops → op_span c ∉ map op_span ops →
    Forall2 (λ fr c, resolve (st_objects s') (st_tokens s') i fr = Some c) stack ops).
  { intros i stack ops Hf Hno. induction Hf as [|f y stack ops Hy _ IH]; constructor.
    - eapply resolve_same; [exact Hy|]. intros o ob m -> Hob Hm. rewrite Eob, Etok.
      split; [by exists ob|]. destruct n as [n|]; [|done]. cbn.
      destruct (decide (n = m)) as [->|Hne]; [|by rewrite list_lookup_alter_ne].
      destruct (Hn m eq_refl) as (o' & ob' & Ho' & Hm' & Hsp).
      pose proof (Hk o o' ob ob' m Hob Ho' Hm Hm') as ->.
      assert (ob' = ob) as -> by congruence. exfalso. apply Hno. cbn in Hy.
      rewrite Hob in Hy. cbn in Hy. unfold object_call in Hy. rewrite Hm in Hy. cbn in Hy.
      destruct (st_tokens s !! m) as [tk|]; [|done]. cbn in Hy. destruct (usable _ _); [|done].
      injection Hy as <-. cbn. rewrite Hsp. by left.
    - apply IH. intros Hin. apply Hno. by right. }
  split; rewrite ?Etk, ?Edr, ?Eob, ?Een, ?Erc; try done.
  - intros i x [[<- <-]|[Hne Hi]]%lookup_insert_Some.
    + rewrite decide_True by done. split; [by apply Hstay|]. split; cbn; try done.
      * by apply Kb; left.
      * intros y Hy. destruct (Kf y ltac:(by right)) as [? Hy']. split; [done|].
        rewrite map_app, not_elem_of_app. split; [done|]. intros E%Hspan. apply Knew.
        rewrite <- E. by apply list_elem_of_fmap_2.
      * intros y Hy. by apply Kb; right.
    + rewrite decide_False by done. destruct (Ht i x Hi) as [Hops [? ? ? Hf ? ?]].
      assert (Hno : op_span c ∉ map op_span (opens i)).
      { intros (y & E & Hy)%list_elem_of_fmap. apply Hne.
        apply (Ha t i k x c y); [done|done|rewrite Eops; by left|done|done]. }
      split; [by apply Hstay|]. split; try done.
      intros y Hy. destruct (Hf y Hy) as [? Hy']. split; [done|].
      rewrite map_app, not_elem_of_app. split; [done|]. intros E%Hspan. apply Hno.
      rewrite <- E. by apply list_elem_of_fmap_2.
  - intros t1 t2 k1 k2 c1 c2 H1 H2 C1 C2 E.
    destruct (decide (t1 = t)) as [->|N1], (decide (t2 = t)) as [->|N2]; [done|..];
      rewrite ?lookup_insert_ne in H1 by done; rewrite ?lookup_insert_ne in H2 by done.
    + apply (Ha t t2 k k2 c1 c2); [done|done|rewrite Eops; by right|done|done].
    + apply (Ha t1 t k1 k c1 c2); [done|done|done|rewrite Eops; by right|done].
    + by apply (Ha t1 t2 k1 k2 c1 c2).
  - intros x [Hx|Hx]%elem_of_app; [by apply Hr|]. destruct Hnew as [->|(y & -> & Hy)].
    + by apply not_elem_of_nil in Hx.
    + apply list_elem_of_singleton in Hx as ->. by exists c.
  - rewrite map_app. apply NoDup_app. split; [done|]. split.
    + intros i Hi Hi'%Hspan. by subst.
    + destruct Hnew as [->|(y & -> & _)]; [apply NoDup_nil_2|apply NoDup_singleton].
  - intros ob Hob. destruct (Hb ob Hob) as [H1 H2 H3 H4]. split; [done|done|done|].
    intros m Hm. rewrite Etok. destruct n as [n|]; cbn; [rewrite length_alter|]; by apply H4.
Qed.

Lemma leave_ok opens t error tracer s :
  state_ok opens s → ∃ opens', state_ok opens' (leave_call t error tracer s).
Proof.
  intros H. unfold leave_call. destruct (st_tasks s !! t) as [[v [|[c f|o] rest] base]|] eqn:Et;
    [by eexists| | |by eexists].
  - destruct (ok_tasks _ _ H t _ Et) as [Hres _]. apply Forall2_cons_inv_l in Hres
      as (c' & l & [= <-] & _ & Eops).
    eexists. eapply (left_ok opens s _ t _ c rest l (Traced c f) _ None); try done.
    destruct tracer; [right; by eexists|by left].
  - destruct (ok_tasks _ _ H t _ Et) as [Hres _]. apply Forall2_cons_inv_l in Hres
      as (c & l & Hc & _ & Eops). cbn in Hc.
    apply bind_Some in Hc as (ob & Hob & Hc). rewrite Hob. cbn. rewrite Hc. cbn.
    pose proof Hc as Hc'. unfold object_call in Hc'. apply bind_Some in Hc' as (n & Hn & Hc').
    assert (Hsp : ob_span ob = op_span c).
    { destruct (st_tokens s !! n) as [x|]; [|done]. cbn in Hc'.
      destruct (usable t x); [|done]. by injection Hc' as <-. }
    eexists. eapply (left_ok opens s _ t _ c rest l (Block o) _ (Some n)); try done.
    + cbn. by rewrite Hn.
    + intros m [= <-]. by exists o, ob.
    + destruct tracer; [right; by eexists|by left].
Qed.
(** *** Runs *)

(** Only entering a block gives an object a token. *)
Lemma event_tokens e s o ob :
  st_objects (apply_event e s) !! o = Some ob → is_Some (ob_token ob) →
  enters e = Some o ∨ ∃ ob0, st_objects s !! o = Some ob0 ∧ is_Some (ob_token ob0).
Proof.
  intros Ho Hs.
  assert (Hsame : ∀ s', st_objects s' = st_objects s → st_objects s' !! o = Some ob →
    ∃ ob0, st_objects s !! o = Some ob0 ∧ is_Some (ob_token ob0)).
  { intros s' E H. rewrite E in H. by exists ob. }
  destruct e as [t u|t f|t f|t o'|t error tracer|o' x]; cbn in *.
  - right. apply (Hsame (create t u s)); [|done]. unfold create. by repeat case_match.
  - right. unfold make_span in Ho. destruct (st_tasks s !! t) as [k|]; [|by exists ob].
    destruct (take_ids _ _ _) as [[tr sp] n]. cbn in Ho.
    apply lookup_app_Some in Ho as [Ho|[_ Ho]]; [by exists ob|].
    apply list_lookup_singleton_Some in Ho as [_ <-]. by destruct Hs.
  - right. apply (Hsame (enter_call t f s)); [|done]. unfold enter_call. by repeat case_match.
  - unfold enter_block in Ho. destruct (st_tasks s !! t) as [k|]; [|right; by exists ob].
    destruct (st_objects s !! o') as [ob'|] eqn:E; [|right; by exists ob]. cbn in Ho.
    apply list_lookup_insert_Some in Ho as [(-> & _ & _)|[_ Ho]]; [by left|right; by exists ob].
  - right. apply (Hsame (leave_call t error tracer s)); [|done].
    unfold leave_call. by repeat case_match.
  - right. rewrite list_lookup_alter in Ho. case_decide as E; [|by exists ob].
    apply fmap_Some in Ho as (y & Hy & ->). subst o'. by exists y.
Qed.

Lemma run_ok es s opens seen :
  state_ok opens s →
  (∀ o ob, st_objects s !! o = Some ob → is_Some (ob_token ob) → o ∈ seen) →
  NoDup (seen ++ omap enters es) → ∃ opens', state_ok opens' (run es s).
Proof.
  revert s opens seen. induction es as [|e es IH]; intros s opens seen H Hseen Hnd; [by eexists|].
  assert (He : ∃ opens', state_ok opens' (apply_event e s)).
  { destruct e as [t u|t f|t f|t o|t error tracer|o x]; cbn.
    - by eapply create_ok.
    - eexists. by apply make_span_ok.
    - by eapply enter_call_ok.
    - eapply enter_block_ok; [exact H|]. intros ob Ho.
      destruct (ob_token ob) as [n|] eqn:En; [|done]. exfalso.
      cbn in Hnd. apply NoDup_app in Hnd as (_ & Hno & _). apply (Hno o); [|by left].
      apply (Hseen o ob Ho). by rewrite En.
    - by eapply leave_ok.
    - eexists. by apply set_fields_ok. }
  destruct He as [opens' He]. change (run (e :: es) s) with (run es (apply_event e s)).
  apply (IH _ opens' (seen ++ option_list (enters e)) He).
  - intros o ob Ho Hs. apply elem_of_app.
    destruct (event_tokens e s o ob Ho Hs) as [-> |(ob0 & Ho0 & Hs0)]; [right; by left|].
    left. by apply (Hseen o ob0).
  - rewrite <- app_assoc. replace (option_list (enters e) ++ omap enters es)
      with (omap enters (e :: es)); [done|]. cbn. by destruct (enters e).
Qed.

(** What the other tasks do leaves a task alone. *)
Definition acts_on (t : nat) (e : Event) : bool :=
  match e with
  | Create _ u => (u =? t)%nat
  | Enter_call t' _ | Enter_block t' _ | Leave t' _ _ => (t' =? t)%nat
  | New _ _ | Set_ _ _ => false
  end.

Lemma others_private t e s : acts_on t e = false →
  st_tasks (apply_event e s) !! t = st_tasks s !! t.
Proof.
  destruct e as [t' u|t' f|t' f|t' o|t' error tracer|i x]; cbn; try rewrite Nat.eqb_neq; intros Hne.
  - unfold create. destruct (st_tasks s !! t'), (st_tasks s !! u); try done. cbn.
    by rewrite lookup_insert_ne.
  - unfold make_span. destruct (st_tasks s !! t') as [k|]; [|done].
    by destruct (take_ids _ _ _) as [[tr sp] n].
  - unfold enter_call. destruct (st_tasks s !! t') as [k|]; [|done].
    destruct (take_ids _ _ _) as [[tr sp] n]. cbn. by rewrite lookup_insert_ne.
  - unfold enter_block. destruct (st_tasks s !! t') as [k|]; [|done].
    destruct (st_objects s !! o); [|done]. cbn. by rewrite lookup_insert_ne.
  - unfold leave_call. destruct (st_tasks s !! t') as [[v [|[c f|o] rest] base]|]; try done; cbn.
    + by rewrite lookup_insert_ne.
    + destruct (ob ← _; _) as [[ob c]|]; cbn; by rewrite lookup_insert_ne.
  - done.
Qed.

Lemma others_private_run t es s : forallb (λ e, negb (acts_on t e)) es = true →
  st_tasks (run es s) !! t = st_tasks s !! t.
Proof.
  revert s. induction es as [|e es IH]; intros s H; [done|].
  cbn in H. apply andb_true_iff in H as [He%negb_true_iff Hes].
  change (run (e :: es) s) with (run es (apply_event e s)).
  by rewrite IH, others_private.
Qed.

(** Leaving a call whose tokens are good records it. *)
Lemma leave_records s t k opens fr rest error :
  st_tasks s !! t = Some k → tk_stack k = fr :: rest → opens_of s t k opens →
  tk_vars k = vars_of opens (tk_base k) →
  ∃ x, st_recorded (leave_call t error true s) = st_recorded s ++ [x] ∧
    v_trace (tk_vars k) = Some (rc_trace x) ∧ v_span (tk_vars k) = Some (rc_span x).
Proof.
  intros Hk Hst Hops Hv. unfold opens_of in Hops. rewrite Hst in Hops.
  apply Forall2_cons_inv_l in Hops as (c & l & Hc & _ & ->). rewrite Hv.
  unfold leave_call. rewrite Hk. destruct k as [v st base]. cbn in Hst. subst st.
  destruct fr as [c' f|o]; cbn in Hc.
  - injection Hc as ->. by eexists.
  - apply bind_Some in Hc as (ob & Hob & Hc). rewrite Hob. cbn. rewrite Hc. by eexists.
Qed.

(** C34: the spans of interleaved tasks form trees.  However the tasks of a
    program create one another, make span objects, call [@trace] functions,
    enter and leave blocks and use the setters of their spans, as long as no
    object is entered more than once: no span is recorded twice; every recorded
    span has as parent a call that was entered, of the same trace, or none; the
    context of a task is at every moment that of its innermost open call, or the
    one it was created with, and leaving that call records it under those ids;
    and what the other tasks do changes neither its context nor its calls. *)
Theorem tasks_record_trees es : NoDup (omap enters es) →
  let s := run es main in
  NoDup (map rc_span (st_recorded s)) ∧
  (∀ x, x ∈ st_recorded s → rc_span x ∈ map op_span (st_entered s) ∧
     parent_ok (st_entered s) (rc_trace x) (rc_parent x)) ∧
  (∀ t k, st_tasks s !! t = Some k → ∃ opens, opens_of s t k opens ∧
     tk_vars k = vars_of opens (tk_base k) ∧ stack_ok opens (tk_base k)) ∧
  (∀ t k fr rest error, st_tasks s !! t = Some k → tk_stack k = fr :: rest →
     ∃ x, st_recorded (leave_call t error true s) = st_recorded s ++ [x] ∧
       v_trace (tk_vars k) = Some (rc_trace x) ∧ v_span (tk_vars k) = Some (rc_span x)) ∧
  (∀ t k es', st_tasks s !! t = Some k → forallb (λ e, negb (acts_on t e)) es' = true →
     st_tasks (run es' s) !! t = Some k).
Proof.
  cbn zeta. intros Hnd.
  destruct (run_ok es main (λ _, []) [] state_ok_main) as [opens H]; [done|done|]. split_and!.
  - apply (ok_once _ _ H).
  - intros x Hx. destruct (ok_recorded _ _ H x Hx) as (c & Hc & -> & -> & ->).
    split; [by apply list_elem_of_fmap_2|by apply (ok_parents _ _ H)].
  - intros t k Hk. destruct (ok_tasks _ _ H t k Hk) as [Hops []]. by exists (opens t).
  - intros t k fr rest error Hk Hst. destruct (ok_tasks _ _ H t k Hk) as [Hops []].
    by eapply leave_records.
  - intros t k es' Hk He. by rewrite others_private_run.
Qed.
End run.

(** A traced handler that fans out: two tasks made inside its span enter spans
    of their own, which end in another order than they began. *)
Definition fan_out : list Event :=
  [Enter_call 0 (trace_fields "handler" None); Create 0 1; Create 0 2;
   New 1 (span "left" "openai" "gpt-4o" None None); Enter_block 1 0;
   New 2 (span "right" "openai" "gpt-4o" None None); Enter_block 2 1;
   Set_ 0 (Tokens 3 4); Leave 1 None true; Leave 0 None true; Leave 2 (Some "boom"%string) true].

Lemma tasks_record_trees_witness :
  map (λ x, (f_name (rc_fields x), rc_trace x, rc_parent x)) (st_recorded (run id_of fan_out main))
  = [("left", "id-1", Some "id-0"); ("handler", "id-1", None);
     ("right", "id-1", Some "id-0")]%string ∧
  NoDup (map rc_span (st_recorded (run id_of fan_out main))).
Proof.
  split; [by vm_compute|].
  apply (tasks_record_trees id_of id_of_inj (λ _, eq_refl) fan_out).
  apply (bool_decide_unpack (NoDup [0; 1]%nat)). by vm_compute.
Defined.

(** One object entered twice: in a row it is recorded twice under one id; inside
    itself it becomes its own parent, and the outer exit raises, records nothing
    and leaves the span in the task's context. *)
Example reentered_span :
  let open := [New 0 (span "s" "custom" "unknown" None None); Enter_block 0 0]%string in
  let again := run id_of (open ++ [Leave 0 None true; Enter_block 0 0; Leave 0 None true]) main in
  let nested := run id_of (open ++ [Enter_block 0 0; Leave 0 None true; Leave 0 None true]) main in
  map rc_span (st_recorded again) = ["id-1"; "id-1"]%string ∧
  map (λ x, (rc_span x, rc_parent x)) (st_recorded nested) = [("id-1", Some "id-1")]%string ∧
  v_span <$> (tk_vars <$> st_tasks nested !! 0%nat) = Some (Some "id-1"%string).
Proof. split; [by vm_compute|]. split; by vm_compute. Qed.

(** Metadata added after the block reaches the span until it is sent, its
    tokens do not. *)
Example late_metadata :
  let s := run id_of [New 0 (span "s" "custom" "unknown" None None); Enter_block 0 0;
             Leave 0 None true; Set_ 0 (Metadata [("k", VInt 1)]);
             Set_ 0 (Tokens 5 6)]%string main in
  map (λ x, (sent_metadata s x, f_input_tokens (rc_fields x))) (st_recorded s)
  = [([("k", VInt 1)]%string, 0%Z)].
Proof. by vm_compute. Qed.
