(* ===== verification/SdkProcess.v ===== *)
(** * The client SDK: the process-wide tracer and the wire

    [sdk/llm_obs/__init__.py]: the one current tracer of the process, its
    creation on first use and its shutdown; and [_span_to_dict] of
    [tracer.py], which ties what the SDK sends to what the server's schema
    accepts. *)

From S2P Require Import Prelude Text PyVal Decimal Schema App SpanSchema Sdk.

Local Open Scope Z_scope.

(** ** The process *)

(** Every tracer ever created, by number; [instance] is [_tracer_instance].
    [closing]: the tracers [shutdown] has taken and still awaits; [failed]:
    those whose shutdown raised. *)
Record Process : Type := {
  tracers : list Tracer;
  instance : option nat;
  _last_transport_diagnostics : option TransportDiagnostics;
  _last_sdk_diagnostics : option SDKDiagnostics;
  closing : list nat;
  failed : list nat;
}.

Definition new_process : Process :=
  {| tracers := []; instance := None; _last_transport_diagnostics := None;
     _last_sdk_diagnostics := None; closing := []; failed := [] |}.

Definition _env_debug_enabled (LLM_OBS_DEBUG : option string) : bool :=
  inb (lower (default EmptyString LLM_OBS_DEBUG)) ["1"; "true"; "yes"; "on"].

(** A new current tracer. *)
Definition install (buffer_size : nat) (p : Process) : Process :=
  {| tracers := tracers p ++ [new_tracer buffer_size];
     instance := Some (length (tracers p));
     _last_transport_diagnostics := _last_transport_diagnostics p;
     _last_sdk_diagnostics := _last_sdk_diagnostics p;
     closing := closing p; failed := failed p |}.

Definition init (buffer_size : nat) (p : Process) : result Process :=
  match instance p with
  | Some _ => Raise (RuntimeError "llm_obs tracer is already initialized")
  | None => Ok (install buffer_size
      {| tracers := tracers p; instance := None; _last_transport_diagnostics := None;
         _last_sdk_diagnostics := None; closing := closing p; failed := failed p |})
  end.

Definition _get_or_create_tracer (LLM_OBS_API_KEY : option string) (p : Process)
    : option nat * Process :=
  match instance p with
  | Some i => (Some i, p)
  | None =>
      if truthy (default EmptyString LLM_OBS_API_KEY) then
        (Some (length (tracers p)), install 500 p)
      else (None, p)
  end.

Definition _get_tracer (LLM_OBS_API_KEY : option string) (p : Process)
    : result nat * Process :=
  match _get_or_create_tracer LLM_OBS_API_KEY p with
  | (Some i, p') => (Ok i, p')
  | (None, p') => (Raise (RuntimeError "llm_obs tracer is not initialized"), p')
  end.

Definition get_tracer (p : Process) : option nat := instance p.

Definition current (p : Process) : option Tracer := i ← instance p; tracers p !! i.

Definition get_diagnostics (p : Process) : option TransportDiagnostics :=
  match current p with
  | None => _last_transport_diagnostics p
  | Some t => last_diagnostics t
  end.

Definition get_sdk_diagnostics (p : Process) : option SDKDiagnostics :=
  match current p with
  | None => _last_sdk_diagnostics p
  | Some t => Some (sdk_diagnostics t)
  end.

(** [shutdown], up to its await: the lock is held. *)
Definition shutdown_begin (p : Process) : option nat * Process :=
  match instance p with
  | None => (None, p)
  | Some i =>
      (Some i, {| tracers := tracers p; instance := None;
                  _last_transport_diagnostics := _last_transport_diagnostics p;
                  _last_sdk_diagnostics := _last_sdk_diagnostics p;
                  closing := i :: closing p; failed := failed p |})
  end.

(** ... and from the end of [tracer.shutdown(flush)] of tracer [i] on:
    [ok] is false when it raised. *)
Definition shutdown_end (i : nat) (ok : bool) (t : Tracer) (p : Process) : Process :=
  {| tracers := <[i:=t]> (tracers p); instance := instance p;
     _last_transport_diagnostics :=
       if ok then last_diagnostics t else _last_transport_diagnostics p;
     _last_sdk_diagnostics :=
       if ok then Some (sdk_diagnostics t) else _last_sdk_diagnostics p;
     closing := List.remove Nat.eq_dec i (closing p);
     failed := if ok then failed p else i :: failed p |}.

(** The process between two switches of the event loop. A tracer of the process
    takes a step of its own; its shutdown ends as [Sdk.shutdown] says. *)
Section process.
Context (float_of_header : string → option pyfloat).
Context (server : FlushBatch → (nat → reply) → Prop).

Inductive process_step : Process → Process → Prop :=
| p_init n p p' : init n p = Ok p' → process_step p p'
| p_create api_key p : process_step p (_get_or_create_tracer api_key p).2
| p_tracer i t t' p :
    tracers p !! i = Some t → step float_of_header server t t' →
    process_step p {| tracers := <[i:=t']> (tracers p); instance := instance p;
      _last_transport_diagnostics := _last_transport_diagnostics p;
      _last_sdk_diagnostics := _last_sdk_diagnostics p;
      closing := closing p; failed := failed p |}
| p_shutdown_begin p : process_step p (shutdown_begin p).2
| p_shutdown_end i flush turns t ok t' p :
    i ∈ closing p → tracers p !! i = Some t →
    (∀ key post b, (key, post) ∈ turns → server b post) →
    shutdown float_of_header flush turns t = Some (ok, t') →
    process_step p (shutdown_end i ok t' p).

(** ** The wire *)

(** The shortest decimal that reads back as the float: [json.dumps]. *)
Context (float_repr : pyfloat → decimal).

(** [_span_to_dict], as the server's model reads the body; [isoformat] keeps
    the instant and the offset. *)
Definition _span_to_dict (s : TracerSpan) : RawSpan :=
  {| raw_span_id := Some (t_span_id s); raw_trace_id := t_trace_id s;
     raw_parent_span_id := t_parent s; raw_name := t_name s;
     raw_provider := t_provider s; raw_model := t_model s;
     raw_input_messages := t_input_messages s; raw_output := t_output s;
     raw_error := t_error s; raw_input_tokens := t_input_tokens s;
     raw_output_tokens := t_output_tokens s; raw_latency_ms := float_repr (t_latency_ms s);
     raw_started_at := t_started_at s; raw_metadata := t_metadata s |}.

(** The span the server keeps: every field as it was recorded, but a provider in
    the server's spelling. *)
Definition as_received (s : TracerSpan) : SpanSchema :=
  {| span_id := t_span_id s; trace_id := t_trace_id s; parent_span_id := t_parent s;
     name := t_name s; provider := normalize_provider (t_provider s); model := t_model s;
     input_messages := t_input_messages s; output := t_output s; error := t_error s;
     input_tokens := t_input_tokens s; output_tokens := t_output_tokens s;
     latency_ms := float_repr (t_latency_ms s); started_at := t_started_at s;
     metadata := t_metadata s |}.

(** ** Facts *)

(** Shutdown either closes the tracer or raises. *)
Lemma shutdown_closes flush turns t ok t' :
  shutdown float_of_header flush turns t = Some (ok, t') → ok = true →
  closed t' = true.
Proof.
  unfold shutdown. destruct (closed t) eqn:Hc; [by intros [= <- <-]|].
  destruct flush; [|by intros [= <- <-]].
  destruct (shutdown_flush _ _ _) as [[[] t1]|]; [by intros [= <- <-]| |done].
  by intros [= <- <-] [=].
Qed.

Lemma step_closed t t' :
  step float_of_header server t t' → closed t = true → closed t' = true.
Proof.
  intros [u u' Hr|b u Hf|u _ _|u|u _]; [|unfold cancel_flush; by rewrite Hf|done..].
  destruct Hr as [span u|key b u u' Hn H|post b u Hf _]; [done| |done].
  unfold _pop_next_flush_batch in H.
  destruct (pending_batches u); [destruct (buffer u); [done|]|]; by injection H as <- <-.
Qed.

(** Where the tracers of a process are. *)
Record process_inv (p : Process) : Prop := {
  pi_instance : ∀ i, instance p = Some i → (i < length (tracers p))%nat;
  pi_tracers : ∀ i t, tracers p !! i = Some t →
    instance p = Some i ∨ i ∈ closing p ∨ closed t = true ∨ i ∈ failed p;
}.

Lemma install_inv n p : instance p = None → process_inv p → process_inv (install n p).
Proof.
  intros Hn [H1 H2]. constructor; simpl.
  - intros i [= <-]. rewrite length_app. simpl. lia.
  - intros i t Hi. apply lookup_app_Some in Hi as [Hi|[Hlen Hi]].
    + destruct (H2 i t Hi) as [?|?]; [congruence|by right].
    + apply list_lookup_singleton_Some in Hi as [? _]. left. f_equal. lia.
Qed.

Lemma insert_tracer_inv p i u (Q : nat → Tracer → Prop) :
  (∀ j t, tracers p !! j = Some t → j ≠ i → Q j t) → Q i u →
  ∀ j t, <[i:=u]> (tracers p) !! j = Some t → Q j t.
Proof.
  intros H Hu j t [(<- & -> & _)|[Hne Hj]]%list_lookup_insert_Some; [done|by eapply H].
Qed.

(** A tracer is never forgotten: it is the current one, its shutdown is
    awaited, it is closed, or its shutdown raised. *)
Lemma process_step_inv p p' : process_step p p' → process_inv p → process_inv p'.
Proof.
  intros Hs Hinv. pose proof Hinv as [H1 H2].
  destruct Hs as [n p p' H|api_key p|i t t' p Hi H|p|i flush turns t ok t' p Hc Hi _ H].
  - unfold init in H. destruct (instance p) eqn:Hn; [done|]. injection H as <-.
    apply install_inv; [done|]. constructor; simpl; [done|].
    intros j u Hj. destruct (H2 j u Hj) as [?|?]; [congruence|by right].
  - unfold _get_or_create_tracer. destruct (instance p) eqn:Hn; [done|].
    case_match; [by apply install_inv|done].
  - constructor; simpl; [by intros j ?%H1; rewrite length_insert|].
    apply insert_tracer_inv; [by auto|].
    destruct (H2 i t Hi) as [?|[?|[Hcl|?]]]; [by auto|by auto| |by auto].
    do 2 right; left. by apply (step_closed t).
  - unfold shutdown_begin. destruct (instance p) as [k|] eqn:Hn; [|done].
    constructor; simpl; [done|]. intros j u Hj.
    destruct (H2 j u Hj) as [[= ->]|[?|?]]; right; [left|left|by right]; set_solver.
  - constructor; simpl; [by intros j ?%H1; rewrite length_insert|].
    apply insert_tracer_inv.
    + intros j u Hj Hne. destruct (H2 j u Hj) as [?|[Hcl|[?|?]]]; [by left| |by auto|].
      * right; left. apply list_elem_of_In, List.in_in_remove; [done|].
        by apply list_elem_of_In.
      * do 3 right. destruct ok; set_solver.
    + destruct ok; [|do 3 right; set_solver].
      do 2 right; left. by eapply shutdown_closes.
Qed.
End process.

(** ** What the server accepts *)

#[local] Arguments normalize_span_identifier : simpl never.
#[local] Arguments opt_max_length : simpl never.
#[local] Arguments len : simpl never.
#[local] Arguments minute : simpl never.
#[local] Arguments normalize_provider : simpl never.

Section wire.
Context (uuid5 : string → string → string).
Context (str_len : list (string * pyval) → Z).
Context (float_repr : pyfloat → decimal).

(** The ids of a span are UUIDs, as those the SDK draws. *)
Record identified (s : TracerSpan) : Prop := {
  sd_span : is_uuid (t_span_id s);
  sd_trace : is_uuid (t_trace_id s);
  sd_parent : ∀ p, t_parent s = Some p → is_uuid p;
}.

Definition at_most (n : Z) (o : option string) : bool :=
  match o with Some s => len s <=? n | None => true end.

(** What the SDK leaves to the program and the schema limits: the sizes, the
    token counts, the latency, the clock. *)
Definition within_limits (now : timestamp) (s : TracerSpan) : bool :=
  (len (t_name s) <=? 255) && (len (t_provider s) <=? 50) && (len (t_model s) <=? 100) &&
  (Z.of_nat (length (t_input_messages s)) <=? 1000) &&
  at_most 100000 (t_output s) && at_most 10000 (t_error s) &&
  ((0 <=? t_input_tokens s) && (t_input_tokens s <=? 10000000)) &&
  ((0 <=? t_output_tokens s) && (t_output_tokens s <=? 10000000)) &&
  decimal_between (float_repr (t_latency_ms s)) 3600000 &&
  (dt_utc (t_started_at s) <=? now + 5 * minute) && (str_len (t_metadata s) <=? 10000).

Lemma is_uuid_len u : is_uuid u → len u = 36.
Proof.
  intros (n & _ & ->). unfold len, str_of_uuid.
  by rewrite !str_app_length, !hex_pad_length.
Qed.

(** Each limit by itself decides. *)
Lemma limit_bind {A} (b : bool) field (k : unit → result A) :
  (field_limit b field ≫= k) = if b then k tt else Raise (ValueError field).
Proof. by destruct b. Qed.

Lemma future_bind {A} v now (k : pydatetime → result A) :
  ∃ e, (no_future_timestamps v now ≫= k) =
       if dt_utc v <=? now + 5 * minute then k v else Raise e.
Proof.
  unfold no_future_timestamps. eexists. rewrite Z.leb_antisym.
  destruct (_ <? _); reflexivity.
Qed.

Lemma metadata_bind {A} v (k : list (string * pyval) → result A) :
  ∃ e, (limit_metadata_size str_len v ≫= k) = if str_len v <=? 10000 then k v else Raise e.
Proof.
  unfold limit_metadata_size. eexists. rewrite Z.leb_antisym. destruct (_ <? _); reflexivity.
Qed.

(** One span: accepted within the limits, refused beyond any of them. *)
Lemma validate_identified now fresh s :
  identified s →
  ∃ e, validate_span uuid5 str_len (_span_to_dict float_repr s) fresh now
  = if within_limits now s then Ok (as_received float_repr s) else Raise e.
Proof.
  intros [Hsp Htr Hpa]. unfold validate_span, max_length. simpl.
  rewrite !(normalize_canonical uuid5) by done. simpl.
  rewrite (is_uuid_len (t_trace_id s)) by done. simpl.
  assert (opt_max_length 64 (t_parent s) = true) as ->.
  { destruct (t_parent s) as [q|]; [|done]. apply Z.leb_le. rewrite (is_uuid_len q); [lia|by auto]. }
  assert (Hp : normalize_span_identifier uuid5 (t_parent s) "parent_span_id"
               = Ok (t_parent s)).
  { destruct (t_parent s); [apply normalize_canonical; by auto|done]. }
  rewrite Hp. simpl. unfold within_limits, opt_max_length, max_length, at_most.
  repeat (rewrite limit_bind; match goal with
    |- ∃ e, (if ?b then _ else _) = _ => destruct b; simpl; [|by eexists] end).
  match goal with |- context [no_future_timestamps ?v ?n ≫= ?k] =>
    destruct (future_bind v n k) as [e1 ->] end.
  destruct (dt_utc _ <=? _); simpl; [|by eexists].
  match goal with |- context [limit_metadata_size ?f ?v ≫= ?k] =>
    destruct (metadata_bind v k) as [e2 ->] end.
  destruct (str_len _ <=? _); simpl; by eexists.
Qed.

Abbreviation dicts l := ((λ rf : TracerSpan * string, (_span_to_dict float_repr rf.1, rf.2)) <$> l).

Lemma validate_identified_all now l :
  Forall (λ rf : TracerSpan * string, identified rf.1) l →
  ∃ e, validate_all uuid5 str_len (dicts l) now
  = if forallb (λ rf, within_limits now rf.1) l
    then Ok ((λ rf, as_received float_repr rf.1) <$> l) else Raise e.
Proof.
  induction 1 as [|[s fresh] l Hs _ [e IH]]; [by exists (ValueError EmptyString)|].
  destruct (validate_identified now fresh s Hs) as [e' Hv].
  change (validate_all uuid5 str_len (dicts ((s, fresh) :: l)) now) with
    (s' ← validate_span uuid5 str_len (_span_to_dict float_repr s) fresh now;
     ss ← validate_all uuid5 str_len (dicts l) now; Ok (s' :: ss)).
  rewrite Hv, IH. cbn [forallb fst fmap list_fmap].
  destruct (within_limits now s); simpl; [|by eexists].
  destruct (forallb _ l); simpl; by eexists.
Qed.


(** A known provider is kept. *)
Lemma provider_kept s :
  t_provider s ∈ ALLOWED_PROVIDERS → provider (as_received float_repr s) = t_provider s.
Proof.
  intros Hin. cbn. unfold ALLOWED_PROVIDERS in Hin.
  repeat (apply elem_of_cons in Hin as [->|Hin]; [by vm_compute|]). by apply not_elem_of_nil in Hin.
Qed.
End wire.

Definition latency_zero (f : pyfloat) : decimal := mkdec 0 0.

(** A span of [@trace] with its uuids. *)
Definition traced_span (n : Z) : TracerSpan :=
  {| t_trace_id := str_of_uuid 0; t_span_id := str_of_uuid n; t_name := "job";
     t_provider := "custom"; t_model := "unknown"; t_input_messages := [];
     t_parent := Some (str_of_uuid 1); t_output := None; t_error := None;
     t_input_tokens := 0; t_output_tokens := 0; t_latency_ms := SpecFloat.S754_zero false;
     t_started_at := {| dt_local := 0; dt_offset := Some 0 |}; t_metadata := [] |}.

Lemma traced_span_identified n : 0 <= n < 2 ^ 128 → identified (traced_span n).
Proof.
  intros Hn. split; [by exists n|by exists 0|]. intros p [= <-]. by exists 1.
Qed.

