(* ===== verification/Auth.v ===== *)
(** * Authentication

    [backend/app/core/auth.py]: access tokens, API keys with their Redis cache,
    and project access; [backend/app/api/v1/auth.py]: registration and login.
    Password hashing, SHA-256, the JWT library and the random tokens are
    parameters; the rate limiter in front of registration and login is in
    [RateLimit]. *)

From S2P Require Import Prelude Text PyVal Decimal Schema App.

Local Open Scope Z_scope.

(** ** Scopes and project roles *)

Definition api_key_allows (scope : option string) (required_scope : string) : bool :=
  match scope with
  | Some "read_write"%string => true
  | Some scope => String.eqb scope required_scope
  | None => false
  end.

(** [PROJECT_ROLE_LEVELS.get(role, -1)] *)
Definition project_role_level (role : option string) : Z :=
  match role with
  | Some "viewer"%string => 0
  | Some "member"%string => 1
  | _ => -1
  end.

Definition project_role_allows (role : option string) (required_role : string) : bool :=
  project_role_level (Some required_role) <=? project_role_level role.

Section auth.
(** [hashlib.sha256(...).hexdigest()] *)
Context (sha256 : string → string).
(** [jwt.encode], and [jwt.decode] at a time: [None] is JWTError *)
Context (jwt_encode : dict → string) (jwt_decode : timestamp → string → option dict).
(** [pwd_context.hash] and [pwd_context.verify] of passlib *)
Context (hash_password : string → string) (verify_password : string → string → result bool).
(** [settings] *)
Context (jwt_access_token_expire_minutes : Z) (public_registration_enabled : bool).
Context (bootstrap_admin_token : option string).

(** ** Access tokens *)

(** The numeric dates are whole seconds, as [jose] writes them. *)
Definition claims (user_id org_id role : string) (expires issued : Z) : dict :=
  [("sub", VStr user_id); ("org_id", VStr org_id); ("role", VStr role);
   ("exp", VInt expires); ("iat", VInt issued)].

Definition create_access_token (user_id org_id role : string) (now : timestamp) : string :=
  jwt_encode (claims user_id org_id role
    ((now + jwt_access_token_expire_minutes * minute) / second) (now / second)).

Definition load_current_user_from_token (token : string) (now : timestamp)
    : M App CurrentUser :=
  user_id ← match jwt_decode now token with
            | None => raise (HTTPException 401 "Invalid or expired token")
            | Some payload =>
                match dict_get "sub" payload with
                | Some (VStr s) =>
                    if truthy s then mret s else raise (HTTPException 401 "Unauthorized")
                | _ => raise (HTTPException 401 "Unauthorized")
                end
            end;
  user ← query (λ d, select_one (λ u, String.eqb (u_id u) user_id && u_active u) (users d));
  match user with
  | None => raise (HTTPException 401 "Invalid or expired token")
  | Some u => mret {| sub := u_id u; cu_org := u_org u; cu_role := u_role u;
                      cu_platform_admin := u_platform_admin u |}
  end.

Definition get_current_user (creds : option string) (now : timestamp) : M App CurrentUser :=
  match creds with
  | None => raise (HTTPException 401 "Not authenticated")
  | Some token => load_current_user_from_token token now
  end.

(** ** API keys *)

(** The project an API key's hash resolves to: a project's own key, or a key of
    [project_api_keys] that is active, of an active project. *)
Definition lookup_api_key (h : string) (d : Db) : option ApiProject :=
  match select_one (λ p, String.eqb (p_key_hash p) h && p_active p) (projects d) with
  | Some p => Some {| ap_id := p_id p; ap_org := p_org p; ap_name := p_name p;
                      ap_scope := Some "read_write"; ap_key_id := None; ap_legacy := true |}
  | None =>
      k ← select_one (λ k, String.eqb (k_hash k) h && k_active k
                           && negb (bool_decide (is_Some (k_revoked k)))) (api_keys d);
      p ← select_one (λ p, String.eqb (p_id p) (k_project k) && p_active p) (projects d);
      Some {| ap_id := p_id p; ap_org := p_org p; ap_name := p_name p;
              ap_scope := Some (k_scope k); ap_key_id := Some (k_id k);
              ap_legacy := false |}
  end.

(** [UPDATE project_api_keys SET last_used_at = :now WHERE id = :id] *)
Definition touch_api_key (id : string) (now : timestamp) (d : Db) : Db :=
  set_api_keys (update_where (λ k, String.eqb (k_id k) id)
    (λ k, {| k_id := k_id k; k_project := k_project k; k_name := k_name k;
             k_description := k_description k; k_hash := k_hash k; k_scope := k_scope k;
             k_active := k_active k; k_created := k_created k;
             k_last_used := Some now; k_revoked := k_revoked k |})) d.

Definition redis_get (h : string) (now : timestamp) (s : App) : option ApiProject :=
  match apikey_cache s !! h with
  | Some (p, expires) => if now <? expires then Some p else None
  | None => None
  end.

(** [redis.setex(cache_key, 60, ...)] *)
Definition cache_api_key (h : string) (p : ApiProject) (now : timestamp) : App → App :=
  with_apikeys <[h := (p, now + 60 * second)]>.

(** The part after the cache was missed. *)
Definition load_api_key (h : string) (required_scope : string) (now : timestamp)
    : M App ApiProject :=
  row ← query (lookup_api_key h);
  _ ← match (p ← row; ap_key_id p) with
      | Some id => execute (touch_api_key id now)
      | None => mret tt
      end;
  match row with
  | None => raise (HTTPException 401 "Invalid API key")
  | Some p =>
      raise_when (negb (api_key_allows (ap_scope p) required_scope))
        (HTTPException 403 "API key scope denied");;
      modify (cache_api_key h p now);;
      mret p
  end.

Definition get_project_from_api_key (creds x_api_key : option string)
    (required_scope : string) (now : timestamp) : M App ApiProject :=
  let api_key := if truthy (default EmptyString x_api_key) then x_api_key else creds in
  raise_when (negb (truthy (default EmptyString api_key)))
    (HTTPException 401 "API key required");;
  let key_hash := sha256 (default EmptyString api_key) in
  cached ← gets (redis_get key_hash now);
  match cached with
  | Some p =>
      raise_when (negb (api_key_allows (ap_scope p) required_scope))
        (HTTPException 403 "API key scope denied");;
      mret p
  | None => load_api_key key_hash required_scope now
  end.

(** ** Project access of a user *)

(** The project row with the caller's role in it. *)
Record UserProject : Type := {
  up_id : string; up_org : string; up_name : string; up_role : option string;
}.

Definition get_project_for_user (project_id : string) (user : CurrentUser)
    (required_role : string) : M App UserProject :=
  row ← query (λ d,
    p ← select_one (λ p, String.eqb (p_id p) project_id
                         && String.eqb (p_org p) (cu_org user) && p_active p) (projects d);
    Some (p, select_one (λ m, String.eqb (m_project m) (p_id p)
                              && String.eqb (m_user m) (sub user)) (memberships d)));
  match row with
  | None => raise (HTTPException 404 "Project not found")
  | Some (p, membership) =>
      let role := m_role <$> membership in
      if String.eqb (cu_role user) "admin" then
        mret {| up_id := p_id p; up_org := p_org p; up_name := p_name p;
                up_role := Some "admin" |}
      else
        raise_when (negb (project_role_allows role required_role))
          (HTTPException 403 "Project access denied");;
        mret {| up_id := p_id p; up_org := p_org p; up_name := p_name p; up_role := role |}
  end.

(** The project a dashboard request reads: by API key, or by token. *)
Definition get_project_from_token_or_api_key (creds x_api_key project_id : option string)
    (now : timestamp) : M App (string * string) :=
  if truthy (default EmptyString x_api_key) then
    p ← get_project_from_api_key None x_api_key "read" now;
    mret (ap_id p, ap_org p)
  else
    match creds, project_id with
    | Some token, Some pid =>
        if truthy pid then
          user ← load_current_user_from_token token now;
          p ← get_project_for_user pid user "viewer";
          mret (up_id p, up_org p)
        else raise (HTTPException 401 "Authentication required")
    | _, _ => raise (HTTPException 401 "Authentication required")
    end.

(** ** Registration and login *)

Definition is_lower_alnum (c : ascii) : bool :=
  let n := code c in
  ((48 <=? n)%nat && (n <=? 57)%nat) || ((97 <=? n)%nat && (n <=? 122)%nat).

Definition _is_valid_bootstrap_token (token : option string) : bool :=
  match bootstrap_admin_token with
  | None => false
  | Some configured => String.eqb (default EmptyString token) configured
  end.

Fixpoint str_map (f : ascii → ascii) (s : string) : string :=
  match s with
  | EmptyString => EmptyString
  | String c s' => String (f c) (str_map f s')
  end.

(** [re.sub(r"[^a-z0-9]", "-", name.lower())[:40]] *)
Definition slug_of (org_name : string) : string :=
  str_take 40 (str_map (λ c, if is_lower_alnum c then c else "-"%char) (lower org_name)).

Record RegisterRequest : Type := {
  rq_email : string; rq_password : string; rq_org_name : string;
  rq_bootstrap_token : option string;
}.

(** The random values a registration draws. *)
Record Draw : Type := {
  org_uuid : string; slug_hex : string; user_uuid : string; project_uuid : string;
  raw_key : string;
}.

Record LoginResponse : Type := {
  access_token : string; lr_role : string; lr_project : option string;
  lr_api_key : option string;
}.

Definition register (body : RegisterRequest) (x : Draw) (now : timestamp)
    : M App LoginResponse :=
  begin (
    user_count ← query (λ d, count_where (λ _, true) (users d));
    _ ← (if public_registration_enabled then mret tt
         else
           raise_when (0 <? user_count) (HTTPException 403 "Registration is disabled");;
           raise_when (negb (_is_valid_bootstrap_token (rq_bootstrap_token body)))
             (HTTPException 403 "Invalid bootstrap token"));
    exists_ ← query (λ d, exists_where (λ u, String.eqb (u_email u) (rq_email body)) (users d));
    raise_when exists_ (HTTPException 409 "Email already registered");;
    insert_into organizations set_organizations organization_conflict
      {| org_id := org_uuid x; org_name := rq_org_name body;
         org_slug := slug_of (rq_org_name body) +:+ "-" +:+ slug_hex x |};;
    insert_into users set_users user_conflict
      {| u_id := user_uuid x; u_org := org_uuid x; u_email := rq_email body;
         u_password_hash := hash_password (rq_password body); u_role := "admin";
         u_active := true; u_platform_admin := false; u_created := now |};;
    insert_into projects set_projects project_conflict
      {| p_id := project_uuid x; p_org := org_uuid x; p_name := "Default";
         p_key_hash := sha256 (raw_key x); p_retention_days := 90;
         p_payload_mode := "all"; p_payload_max_bytes := 262144;
         p_redact_keys := "api_key,password,secret,token,authorization";
         p_active := true; p_created := now |});;
  mret {| access_token := create_access_token (user_uuid x) (org_uuid x) "admin" now;
          lr_role := "admin"; lr_project := Some (project_uuid x);
          lr_api_key := Some (raw_key x) |}.

Definition dummy_hash : string :=
  "$2b$12$dummyhashtopreventtimingattacks000000000000000000000000".

Definition login (email password : string) (now : timestamp) : M App LoginResponse :=
  user ← query (λ d, select_one (λ u, String.eqb (u_email u) email && u_active u) (users d));
  is_valid ← lift (verify_password password
                     (match user with Some u => u_password_hash u | None => dummy_hash end));
  match user with
  | Some u =>
      raise_when (negb is_valid) (HTTPException 401 "Invalid credentials");;
      project ← query (λ d, select_one (λ p, String.eqb (p_org p) (u_org u) && p_active p)
                              (projects d));
      mret {| access_token := create_access_token (u_id u) (u_org u) (u_role u) now;
              lr_role := u_role u; lr_project := p_id <$> project; lr_api_key := None |}
  | None => raise (HTTPException 401 "Invalid credentials")
  end.

(** ** Facts *)

Lemma load_current_user_spec token now payload uid s :
  jwt_decode now token = Some payload → dict_get "sub" payload = Some (VStr uid) →
  truthy uid = true →
  load_current_user_from_token token now s
  = (match select_one (λ u, String.eqb (u_id u) uid && u_active u) (users (db s)) with
     | None => Raise (HTTPException 401 "Invalid or expired token")
     | Some u => Ok {| sub := u_id u; cu_org := u_org u; cu_role := u_role u;
                       cu_platform_admin := u_platform_admin u |}
     end, s).
Proof.
  intros Hd Hs Ht. unfold load_current_user_from_token. rewrite Hd, Hs, Ht.
  unfold mbind, M_bind, mret, M_ret, query, gets, raise. by case_match.
Qed.

(** A token is accepted until its expiry, and says what was put in it. *)
Hypothesis jwt_roundtrip : ∀ u o r e i t,
  t < e * second → jwt_decode t (jwt_encode (claims u o r e i)) = Some (claims u o r e i).

(** a token from login speaks for the user who logged in, with the rights
    of the user's present row: at any later time before expiry, in any state
    of the tables, it yields the user's current role and organization, and 401
    once the user is deactivated or deleted; a role stored in the token is
    never used. *)
Theorem login_token_tracks_user email password now s r s' t s2 :
  login email password now s = (Ok r, s') →
  t < (now + jwt_access_token_expire_minutes * minute) / second * second →
  ∃ u, u ∈ users (db s) ∧ u_email u = email ∧ u_active u = true ∧ s' = s ∧
    verify_password password (u_password_hash u) = Ok true ∧
    (u_id u ≠ EmptyString →
     load_current_user_from_token (access_token r) t s2
     = (match select_one (λ v, String.eqb (u_id v) (u_id u) && u_active v)
                (users (db s2)) with
        | None => Raise (HTTPException 401 "Invalid or expired token")
        | Some v => Ok {| sub := u_id v; cu_org := u_org v; cu_role := u_role v;
                          cu_platform_admin := u_platform_admin v |}
        end, s2)).
Proof.
  unfold login. intros H Ht. app_inv.
  match goal with E : select_one _ (users _) = Some ?u |- _ =>
    rename u into u, E into Hu end.
  destruct (select_one_Some _ _ _ Hu) as [Hin [He Ha]%andb_true_iff].
  apply String.eqb_eq in He. exists u. split_and!; try done.
  - by destruct x1.
  - intros Hne. cbn [access_token]. unfold create_access_token.
    erewrite load_current_user_spec; [reflexivity|by apply jwt_roundtrip|done|].
    by apply truthy_true.
Qed.

(** passlib raises ValueError for a bcrypt hash that is not 60 characters
    long; the dummy hash has 62, so the login of an unknown address ends in that
    error, not in 401. *)
Lemma unknown_login_error email password now s :
  (∀ plain h, len h ≠ 60 → verify_password plain h = Raise (ValueError "malformed bcrypt hash")) →
  (∀ u, u ∈ users (db s) → u_email u ≠ email) →
  login email password now s = (Raise (ValueError "malformed bcrypt hash"), s).
Proof.
  intros Hv Hu. unfold login. erewrite bind_run; [|reflexivity].
  destruct (select_one _ _) as [u|] eqn:E.
  - apply select_one_Some in E as [Hin [He%String.eqb_eq _]%andb_true_iff].
    by destruct (Hu u Hin).
  - apply bind_run_raise. unfold lift. rewrite Hv; [done|by vm_compute].
Qed.
End auth.

(** ** Witnesses *)

(** An invertible stand-in for the JWT library: the claims as a number. *)
Fixpoint str_of_bits (p : positive) : string :=
  match p with
  | xH => EmptyString
  | xO p => String "0" (str_of_bits p)
  | xI p => String "1" (str_of_bits p)
  end.

Fixpoint bits_of_str (s : string) : positive :=
  match s with
  | EmptyString => xH
  | String c s' => if Ascii.eqb c "1" then xI (bits_of_str s') else xO (bits_of_str s')
  end.

Lemma bits_of_str_of_bits p : bits_of_str (str_of_bits p) = p.
Proof. induction p as [p IH|p IH|]; simpl; congruence. Qed.

Definition plain_encode (payload : list (string * pyval)) : string :=
  match payload with
  | [(_, VStr u); (_, VStr o); (_, VStr r); (_, VInt e); (_, VInt i)] =>
      str_of_bits (countable.encode (u, o, r, e, i))
  | _ => EmptyString
  end.

Definition plain_decode (now : timestamp) (token : string)
    : option (list (string * pyval)) :=
  match countable.decode (bits_of_str token) : option (string * string * string * Z * Z) with
  | Some (u, o, r, e, i) => if now <? e * second then Some (claims u o r e i) else None
  | None => None
  end.

Lemma plain_roundtrip u o r e i t :
  t < e * second → plain_decode t (plain_encode (claims u o r e i)) = Some (claims u o r e i).
Proof.
  intros Ht. unfold plain_decode, plain_encode. simpl.
  rewrite bits_of_str_of_bits, decode_encode.
  by apply Z.ltb_lt in Ht as ->.
Qed.

Definition plain_verify (password hash : string) : result bool := Ok (String.eqb password hash).

Definition admin_user (id email : string) : User :=
  {| u_id := id; u_org := "org"; u_email := email; u_password_hash := "secret";
     u_role := "admin"; u_active := true; u_platform_admin := false; u_created := 0 |}.

Definition two_admins : App :=
  {| db := set_users (λ _, [admin_user "u1" "a@x"; admin_user "u2" "b@x"]) empty_db;
     apikey_cache := ∅; pricing_cache := ∅; audit_fault := None |}.

(** The same users once the second is a viewer. *)
Definition demoted : App :=
  with_db (set_users (update_where (λ u, String.eqb (u_id u) "u2")
    (λ u, {| u_id := u_id u; u_org := u_org u; u_email := u_email u;
             u_password_hash := u_password_hash u; u_role := "viewer";
             u_active := u_active u; u_platform_admin := u_platform_admin u;
             u_created := u_created u |}))) two_admins.

Lemma login_token_tracks_user_witness :
  ∃ r, login plain_encode plain_verify 60 "b@x" "secret" 0 two_admins = (Ok r, two_admins) ∧
  lr_role r = "admin" ∧
  load_current_user_from_token plain_decode (access_token r) (hour - 1) demoted
  = (Ok {| sub := "u2"; cu_org := "org"; cu_role := "viewer"; cu_platform_admin := false |},
     demoted).
Proof.
  eexists. split; [reflexivity|]. split; [done|].
  destruct (login_token_tracks_user plain_encode plain_decode plain_verify 60 plain_roundtrip
    "b@x" "secret" 0 two_admins _ _ (hour - 1) demoted eq_refl)
    as (u & Hin & He & _ & _ & _ & Hu); [by vm_compute|].
  apply elem_of_cons in Hin as [->|Hin]; [done|].
  apply list_elem_of_singleton in Hin as ->. by apply Hu.
Defined.
