(* ===== verification/Projects.v ===== *)
(** * Projects, members and API keys

    [backend/app/api/v1/projects.py] over the tables and the API-key cache.
    The request has passed [get_current_user]; [now], the fresh uuid and the
    random part of a new key are arguments of the handlers. *)

From S2P Require Import Prelude Text PyVal Decimal Schema App Auth.

Local Open Scope Z_scope.

(** ** Requests and responses *)

Record ProjectRecord : Type := {
  pj_id : string; pj_name : string; pj_active : bool; pj_created : timestamp;
  pj_retention_days : Z; pj_payload_mode : string; pj_payload_max_bytes : Z;
  pj_redact_keys : string;
}.

Definition serialize_project_record (p : Project) : ProjectRecord :=
  {| pj_id := p_id p; pj_name := p_name p; pj_active := p_active p;
     pj_created := p_created p; pj_retention_days := p_retention_days p;
     pj_payload_mode := p_payload_mode p;
     pj_payload_max_bytes := p_payload_max_bytes p; pj_redact_keys := p_redact_keys p |}.

Record ProjectCreate : Type := {
  pc_name : string; pc_retention_days : Z; pc_payload_mode : string;
  pc_payload_max_bytes : Z; pc_redact_keys : string;
}.

(** A field is absent, null, or a value. *)
Record ProjectSettingsUpdate : Type := {
  su_retention_days : option (option Z);
  su_payload_mode : option (option string);
  su_payload_max_bytes : option (option Z);
  su_redact_keys : option (option string);
}.

Record ProjectMemberRecord : Type := {
  pm_user : string; pm_email : string; pm_org_role : string; pm_role : string;
  pm_active : bool; pm_created : timestamp; pm_updated : timestamp;
}.

Record ProjectApiKeyCreate : Type := {
  kc_name : string; kc_description : option string; kc_scope : string;
}.

(** The columns of a key a client may see: not its hash. *)
Record ProjectApiKeyRecord : Type := {
  kr_id : string; kr_name : string; kr_description : option string;
  kr_scope : string; kr_active : bool; kr_created : timestamp;
  kr_last_used : option timestamp; kr_revoked : option timestamp;
}.

Definition serialize_api_key_record (k : ProjectApiKey) : ProjectApiKeyRecord :=
  {| kr_id := k_id k; kr_name := k_name k; kr_description := k_description k;
     kr_scope := k_scope k; kr_active := k_active k; kr_created := k_created k;
     kr_last_used := k_last_used k; kr_revoked := k_revoked k |}.

Definition in_org (project_id org : string) (p : Project) : bool :=
  String.eqb (p_id p) project_id && String.eqb (p_org p) org.

Definition not_found : exn := HTTPException 404 "Project not found".

Definition require_some {A} (o : option A) (e : exn) : M App A :=
  match o with Some a => mret a | None => raise e end.

Section projects.
Context (sha256 : string → string).
(** The place of a text in the collation of the database. *)
Context (text_rank : string → Z).

Definition ensure_project_in_org (project_id org : string) : M App unit :=
  p ← query (λ d, select_one (λ p, in_org project_id org p && p_active p) (projects d));
  _ ← require_some p not_found;
  mret tt.

(** ** Projects *)

Definition by_created_name (l : list Project) : list Project :=
  sort_by p_created (sort_by (λ p, text_rank (p_name p)) l).

Definition list_projects (user : CurrentUser) : M App (list ProjectRecord) :=
  require_admin user;;
  rows ← query (λ d, by_created_name
                       (select (λ p, String.eqb (p_org p) (cu_org user)) (projects d)));
  mret (serialize_project_record <$> rows).

Definition list_accessible_projects (user : CurrentUser)
    : M App (list (ProjectRecord * string)) :=
  if String.eqb (cu_role user) "admin" then
    rows ← query (λ d, by_created_name
             (select (λ p, String.eqb (p_org p) (cu_org user) && p_active p) (projects d)));
    mret ((λ p, (serialize_project_record p, "admin"%string)) <$> rows)
  else
    d ← query id;
    mret (p ← by_created_name
                (select (λ p, String.eqb (p_org p) (cu_org user) && p_active p) (projects d));
          m ← select (λ m, String.eqb (m_project m) (p_id p)
                           && String.eqb (m_user m) (sub user)) (memberships d);
          [(serialize_project_record p, m_role m)]).

Definition new_key (random : string) : string := "llmobs_" +:+ random.

Definition create_project (body : ProjectCreate) (user : CurrentUser)
    (uuid random : string) (now : timestamp) : M App (ProjectRecord * string) :=
  require_admin user;;
  let name := strip (pc_name body) in
  raise_when (negb (truthy name)) (HTTPException 400 "Project name is required");;
  let row := {| p_id := uuid; p_org := cu_org user; p_name := name;
                p_key_hash := sha256 (new_key random);
                p_retention_days := pc_retention_days body;
                p_payload_mode := pc_payload_mode body;
                p_payload_max_bytes := pc_payload_max_bytes body;
                p_redact_keys := strip (pc_redact_keys body);
                p_active := true; p_created := now |} in
  begin (
    exists_ ← query (λ d, exists_where (λ p, String.eqb (p_org p) (cu_org user)
                                            && String.eqb (p_name p) name) (projects d));
    raise_when exists_ (HTTPException 409 "Project already exists");;
    insert_into projects set_projects project_conflict row;;
    log_audit (cu_org user) "project.create" (Some (sub user)) (Some uuid)
      [("name", VStr name)]);;
  mret (serialize_project_record row, new_key random).

(** [await redis.delete(f"apikey:{h}")] *)
Definition redis_delete (h : string) : M App unit := modify (with_apikeys (delete h)).

Definition set_key_hash (h : string) (p : Project) : Project :=
  {| p_id := p_id p; p_org := p_org p; p_name := p_name p; p_key_hash := h;
     p_retention_days := p_retention_days p; p_payload_mode := p_payload_mode p;
     p_payload_max_bytes := p_payload_max_bytes p; p_redact_keys := p_redact_keys p;
     p_active := p_active p; p_created := p_created p |}.

Definition rotate_api_key (project_id : string) (user : CurrentUser) (random : string)
    : M App string :=
  require_admin user;;
  let new_hash := sha256 (new_key random) in
  project ← begin (
    current ← query (λ d, select_one (in_org project_id (cu_org user)) (projects d));
    project ← require_some current not_found;
    taken ← query (λ d, exists_where (λ p, negb (in_org project_id (cu_org user) p)
                                          && String.eqb (p_key_hash p) new_hash) (projects d));
    raise_when taken integrity_error;;
    execute (set_projects (update_where (in_org project_id (cu_org user))
                             (set_key_hash new_hash)));;
    log_audit (cu_org user) "api_key.rotate" (Some (sub user)) (Some project_id) [];;
    mret project);
  redis_delete (p_key_hash project);;
  redis_delete new_hash;;
  mret (new_key random).

(** ** Members *)

Definition list_project_members (project_id : string) (user : CurrentUser)
    : M App (list ProjectMemberRecord) :=
  require_admin user;;
  ensure_project_in_org project_id (cu_org user);;
  d ← query id;
  mret (u ← sort_by (λ u, text_rank (u_email u))
              (select (λ u, String.eqb (u_org u) (cu_org user)) (users d));
        m ← select (λ m, String.eqb (m_project m) project_id
                         && String.eqb (m_user m) (u_id u)) (memberships d);
        [{| pm_user := u_id u; pm_email := u_email u; pm_org_role := u_role u;
            pm_role := m_role m; pm_active := u_active u; pm_created := m_created m;
            pm_updated := m_updated m |}]).

Definition is_membership (project_id user_id : string) (m : ProjectMembership) : bool :=
  String.eqb (m_project m) project_id && String.eqb (m_user m) user_id.

(** [INSERT ... ON CONFLICT (project_id, user_id) DO UPDATE] *)
Definition upsert_membership (uuid project_id user_id role : string) (now : timestamp)
    (t : list ProjectMembership) : list ProjectMembership :=
  if exists_where (is_membership project_id user_id) t then
    update_where (is_membership project_id user_id)
      (λ m, {| m_id := m_id m; m_project := m_project m; m_user := m_user m;
               m_role := role; m_created := m_created m; m_updated := now |}) t
  else t ++ [{| m_id := uuid; m_project := project_id; m_user := user_id;
                m_role := role; m_created := now; m_updated := now |}].

Definition active_user (user_id org : string) (u : User) : bool :=
  String.eqb (u_id u) user_id && String.eqb (u_org u) org && u_active u.

Definition assign_project_member (project_id body_user role : string) (user : CurrentUser)
    (uuid : string) (now : timestamp) : M App ProjectMemberRecord :=
  require_admin user;;
  begin (
    ensure_project_in_org project_id (cu_org user);;
    target ← query (λ d, select_one (active_user body_user (cu_org user)) (users d));
    target_user ← require_some target (HTTPException 404 "User not found");
    execute (set_memberships (upsert_membership uuid project_id body_user role now));;
    row ← query (λ d, select_one (is_membership project_id body_user) (memberships d));
    membership ← require_some row (KeyError "membership");
    log_audit (cu_org user) "project.member.assign" (Some (sub user)) (Some project_id)
      [("target_user_id", VStr body_user); ("role", VStr role)];;
    mret {| pm_user := m_user membership; pm_email := u_email target_user;
            pm_org_role := u_role target_user; pm_role := m_role membership;
            pm_active := u_active target_user; pm_created := m_created membership;
            pm_updated := m_updated membership |}).

Definition remove_project_member (project_id user_id : string) (user : CurrentUser)
    : M App unit :=
  require_admin user;;
  begin (
    ensure_project_in_org project_id (cu_org user);;
    target ← query (λ d, select_one (active_user user_id (cu_org user)) (users d));
    _ ← require_some target (HTTPException 404 "User not found");
    found ← query (λ d, exists_where (is_membership project_id user_id) (memberships d));
    execute (set_memberships (delete_where (is_membership project_id user_id)));;
    raise_when (negb found) (HTTPException 404 "Project membership not found");;
    log_audit (cu_org user) "project.member.remove" (Some (sub user)) (Some project_id)
      [("target_user_id", VStr user_id)]).

(** ** API keys *)

(** The project a key operation names; it may be inactive. *)
Definition require_project (project_id : string) (user : CurrentUser) : M App Project :=
  p ← query (λ d, select_one (in_org project_id (cu_org user)) (projects d));
  require_some p not_found.

Definition list_api_keys (project_id : string) (user : CurrentUser)
    : M App (list ProjectApiKeyRecord) :=
  require_admin user;;
  _ ← require_project project_id user;
  rows ← query (λ d, sort_by (λ k, - k_created k)
           (select (λ k, String.eqb (k_project k) project_id) (api_keys d)));
  mret (serialize_api_key_record <$> rows).

Definition create_api_key (project_id : string) (body : ProjectApiKeyCreate)
    (user : CurrentUser) (uuid random : string) (now : timestamp)
    : M App (ProjectApiKeyRecord * string) :=
  require_admin user;;
  let row := {| k_id := uuid; k_project := project_id; k_name := strip (kc_name body);
                k_description := if truthy (default EmptyString (kc_description body))
                                 then strip <$> kc_description body else None;
                k_hash := sha256 (new_key random); k_scope := kc_scope body;
                k_active := true; k_created := now; k_last_used := None;
                k_revoked := None |} in
  begin (
    _ ← require_project project_id user;
    insert_into api_keys set_api_keys api_key_conflict row;;
    log_audit (cu_org user) "api_key.create" (Some (sub user)) (Some project_id)
      [("name", VStr (kc_name body)); ("scope", VStr (kc_scope body))]);;
  mret (serialize_api_key_record row, new_key random).

(** The [WHERE] of the update: the key, in a project of the organization. *)
Definition revocable (project_id key_id org : string) (d : Db) (k : ProjectApiKey) : bool :=
  String.eqb (k_id k) key_id && String.eqb (k_project k) project_id
  && exists_where (in_org project_id org) (projects d).

Definition revoke_row (now : timestamp) (k : ProjectApiKey) : ProjectApiKey :=
  {| k_id := k_id k; k_project := k_project k; k_name := k_name k;
     k_description := k_description k; k_hash := k_hash k; k_scope := k_scope k;
     k_active := false; k_created := k_created k; k_last_used := k_last_used k;
     k_revoked := match k_revoked k with Some t => Some t | None => Some now end |}.

Definition revoke_api_key (project_id key_id : string) (user : CurrentUser)
    (now : timestamp) : M App bool :=
  require_admin user;;
  key ← begin (
    d ← query id;
    let mine := revocable project_id key_id (cu_org user) d in
    execute (set_api_keys (update_where mine (revoke_row now)));;
    key ← require_some (select_one mine (api_keys d)) (HTTPException 404 "API key not found");
    log_audit (cu_org user) "api_key.revoke" (Some (sub user)) (Some project_id)
      [("key_id", VStr key_id)];;
    mret key);
  redis_delete (k_hash key);;
  mret true.

(** ** Settings *)

(** Retention days, payload mode, maximal bytes, redacted keys. *)
Definition settings_of (p : Project) : Z * string * Z * string :=
  (p_retention_days p, p_payload_mode p, p_payload_max_bytes p, p_redact_keys p).

Definition get_settings (project_id : string) (user : CurrentUser)
    : M App (Z * string * Z * string) :=
  require_admin user;;
  p ← require_project project_id user;
  mret (settings_of p).

(** [body.model_dump(exclude_unset=True)], redacted keys stripped. *)
Definition settings_values (body : ProjectSettingsUpdate) : dict :=
  match su_retention_days body with
  | Some v => [("retention_days", match v with Some z => VInt z | None => VNone end)]
  | None => [] end ++
  match su_payload_mode body with
  | Some v => [("payload_storage_mode", match v with Some s => VStr s | None => VNone end)]
  | None => [] end ++
  match su_payload_max_bytes body with
  | Some v => [("payload_max_bytes", match v with Some z => VInt z | None => VNone end)]
  | None => [] end ++
  match su_redact_keys body with
  | Some v => [("payload_redact_keys",
                match v with Some s => VStr (strip s) | None => VNone end)]
  | None => [] end.

(** [CASE WHEN present THEN value ELSE column END]; the columns are NOT NULL. *)
Definition new_column {A} (field : option (option A)) (old : A) : option A :=
  match field with Some v => v | None => Some old end.

Definition apply_settings (body : ProjectSettingsUpdate) (p : Project) : option Project :=
  days ← new_column (su_retention_days body) (p_retention_days p);
  mode ← new_column (su_payload_mode body) (p_payload_mode p);
  bytes ← new_column (su_payload_max_bytes body) (p_payload_max_bytes p);
  redact ← new_column (option_map (option_map strip) (su_redact_keys body)) (p_redact_keys p);
  Some {| p_id := p_id p; p_org := p_org p; p_name := p_name p;
          p_key_hash := p_key_hash p; p_retention_days := days; p_payload_mode := mode;
          p_payload_max_bytes := bytes; p_redact_keys := redact; p_active := p_active p;
          p_created := p_created p |}.

Definition update_settings (project_id : string) (body : ProjectSettingsUpdate)
    (user : CurrentUser) : M App (Z * string * Z * string) :=
  require_admin user;;
  raise_when (match settings_values body with [] => true | _ => false end)
    (HTTPException 400 "No settings provided");;
  begin (
    p ← require_project project_id user;
    updated ← require_some (apply_settings body p) integrity_error;
    execute (set_projects (update_where (in_org project_id (cu_org user))
      (λ q, default q (apply_settings body q))));;
    log_audit (cu_org user) "project.settings.update" (Some (sub user)) (Some project_id)
      (settings_values body);;
    mret (settings_of updated)).

(** ** Interleaving with requests *)

(** One request of the control plane, or the resolution of a key; a new
    project's key hash is not one that is cached. *)
Inductive key_step : App → App → Prop :=
| ks_request creds x_api_key scope now s :
    key_step s (get_project_from_api_key sha256 creds x_api_key scope now s).2
| ks_create body user uuid random now s :
    apikey_cache s !! sha256 (new_key random) = None →
    key_step s (create_project body user uuid random now s).2
| ks_rotate project_id user random s : key_step s (rotate_api_key project_id user random s).2
| ks_create_key project_id body user uuid random now s :
    key_step s (create_api_key project_id body user uuid random now s).2
| ks_revoke project_id key_id user now s :
    key_step s (revoke_api_key project_id key_id user now s).2
| ks_settings project_id body user s : key_step s (update_settings project_id body user s).2
| ks_assign project_id body_user role user uuid now s :
    key_step s (assign_project_member project_id body_user role user uuid now s).2
| ks_remove project_id user_id user s :
    key_step s (remove_project_member project_id user_id user s).2.

(** What the tables say about a request with an API key. *)
Definition key_decision (api_key required_scope : string) (d : Db) : result ApiProject :=
  if negb (truthy api_key) then Raise (HTTPException 401 "API key required")
  else match lookup_api_key (sha256 api_key) d with
       | None => Raise (HTTPException 401 "Invalid API key")
       | Some p => if api_key_allows (ap_scope p) required_scope then Ok p
                   else Raise (HTTPException 403 "API key scope denied")
       end.

(** ** Facts *)

(** Row identities are unique and every cached key is what the tables say. *)
Record keys_ok (d : Db) (c : gmap string (ApiProject * timestamp)) : Prop := {
  ko_projects : NoDup (p_id <$> projects d);
  ko_keys : NoDup (k_id <$> api_keys d);
  ko_cache : ∀ h p e, c !! h = Some (p, e) → lookup_api_key h d = Some p;
}.

Definition keys_inv (s : App) : Prop := keys_ok (db s) (apikey_cache s).

(** The tables a key's meaning depends on, and the cache. *)
Definition keys_are (ps : list Project) (ks : list ProjectApiKey)
    (c : gmap string (ApiProject * timestamp)) (s : App) : Prop :=
  projects (db s) = ps ∧ api_keys (db s) = ks ∧ apikey_cache s = c.

Lemma lookup_api_key_ext h d d' :
  projects d' = projects d → api_keys d' = api_keys d →
  lookup_api_key h d' = lookup_api_key h d.
Proof. unfold lookup_api_key. by intros -> ->. Qed.

Lemma keys_are_inv s s' :
  keys_inv s → keys_are (projects (db s)) (api_keys (db s)) (apikey_cache s) s' →
  keys_inv s'.
Proof.
  intros [H1 H2 H3] (E1 & E2 & E3). constructor; [by rewrite E1|by rewrite E2|].
  intros h p e. rewrite E3. intros Hc. rewrite (lookup_api_key_ext _ (db s)) by done. by eapply H3.
Qed.

(** ** The lookup under the statements of the handlers *)

(** A new key row, or a new project with another hash, keeps what is found. *)
Lemma lookup_add_key h d k p :
  lookup_api_key h d = Some p →
  lookup_api_key h (set_api_keys (λ _, api_keys d ++ [k]) d) = Some p.
Proof.
  unfold lookup_api_key. simpl. destruct (select_one _ (projects d)); [done|].
  rewrite select_one_app. by destruct (select_one _ (api_keys d)).
Qed.

Lemma lookup_add_project h d r p :
  p_key_hash r ≠ h → lookup_api_key h d = Some p →
  lookup_api_key h (set_projects (λ _, projects d ++ [r]) d) = Some p.
Proof.
  intros Hr%String.eqb_neq. unfold lookup_api_key. simpl.
  rewrite (select_one_app _ _ r). destruct (select_one _ (projects d)); [done|].
  rewrite Hr. simpl. destruct (select_one _ (api_keys d)) as [k|]; [|done]. simpl.
  rewrite (select_one_app _ _ r). by destruct (select_one _ (projects d)).
Qed.

(** Columns the lookup does not read, or only of rows with another hash. *)
Lemma lookup_update_keys h d q f :
  (∀ k, k ∈ api_keys d → q k = true → k_hash (f k) = k_hash k ∧
     (k_hash k = h → k_active (f k) = k_active k ∧ k_revoked (f k) = k_revoked k)) →
  (∀ k, k_id (f k) = k_id k ∧ k_project (f k) = k_project k ∧ k_scope (f k) = k_scope k) →
  lookup_api_key h (set_api_keys (update_where q f) d) = lookup_api_key h d.
Proof.
  intros H1 H2. unfold lookup_api_key. simpl.
  destruct (select_one _ (projects d)); [done|].
  rewrite select_one_update.
  - destruct (select_one _ (api_keys d)) as [k|]; [|done]. simpl.
    destruct (q k); [|done]. by destruct (H2 k) as (-> & -> & ->).
  - intros k Hk Hq. destruct (H1 k Hk Hq) as [-> Hh].
    destruct (String.eqb_spec (k_hash k) h) as [E|]; [|done]. by destruct (Hh E) as [-> ->].
Qed.

Lemma lookup_update_projects h d q f :
  (∀ p, p ∈ projects d → q p = true →
     String.eqb (p_key_hash (f p)) h = String.eqb (p_key_hash p) h) →
  (∀ p, p_id (f p) = p_id p ∧ p_org (f p) = p_org p ∧ p_name (f p) = p_name p ∧
        p_active (f p) = p_active p) →
  lookup_api_key h (set_projects (update_where q f) d) = lookup_api_key h d.
Proof.
  intros H1 H2. unfold lookup_api_key. simpl. rewrite select_one_update.
  - destruct (select_one _ (projects d)) as [p|]; simpl.
    + destruct (q p); [|done]. by destruct (H2 p) as (-> & -> & -> & _).
    + destruct (select_one _ (api_keys d)) as [k|]; [|done]. simpl.
      rewrite select_one_update.
      * destruct (select_one _ (projects d)) as [p|]; [|done]. simpl.
        destruct (q p); [|done]. by destruct (H2 p) as (-> & -> & -> & _).
      * intros p _ _. by destruct (H2 p) as (-> & _ & _ & ->).
  - intros p Hp Hq. rewrite H1 by done. by destruct (H2 p) as (_ & _ & _ & ->).
Qed.

(** ** Handlers that leave keys alone *)

Lemma keeps_execute_are ps ks c f :
  (∀ d, projects (f d) = projects d ∧ api_keys (f d) = api_keys d) →
  keeps (keys_are ps ks c) (execute f).
Proof.
  intros Hf. apply keeps_modify. intros s (H1 & H2 & H3).
  destruct (Hf (db s)) as [E1 E2]. unfold keys_are. simpl. by rewrite E1, E2.
Qed.

Lemma keeps_begin_are {A} ps ks c (m : M App A) :
  keeps (keys_are ps ks c) m → keeps (keys_are ps ks c) (begin m).
Proof. intros Hm. apply keeps_atomic; [done|]. by intros s s1 (H1 & H2 & _) (_ & _ & H3). Qed.

Lemma keeps_query {A} I (f : Db → A) : keeps I (query f).
Proof. by intros s Hs. Qed.

Lemma keeps_require_some {A} I (o : option A) e : keeps I (require_some o e).
Proof. destruct o; by intros s Hs. Qed.

Lemma keeps_require_admin I user : keeps I (require_admin user).
Proof. apply keeps_raise_when. Qed.

Lemma keeps_log_audit I org action uid rid meta :
  (∀ s f, I s → I (with_db (set_audit_log f) s)) →
  keeps I (log_audit org action uid rid meta).
Proof.
  intros HI s Hs. unfold log_audit, gets, mbind, M_bind.
  destruct (audit_fault s); [done|]. by apply HI.
Qed.

Create HintDb same discriminated.
Hint Resolve keeps_ret keeps_raise keeps_gets keeps_lift keeps_raise_when keeps_bind
  keeps_begin_are keeps_query keeps_require_some keeps_require_admin keeps_log_audit
  keeps_execute_are : same.
Hint Extern 1 (∀ _, keeps _ _) => intros : same.
Hint Extern 1 (∀ _ _, keys_are _ _ _ _ → keys_are _ _ _ _) => intros : same.
Hint Extern 1 (∀ _, _ = _ ∧ _ = _) => intros; split; reflexivity : same.
Hint Extern 3 (keeps _ (match ?x with _ => _ end)) => destruct x : same.
Hint Extern 3 (keeps _ (let _ := _ in _)) => cbv zeta : same.
Hint Extern 1 (keys_are _ _ _ (with_db (set_audit_log _) _)) => assumption : same.
Hint Extern 2 (keeps _ (ensure_project_in_org _ _)) => unfold ensure_project_in_org : same.

Lemma keep_inv {A} (m : M App A) :
  (∀ ps ks c, keeps (keys_are ps ks c) m) → keeps keys_inv m.
Proof. intros Hm s Hs. apply (keys_are_inv s); [done|]. by apply Hm. Qed.

Lemma members_inv project_id u role user uuid now :
  keeps keys_inv (assign_project_member project_id u role user uuid now) ∧
  keeps keys_inv (remove_project_member project_id u user).
Proof.
  unfold assign_project_member, remove_project_member.
  split; apply keep_inv; intros ps ks c; eauto 20 with same.
Qed.

(** ** Handlers that write keys and projects *)

Definition cache_is (c : gmap string (ApiProject * timestamp)) (s : App) : Prop :=
  apikey_cache s = c.

Lemma keeps_execute_cache c f : keeps (cache_is c) (execute f).
Proof. by apply keeps_modify. Qed.

Lemma keeps_insert_cache {A} c (get : Db → list A) set conflict r :
  keeps (cache_is c) (insert_into get set conflict r).
Proof.
  apply keeps_bind; [apply keeps_query|]. intros t.
  apply keeps_bind; [apply keeps_lift|]. intros t'. apply keeps_execute_cache.
Qed.

Hint Resolve keeps_execute_cache keeps_insert_cache : same.
Hint Extern 1 (∀ _ _, cache_is _ _ → cache_is _ _) => intros : same.
Hint Extern 1 (cache_is _ (with_db (set_audit_log _) _)) => assumption : same.

(** A transaction that fails leaves tables and cache as they were. *)
Lemma begin_raise_inv {A} (m : M App A) s e s' :
  (∀ c, keeps (cache_is c) m) → begin m s = (Raise e, s') → keys_inv s → keys_inv s'.
Proof.
  intros Hm H Hs. pose proof (Hm (apikey_cache s) s eq_refl) as Hc.
  unfold begin, atomic in H. destruct (m s) as [[a|e'] s1]; [done|]. injection H as <- <-.
  unfold keys_inv, rollback. simpl in *. by rewrite Hc.
Qed.

(** A handler ends in a transaction, or in what follows its commit. *)
Lemma keys_inv_begin_last {A} (m : M App A) s :
  (∀ c, keeps (cache_is c) m) → (∀ a s', keys_inv s → m s = (Ok a, s') → keys_inv s') →
  keys_inv s → keys_inv (begin m s).2.
Proof.
  intros Hc Hok Hs. destruct (begin m s) as [[a|e] s'] eqn:E; simpl.
  - apply (Hok a); [done|]. by apply begin_ok_inv.
  - by eapply begin_raise_inv.
Qed.

Lemma keys_inv_begin {A B} (m : M App A) (f : A → M App B) s :
  (∀ c, keeps (cache_is c) m) →
  (∀ a s', keys_inv s → m s = (Ok a, s') → keys_inv (f a s').2) →
  keys_inv s → keys_inv ((begin m ≫= f) s).2.
Proof.
  intros Hc Hok Hs. unfold mbind, M_bind.
  destruct (begin m s) as [[a|e] s'] eqn:E; simpl.
  - apply (Hok a); [done|]. by apply begin_ok_inv.
  - by eapply begin_raise_inv.
Qed.

Lemma require_some_ok {A} (o : option A) e s a s' :
  require_some o e s = (Ok a, s') → o = Some a ∧ s' = s.
Proof. destruct o; [by intros [= <- <-]|done]. Qed.

(** A column of one row: the row a key column selects. *)
Lemma in_org_inj ps p q pid org :
  NoDup (p_id <$> ps) → p ∈ ps → q ∈ ps → in_org pid org p = true →
  in_org pid org q = true → p = q.
Proof.
  intros Hn Hp Hq [E1%String.eqb_eq _]%andb_true_iff [E2%String.eqb_eq _]%andb_true_iff.
  apply (NoDup_column_inj p_id ps); [done..|congruence].
Qed.

Lemma keys_inv_check {B} b e (f : unit → M App B) s :
  keys_inv s → keys_inv (f tt s).2 → keys_inv ((raise_when b e ≫= f) s).2.
Proof. by destruct b. Qed.

Ltac checks := unfold require_admin, require_role; cbv zeta;
  repeat (apply keys_inv_check; [done|]).

Lemma keys_ok_audit d c f : keys_ok d c → keys_ok (set_audit_log f d) c.
Proof.
  intros [H1 H2 H3]. constructor; [done..|]. intros h p e Hc.
  rewrite (lookup_api_key_ext h d) by done. by eapply H3.
Qed.

Lemma keys_ok_add_project d c r :
  c !! p_key_hash r = None → (∀ x, x ∈ projects d → project_conflict r x = false) →
  keys_ok d c → keys_ok (set_projects (λ _, projects d ++ [r]) d) c.
Proof.
  intros Hc Hr [H1 H2 H3]. constructor; [|done|].
  - apply NoDup_column_app; [|done]. intros x Hx E. specialize (Hr x Hx).
    unfold project_conflict in Hr. by rewrite E, String.eqb_refl in Hr.
  - intros h p e Hh. apply lookup_add_project; [|by eapply H3]. intros <-. congruence.
Qed.

Lemma keys_ok_add_key d c r :
  (∀ x, x ∈ api_keys d → api_key_conflict r x = false) →
  keys_ok d c → keys_ok (set_api_keys (λ _, api_keys d ++ [r]) d) c.
Proof.
  intros Hr [H1 H2 H3]. constructor; [done| |].
  - apply NoDup_column_app; [|done]. intros x Hx E. specialize (Hr x Hx).
    unfold api_key_conflict in Hr. by rewrite E, String.eqb_refl in Hr.
  - intros h p e Hh. apply lookup_add_key. by eapply H3.
Qed.

Lemma keys_ok_touch d c id now : keys_ok d c → keys_ok (touch_api_key id now d) c.
Proof.
  intros [H1 H2 H3]. constructor; [done| |].
  - by rewrite <- (update_where_column k_id (λ k, String.eqb (k_id k) id)
      (λ k, Build_ProjectApiKey (k_id k) (k_project k) (k_name k) (k_description k) (k_hash k)
        (k_scope k) (k_active k) (k_created k) (Some now) (k_revoked k)) (api_keys d)) in H2.
  - intros h p e Hh. unfold touch_api_key. rewrite lookup_update_keys; [by eapply H3| |done].
    by intros k _ _.
Qed.

Lemma apply_settings_columns body p q :
  apply_settings body p = Some q →
  p_id q = p_id p ∧ p_org q = p_org p ∧ p_name q = p_name p ∧ p_active q = p_active p ∧
  p_key_hash q = p_key_hash p.
Proof.
  unfold apply_settings. intros H.
  do 4 (apply bind_Some in H as (? & _ & H)). by injection H as <-.
Qed.

Lemma keys_ok_settings d c q body :
  keys_ok d c →
  keys_ok (set_projects (update_where q (λ p, default p (apply_settings body p))) d) c.
Proof.
  assert (Hcol : ∀ p, let r := default p (apply_settings body p) in
    p_id r = p_id p ∧ p_org r = p_org p ∧ p_name r = p_name p ∧ p_active r = p_active p ∧
    p_key_hash r = p_key_hash p).
  { intros p. destruct (apply_settings body p) eqn:E; [|done].
    by apply apply_settings_columns in E. }
  intros [H1 H2 H3]. constructor; [|done|].
  - simpl. rewrite (update_where_column p_id); [done|]. intros p. apply Hcol.
  - intros h p e Hh. rewrite lookup_update_projects; [by eapply H3| |].
    + intros r _ _. by destruct (Hcol r) as (_ & _ & _ & _ & ->).
    + intros r. by destruct (Hcol r) as (-> & -> & -> & -> & _).
Qed.

(** The cached entries of a rotated key, old and new, are deleted. *)
Lemma keys_ok_rotate d c pid org p new :
  p ∈ projects d → in_org pid org p = true → keys_ok d c →
  keys_ok (set_projects (update_where (in_org pid org) (set_key_hash new)) d)
    (delete new (delete (p_key_hash p) c)).
Proof.
  intros Hp Hpo [H1 H2 H3]. constructor; [|done|].
  - simpl. by rewrite (update_where_column p_id).
  - intros h a e Hh. apply lookup_delete_Some in Hh as [Hn Hh].
    apply lookup_delete_Some in Hh as [Ho Hh].
    rewrite lookup_update_projects; [by eapply H3| |done].
    intros r Hr Hro. rewrite (in_org_inj _ r p _ _ H1 Hr Hp Hro Hpo). simpl.
    apply String.eqb_neq in Hn as ->. symmetry. by apply String.eqb_neq.
Qed.

Lemma keys_ok_revoke d c pid kid org now k :
  k ∈ api_keys d → revocable pid kid org d k = true → keys_ok d c →
  keys_ok (set_api_keys (update_where (revocable pid kid org d) (revoke_row now)) d)
    (delete (k_hash k) c).
Proof.
  intros Hk Hkr [H1 H2 H3]. constructor; [done| |].
  - simpl. by rewrite (update_where_column k_id).
  - intros h a e Hh. apply lookup_delete_Some in Hh as [Hn Hh].
    rewrite lookup_update_keys; [by eapply H3| |done].
    intros r Hr Hrr. split; [done|]. intros Hh'. destruct Hn. subst h. f_equal.
    apply (NoDup_column_inj k_id (api_keys d)); [done..|].
    unfold revocable in Hkr, Hrr. rewrite !andb_true_iff, !String.eqb_eq in Hkr, Hrr.
    destruct Hkr as [[-> _] _]. by destruct Hrr as [[-> _] _].
Qed.

Lemma create_project_inv body user uuid random now s :
  apikey_cache s !! sha256 (new_key random) = None → keys_inv s →
  keys_inv (create_project body user uuid random now s).2.
Proof.
  intros Hfresh Hs. unfold create_project. checks.
  apply keys_inv_begin; [by intros; eauto 20 with same| |done].
  intros a s' H Hrun. app_inv. apply keys_ok_audit, keys_ok_add_project; done.
Qed.

Lemma create_api_key_inv pid body user uuid random now :
  keeps keys_inv (create_api_key pid body user uuid random now).
Proof.
  intros s Hs. unfold create_api_key, require_project. checks.
  apply keys_inv_begin; [by intros; eauto 20 with same| |done].
  intros a s' H Hrun. app_inv.
  match goal with H : require_some _ _ _ = _ |- _ => apply require_some_ok in H as [_ ->] end.
  apply keys_ok_audit, keys_ok_add_key; done.
Qed.

Lemma update_settings_inv pid body user : keeps keys_inv (update_settings pid body user).
Proof.
  intros s Hs. unfold update_settings, require_project. checks.
  apply keys_inv_begin_last; [by intros; eauto 20 with same| |done].
  intros a s' H Hrun. app_inv.
  repeat match goal with H : require_some _ _ _ = _ |- _ =>
    apply require_some_ok in H as [_ ->] end.
  by apply keys_ok_audit, keys_ok_settings.
Qed.

Lemma rotate_api_key_inv pid user random : keeps keys_inv (rotate_api_key pid user random).
Proof.
  intros s Hs. unfold rotate_api_key, redis_delete. checks.
  apply keys_inv_begin; [by intros; eauto 20 with same| |done].
  intros p s' H Hrun. app_inv.
  match goal with H : require_some _ _ _ = _ |- _ => apply require_some_ok in H as [Hp ->] end.
  apply select_one_Some in Hp as [Hp Hpo].
  by apply keys_ok_audit, keys_ok_rotate.
Qed.

Lemma revoke_api_key_inv pid kid user now : keeps keys_inv (revoke_api_key pid kid user now).
Proof.
  intros s Hs. unfold revoke_api_key, redis_delete. checks.
  apply keys_inv_begin; [by intros; eauto 20 with same| |done].
  intros k s' H Hrun. app_inv.
  match goal with H : require_some _ _ _ = _ |- _ => apply require_some_ok in H as [Hk ->] end.
  apply select_one_Some in Hk as [Hk Hkr].
  by apply keys_ok_audit, keys_ok_revoke.
Qed.

(** ** Resolving a key *)

Lemma load_api_key_spec h scope now s :
  (load_api_key h scope now s).1
  = (match lookup_api_key h (db s) with
     | None => Raise (HTTPException 401 "Invalid API key")
     | Some p => if api_key_allows (ap_scope p) scope then Ok p
                 else Raise (HTTPException 403 "API key scope denied")
     end) ∧
  (keys_inv s → keys_inv (load_api_key h scope now s).2).
Proof.
  unfold load_api_key. erewrite bind_run by reflexivity. cbv beta.
  destruct (lookup_api_key h (db s)) as [p|] eqn:El; [|done].
  set (s1 := match ap_key_id p with
             | Some id => with_db (touch_api_key id now) s | None => s end).
  assert (E1 : (match (Some p ≫= ap_key_id) with
                | Some id => execute (touch_api_key id now) | None => mret tt end) s
               = (Ok tt, s1)).
  { unfold s1. simpl. by destruct (ap_key_id p). }
  rewrite (bind_run _ _ _ _ _ E1). destruct (api_key_allows (ap_scope p) scope); simpl.
  - split; [done|]. intros Hs. 
    assert (H1 : keys_ok (db s1) (apikey_cache s1)).
    { unfold s1. destruct (ap_key_id p); [|done]. by apply keys_ok_touch. }
    assert (E2 : lookup_api_key h (db s1) = Some p).
    { unfold s1. destruct (ap_key_id p); [|done]. simpl. unfold touch_api_key.
      by rewrite lookup_update_keys. }
    destruct H1 as [K1 K2 K3]. constructor; [done..|]. simpl. intros h' p' e.
    intros [(<- & [= <- _])|(_ & ?)]%lookup_insert_Some; [done|by eapply K3].
  - split; [done|]. intros Hs. unfold s1. destruct (ap_key_id p); [|done].
    by apply keys_ok_touch.
Qed.

Lemma get_project_from_api_key_spec creds x_api_key scope now s :
  keys_inv s →
  let key := default EmptyString
    (if truthy (default EmptyString x_api_key) then x_api_key else creds) in
  (get_project_from_api_key sha256 creds x_api_key scope now s).1
  = key_decision key scope (db s) ∧
  keys_inv (get_project_from_api_key sha256 creds x_api_key scope now s).2.
Proof.
  intros Hs. unfold get_project_from_api_key, key_decision. cbv zeta.
  set (key := default EmptyString _). destruct (truthy key); [|done]. simpl negb.
  erewrite bind_run by reflexivity. erewrite bind_run by reflexivity. cbv beta.
  unfold redis_get. destruct (apikey_cache s !! sha256 key) as [[p e]|] eqn:Ec.
  - rewrite (ko_cache _ _ Hs _ _ _ Ec). destruct (now <? e).
    + by destruct (api_key_allows (ap_scope p) scope).
    + destruct (load_api_key_spec (sha256 key) scope now s) as [-> ?].
      rewrite (ko_cache _ _ Hs _ _ _ Ec). auto.
  - destruct (load_api_key_spec (sha256 key) scope now s) as [-> ?]. auto.
Qed.

Lemma key_step_inv s s' : key_step s s' → keys_inv s → keys_inv s'.
Proof.
  intros H Hs. destruct H.
  - by apply get_project_from_api_key_spec.
  - by apply create_project_inv.
  - by apply rotate_api_key_inv.
  - by apply create_api_key_inv.
  - by apply revoke_api_key_inv.
  - by apply update_settings_inv.
  - by apply members_inv.
  - by apply (members_inv _ _ EmptyString _ EmptyString 0).
Qed.

(** C7: the API-key cache never changes an answer. After any sequence of
    requests, key creations, rotations, revocations, project and member
    changes, resolving a key gives what the tables say at that moment: 401
    for a key that is unknown, revoked or rotated away, 403 outside its scope,
    else its project, whether or not it was cached. *)
Theorem api_key_cache_transparent s0 s creds x_api_key scope now :
  keys_inv s0 → rtc key_step s0 s →
  (get_project_from_api_key sha256 creds x_api_key scope now s).1
  = key_decision (default EmptyString
      (if truthy (default EmptyString x_api_key) then x_api_key else creds)) scope (db s).
Proof.
  intros H0 Hr. apply get_project_from_api_key_spec.
  revert H0. induction Hr as [|? ? ? Hs _ IH]; [done|]. intros H0. apply IH.
  by eapply key_step_inv.
Qed.

(** C25: revocation and rotation take effect at once: after a successful revoke,
    or rotation, the old key resolves to nothing at any time, unless its hash
    is also the hash of another key. *)
Theorem revoked_key_denied pid kid user random t s s' scope now k :
  keys_inv s → k ∈ api_keys (db s) → k_id k = kid →
  (∀ k', k' ∈ api_keys (db s) → k_hash k' = k_hash k → k' = k) →
  (∀ p, p ∈ projects (db s) → p_key_hash p ≠ k_hash k) →
  sha256 random = k_hash k → truthy random = true →
  revoke_api_key pid kid user t s = (Ok true, s') →
  (get_project_from_api_key sha256 None (Some random) scope now s').1
  = Raise (HTTPException 401 "Invalid API key").
Proof.
  intros Hs Hk Hid Huniq Hleg Hh Ht Hrun.
  pose proof (revoke_api_key_inv pid kid user t s Hs) as Hs'. rewrite Hrun in Hs'.
  destruct (get_project_from_api_key_spec None (Some random) scope now s' Hs') as [-> _].
  change (default EmptyString (Some random)) with random. rewrite Ht.
  change (default EmptyString (Some random)) with random. unfold key_decision.
  rewrite Ht, Hh. cbn [negb].
  unfold revoke_api_key, redis_delete in Hrun. app_inv.
  match goal with H : require_some _ _ _ = _ |- _ => apply require_some_ok in H as [Hsel ->] end.
  unfold lookup_api_key. simpl.
  apply select_one_Some in Hsel as [Hin Hrow].
  assert (x1 = k) as ->.
  { apply (NoDup_column_inj k_id (api_keys (db s))); [apply Hs|done..|].
    unfold revocable in Hrow. rewrite !andb_true_iff, String.eqb_eq in Hrow.
    by destruct Hrow as [[? _] _]. }
  destruct (select_one _ (projects (db s))) as [p|] eqn:Ep.
  { apply select_one_Some in Ep as [Hp [Hph%String.eqb_eq _]%andb_true_iff].
    by destruct (Hleg p Hp). }
  destruct (select_one _ (update_where _ _ _)) as [r|] eqn:Er; [|done].
  apply select_one_Some in Er as [Hr Hra]. rewrite !andb_true_iff, String.eqb_eq in Hra.
  destruct Hra as [[Hrh Hact] _].
  apply elem_of_update_where in Hr as (r0 & Hr0 & ->).
  destruct (revocable _ _ _ _ r0) eqn:Hq; [done|].
  rewrite (Huniq r0 Hr0 Hrh) in Hq. congruence.
Qed.
End projects.

(** ** Witnesses *)

Definition plain_hash (s : string) : string := "h:" +:+ s.

Definition sample_project : Project :=
  {| p_id := "p1"; p_org := "org"; p_name := "Default"; p_key_hash := "h:legacy";
     p_retention_days := 90; p_payload_mode := "all"; p_payload_max_bytes := 262144;
     p_redact_keys := "password"; p_active := true; p_created := 0 |}.

Definition boss : CurrentUser :=
  {| sub := "u1"; cu_org := "org"; cu_role := "admin"; cu_platform_admin := false |}.

Definition one_project : App :=
  {| db := set_projects (λ _, [sample_project]) empty_db;
     apikey_cache := ∅; pricing_cache := ∅; audit_fault := None |}.

Definition ingest_key : ProjectApiKeyCreate :=
  {| kc_name := "ci"; kc_description := None; kc_scope := "ingest" |}.

(** A key is made and used once, so it is cached. *)
Definition key_in_use : App :=
  (get_project_from_api_key plain_hash None (Some "llmobs_k") "ingest" second
    (create_api_key plain_hash "p1" ingest_key boss "k1" "k" 0 one_project).2).2.

Lemma one_project_inv : keys_inv one_project.
Proof. constructor; [apply NoDup_singleton|apply NoDup_nil_2|done]. Qed.

Lemma key_in_use_steps : rtc (key_step plain_hash) one_project key_in_use.
Proof.
  eapply rtc_l; [apply ks_create_key|]. eapply rtc_l; [apply ks_request|]. apply rtc_refl.
Qed.

Lemma api_key_cache_transparent_witness :
  is_Some (apikey_cache key_in_use !! "h:llmobs_k") ∧
  (get_project_from_api_key plain_hash None (Some "llmobs_k") "read" (2 * second) key_in_use).1
  = Raise (HTTPException 403 "API key scope denied").
Proof.
  split; [vm_compute; by eexists|].
  exact (api_key_cache_transparent plain_hash one_project key_in_use None (Some "llmobs_k")
    "read" (2 * second) one_project_inv key_in_use_steps).
Defined.

Definition key_row : ProjectApiKey :=
  default {| k_id := "k1"; k_project := "p1"; k_name := "ci"; k_description := None;
             k_hash := "h:llmobs_k"; k_scope := "ingest"; k_active := true; k_created := 0;
             k_last_used := None; k_revoked := None |} (head (api_keys (db key_in_use))).

Lemma key_in_use_inv : keys_inv key_in_use.
Proof.
  eapply (rtc_ind_r keys_inv); [apply one_project_inv| |apply key_in_use_steps].
  intros. by eapply key_step_inv.
Qed.

Lemma revoked_key_denied_witness :
  ∃ s', revoke_api_key "p1" "k1" boss (2 * second) key_in_use = (Ok true, s') ∧
  (get_project_from_api_key plain_hash None (Some "llmobs_k") "ingest" (3 * second) s').1
  = Raise (HTTPException 401 "Invalid API key").
Proof.
  eexists. split; [vm_compute; reflexivity|].
  apply (revoked_key_denied plain_hash "p1" "k1" boss "llmobs_k" (2 * second) key_in_use _
    "ingest" (3 * second) key_row).
  - apply key_in_use_inv.
  - by left.
  - done.
  - by intros k' [->|?%not_elem_of_nil]%elem_of_cons _.
  - by intros p [->|?%not_elem_of_nil]%elem_of_cons.
  - done.
  - done.
  - by vm_compute.
Defined.

(** ** A race

    The load of a key reads the tables, then writes the cache.  A revocation
    between the two deletes nothing, and the stale entry then answers for its
    60 seconds. *)
Example revoked_key_survives_race :
  let s := (create_api_key plain_hash "p1" ingest_key boss "k1" "k" 0 one_project).2 in
  let row := lookup_api_key "h:llmobs_k" (db s) in
  let s1 := (revoke_api_key "p1" "k1" boss second s).2 in
  ∃ p, row = Some p ∧
    (revoke_api_key "p1" "k1" boss second s).1 = Ok true ∧
    (get_project_from_api_key plain_hash None (Some "llmobs_k") "ingest" (60 * second)
      (cache_api_key "h:llmobs_k" p second s1)).1 = Ok p.
Proof. eexists. split; [reflexivity|]. split; by vm_compute. Qed.
