(* ===== verification/Users.v ===== *)
(** * Users, roles and invites

    [backend/app/api/v1/users.py] over the tables.  [now], the fresh uuids and
    the random token of an invite are arguments of the handlers; the request
    has passed [get_current_user]. *)

From S2P Require Import Prelude Text PyVal Decimal Schema App Auth Projects.

Local Open Scope Z_scope.

Definition INVITE_TTL_HOURS : Z := 24.

(** ** Requests and responses *)

Record UserProjectAssignment : Type := { ua_project : string; ua_role : string }.

Record UserInviteCreate : Type := {
  ic_email : string; ic_role : string; ic_assignments : list UserProjectAssignment;
}.

(** [validate_unique_project_assignments] *)
Definition unique_assignments (l : list UserProjectAssignment) : bool :=
  bool_decide (NoDup (ua_project <$> l)).

Record UserProjectAccessRecord : Type := {
  pa_project : string; pa_name : string; pa_role : option string; pa_active : bool;
  pa_retention_days : Z;
}.

Definition invalid_assignments : exn :=
  HTTPException 400 "Invite project assignments are invalid".

Definition assignment_of (item : pyval) : result UserProjectAssignment :=
  match item with
  | VDict d =>
      match dict_get "project_id" d with
      | Some (VStr project_id) =>
          match dict_get "role" d with
          | Some (VStr role) =>
              if inb role ["member"; "viewer"] then
                Ok {| ua_project := project_id; ua_role := role |}
              else Raise invalid_assignments
          | Some (VList _) => Raise (TypeError "unhashable type: 'list'")
          | Some (VDict _) => Raise (TypeError "unhashable type: 'dict'")
          | _ => Raise invalid_assignments
          end
      | _ => Raise invalid_assignments
      end
  | _ => Raise invalid_assignments
  end.

Fixpoint assignments_of (l : list pyval) : result (list UserProjectAssignment) :=
  match l with
  | [] => Ok []
  | x :: l' => a ← assignment_of x; r ← assignments_of l'; Ok (a :: r)
  end.

Definition serialize_project_assignments (value : pyval)
    : result (list UserProjectAssignment) :=
  if negb (truthy_val value) then Ok []
  else match value with VList l => assignments_of l | _ => Raise invalid_assignments end.

(** [model_dump(mode="json")], as it is stored. *)
Definition dump_assignment (a : UserProjectAssignment) : pyval :=
  VDict [("project_id", VStr (ua_project a)); ("role", VStr (ua_role a))].

Section users.
(** SHA-256, the password hash, the JWT encoder and lifetime of [Auth]. *)
Context (sha256 : string → string) (hash_password : string → string).
Context (jwt_encode : list (string * pyval) → string).
Context (jwt_access_token_expire_minutes : Z).
(** The place of a text in the collation of the database. *)
Context (text_rank : string → Z).

Definition hash_invite_token (token : string) : string := sha256 token.

Definition list_users (user : CurrentUser) : M App (list User) :=
  require_admin user;;
  query (λ d, sort_by u_created (sort_by (λ u, text_rank (u_email u))
                (select (λ u, String.eqb (u_org u) (cu_org user)) (users d)))).

(** ** Invites *)

Definition validate_invite_project_assignments (body : UserInviteCreate) (org : string)
    : M App (list UserProjectAssignment) :=
  match ic_assignments body with
  | [] => mret []
  | assignments =>
      found ← query (λ d, forallb (λ a,
        exists_where (λ p, in_org (ua_project a) org p && p_active p) (projects d))
        assignments);
      raise_when (negb found) (HTTPException 400 "One or more selected projects are invalid");;
      mret assignments
  end.

Definition create_invite (body : UserInviteCreate) (user : CurrentUser)
    (uuid raw_token : string) (now : timestamp) : M App (OrganizationInvite * string) :=
  require_admin user;;
  begin (
    exists_ ← query (λ d, exists_where (λ u, String.eqb (u_email u) (ic_email body)) (users d));
    raise_when exists_ (HTTPException 409 "Email already registered");;
    project_assignments ← validate_invite_project_assignments body (cu_org user);
    let invite := {| i_id := uuid; i_org := cu_org user; i_email := ic_email body;
                     i_role := ic_role body; i_token_hash := hash_invite_token raw_token;
                     i_expires := now + INVITE_TTL_HOURS * hour; i_accepted := None;
                     i_created_by := sub user;
                     i_assignments := VList (map dump_assignment project_assignments) |} in
    insert_into invites set_invites invite_conflict invite;;
    stored ← lift (serialize_project_assignments (i_assignments invite));
    log_audit (cu_org user) "user.invite.create" (Some (sub user)) (Some uuid)
      [("email", VStr (ic_email body)); ("role", VStr (ic_role body));
       ("project_assignment_count", VInt (Z.of_nat (length stored)))];;
    mret (invite, raw_token)).

Definition pending_invite (token_hash : string) (i : OrganizationInvite) : bool :=
  String.eqb (i_token_hash i) token_hash && negb (bool_decide (is_Some (i_accepted i))).

Definition accept_row (now : timestamp) (i : OrganizationInvite) : OrganizationInvite :=
  {| i_id := i_id i; i_org := i_org i; i_email := i_email i; i_role := i_role i;
     i_token_hash := i_token_hash i; i_expires := i_expires i; i_accepted := Some now;
     i_created_by := i_created_by i; i_assignments := i_assignments i |}.

(** The membership upserts, one for each assignment; the project must exist. *)
Fixpoint assign_projects (l : list UserProjectAssignment) (uuids : nat → string)
    (user_id : string) (now : timestamp) : M App unit :=
  match l with
  | [] => mret tt
  | a :: l' =>
      known ← query (λ d, exists_where (λ p, String.eqb (p_id p) (ua_project a)) (projects d));
      raise_when (negb known) integrity_error;;
      execute (set_memberships
        (upsert_membership (uuids (length l')) (ua_project a) user_id (ua_role a) now));;
      assign_projects l' uuids user_id now
  end.

Definition invited_user (i : OrganizationInvite) (user_id password : string)
    (now : timestamp) : User :=
  {| u_id := user_id; u_org := i_org i; u_email := i_email i;
     u_password_hash := hash_password password; u_role := i_role i; u_active := true;
     u_platform_admin := false; u_created := now |}.

Definition accept_invite (token password user_id : string) (uuids : nat → string)
    (now : timestamp) : M App LoginResponse :=
  let token_hash := hash_invite_token token in
  res ← begin (
    current ← query (λ d, select_one (pending_invite token_hash) (invites d));
    invite ← require_some current (HTTPException 400 "Invite is invalid or already accepted");
    raise_when (i_expires invite <=? now) (HTTPException 400 "Invite has expired");;
    exists_ ← query (λ d, exists_where (λ u, String.eqb (u_email u) (i_email invite)) (users d));
    raise_when exists_ (HTTPException 409 "Email already registered");;
    insert_into users set_users user_conflict (invited_user invite user_id password now);;
    project_assignments ← lift (serialize_project_assignments (i_assignments invite));
    assign_projects project_assignments uuids user_id now;;
    execute (set_invites (update_where (λ i, String.eqb (i_id i) (i_id invite))
                            (accept_row now)));;
    default_project ← query (λ d, select_one
      (λ p, String.eqb (p_org p) (i_org invite) && p_active p) (projects d));
    log_audit (i_org invite) "user.invite.accept" (Some user_id) (Some (i_id invite))
      [("email", VStr (i_email invite)); ("role", VStr (i_role invite));
       ("project_assignment_count", VInt (Z.of_nat (length project_assignments)))];;
    mret (invite, match project_assignments with
                  | a :: _ => Some (ua_project a)
                  | [] => p_id <$> default_project
                  end));
  mret {| access_token := create_access_token jwt_encode jwt_access_token_expire_minutes
                            user_id (i_org res.1) (i_role res.1) now;
          lr_role := i_role res.1; lr_project := res.2; lr_api_key := None |}.

(** ** Access and roles *)

Definition user_missing : exn := HTTPException 404 "User not found".

Definition list_user_project_access (user_id : string) (user : CurrentUser)
    : M App (list UserProjectAccessRecord) :=
  require_admin user;;
  target ← query (λ d, select_one (active_user user_id (cu_org user)) (users d));
  target_user ← require_some target user_missing;
  query (λ d, (λ p,
    {| pa_project := p_id p; pa_name := p_name p;
       pa_role := if String.eqb (u_role target_user) "admin" then Some "admin"%string
                  else m_role <$> select_one (is_membership (p_id p) user_id) (memberships d);
       pa_active := p_active p; pa_retention_days := p_retention_days p |})
    <$> by_created_name text_rank
          (select (λ p, String.eqb (p_org p) (cu_org user) && p_active p) (projects d))).

Definition is_admin (org : string) (u : User) : bool :=
  String.eqb (u_org u) org && String.eqb (u_role u) "admin" && u_active u.

(** What [update_user_role] and [delete_user] read before they write: the row,
    and, when an admin is to go, the number of admins. *)
Definition check_target (user_id : string) (removes_admin : User → bool) (org : string)
    : M App User :=
  current ← query (λ d, select_one (active_user user_id org) (users d));
  target ← require_some current user_missing;
  admins ← query (λ d, count_where (is_admin org) (users d));
  raise_when (removes_admin target && (admins <=? 1))
    (HTTPException 400 "Organization must keep at least one admin");;
  mret target.

Definition in_org_user (user_id org : string) (u : User) : bool :=
  String.eqb (u_id u) user_id && String.eqb (u_org u) org.

Definition set_role (role : string) (u : User) : User :=
  {| u_id := u_id u; u_org := u_org u; u_email := u_email u;
     u_password_hash := u_password_hash u; u_role := role; u_active := u_active u;
     u_platform_admin := u_platform_admin u; u_created := u_created u |}.

Definition write_role (user_id role : string) (user : CurrentUser) (target : User)
    : M App User :=
  execute (set_users (update_where (in_org_user user_id (cu_org user)) (set_role role)));;
  row ← query (λ d, select_one (in_org_user user_id (cu_org user)) (users d));
  updated ← require_some row (OtherError "NoResultFound");
  log_audit (cu_org user) "user.role.update" (Some (sub user)) (Some user_id)
    [("email", VStr (u_email target)); ("old_role", VStr (u_role target));
     ("new_role", VStr role)];;
  mret updated.

Definition demotes (role : string) (u : User) : bool :=
  String.eqb (u_role u) "admin" && negb (String.eqb role "admin").

Definition update_user_role (user_id role : string) (user : CurrentUser) : M App User :=
  require_admin user;;
  raise_when (String.eqb user_id (sub user) && negb (String.eqb role "admin"))
    (HTTPException 400 "Cannot remove your own admin role");;
  begin (target ← check_target user_id (demotes role) (cu_org user);
         write_role user_id role user target).

(** The memberships of a deleted user go with it. *)
Definition write_delete (user_id : string) (user : CurrentUser) (target : User)
    : M App unit :=
  found ← query (λ d, exists_where (in_org_user user_id (cu_org user)) (users d));
  execute (set_users (delete_where (in_org_user user_id (cu_org user))));;
  execute (set_memberships (delete_where (λ m, String.eqb (m_user m) user_id)));;
  raise_when (negb found) user_missing;;
  log_audit (cu_org user) "user.delete" (Some (sub user)) (Some user_id)
    [("email", VStr (u_email target)); ("role", VStr (u_role target))].

Definition delete_user (user_id : string) (user : CurrentUser) : M App unit :=
  require_admin user;;
  raise_when (String.eqb user_id (sub user)) (HTTPException 400 "Cannot delete your own user");;
  begin (target ← check_target user_id (λ u, String.eqb (u_role u) "admin") (cu_org user);
         write_delete user_id user target).

(** ** Requests of the user management *)
Inductive user_step : App → App → Prop :=
| us_invite body user uuid raw_token now s :
    user_step s (create_invite body user uuid raw_token now s).2
| us_accept token password user_id uuids now s :
    user_step s (accept_invite token password user_id uuids now s).2
| us_role user_id role user s : user_step s (update_user_role user_id role user s).2
| us_delete user_id user s : user_step s (delete_user user_id user s).2.

(** ** Facts: administrators *)

Definition has_admin (org : string) (d : Db) : Prop :=
  ∃ u, u ∈ users d ∧ is_admin org u = true.

Record admin_ok (org : string) (d : Db) : Prop := {
  ao_ids : NoDup (u_id <$> users d);
  ao_admin : has_admin org d;
}.

Definition admin_inv (org : string) (s : App) : Prop := admin_ok org (db s).

Lemma admin_ok_ext org d d' : users d' = users d → admin_ok org d → admin_ok org d'.
Proof. intros E [H1 (u & H2)]. constructor; [by rewrite E|]. exists u. by rewrite E. Qed.

Lemma admin_inv_begin {A B} org (m : M App A) (f : A → M App B) s :
  (∀ a s', m s = (Ok a, s') → admin_inv org (f a s').2) →
  admin_inv org s → admin_inv org ((begin m ≫= f) s).2.
Proof.
  intros Hok Hs. unfold mbind, M_bind. destruct (begin m s) as [[a|e] s'] eqn:E.
  - apply Hok. by apply begin_ok_inv.
  - unfold admin_inv. simpl. by rewrite (begin_raise_db _ _ _ _ E).
Qed.

Lemma admin_inv_begin_last {A} org (m : M App A) s :
  (∀ a s', m s = (Ok a, s') → admin_inv org s') →
  admin_inv org s → admin_inv org (begin m s).2.
Proof.
  intros Hok Hs. destruct (begin m s) as [[a|e] s'] eqn:E.
  - apply (Hok a). by apply begin_ok_inv.
  - unfold admin_inv. simpl. by rewrite (begin_raise_db _ _ _ _ E).
Qed.

Lemma admin_inv_check {B} org b e (f : unit → M App B) s :
  admin_inv org s → admin_inv org (f tt s).2 → admin_inv org ((raise_when b e ≫= f) s).2.
Proof. by destruct b. Qed.

Ltac checks_admin := unfold require_admin, require_role; cbv zeta;
  repeat (apply admin_inv_check; [done|]).

(** Two administrators: one of them is not the user in question. *)
Lemma another_row `{EqDecision B} {A} (g : A → B) (p : A → bool) t x :
  NoDup (g <$> t) → 1 < count_where p t → ∃ r, r ∈ t ∧ p r = true ∧ g r ≠ g x.
Proof.
  intros Hn Hc. unfold count_where in Hc.
  assert (Hsub : ∀ r, r ∈ List.filter p t → r ∈ t ∧ p r = true) by (intros r; apply elem_of_select).
  assert (Hnf : NoDup (g <$> List.filter p t)).
  { pose proof (NoDup_column_delete g (λ r, negb (p r)) t Hn) as H.
    unfold delete_where in H. erewrite filter_ext in H; [exact H|].
    intros r. by destruct (p r). }
  destruct (List.filter p t) as [|r1 [|r2 l]] eqn:E; simpl in *; [lia|lia|].
  destruct (Hsub r1 ltac:(by left)) as [H1 P1].
  destruct (Hsub r2 ltac:(by right; left)) as [H2 P2].
  apply NoDup_cons in Hnf as [Hne _].
  assert (H12 : g r1 ≠ g r2) by (intros E'; destruct Hne; rewrite E'; by left).
  destruct (decide (g r1 = g x)) as [E1|]; [exists r2|by exists r1].
  split_and!; [done..|congruence].
Qed.

(** What the check leaves: an administrator who is not the target. *)
Lemma remaining_admin org org' user_id d target :
  admin_ok org d → target ∈ users d → active_user user_id org' target = true →
  String.eqb (u_role target) "admin" && (count_where (is_admin org') (users d) <=? 1) = false →
  ∃ u, u ∈ users d ∧ is_admin org u = true ∧ in_org_user user_id org' u = false.
Proof.
  intros [Hn (u & Hu & Ha)] Ht Hact Hcheck.
  destruct (in_org_user user_id org' u) eqn:Hin; [|by exists u].
  unfold in_org_user in Hin. rewrite andb_true_iff, !String.eqb_eq in Hin.
  destruct Hin as [Hid Horg]. pose proof Hact as Hact'.
  unfold active_user in Hact'. rewrite !andb_true_iff, !String.eqb_eq in Hact'.
  destruct Hact' as [[Hid' _] _].
  assert (u = target) as -> by (apply (NoDup_column_inj u_id (users d)); [done..|congruence]).
  pose proof Ha as Ha'. unfold is_admin in Ha'. rewrite !andb_true_iff, !String.eqb_eq in Ha'.
  destruct Ha' as [[Eo Er] _]. rewrite Er in Hcheck. simpl in Hcheck. apply Z.leb_gt in Hcheck.
  destruct (another_row u_id _ _ target Hn Hcheck) as (r & Hr & Hra & Hne).
  exists r. split; [done|]. split; [congruence|].
  unfold in_org_user. destruct (String.eqb_spec (u_id r) user_id); [congruence|done].
Qed.

Lemma check_target_ok user_id removes org s target s' :
  check_target user_id removes org s = (Ok target, s') →
  s' = s ∧ target ∈ users (db s) ∧ active_user user_id org target = true ∧
  removes target && (count_where (is_admin org) (users (db s)) <=? 1) = false.
Proof.
  unfold check_target. intros H. app_inv.
  match goal with H : require_some _ _ _ = _ |- _ => apply require_some_ok in H as [Ht ->] end.
  apply select_one_Some in Ht as [? ?]. done.
Qed.

Lemma update_user_role_inv org user_id role user :
  keeps (admin_inv org) (update_user_role user_id role user).
Proof.
  intros s Hs. unfold update_user_role. checks_admin.
  apply admin_inv_begin_last; [|done]. intros u s' Hrun. run_inv.
  match goal with H : check_target _ _ _ _ = _ |- _ =>
    apply check_target_ok in H as (-> & Ht & Hact & Hcheck) end.
  unfold write_role in Hrun. app_inv.
  match goal with H : require_some _ _ _ = _ |- _ => apply require_some_ok in H as [_ ->] end.
  constructor; simpl.
  { rewrite (update_where_column u_id); [|done]. apply Hs. }
  destruct (String.eqb_spec role "admin") as [->|Hne].
  - destruct (ao_admin _ _ Hs) as (u0 & Hu & Ha).
    exists (if in_org_user user_id (cu_org user) u0 then set_role "admin" u0 else u0).
    split; [apply elem_of_update_where; eauto|]. destruct (in_org_user _ _ u0); [|done].
    unfold is_admin in *. rewrite !andb_true_iff in Ha |- *. by destruct Ha as [[? _] ?].
  - unfold demotes in Hcheck. apply String.eqb_neq in Hne. rewrite Hne in Hcheck.
    cbn [negb] in Hcheck. rewrite andb_true_r in Hcheck.
    destruct (remaining_admin org _ _ _ _ Hs Ht Hact Hcheck) as (u0 & Hu & Ha & Hin).
    exists u0. split; [|done]. apply elem_of_update_where. exists u0. by rewrite Hin.
Qed.

Lemma delete_user_inv org user_id user : keeps (admin_inv org) (delete_user user_id user).
Proof.
  intros s Hs. unfold delete_user. checks_admin.
  apply admin_inv_begin_last; [|done]. intros u s' Hrun. run_inv.
  match goal with H : check_target _ _ _ _ = _ |- _ =>
    apply check_target_ok in H as (-> & Ht & Hact & Hcheck) end.
  unfold write_delete in Hrun. app_inv.
  destruct (remaining_admin org _ _ _ _ Hs Ht Hact Hcheck) as (u0 & Hu & Ha & Hin).
  constructor; simpl.
  - apply NoDup_column_delete, Hs.
  - exists u0. split; [|done]. apply elem_of_delete_where. done.
Qed.

(** ** Facts: invites *)

Definition tables_are (us : list User) (ivs : list OrganizationInvite) (ps : list Project)
    (s : App) : Prop := users (db s) = us ∧ invites (db s) = ivs ∧ projects (db s) = ps.

Lemma assign_projects_tables l uuids user_id now us ivs ps :
  keeps (tables_are us ivs ps) (assign_projects l uuids user_id now).
Proof.
  induction l as [|a l IH]; simpl; [apply keeps_ret|].
  apply keeps_bind; [by intros s|]. intros known.
  apply keeps_bind; [apply keeps_raise_when|]. intros _.
  apply keeps_bind; [by apply keeps_modify|]. intros _. apply IH.
Qed.

(** What a successful acceptance did. *)
Lemma accept_invite_ok token password user_id uuids now s r s' :
  accept_invite token password user_id uuids now s = (Ok r, s') →
  ∃ i l, i ∈ invites (db s) ∧ pending_invite (sha256 token) i = true ∧ now < i_expires i ∧
    (∀ u, u ∈ users (db s) → u_email u ≠ i_email i ∧ u_id u ≠ user_id) ∧
    serialize_project_assignments (i_assignments i) = Ok l ∧
    users (db s') = users (db s) ++ [invited_user i user_id password now] ∧
    invites (db s') = update_where (λ j, String.eqb (i_id j) (i_id i)) (accept_row now)
                        (invites (db s)) ∧
    lr_role r = i_role i.
Proof.
  unfold accept_invite. intros H. app_inv.
  match goal with H : require_some _ _ _ = _ |- _ => apply require_some_ok in H as [Hi ->] end.
  apply select_one_Some in Hi as [Hi Hp].
  match goal with H : assign_projects ?l _ _ _ ?s1 = (Ok ?u, ?s2) |- _ =>
    pose proof (assign_projects_tables l uuids user_id now _ _ _ s1 (conj eq_refl (conj eq_refl eq_refl))) as (K1 & K2 & _);
    rewrite H in K1, K2 end. simpl in *.
  exists x2, x12. split_and!; try done.
  - by apply Z.leb_gt.
  - intros u Hu.
    match goal with H : false = exists_where _ _ |- _ => symmetry in H;
      rewrite exists_where_false in H; specialize (H u Hu); simpl in H;
      apply String.eqb_neq in H end.
    match goal with H : ∀ x, x ∈ _ → user_conflict _ x = false |- _ => specialize (H u Hu);
      apply orb_false_iff in H as [Hid%String.eqb_neq _] end.
    split; [done|]. by apply not_eq_sym.
  - congruence.
Qed.

Lemma elem_of_upsert uuid pid uid role now t :
  ∃ m, m ∈ upsert_membership uuid pid uid role now t ∧ is_membership pid uid m = true ∧
    m_role m = role.
Proof.
  unfold upsert_membership. destruct (exists_where _ t) eqn:E.
  - apply exists_where_true in E as (m & Hm & Hp). eexists. split.
    + apply elem_of_update_where. eexists. split; [exact Hm|]. by rewrite Hp.
    + done.
  - eexists. split; [apply elem_of_app; right; by left|].
    unfold is_membership. simpl. by rewrite !String.eqb_refl.
Qed.

Lemma upsert_keeps uuid pid uid role now t m pid' :
  m ∈ t → is_membership pid' uid m = true → pid' ≠ pid →
  m ∈ upsert_membership uuid pid uid role now t.
Proof.
  intros Hm Hp Hne. unfold upsert_membership. destruct (exists_where _ t).
  - apply elem_of_update_where. exists m. split; [done|].
    unfold is_membership in *. rewrite andb_true_iff, !String.eqb_eq in Hp.
    destruct Hp as [-> _]. by apply String.eqb_neq in Hne as ->.
  - apply elem_of_app. by left.
Qed.

Lemma assign_projects_members l uuids uid now s u s' :
  assign_projects l uuids uid now s = (Ok u, s') → NoDup (ua_project <$> l) →
  (∀ a, a ∈ l → ∃ m, m ∈ memberships (db s') ∧ is_membership (ua_project a) uid m = true ∧
     m_role m = ua_role a) ∧
  (∀ m pid, m ∈ memberships (db s) → is_membership pid uid m = true →
     pid ∉ ua_project <$> l → m ∈ memberships (db s')).
Proof.
  revert s. induction l as [|a l IH]; intros s H Hn; simpl in H.
  { run_inv. split; [by intros ? ?%not_elem_of_nil|done]. }
  app_inv. apply NoDup_cons in Hn as [Ha Hn].
  destruct (IH _ H Hn) as [K1 K2]. split.
  - intros b [->|Hb]%elem_of_cons; [|by apply K1].
    destruct (elem_of_upsert (uuids (length l)) (ua_project a) uid (ua_role a) now
      (memberships (db s))) as (m & Hm & Hp & Hr).
    exists m. split; [|done]. by apply (K2 m (ua_project a)).
  - intros m pid Hm Hp [? ?]%not_elem_of_cons. apply (K2 m pid); [|done..]. simpl. by apply upsert_keeps with pid.
Qed.

(** an invite makes one account. A successful acceptance had a pending,
    unexpired invite for an address nobody has, adds exactly one user, with
    the invite's organization, address and role, and the same token is refused
    ever after, whatever password comes with it, until the invite table
    changes. *)
Theorem accept_invite_once token password user_id uuids now s r s' :
  NoDup (i_token_hash <$> invites (db s)) →
  accept_invite token password user_id uuids now s = (Ok r, s') →
  (∃ i, i ∈ invites (db s) ∧ i_token_hash i = sha256 token ∧ i_accepted i = None ∧
     now < i_expires i ∧ (∀ u, u ∈ users (db s) → u_email u ≠ i_email i) ∧
     users (db s') = users (db s) ++ [invited_user i user_id password now]) ∧
  ∀ password2 user_id2 uuids2 t s2, invites (db s2) = invites (db s') →
    accept_invite token password2 user_id2 uuids2 t s2
    = (Raise (HTTPException 400 "Invite is invalid or already accepted"), s2).
Proof.
  intros Hn (i & l & Hi & Hp & Hexp & Hu & _ & Hus & Hinv & _)%accept_invite_ok.
  pose proof Hp as Hp'. unfold pending_invite in Hp'.
  rewrite andb_true_iff, negb_true_iff, String.eqb_eq, bool_decide_eq_false in Hp'.
  destruct Hp' as [Hh Hacc]. split.
  { exists i. split_and!; try done; [by apply eq_None_not_Some|]. intros u Hin. by apply Hu. }
  intros password2 user_id2 uuids2 t s2 E. unfold accept_invite.
  apply bind_run_raise. unfold begin, atomic.
  erewrite bind_run by reflexivity. unfold hash_invite_token. rewrite E, Hinv.
  destruct (select_one _ _) as [j|] eqn:Ej.
  - exfalso. apply select_one_Some in Ej as [Hj Hpj].
    apply elem_of_update_where in Hj as (j0 & Hj0 & ->).
    destruct (String.eqb_spec (i_id j0) (i_id i)) as [|Hne].
    + unfold pending_invite in Hpj. simpl in Hpj. by rewrite andb_false_r in Hpj.
    + unfold pending_invite in Hpj. rewrite andb_true_iff, String.eqb_eq in Hpj.
      destruct Hne. f_equal. destruct Hpj as [Hj _].
      apply (NoDup_column_inj i_token_hash (invites (db s))); [done..|congruence].
  - simpl. unfold rollback. by rewrite with_db_id.
Qed.

Lemma accept_invite_inv org token password user_id uuids now :
  keeps (admin_inv org) (accept_invite token password user_id uuids now).
Proof.
  intros s Hs. destruct (accept_invite _ _ _ _ _ s) as [[r|e] s'] eqn:E; simpl.
  - apply accept_invite_ok in E as (i & l & _ & _ & _ & Hu & _ & Hus & _).
    destruct Hs as [Hn (u & Hin & Ha)]. constructor.
    + rewrite Hus. apply NoDup_column_app; [|done]. intros x Hx. by apply Hu.
    + exists u. rewrite Hus. split; [|done]. apply elem_of_app. by left.
  - unfold accept_invite in E. unfold mbind, M_bind in E.
    destruct (begin _ s) as [[res|e'] s1] eqn:Eb; [done|]. injection E as <- <-.
    unfold admin_inv. by rewrite (begin_raise_db _ _ _ _ Eb).
Qed.

Lemma create_invite_inv org body user uuid raw_token now :
  keeps (admin_inv org) (create_invite body user uuid raw_token now).
Proof.
  intros s Hs. unfold create_invite. checks_admin.
  apply admin_inv_begin_last; [|done]. intros a s' Hrun.
  unfold validate_invite_project_assignments in Hrun.
  destruct (ic_assignments body); app_inv; (apply (admin_ok_ext org (db s)); [done|exact Hs]).
Qed.

(** C13: an organization with an administrator keeps one. Whatever invites,
    acceptances, role changes and deletions are asked for, in any order and by
    anyone, as long as each transaction runs on its own, every organization
    that has an active administrator has one afterwards. *)
Theorem organization_keeps_admin org s s' :
  rtc user_step s s' →
  NoDup (u_id <$> users (db s)) → has_admin org (db s) → has_admin org (db s').
Proof.
  intros Hr Hn Ha.
  assert (Hinv : admin_inv org s) by (by constructor). apply (ao_admin org (db s')).
  clear Hn Ha. induction Hr as [|? ? ? Hs _ IH]; [apply Hinv|]. apply IH.
  destruct Hs; [by apply create_invite_inv|by apply accept_invite_inv|
    by apply update_user_role_inv|by apply delete_user_inv].
Qed.
End users.

(** ** Witnesses *)

Definition admin_of (u : User) : CurrentUser :=
  {| sub := u_id u; cu_org := u_org u; cu_role := u_role u; cu_platform_admin := false |}.

Definition alice : User := admin_user "u1" "a@x".
Definition bob : User := admin_user "u2" "b@x".

(** Alice invites Carol as a member of the project, who accepts. *)
Definition carol_invite : UserInviteCreate :=
  {| ic_email := "c@x"; ic_role := "member";
     ic_assignments := [{| ua_project := "p1"; ua_role := "viewer" |}] |}.

Definition invited : App :=
  (create_invite plain_hash carol_invite (admin_of alice) "i1" "token" 0
     (with_db (set_projects (λ _, [sample_project])) two_admins)).2.

Definition accepted : App :=
  (accept_invite plain_hash plain_hash plain_encode 60 "token" "secret" "u3"
     (λ n, "m") hour invited).2.

Lemma accept_invite_once_witness :
  (u_email <$> users (db accepted)) = ["a@x"; "b@x"; "c@x"] ∧
  (m_project <$> memberships (db accepted)) = ["p1"] ∧
  accept_invite plain_hash plain_hash plain_encode 60 "token" "other" "u4" (λ n, "m")
    (2 * hour) accepted
  = (Raise (HTTPException 400 "Invite is invalid or already accepted"), accepted).
Proof.
  split; [by vm_compute|]. split; [by vm_compute|].
  eapply (accept_invite_once plain_hash plain_hash plain_encode 60
    "token" "secret" "u3" (λ n, "m") hour invited).
  - apply NoDup_singleton.
  - by vm_compute.
  - done.
Defined.

Lemma organization_keeps_admin_witness :
  has_admin "org" (db (update_user_role "u2" "viewer" (admin_of alice)
    (delete_user "u3" (admin_of bob) accepted).2).2).
Proof.
  apply (organization_keeps_admin plain_hash plain_hash plain_encode 60 "org" accepted).
  - eapply rtc_l; [apply us_delete|]. eapply rtc_l; [apply us_role|]. apply rtc_refl.
  - vm_compute. repeat (apply NoDup_cons; split; [set_solver|]). apply NoDup_nil_2.
  - exists alice. split; [by left|by vm_compute].
Defined.

(** ** A race

    Two administrators demote each other: both transactions read two
    administrators, each locks and writes another row, both commit. *)
Example concurrent_demotions_leave_no_admin :
  let by_alice := check_target "u2" (demotes "viewer") "org" two_admins in
  let by_bob := check_target "u1" (demotes "viewer") "org" two_admins in
  by_alice = (Ok bob, two_admins) ∧ by_bob = (Ok alice, two_admins) ∧
  let s1 := (write_role "u2" "viewer" (admin_of alice) bob two_admins).2 in
  let s2 := (write_role "u1" "viewer" (admin_of bob) alice s1).2 in
  has_admin "org" (db two_admins) ∧ ¬ has_admin "org" (db s2).
Proof.
  split; [done|]. split; [done|]. simpl. split.
  - exists alice. split; [by left|done].
  - intros (u & Hu & Ha). simpl in Hu.
    apply elem_of_cons in Hu as [->|Hu]; [done|].
    by apply list_elem_of_singleton in Hu as ->.
Qed.
