(* ===== verification/Retention.v ===== *)
(** * Data retention

    [backend/app/workers/maintenance.py]: the nightly task that deletes the
    expired spans of every active project, their payload objects first, and the
    traces left without spans; the names of the monthly partitions.  A fault of
    the object store leaves the bucket as it was. *)

From S2P Require Import Prelude Text PyVal Decimal Schema App Cost SpanSchema Storage Pipeline.

Local Open Scope Z_scope.

Definition RETENTION_BATCH_SIZE : nat := 1000.
Definition S3_DELETE_BATCH_SIZE : nat := 1000.
Definition PARTITION_LOOKAHEAD_MONTHS : Z := 2.

Definition _is_project_payload_key (project_id key : string) : bool :=
  startswith ("payloads/" +:+ project_id +:+ "/") key.

Section retention.
(** The keys a [delete_objects] request reports in [Errors]. *)
Context (refused : World → list string → list string).

(** ** Payload objects *)

Definition delete_objects (keys : list string) : M World (list string) :=
  io;;
  failed ← gets (λ w, refused w keys);
  let successful := List.filter (λ k, negb (inb k failed)) keys in
  modify (set_w_objects (λ b, foldr delete b successful));;
  mret successful.

(** The loop over batches: the keys deleted before a failure count. *)
Fixpoint delete_in_batches (fuel : nat) (keys deleted : list string)
    : M World (list string) :=
  match fuel, keys with
  | S fuel', _ :: _ => λ w,
      match delete_objects (take S3_DELETE_BATCH_SIZE keys) w with
      | (Ok successful, w') =>
          delete_in_batches fuel' (drop S3_DELETE_BATCH_SIZE keys) (deleted ++ successful) w'
      | (Raise _, w') => (Ok deleted, w')
      end
  | _, _ => mret deleted
  end.

Definition _delete_s3_objects (project_id : string) (s3_keys : list string)
    : M World (list string) :=
  let safe_keys := List.filter (_is_project_payload_key project_id) s3_keys in
  delete_in_batches (length safe_keys) safe_keys [].

(** ** Spans and traces *)

Definition expired (project : Z) (cutoff : timestamp) (r : SpanRow) : bool :=
  (sp_project r =? project) && (sp_started r <? cutoff).

Definition _fetch_retention_batch (project : Z) (cutoff : timestamp)
    : M World (list SpanRow) :=
  sql_query (λ w, take RETENTION_BATCH_SIZE
                    (sort_by sp_started (select (expired project cutoff) (w_spans w)))).

(** The row a key of the batch selects. *)
Definition selected (project : Z) (span_keys : list (Z * timestamp)) (r : SpanRow) : bool :=
  (sp_project r =? project)
  && existsb (λ k, (k.1 =? sp_id r) && (k.2 =? sp_started r)) span_keys.

Definition _delete_span_batch (project : Z) (span_keys : list (Z * timestamp))
    : M World Z :=
  match span_keys with
  | [] => mret 0
  | _ =>
      get_db (
        n ← sql_query (λ w, count_where (selected project span_keys) (w_spans w));
        modify (set_w_spans (delete_where (selected project span_keys)));;
        commit;;
        mret n)
  end.

Definition stale_trace (project : Z) (cutoff : timestamp) (spans : list SpanRow)
    (t : TraceRow) : bool :=
  (tr_project t =? project) && (tr_started t <? cutoff)
  && negb (existsb (λ s, (sp_project s =? tr_project t) && (sp_trace s =? tr_id t)) spans).

Definition _delete_stale_traces (project : Z) (cutoff : timestamp) : M World Z :=
  get_db (
    n ← sql_query (λ w, count_where (stale_trace project cutoff (w_spans w)) (w_traces w));
    modify (λ w, set_w_traces (delete_where (stale_trace project cutoff (w_spans w))) w);;
    commit;;
    mret n).

(** ** The task *)

Definition payload_keys (batch : list SpanRow) : list string :=
  omap (λ r, match sp_payload_key r with
             | Some k => if truthy k then Some k else None
             | None => None end) batch.

(** The rows of a batch that may go: without a payload, with its object
    deleted, or with a key that is not the project's. *)
Definition deletable (project_id : string) (deleted : list string) (r : SpanRow) : bool :=
  match sp_payload_key r with
  | None => true
  | Some k => negb (truthy k) || inb k deleted || negb (_is_project_payload_key project_id k)
  end.

(** One turn of [while True]: the rows deleted, [None] when the batch is empty. *)
Definition retention_turn (project : Z) (cutoff : timestamp) : M World (option Z) :=
  batch ← get_db (_fetch_retention_batch project cutoff);
  match batch with
  | [] => mret None
  | _ =>
      let pid := str_of_uuid project in
      deleted_payload_keys ← _delete_s3_objects pid (payload_keys batch);
      let span_keys := (λ r, (sp_id r, sp_started r))
                         <$> List.filter (deletable pid deleted_payload_keys) batch in
      deleted ← _delete_span_batch project span_keys;
      mret (Some deleted)
  end.

(** The loop stops at an empty batch or when nothing was deleted. *)
Fixpoint retention_loop (fuel : nat) (project : Z) (cutoff : timestamp) (deleted_spans : Z)
    : M World Z :=
  match fuel with
  | O => mret deleted_spans
  | S fuel' =>
      turn ← retention_turn project cutoff;
      match turn with
      | None => mret deleted_spans
      | Some deleted =>
          if deleted =? 0 then mret deleted_spans
          else retention_loop fuel' project cutoff (deleted_spans + deleted)
      end
  end.

(** One turn more than there are rows. *)
Definition retain_project (project : Z) (days : Z) : M World (Z * Z) :=
  t ← now;
  let cutoff := t - days * day in
  fuel ← gets (λ w, S (length (w_spans w)));
  deleted_spans ← retention_loop fuel project cutoff 0;
  deleted_traces ← _delete_stale_traces project cutoff;
  mret (deleted_spans, deleted_traces).

Definition active_projects (w : World) : list (Z * Z) :=
  omap (λ p, match uuid_of_str (p_id p) with
             | Some z => Some (z, p_retention_days p)
             | None => None end)
    (select p_active (projects (db (w_app w)))).

Definition run_data_retention : M World unit :=
  ps ← sql_query active_projects;
  for_each ps (λ p, _ ← retain_project p.1 p.2; mret tt).
End retention.

(** ** Partitions *)

(** [_add_months]; a month is its year and number. *)
Definition _add_months (m : Z * Z) (months : Z) : Z * Z :=
  let month_index := m.2 - 1 + months in
  (m.1 + month_index / 12, month_index mod 12 + 1).

Definition _partition_suffix (m : Z * Z) : string :=
  str_of_int m.1 +:+ "_" +:+ str_02d m.2.

Definition _future_partition_months (current_month : Z * Z) (lookahead_months : Z)
    : list (Z * Z) :=
  map (λ offset, _add_months current_month (Z.of_nat offset))
    (seq 1 (Z.to_nat lookahead_months)).

(** Months are well formed and consecutive across years: no gap and no overlap
    between partitions. *)
Lemma add_months_compose m a b : _add_months (_add_months m a) b = _add_months m (a + b).
Proof.
  unfold _add_months. cbn [fst snd].
  pose proof (Z.div_mod (m.2 - 1 + a) 12 ltac:(lia)) as E.
  replace ((m.2 - 1 + a) mod 12 + 1 - 1 + b)
    with (m.2 - 1 + (a + b) + (- ((m.2 - 1 + a) / 12)) * 12) by lia.
  rewrite Z.div_add, Z.mod_add by lia. f_equal. lia.
Qed.

Lemma add_months_valid m a : 1 <= (_add_months m a).2 <= 12.
Proof. simpl. pose proof (Z.mod_pos_bound (m.2 - 1 + a) 12 ltac:(lia)). lia. Qed.

(** ** Facts *)

Lemma delete_where_compose {A} (p q : A → bool) t :
  delete_where q (delete_where p t) = delete_where (λ r, p r || q r) t.
Proof.
  unfold delete_where. induction t as [|r t IH]; simpl; [done|].
  destruct (p r); simpl; [done|]. destruct (q r); simpl; by rewrite IH.
Qed.

Lemma delete_where_none {A} (p : A → bool) t :
  (∀ r, r ∈ t → p r = false) → delete_where p t = t.
Proof.
  unfold delete_where. induction t as [|r t IH]; intros H; simpl; [done|].
  rewrite H by (by left). simpl. rewrite IH; [done|]. intros x Hx. apply H. by right.
Qed.

Lemma length_delete_where {A} (p : A → bool) t :
  Z.of_nat (length (delete_where p t)) = Z.of_nat (length t) - count_where p t.
Proof.
  unfold delete_where, count_where. induction t as [|r t IH]; [done|]. simpl.
  destruct (p r); simpl; lia.
Qed.

Lemma count_where_none {A} (p : A → bool) t :
  (∀ r, r ∈ t → p r = false) → count_where p t = 0.
Proof. intros H. pose proof (length_delete_where p t). rewrite delete_where_none in *; [lia|done]. Qed.

(** The payload object of a row is gone. *)
Definition payload_gone (w : World) (r : SpanRow) : Prop :=
  ∀ k, sp_payload_key r = Some k →
    _is_project_payload_key (str_of_uuid (sp_project r)) k = true → w_objects w !! k = None.

(** What retention may do to spans and payload objects: rows that [old] allows
    go, after their objects; only objects of such rows go. *)
Record retained (old : SpanRow → Prop) (w w' : World) : Prop := {
  rt_spans : ∃ q, w_spans w' = delete_where q (w_spans w) ∧
    ∀ r, r ∈ w_spans w → q r = true → old r ∧ payload_gone w' r;
  rt_objects : ∀ k, w_objects w' !! k ≠ w_objects w !! k →
    w_objects w' !! k = None ∧
    ∃ r, r ∈ w_spans w ∧ old r ∧ sp_payload_key r = Some k ∧
      _is_project_payload_key (str_of_uuid (sp_project r)) k = true;
}.

Lemma retained_same old w w' :
  w_spans w' = w_spans w → w_objects w' = w_objects w → retained old w w'.
Proof.
  intros E1 E2. constructor.
  - exists (λ _, false). split; [|done]. rewrite E1. symmetry. by apply delete_where_none.
  - intros k. by rewrite E2.
Qed.

Lemma retained_trans old w1 w2 w3 :
  retained old w1 w2 → retained old w2 w3 → retained old w1 w3.
Proof.
  intros [(q1 & E1 & H1) O1] [(q2 & E2 & H2) O2].
  assert (Hgone : ∀ k, w_objects w2 !! k = None → w_objects w3 !! k = None).
  { intros k Hk. destruct (decide (w_objects w3 !! k = w_objects w2 !! k)); [congruence|].
    by destruct (O2 k). }
  assert (Hsub : ∀ r, r ∈ w_spans w2 → r ∈ w_spans w1).
  { intros r. rewrite E1, elem_of_delete_where. by intros [? _]. }
  constructor.
  - exists (λ r, q1 r || q2 r). rewrite E2, E1, delete_where_compose. split; [done|].
    intros r Hr Hq. destruct (q1 r) eqn:Hq1.
    + destruct (H1 r Hr Hq1) as [? Hg]. split; [done|]. intros k Hk Hp. by apply Hgone, Hg.
    + simpl in Hq. apply H2; [|done]. rewrite E1. by apply elem_of_delete_where.
  - intros k Hk. destruct (decide (w_objects w3 !! k = w_objects w2 !! k)) as [E|Hne].
    + rewrite E in *. by apply O1.
    + destruct (O2 k Hne) as (? & r & Hr & ?). split; [done|]. exists r. split; [auto|done].
Qed.

Lemma retained_weaken (old old' : SpanRow → Prop) w w' :
  (∀ r, r ∈ w_spans w → old r → old' r) → retained old w w' → retained old' w w'.
Proof.
  intros H [(q & E & Hq) Ho]. constructor.
  - exists q. split; [done|]. intros r Hr Hqr. destruct (Hq r Hr Hqr). auto.
  - intros k Hk. destruct (Ho k Hk) as (? & r & Hr & ? & ? & ?). split; [done|].
    exists r. split_and!; auto.
Qed.

(** Row identities are unique. *)
Definition spans_unique (w : World) : Prop :=
  ∀ r r', r ∈ w_spans w → r' ∈ w_spans w → sp_project r = sp_project r' →
    sp_id r = sp_id r' → sp_started r = sp_started r' → r = r'.

Lemma retained_unique old w w' : retained old w w' → spans_unique w → spans_unique w'.
Proof.
  intros [(q & E & _) _] Hu r r' Hr Hr'. rewrite E in Hr, Hr'.
  apply elem_of_delete_where in Hr as [Hr _]. apply elem_of_delete_where in Hr' as [Hr' _].
  by apply Hu.
Qed.

Section facts.
Context (refused : World → list string → list string).

(** Objects: those that go are keys that were asked for, and reported. *)
Definition objects_deleted (keys deleted : list string) (w w' : World) : Prop :=
  (∀ k, w_objects w' !! k = w_objects w !! k ∨ (w_objects w' !! k = None ∧ k ∈ keys)) ∧
  (∀ k, k ∈ deleted → k ∈ keys ∧ w_objects w' !! k = None).

Lemma foldr_delete_lookup (l : list string) (b : gmap string string) k :
  foldr delete b l !! k = if bool_decide (k ∈ l) then None else b !! k.
Proof.
  induction l as [|x l IH]; simpl; [done|].
  destruct (decide (k = x)) as [->|Hne].
  - rewrite lookup_delete_eq. by rewrite bool_decide_true by (by left).
  - rewrite lookup_delete_ne, IH by done.
    repeat case_bool_decide; try done; exfalso; set_solver.
Qed.

Lemma delete_objects_ok keys w r w' :
  delete_objects refused keys w = (r, w') →
  w_spans w' = w_spans w ∧ objects_deleted keys (match r with Ok l => l | _ => [] end) w w'.
Proof.
  unfold delete_objects, objects_deleted. intros H.
  unfold io, next_fault, mbind, M_bind, gets, modify, mret, M_ret, raise in H.
  destruct (w_faults w) as [|[e|] rest]; simplify_eq/=; (split; [done|]);
    try (split; [by left|by intros ? ?%not_elem_of_nil]);
    (split; intros k; rewrite foldr_delete_lookup).
  all: try (case_bool_decide as Hk; [right|by left]; split; [done|];
    by apply (elem_of_select _ keys k) in Hk as [? _]).
  all: intros Hk; rewrite bool_decide_true by done; split; [|done];
    by apply (elem_of_select _ keys k) in Hk as [? _].
Qed.

Lemma delete_in_batches_ok fuel keys deleted w :
  ∃ l w', delete_in_batches refused fuel keys deleted w = (Ok (deleted ++ l), w') ∧
    w_spans w' = w_spans w ∧ objects_deleted keys l w w'.
Proof.
  revert keys deleted w. induction fuel as [|fuel IH]; intros keys deleted w.
  - exists [], w. rewrite app_nil_r. split_and!; [done..|].
    split; [by left|by intros ? ?%not_elem_of_nil].
  - destruct keys as [|key keys]; [exists [], w; rewrite app_nil_r; split_and!; [done..|];
      split; [by left|by intros ? ?%not_elem_of_nil]|].
    cbn [delete_in_batches].
    destruct (delete_objects refused _ w) as [[l1|e] w1] eqn:E;
      apply delete_objects_ok in E as [Es [Eo Ed]].
    + destruct (IH (drop S3_DELETE_BATCH_SIZE (key :: keys)) (deleted ++ l1) w1)
        as (l2 & w2 & -> & Es2 & Eo2 & Ed2).
      exists (l1 ++ l2), w2. rewrite app_assoc. split; [done|]. split; [congruence|]. split.
      * intros k. destruct (Eo2 k) as [->|[? Hk]]; [|right; split; [done|]].
        -- destruct (Eo k) as [?|[? Hk]]; [by left|right; split; [done|]].
           by eapply elem_of_take_subset.
        -- by eapply (subseteq_drop).
      * intros k [Hk|Hk]%elem_of_app.
        -- destruct (Ed k Hk) as [Hk' Hn]. split; [by eapply elem_of_take_subset|].
           destruct (Eo2 k) as [->|[? _]]; done.
        -- destruct (Ed2 k Hk) as [Hk' Hn]. split; [by eapply subseteq_drop|done].
    + exists [], w1. rewrite app_nil_r. split_and!; [done..|]. split.
      * intros k. destruct (Eo k) as [?|[? Hk]]; [by left|right; split; [done|]].
        by eapply elem_of_take_subset.
      * by intros ? ?%not_elem_of_nil.
Qed.

Lemma _delete_s3_objects_ok pid keys w :
  ∃ l w', _delete_s3_objects refused pid keys w = (Ok l, w') ∧
    w_spans w' = w_spans w ∧
    objects_deleted (List.filter (_is_project_payload_key pid) keys) l w w'.
Proof. apply (delete_in_batches_ok _ _ []). Qed.

(** A batch: expired rows of the project, all of them when they fit. *)
Lemma fetch_ok project cutoff w r w' :
  get_db (_fetch_retention_batch project cutoff) w = (r, w') →
  w_spans w' = w_spans w ∧ w_objects w' = w_objects w ∧ w_traces w' = w_traces w ∧
  ∀ batch, r = Ok batch →
    (∀ x, x ∈ batch → x ∈ w_spans w ∧ expired project cutoff x = true) ∧
    (batch = [] → select (expired project cutoff) (w_spans w) = []).
Proof.
  unfold get_db, atomic, _fetch_retention_batch, sql_query, io, next_fault, mbind, M_bind,
    gets, raise, mret, M_ret.
  intros H. destruct (w_faults w) as [|[e|] rest]; simplify_eq/=; (split_and!; [done..|]);
    [|done|]; intros batch [= <-]; split.
  1,3: intros x Hx%elem_of_take_subset; rewrite sort_by_elem_of in Hx;
    by apply elem_of_select in Hx.
  all: intros Hb; apply (sort_by_head_None sp_started).
  all: by destruct (sort_by _ _).
Qed.

Lemma delete_span_batch_state project ks w r w' :
  _delete_span_batch project ks w = (r, w') →
  w_objects w' = w_objects w ∧ w_traces w' = w_traces w ∧
  match r with
  | Raise _ => w_spans w' = w_spans w
  | Ok n => w_spans w' = delete_where (selected project ks) (w_spans w) ∧
            n = count_where (selected project ks) (w_spans w)
  end.
Proof.
  unfold _delete_span_batch. destruct ks as [|k ks].
  - intros [= <- <-]. split_and!; [done..| |].
    + symmetry. apply delete_where_none. intros x _. unfold selected. apply andb_false_r.
    + symmetry. apply count_where_none. intros x _. unfold selected. apply andb_false_r.
  - unfold get_db, atomic, sql_query, commit, io, next_fault, mbind, M_bind, gets, modify,
      raise, mret, M_ret.
    intros H. destruct (w_faults w) as [|[e|] rest] eqn:E; simpl in H.
    + rewrite E in H. by simplify_eq/=.
    + by simplify_eq/=.
    + destruct rest as [|[e|] rest]; by simplify_eq/=.
Qed.

(** What a turn does not touch: the other tables, the clock. *)
Section frame.
Context {B : Type} (f : World → B).
Hypothesis f_faults : ∀ g w, f (set_w_faults g w) = f w.
Hypothesis f_objects : ∀ g w, f (set_w_objects g w) = f w.
Hypothesis f_spans : ∀ g w, f (set_w_spans g w) = f w.
Hypothesis f_rollback : ∀ w w', f w' = f w → f (db_rollback w w') = f w.

Lemma io_frame : preserves f io.
Proof. by apply io_preserves. Qed.

Lemma query_frame {A} (g : World → A) : preserves f (sql_query g).
Proof. apply preserves_bind; [apply io_frame|]. intros _. apply preserves_gets. Qed.

Lemma delete_in_batches_frame fuel keys deleted :
  preserves f (delete_in_batches refused fuel keys deleted).
Proof.
  revert keys deleted. induction fuel as [|fuel IH]; intros keys deleted; [done|].
  destruct keys as [|key keys]; [done|]. intros w. cbn [delete_in_batches].
  assert (Hd : preserves f (delete_objects refused (take S3_DELETE_BATCH_SIZE (key :: keys)))).
  { apply preserves_bind; [apply io_frame|]. intros _.
    apply preserves_bind; [apply preserves_gets|]. intros failed.
    apply preserves_bind; [|done]. apply preserves_modify. intros. apply f_objects. }
  specialize (Hd w). destruct (delete_objects _ _ w) as [[l|e] w1]; simpl in *; [|done].
  by rewrite IH.
Qed.

Lemma _delete_span_batch_frame project ks : preserves f (_delete_span_batch project ks).
Proof.
  unfold _delete_span_batch. destruct ks as [|k ks]; [done|].
  apply get_db_preserves; [|done]. apply preserves_bind; [apply query_frame|]. intros n.
  apply preserves_bind; [apply preserves_modify; intros; apply f_spans|]. intros _.
  apply preserves_bind; [apply io_frame|]. done.
Qed.

Lemma retention_turn_frame project cutoff : preserves f (retention_turn refused project cutoff).
Proof.
  apply preserves_bind; [apply get_db_preserves; [apply query_frame|done]|].
  intros [|r batch]; [done|]. apply preserves_bind; [apply delete_in_batches_frame|].
  intros deleted. apply preserves_bind; [apply _delete_span_batch_frame|]. done.
Qed.

Lemma retention_loop_frame fuel project cutoff n :
  preserves f (retention_loop refused fuel project cutoff n).
Proof.
  revert n. induction fuel as [|fuel IH]; intros n; [done|].
  apply preserves_bind; [apply retention_turn_frame|].
  intros [d|]; [|done]. destruct (d =? 0); [done|]. apply IH.
Qed.
End frame.

Section project.
Context (project : Z) (cutoff : timestamp).

Abbreviation old := (λ r, expired project cutoff r = true).

Lemma expired_project r : expired project cutoff r = true → sp_project r = project.
Proof. unfold expired. rewrite andb_true_iff, Z.eqb_eq. by intros [? _]. Qed.

Lemma elem_of_payload_keys batch k :
  k ∈ payload_keys batch ↔ truthy k = true ∧ ∃ r, r ∈ batch ∧ sp_payload_key r = Some k.
Proof.
  unfold payload_keys. rewrite list_elem_of_omap. split.
  - intros (r & Hr & E). destruct (sp_payload_key r) as [k'|] eqn:Ek; [|done].
    destruct (truthy k') eqn:Et; [|done]. injection E as ->. eauto.
  - intros (Ht & r & Hr & E). exists r. by rewrite E, Ht.
Qed.

(** The rows of a batch that are deleted are old and without payload. *)
Lemma selected_old batch l w1 w2 r :
  spans_unique w1 →
  (∀ x, x ∈ batch → x ∈ w_spans w1 ∧ expired project cutoff x = true) →
  objects_deleted (List.filter (_is_project_payload_key (str_of_uuid project))
                     (payload_keys batch)) l w1 w2 →
  r ∈ w_spans w1 →
  selected project ((λ r, (sp_id r, sp_started r))
    <$> List.filter (deletable (str_of_uuid project) l) batch) r = true →
  expired project cutoff r = true ∧ payload_gone w2 r.
Proof.
  intros Hu Hb [_ Hd] Hr Hs. unfold selected in Hs.
  apply andb_true_iff in Hs as [Hp Hs]. apply Z.eqb_eq in Hp.
  apply existsb_exists in Hs as (k & Hk & Hks). apply list_elem_of_In in Hk.
  apply list_elem_of_fmap in Hk as (x & -> & Hx). simpl in Hks.
  apply andb_true_iff in Hks as [Hi%Z.eqb_eq Ht%Z.eqb_eq].
  apply (elem_of_select _ batch x) in Hx as [Hx Hdel]. destruct (Hb x Hx) as [Hxs Hxo].
  assert (x = r) as -> by (apply Hu; try done; rewrite (expired_project x Hxo); congruence).
  split; [done|]. intros k Hk Hpk. rewrite (expired_project r Hxo) in Hpk.
  unfold deletable in Hdel. rewrite Hk, Hpk, orb_false_r in Hdel.
  apply orb_true_iff in Hdel as [Hdel|Hdel].
  - apply negb_true_iff, truthy_false in Hdel. subst k. done.
  - apply (Hd k). by apply inb_true.
Qed.

Lemma batch_object batch k w1 :
  (∀ x, x ∈ batch → x ∈ w_spans w1 ∧ expired project cutoff x = true) →
  k ∈ List.filter (_is_project_payload_key (str_of_uuid project)) (payload_keys batch) →
  ∃ r, r ∈ w_spans w1 ∧ expired project cutoff r = true ∧ sp_payload_key r = Some k ∧
    _is_project_payload_key (str_of_uuid (sp_project r)) k = true.
Proof.
  intros Hb Hk. apply (elem_of_select _ (payload_keys batch) k) in Hk as [Hk Hp].
  apply elem_of_payload_keys in Hk as (_ & r & Hr & Ek).
  destruct (Hb r Hr) as [? Ho]. exists r. rewrite (expired_project r Ho). done.
Qed.

(** One turn keeps to what retention may do, and says how many rows went. *)
Lemma retention_turn_ok w r w' :
  spans_unique w → retention_turn refused project cutoff w = (r, w') →
  retained old w w' ∧
  match r with
  | Ok (Some n) =>
      Z.of_nat (length (w_spans w')) = Z.of_nat (length (w_spans w)) - n ∧ 0 <= n
  | Ok None => w_spans w' = w_spans w ∧ select (expired project cutoff) (w_spans w) = []
  | Raise _ => True
  end.
Proof.
  intros Hu H. unfold retention_turn, mbind, M_bind in H.
  destruct (get_db _ w) as [[batch|e] w1] eqn:Ef;
    destruct (fetch_ok _ _ _ _ _ Ef) as (Es & Eo & _ & Hb).
  2: { injection H as <- <-. split; [by apply retained_same|done]. }
  destruct (Hb batch eq_refl) as [Hbatch Hempty]. clear Hb.
  assert (H1 : retained old w w1) by (by apply retained_same).
  pose proof (retained_unique _ _ _ H1 Hu) as Hu1. rewrite <- Es in Hbatch, Hempty.
  destruct batch as [|r0 batch'].
  { injection H as <- <-. split; [done|]. rewrite <- Es. auto. }
  revert H Hbatch. generalize (r0 :: batch'). intros batch H Hbatch.
  destruct (_delete_s3_objects_ok (str_of_uuid project) (payload_keys batch) w1)
    as (l & w2 & E2 & Es2 & Hobj). rewrite E2 in H.
  destruct (_delete_span_batch _ _ w2) as [r3 w3] eqn:E3.
  destruct (delete_span_batch_state _ _ _ _ _ E3) as (Eo3 & _ & Hr3).
  assert (Hobjects : ∀ k, w_objects w3 !! k ≠ w_objects w1 !! k → w_objects w3 !! k = None ∧
    ∃ r, r ∈ w_spans w1 ∧ expired project cutoff r = true ∧ sp_payload_key r = Some k ∧
      _is_project_payload_key (str_of_uuid (sp_project r)) k = true).
  { intros k Hk. rewrite Eo3 in *. destruct (proj1 Hobj k) as [?|[? Hin]]; [done|].
    split; [done|]. by apply batch_object with batch. }
  destruct r3 as [n|e]; injection H as <- <-.
  - destruct Hr3 as [E3s ->]. split.
    + apply (retained_trans _ _ w1 _ H1). constructor; [|done].
      eexists. rewrite E3s, Es2. split; [done|]. intros x Hx Hq.
      destruct (selected_old batch l w1 w2 x Hu1 Hbatch Hobj Hx Hq) as [? Hg].
      split; [done|]. intros k. rewrite Eo3. apply Hg.
    + rewrite E3s, length_delete_where, Es2, Es. split; [done|]. unfold count_where. lia.
  - split; [|done]. apply (retained_trans _ _ w1 _ H1). constructor; [|done].
    exists (λ _, false). split; [|done]. rewrite Hr3, Es2. symmetry. by apply delete_where_none.
Qed.

Lemma retention_loop_retained fuel n :
  ∀ w, spans_unique w → retained old w (retention_loop refused fuel project cutoff n w).2.
Proof.
  revert n. induction fuel as [|fuel IH]; intros n w Hu; [by apply retained_same|].
  cbn [retention_loop]. unfold mbind, M_bind.
  destruct (retention_turn _ _ _ w) as [[turn|e] w1] eqn:E;
    destruct (retention_turn_ok w _ w1 Hu E) as [H1 _]; [|done].
  destruct turn as [d|]; [|done]. destruct (d =? 0); [done|].
  eapply retained_trans; [exact H1|]. apply IH. by eapply retained_unique.
Qed.

(** The loop ends: more fuel than rows changes nothing. *)
Lemma retention_loop_fuel f1 f2 n w :
  spans_unique w → (length (w_spans w) < f1)%nat → (length (w_spans w) < f2)%nat →
  retention_loop refused f1 project cutoff n w = retention_loop refused f2 project cutoff n w.
Proof.
  revert f2 n w. induction f1 as [|f1 IH]; intros f2 n w Hu H1 H2; [lia|].
  destruct f2 as [|f2]; [lia|]. cbn [retention_loop]. unfold mbind, M_bind.
  destruct (retention_turn _ _ _ w) as [[turn|e] w1] eqn:E; [|done].
  destruct (retention_turn_ok w _ w1 Hu E) as [Hr Hl].
  destruct turn as [d|]; [|done]. destruct (Z.eqb_spec d 0) as [|Hd]; [done|].
  destruct Hl as [Hl Hd0]. apply IH; [by eapply retained_unique|lia..].
Qed.
End project.

(** Traces only go when no span of theirs is left. *)
Definition traces_kept (w w' : World) : Prop :=
  ∃ q, w_traces w' = delete_where q (w_traces w) ∧
    ∀ t, t ∈ w_traces w → q t = true →
      ∀ s, s ∈ w_spans w' → ¬ (sp_project s = tr_project t ∧ sp_trace s = tr_id t).

Lemma traces_kept_same w w' : w_traces w' = w_traces w → traces_kept w w'.
Proof.
  intros E. exists (λ _, false). split; [|done]. rewrite E. symmetry.
  by apply delete_where_none.
Qed.

Lemma delete_stale_traces_ok project cutoff w :
  let w' := (_delete_stale_traces project cutoff w).2 in
  w_spans w' = w_spans w ∧ w_objects w' = w_objects w ∧ traces_kept w w'.
Proof.
  unfold _delete_stale_traces, get_db, atomic, sql_query, commit, io, next_fault, mbind,
    M_bind, gets, modify, raise, mret, M_ret.
  assert (Hdel : ∀ w1, w_spans w1 = w_spans w →
    w_traces w1 = delete_where (stale_trace project cutoff (w_spans w)) (w_traces w) →
    traces_kept w w1).
  { intros w1 E1 E2. eexists. split; [exact E2|]. rewrite E1. intros t Ht Hq s Hs [H1 H2].
    unfold stale_trace in Hq. rewrite !andb_true_iff, negb_true_iff in Hq.
    destruct Hq as [_ Hq]. revert Hq. apply not_false_iff_true, existsb_exists.
    exists s. rewrite <- list_elem_of_In, H1, H2, !Z.eqb_refl. done. }
  assert (Hsame : ∀ w1, w_traces w1 = w_traces w → traces_kept w w1) by apply traces_kept_same.
  destruct (w_faults w) as [|[e|] rest] eqn:E; simpl.
  - rewrite E. simpl. split_and!; [done..|]. by apply Hdel.
  - split_and!; [done..|]. by apply Hsame.
  - destruct rest as [|[e|] rest]; simpl; (split_and!; [done..|]);
      [by apply Hdel|by apply Hsame|by apply Hdel].
Qed.

(** What the task may do, from one point to a later one. *)
Record kept (old : SpanRow → Prop) (w w' : World) : Prop := {
  kp_retained : retained old w w';
  kp_traces : traces_kept w w';
  kp_app : w_app w' = w_app w;
  kp_now : w_now w' = w_now w;
}.

Lemma kept_trans old w1 w2 w3 : kept old w1 w2 → kept old w2 w3 → kept old w1 w3.
Proof.
  intros [R1 (q1 & T1 & K1) A1 N1] [R2 (q2 & T2 & K2) A2 N2].
  constructor; [by eapply retained_trans| |congruence..].
  exists (λ t, q1 t || q2 t). rewrite T2, T1, delete_where_compose. split; [done|].
  destruct R2 as [(q & Eq & _) _]. intros t Ht Hq s Hs.
  destruct (q1 t) eqn:E1.
  - apply (K1 t Ht E1). rewrite Eq in Hs. by apply elem_of_delete_where in Hs as [? _].
  - simpl in Hq. apply (K2 t); [|done..]. rewrite T1. by apply elem_of_delete_where.
Qed.

Lemma retain_project_kept project days w :
  spans_unique w →
  kept (λ r, expired project (w_now w - days * day) r = true) w
    (retain_project refused project days w).2.
Proof.
  intros Hu. unfold retain_project, now, gets, mbind, M_bind.
  set (fuel := S _). set (cutoff := _ - _).
  pose proof (retention_loop_retained project cutoff fuel 0 w Hu) as Hr.
  assert (Hf : ∀ {B} (f : World → B), (∀ g w, f (set_w_faults g w) = f w) →
    (∀ g w, f (set_w_objects g w) = f w) → (∀ g w, f (set_w_spans g w) = f w) →
    (∀ w w', f w' = f w → f (db_rollback w w') = f w) →
    f (retention_loop refused fuel project cutoff 0 w).2 = f w).
  { intros B f F1 F2 F3 F4. by apply retention_loop_frame. }
  pose proof (Hf _ w_traces ltac:(done) ltac:(done) ltac:(done) ltac:(done)) as Ht.
  pose proof (Hf _ w_app ltac:(done) ltac:(done) ltac:(done) ltac:(done)) as Ha.
  pose proof (Hf _ w_now ltac:(done) ltac:(done) ltac:(done) ltac:(done)) as Hn.
  destruct (retention_loop _ _ _ _ 0 w) as [[n|e] w1]; simpl in *;
    [|constructor; [done|by apply traces_kept_same|done..]].
  assert (H1 : kept (λ r, expired project cutoff r = true) w w1).
  { constructor; [done|by apply traces_kept_same|done..]. }
  apply (kept_trans _ _ _ _ H1).
  destruct (delete_stale_traces_ok project cutoff w1) as (E1 & E2 & E3).
  assert (Hf2 : ∀ {B} (f : World → B), (∀ g w, f (set_w_faults g w) = f w) →
    (∀ g w, f (set_w_traces g w) = f w) →
    (∀ w w', f w' = f w → f (db_rollback w w') = f w) →
    f (_delete_stale_traces project cutoff w1).2 = f w1).
  { intros B f F1 F2 F3. apply (get_db_preserves f); [|done].
    apply preserves_bind; [by apply query_frame|]. intros m.
    apply preserves_bind; [apply preserves_modify; intros; apply F2|]. intros _.
    apply preserves_bind; [by apply io_preserves|]. done. }
  pose proof (Hf2 _ w_app ltac:(done) ltac:(done) ltac:(done)) as Ha2.
  pose proof (Hf2 _ w_now ltac:(done) ltac:(done) ltac:(done)) as Hn2.
  destruct (_delete_stale_traces _ _ w1) as [[m|e] w2]; simpl in *;
    (constructor; [by apply retained_same|done..]).
Qed.

(** ** With everything up *)
Section up.
Hypothesis refused_none : ∀ w keys, refused w keys = [].

Lemma delete_objects_up keys w :
  w_faults w = [] →
  delete_objects refused keys w = (Ok keys, set_w_objects (λ b, foldr delete b keys) w).
Proof.
  intros Hf. unfold delete_objects. rewrite (bind_run _ _ _ _ _ (io_run w Hf)).
  unfold gets, modify, mbind, M_bind, mret, M_ret. rewrite refused_none. cbv beta zeta.
  assert (Hall : List.filter (λ k, negb (inb k [])) keys = keys).
  { clear. induction keys as [|k keys IH]; [done|exact (f_equal (cons k) IH)]. }
  by rewrite Hall.
Qed.

Lemma delete_in_batches_up fuel keys deleted w :
  w_faults w = [] → (length keys <= fuel)%nat →
  ∃ w', delete_in_batches refused fuel keys deleted w = (Ok (deleted ++ keys), w') ∧
    w_faults w' = [].
Proof.
  revert keys deleted w. induction fuel as [|fuel IH]; intros keys deleted w Hf Hk.
  - destruct keys; [|simpl in Hk; lia]. exists w. by rewrite app_nil_r.
  - destruct keys as [|key keys]; [exists w; by rewrite app_nil_r|].
    cbn [delete_in_batches]. rewrite delete_objects_up by done.
    set (ks := key :: keys) in *.
    destruct (IH (drop S3_DELETE_BATCH_SIZE ks) (deleted ++ take S3_DELETE_BATCH_SIZE ks)
      (set_w_objects (λ b, foldr delete b (take S3_DELETE_BATCH_SIZE ks)) w) Hf)
      as (w' & -> & Hf').
    + rewrite length_drop. unfold S3_DELETE_BATCH_SIZE, ks in *. simpl in Hk. simpl. lia.
    + exists w'. by rewrite <- app_assoc, take_drop.
Qed.

(** Every row of a batch may go. *)
Lemma deletable_batch batch pid :
  List.filter (deletable pid (List.filter (_is_project_payload_key pid) (payload_keys batch)))
    batch = batch.
Proof.
  set (l := List.filter _ (payload_keys batch)).
  assert (H : ∀ r, r ∈ batch → deletable pid l r = true).
  { intros r Hr. unfold deletable. destruct (sp_payload_key r) as [k|] eqn:Ek; [|done].
    destruct (truthy k) eqn:Et; [|done].
    destruct (_is_project_payload_key pid k) eqn:Ep; [|by rewrite orb_true_r].
    assert (k ∈ l); [|by rewrite (proj2 (inb_true _ _))].
    apply elem_of_select. split; [|done]. apply elem_of_payload_keys. eauto. }
  clearbody l. clear -H. induction batch as [|r batch IH]; [done|]. simpl.
  rewrite H by (by left). rewrite IH; [done|]. intros x Hx. apply H. by right.
Qed.

Lemma fetch_up project cutoff w :
  w_faults w = [] →
  get_db (_fetch_retention_batch project cutoff) w
  = (Ok (take RETENTION_BATCH_SIZE
       (sort_by sp_started (select (expired project cutoff) (w_spans w)))), w).
Proof.
  intros Hf. unfold get_db, atomic, _fetch_retention_batch, sql_query.
  by rewrite (bind_run _ _ _ _ _ (io_run w Hf)).
Qed.

Lemma delete_span_batch_up project ks w :
  w_faults w = [] →
  ∃ w', _delete_span_batch project ks w
    = (Ok (count_where (selected project ks) (w_spans w)), w') ∧ w_faults w' = [].
Proof.
  intros Hf. destruct ks as [|k ks].
  - exists w. split; [|done]. simpl. unfold mret, M_ret. repeat f_equal. symmetry.
    apply count_where_none. intros x _. unfold selected. apply andb_false_r.
  - unfold _delete_span_batch, get_db, atomic, sql_query, commit, io, next_fault, mbind,
      M_bind, gets, modify, mret, M_ret. rewrite Hf. simpl. rewrite Hf. eexists. by split.
Qed.

Lemma retention_turn_up project cutoff w :
  spans_unique w → w_faults w = [] →
  (retention_turn refused project cutoff w = (Ok None, w) ∧
   select (expired project cutoff) (w_spans w) = []) ∨
  (∃ d w', retention_turn refused project cutoff w = (Ok (Some d), w') ∧ d ≠ 0 ∧
     w_faults w' = []).
Proof.
  intros Hu Hf. unfold retention_turn. rewrite (bind_run _ _ _ _ _ (fetch_up _ _ w Hf)).
  pose proof (fetch_ok project cutoff w _ _ (fetch_up project cutoff w Hf)) as (_ & _ & _ & Hb).
  destruct (Hb _ eq_refl) as [Hbatch Hempty]. clear Hb.
  destruct (take _ _) as [|r0 batch'] eqn:Eb; [left; split; [done|by apply Hempty]|]. right.
  set (batch := r0 :: batch') in *.
  destruct (delete_in_batches_up
    (length (List.filter (_is_project_payload_key (str_of_uuid project)) (payload_keys batch)))
    (List.filter (_is_project_payload_key (str_of_uuid project)) (payload_keys batch))
    [] w Hf) as (w2 & E2 & Hf2); [done|].
  rewrite (bind_run _ _ w _ w2 E2). rewrite app_nil_l. rewrite deletable_batch.
  destruct (_delete_s3_objects_ok (str_of_uuid project) (payload_keys batch) w)
    as (l & w2' & E2' & Es2 & _).
  unfold _delete_s3_objects in E2'. rewrite E2 in E2'. injection E2' as _ <-.
  destruct (delete_span_batch_up project ((λ r, (sp_id r, sp_started r)) <$> batch) w2 Hf2)
    as (w3 & E3 & Hf3).
  rewrite (bind_run _ _ w2 _ w3 E3). eexists _, w3. split; [reflexivity|]. split; [|done].
  rewrite Es2. destruct (Hbatch r0 ltac:(by left)) as [Hr0 Ho0].
  assert (Hs : selected project ((λ r, (sp_id r, sp_started r)) <$> batch) r0 = true).
  { unfold selected. rewrite (expired_project _ _ _ Ho0), Z.eqb_refl. simpl.
    by rewrite !Z.eqb_refl. }
  pose proof (count_where_pos _ _ _ Hr0 Hs). lia.
Qed.

Lemma retention_loop_up project cutoff fuel n w :
  spans_unique w → w_faults w = [] → (length (w_spans w) < fuel)%nat →
  ∃ w', retention_loop refused fuel project cutoff n w
        = (Ok (n + (Z.of_nat (length (w_spans w)) - Z.of_nat (length (w_spans w')))), w') ∧
    w_faults w' = [] ∧ select (expired project cutoff) (w_spans w') = [].
Proof.
  revert n w. induction fuel as [|fuel IH]; intros n w Hu Hf Hl; [lia|].
  cbn [retention_loop].
  destruct (retention_turn_up project cutoff w Hu Hf) as [[E He]|(d & w1 & E & Hd & Hf1)];
    rewrite (bind_run _ _ w _ _ E).
  - exists w. split; [|done]. unfold mret, M_ret. f_equal. f_equal. lia.
  - destruct (retention_turn_ok project cutoff w _ w1 Hu E) as [Hr [Hlen Hd0]].
    apply Z.eqb_neq in Hd as Hd'. rewrite Hd'.
    destruct (IH (n + d) w1) as (w' & -> & Hf' & He'); [by eapply retained_unique|done|lia|].
    exists w'. split; [|done]. f_equal. f_equal. lia.
Qed.
End up.

Lemma select_nil {A} (p : A → bool) t r : select p t = [] → r ∈ t → p r = false.
Proof.
  intros Hs Hr. destruct (p r) eqn:E; [|done].
  assert (Hin : r ∈ select p t) by (by apply elem_of_select).
  rewrite Hs in Hin. by apply not_elem_of_nil in Hin.
Qed.

Lemma delete_where_ext {A} (p q : A → bool) t :
  (∀ r, r ∈ t → p r = q r) → delete_where p t = delete_where q t.
Proof.
  unfold delete_where. induction t as [|r t IH]; intros H; [done|]. simpl.
  rewrite H by (by left). rewrite IH; [done|]. intros x Hx. apply H. by right.
Qed.

(** C30: with the database and the object store up, retention finishes the job:
    all expired spans of the project go and no others, however many batches it
    takes, the count it reports is theirs, and then the traces that are
    expired and empty. The loop ends in any case: beyond one turn more than
    there are rows, further turns change nothing. *)
Theorem retention_complete project days w :
  spans_unique w → w_faults w = [] → (∀ w ks, refused w ks = []) →
  let cutoff := w_now w - days * day in
  ∃ m w', retain_project refused project days w
          = (Ok (count_where (expired project cutoff) (w_spans w), m), w') ∧
    w_spans w' = delete_where (expired project cutoff) (w_spans w) ∧
    w_traces w' = delete_where (stale_trace project cutoff (w_spans w')) (w_traces w) ∧
    ∀ fuel, (length (w_spans w) < fuel)%nat →
      retention_loop refused fuel project cutoff 0 w
      = retention_loop refused (S (length (w_spans w))) project cutoff 0 w.
Proof.
  intros Hu Hf Hn cutoff.
  destruct (retention_loop_up Hn project cutoff (S (length (w_spans w))) 0 w Hu Hf ltac:(lia))
    as (w1 & E1 & Hf1 & He1).
  pose proof (retention_loop_retained project cutoff (S (length (w_spans w))) 0 w Hu) as Hr.
  pose proof (retention_loop_frame w_traces ltac:(done) ltac:(done) ltac:(done) ltac:(done)
    (S (length (w_spans w))) project cutoff 0 w) as Ht1.
  rewrite E1 in Hr, Ht1. simpl in Hr, Ht1. destruct Hr as [(q & Eq & Hq) _].
  assert (Es1 : w_spans w1 = delete_where (expired project cutoff) (w_spans w)).
  { rewrite Eq. apply delete_where_ext. intros r Hr. destruct (q r) eqn:Hqr.
    - symmetry. by apply Hq.
    - symmetry. apply (select_nil _ _ r He1). rewrite Eq. by apply elem_of_delete_where. }
  unfold retain_project. erewrite bind_run by reflexivity. erewrite bind_run by reflexivity.
  fold cutoff. rewrite (bind_run _ _ w _ _ E1).
  unfold _delete_stale_traces, get_db, atomic, sql_query, commit.
  do 2 eexists. split_and!.
  - unfold io, next_fault, mbind, M_bind, gets, modify, mret, M_ret. rewrite Hf1. simpl.
    rewrite Hf1. f_equal. f_equal. f_equal. rewrite Es1, length_delete_where. lia.
  - exact Es1.
  - simpl. by rewrite Ht1.
  - intros fuel Hfuel. apply retention_loop_fuel; [done|lia..].
Qed.

(** A span that retention may delete: of an active project, older than its
    retention period. *)
Definition due (w : World) (r : SpanRow) : Prop :=
  ∃ p, p ∈ projects (db (w_app w)) ∧ p_active p = true ∧
    uuid_of_str (p_id p) = Some (sp_project r) ∧
    sp_started r < w_now w - p_retention_days p * day.

Lemma for_each_kept (l : list (Z * Z)) (old : SpanRow → Prop) (t : timestamp) w :
  spans_unique w → w_now w = t →
  (∀ p r, p ∈ l → expired p.1 (t - p.2 * day) r = true → old r) →
  kept old w (for_each l (λ p, _ ← retain_project refused p.1 p.2; mret tt) w).2.
Proof.
  revert w. induction l as [|p l IH]; intros w Hu Hn Hold; cbn [for_each].
  { constructor; [by apply retained_same|by apply traces_kept_same|done..]. }
  pose proof (retain_project_kept p.1 p.2 w Hu) as Hp. rewrite Hn in Hp.
  unfold mbind, M_bind. destruct (retain_project _ _ _ w) as [[[n m]|e] w1]; simpl in *.
  - assert (H1 : kept old w w1).
    { destruct Hp. constructor; [|done..]. eapply retained_weaken; [|done].
      intros r _. apply Hold. by left. }
    eapply kept_trans; [exact H1|]. apply IH.
    + eapply retained_unique; [apply (kp_retained _ _ _ H1)|done].
    + by rewrite (kp_now _ _ _ H1).
    + intros p' r Hp'. apply Hold. by right.
  - destruct Hp. constructor; [|done..]. eapply retained_weaken; [|done].
    intros r _. apply Hold. by left.
Qed.

(** C8: retention deletes only what is due, whatever fails. However the
    database and the object store answer, the spans that are gone after a run
    belonged to an active project and were older than its period, and none
    left its payload object behind; an object that is gone lay under the
    project's own prefix and belonged to such a span; a trace that is gone has
    no span left; nothing else in the tables and the bucket changed. *)
Theorem retention_safe w :
  spans_unique w →
  let w' := (run_data_retention refused w).2 in
  (∃ q, w_spans w' = delete_where q (w_spans w) ∧
     ∀ r, r ∈ w_spans w → q r = true → due w r ∧ payload_gone w' r) ∧
  (∀ k, w_objects w' !! k ≠ w_objects w !! k →
     w_objects w' !! k = None ∧
     ∃ r, r ∈ w_spans w ∧ due w r ∧ sp_payload_key r = Some k ∧
       _is_project_payload_key (str_of_uuid (sp_project r)) k = true) ∧
  traces_kept w w'.
Proof.
  intros Hu. cbv zeta. unfold run_data_retention, mbind, M_bind.
  destruct (sql_query _ w) as [[ps|e] w1] eqn:E.
  - apply sql_query_ok in E as (fs & -> & ->).
    destruct (for_each_kept (active_projects w) (due w) (w_now w)
      (set_w_faults (λ _, fs) w) Hu eq_refl) as [[Hs Ho] Ht _ _]; [|done].
    intros p r Hp He. apply list_elem_of_omap in Hp as (x & Hx & Hz).
    apply elem_of_select in Hx as [Hx Ha].
    destruct (uuid_of_str (p_id x)) as [z|] eqn:Eu; [|done]. injection Hz as <-.
    simpl in He. unfold expired in He. apply andb_true_iff in He as [Hz%Z.eqb_eq Ht%Z.ltb_lt].
    exists x. by rewrite Hz.
  - assert (Ew : w_spans w1 = w_spans w ∧ w_objects w1 = w_objects w ∧ w_traces w1 = w_traces w).
    { pose proof (query_frame w_spans ltac:(done) active_projects w) as H1.
      pose proof (query_frame w_objects ltac:(done) active_projects w) as H2.
      pose proof (query_frame w_traces ltac:(done) active_projects w) as H3.
      rewrite E in H1, H2, H3. done. }
    destruct Ew as (E1 & E2 & E3). simpl.
    destruct (retained_same (due w) w w1 E1 E2) as [? ?].
    split_and!; [done..|by apply traces_kept_same].
Qed.
End facts.

(** ** Witnesses *)

Definition old_span (id : Z) (started : timestamp) (key : option string) : SpanRow :=
  {| sp_id := id; sp_trace := 5; sp_project := 1; sp_parent := None; sp_name := "n";
     sp_provider := "custom"; sp_model := "m"; sp_input := 0; sp_output := 0; sp_cost := 0;
     sp_latency := mkdec 0 0; sp_status := "ok"; sp_error := None; sp_started := started;
     sp_payload_key := key; sp_payload_status := stored; sp_drop_reason := None;
     sp_metadata := "{}" |}.

Definition old_key : string := "payloads/" +:+ str_of_uuid 1 +:+ "/ab/old.json.gz".

Definition kept_project : Project :=
  {| p_id := str_of_uuid 1; p_org := "org"; p_name := "Default"; p_key_hash := "h";
     p_retention_days := 7; p_payload_mode := "all"; p_payload_max_bytes := 262144;
     p_redact_keys := ""; p_active := true; p_created := 0 |}.

(** Two old spans and a new one; the first two of a trace, an object each. *)
Definition week_later (faults : list (option exn)) : World :=
  let w := empty_world (8 * day) faults in
  set_w_app (with_db (set_projects (λ _, [kept_project])))
    (set_w_objects (λ _, {[old_key := "gz"]})
      (set_w_spans (λ _, [old_span 10 0 (Some old_key); old_span 11 0 None;
                          old_span 12 (2 * day) None]) w)).

Definition none_refused (w : World) (keys : list string) : list string := [].

Lemma week_later_unique faults : spans_unique (week_later faults).
Proof.
  intros r r' Hr Hr' _ Hid _.
  apply (NoDup_column_inj sp_id (w_spans (week_later faults))); [|done..].
  apply (bool_decide_unpack (NoDup [10; 11; 12])). by vm_compute.
Qed.

(** The object store fails twice: the row with a payload stays, the other goes. *)
Lemma retention_safe_witness :
  let e := Some (ClientError "503" None) in
  let w := week_later [None; None; e; None; None; None; e] in
  (sp_id <$> w_spans (run_data_retention none_refused w).2) = [10; 12] ∧
  traces_kept w (run_data_retention none_refused w).2.
Proof.
  cbv zeta. split; [by vm_compute|].
  apply (retention_safe none_refused). apply week_later_unique.
Defined.

Lemma retention_complete_witness :
  ∃ m w', retain_project none_refused 1 7 (week_later []) = (Ok (2, m), w') ∧
    (sp_id <$> w_spans w') = [12].
Proof.
  destruct (retention_complete none_refused 1 7 (week_later []) (week_later_unique [])
    eq_refl (λ _ _, eq_refl)) as (m & w' & E & Es & _).
  exists m, w'. split; [exact E|]. rewrite Es. by vm_compute.
Defined.
