(* ===== verification/FailedTasks.v ===== *)
(** * Failed tasks

    [backend/app/core/taskiq.py]: which failures of a task are final and what
    of its arguments is reported; [workers/dlq.py] and
    [services/failed_tasks.py]: the record that is kept; [api/v1/
    failed_tasks.py]: listing, resolving and retrying it. *)

From S2P Require Import Prelude Text PyVal Decimal Schema App Cost SpanSchema Storage Pipeline Auth Projects.

Local Open Scope Z_scope.

Definition SAFE_ARG_KEYS : list string := ["batch_id"; "project_id"].
Definition SENSITIVE_KEY_PARTS : list string :=
  ["api_key"; "authorization"; "password"; "secret"; "token"].
Definition MAX_SUMMARY_LENGTH : nat := 10000.
Definition MAX_ERROR_LENGTH : nat := 5000.

(** ** Summaries *)

Definition sensitive (key : string) : bool :=
  existsb (λ part, contains part (lower key)) SENSITIVE_KEY_PARTS.

(** The entry an argument becomes. *)
Definition summary_entry (key : string) (value : pyval) : string * pyval :=
  if sensitive key then (key, VStr "[redacted]")
  else if inb key SAFE_ARG_KEYS then (key, value)
  else match value with
       | VList l =>
           if String.eqb key "spans" then ("span_count"%string, VInt (Z.of_nat (length l)))
           else (key, VStr "<list>")
       | VDict _ => (key, VStr "<dict>")
       | _ => (key, value)
       end.

Definition summarize_task_args (task_args : list (string * pyval)) : list (string * pyval) :=
  foldl (λ summary kv,
    let entry := summary_entry kv.1 kv.2 in dict_set entry.1 entry.2 summary) [] task_args.

(** ** The broker's middleware *)

Record TaskiqMessage : Type := {
  tm_name : string; tm_args : list pyval; tm_kwargs : list (string * pyval);
  tm_retries : Z; tm_max_retries : option Z;
}.

Fixpoint positional (n : nat) (args : list pyval) : list (string * pyval) :=
  match args with
  | [] => []
  | v :: args' => ("arg_" +:+ str_of_int (Z.of_nat n), v) :: positional (S n) args'
  end.

Definition _task_args_for_dlq (message : TaskiqMessage) : list (string * pyval) :=
  summarize_task_args
    match tm_kwargs message with
    | _ :: _ => tm_kwargs message
    | [] =>
        if endswith ":process_span_batch" (tm_name message) then
          zip ["batch_id"; "project_id"; "spans"]%string (tm_args message)
        else positional 0 (tm_args message)
    end.

(** [on_error]: whether the failure is reported. [retryable] is the answer of
    the library's [is_retry_on_error]; [retried] that the exception is of the
    types the middleware retries, [no_result] that it is NoResultError. *)
Definition capture_final_failure (retried no_result retryable : bool)
    (default_retry_count : Z) (message : TaskiqMessage) : bool :=
  if negb retried then false
  else if no_result then false
  else if negb retryable then false
  else default default_retry_count (tm_max_retries message) <=? tm_retries message + 1.

(** The arguments of the report. *)
Record FailureReport : Type := {
  fr_task : string; fr_args : list (string * pyval); fr_error : string; fr_attempts : Z;
}.

Definition on_error (capture : bool) (message : TaskiqMessage) (error : string)
    : option FailureReport :=
  if capture then
    Some {| fr_task := tm_name message; fr_args := _task_args_for_dlq message;
            fr_error := error; fr_attempts := tm_retries message + 1 |}
  else None.

Section failed_tasks.
Context (float_repr : pyfloat → string).
Context (json_loads : string → result pyval).
(** [str] of a value that is not a string *)
Context (repr : pyval → string).
(** A JSON span as the worker reads it. *)
Context (span_data : pyval → SpanData).

Definition py_str (v : pyval) : string :=
  match v with VStr s => s | _ => repr v end.

(** ** Recording *)

Definition extract_project_id (task_args : list (string * pyval)) : option string :=
  match dict_get "project_id" task_args with
  | Some v => if truthy_val v then Some (py_str v) else None
  | None => None
  end.

Definition resolve_org_id (project_id : option string) (d : Db) : option string :=
  pid ← project_id;
  p ← select_one (λ p, String.eqb (p_id p) pid) (projects d);
  Some (p_org p).

Definition record_failed_task (id : Z) (r : FailureReport) (failed_at : timestamp)
    : M App unit :=
  let project_id := extract_project_id (fr_args r) in
  org_id ← query (resolve_org_id project_id);
  let args_summary := str_take MAX_SUMMARY_LENGTH
    (json_dumps float_repr ", " ": " (VDict (summarize_task_args (fr_args r)))) in
  raise_when (bool_decide (is_Some project_id) && negb (bool_decide (is_Some org_id)))
    integrity_error;;
  execute (set_failed_tasks (λ t, t ++
    [{| f_id := id; f_org := org_id; f_project := project_id; f_task := fr_task r;
        f_args := Some args_summary; f_error := str_take MAX_ERROR_LENGTH (fr_error r);
        f_attempts := fr_attempts r; f_failed_at := failed_at; f_resolved := false |}])).

Definition handle_failed_task (id : Z) (r : FailureReport) (now : timestamp) : M App unit :=
  begin (record_failed_task id r now).

(** ** The API *)

Definition _is_process_span_batch_task (task_name : string) : bool :=
  String.eqb task_name "process_span_batch" || endswith ":process_span_batch" task_name.

(** [_serialize_failed_task]: the arguments as the client sees them. *)
Definition _serialize_failed_task (t : FailedTask) : FailedTask * option pyval :=
  (t, match f_args t with
      | None => None
      | Some s => match json_loads s with
                  | Ok v => Some v
                  | Raise _ => Some (VDict [("summary", VStr s)])
                  end
      end).

Definition of_org (org : string) (t : FailedTask) : bool :=
  bool_decide (f_org t = Some org).

Definition list_failed_tasks (project_id : option string) (include_resolved : bool)
    (limit : nat) (user : CurrentUser) : M App (list (FailedTask * option pyval)) :=
  require_admin user;;
  let pid := if truthy (default EmptyString project_id) then project_id else None in
  _ ← match pid with
      | Some p => _ ← require_project p user; mret tt
      | None => mret tt
      end;
  rows ← query (λ d, take limit (sort_by (λ t, - f_failed_at t)
    (select (λ t, of_org (cu_org user) t
       && match pid with None => true | Some p => bool_decide (f_project t = Some p) end
       && (include_resolved || negb (f_resolved t))) (failed_tasks d))));
  mret (_serialize_failed_task <$> rows).

Definition task_missing : exn := HTTPException 404 "Failed task not found".

Definition is_task (id : Z) (org : string) (t : FailedTask) : bool :=
  (f_id t =? id) && of_org org t.

Definition resolve_row (t : FailedTask) : FailedTask :=
  {| f_id := f_id t; f_org := f_org t; f_project := f_project t; f_task := f_task t;
     f_args := f_args t; f_error := f_error t; f_attempts := f_attempts t;
     f_failed_at := f_failed_at t; f_resolved := true |}.

(** [UPDATE failed_tasks SET resolved = true ... RETURNING id] *)
Definition resolve_task (id : Z) (org : string) : M App unit :=
  found ← query (λ d, exists_where (is_task id org) (failed_tasks d));
  execute (set_failed_tasks (update_where (is_task id org) resolve_row));;
  raise_when (negb found) task_missing.

Definition resolve_failed_task (task_id : Z) (user : CurrentUser) : M App unit :=
  require_admin user;;
  begin (resolve_task task_id (cu_org user)).

(** What a retry takes out of the recorded arguments: batch, project, spans. *)
Definition retry_arguments (t : FailedTask) : result (pyval * string * list pyval) :=
  let args := match f_args t with Some s => if truthy s then s else "{}"%string
                                | None => "{}"%string end in
  task_args ← match json_loads args with
              | Ok v => Ok v
              | Raise JSONDecodeError =>
                  Raise (HTTPException 409 "Failed task arguments are not retryable")
              | Raise e => Raise e
              end;
  match task_args with
  | VDict d =>
      let batch_id := default VNone (dict_get "batch_id" d) in
      let project_id := match dict_get "project_id" d with
                        | Some v => if truthy_val v then Some (py_str v) else f_project t
                        | None => f_project t
                        end in
      match truthy_val batch_id, project_id, dict_get "spans" d with
      | true, Some pid, Some (VList spans) => Ok (batch_id, pid, spans)
      | _, _, _ =>
          Raise (HTTPException 409 "Failed task payload is not available for retry")
      end
  | _ => Raise (OtherError "AttributeError")
  end.

(** A handler over the tables, in a world with a queue. *)
Definition on_app {A} (m : M App A) : M World A := λ w,
  match m (w_app w) with (r, s) => (r, set_w_app (λ _, s) w) end.

(** [async with get_db()] around calls that also reach the broker. *)
Definition app_session {A} (m : M World A) : M World A :=
  atomic (λ before after, set_w_app (λ _, w_app before) after) m.

Definition retry_failed_task (task_id : Z) (user : CurrentUser) : M World unit :=
  on_app (require_admin user);;
  app_session (
    current ← on_app (query (λ d, select_one (is_task task_id (cu_org user)) (failed_tasks d)));
    task ← on_app (require_some current task_missing);
    raise_when (f_resolved task) (HTTPException 409 "Failed task is already resolved");;
    raise_when (negb (_is_process_span_batch_task (f_task task)))
      (HTTPException 409 "Failed task type cannot be retried");;
    args ← lift (retry_arguments task);
    _ ← on_app (require_project args.1.2 user);
    kiq (process_span_batch_task (py_str args.1.1) args.1.2 (span_data <$> args.2));;
    on_app (resolve_task task_id (cu_org user))).
End failed_tasks.

(** ** Facts *)

Lemma summary_entry_spans key value k v :
  summary_entry key value = (k, v) → k = "spans"%string → ∀ l, v ≠ VList l.
Proof.
  unfold summary_entry. intros H -> l ->. destruct (sensitive key); [by simplify_eq|].
  destruct (inb key SAFE_ARG_KEYS) eqn:Es; [by simplify_eq|].
  destruct value; simplify_eq. by destruct (String.eqb key "spans").
Qed.

(** A summary is the dictionary of its entries. *)
Lemma summarize_rebuild args :
  summarize_task_args args
  = rebuild (λ _ v, v) ((λ kv, summary_entry kv.1 kv.2) <$> args) [].
Proof.
  unfold summarize_task_args, rebuild. generalize (@nil (string * pyval)).
  induction args as [|kv args IH]; intros acc; [done|]. simpl.
  rewrite IH. by destruct (summary_entry kv.1 kv.2).
Qed.

Lemma summarize_elem_of args k v :
  (k, v) ∈ summarize_task_args args → ∃ kv, kv ∈ args ∧ summary_entry kv.1 kv.2 = (k, v).
Proof.
  rewrite summarize_rebuild. intros [Hn|(x & Hx & ->)]%rebuild_elem_of;
    [by apply not_elem_of_nil in Hn|].
  apply list_elem_of_fmap in Hx as (kv & E & Hkv). eauto.
Qed.

(** What an entry of a summary may be, and that it is its own summary. *)
Lemma summary_entry_shape key value k v :
  summary_entry key value = (k, v) →
  (sensitive k = true → v = VStr "[redacted]") ∧
  (k ∉ SAFE_ARG_KEYS → is_scalar v = true) ∧ summary_entry k v = (k, v).
Proof.
  unfold summary_entry. destruct (sensitive key) eqn:Es.
  { intros [= <- <-]. by rewrite Es. }
  destruct (inb key SAFE_ARG_KEYS) eqn:Ek.
  { intros [= <- <-]. rewrite Es, Ek. split_and!; try done. intros Hk. by apply inb_true in Ek. }
  destruct value; try (intros [= <- <-]; by rewrite Es, Ek).
  destruct (String.eqb_spec key "spans"); intros [= <- <-]; [done|]. by rewrite Es, Ek.
Qed.

Lemma summarize_spans args l : dict_get "spans" (summarize_task_args args) ≠ Some (VList l).
Proof.
  intros H%dict_get_elem_of. apply summarize_elem_of in H as (kv & _ & E).
  by apply (summary_entry_spans _ _ _ _ E eq_refl l).
Qed.

(** The keys whose values are secrets. *)
Definition secret_key (key : string) : Prop :=
  ∃ part, part ∈ ["api_key"; "authorization"; "password"; "secret"; "token"]%string ∧
    contains part (lower key) = true.

Lemma secret_sensitive key : secret_key key → sensitive key = true.
Proof. intros (part & Hin & Hc). apply existsb_exists. exists part. by rewrite <- list_elem_of_In. Qed.

(** Two arguments that differ only in what must not be recorded: a secret, the
    spans of a batch, the content of any other list or dictionary. *)
Inductive alike : string * pyval → string * pyval → Prop :=
| alike_same kv : alike kv kv
| alike_secret key v v' : secret_key key → alike (key, v) (key, v')
| alike_spans l l' : length l = length l' → alike ("spans"%string, VList l) ("spans"%string, VList l')
| alike_list key l l' : key ∉ ["batch_id"; "project_id"; "spans"]%string →
    alike (key, VList l) (key, VList l')
| alike_dict key d d' : key ∉ ["batch_id"; "project_id"]%string →
    alike (key, VDict d) (key, VDict d').

Lemma summary_entry_alike x y :
  alike x y → summary_entry x.1 x.2 = summary_entry y.1 y.2.
Proof.
  destruct 1 as [kv|key v v' Hs%secret_sensitive|l l' Hl|key l l' Hk|key d d' Hk]; [done| |..];
    cbn [fst snd]; unfold summary_entry.
  - by rewrite Hs.
  - cbn. by rewrite Hl.
  - destruct (sensitive key); [done|].
    destruct (inb key SAFE_ARG_KEYS) eqn:Ek; [apply inb_true in Ek; unfold SAFE_ARG_KEYS in Ek; set_solver|].
    destruct (String.eqb_spec key "spans"); [set_solver|done].
  - destruct (sensitive key); [done|].
    by destruct (inb key SAFE_ARG_KEYS) eqn:Ek; [apply inb_true in Ek|].
Qed.

Lemma summarize_alike args args' :
  Forall2 alike args args' → summarize_task_args args = summarize_task_args args'.
Proof.
  intros H. rewrite !summarize_rebuild. f_equal.
  induction H as [|x y l l' Hxy _ IH]; [done|]. rewrite !fmap_cons. f_equal; [|exact IH].
  by apply summary_entry_alike.
Qed.

Lemma summarize_twice args :
  summarize_task_args (summarize_task_args args) = summarize_task_args args.
Proof.
  assert (Hfix : ∀ k v, (k, v) ∈ summarize_task_args args → summary_entry k v = (k, v)).
  { intros k v (kv & _ & E)%summarize_elem_of. by eapply summary_entry_shape. }
  assert (Hn : NoDup (keys (summarize_task_args args))).
  { rewrite summarize_rebuild. apply rebuild_keys_NoDup, NoDup_nil_2. }
  rewrite (summarize_rebuild (summarize_task_args args)).
  assert (Hmap : (λ kv, summary_entry kv.1 kv.2) <$> summarize_task_args args
                 = summarize_task_args args).
  { rewrite <- (list_fmap_id (summarize_task_args args)) at 2. apply list_fmap_ext.
    intros i [k v] Hkv. by apply list_elem_of_lookup_2, Hfix in Hkv. }
  rewrite Hmap, rebuild_NoDup; [|done|by intros ? ? ?%not_elem_of_nil].
  rewrite app_nil_l. rewrite <- (map_id (summarize_task_args args)) at 2.
  apply map_ext. by intros [].
Qed.

(** C40: what is kept of a failed task's arguments does not depend on what must
    not be kept.  Arguments that differ only in values under a key with "api_key",
    "authorization", "password", "secret" or "token" in it, in what the spans of
    the batch hold, or in the content of lists and dictionaries under other keys
    than the batch's and the project's identifiers have the same summary, and it
    shows a placeholder for a secret; summarising again, as the dead-letter
    handler does with what the middleware sent, changes nothing.  Of a failed
    [process_span_batch], sent with named arguments or with positional ones,
    exactly the two identifiers and the number of spans are kept.  (Strings and numbers under any
    other key are kept as they are.) *)
Theorem summarize_task_args_safe args :
  (∀ args', Forall2 alike args args' → summarize_task_args args = summarize_task_args args') ∧
  (∀ key v, (key, v) ∈ summarize_task_args args → secret_key key → v = VStr "[redacted]") ∧
  summarize_task_args (summarize_task_args args) = summarize_task_args args ∧
  (∀ m batch_id project_id spans rest,
     tm_kwargs m = [("batch_id", batch_id); ("project_id", project_id); ("spans", VList spans)]%string ∨
     tm_kwargs m = [] ∧ endswith ":process_span_batch" (tm_name m) = true ∧
       tm_args m = batch_id :: project_id :: VList spans :: rest →
     _task_args_for_dlq m
     = [("batch_id", batch_id); ("project_id", project_id);
        ("span_count", VInt (Z.of_nat (length spans)))]%string).
Proof.
  split; [apply summarize_alike|]. split; [|split; [apply summarize_twice|]].
  - intros key v (kv & _ & E)%summarize_elem_of Hs%secret_sensitive.
    by eapply summary_entry_shape.
  - intros m b p l rest [Hk|(Hk & Hn & Ha)]; unfold _task_args_for_dlq; rewrite Hk; [done|].
    by rewrite Hn, Ha.
Qed.

(** Another password, other spans: the record is the same. *)
Lemma summarize_task_args_safe_witness :
  let args password span := [("batch_id", VStr "b"); ("DB_Password", VStr password);
    ("spans", VList [span; VNone]); ("arg_0", VStr "seen")]%string in
  summarize_task_args (args "hunter2"%string (VStr "prompt"))
    = [("batch_id", VStr "b"); ("DB_Password", VStr "[redacted]");
       ("span_count", VInt 2); ("arg_0", VStr "seen")]%string ∧
  summarize_task_args (args "hunter2"%string (VStr "prompt"))
    = summarize_task_args (args "letmein"%string (VDict [])).
Proof.
  split; [by vm_compute|].
  destruct (summarize_task_args_safe
    [("batch_id", VStr "b"); ("DB_Password", VStr "hunter2");
     ("spans", VList [VStr "prompt"; VNone]); ("arg_0", VStr "seen")]%string) as [Halike _].
  apply Halike. apply Forall2_cons. split; [apply alike_same|].
  apply Forall2_cons. split.
  { apply alike_secret. exists "password"%string. split; [set_solver|by vm_compute]. }
  apply Forall2_cons. split; [by apply alike_spans|]. apply Forall2_cons. split; [apply alike_same|].
  constructor.
Defined.

Section retry.
Context (float_repr : pyfloat → string) (json_loads : string → result pyval).
Context (repr : pyval → string) (span_data : pyval → SpanData).

Definition recorded_by (r : FailureReport) (t : FailedTask) : Prop :=
  f_args t = Some (str_take MAX_SUMMARY_LENGTH
    (json_dumps float_repr ", " ": " (VDict (summarize_task_args (fr_args r))))).

(** The JSON library reads the recorded text back, or finds it cut off. *)
Definition json_reads (r : FailureReport) : Prop :=
  let d := VDict (summarize_task_args (fr_args r)) in
  let text := str_take MAX_SUMMARY_LENGTH (json_dumps float_repr ", " ": " d) in
  json_loads text = Ok d ∨ json_loads text = Raise JSONDecodeError.

Lemma dumps_dict_truthy d : ∃ s, json_dumps float_repr ", " ": " (VDict d) = String "{" s.
Proof. by eexists. Qed.

Lemma retry_arguments_recorded r t :
  json_reads r → recorded_by r t → ∃ detail, retry_arguments json_loads repr t = Raise (HTTPException 409 detail).
Proof.
  intros Hj Hr. unfold retry_arguments. rewrite Hr.
  destruct (dumps_dict_truthy (summarize_task_args (fr_args r))) as [s Es].
  assert (Ht : truthy (str_take MAX_SUMMARY_LENGTH
    (json_dumps float_repr ", " ": " (VDict (summarize_task_args (fr_args r))))) = true).
  { by rewrite Es. }
  rewrite Ht.
  destruct Hj as [-> | ->]; [|by eexists]. simpl.
  pose proof (summarize_spans (fr_args r)) as Hs.
  destruct (truthy_val _); [|by eexists].
  destruct (match dict_get "project_id" _ with Some v => _ | None => _ end); [|by eexists].
  destruct (dict_get "spans" _) as [[]|]; try by eexists. by destruct (Hs l).
Qed.

(** a failed batch can never be retried. The record of a failure keeps the
    number of spans and not the spans, so for every unresolved record the
    dead-letter handler wrote, retrying it answers 409 and changes nothing:
    neither the queue nor the record. *)
Theorem recorded_failure_not_retryable id user w r t :
  json_reads r → cu_role user = "admin" →
  select_one (is_task id (cu_org user)) (failed_tasks (db (w_app w))) = Some t →
  recorded_by r t → f_resolved t = false →
  ∃ detail, retry_failed_task json_loads repr span_data id user w
            = (Raise (HTTPException 409 detail), w).
Proof.
  intros Hj Ha Hsel Hr Hres.
  destruct (retry_arguments_recorded r t Hj Hr) as [detail Hargs].
  assert (Hadmin : on_app (require_admin user) w = (Ok tt, w)).
  { unfold on_app. rewrite (require_admin_run _ _ Ha). by destruct w. }
  unfold retry_failed_task. rewrite (bind_run _ _ _ _ _ Hadmin).
  unfold app_session, atomic.
  erewrite bind_run by (unfold on_app, query, gets; rewrite Hsel; reflexivity).
  erewrite bind_run by reflexivity. rewrite Hres.
  erewrite bind_run by reflexivity.
  destruct (_is_process_span_batch_task (f_task t)) eqn:Et; simpl negb.
  - erewrite bind_run by reflexivity. exists detail.
    erewrite bind_run_raise by (unfold lift; rewrite Hargs; reflexivity). by destruct w.
  - eexists. erewrite bind_run_raise by reflexivity. by destruct w.
Qed.
End retry.

(** ** Witness *)

Definition batch_report : FailureReport :=
  {| fr_task := "app.workers.process_span:process_span_batch";
     fr_args := [("batch_id", VStr "b1"); ("project_id", VStr "p1");
                 ("spans", VList [VDict [("name", VStr "n")]])]%string;
     fr_error := "boom"; fr_attempts := 3 |}.

(** The reader of one text. *)
Definition reads_report (s : string) : result pyval :=
  if String.eqb s (str_take MAX_SUMMARY_LENGTH (json_dumps (λ _, EmptyString) ", " ": "
                     (VDict (summarize_task_args (fr_args batch_report)))))
  then Ok (VDict (summarize_task_args (fr_args batch_report)))
  else Raise JSONDecodeError.

Definition dead_letter : World :=
  set_w_app (λ s, (handle_failed_task (λ _, EmptyString) (λ _, EmptyString) 1 batch_report 0
                     (with_db (set_projects (λ _, [sample_project])) s)).2)
    (empty_world 0 []).

Definition any_span (v : pyval) : SpanData :=
  {| sd_span_id := None; sd_trace_id := None; sd_parent := None; sd_name := None;
     sd_provider := None; sd_model := None; sd_input := None; sd_output := None;
     sd_latency := None; sd_error := None; sd_started := None; sd_messages := [];
     sd_text := None; sd_metadata := [] |}.

Lemma recorded_failure_not_retryable_witness :
  length (failed_tasks (db (w_app dead_letter))) = 1%nat ∧
  ∃ detail, retry_failed_task reads_report (λ _, EmptyString) any_span 1 boss dead_letter
            = (Raise (HTTPException 409 detail), dead_letter).
Proof.
  split; [by vm_compute|].
  eapply (recorded_failure_not_retryable (λ _, EmptyString) reads_report (λ _, EmptyString)
    any_span 1 boss dead_letter batch_report).
  - left. unfold reads_report. by rewrite String.eqb_refl.
  - done.
  - vm_compute. reflexivity.
  - by vm_compute.
  - done.
Defined.
