(* ===== verification/Otlp.v ===== *)
(** * OTLP

    [backend/app/services/otlp.py] and [api/v1/otlp.py]: OpenTelemetry exports,
    in JSON and in protobuf, as spans of the ingest schema.  The code tells the
    two encodings apart by the attributes its values have; here each encoding
    has its own reader.  An exception in either makes [parse] return [None]. *)

From S2P Require Import Prelude Text PyVal Json Decimal Schema App Cost SpanSchema Storage Pipeline Ingest Buckets FailedTasks.
From Stdlib Require Import SpecFloat.

Local Open Scope Z_scope.

#[local] Instance result_fmap : FMap result := λ A B f m,
  match m with Ok a => Ok (f a) | Raise e => Raise e end.

(** ** Integers of text and of floats *)

(** The digits of [int(s)], single underscores between them. *)
Fixpoint decimal_digits (acc : Z) (under : bool) (s : string) : option Z :=
  match s with
  | EmptyString => if under then None else Some acc
  | String c s' =>
      if is_digit c then decimal_digits (10 * acc + digit_value c) false s'
      else if Ascii.eqb c "_" && negb under then decimal_digits acc true s' else None
  end.

Definition int_of_text (s : string) : option Z :=
  match strip s with
  | String "+" s' => decimal_digits 0 true s'
  | String "-" s' => Z.opp <$> decimal_digits 0 true s'
  | s' => decimal_digits 0 true s'
  end.

(** [int(x)] of a float: toward zero. *)
Definition int_of_float (f : pyfloat) : result Z :=
  match f with
  | S754_zero _ => Ok 0
  | S754_infinity _ => Raise (OtherError "OverflowError")
  | S754_nan => Raise (ValueError "cannot convert float NaN to integer")
  | S754_finite s m e =>
      let n := if 0 <=? e then Z.pos m * 2 ^ e else Z.pos m / 2 ^ (- e) in
      Ok (if s then - n else n)
  end.

Definition py_int (v : pyval) : result Z :=
  match v with
  | VInt z => Ok z
  | VBool b => Ok (if b then 1 else 0)
  | VFloat f => int_of_float f
  | VStr s => match int_of_text s with
              | Some z => Ok z
              | None => Raise (ValueError "invalid literal for int()")
              end
  | _ => Raise (TypeError "int() argument must be a string or a number")
  end.

(** [n / d] of integers: the exact quotient, rounded once. *)
Definition true_div (n : Z) (d : positive) : result pyfloat :=
  let q := match n with
           | Z0 => S754_zero false
           | _ =>
               let '(m, e, l) := SFdiv_core_binary 53 1024 (Z.abs n) 0 (Z.pos d) 0 in
               binary_round_aux 53 1024 (n <? 0) m e l
           end in
  match q with
  | S754_infinity _ => Raise (OtherError "OverflowError")
  | q => Ok q
  end.

(** [_parse_int(value, default=0)] *)
Definition _parse_int (v : pyval) : result Z :=
  match py_int v with
  | Raise (TypeError _) | Raise (ValueError _) => Ok 0
  | r => r
  end.

(** ** Attribute names *)

Definition GENAI_PROVIDER_ATTRIBUTES : list string := ["gen_ai.provider.name"; "gen_ai.system"].
Definition GENAI_MODEL_ATTRIBUTES : list string :=
  ["gen_ai.response.model"; "gen_ai.request.model"].
Definition GENAI_INPUT_TOKEN_ATTRIBUTES : list string :=
  ["gen_ai.usage.input_tokens"; "gen_ai.usage.prompt_tokens"].
Definition GENAI_OUTPUT_TOKEN_ATTRIBUTES : list string :=
  ["gen_ai.usage.output_tokens"; "gen_ai.usage.completion_tokens"].

(** [JSON_FIELD_ALIASES.get(field, field)] *)
Definition json_alias (field : string) : string :=
  if String.eqb field "trace_id" then "traceId"
  else if String.eqb field "span_id" then "spanId"
  else if String.eqb field "parent_span_id" then "parentSpanId"
  else if String.eqb field "start_time_unix_nano" then "startTimeUnixNano"
  else if String.eqb field "end_time_unix_nano" then "endTimeUnixNano"
  else field.

(** The dictionary made of a span. *)
Record OtlpSpan : Type := {
  os_span_id : string; os_trace_id : string; os_parent : option string;
  os_name : string; os_provider : string; os_model : string;
  os_input : Z; os_output : Z; os_error : option string;
  os_latency : pyfloat; os_started : string; os_metadata : list (string * pyval);
}.

(** The protobuf messages of the export, as the generated classes hold them. *)
Inductive AnyValue : Type :=
| AvNone
| AvString (s : string)
| AvBool (b : bool)
| AvInt (z : Z)
| AvDouble (f : pyfloat)
| AvArray (l : list AnyValue)
| AvKvlist (l : list (string * AnyValue))
| AvBytes (s : string).

Record ProtoSpan : Type := {
  pb_trace_id : string; pb_span_id : string; pb_parent_span_id : string;
  pb_name : string; pb_start : Z; pb_end : Z;
  pb_attributes : list (string * AnyValue);
  pb_status_code : Z; pb_status_message : string;
}.

(** Resources, scopes, spans. *)
Definition ProtoRequest : Type := list (list (list ProtoSpan)).

Definition attribute_error {A} : result A := Raise (OtherError "AttributeError").

Fixpoint map_result {A B} (f : A → result B) (l : list A) : result (list B) :=
  match l with
  | [] => Ok []
  | x :: l' => y ← f x; ys ← map_result f l'; Ok (y :: ys)
  end.

(** [{k: v for ...}] *)
Definition dict_of (l : list (string * pyval)) : list (string * pyval) :=
  foldl (λ d kv, dict_set kv.1 kv.2 d) [] l.

Section converter.
(** [str] of a value that is not a string, [float] of a text, and
    [datetime.fromtimestamp(ns / 1e9, tz=UTC).isoformat()] *)
Context (repr : pyval → string) (float_of_str : string → result pyfloat)
        (time_text : Z → result string).

(** ** Attributes, whatever the encoding *)

Fixpoint _get_attr_str (attrs : list (string * pyval)) (names : list string)
    (default_ : string) : string :=
  match names with
  | [] => default_
  | name :: names' =>
      match dict_get name attrs with
      | None | Some VNone | Some (VStr EmptyString) => _get_attr_str attrs names' default_
      | Some v => py_str repr v
      end
  end.

Fixpoint _get_attr_int (attrs : list (string * pyval)) (names : list string) : result Z :=
  match names with
  | [] => Ok 0
  | name :: names' =>
      match dict_get name attrs with
      | Some v => _parse_int v
      | None => _get_attr_int attrs names'
      end
  end.

Definition _get_status_error (code : Z) (message : string) : option string :=
  if code =? 2 then
    let message := strip message in
    Some (if truthy message then message else "OTLP span status ERROR")
  else None.

(** ** JSON *)

(** What a [for] loop over a value meets. *)
Fixpoint chars (s : string) : list pyval :=
  match s with
  | EmptyString => []
  | String c s' => VStr (String c EmptyString) :: chars s'
  end.

Definition iter (v : pyval) : result (list pyval) :=
  match v with
  | VList l => Ok l
  | VDict d => Ok (VStr <$> keys d)
  | VStr s => Ok (chars s)
  | _ => Raise (TypeError "object is not iterable")
  end.

(** [v.get(key, default)] *)
Definition py_get (key : string) (default_ : pyval) (v : pyval) : result pyval :=
  match v with
  | VDict d => Ok (default default_ (dict_get key d))
  | _ => attribute_error
  end.

(** [_get_field]; [None] is the value of what is not there. *)
Definition _get_field (field : string) (v : pyval) : pyval :=
  match v with
  | VDict d => match dict_get (json_alias field) d with
               | Some x => x
               | None => default VNone (dict_get field d)
               end
  | _ => VNone
  end.

Definition json_id (field : string) (span : pyval) : string :=
  match _get_field field span with
  | VNone => EmptyString
  | v => py_str repr v
  end.

Definition json_str (field : string) (v : pyval) : string :=
  match _get_field field v with VNone => EmptyString | v => py_str repr v end.

(** [int(v or 0)] *)
Definition int_or_zero (v : pyval) : result Z := if truthy_val v then py_int v else Ok 0.

Definition json_latency (span : pyval) : result pyfloat :=
  end_ ← int_or_zero (_get_field "end_time_unix_nano" span);
  start ← int_or_zero (_get_field "start_time_unix_nano" span);
  true_div (end_ - start) 1000000.

Definition json_status_error (span : pyval) : result (option string) :=
  match _get_field "status" span with
  | VNone => Ok None
  | status =>
      code ← _parse_int (_get_field "code" status);
      Ok (_get_status_error code (json_str "message" status))
  end.

Definition py_float (v : pyval) : result pyfloat :=
  match v with
  | VFloat f => Ok f
  | VInt z => match float_of_Z z with
              | S754_infinity _ => Raise (OtherError "OverflowError")
              | f => Ok f
              end
  | VBool b => Ok (float_of_Z (if b then 1 else 0))
  | VStr s => float_of_str s
  | _ => Raise (TypeError "float() argument must be a string or a real number")
  end.

(** An attribute's key.  A scalar other than a string, which the format does
    not allow, fails here; the code keeps it as a key and the schema refuses
    the span. *)
Definition json_key (item : pyval) : result string :=
  k ← py_get "key" (VStr EmptyString) item;
  match k with VStr s => Ok s | _ => Raise (TypeError "key") end.

(** [_decode_any_value]; each level of nesting uses one unit of fuel, as it
    uses a frame of the interpreter's stack. *)
Fixpoint json_any_value (fuel : nat) (v : pyval) : result pyval :=
  match fuel with
  | O => Raise (RuntimeError "maximum recursion depth exceeded")
  | S fuel =>
      match v with
      | VDict d =>
          match dict_get "stringValue" d with Some x => Ok x | None =>
          match dict_get "boolValue" d with Some x => Ok x | None =>
          match dict_get "intValue" d with Some x => VInt <$> _parse_int x | None =>
          match dict_get "doubleValue" d with Some x => VFloat <$> py_float x | None =>
          match dict_get "arrayValue" d with
          | Some x =>
              values ← py_get "values" (VList []) x;
              l ← iter values;
              VList <$> map_result (json_any_value fuel) l
          | None =>
          match dict_get "kvlistValue" d with
          | Some x =>
              values ← py_get "values" (VList []) x;
              l ← iter values;
              kvs ← map_result (λ item,
                k ← json_key item;
                raw ← py_get "value" (VDict []) item;
                y ← json_any_value fuel raw;
                Ok (k, y)) l;
              Ok (VDict (dict_of kvs))
          | None =>
          match dict_get "bytesValue" d with
          | Some x => Ok (VStr (py_str repr x))
          | None => Ok VNone
          end end end end end end end
      | _ => attribute_error
      end
  end.

(** The depth of a value bounds the recursion. *)
Fixpoint depth (v : pyval) : nat :=
  match v with
  | VList l => S (foldr (λ x n, Nat.max (depth x) n) 0%nat l)
  | VDict d => S (foldr (λ kv n, match kv with (_, x) => Nat.max (depth x) n end) 0%nat d)
  | _ => 1
  end.

Definition decode_json_value (v : pyval) : result pyval := json_any_value (depth v) v.

(** [_get_attrs] of a JSON span. *)
Definition json_attrs (span : pyval) : result (list (string * pyval)) :=
  attrs ← py_get "attributes" (VList []) span;
  match attrs with
  | VList l =>
      kvs ← map_result (λ a,
        k ← json_key a;
        raw ← py_get "value" (VDict []) a;
        y ← decode_json_value raw;
        Ok (k, y)) l;
      Ok (dict_of kvs)
  | v => l ← iter v; match l with [] => Ok [] | _ => attribute_error end
  end.

Definition json_span (span : pyval) : result OtlpSpan :=
  attrs ← json_attrs span;
  let parent := json_id "parent_span_id" span in
  input_tokens ← _get_attr_int attrs GENAI_INPUT_TOKEN_ATTRIBUTES;
  output_tokens ← _get_attr_int attrs GENAI_OUTPUT_TOKEN_ATTRIBUTES;
  error ← json_status_error span;
  latency ← json_latency span;
  ns ← int_or_zero (_get_field "start_time_unix_nano" span);
  started ← time_text ns;
  Ok {| os_span_id := json_id "span_id" span; os_trace_id := json_id "trace_id" span;
        os_parent := if truthy parent then Some parent else None;
        os_name := json_str "name" span;
        os_provider := _get_attr_str attrs GENAI_PROVIDER_ATTRIBUTES "custom";
        os_model := _get_attr_str attrs GENAI_MODEL_ATTRIBUTES "unknown";
        os_input := input_tokens; os_output := output_tokens; os_error := error;
        os_latency := latency; os_started := started; os_metadata := attrs |}.

Definition json_extract (resource_spans : pyval) : result (list OtlpSpan) :=
  resources ← iter resource_spans;
  per_resource ← map_result (λ rs,
    scopes ← (scope_spans ← py_get "scopeSpans" (VList []) rs; iter scope_spans);
    per_scope ← map_result (λ ss,
      l ← (spans ← py_get "spans" (VList []) ss; iter spans);
      map_result json_span l) scopes;
    Ok (concat per_scope)) resources;
  Ok (concat per_resource).

(** ** Protobuf *)

Fixpoint bytes_hex (s : string) : string :=
  match s with
  | EmptyString => EmptyString
  | String c s' => hex_pad 2 (Z.of_nat (code c)) +:+ bytes_hex s'
  end.

Fixpoint decode_proto_value (v : AnyValue) : pyval :=
  match v with
  | AvNone => VNone
  | AvString s => VStr s
  | AvBool b => VBool b
  | AvInt z => VInt z
  | AvDouble f => VFloat f
  | AvArray l => VList (map decode_proto_value l)
  | AvKvlist l =>
      VDict (dict_of (map (λ kv, match kv with (k, x) => (k, decode_proto_value x) end) l))
  | AvBytes s => VStr (bytes_hex s)
  end.

(** [getattr(span, "attributes", None) or span.get("attributes", [])]: an empty
    repeated field is falsy, and a message has no method [get]. *)
Definition proto_attrs (span : ProtoSpan) : result (list (string * pyval)) :=
  match pb_attributes span with
  | [] => attribute_error
  | l => Ok (dict_of (map (λ kv, (kv.1, decode_proto_value kv.2)) l))
  end.

Definition proto_span (span : ProtoSpan) : result OtlpSpan :=
  attrs ← proto_attrs span;
  let parent := bytes_hex (pb_parent_span_id span) in
  input_tokens ← _get_attr_int attrs GENAI_INPUT_TOKEN_ATTRIBUTES;
  output_tokens ← _get_attr_int attrs GENAI_OUTPUT_TOKEN_ATTRIBUTES;
  latency ← true_div (pb_end span - pb_start span) 1000000;
  started ← time_text (pb_start span);
  Ok {| os_span_id := bytes_hex (pb_span_id span);
        os_trace_id := bytes_hex (pb_trace_id span);
        os_parent := if truthy parent then Some parent else None;
        os_name := pb_name span;
        os_provider := _get_attr_str attrs GENAI_PROVIDER_ATTRIBUTES "custom";
        os_model := _get_attr_str attrs GENAI_MODEL_ATTRIBUTES "unknown";
        os_input := input_tokens; os_output := output_tokens;
        os_error := _get_status_error (pb_status_code span) (pb_status_message span);
        os_latency := latency; os_started := started; os_metadata := attrs |}.

Definition proto_extract (resource_spans : ProtoRequest) : result (list OtlpSpan) :=
  per_resource ← map_result (λ scopes,
    per_scope ← map_result (map_result proto_span) scopes;
    Ok (concat per_scope)) resource_spans;
  Ok (concat per_resource).

(** ** The body of a request *)

(** [json.loads(body)] and [ParseFromString(body)] *)
Context (float_of_text : string → pyfloat).
Context (parse_from_string : string → result ProtoRequest).

Definition parse (body content_type : string) : option (list OtlpSpan) :=
  let r :=
    if contains "application/x-protobuf" content_type then
      req ← parse_from_string body; proto_extract req
    else
      data ← json_loads float_of_text body;
      resource_spans ← py_get "resourceSpans" (VList []) data;
      json_extract resource_spans in
  match r with Ok spans => Some spans | Raise _ => None end.

(** ** The endpoint *)

(** The span's fields as pydantic reads them: [float] to decimal, text to
    datetime, and the text of its first error. *)
Context (latency_decimal : pyfloat → decimal) (parse_datetime : string → option pydatetime).
Context (uuid5 : string → string → string) (str_len : list (string * pyval) → Z).
Context (error_text : exn → string).
Context (isoformat : pydatetime → string).

Definition otlp_schema (s : OtlpSpan) (now : timestamp) : result SpanSchema.SpanSchema :=
  match parse_datetime (os_started s) with
  | None => Raise (ValueError "started_at")
  | Some started =>
      validate_span uuid5 str_len
        {| raw_span_id := Some (os_span_id s); raw_trace_id := os_trace_id s;
           raw_parent_span_id := os_parent s; raw_name := os_name s;
           raw_provider := os_provider s; raw_model := os_model s;
           raw_input_messages := []; raw_output := None; raw_error := os_error s;
           raw_input_tokens := os_input s; raw_output_tokens := os_output s;
           raw_latency_ms := latency_decimal (os_latency s); raw_started_at := started;
           raw_metadata := os_metadata s |} EmptyString now
  end.

Fixpoint sort_spans (spans : list OtlpSpan) (now : timestamp)
    : list SpanSchema.SpanSchema * list exn :=
  match spans with
  | [] => ([], [])
  | s :: spans' =>
      let '(accepted, rejected) := sort_spans spans' now in
      match otlp_schema s now with
      | Ok x => (x :: accepted, rejected)
      | Raise e => (accepted, e :: rejected)
      end
  end.

Inductive OtlpResponse : Type :=
| OtlpUnparsable
| OtlpAccepted
| OtlpPartialSuccess (rejected : Z) (message : string).

Definition receive_otlp (rate_limiter_check : M World unit) (project_id : string)
    (body content_type : string) (new_id : string) : M World OtlpResponse :=
  rate_limiter_check;;
  match parse body content_type with
  | None => mret OtlpUnparsable
  | Some spans =>
      t ← now;
      let '(accepted, rejected) := sort_spans spans t in
      _ ← match accepted with
          | [] => mret EmptyString
          | _ => accept_batch isoformat project_id accepted None new_id
          end;
      mret match rejected with
           | [] => OtlpAccepted
           | _ => OtlpPartialSuccess (Z.of_nat (length rejected))
                    (join "; " (map error_text (take 3 rejected)))
           end
  end.
End converter.

(** ** The JSON mapping of OTLP

    How an exporter writes the messages in JSON: identifiers in hexadecimal,
    64-bit integers as decimal text. *)

Fixpoint json_of_value (v : AnyValue) : pyval :=
  match v with
  | AvNone => VDict []
  | AvString s => VDict [("stringValue", VStr s)]
  | AvBool b => VDict [("boolValue", VBool b)]
  | AvInt z => VDict [("intValue", VStr (str_of_int z))]
  | AvDouble f => VDict [("doubleValue", VFloat f)]
  | AvArray l => VDict [("arrayValue", VDict [("values", VList (map json_of_value l))])]
  | AvKvlist l =>
      VDict [("kvlistValue", VDict [("values", VList (map (λ kv,
        match kv with (k, x) => VDict [("key", VStr k); ("value", json_of_value x)] end) l))])]
  | AvBytes s => VDict [("bytesValue", VStr s)]
  end%string.

Definition json_of_attribute (kv : string * AnyValue) : pyval :=
  VDict [("key", VStr kv.1); ("value", json_of_value kv.2)]%string.

Definition json_of_span (s : ProtoSpan) : pyval :=
  VDict [("traceId", VStr (bytes_hex (pb_trace_id s)));
         ("spanId", VStr (bytes_hex (pb_span_id s)));
         ("parentSpanId", VStr (bytes_hex (pb_parent_span_id s)));
         ("name", VStr (pb_name s));
         ("startTimeUnixNano", VStr (str_of_int (pb_start s)));
         ("endTimeUnixNano", VStr (str_of_int (pb_end s)));
         ("attributes", VList (map json_of_attribute (pb_attributes s)));
         ("status", VDict [("code", VInt (pb_status_code s));
                           ("message", VStr (pb_status_message s))])]%string.

Definition json_of_request (req : ProtoRequest) : pyval :=
  VList (map (λ scopes,
    VDict [("scopeSpans", VList (map (λ spans,
      VDict [("spans", VList (map json_of_span spans))]) scopes))]) req)%string.

(** ** Facts *)

Section any_value_ind.
Context (P : AnyValue → Prop).
Hypothesis P_none : P AvNone.
Hypothesis P_string : ∀ s, P (AvString s).
Hypothesis P_bool : ∀ b, P (AvBool b).
Hypothesis P_int : ∀ z, P (AvInt z).
Hypothesis P_double : ∀ f, P (AvDouble f).
Hypothesis P_array : ∀ l, Forall P l → P (AvArray l).
Hypothesis P_kvlist : ∀ l, Forall (λ kv : string * AnyValue, P kv.2) l → P (AvKvlist l).
Hypothesis P_bytes : ∀ s, P (AvBytes s).

Fixpoint any_value_ind' (v : AnyValue) : P v :=
  match v with
  | AvNone => P_none
  | AvString s => P_string s
  | AvBool b => P_bool b
  | AvInt z => P_int z
  | AvDouble f => P_double f
  | AvArray l => P_array l
      ((fix go (l : list AnyValue) : Forall P l :=
         match l with
         | [] => List.Forall_nil _
         | x :: l' => List.Forall_cons _ _ _ (any_value_ind' x) (go l')
         end) l)
  | AvKvlist l => P_kvlist l
      ((fix go (l : list (string * AnyValue)) : Forall (λ kv, P kv.2) l :=
         match l with
         | [] => List.Forall_nil _
         | (k, x) :: l' => List.Forall_cons (λ kv : string * AnyValue, P kv.2) (k, x) _
                             (any_value_ind' x) (go l')
         end) l)
  | AvBytes s => P_bytes s
  end.
End any_value_ind.

(** The two encodings of bytes differ, in hexadecimal and in base64. *)
Fixpoint bytes_free (v : AnyValue) : bool :=
  match v with
  | AvBytes _ => false
  | AvArray l => forallb bytes_free l
  | AvKvlist l => forallb (λ kv, match kv with (_, x) => bytes_free x end) l
  | _ => true
  end.

Lemma decimal_digits_value acc under d :
  str_all is_digit d = true → (under = true → d ≠ EmptyString) →
  decimal_digits acc under d = Some (value_of_digits acc d).
Proof.
  revert acc under. induction d as [|c d IH]; intros acc under Hd Hu.
  - destruct under; [by destruct (Hu eq_refl)|done].
  - cbn [str_all] in Hd. apply andb_true_iff in Hd as [Hc Hd].
    cbn [decimal_digits value_of_digits]. rewrite Hc. by apply IH.
Qed.

Lemma pretty_N_digits (n : N) : ∃ c d, pretty n = String c d ∧
  str_all is_digit (String c d) = true ∧ value_of_digits 0 (String c d) = Z.of_N n.
Proof.
  destruct (decide (n = 0)%N) as [->|Hn]; [by exists "0"%char, EmptyString|].
  assert (pretty n = pretty_N_go n "") as -> by (unfold pretty, pretty_N; by rewrite decide_False).
  destruct (pretty_N_go_digits n "") as (c & d & -> & _ & Ha & Hv); [lia|].
  exists c, d. by rewrite str_app_nil_r.
Qed.

Lemma int_of_text_N (n : N) : int_of_text (pretty n) = Some (Z.of_N n).
Proof.
  destruct (pretty_N_digits n) as (c & d & E & Ha & Hv). rewrite E. unfold int_of_text.
  assert (strip (String c d) = String c d) as ->.
  { apply strip_by_none. eapply str_all_impl; [|exact Ha].
    by intros [[] [] [] [] [] [] [] []]. }
  rewrite <- Hv, <- (decimal_digits_value 0 true) by done.
  cbn [str_all] in Ha. apply andb_true_iff in Ha as [Hc _].
  by destruct c as [[] [] [] [] [] [] [] []].
Qed.

Lemma int_of_text_neg (n : N) : int_of_text (String "-" (pretty n)) = Some (- Z.of_N n).
Proof.
  destruct (pretty_N_digits n) as (c & d & E & Ha & Hv). rewrite E. unfold int_of_text.
  assert (strip (String "-" (String c d)) = String "-" (String c d)) as ->.
  { apply strip_by_none. cbn [str_all]. eapply (str_all_impl is_digit) in Ha; [exact Ha|].
    by intros [[] [] [] [] [] [] [] []]. }
  by rewrite decimal_digits_value, Hv.
Qed.

(** [int(str(z))] is [z]. *)
Lemma int_of_str_of_int z : int_of_text (str_of_int z) = Some z.
Proof.
  destruct z as [|p|p]; [done| |]; unfold str_of_int, pretty, pretty_Z.
  - apply (int_of_text_N (N.pos p)).
  - apply (int_of_text_neg (N.pos p)).
Qed.

Lemma str_of_int_truthy z : truthy (str_of_int z) = true.
Proof.
  apply truthy_true. intros E. pose proof (int_of_str_of_int z) as H. by rewrite E in H.
Qed.

Lemma map_result_ok {A B} (f : A → result B) (g : A → B) l :
  (∀ x, x ∈ l → f x = Ok (g x)) → map_result f l = Ok (map g l).
Proof.
  induction l as [|x l IH]; intros H; [done|]. cbn [map_result map].
  rewrite H by (by left). rewrite IH; [done|]. intros y Hy. apply H. by right.
Qed.

Lemma map_result_map {A B C} (f : B → result C) (h : A → B) (g : A → result C) l :
  (∀ x, x ∈ l → f (h x) = g x) → map_result f (map h l) = map_result g l.
Proof.
  induction l as [|x l IH]; intros H; [done|]. cbn [map_result map].
  rewrite H by (by left). rewrite IH; [done|]. intros y Hy. apply H. by right.
Qed.

Section agreement.
Context (repr : pyval → string) (float_of_str : string → result pyfloat)
        (time_text : Z → result string).

Abbreviation value := (json_any_value repr float_of_str).

Lemma depth_max (l : list pyval) x : x ∈ l →
  (depth x ≤ foldr (λ x n, Nat.max (depth x) n) 0%nat l)%nat.
Proof.
  induction l as [|y l IH]; intros Hx; [by apply not_elem_of_nil in Hx|]. cbn.
  apply elem_of_cons in Hx as [->|Hx]; [lia|]. specialize (IH Hx). lia.
Qed.

(** A value reads back as the protobuf reader decodes it. *)
Lemma value_agrees v fuel :
  bytes_free v = true → (depth (json_of_value v) ≤ fuel)%nat →
  value fuel (json_of_value v) = Ok (decode_proto_value v).
Proof.
  revert fuel. induction v as [| | | | |l IH|l IH|] using any_value_ind'; intros [|fuel] Hb Hf;
    try (cbn in Hf; lia); try done.
  - cbn. unfold _parse_int, py_int. by rewrite int_of_str_of_int.
  - cbn [json_of_value json_any_value]. cbn - [map_result map depth].
    rewrite Forall_forall in IH. cbn [bytes_free] in Hb. rewrite forallb_forall in Hb.
    rewrite (map_result_map _ _ (λ x, Ok (decode_proto_value x))), (map_result_ok _ decode_proto_value);
      [done|done|].
    intros x Hx. apply IH; [done|by apply Hb, list_elem_of_In|].
    pose proof (depth_max (map json_of_value l) (json_of_value x)) as Hd.
    cbn in Hf. specialize (Hd ltac:(by apply list_elem_of_fmap_2)). lia.
  - cbn [json_of_value json_any_value]. cbn - [map_result map depth].
    rewrite Forall_forall in IH. cbn [bytes_free] in Hb. rewrite forallb_forall in Hb.
    rewrite (map_result_map _ _ (λ kv : string * AnyValue, Ok (kv.1, decode_proto_value kv.2))),
      (map_result_ok _ (λ kv, (kv.1, decode_proto_value kv.2))); [|done|].
    + cbn. f_equal. f_equal. f_equal. apply map_ext. by intros [].
    + intros [k x] Hx. cbn. pose proof (IH (k, x) Hx fuel) as E. cbn [snd] in E. rewrite E; [done| |].
      * specialize (Hb (k, x)). by apply Hb, list_elem_of_In.
      * pose proof (depth_max (map (λ kv : string * AnyValue, match kv with (k, x) =>
          VDict [("key", VStr k); ("value", json_of_value x)]%string end) l)
          (VDict [("key", VStr k); ("value", json_of_value x)]%string)) as Hd.
        cbn in Hf, Hd. specialize (Hd ltac:(apply list_elem_of_fmap; by exists (k, x))). lia.
Qed.

(** Spans both encodings can carry. *)
Definition plain_attributes (s : ProtoSpan) : bool :=
  forallb (λ kv, bytes_free kv.2) (pb_attributes s).

Definition has_attributes (s : ProtoSpan) : bool :=
  match pb_attributes s with [] => false | _ => true end.

Abbreviation attrs_of s :=
  (dict_of (map (λ kv, (kv.1, decode_proto_value kv.2)) (pb_attributes s))).

Lemma attrs_agree s : plain_attributes s = true →
  json_attrs repr float_of_str (json_of_span s) = Ok (attrs_of s).
Proof.
  intros Hb. unfold plain_attributes in Hb. rewrite forallb_forall in Hb.
  unfold json_attrs, json_of_span. cbn - [map_result map dict_of].
  rewrite (map_result_map _ json_of_attribute
    (λ kv : string * AnyValue, Ok (kv.1, decode_proto_value kv.2))).
  - rewrite (map_result_ok _ (λ kv, (kv.1, decode_proto_value kv.2))); done.
  - intros [k x] Hx. unfold decode_json_value. cbn - [json_any_value depth].
    rewrite value_agrees; [done| |done].
    apply (Hb (k, x)). by apply list_elem_of_In.
Qed.

Lemma int_or_zero_text z : int_or_zero (VStr (str_of_int z)) = Ok z.
Proof.
  unfold int_or_zero. cbn [truthy_val]. rewrite str_of_int_truthy. unfold py_int.
  by rewrite int_of_str_of_int.
Qed.

Lemma span_agrees s : plain_attributes s = true → has_attributes s = true →
  json_span repr float_of_str time_text (json_of_span s) = proto_span repr time_text s.
Proof.
  intros Hb Ha. unfold json_span, proto_span. rewrite attrs_agree by done.
  unfold proto_attrs. unfold has_attributes in Ha.
  destruct (pb_attributes s) eqn:E; [done|]. rewrite <- E. cbn [mbind result_bind].
  destruct (_get_attr_int (attrs_of s) GENAI_INPUT_TOKEN_ATTRIBUTES); [|done].
  destruct (_get_attr_int (attrs_of s) GENAI_OUTPUT_TOKEN_ATTRIBUTES); [|done].
  cbn [mbind result_bind]. unfold json_latency.
  change (_get_field "end_time_unix_nano" (json_of_span s)) with (VStr (str_of_int (pb_end s))).
  change (_get_field "start_time_unix_nano" (json_of_span s))
    with (VStr (str_of_int (pb_start s))).
  rewrite !int_or_zero_text. done.
Qed.

Lemma no_attributes_fails s : has_attributes s = false →
  proto_span repr time_text s = Raise (OtherError "AttributeError").
Proof.
  unfold has_attributes, proto_span, proto_attrs. by destruct (pb_attributes s).
Qed.

(** A failing element fails the whole list. *)
Lemma map_result_raise {A B} (f : A → result B) l x e :
  x ∈ l → f x = Raise e → ∃ e', map_result f l = Raise e'.
Proof.
  intros Hx He. induction l as [|y l IH]; [by apply not_elem_of_nil in Hx|]. cbn [map_result].
  destruct (f y) as [z|e'] eqn:Ey; [|by exists e'].
  apply elem_of_cons in Hx as [->|Hx]; [congruence|]. destruct (IH Hx) as [e' ->]. by exists e'.
Qed.

(** The spans of a request. *)
Definition spans_of (req : ProtoRequest) : list ProtoSpan := mjoin (mjoin <$> (req : list (list (list ProtoSpan)))).

(** C19: the two encodings of an export mean the same.  For an export whose spans
    all have attributes, none of them bytes, reading its JSON form gives what
    reading its protobuf form gives, failures included; but one span without
    attributes makes the whole protobuf export unreadable, although the JSON
    form of that span is read. *)
Theorem json_proto_agree req :
  (∀ s, s ∈ spans_of req → plain_attributes s = true) →
  ((∀ s, s ∈ spans_of req → has_attributes s = true) →
   json_extract repr float_of_str time_text (json_of_request req)
   = proto_extract repr time_text req) ∧
  ∀ s, s ∈ spans_of req → has_attributes s = false →
    (∃ e, proto_extract repr time_text req = Raise e) ∧
    json_attrs repr float_of_str (json_of_span s) = Ok [].
Proof.
  intros Hp.
  assert (Hin : ∀ scopes spans s, scopes ∈ req → spans ∈ scopes → s ∈ spans → s ∈ spans_of req).
  { intros scopes spans s H1 H2 H3. unfold spans_of. apply list_elem_of_join.
    exists (mjoin scopes). split; [|by apply list_elem_of_fmap_2].
    apply list_elem_of_join. by exists spans. }
  split.
  - intros Ha. unfold json_extract, proto_extract, json_of_request. cbn [iter mbind result_bind].
    erewrite map_result_map; [reflexivity|]. intros scopes Hsc. cbn - [map_result map concat].
    erewrite map_result_map; [reflexivity|]. intros spans Hsp. cbn - [map_result map].
    apply map_result_map. intros s Hs. apply span_agrees; eauto.
  - intros s Hs Hn. split.
    + unfold spans_of in Hs. apply list_elem_of_join in Hs as (l & Hl & Hlr).
      apply list_elem_of_fmap in Hlr as (scopes & -> & Hsc).
      apply list_elem_of_join in Hl as (spans & Hs & Hsp).
      destruct (map_result_raise (proto_span repr time_text) spans s _ Hs
        (no_attributes_fails s Hn)) as [e1 E1].
      destruct (map_result_raise _ scopes spans e1 Hsp E1) as [e2 E2].
      destruct (map_result_raise (λ scopes,
        per_scope ← map_result (map_result (proto_span repr time_text)) scopes;
        Ok (concat per_scope)) req scopes e2 Hsc) as [e3 E3]; [by rewrite E2|].
      unfold proto_extract. rewrite E3. by exists e3.
    + rewrite attrs_agree by auto. unfold has_attributes in Hn.
      by destruct (pb_attributes s).
Qed.
End agreement.

(** ** The endpoint *)

Section endpoint.
Context (repr : pyval → string) (float_of_str : string → result pyfloat)
        (time_text : Z → result string) (float_of_text : string → pyfloat)
        (parse_from_string : string → result ProtoRequest)
        (latency_decimal : pyfloat → decimal) (parse_datetime : string → option pydatetime)
        (uuid5 : string → string → string) (str_len : list (string * pyval) → Z)
        (error_text : exn → string) (isoformat : pydatetime → string).

Abbreviation schema := (otlp_schema latency_decimal parse_datetime uuid5 str_len).
Abbreviation split_spans :=
  (sort_spans latency_decimal parse_datetime uuid5 str_len).
Abbreviation receive := (receive_otlp repr float_of_str time_text float_of_text
  parse_from_string latency_decimal parse_datetime uuid5 str_len error_text isoformat).
Abbreviation read := (parse repr float_of_str time_text float_of_text parse_from_string).

(** Every span of the export is accepted or rejected. *)
Lemma sort_spans_length l t :
  (length (split_spans l t).1 + length (split_spans l t).2)%nat = length l.
Proof.
  induction l as [|s l IH]; [done|]. cbn [sort_spans length].
  destruct (split_spans l t) as [acc rej]. destruct (schema s t); cbn in *; lia.
Qed.

Lemma sort_spans_valid l t x :
  x ∈ (split_spans l t).1 ↔ ∃ s, s ∈ l ∧ schema s t = Ok x.
Proof.
  induction l as [|s l IH]; cbn [sort_spans].
  - split; [by intros ?%not_elem_of_nil|by intros (s & ?%not_elem_of_nil & _)].
  - destruct (split_spans l t) as [acc rej]. cbn [fst] in IH.
    destruct (schema s t) as [y|e] eqn:E; cbn [fst].
    + rewrite elem_of_cons, IH. split.
      * intros [->|(s' & Hs & E')]; [exists s|exists s']; (split; [|done]); [by left|by right].
      * intros (s' & [->|Hs]%elem_of_cons & E'); [left; congruence|right; eauto].
    + rewrite IH. split.
      * intros (s' & Hs & E'). exists s'. split; [by right|done].
      * intros (s' & [->|Hs]%elem_of_cons & E'); [congruence|eauto].
Qed.

(** an export is accepted span by span.  When the limiter lets the request
    through, the valid spans of a readable export make up one accepted batch,
    with one task in the queue, and the client is told how many were not; the
    two numbers add up to the spans sent, and an export without a valid span
    starts no task. *)
Theorem otlp_partial_success check project_id body content_type new_id w spans :
  check w = (Ok tt, w) → w_faults w = [] → read body content_type = Some spans →
  let '(accepted, rejected) :=
    sort_spans latency_decimal parse_datetime uuid5 str_len spans (w_now w) in
  (length accepted + length rejected)%nat = length spans ∧
  (∀ x, x ∈ accepted ↔ ∃ s, s ∈ spans ∧ schema s (w_now w) = Ok x) ∧
  ∃ w', receive check project_id body content_type new_id w
    = (Ok match rejected with
          | [] => OtlpAccepted
          | _ => OtlpPartialSuccess (Z.of_nat (length rejected))
                   (join "; " (map error_text (take 3 rejected)))
          end, w') ∧
  w_queue w' = w_queue w ++ match accepted with
    | [] => []
    | _ => [process_span_batch_task new_id project_id (map (span_data isoformat) accepted)]
    end.
Proof.
  intros Hc Hf Hr. pose proof (sort_spans_length spans (w_now w)) as Hlen.
  pose proof (sort_spans_valid spans (w_now w)) as Hvalid.
  destruct (split_spans spans (w_now w)) as [accepted rejected] eqn:E.
  split; [exact Hlen|]. split; [exact Hvalid|]. clear Hlen Hvalid.
  unfold receive_otlp. rewrite (bind_run _ _ _ _ _ Hc), Hr.
  rewrite (bind_run now _ w (w_now w) w eq_refl), E.
  destruct accepted as [|a accepted].
  - exists w. rewrite app_nil_r. done.
  - unfold accept_batch, create_accepted, _save. eexists. split.
    + evaluate. rewrite Hf. evaluate. rewrite Hf. evaluate. reflexivity.
    + done.
Qed.
End endpoint.

(** ** Witnesses *)

Section witnesses.
Abbreviation no_repr := (λ _ : pyval, EmptyString).
Abbreviation no_float := (λ _ : string, Ok (S754_zero false) : result pyfloat).
Abbreviation plain_time := (λ ns : Z, Ok (str_of_int ns) : result string).

Definition sample_span (span_id : string) : ProtoSpan :=
  {| pb_trace_id := "0123456789abcdef"; pb_span_id := span_id; pb_parent_span_id := "";
     pb_name := "chat"; pb_start := 1000000; pb_end := 3500000;
     pb_attributes := [("gen_ai.system", AvString "openai");
                       ("gen_ai.request.model", AvString "gpt-4o");
                       ("gen_ai.usage.input_tokens", AvInt 12);
                       ("tags", AvArray [AvBool true; AvKvlist [("k", AvNone)]])];
     pb_status_code := 2; pb_status_message := " boom " |}.

(** A span without attributes. *)
Definition bare_span : ProtoSpan :=
  {| pb_trace_id := "0123456789abcdef"; pb_span_id := "01234567"; pb_parent_span_id := "";
     pb_name := "db"; pb_start := 0; pb_end := 0; pb_attributes := [];
     pb_status_code := 0; pb_status_message := "" |}.

Lemma all_spans (p : ProtoSpan → bool) req :
  forallb p (spans_of req) = true → ∀ s, s ∈ spans_of req → p s = true.
Proof. rewrite forallb_forall. intros H s Hs. by apply H, list_elem_of_In. Qed.

Definition good_request : ProtoRequest := [[[sample_span "01234567"]; [sample_span ""]]].
Definition mixed_request : ProtoRequest := [[[sample_span "01234567"; bare_span]]].

Lemma json_proto_agree_witness :
  (∃ r, json_extract no_repr no_float plain_time (json_of_request good_request) = Ok r ∧
     os_error <$> r = [Some "boom"; Some "boom"]%string ∧
     proto_extract no_repr plain_time good_request = Ok r) ∧
  ∃ e, proto_extract no_repr plain_time mixed_request = Raise e.
Proof.
  split.
  - eexists. split; [vm_compute; reflexivity|]. split; [reflexivity|].
    destruct (json_proto_agree no_repr no_float plain_time good_request
      (all_spans plain_attributes good_request eq_refl)) as [E _].
    rewrite <- (E (all_spans has_attributes good_request eq_refl)). vm_compute. reflexivity.
  - destruct (json_proto_agree no_repr no_float plain_time mixed_request
      (all_spans plain_attributes mixed_request eq_refl)) as [_ H].
    apply (H bare_span); [|done]. right. left.
Defined.

Abbreviation sample_receive :=
  (receive_otlp no_repr no_float plain_time (λ _, S754_zero false)
    (λ _, Ok [[[sample_span "01234567"; sample_span ""]]])
    (λ _, mkdec 25 (-1)) (λ _, Some {| dt_local := 0; dt_offset := Some 0 |})
    (λ _ _, str_of_uuid 5) (λ _, 0) (λ _, "invalid"%string)
    (λ _, "1970-01-01T00:00:00Z"%string)).

Lemma otlp_partial_success_witness :
  ∃ w', sample_receive (mret tt : M World unit) "p" "body" "application/x-protobuf" "b1" (empty_world 7 [])
    = (Ok (OtlpPartialSuccess 1 "invalid"), w') ∧ length (w_queue w') = 1%nat.
Proof.
  pose proof (otlp_partial_success no_repr no_float plain_time (λ _, S754_zero false)
    (λ _, Ok [[[sample_span "01234567"; sample_span ""]]])
    (λ _, mkdec 25 (-1)) (λ _, Some {| dt_local := 0; dt_offset := Some 0 |})
    (λ _ _, str_of_uuid 5) (λ _, 0) (λ _, "invalid"%string)
    (λ _, "1970-01-01T00:00:00Z"%string) (mret tt : M World unit) "p" "body"
    "application/x-protobuf" "b1" (empty_world 7 []) _ eq_refl eq_refl eq_refl) as H.
  destruct (sort_spans _ _ _ _ _ _) as [accepted rejected] eqn:E.
  vm_compute in E. injection E as <- <-. destruct H as (_ & _ & w' & H & Hq).
  exists w'. split; [exact H|]. by rewrite Hq.
Defined.
End witnesses.
