(* ===== verification/Paging.v ===== *)
(** * Reading page after page

    What a listing with a cursor promises its clients: a record of operations,
    the law of one page, and the theorem that following the cursors then reads
    everything once; and what a query sorted by a key answers after one of its
    rows.  [Traces] and [AuditTrail] are instances. *)

From S2P Require Import Prelude Schema.

Local Open Scope Z_scope.

(** ** Sorted selections *)

Section sorting.
Context {A : Type} (key : A → Z).

Lemma insert_by_least x l : (∀ y, y ∈ l → key x <= key y) → insert_by key x l = x :: l.
Proof.
  intros H. destruct l as [|y l]; [done|]. simpl.
  assert (Hy : key x <= key y) by (apply H; by left). by apply Z.leb_le in Hy as ->.
Qed.

Lemma insert_by_select (p : A → bool) x l : StronglySorted (key_le key) l →
  select p (insert_by key x l)
  = if p x then insert_by key x (select p l) else select p l.
Proof.
  induction 1 as [|y l Hl IH Hy]; [unfold select; simpl; by destruct (p x)|].
  unfold select in *. simpl.
  destruct (Z.leb_spec (key x) (key y)) as [Hle|Hgt]; simpl.
  - destruct (p x) eqn:Ex; [|done]. destruct (p y) eqn:Ey.
    + simpl. by apply Z.leb_le in Hle as ->.
    + rewrite insert_by_least; [done|]. intros z [Hz _]%elem_of_select.
      rewrite Forall_forall in Hy. specialize (Hy z Hz). unfold key_le in Hy. lia.
  - rewrite IH. destruct (p y) eqn:Ey, (p x) eqn:Ex; try done.
    simpl. by apply Z.leb_gt in Hgt as ->.
Qed.

(** Selecting and sorting commute: the sort is stable. *)
Lemma sort_by_select (p : A → bool) l : sort_by key (select p l) = select p (sort_by key l).
Proof.
  induction l as [|x l IH]; [done|]. cbn [sort_by foldr]. fold (sort_by key l).
  rewrite insert_by_select by apply sort_by_StronglySorted. rewrite <- IH.
  unfold select. simpl. by destruct (p x).
Qed.

Lemma NoDup_column_select {B} (g : A → B) (p : A → bool) l : NoDup (g <$> l) → NoDup (g <$> select p l).
Proof.
  intros H. replace (select p l) with (delete_where (λ r, negb (p r)) l).
  - by apply NoDup_column_delete.
  - unfold delete_where, select. induction l as [|x l IH]; [done|]. simpl.
    rewrite negb_involutive. apply NoDup_cons in H as [_ H]. by rewrite IH.
Qed.

Lemma select_all (p : A → bool) l : (∀ x, x ∈ l → p x = true) → select p l = l.
Proof.
  unfold select. induction l as [|x l IH]; intros H; [done|]. simpl.
  rewrite H by (by left). rewrite IH; [done|]. intros y Hy. apply H. by right.
Qed.

Lemma select_none (p : A → bool) l : (∀ x, x ∈ l → p x = false) → select p l = [].
Proof.
  unfold select. induction l as [|x l IH]; intros H; [done|]. simpl.
  rewrite H by (by left). apply IH. intros y Hy. apply H. by right.
Qed.

Lemma select_and (p q q' : A → bool) l :
  (∀ x, x ∈ l → p x = true → q x = q' x) →
  select (λ x, p x && q x) l = select q' (select p l).
Proof.
  unfold select. induction l as [|x l IH]; intros H; [done|]. simpl.
  rewrite IH by (intros y Hy; apply H; by right).
  destruct (p x) eqn:Ep; [|done]. simpl. by rewrite (H x) by (done || by left).
Qed.

(** In a list sorted by distinct keys, what comes after an element is what has
    a greater key. *)
Lemma select_after l1 x l2 :
  StronglySorted (key_le key) (l1 ++ x :: l2) → NoDup (key <$> l1 ++ x :: l2) →
  select (λ r, key x <? key r) (l1 ++ x :: l2) = l2.
Proof.
  intros Hs Hn. unfold select. rewrite List.filter_app. cbn [List.filter].
  rewrite Z.ltb_irrefl. fold (select (λ r, key x <? key r) l1) (select (λ r, key x <? key r) l2).
  rewrite select_none, select_all; [done| |].
  - intros y Hy. apply Z.ltb_lt. rewrite fmap_app, fmap_cons in Hn.
    apply NoDup_app in Hn as (_ & _ & [Hx _]%NoDup_cons).
    assert (key x ≠ key y) by (intros E; apply Hx; rewrite E; by apply list_elem_of_fmap_2).
    clear Hx. induction l1 as [|z l1 IH].
    + apply StronglySorted_inv in Hs as [_ Hs]. rewrite Forall_forall in Hs.
      specialize (Hs y Hy). unfold key_le in Hs. lia.
    + by apply StronglySorted_inv in Hs as [Hs%IH _].
  - intros y Hy. apply Z.ltb_ge. induction l1 as [|z l1 IH]; [by apply not_elem_of_nil in Hy|].
    apply StronglySorted_inv in Hs as [Hs Hz]. apply elem_of_cons in Hy as [->|Hy].
    + rewrite Forall_forall in Hz. apply Hz. set_solver.
    + apply IH; [done| |done]. by apply NoDup_cons in Hn as [_ Hn].
Qed.

(** The rows of a sorted query that come after one of its rows. *)
Lemma sort_by_after (p after : A → bool) t pre r rest :
  NoDup (key <$> t) →
  sort_by key (select p t) = pre ++ r :: rest →
  (∀ x, x ∈ t → p x = true → after x = (key r <? key x)) →
  sort_by key (select (λ x, p x && after x) t) = rest.
Proof.
  intros Hn E Ha.
  rewrite (select_and p after (λ x, key r <? key x) t Ha), sort_by_select, E.
  apply select_after; rewrite <- E.
  - apply sort_by_StronglySorted.
  - rewrite sort_by_Permutation. by apply NoDup_column_select.
Qed.
End sorting.

(** ** Pages *)

Local Open Scope nat_scope.

(** The request a client makes, with the cursor of the page before, and what it
    looks at in the answer. *)
Record Listing (S Row Page : Type) : Type := {
  request : option string → M S Page;
  page_rows : Page → list Row;
  page_next : Page → option string;
  row_cursor : Row → string;
}.
Arguments request {_ _ _}.
Arguments page_rows {_ _ _}.
Arguments page_next {_ _ _}.
Arguments row_cursor {_ _ _}.

Section paging.
Context {S Row Page : Type} (L : Listing S Row Page).

(** The position a cursor stands for: nothing read yet, or all up to a row. *)
Inductive at_position : list Row → option string → Prop :=
| at_start : at_position [] None
| at_row l r : at_position (l ++ [r]) (Some (row_cursor L r)).

(** A request changes nothing and answers the next [n] of the rows, with a
    cursor if some are left. *)
Definition lawful (n : nat) (rows : list Row) (s : S) : Prop :=
  ∀ pre rest cursor, at_position pre cursor → rows = pre ++ rest →
    ∃ page, request L cursor s = (Ok page, s) ∧ page_rows L page = take n rest ∧
      page_next L page =
        if n <? length rest then row_cursor L <$> last (take n rest) else None.

(** A client that asks for the first page, then follows the cursors. *)
Fixpoint read_pages (fuel : nat) (cursor : option string) : M S (list Page) :=
  match fuel with
  | O => mret []
  | Datatypes.S fuel =>
      page ← request L cursor;
      match page_next L page with
      | None => mret [page]
      | Some c => rest ← read_pages fuel (Some c); mret (page :: rest)
      end
  end.

Context (n : nat) (rows : list Row) (s : S).
Hypothesis Hn : 0 < n.
Hypothesis Hlaw : lawful n rows s.

(** What a reading of [rest] has to be. *)
Definition pages_of (rest : list Row) (pages : list Page) : Prop :=
  concat (page_rows L <$> pages) = rest ∧
  Forall (λ p, length (page_rows L p) <= n) pages ∧
  last (page_next L <$> pages) = Some None.

Lemma read_pages_rest fuel pre rest cursor :
  at_position pre cursor → rows = pre ++ rest → length rest < fuel →
  ∃ pages, read_pages fuel cursor s = (Ok pages, s) ∧ pages_of rest pages.
Proof.
  revert pre rest cursor. induction fuel as [|fuel IH]; intros pre rest cursor Hpos E Hl; [lia|].
  destruct (Hlaw pre rest cursor Hpos E) as (page & Hreq & Hrows & Hnext).
  cbn [read_pages]. rewrite (bind_run _ _ _ _ _ Hreq), Hnext.
  assert (Hpage : length (page_rows L page) <= n) by (rewrite Hrows, length_take; lia).
  destruct (Nat.ltb_spec n (length rest)) as [Hlt|Hge].
  - assert (Hne : take n rest ≠ []).
    { intros H%(f_equal length). rewrite length_take in H. cbn in H. lia. }
    destruct (last (take n rest)) as [r|] eqn:Hr; [|by apply last_None in Hr].
    apply last_Some in Hr as [l' Hr]. cbn [fmap option_fmap option_map].
    destruct (IH (pre ++ take n rest) (drop n rest) (Some (row_cursor L r)))
      as (pages & Hp & Hc & Hs & Hlast).
    + rewrite Hr, app_assoc. constructor.
    + by rewrite E, <- app_assoc, take_drop.
    + rewrite length_drop. lia.
    + rewrite (bind_run _ _ _ _ _ Hp). eexists. split; [reflexivity|]. unfold pages_of. cbn.
      rewrite Hc, Hrows, take_drop. split_and!; [done|by constructor|by destruct pages].
  - eexists. split; [reflexivity|]. unfold pages_of. cbn.
    rewrite app_nil_r, Hrows, take_ge by done.
    split_and!; [done|by constructor|by rewrite Hnext].
Qed.

(** From the first page on, every row once and in order. *)
Lemma read_pages_all fuel :
  length rows < fuel →
  ∃ pages, read_pages fuel None s = (Ok pages, s) ∧ pages_of rows pages.
Proof. apply (read_pages_rest fuel [] rows None); [constructor|done]. Qed.
End paging.
