(* ===== verification/Traces.v ===== *)
(** * Reading traces

    [backend/app/services/trace_service.py] and [api/v1/traces.py]: the listing
    with its cursor, and the detail of a trace with the payloads of its spans.
    The caller has been given its project by [Auth]. *)

From S2P Require Import Prelude Text PyVal Json Base64 Decimal Schema App Cost SpanSchema Storage Pipeline Auth FailedTasks Paging.

Local Open Scope Z_scope.

(** Query parameters of the listing. *)
Record TraceFilters : Type := {
  tf_model : option string; tf_status : option string;
  tf_from : option pydatetime; tf_to : option pydatetime;
}.

Definition opt_truthy (s : option string) : bool := truthy (default EmptyString s).

(** [WHERE project_id = ... AND status = ... AND started_at >= ... AND
    started_at <= ...] *)
Definition trace_matches (project : Z) (f : TraceFilters) (r : TraceRow) : bool :=
  (tr_project r =? project)
  && (negb (opt_truthy (tf_status f))
      || String.eqb (tr_status r) (default EmptyString (tf_status f)))
  && match tf_from f with None => true | Some t => dt_utc t <=? tr_started r end
  && match tf_to f with None => true | Some t => tr_started r <=? dt_utc t end.

(** [(started_at, id::text) < (:cursor_dt, :cursor_id)] *)
Definition before_cursor (cursor : option (pydatetime * string)) (r : TraceRow) : bool :=
  match cursor with
  | None => true
  | Some (dt, id) =>
      (tr_started r <? dt_utc dt)
      || (tr_started r =? dt_utc dt) && String.ltb (str_of_uuid (tr_id r)) id
  end.

(** [ORDER BY started_at DESC, id DESC]: an identifier is below [2^128]. *)
Definition newest (r : TraceRow) : Z := - (tr_started r * 2 ^ 128 + tr_id r).

(** What PostgreSQL takes as a uuid. *)
Definition sql_uuid (s : string) : result Z :=
  match uuid_of_str s with Some n => Ok n | None => Raise (SQLAlchemyError "DataError") end.

Section traces.
(** [datetime.isoformat] of a UTC value, [datetime.fromisoformat], [str] of a
    value that is not a string, [float] of a number's text. *)
Context (isoformat : timestamp → string) (fromisoformat : string → option pydatetime).
Context (repr : pyval → string) (float_repr : pyfloat → string)
        (float_of_text : string → pyfloat).

(** ** Cursors *)

Definition cursor_payload (started_at : timestamp) (trace_id : string) : pyval :=
  VDict [("started_at", VStr (isoformat started_at)); ("id", VStr trace_id)]%string.

Definition encode_trace_cursor (started_at : timestamp) (trace_id : string) : string :=
  b64encode (json_dumps float_repr "," ":" (cursor_payload started_at trace_id)).

Definition bad_cursor : exn := ValueError "Invalid pagination cursor".

(** [raw.rsplit(":", 1)] *)
Fixpoint rsplit_colon (s : string) : option (string * string) :=
  match s with
  | EmptyString => None
  | String c s' =>
      match rsplit_colon s' with
      | Some (a, b) => Some (String c a, b)
      | None => if Ascii.eqb c ":" then Some (EmptyString, s') else None
      end
  end.

Definition _decode_legacy_trace_cursor (raw : string) : result (pydatetime * string) :=
  match rsplit_colon raw with
  | Some (dt_str, cursor_id) =>
      match fromisoformat dt_str with
      | Some dt => Ok (dt, cursor_id)
      | None => Raise bad_cursor
      end
  | None => Raise bad_cursor
  end.

(** [payload["started_at"]] and [payload["id"]]; whatever fails in it sends
    the text to the legacy reader. *)
Definition read_cursor (payload : result pyval) : option (pydatetime * string) :=
  match payload with
  | Ok (VDict d) =>
      match dict_get "started_at" d, dict_get "id" d with
      | Some (VStr text), Some id => dt ← fromisoformat text; Some (dt, py_str repr id)
      | _, _ => None
      end
  | _ => None
  end.

Definition decode_trace_cursor (cursor : string) : result (pydatetime * string) :=
  raw ← match b64decode cursor with
        | Some raw =>
            if str_all (λ c, (code c <? 128)%nat) raw then Ok raw else Raise bad_cursor
        | None => Raise bad_cursor
        end;
  r ← match read_cursor (json_loads float_of_text raw) with
      | Some r => Ok r
      | None => _decode_legacy_trace_cursor raw
      end;
  if truthy r.2 then Ok r else Raise bad_cursor.

(** ** The listing *)

Definition list_with_cursor (project_id : string) (cursor : option string) (limit : nat)
    (filters : TraceFilters) : M World (list TraceRow * option string) :=
  at_ ← (if opt_truthy cursor
         then r ← lift (decode_trace_cursor (default EmptyString cursor)); mret (Some r)
         else mret None);
  rows ← get_db (
    project ← lift (sql_uuid project_id);
    (* the table has no column [model] *)
    raise_when (opt_truthy (tf_model filters)) (SQLAlchemyError "UndefinedColumnError");;
    sql_query (λ w, take (limit + 1) (sort_by newest
      (select (λ r, trace_matches project filters r && before_cursor at_ r) (w_traces w)))));
  let items := take limit rows in
  mret (items,
        if (limit <? length rows)%nat then
          (λ r, encode_trace_cursor (tr_started r) (str_of_uuid (tr_id r))) <$> last items
        else None).

(** The bounds FastAPI puts on the query. *)
Definition listing_query_ok (page_size : Z) (filters : TraceFilters) : bool :=
  (1 <=? page_size) && (page_size <=? 200)
  && match tf_status filters with None => true | Some s => inb s ["ok"; "error"] end
  && (len (default EmptyString (tf_model filters)) <=? 100).

Record TracePage : Type := {
  tp_traces : list TraceRow; tp_next : option string; tp_has_more : bool;
}.

Definition list_traces (project_id : string) (filters : TraceFilters)
    (cursor : option string) (page_size : Z) : M World TracePage :=
  raise_when (negb (listing_query_ok page_size filters))
    (HTTPException 422 "Unprocessable Entity");;
  r ← try_except (list_with_cursor project_id cursor (Z.to_nat page_size) filters)
        (λ e, match e with
              | ValueError msg => raise (HTTPException 400 msg)
              | e => raise e
              end);
  mret {| tp_traces := r.1; tp_next := r.2; tp_has_more := bool_decide (is_Some r.2) |}.

(** ** The detail *)

Definition get_with_spans (trace_id project_id : string) (started_at : option pydatetime)
    : M World (option (TraceRow * list SpanRow)) :=
  get_db (
    tid ← lift (sql_uuid trace_id);
    pid ← lift (sql_uuid project_id);
    start ← match started_at with
            | Some t => mret (Some (dt_utc t))
            | None => sql_query (λ w, tr_started <$> head (sort_by tr_started
                (select (λ r, (tr_id r =? tid) && (tr_project r =? pid)) (w_traces w))))
            end;
    match start with
    | None => mret None
    | Some t =>
        trace ← sql_query (λ w, select_one (λ r,
          (tr_id r =? tid) && (tr_project r =? pid) && (tr_started r =? t)) (w_traces w));
        match trace with
        | None => mret None
        | Some r =>
            spans ← sql_query (λ w, sort_by sp_started (select (λ s,
              (sp_trace s =? tid) && (sp_project s =? pid) && (t <=? sp_started s))
              (w_spans w)));
            mret (Some (r, spans))
        end
    end).

(** [get_payload] of the storage service *)
Context (load_payload : string → M World (option pyval)).

(** [asyncio.gather] over the keys, then the dictionary of what was found. *)
Fixpoint gather_payloads (keys : list string) : M World (list (string * pyval)) :=
  match keys with
  | [] => mret []
  | k :: keys' =>
      p ← load_payload k;
      rest ← gather_payloads keys';
      mret (match p with
            | None | Some VNone => rest
            | Some v => (k, v) :: rest
            end)
  end.

Definition key_map (found : list (string * pyval)) : list (string * pyval) :=
  foldl (λ d kv, dict_set kv.1 kv.2 d) [] found.

Definition get_trace_detail (trace_id project_id : string) (include_payload : bool)
    (started_at : option pydatetime)
    : M World (TraceRow * list (SpanRow * option pyval)) :=
  found ← get_with_spans trace_id project_id started_at;
  match found with
  | None => raise (HTTPException 404 "Trace not found")
  | Some (r, spans) =>
      payloads ← (if include_payload
        then gather_payloads (List.filter truthy (omap sp_payload_key spans))
        else mret []);
      mret (r, (λ s, (s, k ← sp_payload_key s; dict_get k (key_map payloads))) <$> spans)
  end.
End traces.

(** ** Facts *)

(** *** The order of identifiers *)

Lemma compare_app s1 s2 t1 t2 : String.length s1 = String.length s2 →
  String.compare (s1 +:+ t1) (s2 +:+ t2)
  = match String.compare s1 s2 with Eq => String.compare t1 t2 | c => c end.
Proof.
  revert s2. induction s1 as [|c s1 IH]; intros [|d s2] Hl; try done.
  rewrite !str_app_cons. cbn [String.compare]. destruct (Ascii.compare c d); [|done|done].
  apply IH. by injection Hl.
Qed.

Lemma compare_hex_char x y : 0 <= x < 16 → 0 <= y < 16 →
  Ascii.compare (hex_char x) (hex_char y) = (x ?= y).
Proof.
  intros Hx Hy.
  assert (Hall : forallb (λ i, forallb (λ j,
    bool_decide (Ascii.compare (hex_char (Z.of_nat i)) (hex_char (Z.of_nat j))
                 = (Z.of_nat i ?= Z.of_nat j))) (seq 0 16)) (seq 0 16) = true) by by vm_compute.
  rewrite forallb_forall in Hall. specialize (Hall (Z.to_nat x) ltac:(apply in_seq; lia)).
  rewrite forallb_forall in Hall. specialize (Hall (Z.to_nat y) ltac:(apply in_seq; lia)).
  by apply bool_decide_eq_true in Hall; rewrite !Z2Nat.id in Hall by lia.
Qed.

Lemma compare_hex_pad k x y : 0 <= x < 16 ^ Z.of_nat k → 0 <= y < 16 ^ Z.of_nat k →
  String.compare (hex_pad k x) (hex_pad k y) = (x ?= y).
Proof.
  revert x y. induction k as [|k IH]; intros x y Hx Hy.
  - change (16 ^ Z.of_nat 0) with 1 in *. assert (x = y) as -> by lia. by rewrite Z.compare_refl.
  - rewrite Nat2Z.inj_succ, Z.pow_succ_r in Hx, Hy by lia.
    cbn [hex_pad]. rewrite compare_app by (by rewrite !hex_pad_length).
    pose proof (Z.div_mod x 16 ltac:(done)). pose proof (Z.div_mod y 16 ltac:(done)).
    pose proof (Z.mod_pos_bound x 16 ltac:(done)). pose proof (Z.mod_pos_bound y 16 ltac:(done)).
    rewrite IH by (split; [apply Z.div_pos; lia|apply Z.div_lt_upper_bound; lia]).
    cbn [String.compare]. rewrite compare_hex_char by done.
    destruct (Z.compare_spec (x / 16) (y / 16)); symmetry;
      [|apply Z.compare_lt_iff; lia|apply Z.compare_gt_iff; lia].
    destruct (Z.compare_spec (x mod 16) (y mod 16));
      [apply Z.compare_eq_iff|apply Z.compare_lt_iff|apply Z.compare_gt_iff]; lia.
Qed.

(** Splitting a number at a power of sixteen splits its comparison. *)
Lemma compare_split m x y : 0 < m →
  (x ?= y) = match x / m ?= y / m with Eq => x mod m ?= y mod m | c => c end.
Proof.
  intros Hm. pose proof (Z.div_mod x m ltac:(lia)). pose proof (Z.div_mod y m ltac:(lia)).
  pose proof (Z.mod_pos_bound x m Hm). pose proof (Z.mod_pos_bound y m Hm).
  destruct (Z.compare_spec (x / m) (y / m));
    [|apply Z.compare_lt_iff; nia|apply Z.compare_gt_iff; nia].
  destruct (Z.compare_spec (x mod m) (y mod m));
    [apply Z.compare_eq_iff|apply Z.compare_lt_iff|apply Z.compare_gt_iff]; nia.
Qed.

(** The text of identifiers is ordered as their values. *)
Lemma uuid_text_order a b : 0 <= a < 2 ^ 128 → 0 <= b < 2 ^ 128 →
  String.compare (str_of_uuid a) (str_of_uuid b) = (a ?= b).
Proof.
  intros Ha Hb. unfold str_of_uuid.
  assert (Hhi : ∀ n, 0 <= n < 2 ^ 128 → 0 <= n / 16 ^ 24 < 16 ^ Z.of_nat 8).
  { intros n Hn. split; [apply Z.div_pos; lia|apply Z.div_lt_upper_bound; [lia|]].
    change (16 ^ 24 * 16 ^ Z.of_nat 8) with (2 ^ 128). lia. }
  assert (Hmod : ∀ k n, 0 <= n mod 16 ^ Z.of_nat k < 16 ^ Z.of_nat k).
  { intros k n. apply Z.mod_pos_bound. lia. }
  assert (Hs : ∀ k, 0 <= k → (a / 16 ^ k ?= b / 16 ^ k)
    = match a / 16 ^ (k + 4) ?= b / 16 ^ (k + 4) with
      | Eq => a / 16 ^ k mod 16 ^ 4 ?= b / 16 ^ k mod 16 ^ 4 | c => c end).
  { intros k Hk. rewrite (compare_split (16 ^ 4)) by done.
    by rewrite !Z.div_div, <- !Z.pow_add_r by lia. }
  rewrite (compare_split (16 ^ 12) a b), (Hs 12) by done. change (12 + 4) with 16.
  rewrite (Hs 16) by done. change (16 + 4) with 20.
  rewrite (Hs 20) by done. change (20 + 4) with 24.
  assert (Hdash : ∀ s t, String.compare ("-" +:+ s) ("-" +:+ t) = String.compare s t) by done.
  pose proof (Hmod 4%nat) as H4. pose proof (Hmod 12%nat) as H12.
  rewrite !compare_app, !Hdash, !compare_app, !Hdash, !compare_app, !Hdash, !compare_app, !Hdash
    by (by rewrite !hex_pad_length).
  rewrite !compare_hex_pad by first [apply H4 | apply H12 | by apply Hhi].
  by destruct (a / 16 ^ 24 ?= b / 16 ^ 24), (a / 16 ^ 20 mod 16 ^ 4 ?= b / 16 ^ 20 mod 16 ^ 4),
    (a / 16 ^ 16 mod 16 ^ 4 ?= b / 16 ^ 16 mod 16 ^ 4).
Qed.

Lemma str_of_uuid_nonempty n : str_of_uuid n ≠ EmptyString.
Proof.
  intros E%(f_equal String.length). unfold str_of_uuid in E.
  by rewrite str_app_length, hex_pad_length in E.
Qed.

(** *** Cursors *)

Lemma json_quote_ascii s : str_all (λ c, (code c <? 128)%nat) (json_quote s) = true.
Proof.
  unfold json_quote. cbn [str_all]. rewrite str_all_app, andb_true_iff. split; [done|].
  apply andb_true_iff. split; [|done]. induction s as [|c s IH]; [done|].
  cbn [json_escape]. rewrite str_all_app, IH.
  by destruct c as [[] [] [] [] [] [] [] []].
Qed.

Section cursors.
Context (isoformat : timestamp → string) (fromisoformat : string → option pydatetime).
Context (repr : pyval → string) (float_repr : pyfloat → string)
        (float_of_text : string → pyfloat).
(** [datetime.fromisoformat] reads what [isoformat] writes for a UTC value. *)
Hypothesis isoformat_roundtrip : ∀ t,
  fromisoformat (isoformat t) = Some {| dt_local := t; dt_offset := Some 0 |}.

Abbreviation encode := (encode_trace_cursor isoformat float_repr).
Abbreviation decode := (decode_trace_cursor fromisoformat repr float_of_text).

Lemma read_cursor_payload started_at trace_id :
  read_cursor fromisoformat repr (json_loads float_of_text
    (json_dumps float_repr "," ":" (cursor_payload isoformat started_at trace_id)))
  = Some ({| dt_local := started_at; dt_offset := Some 0 |}, trace_id).
Proof.
  assert (E : json_loads float_of_text
    (json_dumps float_repr "," ":" (cursor_payload isoformat started_at trace_id))
    = Ok (cursor_payload isoformat started_at trace_id)).
  { apply (json_loads_dumps float_repr float_of_text EmptyString EmptyString); [done|done|].
    cbn. split; [|done]. apply NoDup_cons. split; [set_solver|apply NoDup_singleton]. }
  rewrite E. cbn. by rewrite isoformat_roundtrip.
Qed.

Lemma cursor_payload_ascii started_at trace_id :
  str_all (λ c, (code c <? 128)%nat)
    (json_dumps float_repr "," ":" (cursor_payload isoformat started_at trace_id)) = true.
Proof.
  unfold cursor_payload. cbn [json_dumps map join foldl].
  by rewrite !str_all_app, !json_quote_ascii.
Qed.

Lemma decode_raw cursor raw r :
  b64decode cursor = Some raw → str_all (λ c, (code c <? 128)%nat) raw = true →
  read_cursor fromisoformat repr (json_loads float_of_text raw) = Some r →
  truthy r.2 = true → decode cursor = Ok r.
Proof.
  intros H1 H2 H3 H4. unfold decode_trace_cursor. rewrite H1, H2.
  cbn [mbind result_bind]. rewrite H3. cbn [mbind result_bind]. by rewrite H4.
Qed.

Lemma b64encode_truthy s : s ≠ EmptyString → truthy (b64encode s) = true.
Proof. by destruct s as [|a [|b [|c s]]]. Qed.

Lemma cursor_truthy started_at trace_id : truthy (encode started_at trace_id) = true.
Proof.
  unfold encode_trace_cursor, cursor_payload. apply b64encode_truthy.
  cbn [json_dumps]. by rewrite str_app_cons.
Qed.

(** A cursor names the position it was made from, whatever the identifier is. *)
Lemma decode_encode_cursor started_at trace_id :
  trace_id ≠ EmptyString →
  decode (encode started_at trace_id)
  = Ok ({| dt_local := started_at; dt_offset := Some 0 |}, trace_id).
Proof.
  intros Hid%truthy_true. eapply decode_raw.
  - apply b64_roundtrip.
  - apply cursor_payload_ascii.
  - apply read_cursor_payload.
  - exact Hid.
Qed.
End cursors.

(** *** Pages *)

(** A row and a column of the key of its table. *)
Definition trace_key (r : TraceRow) : Z * timestamp := (tr_id r, tr_started r).

(** The table of traces: its primary key, and identifiers of 128 bits. *)
Definition traces_wf (t : list TraceRow) : Prop :=
  NoDup (trace_key <$> t) ∧ Forall (λ r, 0 <= tr_id r < 2 ^ 128) t.

Lemma newest_inj x y :
  0 <= tr_id x < 2 ^ 128 → 0 <= tr_id y < 2 ^ 128 → newest x = newest y →
  trace_key x = trace_key y.
Proof. unfold newest, trace_key. intros. f_equal; lia. Qed.

Lemma traces_wf_newest t : traces_wf t → NoDup (newest <$> t).
Proof.
  intros [Hn Hb]. rewrite Forall_forall in Hb.
  apply NoDup_fmap_2_strong; [|by apply NoDup_fmap_1 in Hn].
  intros x y Hx Hy E. eapply (NoDup_column_inj trace_key); eauto using newest_inj.
Qed.

(** Older than a row, in the sense of its cursor. *)
Lemma before_cursor_newest x r :
  0 <= tr_id x < 2 ^ 128 → 0 <= tr_id r < 2 ^ 128 →
  before_cursor (Some ({| dt_local := tr_started x; dt_offset := Some 0 |},
                       str_of_uuid (tr_id x))) r
  = (newest x <? newest r).
Proof.
  intros Hx Hr. unfold before_cursor, newest, String.ltb. rewrite uuid_text_order by done.
  unfold dt_utc. cbn [dt_local dt_offset]. rewrite Z.sub_0_r.
  destruct (Z.ltb_spec (tr_started r) (tr_started x)); cbn [orb];
    [symmetry; apply Z.ltb_lt; lia|].
  destruct (Z.eqb_spec (tr_started r) (tr_started x)); cbn [andb];
    [|symmetry; apply Z.ltb_ge; lia].
  destruct (Z.compare_spec (tr_id r) (tr_id x)); symmetry;
    first [apply Z.ltb_lt; lia | apply Z.ltb_ge; lia].
Qed.

Section pages.
Context (isoformat : timestamp → string) (fromisoformat : string → option pydatetime).
Context (repr : pyval → string) (float_repr : pyfloat → string)
        (float_of_text : string → pyfloat).
Hypothesis isoformat_roundtrip : ∀ t,
  fromisoformat (isoformat t) = Some {| dt_local := t; dt_offset := Some 0 |}.

Abbreviation listing :=
  (list_traces isoformat fromisoformat repr float_repr float_of_text).

(** The matching traces, newest first. *)
Definition matching (project : Z) (f : TraceFilters) (w : World) : list TraceRow :=
  sort_by newest (select (trace_matches project f) (w_traces w)).

Definition trace_cursor (r : TraceRow) : string :=
  encode_trace_cursor isoformat float_repr (tr_started r) (str_of_uuid (tr_id r)).

(** The listing of a project as its clients page through it. *)
Definition trace_listing (project_id : string) (f : TraceFilters) (page_size : Z)
    : Listing World TraceRow TracePage :=
  {| request := λ cursor, listing project_id f cursor page_size;
     page_rows := tp_traces; page_next := tp_next; row_cursor := trace_cursor |}.

Section static.
Context (project_id : string) (project : Z) (f : TraceFilters) (page_size : Z) (w : World).
Hypothesis Hf : w_faults w = [].
Hypothesis Hwf : traces_wf (w_traces w).
Hypothesis Hpid : uuid_of_str project_id = Some project.
Hypothesis Hq : listing_query_ok page_size f = true.
Hypothesis Hm : opt_truthy (tf_model f) = false.

Lemma page_of_rows at_ rest :
  sort_by newest (select (λ r, trace_matches project f r && before_cursor at_ r) (w_traces w))
  = rest →
  sql_query (λ w, take (Z.to_nat page_size + 1) (sort_by newest
    (select (λ r, trace_matches project f r && before_cursor at_ r) (w_traces w)))) w
  = (Ok (take (Z.to_nat page_size + 1) rest), w).
Proof.
  intros <-. unfold sql_query, io, next_fault, mbind, M_bind. by rewrite Hf.
Qed.

(** The rows after a position are what its query selects. *)
Lemma rows_after pre r rest :
  matching project f w = (pre ++ [r]) ++ rest →
  sort_by newest (select (λ x, trace_matches project f x &&
    before_cursor (Some ({| dt_local := tr_started r; dt_offset := Some 0 |},
                         str_of_uuid (tr_id r))) x) (w_traces w)) = rest.
Proof.
  intros E. unfold matching in E. rewrite <- app_assoc in E.
  change ([r] ++ rest) with (r :: rest) in E.
  assert (Hb : ∀ x, x ∈ matching project f w → 0 <= tr_id x < 2 ^ 128).
  { intros x [Hx _]%sort_by_elem_of%elem_of_select. destruct Hwf as [_ H].
    rewrite Forall_forall in H. by apply H. }
  assert (Hr : 0 <= tr_id r < 2 ^ 128).
  { apply Hb. unfold matching. rewrite E. set_solver. }
  apply (sort_by_after newest _ _ _ pre r).
  - by apply traces_wf_newest.
  - exact E.
  - intros x Hx Hp. apply before_cursor_newest; [done|]. apply Hb.
    by apply sort_by_elem_of, elem_of_select.
Qed.

(** One request: the next rows, and a cursor when some are left. *)
Lemma listing_page :
  lawful (trace_listing project_id f page_size) (Z.to_nat page_size) (matching project f w) w.
Proof.
  intros pre rest cursor Hpos E. cbn [trace_listing request page_rows page_next row_cursor].
  set (n := Z.to_nat page_size).
  set (next := if (n <? length rest)%nat then trace_cursor <$> last (take n rest) else None).
  exists {| tp_traces := take n rest; tp_next := next; tp_has_more := bool_decide (is_Some next) |}.
  split; [|done]. unfold list_traces, raise_when. rewrite Hq.
  assert (Hrows : ∃ at_, sort_by newest (select (λ r, trace_matches project f r
      && before_cursor at_ r) (w_traces w)) = rest ∧
    (if opt_truthy cursor
     then r ← lift (decode_trace_cursor fromisoformat repr float_of_text
                      (default EmptyString cursor)); mret (Some r)
     else mret None) w = (Ok at_, w)).
  { destruct Hpos as [|pre r].
    - exists None. split; [|done]. cbn in E. rewrite <- E. unfold matching. f_equal.
      unfold select. apply List.filter_ext. intros x. by rewrite andb_true_r.
    - eexists. split; [by apply (rows_after pre)|].
      assert (Ho : ∀ s, opt_truthy (Some s) = truthy s) by done.
      assert (Hd : ∀ s : string, default EmptyString (Some s) = s) by done.
      rewrite Ho, Hd. cbn [row_cursor trace_listing]. unfold trace_cursor. rewrite cursor_truthy.
      unfold mbind, M_bind, lift, mret, M_ret.
      rewrite decode_encode_cursor; [done..|]. apply str_of_uuid_nonempty. }
  destruct Hrows as (at_ & Hrows & Hat). cbn [negb].
  erewrite bind_run; [|reflexivity].
  rewrite (bind_run _ _ _ (take n rest, if (n <? length rest)%nat
    then trace_cursor <$> last (take n rest) else None) w); [done|].
  unfold try_except, list_with_cursor. fold n.
  rewrite (bind_run _ _ _ _ _ Hat). rewrite Hm. unfold sql_uuid. rewrite Hpid.
  rewrite (bind_run _ _ _ (take (n + 1) rest) w).
  - assert (Htake : take n (take (n + 1) rest) = take n rest)
      by (rewrite take_take; f_equal; lia).
    assert (Hlen : (n <? length (take (n + 1) rest))%nat = (n <? length rest)%nat).
    { rewrite length_take. apply eq_true_iff_eq. rewrite !Nat.ltb_lt. lia. }
    cbn zeta. rewrite Htake, Hlen. reflexivity.
  - unfold get_db, atomic. erewrite bind_run; [|reflexivity]. erewrite bind_run; [|reflexivity].
    unfold n. by rewrite (page_of_rows at_ rest Hrows).
Qed.

End static.

(** C12: reading page after page misses no trace and repeats none.  With any
    filters but one by model (which fails whatever its value:
    [model_filter_fails]), while the database answers and the table does not
    change, a client that follows [next_cursor] from the first page ends on a
    page without a cursor, no page is longer than asked for, and the pages
    together are the project's matching traces, each once, newest first. *)
Theorem pages_complete project_id project f page_size w fuel :
  w_faults w = [] → traces_wf (w_traces w) → uuid_of_str project_id = Some project →
  listing_query_ok page_size f = true → opt_truthy (tf_model f) = false →
  (length (w_traces w) < fuel)%nat →
  ∃ pages, read_pages (trace_listing project_id f page_size) fuel None w = (Ok pages, w) ∧
    concat (tp_traces <$> pages) = matching project f w ∧
    Forall (λ p, (length (tp_traces p) ≤ Z.to_nat page_size)%nat) pages ∧
    last (tp_next <$> pages) = Some None.
Proof.
  intros Hf Hwf Hpid Hq Hm Hl.
  apply (read_pages_all (trace_listing project_id f page_size) (Z.to_nat page_size)
           (matching project f w)).
  - unfold listing_query_ok in Hq. do 3 apply andb_true_iff in Hq as [Hq _].
    apply Z.leb_le in Hq. lia.
  - by apply listing_page.
  - unfold matching. rewrite sort_by_length. eapply Nat.le_lt_trans; [|exact Hl].
    unfold select. apply List.filter_length_le.
Qed.
End pages.

(** The listing cannot be filtered by model: the statement names a column the
    table does not have. *)
Lemma model_filter_fails isoformat fromisoformat repr float_repr float_of_text
    project_id project f page_size w :
  listing_query_ok page_size f = true → opt_truthy (tf_model f) = true →
  uuid_of_str project_id = Some project →
  list_traces isoformat fromisoformat repr float_repr float_of_text
    project_id f None page_size w
  = (Raise (SQLAlchemyError "UndefinedColumnError"), w).
Proof.
  intros Hq Hm Hp. unfold list_traces, raise_when. rewrite Hq. cbn [negb].
  erewrite bind_run; [|reflexivity]. apply bind_run_raise.
  unfold try_except, list_with_cursor. erewrite bind_run; [|reflexivity].
  rewrite (bind_run_raise _ _ w (SQLAlchemyError "UndefinedColumnError") w); [done|].
  unfold get_db, atomic, sql_uuid. rewrite Hp. erewrite bind_run; [|reflexivity].
  rewrite Hm, (bind_run_raise _ _ w (SQLAlchemyError "UndefinedColumnError") w) by done.
  by destruct w.
Qed.

(** ** Witnesses *)

(** An invertible stand-in for [isoformat]. *)
Definition plain_iso (t : timestamp) : string := str_of_bits (countable.encode t).
Definition plain_fromiso (s : string) : option pydatetime :=
  (λ t, {| dt_local := t; dt_offset := Some 0 |}) <$> countable.decode (bits_of_str s).

Lemma plain_iso_roundtrip t :
  plain_fromiso (plain_iso t) = Some {| dt_local := t; dt_offset := Some 0 |}.
Proof. unfold plain_fromiso, plain_iso. by rewrite bits_of_str_of_bits, decode_encode. Qed.

Definition any_repr (_ : pyval) : string := EmptyString.
Definition any_float_repr (_ : pyfloat) : string := EmptyString.
Definition any_float (_ : string) : pyfloat := SpecFloat.S754_nan.

Definition sample_trace (id : Z) (at_ : timestamp) : TraceRow :=
  {| tr_id := id; tr_project := 1; tr_started := at_; tr_ended := None; tr_tokens := 0;
     tr_cost := 0; tr_spans := 1; tr_status := "ok" |}.

(** Three traces, two of them started at the same time. *)
Definition three_traces : World :=
  set_w_traces (λ _, [sample_trace 10 5; sample_trace 30 5; sample_trace 20 9])
    (empty_world 100 []).

Definition no_filters : TraceFilters :=
  {| tf_model := None; tf_status := None; tf_from := None; tf_to := None |}.

Example colon_in_identifier :
  decode_trace_cursor plain_fromiso any_repr any_float
    (encode_trace_cursor plain_iso any_float_repr 5 "a:b")
  = Ok ({| dt_local := 5; dt_offset := Some 0 |}, "a:b"%string).
Proof. apply (decode_encode_cursor _ _ _ _ _ plain_iso_roundtrip). done. Qed.

Lemma pages_complete_witness :
  ∃ pages, read_pages (trace_listing plain_iso plain_fromiso any_repr any_float_repr any_float
      (str_of_uuid 1) no_filters 2) 4 None three_traces = (Ok pages, three_traces) ∧
    concat (tp_traces <$> pages) = [sample_trace 20 9; sample_trace 30 5; sample_trace 10 5].
Proof.
  destruct (pages_complete plain_iso plain_fromiso any_repr any_float_repr any_float
    plain_iso_roundtrip (str_of_uuid 1) 1 no_filters 2 three_traces 4)
    as (pages & Hp & Hc & _); [done| |by apply uuid_roundtrip|done|done|simpl; lia|].
  - split; [|by repeat constructor].
    apply (bool_decide_unpack (NoDup (trace_key <$> w_traces three_traces))). by vm_compute.
  - exists pages. split; [exact Hp|]. rewrite Hc. by vm_compute.
Defined.
