(* ===== verification/PubSub.v ===== *)
(** * Live spans

    [backend/app/services/pubsub.py]: the task that listens on the channels of
    new spans, how it is started, stopped and starts again after a failure,
    the queues of its subscribers, and the stream of [api/v1/traces.py] that
    empties one.  A queue is named by the number of the [subscribe] call that
    made it.

    What redis-py hands to the listener depends on the client: text when it
    was made with [decode_responses=True], bytes otherwise.  The definitions
    take that as the argument [decode_responses]; [Connections] has the client
    of [core/redis.py]. *)

From S2P Require Import Prelude Text.

Definition QUEUE_SIZE : nat := 50.

Record Queue : Type := { q_project : string; q_items : list string }.

(** [_task]: where the coroutine of [_listen] waits; [Done] is a task that was
    cancelled. *)
Inductive Task : Type := Connecting | Listening | Sleeping | Done.

#[export] Instance Task_eq_dec : EqDecision Task.
Proof. solve_decision. Defined.

(** [_queues]: the queues by number; a queue that was unsubscribed is gone. *)
Record PubSubManager : Type := {
  ps_queues : gmap nat Queue; ps_next : nat; ps_task : option Task;
}.

Definition new_manager : PubSubManager :=
  {| ps_queues := ∅; ps_next := 0; ps_task := None |}.

Definition set_queues (f : gmap nat Queue → gmap nat Queue) (m : PubSubManager) : PubSubManager :=
  {| ps_queues := f (ps_queues m); ps_next := ps_next m; ps_task := ps_task m |}.

Definition set_task (t : Task) (m : PubSubManager) : PubSubManager :=
  {| ps_queues := ps_queues m; ps_next := ps_next m; ps_task := Some t |}.

(** [self._task and not self._task.done()] *)
Definition running (m : PubSubManager) : bool :=
  match ps_task m with None | Some Done => false | Some _ => true end.

(** [start]: a new task begins at the top of the loop. *)
Definition start (m : PubSubManager) : PubSubManager :=
  if running m then m else set_task Connecting m.

(** [stop]: every place where the task can wait lets a cancellation through,
    since [except Exception] does not catch it. *)
Definition stop (m : PubSubManager) : PubSubManager :=
  if negb (running m) then m else set_task Done m.

Definition subscribe (project_id : string) (m : PubSubManager) : nat * PubSubManager :=
  (ps_next m,
   {| ps_queues := <[ps_next m := {| q_project := project_id; q_items := [] |}]> (ps_queues m);
      ps_next := S (ps_next m); ps_task := ps_task m |}).

Definition unsubscribe (q : nat) (m : PubSubManager) : PubSubManager :=
  set_queues (delete q) m.

(** [q.put_nowait(data)], with [QueueFull] swallowed. *)
Definition put_nowait (data : string) (q : Queue) : Queue :=
  if (QUEUE_SIZE <=? length (q_items q))%nat then q
  else {| q_project := q_project q; q_items := q_items q ++ [data] |}.

(** What the loop over [self._queues.get(project_id, [])] does to one queue. *)
Definition offer (project_id data : string) (q : Queue) : Queue :=
  if String.eqb (q_project q) project_id then put_nowait data q else q.

(** A field of a message: text, or the bytes of a text. *)
Inductive reply : Type := Str (s : string) | Bytes (s : string).

Record Msg : Type := { msg_type : string; msg_channel : reply; msg_data : reply }.

(** What the client hands over of what was published. *)
Definition received (decode_responses : bool) (s : string) : reply :=
  if decode_responses then Str s else Bytes s.

(** [x.decode()]: text has no such method. *)
Definition decode (r : reply) : result string :=
  match r with
  | Bytes s => Ok s
  | Str _ => Raise (OtherError "AttributeError")
  end.

(** [channel.split(":")[1]] *)
Definition channel_project (channel : string) : option string :=
  split_on ":" channel !! 1%nat.

(** The body of the loop over [pubsub.listen()]. *)
Definition on_message (msg : Msg) : M PubSubManager unit :=
  if negb (String.eqb (msg_type msg) "pmessage") then mret tt
  else
    channel ← lift (decode (msg_channel msg));
    project_id ← lift (match channel_project channel with
                       | Some project_id => Ok project_id
                       | None => Raise (OtherError "IndexError")
                       end);
    data ← lift (decode (msg_data msg));
    modify (set_queues (fmap (offer project_id data))).

(** What can happen to the task: its subscription is made or fails, a message
    arrives, the connection breaks, the iteration ends, three seconds pass. *)
Inductive turn : Type :=
| Subscribed
| SubscribeRaises
| Received (msg : Msg)
| ListenRaises
| ListenEnds
| Woken.

(** One step of [_listen]: whatever raises is logged and followed by a sleep,
    after which the loop subscribes again. *)
Definition listen_turn (t : turn) (m : PubSubManager) : PubSubManager :=
  match ps_task m, t with
  | Some Connecting, Subscribed => set_task Listening m
  | Some Connecting, SubscribeRaises => set_task Sleeping m
  | Some Listening, Received msg =>
      match on_message msg m with
      | (Ok _, m') => m'
      | (Raise _, m') => set_task Sleeping m'
      end
  | Some Listening, ListenRaises => set_task Sleeping m
  | Some Listening, ListenEnds => set_task Connecting m
  | Some Sleeping, Woken => set_task Connecting m
  | _, _ => m
  end.

(** One turn of [generate]: what is yielded; [None] is the keepalive after a
    wait without data. *)
Definition next_event (q : nat) (m : PubSubManager) : option string * PubSubManager :=
  match ps_queues m !! q with
  | Some {| q_project := p; q_items := data :: rest |} =>
      (Some data, set_queues <[q := {| q_project := p; q_items := rest |}]> m)
  | _ => (None, m)
  end.

Definition generate_frame (data : option string) : string :=
  let eol := String "010" EmptyString in
  match data with
  | Some d => "data: " +:+ d +:+ eol +:+ eol
  | None => ": keepalive" +:+ eol +:+ eol
  end.

(** ** Runs *)

(** A message published while nobody listens is lost. *)
Inductive event : Type :=
| Subscribe (project_id : string)
| Unsubscribe (q : nat)
| Message (channel data : string)
| Read (q : nat)
| Start
| Stop
| Turn (t : turn).

(** The turns of the connection: what is published comes only from [Message],
    other messages are notices of the subscription. *)
Definition connection_turn (t : turn) (m : PubSubManager) : PubSubManager :=
  match t with
  | Received msg => if String.eqb (msg_type msg) "pmessage" then m else listen_turn t m
  | _ => listen_turn t m
  end.

Section runs.
Variable decode_responses : bool.

Definition pmessage (channel data : string) : Msg :=
  {| msg_type := "pmessage"; msg_channel := received decode_responses channel;
     msg_data := received decode_responses data |}.

Definition apply_event (e : event) (m : PubSubManager) : PubSubManager :=
  match e with
  | Subscribe p => (subscribe p m).2
  | Unsubscribe q => unsubscribe q m
  | Message c d => listen_turn (Received (pmessage c d)) m
  | Read q => (next_event q m).2
  | Start => start m
  | Stop => stop m
  | Turn t => connection_turn t m
  end.

Definition run (es : list event) (m : PubSubManager) : PubSubManager :=
  foldl (λ m e, apply_event e m) m es.

(** What the stream of a queue has yielded in a run. *)
Fixpoint yielded (q : nat) (es : list event) (m : PubSubManager) : list string :=
  match es with
  | [] => []
  | e :: es' =>
      (match e with
       | Read q' => if (q =? q')%nat then option_list (next_event q m).1 else []
       | _ => []
       end) ++ yielded q es' (apply_event e m)
  end.
End runs.

(** The messages of a run on a project's channels. *)
Definition published (project_id : string) (es : list event) : list string :=
  omap (λ e, match e with
             | Message c d => if bool_decide (channel_project c = Some project_id)
                              then Some d else None
             | _ => None
             end) es.

Definition unsubscribes (q : nat) (e : event) : bool :=
  match e with Unsubscribe q' => (q =? q')%nat | _ => false end.

(** Nothing happens to the listener: it is not stopped, its connection holds,
    and every channel has the project in its second part. *)
Definition calm (e : event) : bool :=
  match e with
  | Stop | Turn _ => false
  | Message c _ => bool_decide (is_Some (channel_project c))
  | _ => true
  end.

Definition items (q : nat) (m : PubSubManager) : list string :=
  from_option q_items [] (ps_queues m !! q).

(** ** Facts *)

(** Numbers not yet given out name no queue. *)
Definition fresh_ok (m : PubSubManager) : Prop := ∀ q, is_Some (ps_queues m !! q) → q < ps_next m.

(** A message of a client that decodes stops the listener; with the bytes of
    another client it reaches the queues of the channel's project. *)
Lemma on_message_run decode_responses c d m :
  on_message (pmessage decode_responses c d) m =
  if decode_responses then (Raise (OtherError "AttributeError"), m)
  else match channel_project c with
       | Some p => (Ok tt, set_queues (fmap (offer p d)) m)
       | None => (Raise (OtherError "IndexError"), m)
       end.
Proof. destruct decode_responses; [done|]. cbv -[channel_project offer]. by destruct (channel_project c). Qed.

Lemma on_notice msg m : String.eqb (msg_type msg) "pmessage" = false →
  on_message msg m = (Ok tt, m).
Proof. unfold on_message. by intros ->. Qed.

(** Turns of the connection leave the queues alone. *)
Lemma connection_turn_queues t m :
  ps_queues (connection_turn t m) = ps_queues m ∧ ps_next (connection_turn t m) = ps_next m.
Proof.
  destruct t as [| |msg| | |]; cbn [connection_turn]; try (unfold listen_turn; by destruct (ps_task m) as [[]|]).
  destruct (String.eqb _ _) eqn:E; [done|]. unfold listen_turn. rewrite on_notice by done.
  by destruct (ps_task m) as [[]|].
Qed.

(** What a published message does to the queues. *)
Lemma message_queues decode_responses c d m :
  let m' := listen_turn (Received (pmessage decode_responses c d)) m in
  ps_next m' = ps_next m ∧
  (ps_queues m' = ps_queues m ∨
   ∃ p, channel_project c = Some p ∧ ps_queues m' = offer p d <$> ps_queues m).
Proof.
  cbn zeta. unfold listen_turn. destruct (ps_task m) as [[]|]; try by split; [|left].
  rewrite on_message_run. destruct decode_responses; [by split; [|left]|].
  destruct (channel_project c) as [p|]; [|by split; [|left]].
  split; [done|]. right. by exists p.
Qed.

(** When the listener reads bytes and listens, the message reaches them. *)
Lemma message_heard c d p m : ps_task m = Some Listening → channel_project c = Some p →
  listen_turn (Received (pmessage false c d)) m = set_queues (fmap (offer p d)) m.
Proof. intros Ht Hc. unfold listen_turn. by rewrite Ht, on_message_run, Hc. Qed.

Lemma start_queues m : ps_queues (start m) = ps_queues m ∧ ps_next (start m) = ps_next m.
Proof. unfold start. by destruct (running m). Qed.

Lemma stop_queues m : ps_queues (stop m) = ps_queues m ∧ ps_next (stop m) = ps_next m.
Proof. unfold stop. by destruct (running m). Qed.

Section facts.
Variable decode_responses : bool.
Notation apply_event := (apply_event decode_responses).
Notation run := (run decode_responses).
Notation yielded := (yielded decode_responses).

Lemma fresh_ok_event e m : fresh_ok m → fresh_ok (apply_event e m).
Proof.
  intros H. destruct e as [p|q|c d|q| | |t].
  - intros q. cbn. destruct (decide (q = ps_next m)) as [->|]; [lia|].
    rewrite lookup_insert_ne by done. intros ?%H. lia.
  - intros q'. cbn. rewrite lookup_delete_is_Some. intros [_ ?]. by apply H.
  - cbn. destruct (message_queues decode_responses c d m) as [Hn [Hq|(p & _ & Hq)]];
      intros q; rewrite Hn, Hq; [apply H|]. rewrite lookup_fmap, fmap_is_Some. apply H.
  - cbn. unfold next_event. destruct (ps_queues m !! q) as [[p [|x l]]|] eqn:E; try done.
    intros q'. cbn. destruct (decide (q' = q)) as [->|]; [|rewrite lookup_insert_ne by done; apply H].
    intros _. apply H. by rewrite E.
  - cbn. intros q. destruct (start_queues m) as [-> ->]. apply H.
  - cbn. intros q. destruct (stop_queues m) as [-> ->]. apply H.
  - cbn. intros q. destruct (connection_turn_queues t m) as [-> ->]. apply H.
Qed.

(** A calm event leaves the listener listening. *)
Lemma calm_listening e m : decode_responses = false → calm e = true →
  ps_task m = Some Listening → ps_task (apply_event e m) = Some Listening.
Proof.
  intros Hd Hc Ht. destruct e as [p|q|c d|q| | |t]; cbn in *; try done.
  - unfold listen_turn. rewrite Ht, on_message_run, Hd.
    by destruct (bool_decide_eq_true_1 _ Hc) as [p ->].
  - unfold next_event. by destruct (ps_queues m !! q) as [[p [|x l]]|].
  - unfold start, running. by rewrite Ht.
Qed.

(** An event that leaves the queue alone and neither publishes nor reads. *)
Lemma queue_same e q p l m :
  ps_queues (apply_event e m) !! q = Some {| q_project := p; q_items := l |} →
  length l ≤ QUEUE_SIZE → yielded q [e] m = [] → published p [e] = [] →
  ∃ l', ps_queues (apply_event e m) !! q = Some {| q_project := p; q_items := l' |} ∧
    length l' ≤ QUEUE_SIZE ∧
    yielded q [e] m ++ l' `sublist_of` l ++ published p [e] ∧
    (decode_responses = false → ps_task m = Some Listening → calm e = true →
     length l + length (published p [e]) ≤ QUEUE_SIZE →
     yielded q [e] m ++ l' = l ++ published p [e]).
Proof. intros Hq Hl -> ->. exists l. by rewrite app_nil_r. Qed.

(** A published message, seen from a queue. *)
Lemma queue_message c d q p l m :
  ps_queues m !! q = Some {| q_project := p; q_items := l |} → length l ≤ QUEUE_SIZE →
  ∃ l', ps_queues (apply_event (Message c d) m) !! q = Some {| q_project := p; q_items := l' |} ∧
    length l' ≤ QUEUE_SIZE ∧ l' `sublist_of` l ++ published p [Message c d] ∧
    (decode_responses = false → ps_task m = Some Listening → is_Some (channel_project c) →
     length l + length (published p [Message c d]) ≤ QUEUE_SIZE →
     l' = l ++ published p [Message c d]).
Proof.
  intros Hq Hl. unfold published. cbn.
  assert (Ho : ∀ p', channel_project c = Some p' →
    ∃ l', offer p' d {| q_project := p; q_items := l |} = {| q_project := p; q_items := l' |} ∧
      length l' ≤ QUEUE_SIZE ∧ l' `sublist_of` l ++ published p [Message c d] ∧
      (length l + length (published p [Message c d]) ≤ QUEUE_SIZE →
       l' = l ++ published p [Message c d])).
  { intros p' Hc. unfold published, offer. cbn. rewrite Hc.
    destruct (String.eqb_spec p p') as [<-|Hne].
    - rewrite bool_decide_true by done. unfold put_nowait. cbn [q_items q_project].
      destruct (Nat.leb_spec QUEUE_SIZE (length l)) as [Hge|Hlt].
      + exists l. split_and!; [done|done|by apply sublist_inserts_r|]. simpl. lia.
      + exists (l ++ [d]). rewrite length_app. simpl. split_and!; [done|lia|done|done].
    - rewrite bool_decide_false by congruence. exists l. by rewrite app_nil_r. }
  destruct (message_queues decode_responses c d m) as [_ [E|(p' & Hc & E)]].
  - rewrite E. exists l. split_and!; [done|done|by apply sublist_inserts_r|].
    intros Hd Ht [p' Hc] Hlen. destruct (Ho p' Hc) as (l' & Eo & _ & _ & Hall).
    rewrite Hd, (message_heard c d p' m Ht Hc) in E.
    apply (f_equal (lookup q)) in E. cbn in E. rewrite lookup_fmap, Hq in E. cbn in E.
    rewrite Eo in E. injection E as <-. by apply Hall.
  - destruct (Ho p' Hc) as (l' & Eo & Hl' & Hsub & Hall).
    exists l'. rewrite E, lookup_fmap, Hq. cbn. rewrite Eo. split_and!; auto.
Qed.

(** One event, seen from a queue that stays subscribed. *)
Lemma queue_event e q p l m :
  fresh_ok m → unsubscribes q e = false →
  ps_queues m !! q = Some {| q_project := p; q_items := l |} → length l ≤ QUEUE_SIZE →
  ∃ l', ps_queues (apply_event e m) !! q = Some {| q_project := p; q_items := l' |} ∧
    length l' ≤ QUEUE_SIZE ∧
    yielded q [e] m ++ l' `sublist_of` l ++ published p [e] ∧
    (decode_responses = false → ps_task m = Some Listening → calm e = true →
     length l + length (published p [e]) ≤ QUEUE_SIZE →
     yielded q [e] m ++ l' = l ++ published p [e]).
Proof.
  intros Hok Hu Hq Hl. destruct e as [p'|q'|c d|q'| | |t]; cbn [unsubscribes] in Hu.
  - apply queue_same; [|done..]. cbn.
    by rewrite lookup_insert_ne by (intros <-; pose proof (Hok _ ltac:(by eexists)); lia).
  - apply queue_same; [|done..]. cbn. apply Nat.eqb_neq in Hu. by rewrite lookup_delete_ne by done.
  - destruct (queue_message c d q p l m Hq Hl) as (l' & ? & ? & ? & Hall).
    exists l'. split_and!; [done..|]. intros Hd Ht Hc. apply Hall; try done.
    by apply (bool_decide_eq_true_1 _ Hc).
  - cbn. rewrite !app_nil_r. unfold next_event. destruct (Nat.eqb_spec q q') as [<-|Hne].
    + rewrite Hq. destruct l as [|x l]; cbn.
      * exists []. by rewrite Hq.
      * exists l. rewrite lookup_insert_eq. split_and!; try done. simpl in Hl. lia.
    + exists l. split; [|done].
      destruct (ps_queues m !! q') as [[p' [|x l']]|]; cbn; [done| |done].
      by rewrite lookup_insert_ne by done.
  - apply queue_same; [|done..]. cbn. by destruct (start_queues m) as [-> _].
  - apply queue_same; [|done..]. cbn. by destruct (stop_queues m) as [-> _].
  - apply queue_same; [|done..]. cbn. by destruct (connection_turn_queues t m) as [-> _].
Qed.

Lemma published_cons p e es : published p (e :: es) = published p [e] ++ published p es.
Proof. unfold published. change (e :: es) with ([e] ++ es). by rewrite omap_app. Qed.

Lemma yielded_cons q e es m :
  yielded q (e :: es) m = yielded q [e] m ++ yielded q es (apply_event e m).
Proof. cbn. by rewrite app_nil_r. Qed.

Lemma queue_run es q p l m :
  fresh_ok m → forallb (λ e, negb (unsubscribes q e)) es = true →
  ps_queues m !! q = Some {| q_project := p; q_items := l |} → length l ≤ QUEUE_SIZE →
  yielded q es m ++ items q (run es m) `sublist_of` l ++ published p es ∧
  length (items q (run es m)) ≤ QUEUE_SIZE ∧
  (decode_responses = false → ps_task m = Some Listening → forallb calm es = true →
   length l + length (published p es) ≤ QUEUE_SIZE →
   yielded q es m ++ items q (run es m) = l ++ published p es).
Proof.
  revert l m. induction es as [|e es IH]; intros l m Hok Hu Hq Hl.
  - cbn. unfold items. cbn. rewrite Hq. cbn. by rewrite app_nil_r.
  - cbn [forallb] in Hu. apply andb_true_iff in Hu as [Hu%negb_true_iff Hus].
    destruct (queue_event e q p l m Hok Hu Hq Hl) as (l' & Hq' & Hl' & Hsub & Hall).
    destruct (IH l' (apply_event e m) (fresh_ok_event e m Hok) Hus Hq' Hl')
      as (IHsub & IHlen & IHall).
    change (run (e :: es) m) with (run es (apply_event e m)).
    rewrite yielded_cons, published_cons, <- !app_assoc. split_and!; [|done|].
    + etransitivity; [by apply sublist_app; [|exact IHsub]|].
      rewrite !app_assoc. by apply sublist_app.
    + rewrite length_app. cbn [forallb]. intros Hd Ht [Hc Hcs]%andb_true_iff Hlen.
      assert (E1 : yielded q [e] m ++ l' = l ++ published p [e]) by (apply Hall; auto; lia).
      rewrite IHall; [by rewrite !app_assoc, E1|done|by apply calm_listening|done|].
      apply (f_equal length) in E1. rewrite !length_app in E1. lia.
Qed.

(** C35: a live stream shows its own project's spans, in order.  Whatever happens
    to the other subscribers and to the listener, what a subscriber was sent
    followed by what still waits in its queue is a subsequence of the messages
    published on its project's channels since it subscribed, and its queue
    holds at most 50 of them.  None is lost while no more than 50 are
    published, when the client hands over bytes and the listener, once
    listening, is neither stopped nor cut off. *)
Theorem stream_sound p m es :
  fresh_ok m → forallb (λ e, negb (unsubscribes (ps_next m) e)) es = true →
  let '(q, m') := subscribe p m in
  let seen := yielded q es m' ++ items q (run es m') in
  seen `sublist_of` published p es ∧
  length (items q (run es m')) ≤ QUEUE_SIZE ∧
  (decode_responses = false → ps_task m = Some Listening → forallb calm es = true →
   length (published p es) ≤ QUEUE_SIZE → seen = published p es).
Proof.
  intros Hok Hus. cbn zeta beta iota delta [subscribe].
  apply (queue_run es (ps_next m) p [] (subscribe p m).2); cbn; [|done|by rewrite lookup_insert_eq|lia].
  apply (fresh_ok_event (Subscribe p) m Hok).
Qed.
End facts.

(** ** A client that decodes *)

Definition silent (m : PubSubManager) : Prop := ∀ q, items q m = [].

Lemma silent_event e m : silent m → silent (apply_event true e m).
Proof.
  intros H. assert (Hs : ∀ m', ps_queues m' = ps_queues m → silent m').
  { intros m' E q. unfold items. rewrite E. apply H. }
  destruct e as [p|q|c d|q| | |t]; cbn.
  - intros q. unfold items. cbn. destruct (decide (q = ps_next m)) as [->|].
    + by rewrite lookup_insert_eq.
    + rewrite lookup_insert_ne by done. apply H.
  - intros q'. unfold items. cbn. destruct (decide (q' = q)) as [->|].
    + by rewrite lookup_delete_eq.
    + rewrite lookup_delete_ne by done. apply H.
  - apply Hs. unfold listen_turn. rewrite on_message_run. by destruct (ps_task m) as [[]|].
  - apply Hs. unfold next_event. specialize (H q). unfold items in H.
    by destruct (ps_queues m !! q) as [[p [|x l]]|].
  - apply Hs, start_queues.
  - apply Hs, stop_queues.
  - apply Hs, connection_turn_queues.
Qed.

(** A silent queue yields nothing. *)
Lemma silent_yields q e m : silent m → yielded true q [e] m = [].
Proof.
  intros H. destruct e as [p|q'|c d|q'| | |t]; try done. cbn.
  destruct (Nat.eqb_spec q q') as [<-|]; [|done].
  unfold next_event. specialize (H q). unfold items in H.
  by destruct (ps_queues m !! q) as [[p [|x l]]|].
Qed.

Lemma silent_run es m q : silent m → yielded true q es m = [] ∧ silent (run true es m).
Proof.
  revert m. induction es as [|e es IH]; intros m H; [done|].
  rewrite yielded_cons, silent_yields by done.
  destruct (IH (apply_event true e m) (silent_event e m H)) as [-> Hr]. done.
Qed.

(** The channel the worker publishes a project's spans on leads to its
    subscribers. *)
Lemma channel_project_uuid s : free_of ":" s = true →
  channel_project ("project:" +:+ s +:+ ":new_span") = Some s.
Proof.
  intros Hs. unfold channel_project.
  assert (H : ∀ t, split_on ":" (s +:+ String ":" t) = s :: split_on ":" t).
  { intros t. induction s as [|c s IH]; [done|]. rewrite str_app_cons. cbn [split_on].
    cbn [free_of str_all] in Hs. unfold free_of in Hs. simpl in Hs.
    apply andb_true_iff in Hs as [Hc%negb_true_iff Hs].
    by rewrite Hc, IH. }
  assert (E : split_on ":" ("project:" +:+ s +:+ ":new_span")
              = "project"%string :: split_on ":" (s +:+ ":new_span")) by done.
  by rewrite E, H.
Qed.

Definition sample_events : list event :=
  [Message "project:a:new_span" "x"; Message "project:b:new_span" "y"; Read 0;
   Message "project:a:new_span" "z"].

Definition listening_manager : PubSubManager := listen_turn Subscribed (start new_manager).

Lemma stream_sound_witness :
  yielded false 0 sample_events (subscribe "a" listening_manager).2 = ["x"%string] ∧
  yielded false 0 sample_events (subscribe "a" listening_manager).2
    ++ items 0 (run false sample_events (subscribe "a" listening_manager).2)
  = ["x"; "z"]%string.
Proof.
  split; [by vm_compute|].
  destruct (stream_sound false "a" listening_manager sample_events) as (_ & _ & E); [|done|].
  - intros q [? Hq]. cbn in Hq. by rewrite lookup_empty in Hq.
  - apply E; [done|done|done|]. cbv. lia.
Defined.

(** With a client made to decode, no subscriber is ever sent anything: the
    first message of any project ends the listener's turn, and so does the
    next one after it has subscribed again. *)
Lemma decoding_client_silent m q es : silent m →
  yielded true q es m = [] ∧ items q (run true es m) = [] ∧
  (∀ c d, ps_task (run true es m) = Some Listening →
    ps_task (run true (es ++ [Message c d]) m) = Some Sleeping).
Proof.
  intros Hm. destruct (silent_run es m q) as [Hy Hr]; [done|].
  split; [done|]. split; [apply Hr|]. intros c d Ht.
  unfold run. rewrite foldl_app. cbn. unfold listen_turn. fold (run true es m).
  by rewrite Ht, on_message_run.
Qed.
