(* ===== verification/RateLimit.v ===== *)
(** * Rate limits

    [backend/app/core/ratelimit.py]: sliding windows kept as sorted sets in
    Redis.  Times are microseconds; [id] is the value of [id(object())] a
    request draws.  The four commands of the pipeline run as one step. *)

From S2P Require Import Prelude Text Schema.

Local Open Scope Z_scope.

(** A sorted set, members with their scores, and when its key expires.  The
    member [f"{now}:{id}"] is kept as the pair. *)
Record ZSet : Type := { z_members : list ((Z * Z) * Z); z_expires : timestamp }.

Abbreviation Redis := (gmap string ZSet) (only parsing).

Definition live (key : string) (now : timestamp) (r : Redis) : list ((Z * Z) * Z) :=
  match r !! key with
  | Some z => if now <? z_expires z then z_members z else []
  | None => []
  end.

Definition zremrangebyscore (lo hi : Z) (l : list ((Z * Z) * Z)) : list ((Z * Z) * Z) :=
  List.filter (λ m, negb ((lo <=? m.2) && (m.2 <=? hi))) l.

(** [zadd]: the score of a member that is there is replaced. *)
Definition zadd (m : Z * Z) (score : Z) (l : list ((Z * Z) * Z)) : list ((Z * Z) * Z) :=
  if existsb (λ x, bool_decide (x.1 = m)) l
  then map (λ x, if bool_decide (x.1 = m) then (m, score) else x) l
  else l ++ [(m, score)].

Section limiter.
Context (limit window : Z).

(** [results[2]] of the pipeline, and what it leaves in Redis. *)
Definition pipeline (key : string) (now : timestamp) (id : Z) (r : Redis) : Z * Redis :=
  let kept := zremrangebyscore 0 (now - window * second) (live key now r) in
  let members := zadd (now, id) now kept in
  (Z.of_nat (length members),
   <[key := {| z_members := members; z_expires := now + (window + 1) * second |}]> r).

(** [check]: the value of [X-RateLimit-Remaining], or 429. *)
Definition check (key : string) (now : timestamp) (id : Z) : M Redis Z := λ r,
  let '(count, r') := pipeline key now id r in
  let remaining := Z.max 0 (limit - count) in
  (if limit <? count then Raise (HTTPException 429 "rate_limit_exceeded") else Ok remaining,
   r').
End limiter.

Section limiters.
Context (sha256 : string → string).
(** [settings] *)
Context (api_rate_limit_per_minute auth_rate_limit_window_seconds auth_rate_limit_per_minute : Z).

Definition RateLimiter_check (project_id : string) : timestamp → Z → M Redis Z :=
  check api_rate_limit_per_minute 60 ("ratelimit:" +:+ project_id).

Definition AuthRateLimiter_check (identifier action : string) : timestamp → Z → M Redis Z :=
  check auth_rate_limit_per_minute auth_rate_limit_window_seconds
    ("ratelimit:auth:" +:+ action +:+ ":" +:+ sha256 identifier).
End limiters.

(** ** Runs of requests *)

Record Request : Type := { rq_key : string; rq_now : timestamp; rq_id : Z }.

Section runs.
Context (limit window : Z).

(** The requests served, with whether they were let through. *)
Fixpoint serve (reqs : list Request) (r : Redis) : list (Request * bool) :=
  match reqs with
  | [] => []
  | q :: reqs' =>
      let '(res, r') := check limit window (rq_key q) (rq_now q) (rq_id q) r in
      (q, match res with Ok _ => true | Raise _ => false end) :: serve reqs' r'
  end.

(** The requests on a key within the window that ends at a time. *)
Definition within (key : string) (t : timestamp) (reqs : list Request) : list Request :=
  List.filter (λ q, String.eqb (rq_key q) key && (t - window * second <? rq_now q)
                    && (rq_now q <=? t)) reqs.

Definition accepted (l : list (Request * bool)) : list Request := (List.filter snd l).*1.

(** Requests arrive in the order of their times, and no two of one key agree
    in time and object. *)
Definition arrivals (reqs : list Request) : Prop :=
  StronglySorted (λ p q, rq_now p <= rq_now q) reqs ∧
  NoDup ((λ q, (rq_key q, rq_now q, rq_id q)) <$> reqs) ∧
  Forall (λ q, 0 <= rq_now q) reqs.
End runs.

(** ** Facts *)

Section facts.
Context (limit window : Z).
Hypothesis window_pos : 0 < window.

Abbreviation served := (serve limit window).
Abbreviation inside := (within window).

(** What the requests leave in Redis. *)
Definition after (reqs : list Request) (r : Redis) : Redis :=
  foldl (λ r q, (check limit window (rq_key q) (rq_now q) (rq_id q) r).2) r reqs.

Definition lets (q : Request) (r : Redis) : bool :=
  match (check limit window (rq_key q) (rq_now q) (rq_id q) r).1 with
  | Ok _ => true | Raise _ => false end.

Lemma serve_snoc reqs q r : served (reqs ++ [q]) r = served reqs r ++ [(q, lets q (after reqs r))].
Proof.
  revert r. induction reqs as [|p reqs IH]; intros r.
  - cbn [app serve]. unfold lets. change (after [] r) with r. by destruct (check _ _ _ _ _ r).
  - cbn [app serve]. destruct (check limit window (rq_key p) (rq_now p) (rq_id p) r) as [res r'] eqn:E.
    rewrite IH. unfold after. cbn [foldl]. by rewrite E.
Qed.

Lemma served_requests reqs r : (served reqs r).*1 = reqs.
Proof.
  revert r. induction reqs as [|p reqs IH]; intros r; [done|]. cbn [serve].
  destruct (check _ _ _ _ _ r) as [res r']. rewrite fmap_cons. by rewrite IH.
Qed.

Lemma served_length reqs r : length (served reqs r) = length reqs.
Proof. rewrite <- (served_requests reqs r) at 2. by rewrite length_fmap. Qed.

(** The entry of a request. *)
Definition entry (q : Request) : (Z * Z) * Z := ((rq_now q, rq_id q), rq_now q).

Definition recent (key : string) (t : timestamp) (q : Request) : bool :=
  String.eqb (rq_key q) key && (t - window * second <? rq_now q).

(** At any later time the entries that count are those of the requests of the
    window. *)
Definition tracks (hist : list Request) (r : Redis) : Prop :=
  (∀ key z m, r !! key = Some z → m ∈ z_members z → 0 <= m.2) ∧
  ∀ key t, Forall (λ q, rq_now q <= t) hist →
    List.filter (λ m, t - window * second <? m.2) (live key t r)
    = map entry (List.filter (recent key t) hist).

Lemma filter_entry key t t' hist : t' <= t →
  List.filter (λ m, t - window * second <? m.2) (map entry (List.filter (recent key t') hist))
  = map entry (List.filter (recent key t) hist).
Proof.
  intros Ht. induction hist as [|q hist IH]; [done|]. cbn [List.filter].
  assert (Hr : ∀ t, recent key t q = String.eqb (rq_key q) key && (t - window * second <? rq_now q))
    by done.
  rewrite !Hr. destruct (String.eqb (rq_key q) key); cbn [andb]; [|exact IH].
  destruct (Z.ltb_spec (t - window * second) (rq_now q)) as [H|H].
  - assert (t' - window * second <? rq_now q = true) as -> by (apply Z.ltb_lt; lia).
    cbn [map List.filter]. change ((entry q).2) with (rq_now q).
    apply Z.ltb_lt in H as ->. by rewrite <- IH.
  - destruct (t' - window * second <? rq_now q); [|exact IH].
    cbn [map List.filter]. change ((entry q).2) with (rq_now q).
    apply Z.ltb_ge in H as ->. exact IH.
Qed.

Lemma recent_none key t hist :
  Forall (λ p, rq_now p <= t - window * second) hist → List.filter (recent key t) hist = [].
Proof.
  induction 1 as [|q hist Hq _ IH]; [done|]. cbn [List.filter]. unfold recent at 1.
  apply Z.ltb_ge in Hq as ->. by rewrite andb_false_r.
Qed.

(** What the pipeline keeps and adds. *)
Lemma pipeline_members hist r q :
  tracks hist r → Forall (λ p, rq_now p <= rq_now q) hist → 0 <= rq_now q →
  (∀ p, p ∈ hist → rq_key p = rq_key q → (rq_now p, rq_id p) ≠ (rq_now q, rq_id q)) →
  zadd (rq_now q, rq_id q) (rq_now q)
    (zremrangebyscore 0 (rq_now q - window * second) (live (rq_key q) (rq_now q) r))
  = map entry (List.filter (recent (rq_key q) (rq_now q)) (hist ++ [q])).
Proof.
  intros [Hpos Htr] Hle Hq Hnew.
  assert (Ez : zremrangebyscore 0 (rq_now q - window * second) (live (rq_key q) (rq_now q) r)
    = map entry (List.filter (recent (rq_key q) (rq_now q)) hist)).
  { rewrite <- Htr by done. unfold zremrangebyscore. apply List.filter_ext_in.
    intros m Hm%list_elem_of_In. unfold live in Hm.
    destruct (r !! rq_key q) as [z|] eqn:E; [|by apply not_elem_of_nil in Hm].
    destruct (rq_now q <? z_expires z); [|by apply not_elem_of_nil in Hm].
    specialize (Hpos _ z m E Hm).
    destruct (Z.leb_spec 0 m.2); [|lia]. cbn [andb].
    apply eq_true_iff_eq. rewrite negb_true_iff, Z.leb_gt, Z.ltb_lt. lia. }
  rewrite Ez. unfold zadd.
  destruct (existsb _ _) eqn:Ex; [exfalso|].
  { apply existsb_exists in Ex as (x & Hin & Hx%bool_decide_eq_true).
    apply in_map_iff in Hin as (p & <- & [Hp Hr]%filter_In).
    apply andb_true_iff in Hr as [Hk%String.eqb_eq _].
    eapply Hnew; [by apply list_elem_of_In|done|exact Hx]. }
  rewrite List.filter_app, map_app. f_equal. cbn [List.filter].
  unfold recent. rewrite String.eqb_refl. cbn [andb].
  assert (rq_now q - window * second <? rq_now q = true) as ->; [|done].
  apply Z.ltb_lt. unfold second. lia.
Qed.

Lemma tracks_check hist r q :
  tracks hist r → Forall (λ p, rq_now p <= rq_now q) hist → 0 <= rq_now q →
  (∀ p, p ∈ hist → rq_key p = rq_key q → (rq_now p, rq_id p) ≠ (rq_now q, rq_id q)) →
  Forall (λ p, 0 <= rq_now p) hist →
  tracks (hist ++ [q]) (check limit window (rq_key q) (rq_now q) (rq_id q) r).2.
Proof.
  intros Htr Hle Hq Hnew Hnn.
  pose proof (pipeline_members hist r q Htr Hle Hq Hnew) as Em.
  destruct Htr as [Hpos Htr]. unfold check, pipeline. cbn zeta. cbn [fst snd].
  rewrite Em. clear Em. split.
  - intros key z m. destruct (decide (key = rq_key q)) as [->|Hne].
    + rewrite lookup_insert_eq. intros [= <-] Hm. cbn in Hm.
      apply list_elem_of_In, in_map_iff in Hm as (p & <- & [Hp _]%filter_In).
      apply list_elem_of_In, elem_of_app in Hp as [Hp|Hp%list_elem_of_singleton]; cbn.
      * rewrite Forall_forall in Hnn. by apply Hnn.
      * by subst.
    + rewrite lookup_insert_ne by done. apply Hpos.
  - intros key t [Ht [Htq _]%Forall_cons]%Forall_app.
    destruct (decide (key = rq_key q)) as [->|Hne].
    + unfold live. rewrite lookup_insert_eq. cbn [z_expires z_members].
      destruct (Z.ltb_spec t (rq_now q + (window + 1) * second)) as [Hlt|Hge].
      * apply filter_entry. exact Htq.
      * rewrite recent_none; [done|]. unfold second in *. apply Forall_app; split.
        -- eapply Forall_impl; [exact Hle|]. cbn. intros; lia.
        -- constructor; [lia|constructor].
    + unfold live. rewrite lookup_insert_ne by done. rewrite List.filter_app. cbn [List.filter].
      unfold recent at 2. apply not_eq_sym, String.eqb_neq in Hne. rewrite Hne. cbn [andb].
      rewrite app_nil_r. by apply Htr.
Qed.

Lemma arrivals_snoc reqs q : arrivals (reqs ++ [q]) →
  arrivals reqs ∧ Forall (λ p, rq_now p <= rq_now q) reqs ∧ 0 <= rq_now q ∧
  (∀ p, p ∈ reqs → rq_key p = rq_key q → (rq_now p, rq_id p) ≠ (rq_now q, rq_id q)).
Proof.
  intros (Hs & Hn & Hp). rewrite fmap_app in Hn. apply NoDup_app in Hn as (Hn & Hd & _).
  apply Forall_app in Hp as [Hp [Hq _]%Forall_cons].
  assert (Hle : StronglySorted (λ p q, rq_now p <= rq_now q) reqs
                ∧ Forall (λ p, rq_now p <= rq_now q) reqs).
  { clear Hn Hd Hp. induction reqs as [|p reqs IH]; [repeat constructor|].
    apply StronglySorted_inv in Hs as [Hs Hall]. apply Forall_app in Hall as [Hall Hpq].
    destruct (IH Hs) as [H1 H2]. apply Forall_cons in Hpq as [Hpq _]. by repeat constructor. }
  destruct Hle as [Hs' Hle]. split_and!; [done|done|done|].
  intros p Hin Hk E. eapply Hd; [by apply list_elem_of_fmap_2|].
  apply list_elem_of_singleton. simplify_eq. congruence.
Qed.

Lemma tracks_after reqs : arrivals reqs → tracks reqs (after reqs ∅).
Proof.
  induction reqs as [|q reqs IH] using rev_ind; intros Ha.
  - assert (H : ∀ key, after [] ∅ !! key = None) by apply lookup_empty.
    split; [intros key z m; by rewrite H|]. intros key t _. unfold live. by rewrite H.
  - apply arrivals_snoc in Ha as (Ha & Hle & Hq & Hd).
    unfold after. rewrite foldl_app. apply tracks_check; try done; [by apply IH|].
    by destruct Ha as (_ & _ & ?).
Qed.

Lemma within_recent key t reqs : Forall (λ q, rq_now q <= t) reqs →
  inside key t reqs = List.filter (recent key t) reqs.
Proof.
  induction 1 as [|q reqs Hq _ IH]; [done|]. unfold within, recent in *. cbn [List.filter].
  apply Z.leb_le in Hq as ->. rewrite andb_true_r. by rewrite IH.
Qed.

(** A request is let through exactly when its window holds no more than the
    limit, itself and the refused ones included. *)
Lemma lets_spec reqs q : arrivals (reqs ++ [q]) →
  lets q (after reqs ∅)
  = (Z.of_nat (length (inside (rq_key q) (rq_now q) (reqs ++ [q]))) <=? limit).
Proof.
  intros Ha. apply arrivals_snoc in Ha as (Ha & Hle & Hq & Hd).
  unfold lets, check, pipeline. cbn zeta.
  rewrite (pipeline_members reqs) by (done || by apply tracks_after). cbn [fst].
  rewrite within_recent by (apply Forall_app; split; [done|constructor; [lia|constructor]]).
  rewrite length_map. destruct (Z.ltb_spec limit (Z.of_nat (length
    (List.filter (recent (rq_key q) (rq_now q)) (reqs ++ [q]))))); symmetry;
    [by apply Z.leb_gt|by apply Z.leb_le].
Qed.

Lemma within_sublist key t t' l1 l2 : l1 `sublist_of` l2 → t' <= t →
  Forall (λ q, rq_now q <= t') l2 →
  (length (inside key t l1) <= length (inside key t' l2))%nat.
Proof.
  intros Hs Ht. induction Hs as [|q l1 l2 _ IH|q l1 l2 _ IH]; intros Hall; [done|..];
    apply Forall_cons in Hall as [Hq Hall]; specialize (IH Hall); unfold within in *;
    cbn [List.filter].
  - destruct (String.eqb (rq_key q) key); cbn [andb]; [|done].
    destruct (Z.ltb_spec (t - window * second) (rq_now q)) as [H|H]; cbn [andb].
    + assert (t' - window * second <? rq_now q = true) as -> by (apply Z.ltb_lt; lia).
      assert (rq_now q <=? t = true) as -> by (apply Z.leb_le; lia).
      apply Z.leb_le in Hq as ->. cbn. lia.
    + destruct (_ && _); cbn; lia.
  - destruct (_ && _); cbn; lia.
Qed.

Lemma within_snoc key t l q :
  inside key t (l ++ [q])
  = inside key t l ++ (if String.eqb (rq_key q) key && (t - window * second <? rq_now q)
                          && (rq_now q <=? t) then [q] else []).
Proof. unfold within. by rewrite List.filter_app. Qed.

Lemma accepted_snoc l q b : accepted (l ++ [(q, b)]) = accepted l ++ (if b then [q] else []).
Proof.
  unfold accepted. rewrite List.filter_app, fmap_app. by destruct b.
Qed.

Lemma accepted_sublist l : accepted l `sublist_of` l.*1.
Proof.
  unfold accepted. induction l as [|[q []] l IH]; cbn; [done|by constructor|by constructor].
Qed.

(** C26: the limit holds in every window.  However many requests arrive on a key,
    those let through in any period of the window's length are at most the
    limit; and a request is refused only when the window that ends with it holds
    more requests than that, the refused ones counted. *)
Theorem rate_limit_window reqs key t :
  0 <= limit → arrivals reqs →
  Z.of_nat (length (inside key t (accepted (served reqs ∅)))) <= limit ∧
  ∀ pre q post, reqs = pre ++ q :: post →
    served reqs ∅ !! length pre = Some (q,
      Z.of_nat (length (inside (rq_key q) (rq_now q) (pre ++ [q]))) <=? limit).
Proof.
  intros Hl. induction reqs as [|q reqs IH] using rev_ind; intros Ha.
  { split; [done|]. by intros []. }
  pose proof (arrivals_snoc reqs q Ha) as (Ha' & Hle & Hq & Hd).
  specialize (IH Ha') as [IH1 IH2].
  rewrite serve_snoc, (lets_spec reqs q Ha). split.
  - rewrite accepted_snoc. destruct (Z.leb_spec
      (Z.of_nat (length (inside (rq_key q) (rq_now q) (reqs ++ [q])))) limit) as [Hn|Hn];
      [|by rewrite app_nil_r].
    rewrite within_snoc. destruct (_ && _) eqn:Et; [|by rewrite app_nil_r].
    assert (Es : inside key t (accepted (served reqs ∅)) ++ [q]
                 = inside key t (accepted (served reqs ∅) ++ [q])).
    { by rewrite within_snoc, Et. }
    apply andb_true_iff in Et as [[Ek%String.eqb_eq _]%andb_true_iff Et%Z.leb_le].
    rewrite Es. rewrite Ek in Hn. etransitivity; [|exact Hn]. apply inj_le. apply within_sublist; [|done|].
    + apply sublist_app; [|done]. rewrite <- (served_requests reqs ∅) at 2.
      apply accepted_sublist.
    + apply Forall_app; split; [done|constructor; [lia|constructor]].
  - intros pre q' post E. destruct post as [|q'' post] using rev_ind.
    + apply app_inj_tail in E as [<- <-].
      rewrite <- (served_length reqs ∅), lookup_app_r by done. by rewrite Nat.sub_diag.
    + clear IHpost. rewrite app_comm_cons, app_assoc in E. apply app_inj_tail in E as [E <-].
      apply lookup_app_l_Some. by eapply IH2.
Qed.
End facts.

(** Three requests within a minute against a limit of two, and one later. *)
Definition four_requests : list Request :=
  [{| rq_key := "k"; rq_now := 0; rq_id := 1 |}; {| rq_key := "k"; rq_now := second; rq_id := 1 |};
   {| rq_key := "k"; rq_now := 2 * second; rq_id := 1 |};
   {| rq_key := "k"; rq_now := 100 * second; rq_id := 1 |}].

Lemma rate_limit_window_witness :
  arrivals four_requests ∧ (serve 2 60 four_requests ∅).*2 = [true; true; false; true] ∧
  Z.of_nat (length (within 60 "k" (30 * second) (accepted (serve 2 60 four_requests ∅)))) <= 2.
Proof.
  assert (Ha : arrivals four_requests).
  { split_and!; [| |repeat constructor; done].
    - repeat constructor; done.
    - apply (bool_decide_unpack (NoDup _)). by vm_compute. }
  split; [exact Ha|]. split; [by vm_compute|].
  apply (rate_limit_window 2 60 eq_refl four_requests "k" (30 * second)); [lia|exact Ha].
Defined.
