(* ===== verification/Url.v ===== *)
(** * URLs

    What the program uses of [urllib.parse]: [urlparse] up to the network
    location, and the attributes [scheme], [hostname], [port], [username] and
    [password] of its result, as of Python 3.11. *)

From S2P Require Import Prelude Text Json.

Local Open Scope Z_scope.

(** [s.partition(c)]: before the first occurrence, and after it. *)
Fixpoint partition (c : ascii) (s : string) : string * option string :=
  match s with
  | EmptyString => (EmptyString, None)
  | String x s' =>
      if Ascii.eqb x c then (EmptyString, Some s')
      else let '(a, b) := partition c s' in (String x a, b)
  end.

(** [s.rpartition(c)]: before the last occurrence, and after it. *)
Fixpoint rpartition (c : ascii) (s : string) : option string * string :=
  match s with
  | EmptyString => (None, EmptyString)
  | String x s' =>
      match rpartition c s' with
      | (Some a, b) => (Some (String x a), b)
      | (None, b) => if Ascii.eqb x c then (Some EmptyString, b) else (None, String x b)
      end
  end.

Definition is_alpha (c : ascii) : bool :=
  let n := code c in
  ((65 <=? n)%nat && (n <=? 90)%nat) || ((97 <=? n)%nat && (n <=? 122)%nat).

(** [scheme_chars] *)
Definition scheme_char (c : ascii) : bool :=
  is_alpha c || is_digit c || Ascii.eqb c "+" || Ascii.eqb c "-" || Ascii.eqb c ".".

(** Tab, line feed and carriage return, which are removed. *)
Definition unsafe_char (c : ascii) : bool :=
  let n := code c in (n =? 9)%nat || (n =? 10)%nat || (n =? 13)%nat.

Fixpoint remove_by (p : ascii → bool) (s : string) : string :=
  match s with
  | EmptyString => EmptyString
  | String c s' => if p c then remove_by p s' else String c (remove_by p s')
  end.

(** The text before the first of [/?#]. *)
Fixpoint splitnetloc (s : string) : string :=
  match s with
  | EmptyString => EmptyString
  | String c s' =>
      if Ascii.eqb c "/" || Ascii.eqb c "?" || Ascii.eqb c "#" then EmptyString
      else String c (splitnetloc s')
  end.

Record Ip : Type := {
  ip_v4 : bool; ip_global : bool;
  (** private, loopback, link-local, multicast, reserved or unspecified *)
  ip_blocked : bool;
}.

Record SplitResult : Type := { us_scheme : string; us_netloc : string }.

Section url.
(** [ipaddress.ip_address]; [None] is ValueError *)
Context (ip_address : string → option Ip).

Definition invalid_ipv6 : exn := ValueError "Invalid IPv6 URL".

(** [\Av[a-fA-F0-9]+\..+\Z] *)
Definition ipvfuture (hostname : string) : bool :=
  match hostname with
  | String "v" s =>
      match partition "." s with
      | (hex, Some rest) => truthy hex && str_all is_hex_digit hex && truthy rest
      | _ => false
      end
  | _ => false
  end.

Definition _check_bracketed_host (hostname : string) : result unit :=
  if startswith "v" hostname then
    if ipvfuture hostname then Ok tt else Raise (ValueError "IPvFuture address is invalid")
  else match ip_address hostname with
       | None => Raise (ValueError "does not appear to be an IPv4 or IPv6 address")
       | Some ip => if ip_v4 ip then Raise (ValueError "An IPv4 address cannot be in brackets")
                    else Ok tt
       end.

Definition _check_bracketed_netloc (netloc : string) : result unit :=
  match partition "[" (rpartition "@" netloc).2 with
  | (before, Some bracketed) =>
      let '(hostname, port) := partition "]" bracketed in
      let port := default EmptyString port in
      if truthy before then Raise invalid_ipv6
      else if truthy port && negb (startswith ":" port) then Raise invalid_ipv6
      else _check_bracketed_host hostname
  | (hostname_and_port, None) => _check_bracketed_host (partition ":" hostname_and_port).1
  end.

Definition urlsplit (url : string) : result SplitResult :=
  let url := remove_by unsafe_char (lstrip_by (λ c, (code c <=? 32)%nat) url) in
  let '(scheme, rest) :=
    match partition ":" url with
    | (String c before, Some after) =>
        if is_alpha c && str_all scheme_char (String c before)
        then (lower (String c before), after) else (EmptyString, url)
    | _ => (EmptyString, url)
    end in
  match rest with
  | String "/" (String "/" s) =>
      let netloc := splitnetloc s in
      let opens := contains "[" netloc in
      let closes := contains "]" netloc in
      if negb (Bool.eqb opens closes) then Raise invalid_ipv6
      else _ ← (if opens && closes then _check_bracketed_netloc netloc else Ok tt);
           Ok {| us_scheme := scheme; us_netloc := netloc |}
  | _ => Ok {| us_scheme := scheme; us_netloc := EmptyString |}
  end.

(** [_hostinfo] *)
Definition hostinfo (u : SplitResult) : string * option string :=
  let hostinfo := (rpartition "@" (us_netloc u)).2 in
  let '(hostname, port) :=
    match partition "[" hostinfo with
    | (_, Some bracketed) =>
        let '(hostname, rest) := partition "]" bracketed in
        (hostname, (partition ":" (default EmptyString rest)).2)
    | (_, None) => partition ":" hostinfo
    end in
  (hostname, match port with
             | Some p => if truthy p then Some p else None
             | None => None
             end).

Definition hostname (u : SplitResult) : option string :=
  let h := (hostinfo u).1 in
  if truthy h then
    match partition "%" h with
    | (name, Some zone) => Some (lower name +:+ "%" +:+ zone)
    | (name, None) => Some (lower name)
    end
  else None.

Definition port (u : SplitResult) : result (option Z) :=
  match (hostinfo u).2 with
  | None => Ok None
  | Some p =>
      if str_all is_digit p then
        let n := value_of_digits 0 p in
        if n <=? 65535 then Ok (Some n) else Raise (ValueError "Port out of range 0-65535")
      else Raise (ValueError "Port could not be cast to integer value")
  end.

(** [username] and [password] *)
Definition userinfo (u : SplitResult) : option string * option string :=
  match (rpartition "@" (us_netloc u)).1 with
  | None => (None, None)
  | Some info => let '(name, password) := partition ":" info in (Some name, password)
  end.
End url.

Section examples.
Abbreviation no_ip := (λ _ : string, None : option Ip).

Example credentials_are_not_the_host :
  (hostname <$> (match urlsplit no_ip "https://hooks.slack.com@evil.test:8443/x" with
                 | Ok u => Some u | Raise _ => None end))
  = Some (Some "evil.test"%string).
Proof. by vm_compute. Qed.

Example bracketed_name_is_refused :
  urlsplit no_ip "https://[hooks.slack.com]/x"
  = Raise (ValueError "does not appear to be an IPv4 or IPv6 address").
Proof. by vm_compute. Qed.
End examples.
