(* ===== verification/Alerts.v ===== *)
(** * Alert rules

    [backend/app/schemas/alerts.py] and [api/v1/alerts.py]: the rules a project
    member sets and the events they raised.  The two tables stand next to the
    rest of the program's state. *)

From S2P Require Import Prelude Text PyVal Url Decimal Schema App Cost SpanSchema Storage Pipeline Auth Projects FailedTasks.

Local Open Scope Z_scope.

(** [models/alert_rule.py], [models/alert_event.py] *)
Record AlertRule : Type := {
  r_id : string; r_project : string; r_name : string; r_metric : string;
  r_condition : string; r_threshold : option decimal; r_window : Z;
  r_slack : option string; r_email : option string; r_cooldown : Z;
  r_active : bool; r_created : timestamp;
}.

Record AlertEvent : Type := {
  e_id : string; e_rule : string; e_triggered : timestamp; e_value : pyfloat;
  e_message : string; e_resolved : option timestamp;
}.

(** [services/anomaly.py]: what is cached of a model's latencies. *)
Record AnomalyStats : Type := { st_mean : pyfloat; st_stddev : pyfloat; st_count : Z }.

(** What the environment answers to a POST. *)
Inductive HttpAnswer : Type :=
| HttpError
| HttpResponse (status_code : Z) (location : option string).

(** The tables and [alert_cooldown:{rule_id}] and [stats:...]
    in Redis; the messages sent, and
    the answers of the resolver, the web and the mail server still to come. *)
Record Alerting : Type := {
  al_world : World;
  al_rules : list AlertRule;
  al_events : list AlertEvent;
  al_cooldown : gmap string timestamp;
  al_posts : list (string * HttpAnswer);
  al_emails : list (string * string);
  al_dns : list (string → Z → option (list string));
  al_http : list HttpAnswer;
  al_smtp : list bool;
  al_stats : gmap string (AnomalyStats * timestamp);
}.

Definition set_al_world (f : World → World) (a : Alerting) : Alerting :=
  Build_Alerting (f (al_world a)) (al_rules a) (al_events a) (al_cooldown a) (al_posts a)
    (al_emails a) (al_dns a) (al_http a) (al_smtp a) (al_stats a).
Definition set_al_rules (f : list AlertRule → list AlertRule) (a : Alerting) : Alerting :=
  Build_Alerting (al_world a) (f (al_rules a)) (al_events a) (al_cooldown a) (al_posts a)
    (al_emails a) (al_dns a) (al_http a) (al_smtp a) (al_stats a).
Definition set_al_events (f : list AlertEvent → list AlertEvent) (a : Alerting) : Alerting :=
  Build_Alerting (al_world a) (al_rules a) (f (al_events a)) (al_cooldown a) (al_posts a)
    (al_emails a) (al_dns a) (al_http a) (al_smtp a) (al_stats a).
Definition set_al_cooldown (f : gmap string timestamp → gmap string timestamp)
    (a : Alerting) : Alerting :=
  Build_Alerting (al_world a) (al_rules a) (al_events a) (f (al_cooldown a)) (al_posts a)
    (al_emails a) (al_dns a) (al_http a) (al_smtp a) (al_stats a).
Definition set_al_posts (f : list (string * HttpAnswer) → list (string * HttpAnswer))
    (a : Alerting) : Alerting :=
  Build_Alerting (al_world a) (al_rules a) (al_events a) (al_cooldown a) (f (al_posts a))
    (al_emails a) (al_dns a) (al_http a) (al_smtp a) (al_stats a).
Definition set_al_emails (f : list (string * string) → list (string * string))
    (a : Alerting) : Alerting :=
  Build_Alerting (al_world a) (al_rules a) (al_events a) (al_cooldown a) (al_posts a)
    (f (al_emails a)) (al_dns a) (al_http a) (al_smtp a) (al_stats a).
Definition set_al_dns (f : list (string → Z → option (list string)) →
    list (string → Z → option (list string)))
    (a : Alerting) : Alerting :=
  Build_Alerting (al_world a) (al_rules a) (al_events a) (al_cooldown a) (al_posts a)
    (al_emails a) (f (al_dns a)) (al_http a) (al_smtp a) (al_stats a).
Definition set_al_http (f : list HttpAnswer → list HttpAnswer) (a : Alerting) : Alerting :=
  Build_Alerting (al_world a) (al_rules a) (al_events a) (al_cooldown a) (al_posts a)
    (al_emails a) (al_dns a) (f (al_http a)) (al_smtp a) (al_stats a).
Definition set_al_smtp (f : list bool → list bool) (a : Alerting) : Alerting :=
  Build_Alerting (al_world a) (al_rules a) (al_events a) (al_cooldown a) (al_posts a)
    (al_emails a) (al_dns a) (al_http a) (f (al_smtp a)) (al_stats a).
Definition set_al_stats (f : gmap string (AnomalyStats * timestamp) →
    gmap string (AnomalyStats * timestamp)) (a : Alerting) : Alerting :=
  Build_Alerting (al_world a) (al_rules a) (al_events a) (al_cooldown a) (al_posts a)
    (al_emails a) (al_dns a) (al_http a) (al_smtp a) (f (al_stats a)).

(** A handler over the rest of the program's state. *)
Definition on_world {A} (m : M World A) : M Alerting A := λ a,
  match m (al_world a) with (r, w) => (r, set_al_world (λ _, w) a) end.

Definition on_db {A} (m : M App A) : M Alerting A := on_world (on_app m).

(** [async with db.begin()]: the two tables roll back. *)
Definition alert_tx {A} (m : M Alerting A) : M Alerting A :=
  atomic (λ before after, set_al_rules (λ _, al_rules before)
                            (set_al_events (λ _, al_events before) after)) m.

(** ** Validation *)

Definition METRICS : list string := ["latency_p95"; "error_rate"; "cost_hourly"; "anomaly"].
Definition CONDITIONS : list string := ["gt"; "lt"; "anomaly"].
Definition SLACK_WEBHOOK_HOSTS : list string := ["hooks.slack.com"; "hooks.slack-gov.com"].

Definition _normalize_optional_string (value : option string) : option string :=
  match value with
  | None => None
  | Some v => let v := strip v in if truthy v then Some v else None
  end.

Section alerts.
(** [ipaddress.ip_address], the check of an address by [EmailStr], the text of
    a decimal *)
Context (ip_address : string → option Ip) (valid_email : string → option string).

Definition port_ok (p : option Z) : bool :=
  match p with None => true | Some n => n =? 443 end.

Definition brackets (c : ascii) : bool := Ascii.eqb c "[" || Ascii.eqb c "]".

Definition _validate_https_webhook (value : option string) : result (option string) :=
  match _normalize_optional_string value with
  | None => Ok None
  | Some value =>
      parsed ← urlsplit ip_address value;
      match String.eqb (us_scheme parsed) "https", hostname parsed with
      | true, Some host =>
          p ← port parsed;
          if negb (port_ok p) then
            Raise (ValueError "Slack webhook must use the default HTTPS port")
          else
            let host := strip_by brackets (lower host) in
            if negb (inb host SLACK_WEBHOOK_HOSTS) then
              Raise (ValueError "Slack webhook must use an official Slack webhook domain")
            else if String.eqb host "localhost" || endswith ".local" host then
              Raise (ValueError "Slack webhook cannot target localhost or local hosts")
            else match ip_address host with
                 | None => Ok (Some value)
                 | Some ip =>
                     if ip_blocked ip then
                       Raise (ValueError
                         "Slack webhook cannot target private or internal addresses")
                     else Ok (Some value)
                 end
      | _, _ => Raise (ValueError "Slack webhook must be an HTTPS URL")
      end
  end.

Definition positive (x : decimal) : bool := 0 <? coef x.

Definition _validate_threshold_for_metric (metric condition : string)
    (threshold : option decimal) : result unit :=
  if String.eqb metric "anomaly" || String.eqb condition "anomaly" then Ok tt
  else match threshold with
       | None => Raise (ValueError "threshold is required for non-anomaly alert rules")
       | Some x => if positive x then Ok tt
                   else Raise (ValueError "threshold must be greater than 0")
       end.

(** [normalize_email] and [EmailStr] *)
Definition email_field (v : option string) : result (option string) :=
  match _normalize_optional_string v with
  | None => Ok None
  | Some s => match valid_email s with
              | Some e => Ok (Some e)
              | None => Raise (ValueError "value is not a valid email address")
              end
  end.

Record AlertRuleCreate : Type := {
  ac_project : string; ac_name : string; ac_metric : string; ac_condition : string;
  ac_threshold : option decimal; ac_window : Z; ac_cooldown : Z;
  ac_slack : option string; ac_email : option string;
}.

Definition unprocessable (e : exn) : exn := HTTPException 422 (exn_str e).

Definition present (s : option string) : bool := truthy (default EmptyString s).

(** [AlertRuleCreate(...)]: the validated body. *)
Definition validate_create (b : AlertRuleCreate) : result AlertRuleCreate :=
  _ ← field_limit (inb (ac_metric b) METRICS) "metric";
  _ ← field_limit (inb (ac_condition b) CONDITIONS) "condition";
  _ ← field_limit (1 <=? ac_window b) "window_minutes";
  _ ← field_limit (1 <=? ac_cooldown b) "cooldown_minutes";
  slack ← _validate_https_webhook (ac_slack b);
  email ← email_field (ac_email b);
  _ ← _validate_threshold_for_metric (ac_metric b) (ac_condition b) (ac_threshold b);
  if negb (present slack) && negb (present email) then
    Raise (ValueError "at least one notification target is required")
  else
    Ok {| ac_project := ac_project b; ac_name := ac_name b; ac_metric := ac_metric b;
          ac_condition := ac_condition b; ac_threshold := ac_threshold b;
          ac_window := ac_window b; ac_cooldown := ac_cooldown b;
          ac_slack := slack; ac_email := email |}.

Record AlertRuleUpdate : Type := {
  au_active : option bool; au_threshold : option decimal;
  au_slack : option string; au_email : option string;
}.

Definition validate_update (b : AlertRuleUpdate) : result AlertRuleUpdate :=
  _ ← field_limit (match au_threshold b with None => true | Some x => positive x end)
        "threshold must be greater than 0";
  slack ← _validate_https_webhook (au_slack b);
  email ← email_field (au_email b);
  Ok {| au_active := au_active b; au_threshold := au_threshold b;
        au_slack := slack; au_email := email |}.

(** ** Handlers *)

Definition of_project (project_id : string) (r : AlertRule) : bool :=
  String.eqb (r_project r) project_id.

Definition is_rule (rule_id project_id : string) (r : AlertRule) : bool :=
  String.eqb (r_id r) rule_id && of_project project_id r.

Definition list_rules (project_id : string) (user : CurrentUser)
    : M Alerting (list AlertRule) :=
  _ ← on_db (get_project_for_user project_id user "viewer");
  gets (λ a, sort_by (λ r, - r_created r) (select (of_project project_id) (al_rules a))).

(** The columns' types: [varchar(n)] and [integer]. *)
Definition storable (b : AlertRuleCreate) : bool :=
  max_length 255 (ac_name b) && opt_max_length 500 (ac_slack b)
  && opt_max_length 255 (ac_email b) && (ac_window b <? 2 ^ 31) && (ac_cooldown b <? 2 ^ 31).

Definition create_rule (raw : AlertRuleCreate) (user : CurrentUser) (uuid : string)
    : M Alerting string :=
  body ← lift (match validate_create raw with Ok b => Ok b | Raise e => Raise (unprocessable e) end);
  _ ← on_db (get_project_for_user (ac_project body) user "member");
  t ← on_world now;
  alert_tx (
    raise_when (negb (storable body)) (SQLAlchemyError "DataError");;
    modify (set_al_rules (λ l, l ++
      [{| r_id := uuid; r_project := ac_project body; r_name := ac_name body;
          r_metric := ac_metric body; r_condition := ac_condition body;
          r_threshold := ac_threshold body; r_window := ac_window body;
          r_slack := ac_slack body; r_email := ac_email body;
          r_cooldown := ac_cooldown body; r_active := true; r_created := t |}])));;
  mret uuid.

(** [SET] of the fields that are not null; [ALLOWED_UPDATE_FIELDS] are all the
    fields of the body. *)
Definition apply_update (b : AlertRuleUpdate) (r : AlertRule) : AlertRule :=
  {| r_id := r_id r; r_project := r_project r; r_name := r_name r; r_metric := r_metric r;
     r_condition := r_condition r;
     r_threshold := match au_threshold b with Some x => Some x | None => r_threshold r end;
     r_window := r_window r;
     r_slack := match au_slack b with Some s => Some s | None => r_slack r end;
     r_email := match au_email b with Some s => Some s | None => r_email r end;
     r_cooldown := r_cooldown r;
     r_active := default (r_active r) (au_active b); r_created := r_created r |}.

Definition no_updates (b : AlertRuleUpdate) : bool :=
  match au_active b, au_threshold b, au_slack b, au_email b with
  | None, None, None, None => true
  | _, _, _, _ => false
  end.

Definition update_rule (rule_id : string) (raw : AlertRuleUpdate) (project_id : string)
    (user : CurrentUser) : M Alerting unit :=
  body ← lift (match validate_update raw with Ok b => Ok b | Raise e => Raise (unprocessable e) end);
  _ ← on_db (get_project_for_user project_id user "member");
  raise_when (no_updates body) (HTTPException 400 "No fields to update");;
  alert_tx (
    raise_when (negb (opt_max_length 500 (au_slack body) && opt_max_length 255 (au_email body)))
      (SQLAlchemyError "DataError");;
    found ← gets (λ a, exists_where (is_rule rule_id project_id) (al_rules a));
    modify (set_al_rules (update_where (is_rule rule_id project_id) (apply_update body)));;
    raise_when (negb found) (HTTPException 404 "Rule not found")).

(** The events of a rule go with it ([ON DELETE CASCADE]). *)
Definition delete_rule (rule_id project_id : string) (user : CurrentUser)
    : M Alerting unit :=
  _ ← on_db (get_project_for_user project_id user "member");
  alert_tx (
    found ← gets (λ a, exists_where (is_rule rule_id project_id) (al_rules a));
    (if found then
       modify (set_al_events (delete_where (λ e, String.eqb (e_rule e) rule_id)));;
       modify (set_al_rules (delete_where (is_rule rule_id project_id)))
     else mret tt);;
    raise_when (negb found) (HTTPException 404 "Rule not found")).

Definition rule_of_project (project_id : string) (rules : list AlertRule) (rule_id : string)
    : bool := exists_where (is_rule rule_id project_id) rules.

Definition list_events (project_id : string) (user : CurrentUser)
    : M Alerting (list AlertEvent) :=
  _ ← on_db (get_project_for_user project_id user "viewer");
  gets (λ a, take 100 (sort_by (λ e, - e_triggered e)
    (select (λ e, rule_of_project project_id (al_rules a) (e_rule e)) (al_events a)))).

Definition resolve_row (t : timestamp) (e : AlertEvent) : AlertEvent :=
  {| e_id := e_id e; e_rule := e_rule e; e_triggered := e_triggered e; e_value := e_value e;
     e_message := e_message e; e_resolved := Some t |}.

Definition resolve_event (event_id project_id : string) (user : CurrentUser)
    : M Alerting unit :=
  _ ← on_db (get_project_for_user project_id user "member");
  t ← on_world now;
  alert_tx (
    rules ← gets al_rules;
    let hit := λ e, String.eqb (e_id e) event_id && rule_of_project project_id rules (e_rule e) in
    found ← gets (λ a, exists_where hit (al_events a));
    modify (set_al_events (update_where hit (resolve_row t)));;
    raise_when (negb found) (HTTPException 404 "Event not found")).
End alerts.

(** ** Facts *)

(** The access check reads and nothing else. *)
Lemma get_project_for_user_state pid user role s :
  (get_project_for_user pid user role s).2 = s.
Proof.
  unfold get_project_for_user, mbind, M_bind, query, gets. cbn.
  destruct (option_bind _ _ _ _) as [[p m]|]; [|done].
  destruct (String.eqb _ _); [done|]. by destruct (negb _).
Qed.

(** The caller may act on a project in a role. *)
Definition has_access (pid : string) (user : CurrentUser) (role : string) (a : Alerting)
    : Prop := ∃ p, (get_project_for_user pid user role (w_app (al_world a))).1 = Ok p.

Lemma set_al_world_id a : set_al_world (λ _, al_world a) a = a.
Proof. by destruct a. Qed.

Lemma on_db_guard {A} pid user role (k : UserProject → M Alerting A) a :
  (on_db (get_project_for_user pid user role) ≫= k) a
  = match (get_project_for_user pid user role (w_app (al_world a))).1 with
    | Ok p => k p a
    | Raise e => (Raise e, a)
    end.
Proof.
  pose proof (get_project_for_user_state pid user role (w_app (al_world a))) as H.
  unfold mbind, M_bind, on_db, on_world, on_app.
  destruct (get_project_for_user pid user role (w_app (al_world a))) as [r s]. cbn in H. subst s.
  assert (E : set_al_world (λ _, set_w_app (λ _, w_app (al_world a)) (al_world a)) a = a)
    by (by destruct a as [[]]).
  cbn [fst]. by destruct r; rewrite E.
Qed.

Section facts.
Context (ip_address : string → option Ip) (valid_email : string → option string).

Abbreviation validate := (_validate_https_webhook ip_address).

(** A webhook that has been validated is its own validation. *)
Lemma validate_webhook_idem v w : validate v = Ok (Some w) → validate (Some w) = Ok (Some w).
Proof.
  unfold _validate_https_webhook. destruct v as [v|]; [|done]. cbn [_normalize_optional_string].
  destruct (truthy (strip v)) eqn:Ht; [|done].
  intros H. assert (w = strip v) as ->.
  { destruct (urlsplit _ _) as [u|]; [|done]. cbn [mbind result_bind] in H.
    destruct (String.eqb _ _), (hostname u); try done.
    destruct (port u); [|done]. cbn [mbind result_bind] in H.
    repeat case_match; congruence. }
  rewrite strip_idemp, Ht. exact H.
Qed.

(** Its host is one of Slack's, over HTTPS on the default port. *)
Definition slack_url (w : string) : Prop :=
  ∃ u host, urlsplit ip_address w = Ok u ∧ us_scheme u = "https"%string ∧
    hostname u = Some host ∧ strip_by brackets (lower host) ∈ SLACK_WEBHOOK_HOSTS ∧
    (port u = Ok None ∨ port u = Ok (Some 443)).

Lemma validate_webhook_slack v w : validate v = Ok (Some w) → truthy w = true ∧ slack_url w.
Proof.
  intros H%validate_webhook_idem. unfold _validate_https_webhook in H.
  cbn [_normalize_optional_string] in H. destruct (truthy (strip w)) eqn:Ht; [|done].
  destruct (urlsplit ip_address (strip w)) as [u|] eqn:Eu; [|done]. cbn [mbind result_bind] in H.
  destruct (String.eqb_spec (us_scheme u) "https") as [Es|]; [|done].
  destruct (hostname u) as [host|] eqn:Eh; [|done].
  destruct (port u) as [p|] eqn:Ep; [|done]. cbn [mbind result_bind] in H.
  destruct (port_ok p) eqn:Epo; [|done]. cbn [negb] in H.
  destruct (inb _ SLACK_WEBHOOK_HOSTS) eqn:Ein; [|done]. cbn [negb] in H.
  apply inb_true in Ein.
  assert (w = strip w) as Hw by (repeat case_match; congruence).
  rewrite <- Hw in Ht, Eu. split; [done|]. exists u, host. split_and!; try done.
  destruct p as [n|]; [right|by left]. apply Z.eqb_eq in Epo. by subst.
Qed.

(** *** Rules are well formed *)

Record rule_ok (r : AlertRule) : Prop := {
  ok_metric : r_metric r ∈ METRICS;
  ok_condition : r_condition r ∈ CONDITIONS;
  ok_window : 1 <= r_window r < 2 ^ 31;
  ok_cooldown : 1 <= r_cooldown r < 2 ^ 31;
  ok_threshold : r_metric r ≠ "anomaly"%string → r_condition r ≠ "anomaly"%string →
    ∃ x, r_threshold r = Some x ∧ 0 < coef x;
  ok_slack : ∀ w, r_slack r = Some w → truthy w = true ∧ slack_url w;
  ok_target : present (r_slack r) = true ∨ present (r_email r) = true;
}.

Definition of_create (b : AlertRuleCreate) (id : string) (t : timestamp) : AlertRule :=
  {| r_id := id; r_project := ac_project b; r_name := ac_name b; r_metric := ac_metric b;
     r_condition := ac_condition b; r_threshold := ac_threshold b; r_window := ac_window b;
     r_slack := ac_slack b; r_email := ac_email b; r_cooldown := ac_cooldown b;
     r_active := true; r_created := t |}.

Lemma limit_ok b f u : field_limit b f = Ok u → b = true.
Proof. unfold field_limit. by destruct b. Qed.

Lemma create_rule_ok raw b id t :
  validate_create ip_address valid_email raw = Ok b → storable b = true →
  rule_ok (of_create b id t).
Proof.
  unfold validate_create. intros H Hs.
  destruct (field_limit (inb (ac_metric raw) METRICS) _) eqn:E1; [|done].
  destruct (field_limit (inb (ac_condition raw) CONDITIONS) _) eqn:E2; [|done].
  destruct (field_limit (1 <=? ac_window raw) _) eqn:E3; [|done].
  destruct (field_limit (1 <=? ac_cooldown raw) _) eqn:E4; [|done].
  apply limit_ok in E1, E2, E3, E4. cbn [mbind result_bind] in H.
  destruct (validate (ac_slack raw)) as [slack|] eqn:Esl; [|done].
  destruct (email_field _ _) as [email|] eqn:Em; [|done]. cbn [mbind result_bind] in H.
  destruct (_validate_threshold_for_metric _ _ _) eqn:Et; [|done]. cbn [mbind result_bind] in H.
  destruct (negb (present slack) && negb (present email)) eqn:Etg; [done|]. injection H as <-.
  unfold storable in Hs. cbn [ac_window ac_cooldown] in Hs.
  apply andb_true_iff in Hs as [[_ Hw%Z.ltb_lt]%andb_true_iff Hc%Z.ltb_lt].
  apply Z.leb_le in E3, E4. apply inb_true in E1, E2.
  constructor; cbn; try done; try lia.
  - intros Hm Hcd. unfold _validate_threshold_for_metric in Et.
    apply String.eqb_neq in Hm, Hcd. rewrite Hm, Hcd in Et. cbn [orb] in Et.
    destruct (ac_threshold raw) as [x|]; [|done]. exists x. split; [done|].
    destruct (positive x) eqn:Ep; [|done]. by apply Z.ltb_lt.
  - intros w ->. by apply validate_webhook_slack in Esl.
  - apply andb_false_iff in Etg as [?%negb_false_iff|?%negb_false_iff]; auto.
Qed.

Hypothesis valid_email_nonempty : ∀ s e, valid_email s = Some e → e ≠ EmptyString.

Lemma update_rule_ok raw b r :
  validate_update ip_address valid_email raw = Ok b → rule_ok r → rule_ok (apply_update b r).
Proof.
  unfold validate_update. intros H [H1 H2 H3 H4 H5 H6 H7].
  destruct (field_limit _ _) eqn:E1; [|done]. apply limit_ok in E1.
  cbn [mbind result_bind] in H.
  destruct (validate (au_slack raw)) as [slack|] eqn:Esl; [|done].
  destruct (email_field _ _) as [email|] eqn:Em; [|done]. cbn [mbind result_bind] in H.
  injection H as <-.
  assert (Hsl : ∀ w, slack = Some w → truthy w = true ∧ slack_url w).
  { intros w ->. by apply validate_webhook_slack in Esl. }
  constructor; cbn; try done.
  - intros Hm Hc. destruct (au_threshold raw) as [x|]; [|by apply H5].
    exists x. split; [done|]. by apply Z.ltb_lt.
  - intros w. destruct slack as [w'|]; [intros [= <-]; by apply Hsl|apply H6].
  - destruct slack as [w|]; [left; by apply Hsl|].
    destruct H7 as [H7|H7]; [by left|]. right.
    destruct email as [e|]; [|done]. unfold email_field in Em.
    destruct (_normalize_optional_string _); [|done].
    destruct (valid_email s) as [e'|] eqn:Ev; [|done]. injection Em as <-.
    apply truthy_true. by eapply valid_email_nonempty.
Qed.
End facts.

(** *** Statements that leave a selection alone *)

Section selections.
Context {A : Type} (s q : A → bool).

Lemma select_ext_in (s' : A → bool) l : (∀ x, x ∈ l → s x = s' x) → select s l = select s' l.
Proof. intros H. apply List.filter_ext_in. intros x Hx. by apply H, list_elem_of_In. Qed.

Lemma select_update f l :
  (∀ x, q x = true → s x = false ∧ s (f x) = false) →
  select s (update_where q f l) = select s l.
Proof.
  intros H. unfold select, update_where. induction l as [|x l IH]; [done|]. cbn.
  destruct (q x) eqn:E; [|by rewrite IH]. destruct (H x E) as [-> ->]. exact IH.
Qed.

Lemma select_delete l : (∀ x, q x = true → s x = false) →
  select s (delete_where q l) = select s l.
Proof.
  intros H. unfold select, delete_where. induction l as [|x l IH]; [done|]. cbn.
  destruct (q x) eqn:E; cbn; [by rewrite (H x E)|by rewrite IH].
Qed.

Lemma exists_select l : exists_where s l = match select s l with [] => false | _ => true end.
Proof.
  unfold exists_where, select. induction l as [|x l IH]; [done|]. cbn. by destruct (s x).
Qed.
End selections.

(** ** Requests *)

Section requests.
Context (ip_address : string → option Ip) (valid_email : string → option string).

(** A request of a user that changes rules or events. *)
Inductive AlertRequest : Type :=
| CreateRule (body : AlertRuleCreate) (uuid : string)
| UpdateRule (rule_id : string) (body : AlertRuleUpdate) (project_id : string)
| DeleteRule (rule_id project_id : string)
| ResolveEvent (event_id project_id : string).

Definition target (q : AlertRequest) : string :=
  match q with
  | CreateRule body _ => ac_project body
  | UpdateRule _ _ p | DeleteRule _ p | ResolveEvent _ p => p
  end.

Definition handle (user : CurrentUser) (q : AlertRequest) : M Alerting unit :=
  match q with
  | CreateRule body uuid => _ ← create_rule ip_address valid_email body user uuid; mret tt
  | UpdateRule id body p => update_rule ip_address valid_email id body p user
  | DeleteRule id p => delete_rule id p user
  | ResolveEvent id p => resolve_event id p user
  end.

(** What a request may do to the tables. *)
Inductive effect : AlertRequest → Alerting → Alerting → Prop :=
| eff_none q a : effect q a a
| eff_create raw body uuid t a :
    validate_create ip_address valid_email raw = Ok body → storable body = true →
    effect (CreateRule raw uuid) a (set_al_rules (λ l, l ++ [of_create body uuid t]) a)
| eff_update id raw body p a :
    validate_update ip_address valid_email raw = Ok body →
    effect (UpdateRule id raw p) a
      (set_al_rules (update_where (is_rule id p) (apply_update body)) a)
| eff_delete id p a :
    exists_where (is_rule id p) (al_rules a) = true →
    effect (DeleteRule id p) a
      (set_al_rules (delete_where (is_rule id p))
        (set_al_events (delete_where (λ e, String.eqb (e_rule e) id)) a))
| eff_resolve id p t a :
    effect (ResolveEvent id p) a
      (set_al_events (update_where
        (λ e, String.eqb (e_id e) id && rule_of_project p (al_rules a) (e_rule e))
        (resolve_row t)) a).

Lemma validated_project raw body :
  validate_create ip_address valid_email raw = Ok body → ac_project body = ac_project raw.
Proof.
  unfold validate_create. intros H.
  repeat match type of H with
  | (?m ≫= _) = _ => destruct m; [cbn [mbind result_bind] in H|discriminate H]
  end.
  by destruct (negb _ && negb _); simplify_eq.
Qed.

Lemma lift_bind {A B} (r : result A) (k : A → M Alerting B) a :
  (lift r ≫= k) a = match r with Ok x => k x a | Raise e => (Raise e, a) end.
Proof. by destruct r. Qed.

Definition access (pid : string) (user : CurrentUser) (role : string) (a : Alerting)
    : result UserProject := (get_project_for_user pid user role (w_app (al_world a))).1.

Lemma create_rule_run raw user uuid a :
  create_rule ip_address valid_email raw user uuid a
  = match validate_create ip_address valid_email raw with
    | Raise e => (Raise (unprocessable e), a)
    | Ok body =>
        match access (ac_project body) user "member" a with
        | Raise e => (Raise e, a)
        | Ok _ =>
            if storable body then
              (Ok uuid, set_al_rules (λ l, l ++ [of_create body uuid (w_now (al_world a))]) a)
            else (Raise (SQLAlchemyError "DataError"), a)
        end
    end.
Proof.
  unfold create_rule. rewrite lift_bind. destruct (validate_create _ _ raw) as [body|e]; [|done].
  rewrite on_db_guard. unfold access. destruct (get_project_for_user _ _ _ _).1; [|done].
  unfold alert_tx, atomic, mbind, M_bind, mret, M_ret, modify, raise_when, on_world, now, gets.
  destruct (storable body); by destruct a.
Qed.

Lemma update_rule_run id raw p user a :
  (update_rule ip_address valid_email id raw p user a).2 = a ∨
  ∃ body up, validate_update ip_address valid_email raw = Ok body ∧
    access p user "member" a = Ok up ∧
    (update_rule ip_address valid_email id raw p user a).2
    = set_al_rules (update_where (is_rule id p) (apply_update body)) a.
Proof.
  unfold update_rule. rewrite lift_bind.
  destruct (validate_update _ _ raw) as [body|e]; [|by left].
  rewrite on_db_guard. unfold access. destruct (get_project_for_user _ _ _ _).1 as [up|]; [|by left].
  unfold raise_when at 1. destruct (no_updates body); [by left|].
  cbv [gets modify raise_when mbind M_bind mret M_ret alert_tx atomic raise].
  destruct (negb (opt_max_length 500 _ && _)); [left; by destruct a|].
  destruct (exists_where (is_rule id p) (al_rules a)); cbn; [right; eauto|left; by destruct a].
Qed.

Lemma delete_rule_run id p user a :
  (delete_rule id p user a).2 = a ∨
  ∃ up, access p user "member" a = Ok up ∧ exists_where (is_rule id p) (al_rules a) = true ∧
    (delete_rule id p user a).2
    = set_al_rules (delete_where (is_rule id p))
        (set_al_events (delete_where (λ e, String.eqb (e_rule e) id)) a).
Proof.
  unfold delete_rule. rewrite on_db_guard. unfold access.
  destruct (get_project_for_user _ _ _ _).1 as [up|]; [|by left].
  cbv [gets modify raise_when mbind M_bind mret M_ret alert_tx atomic raise].
  destruct (exists_where (is_rule id p) (al_rules a)) eqn:E; cbn; [right; eauto|left; by destruct a].
Qed.

Lemma resolve_event_run id p user a :
  (resolve_event id p user a).2 = a ∨
  ∃ up t, access p user "member" a = Ok up ∧
    (resolve_event id p user a).2
    = set_al_events (update_where
        (λ e, String.eqb (e_id e) id && rule_of_project p (al_rules a) (e_rule e))
        (resolve_row t)) a.
Proof.
  unfold resolve_event. rewrite on_db_guard. unfold access.
  destruct (get_project_for_user _ _ _ _).1 as [up|]; [|by left].
  cbv [gets modify raise_when mbind M_bind mret M_ret alert_tx atomic raise on_world now].
  rewrite set_al_world_id.
  destruct (exists_where _ _); cbn; [right; eauto|left; by destruct a].
Qed.

(** Every request has one of these effects, and none without access. *)
Lemma handle_effect user q a :
  effect q a (handle user q a).2 ∧
  ((handle user q a).2 = a ∨ has_access (target q) user "member" a).
Proof.
  unfold has_access. destruct q as [raw uuid|id raw p|id p|id p]; cbn [handle target].
  - assert (E : (x ← create_rule ip_address valid_email raw user uuid; mret tt) a
      = match create_rule ip_address valid_email raw user uuid a with
        | (Ok _, a') => (Ok tt, a') | (Raise e, a') => (Raise e, a') end) by done.
    rewrite E, create_rule_run.
    destruct (validate_create _ _ raw) as [body|e] eqn:Ev; [|split; [constructor|by left]].
    rewrite <- (validated_project raw body Ev). unfold access.
    destruct (get_project_for_user _ _ _ _).1 as [up|e] eqn:Eg; [|split; [constructor|by left]].
    destruct (storable body) eqn:Es; cbn; (split; [by constructor|eauto]).
  - destruct (update_rule_run id raw p user a) as [->|(body & up & Hv & Ha & ->)];
      (split; [by constructor|eauto]).
  - destruct (delete_rule_run id p user a) as [->|(up & Ha & He & ->)];
      (split; [by constructor|eauto]).
  - destruct (resolve_event_run id p user a) as [->|(up & t & Ha & ->)];
      (split; [by constructor|eauto]).
Qed.

Hypothesis valid_email_nonempty : ∀ s e, valid_email s = Some e → e ≠ EmptyString.

Lemma effect_rules_ok q a a' : effect q a a' →
  Forall (rule_ok ip_address) (al_rules a) → Forall (rule_ok ip_address) (al_rules a').
Proof.
  intros [q0 a0|raw body uuid t a0 Hv Hs|id raw body p a0 Hv|id p a0 He|id p t a0] H; cbn;
    [done| | | |done].
  - apply Forall_app; split; [done|]. constructor; [by eapply create_rule_ok|constructor].
  - unfold update_where. apply Forall_map. eapply Forall_impl; [exact H|].
    intros r Hr. cbn. destruct (is_rule id p r); [by eapply update_rule_ok|done].
  - rewrite Forall_forall in *. intros r [Hr _]%elem_of_delete_where. by apply H.
Qed.

(** A sequence of requests by any users. *)
Definition serve_all (l : list (CurrentUser * AlertRequest)) (a : Alerting) : Alerting :=
  foldl (λ a uq, (handle uq.1 uq.2 a).2) a l.

(** C32: stored alert rules are well formed.  Whatever requests arrive, every
    stored rule has a known metric and condition, a window and a cooldown of at
    least a minute, a positive threshold unless it is about anomalies, at least
    one target, and a webhook, if any, that is an HTTPS URL on the default port
    of one of Slack's hosts. *)
Theorem alert_rules_typed l a :
  Forall (rule_ok ip_address) (al_rules a) →
  Forall (rule_ok ip_address) (al_rules (serve_all l a)).
Proof.
  unfold serve_all. revert a. induction l as [|[user q] l IH]; intros a H; [done|]. cbn [foldl].
  apply IH. destruct (handle_effect user q a) as [He _]. by eapply effect_rules_ok.
Qed.

(** The rules of a project, and their events. *)
Definition rules_of (p : string) (a : Alerting) : list AlertRule :=
  select (of_project p) (al_rules a).
Definition events_of (p : string) (a : Alerting) : list AlertEvent :=
  select (λ e, rule_of_project p (al_rules a) (e_rule e)) (al_events a).

(** Rules with one identifier are one rule. *)
Lemma same_rule a r r' :
  NoDup (r_id <$> al_rules a) → r ∈ al_rules a → r' ∈ al_rules a → r_id r = r_id r' → r = r'.
Proof. intros Hn Hr Hr' E. by eapply (NoDup_column_inj r_id). Qed.

Lemma not_of_project p p' r :
  p' ≠ p → r_project r = p → of_project p' r = false.
Proof. intros Hp <-. apply String.eqb_neq. congruence. Qed.

Lemma is_rule_elsewhere id i p p' r :
  p' ≠ p → is_rule id p r = true → is_rule i p' r = false.
Proof.
  intros Hp [_ E%String.eqb_eq]%andb_true_iff. unfold is_rule.
  by rewrite (not_of_project p p' r Hp E), andb_false_r.
Qed.

Lemma create_elsewhere body uuid t a p' :
  p' ≠ ac_project body →
  let a' := set_al_rules (λ l, l ++ [of_create body uuid t]) a in
  rules_of p' a' = rules_of p' a ∧ events_of p' a' = events_of p' a.
Proof.
  intros Hp. assert (Hne := not_of_project _ p' (of_create body uuid t) Hp eq_refl). split.
  - unfold rules_of, select. cbn. rewrite List.filter_app. cbn in Hne |- *.
    by rewrite Hne, app_nil_r.
  - apply select_ext_in. intros e _. unfold rule_of_project, exists_where. cbn.
    rewrite existsb_app. cbn in Hne |- *. unfold is_rule at 2. cbn.
    by rewrite Hne, andb_false_r, orb_false_r.
Qed.

Lemma update_elsewhere id body p a p' :
  p' ≠ p →
  let a' := set_al_rules (update_where (is_rule id p) (apply_update body)) a in
  rules_of p' a' = rules_of p' a ∧ events_of p' a' = events_of p' a.
Proof.
  intros Hp. split.
  - apply select_update. intros r [_ Hr%String.eqb_eq]%andb_true_iff.
    split; by apply (not_of_project p).
  - apply select_ext_in. intros e _. unfold rule_of_project. cbn.
    rewrite !exists_select, select_update; [done|].
    intros r Hr. split; by eapply (is_rule_elsewhere id) in Hr.
Qed.

Lemma delete_elsewhere id p a p' :
  NoDup (r_id <$> al_rules a) → exists_where (is_rule id p) (al_rules a) = true → p' ≠ p →
  let a' := set_al_rules (delete_where (is_rule id p))
              (set_al_events (delete_where (λ e, String.eqb (e_rule e) id)) a) in
  rules_of p' a' = rules_of p' a ∧ events_of p' a' = events_of p' a.
Proof.
  intros Hn (r' & Hr' & Hid')%exists_where_true Hp.
  pose proof Hid' as [Eid%String.eqb_eq Epr%String.eqb_eq]%andb_true_iff. split.
  { apply select_delete. intros r [_ E%String.eqb_eq]%andb_true_iff. by apply (not_of_project p). }
  transitivity (select (λ e, rule_of_project p' (al_rules a) (e_rule e))
    (delete_where (λ e, String.eqb (e_rule e) id) (al_events a))).
  - apply select_ext_in. intros e _. unfold rule_of_project.
    change (al_rules (set_al_rules ?f ?b)) with (f (al_rules b)). cbn beta.
    rewrite !exists_select, select_delete; [done|].
    intros r Hr. by eapply (is_rule_elsewhere id) in Hr.
  - apply select_delete. intros e ->%String.eqb_eq. apply exists_where_false. intros r Hr.
    unfold is_rule. destruct (String.eqb_spec (r_id r) id) as [Hid|]; [|done].
    rewrite (same_rule a r r' Hn Hr Hr'); [|congruence]. by apply (not_of_project p).
Qed.

Lemma resolve_elsewhere id p t a p' :
  NoDup (r_id <$> al_rules a) → p' ≠ p →
  let a' := set_al_events (update_where
              (λ e, String.eqb (e_id e) id && rule_of_project p (al_rules a) (e_rule e))
              (resolve_row t)) a in
  rules_of p' a' = rules_of p' a ∧ events_of p' a' = events_of p' a.
Proof.
  intros Hn Hp. split; [done|]. apply select_update.
  intros e [_ (r & Hr & Hid)%exists_where_true]%andb_true_iff.
  apply andb_true_iff in Hid as [Hid%String.eqb_eq Hpr%String.eqb_eq].
  assert (rule_of_project p' (al_rules a) (e_rule e) = false) as E; [|by split].
  apply exists_where_false. intros r' Hr'. unfold is_rule.
  destruct (String.eqb_spec (r_id r') (e_rule e)) as [Hid'|]; [|done].
  rewrite (same_rule a r' r Hn Hr' Hr); [|congruence]. by apply (not_of_project p).
Qed.

(** a request touches one project, with the right to.  Rules and events of
    every other project stay as they are, and a caller who is not allowed to act
    as a member of the named project changes nothing. *)
Theorem alert_requests_scoped user q a :
  NoDup (r_id <$> al_rules a) →
  (∀ p, p ≠ target q →
     rules_of p (handle user q a).2 = rules_of p a ∧
     events_of p (handle user q a).2 = events_of p a) ∧
  (¬ has_access (target q) user "member" a → (handle user q a).2 = a).
Proof.
  intros Hn. destruct (handle_effect user q a) as [He Ha]. split; [|tauto].
  intros p' Hp. generalize dependent (handle user q a).2. intros a' He _.
  destruct He; cbn [target] in Hp.
  - done.
  - apply create_elsewhere. by rewrite (validated_project raw body).
  - by apply update_elsewhere.
  - by apply delete_elsewhere.
  - by apply resolve_elsewhere.
Qed.
End requests.

(** ** Witnesses *)

Definition public_ip (s : string) : option Ip :=
  if String.eqb s "1.2.3.4" then Some {| ip_v4 := true; ip_global := true; ip_blocked := false |}
  else None.

Definition any_email (s : string) : option string := if truthy s then Some s else None.

Lemma any_email_nonempty s e : any_email s = Some e → e ≠ EmptyString.
Proof. unfold any_email. by destruct s; [|intros [= <-]]. Qed.

Definition slack_hook : string := "https://hooks.slack.com/services/T/B/x".

Definition slow_rule (project_id : string) : AlertRuleCreate :=
  {| ac_project := project_id; ac_name := "slow"; ac_metric := "latency_p95"; ac_condition := "gt";
     ac_threshold := Some (mkdec 500 0); ac_window := 5; ac_cooldown := 10;
     ac_slack := Some slack_hook; ac_email := None |}.

Definition alerting (w : World) : Alerting :=
  {| al_world := w; al_rules := []; al_events := []; al_cooldown := ∅; al_posts := [];
     al_emails := []; al_dns := []; al_http := []; al_smtp := []; al_stats := ∅ |}.

Definition one_project_alerting : Alerting :=
  alerting (set_w_app (λ _, one_project) (empty_world 0 [])).

Definition sample_requests : list (CurrentUser * AlertRequest) :=
  [(boss, CreateRule (slow_rule "p1") "r1");
   (boss, UpdateRule "r1" {| au_active := Some false; au_threshold := None; au_slack := None;
                             au_email := Some "a@b.c"%string |} "p1")].

(** The rule is made and changed. *)
Lemma alert_rules_typed_witness :
  let a := serve_all public_ip any_email sample_requests one_project_alerting in
  (r_email <$> al_rules a) = [Some "a@b.c"%string] ∧ Forall (rule_ok public_ip) (al_rules a).
Proof.
  split; [by vm_compute|].
  exact (alert_rules_typed public_ip any_email any_email_nonempty sample_requests
           one_project_alerting (Forall_nil_2 _)).
Defined.

Definition with_rule : Alerting :=
  set_al_rules (λ _, [of_create (slow_rule "p2") "r2" 0]) one_project_alerting.

(** The rule of another project is named, and stays. *)
Lemma alert_requests_scoped_witness :
  (handle public_ip any_email boss (DeleteRule "r2" "p1") with_rule).1
    = Raise (HTTPException 404 "Rule not found") ∧
  rules_of "p2" (handle public_ip any_email boss (DeleteRule "r2" "p1") with_rule).2
    = rules_of "p2" with_rule.
Proof.
  split; [by vm_compute|].
  eapply (alert_requests_scoped public_ip any_email boss (DeleteRule "r2" "p1") with_rule).
  - apply NoDup_singleton.
  - discriminate.
Defined.
