(* ===== verification/Notify.v ===== *)
(** * Notifications

    [backend/app/services/notifications.py]: delivery of an alert by webhook
    and mail, with the cooldown of its rule. *)

From S2P Require Import Prelude Text PyVal Url Decimal Schema App Cost SpanSchema Storage Pipeline Auth Projects FailedTasks Alerts.

Local Open Scope Z_scope.

Definition MAX_WEBHOOK_REDIRECTS : nat := 3.

Definition alert_cooldown_key (rule_id : string) : string := "alert_cooldown:" +:+ rule_id.

(** Calls to Redis and PostgreSQL take the next fault of the world. *)
Definition io_call : M Alerting unit := on_world io.

(** ** The environment's answers *)

(** [socket.getaddrinfo(hostname, port, ...)]: the answer of the moment. *)
Definition next_dns (hostname : string) (port : Z) : M Alerting (option (list string)) := λ a,
  match al_dns a with
  | [] => (Ok None, a)
  | answer :: rest => (Ok (answer hostname port), set_al_dns (λ _, rest) a)
  end.

Definition next_http : M Alerting HttpAnswer := λ a,
  match al_http a with
  | [] => (Ok HttpError, a)
  | o :: rest => (Ok o, set_al_http (λ _, rest) a)
  end.

Definition next_smtp : M Alerting bool := λ a,
  match al_smtp a with
  | [] => (Ok false, a)
  | o :: rest => (Ok o, set_al_smtp (λ _, rest) a)
  end.

Section notifications.
Context (ip_address : string → option Ip) (urljoin : string → string → string).

Definition _is_internal_ip (address : string) : result bool :=
  match ip_address address with
  | Some ip => Ok (negb (ip_global ip))
  | None => Raise (ValueError "does not appear to be an IPv4 or IPv6 address")
  end.

(** The addresses are a set; their order does not matter. *)
Definition _resolve_webhook_host (hostname : string) (port : Z) : M Alerting (list string) :=
  answer ← next_dns hostname port;
  match answer with
  | None | Some [] => raise (ValueError "Webhook host could not be resolved")
  | Some addresses => mret addresses
  end.

Fixpoint any_internal (addresses : list string) : result bool :=
  match addresses with
  | [] => Ok false
  | x :: addresses' =>
      i ← _is_internal_ip x;
      rest ← any_internal addresses';
      Ok (i || rest)
  end.

(** What is checked before the host is resolved: the webhook, its host and port. *)
Definition check_delivery_url (url : string) : result (string * string * Z) :=
  w ← _validate_https_webhook ip_address (Some url);
  match w with
  | None => Raise (ValueError "Webhook URL is required")
  | Some webhook =>
      parsed ← urlsplit ip_address webhook;
      let '(username, password) := userinfo parsed in
      if present username || present password then
        Raise (ValueError "Webhook URL credentials are not allowed")
      else match hostname parsed with
      | None => Raise (ValueError "Webhook URL must include a hostname")
      | Some host =>
          p ← port parsed;
          let port := match p with Some n => if n =? 0 then 443 else n | None => 443 end in
          if negb (port =? 443) then
            Raise (ValueError "Webhook URL must use the default HTTPS port")
          else match _is_internal_ip (strip_by brackets host) with
               | Ok true =>
                   Raise (ValueError "Webhook cannot target private or internal addresses")
               | _ => Ok (webhook, host, port)
               end
      end
  end.

Definition validate_webhook_delivery_url (url : string) : M Alerting string :=
  '(webhook, hostname, port) ← lift (check_delivery_url url);
  addresses ← _resolve_webhook_host hostname port;
  internal ← lift (any_internal addresses);
  raise_when internal
    (ValueError "Webhook DNS resolves to private or internal addresses");;
  mret webhook.

Definition is_redirect (status : Z) : bool := (300 <=? status) && (status <=? 399).
Definition is_success (status : Z) : bool := (200 <=? status) && (status <=? 299).

(** The turns of the [for] loop that are left, and its [else]. *)
Fixpoint slack_loop (turns : nat) (current_webhook : string) : M Alerting bool :=
  match turns with
  | O => mret false
  | S turns =>
      current_webhook ← validate_webhook_delivery_url current_webhook;
      r ← next_http;
      modify (set_al_posts (λ l, l ++ [(current_webhook, r)]));;
      match r with
      | HttpError => raise (OtherError "HTTPError")
      | HttpResponse status location =>
          if is_redirect status then
            match location with
            | None | Some EmptyString => mret false
            | Some location => slack_loop turns (urljoin current_webhook location)
            end
          else if is_success status then mret true
          else raise (OtherError "HTTPStatusError")
      end
  end.

(** [ValueError] and [httpx.HTTPError] are all that the loop raises. *)
Definition _slack (webhook : string) : M Alerting bool :=
  try_except
    (webhook ← validate_webhook_delivery_url webhook;
     slack_loop (MAX_WEBHOOK_REDIRECTS + 1) webhook)
    (λ _, mret false).

(** Recipient and subject, without its emoji; any failure of the mail library
    is caught. *)
Definition _email (to name : string) : M Alerting bool :=
  ok ← next_smtp;
  (if (ok : bool) then modify (set_al_emails (λ l, l ++ [(to, "Alert: " +:+ name)]))
   else mret tt);;
  mret ok.

(** [redis.get(key)] *)
Definition on_cooldown (rule_id : string) (a : Alerting) : bool :=
  match al_cooldown a !! alert_cooldown_key rule_id with
  | Some expires => w_now (al_world a) <? expires
  | None => false
  end.

Definition is_on_cooldown (rule_id : string) : M Alerting bool :=
  io_call;; gets (on_cooldown rule_id).

Definition try_slack (rule : AlertRule) : M Alerting bool :=
  if present (r_slack rule) then _slack (default EmptyString (r_slack rule)) else mret false.

Definition try_email (rule : AlertRule) : M Alerting bool :=
  if present (r_email rule) then _email (default EmptyString (r_email rule)) (r_name rule)
  else mret false.

(** [redis.set(cooldown_key, "1", ex=...)] *)
Definition start_cooldown (rule : AlertRule) : M Alerting unit :=
  io_call;;
  t ← on_world now;
  modify (set_al_cooldown <[alert_cooldown_key (r_id rule) :=
    t + r_cooldown rule * 60 * second]>).

Definition send_alert (rule : AlertRule) : M Alerting bool :=
  c ← is_on_cooldown (r_id rule);
  if (c : bool) then mret false
  else
    slack ← try_slack rule;
    email ← try_email rule;
    let sent := slack || email in
    (if sent then start_cooldown rule else mret tt);;
    mret sent.

(** [workers/process_span.py] *)
Definition record_alert_if_sent (rule : AlertRule) (value : pyfloat) (message uuid : string)
    : M Alerting unit :=
  sent ← send_alert rule;
  if (sent : bool) then
    alert_tx (
      io_call;;
      t ← on_world now;
      modify (set_al_events (λ l, l ++
        [{| e_id := uuid; e_rule := r_id rule; e_triggered := t; e_value := value;
            e_message := message; e_resolved := None |}]));;
      io_call)
  else mret tt.
End notifications.

(** ** Facts *)

Section facts.
Context (ip_address : string → option Ip) (urljoin : string → string → string).

Abbreviation validate_url := (validate_webhook_delivery_url ip_address).
Abbreviation global_address := (λ x, ∃ ip, ip_address x = Some ip ∧ ip_global ip = true).

(** What may be posted to: a Slack webhook without credentials. *)
Definition safe_url (url : string) : Prop :=
  slack_url ip_address url ∧
  ∃ u, urlsplit ip_address url = Ok u ∧
    present (userinfo u).1 = false ∧ present (userinfo u).2 = false.

Definition global_answer (addresses : list string) : Prop :=
  addresses ≠ [] ∧ Forall global_address addresses.

(** The resolver, asked for the host of the URL, lists public addresses only. *)
Definition resolves (url : string) (answer : string → Z → option (list string)) : Prop :=
  ∃ u host addresses, urlsplit ip_address url = Ok u ∧ hostname u = Some host ∧
    answer host 443 = Some addresses ∧ global_answer addresses.

(** A post that was answered with success. *)
Definition accepted (post : string * HttpAnswer) : bool :=
  match post.2 with HttpResponse status _ => (200 <=? status) && (status <? 300) | _ => false end.

Lemma any_internal_false l : any_internal ip_address l = Ok false → Forall global_address l.
Proof.
  induction l as [|x l IH]; intros H; [constructor|]. cbn [any_internal] in H.
  unfold _is_internal_ip in H. destruct (ip_address x) as [ip|] eqn:E; [|done].
  cbn [mbind result_bind] in H. destruct (any_internal ip_address l) as [b|]; [|done].
  cbn [mbind result_bind] in H. injection H as [H1 ->]%orb_false_iff.
  constructor; [|by apply IH]. exists ip. by apply negb_false_iff in H1.
Qed.

Lemma check_delivery_url_safe url w host p :
  check_delivery_url ip_address url = Ok (w, host, p) →
  safe_url w ∧ p = 443 ∧ ∃ u, urlsplit ip_address w = Ok u ∧ hostname u = Some host.
Proof.
  unfold check_delivery_url. intros H.
  destruct (_validate_https_webhook ip_address (Some url)) as [[w'|]|] eqn:E; try done.
  cbn [mbind result_bind] in H. destruct (urlsplit ip_address w') as [u|] eqn:Eu; [|done].
  cbn [mbind result_bind] in H. destruct (userinfo u) as [name pass] eqn:Ei.
  destruct (present name) eqn:En; [done|]. destruct (present pass) eqn:Ep; [done|].
  cbn [orb] in H. destruct (hostname u) as [h|] eqn:Eh; [|done].
  destruct (port u) as [o|]; [|done]. cbn [mbind result_bind] in H.
  set (n := match o with Some n => _ | None => 443 end) in H.
  destruct (Z.eqb_spec n 443) as [En'|]; [|done]. cbn [negb] in H.
  assert (Ok (w, host, p) = Ok (w', h, n)) as [= -> -> ->].
  { destruct (_is_internal_ip ip_address (strip_by brackets h)) as [[]|]; [done|congruence..]. }
  split; [split; [by apply validate_webhook_slack in E as [_ E]|]|].
  - exists u. by rewrite Ei.
  - split; [done|]. by exists u.
Qed.

Lemma set_al_dns_id a : set_al_dns (λ _, al_dns a) a = a.
Proof. by destruct a. Qed.

(** A URL passes only if its host resolved, just before, to public addresses. *)
Lemma validate_url_spec url a :
  (∃ w q rest, validate_url url a = (Ok w, set_al_dns (λ _, rest) a) ∧
     al_dns a = q :: rest ∧ safe_url w ∧ resolves w q) ∨
  ∃ e rest, validate_url url a = (Raise e, set_al_dns (λ _, rest) a).
Proof.
  unfold validate_webhook_delivery_url. rewrite lift_bind.
  destruct (check_delivery_url ip_address url) as [[[w host] p]|e] eqn:E.
  2: { right. exists e, (al_dns a). by rewrite set_al_dns_id. }
  apply check_delivery_url_safe in E as (Hw & -> & u & Hu & Hh).
  cbv [_resolve_webhook_host next_dns mbind M_bind mret M_ret raise lift raise_when].
  destruct (al_dns a) as [|q rest] eqn:Ed.
  { right. eexists _, []. rewrite <- Ed, set_al_dns_id. reflexivity. }
  destruct (q host 443) as [[|x l]|] eqn:Eq; [right; eexists _, rest; reflexivity| |
    right; eexists _, rest; reflexivity].
  destruct (any_internal ip_address (x :: l)) as [[]|e] eqn:Ei;
    [right; eexists _, rest; reflexivity| |right; eexists _, rest; reflexivity].
  left. exists w, q, rest. split; [reflexivity|]. split; [done|]. split; [done|].
  exists u, host, (x :: l). split_and!; [done..|]. split; [done|by apply any_internal_false].
Qed.

(** The posts of the loop, the answers of the resolver they took, and what the
    loop makes of the last one. *)
Lemma slack_loop_posts n url a :
  let r := slack_loop ip_address urljoin n url a in
  ∃ us qs rest,
    al_posts r.2 = al_posts a ++ us ∧ Forall (λ u, safe_url u.1) us ∧ (length us ≤ n)%nat ∧
    al_dns a = qs ++ rest ∧ Forall2 (λ u q, resolves u.1 q) us qs ∧
    (existsb accepted us = true ↔ r.1 = Ok true).
Proof.
  cbn zeta. revert url a. induction n as [|n IH]; intros url a; [exists [], [], (al_dns a); cbn;
    rewrite app_nil_r; by split_and!|].
  cbn [slack_loop]. destruct (validate_url_spec url a)
    as [(w & q & rest & E & Ed & Hw & Hg)|(e & rest & E)].
  2: { rewrite (bind_run_raise _ _ _ _ _ E). exists [], [], (al_dns a). cbn.
       rewrite app_nil_r. split_and!; [done..|lia|done|constructor|done]. }
  rewrite (bind_run _ _ _ _ _ E).
  assert (Hnext : ∃ r a2, next_http (set_al_dns (λ _, rest) a) = (Ok r, a2) ∧
    al_posts a2 = al_posts a ∧ al_dns a2 = rest).
  { unfold next_http. destruct (al_http _) as [|r l]; eexists _, _; (split; [reflexivity|done]). }
  destruct Hnext as (r & a2 & En & Hp2 & Hd2). rewrite (bind_run _ _ _ _ _ En).
  erewrite bind_run; [|reflexivity]. set (a3 := set_al_posts _ _).
  assert (Hp3 : al_posts a3 = al_posts a ++ [(w, r)]) by (cbn; by rewrite Hp2).
  assert (Hstop : ∀ res, (accepted (w, r) = true ↔ res = Ok true) →
    ∃ us qs rest, al_posts a3 = al_posts a ++ us ∧ Forall (λ u, safe_url u.1) us ∧
      (length us ≤ S n)%nat ∧ al_dns a = qs ++ rest ∧ Forall2 (λ u q, resolves u.1 q) us qs ∧
      (existsb accepted us = true ↔ res = Ok true)).
  { intros res Hres. exists [(w, r)], [q], rest. rewrite Hp3. split_and!; try done.
    - by apply Forall_singleton.
    - cbn. lia.
    - by constructor.
    - cbn [existsb]. by rewrite orb_false_r. }
  destruct r as [|status location]; [by apply Hstop|]. unfold accepted in Hstop. cbn in Hstop.
  unfold is_redirect, is_success.
  destruct ((300 <=? status) && (status <=? 399)) eqn:Er.
  - assert (Hno : (200 <=? status) && (status <? 300) = false) by lia.
    rewrite Hno in Hstop. destruct location as [[|c l]|]; [by apply Hstop| |by apply Hstop].
    destruct (IH (urljoin w (String c l)) a3) as (us & qs & rest' & H1 & H2 & H3 & H4 & H5 & H6).
    exists ((w, HttpResponse status (Some (String c l))) :: us), (q :: qs), rest'.
    rewrite H1, Hp3. split_and!.
    + by rewrite <- app_assoc.
    + by constructor.
    + cbn. lia.
    + rewrite Ed. cbn in H4. by rewrite <- Hd2, H4.
    + by constructor.
    + cbn [existsb]. unfold accepted at 1. cbn [snd]. by rewrite Hno.
  - destruct ((200 <=? status) && (status <=? 299)) eqn:Es; apply Hstop.
    + split; [done|]. intros _. lia.
    + split; [lia|done].
Qed.

Lemma slack_posts url a :
  let r := _slack ip_address urljoin url a in
  ∃ us, al_posts r.2 = al_posts a ++ us ∧
    Forall (λ u, safe_url u.1) us ∧ (length us ≤ 4)%nat ∧
    (us ≠ [] → ∃ q qs rest, al_dns a = q :: qs ++ rest ∧ Forall2 (λ u q, resolves u.1 q) us qs) ∧
    (existsb accepted us = true ↔ r.1 = Ok true).
Proof.
  cbn zeta. unfold _slack, try_except. destruct (validate_url_spec url a)
    as [(w & q & rest & E & Ed & Hw & Hg)|(e & rest & E)].
  2: { rewrite (bind_run_raise _ _ _ _ _ E). exists []. cbn. rewrite app_nil_r.
       split_and!; [done|constructor|lia|done|done]. }
  rewrite (bind_run _ _ _ _ _ E).
  destruct (slack_loop_posts 4 w (set_al_dns (λ _, rest) a))
    as (us & qs & rest' & H1 & H2 & H3 & H4 & H5 & H6).
  exists us. change (MAX_WEBHOOK_REDIRECTS + 1)%nat with 4%nat. split_and!; [|done|done| |].
  - by destruct (slack_loop _ _ 4 w _) as [[] a'].
  - intros _. exists q, qs, rest'. cbn in H4. split; [by rewrite Ed, H4|done].
  - rewrite H6. by destruct (slack_loop _ _ 4 w _) as [[] a'].
Qed.

(** [_slack] and [_email] answer; they do not raise. *)
Lemma slack_ok url a : ∃ b a', _slack ip_address urljoin url a = (Ok b, a').
Proof.
  unfold _slack, try_except.
  destruct ((w ← validate_url url; slack_loop ip_address urljoin (MAX_WEBHOOK_REDIRECTS + 1) w) a)
    as [[b|e] a']; eexists _, _; reflexivity.
Qed.

(** *** What each part leaves alone *)

Lemma on_world_preserves {A B} (f : Alerting → B) (m : M World A) :
  (∀ a w, f (set_al_world (λ _, w) a) = f a) → preserves f (on_world m).
Proof. intros Hf a. unfold on_world. destruct (m (al_world a)) as [r w]. apply Hf. Qed.

Lemma validate_preserves {B} (f : Alerting → B) url :
  (∀ g a, f (set_al_dns g a) = f a) → preserves f (validate_url url).
Proof.
  intros Hf a. destruct (validate_url_spec url a) as [(w & ? & rest & -> & _)|(e & rest & ->)];
    apply Hf.
Qed.

Section slack_frame.
Context {B : Type} (f : Alerting → B).
Hypothesis Hdns : ∀ g a, f (set_al_dns g a) = f a.
Hypothesis Hhttp : ∀ g a, f (set_al_http g a) = f a.
Hypothesis Hposts : ∀ g a, f (set_al_posts g a) = f a.

Lemma slack_loop_preserves n url : preserves f (slack_loop ip_address urljoin n url).
Proof.
  revert url. induction n as [|n IH]; intros url; [done|]. cbn [slack_loop].
  apply preserves_bind; [by apply validate_preserves|]. intros w.
  apply preserves_bind.
  { intros a. unfold next_http. destruct (al_http a); [done|apply Hhttp]. }
  intros r. apply preserves_bind; [by apply preserves_modify|]. intros _.
  revert r. intros [|status [[|c l]|]]; try destruct (is_redirect status);
    try destruct (is_success status); try done; apply IH.
Qed.

Lemma try_slack_preserves rule : preserves f (try_slack ip_address urljoin rule).
Proof.
  unfold try_slack. destruct (present _); [|done]. unfold _slack.
  apply preserves_try; [|done]. apply preserves_bind; [by apply validate_preserves|].
  intros w. apply slack_loop_preserves.
Qed.
End slack_frame.

Lemma try_email_preserves {B} (f : Alerting → B) rule :
  (∀ g a, f (set_al_smtp g a) = f a) → (∀ g a, f (set_al_emails g a) = f a) →
  preserves f (try_email rule).
Proof.
  intros Hs He. unfold try_email. destruct (present _); [|done]. unfold _email.
  apply preserves_bind.
  { intros a. unfold next_smtp. destruct (al_smtp a); [done|apply Hs]. }
  intros ok. apply preserves_bind; [destruct ok; [by apply preserves_modify|done]|done].
Qed.

Lemma start_cooldown_preserves {B} (f : Alerting → B) rule :
  (∀ a w, f (set_al_world (λ _, w) a) = f a) → (∀ g a, f (set_al_cooldown g a) = f a) →
  preserves f (start_cooldown rule).
Proof.
  intros Hw Hc. apply preserves_bind; [by apply on_world_preserves|]. intros _.
  apply preserves_bind; [by apply on_world_preserves|]. intros t. by apply preserves_modify.
Qed.

Lemma is_on_cooldown_preserves {B} (f : Alerting → B) id :
  (∀ a w, f (set_al_world (λ _, w) a) = f a) → preserves f (is_on_cooldown id).
Proof.
  intros Hw. apply preserves_bind; [by apply on_world_preserves|]. done.
Qed.

(** *** Posts *)

(** From one state to the next only safe posts are made. *)
Definition posted (a a' : Alerting) : Prop :=
  ∃ us, al_posts a' = al_posts a ++ us ∧ Forall (λ u, safe_url u.1) us ∧ (length us ≤ 4)%nat ∧
    (us ≠ [] → ∃ q qs rest, al_dns a = q :: qs ++ rest ∧ Forall2 (λ u q, resolves u.1 q) us qs).

Lemma posted_none a a' : al_posts a' = al_posts a → posted a a'.
Proof.
  unfold posted. intros ->. exists []. rewrite app_nil_r.
  split_and!; [done|constructor|cbn; lia|done].
Qed.

Lemma try_slack_posted rule a : posted a (try_slack ip_address urljoin rule a).2.
Proof.
  unfold try_slack. destruct (present _); [|by apply posted_none].
  destruct (slack_posts (default EmptyString (r_slack rule)) a) as (us & ? & ? & ? & ? & _).
  by exists us.
Qed.

(** C15: an alert is posted only to Slack, over addresses that are public.
    Whatever the rule's webhook, the redirects and the resolver answer, an alert
    makes at most four posts, each to an HTTPS URL of a Slack host on the default
    port without credentials; and before each of them the resolver was asked for
    the host of that very URL, after one look-up for the webhook itself, and
    listed public addresses only. *)
Theorem alert_posts_safe rule a : posted a (send_alert ip_address urljoin rule a).2.
Proof.
  unfold send_alert.
  pose proof (is_on_cooldown_preserves al_posts (r_id rule) (λ _ _, eq_refl) a) as Hp.
  pose proof (is_on_cooldown_preserves al_dns (r_id rule) (λ _ _, eq_refl) a) as Hd.
  unfold mbind at 1, M_bind at 1.
  destruct (is_on_cooldown (r_id rule) a) as [[[]|e] a1]; cbn [snd] in Hp, Hd;
    [by apply posted_none| |by apply posted_none].
  assert (posted a (try_slack ip_address urljoin rule a1).2) as Hs.
  { pose proof (try_slack_posted rule a1) as H. unfold posted in *. by rewrite Hp, Hd in H. }
  unfold mbind at 1, M_bind at 1.
  destruct (try_slack ip_address urljoin rule a1) as [[b|e] a2]; cbn [snd] in Hs; [|exact Hs].
  match goal with |- posted a (?m a2).2 => assert (preserves al_posts m) as Hrest end.
  { apply preserves_bind; [by apply try_email_preserves|]. intros c.
    apply preserves_bind; [|done]. destruct (b || c); [by apply start_cooldown_preserves|done]. }
  unfold posted in *. rewrite Hrest. exact Hs.
Qed.

(** *** Cooldown *)

(** What happens around alerts: time passes and the environment answers, or an
    alert of a rule is due. *)
Inductive occasion : Type :=
| Tick (now : timestamp) (faults : list (option exn)) (dns : list (string → Z → option (list string)))
    (http : list HttpAnswer) (smtp : list bool)
| Due (rule : AlertRule).

Definition tick (now : timestamp) (faults : list (option exn))
    (dns : list (string → Z → option (list string))) (http : list HttpAnswer) (smtp : list bool)
    (a : Alerting) : Alerting :=
  set_al_world (λ w, set_w_now (λ _, now) (set_w_faults (λ _, faults) w))
    (set_al_dns (λ _, dns) (set_al_http (λ _, http) (set_al_smtp (λ _, smtp) a))).

(** A look at both ends of a call: Slack accepted a post, or a mail went out. *)
Definition delivered (a a' : Alerting) : bool :=
  existsb accepted (drop (length (al_posts a)) (al_posts a'))
  || (length (al_emails a) <? length (al_emails a'))%nat.

(** The two calls to Redis, for the look at the cooldown and for its start, succeed. *)
Definition redis_up (a : Alerting) : bool :=
  forallb (λ f, match f with None => true | Some _ => false end) (take 2 (w_faults (al_world a))).

(** An alert that reached somebody: rule, time, the cooldown in minutes, and
    whether Redis was up for it. *)
Record Delivery : Type := {
  dv_rule : string; dv_time : timestamp; dv_cooldown : Z; dv_redis : bool }.

(** The deliveries, whatever [send_alert] answered or raised. *)
Fixpoint deliveries (l : list occasion) (a : Alerting) : list Delivery :=
  match l with
  | [] => []
  | Tick t f d h m :: l' => deliveries l' (tick t f d h m a)
  | Due rule :: l' =>
      let a' := (send_alert ip_address urljoin rule a).2 in
      (if delivered a a'
       then [{| dv_rule := r_id rule; dv_time := w_now (al_world a);
                dv_cooldown := r_cooldown rule; dv_redis := redis_up a |}]
       else []) ++ deliveries l' a'
  end.

(** What the cooldown depends on. *)
Definition clock (a : Alerting) : gmap string timestamp * timestamp :=
  (al_cooldown a, w_now (al_world a)).

Lemma io_call_clock : preserves clock io_call.
Proof.
  intros a. unfold io_call, on_world, io, next_fault, mbind, M_bind.
  by destruct (w_faults (al_world a)) as [|[e|] l].
Qed.

Lemma io_call_preserves {B} (f : Alerting → B) :
  (∀ a w, f (set_al_world (λ _, w) a) = f a) → preserves f io_call.
Proof. apply on_world_preserves. Qed.

(** A call that is answered takes one entry of the faults, which is none. *)
Lemma io_call_faults a : match (io_call a).1 with
  | Ok _ => w_faults (al_world (io_call a).2) = drop 1 (w_faults (al_world a))
  | Raise _ => ∃ e, w_faults (al_world a) !! 0%nat = Some (Some e)
  end.
Proof.
  unfold io_call, on_world, io, next_fault, mbind, M_bind.
  destruct (w_faults (al_world a)) as [|[e|] l] eqn:E; cbn; rewrite ?E; by eauto.
Qed.

Lemma start_cooldown_faults rule a : match (start_cooldown rule a).1 with
  | Ok _ => True
  | Raise _ => ∃ e, w_faults (al_world a) !! 0%nat = Some (Some e)
  end.
Proof.
  unfold start_cooldown, mbind, M_bind. pose proof (io_call_faults a) as H.
  by destruct (io_call a) as [[[]|e] a1].
Qed.

Lemma on_cooldown_clock id a a' : clock a' = clock a → on_cooldown id a' = on_cooldown id a.
Proof. unfold clock, on_cooldown. by intros [= -> ->]. Qed.

Lemma start_cooldown_spec rule a :
  ((start_cooldown rule a).1 = Ok tt ∧
   al_cooldown (start_cooldown rule a).2 = <[alert_cooldown_key (r_id rule) :=
     w_now (al_world a) + r_cooldown rule * 60 * second]> (al_cooldown a)) ∨
  (∃ e, (start_cooldown rule a).1 = Raise e) ∧
  al_cooldown (start_cooldown rule a).2 = al_cooldown a.
Proof.
  unfold start_cooldown, mbind, M_bind. pose proof (io_call_clock a) as H.
  destruct (io_call a) as [[[]|e] a1]; cbn [snd] in H; injection H as Hc Hn.
  - left. destruct a1. cbn in Hc, Hn. subst. rewrite <- Hn. split; reflexivity.
  - right. split; [by eexists|done].
Qed.

(** The answers of [try_slack] and [try_email] are what the web and the mail
    server show. *)
Lemma try_slack_shown rule a : ∃ b us, (try_slack ip_address urljoin rule a).1 = Ok b ∧
  al_posts (try_slack ip_address urljoin rule a).2 = al_posts a ++ us ∧ existsb accepted us = b.
Proof.
  unfold try_slack. destruct (present _); [|exists false, []; by rewrite app_nil_r].
  set (url := default _ _). destruct (slack_posts url a) as (us & Hp & _ & _ & _ & Hb).
  destruct (slack_ok url a) as (b & a' & E). rewrite E in Hp, Hb |- *. cbn in *.
  exists b, us. split_and!; [done..|]. destruct (existsb accepted us), b; try done.
  - symmetry. by assert (Ok false = Ok true) as [=] by by apply Hb.
  - by assert (false = true) by by apply Hb.
Qed.

Lemma try_email_shown rule a : ∃ (c : bool) es, (try_email rule a).1 = Ok c ∧
  al_emails (try_email rule a).2 = al_emails a ++ es ∧ (0 <? length es)%nat = c.
Proof.
  unfold try_email. destruct (present _); [|exists false, []; by rewrite app_nil_r].
  unfold _email, next_smtp, mbind, M_bind. destruct (al_smtp a) as [|[] l].
  - exists false, []. by rewrite app_nil_r.
  - eexists true, [_]. by split_and!.
  - exists false, []. by rewrite app_nil_r.
Qed.

Lemma delivered_app a a' us es :
  al_posts a' = al_posts a ++ us → al_emails a' = al_emails a ++ es →
  delivered a a' = existsb accepted us || (0 <? length es)%nat.
Proof.
  intros Hp He. unfold delivered. rewrite Hp, He, drop_app_length, length_app. f_equal.
  destruct (Nat.ltb_spec 0 (length es)), (Nat.ltb_spec (length (al_emails a))
    (length (al_emails a) + length es)); lia || done.
Qed.

(** What a due alert does to the cooldowns.  It reaches somebody only when its
    rule is not cooling down; with Redis up it then starts the cooldown. *)
Lemma send_alert_cooldown rule a :
  let a' := (send_alert ip_address urljoin rule a).2 in
  let started := <[alert_cooldown_key (r_id rule) :=
    w_now (al_world a) + r_cooldown rule * 60 * second]> (al_cooldown a) in
  (al_cooldown a' = al_cooldown a ∨
   al_cooldown a' = started ∧ on_cooldown (r_id rule) a = false) ∧
  (delivered a a' = true → on_cooldown (r_id rule) a = false ∧
     (redis_up a = true → al_cooldown a' = started)).
Proof.
  intros a' started.
  assert (Hsilent : al_cooldown a' = al_cooldown a →
    al_posts a' = al_posts a → al_emails a' = al_emails a →
    (al_cooldown a' = al_cooldown a ∨
     al_cooldown a' = started ∧ on_cooldown (r_id rule) a = false) ∧
    (delivered a a' = true → on_cooldown (r_id rule) a = false ∧
       (redis_up a = true → al_cooldown a' = started))).
  { intros Hc Hp He. split; [by left|]. rewrite (delivered_app a a' [] []); [done|..];
      by rewrite app_nil_r. }
  subst a'. revert Hsilent. unfold send_alert, is_on_cooldown.
  pose proof (io_call_clock a) as H1.
  pose proof (io_call_preserves (λ a, (al_posts a, al_emails a)) ltac:(done) a) as S1.
  pose proof (io_call_faults a) as F1.
  unfold mbind, M_bind, gets.
  destruct (io_call a) as [[[]|e] a1]; cbn [fst snd] in *;
    injection H1 as Hc1 Hn1; injection S1 as Hp1 He1; [|auto].
  rewrite (on_cooldown_clock (r_id rule) a a1); [|by unfold clock; rewrite Hc1, Hn1].
  destruct (on_cooldown (r_id rule) a) eqn:Eon; [auto|]. intros _.
  pose proof (try_slack_preserves (λ a, (clock a, al_emails a, w_faults (al_world a)))
    ltac:(done) ltac:(done) ltac:(done) rule a1) as H2.
  destruct (try_slack_shown rule a1) as (b & us & Eb & Hp2 & Hus).
  destruct (try_slack ip_address urljoin rule a1) as [r2 a2]; cbn [fst snd] in *. subst r2.
  injection H2 as Hc2 Hn2 He2 Hf2.
  pose proof (try_email_preserves (λ a, (clock a, al_posts a, w_faults (al_world a)))
    rule ltac:(done)) as H3.
  specialize (H3 ltac:(done) a2).
  destruct (try_email_shown rule a2) as (c & es & Ec & He3 & Hes).
  destruct (try_email rule a2) as [r3 a3]; cbn [fst snd] in *. subst r3.
  injection H3 as Hc3 Hn3 Hp3 Hf3.
  assert (Hall : al_cooldown a3 = al_cooldown a ∧ w_now (al_world a3) = w_now (al_world a) ∧
    al_posts a3 = al_posts a ++ us ∧ al_emails a3 = al_emails a ++ es).
  { split_and!; congruence. }
  destruct Hall as (Hc & Hn & Hp & He).
  destruct (b || c) eqn:Ebc.
  - pose proof (start_cooldown_preserves (λ a, (al_posts a, al_emails a)) rule
      ltac:(done) ltac:(done) a3) as S4.
    pose proof (start_cooldown_faults rule a3) as F4.
    destruct (start_cooldown_spec rule a3) as [[E1 E2]|[(e & E1) E2]];
      destruct (start_cooldown rule a3) as [r4 a4]; cbn [fst snd] in *; subst r4;
      injection S4 as Hp4 He4; cbv [mret M_ret];
      cbn [snd]; (split; [|intros _; split; [done|]]).
    + right. by rewrite E2, Hc, Hn.
    + intros _. by rewrite E2, Hc, Hn.
    + left. by rewrite E2.
    + intros Hup. exfalso. destruct F4 as [e' F4]. rewrite Hf3, Hf2, F1 in F4. revert Hup F4.
      unfold redis_up. by destruct (w_faults (al_world a)) as [|[] [|[] l]].
  - cbv [mret M_ret]. cbn [snd]. split; [by left|]. rewrite (delivered_app a a3 us es) by done.
    by rewrite Hus, Hes, Ebc.
Qed.

Lemma alert_cooldown_key_inj a b : alert_cooldown_key a = alert_cooldown_key b → a = b.
Proof. apply str_app_inj_l. Qed.

(** What came [before], with Redis up for it, is still covered by its rule's
    cooldown. *)
Definition covered (before : list Delivery) (a : Alerting) : Prop :=
  Forall (λ x, dv_redis x = true → ∃ expires,
    al_cooldown a !! alert_cooldown_key (dv_rule x) = Some expires ∧
    dv_time x + dv_cooldown x * 60 * second <= expires) before.

(** The first delivery's cooldown is over at the time of the second. *)
Definition apart (x y : Delivery) : Prop :=
  dv_redis x = true → dv_rule x = dv_rule y →
  dv_time x + dv_cooldown x * 60 * second <= dv_time y.

Definition spaced (l : list Delivery) : Prop := StronglySorted apart l.

Lemma covered_now before rule a x :
  covered before a → on_cooldown (r_id rule) a = false → x ∈ before →
  dv_redis x = true → dv_rule x = r_id rule →
  dv_time x + dv_cooldown x * 60 * second <= w_now (al_world a).
Proof.
  intros Hcov Eon Hx Hup Eid. unfold covered in Hcov. rewrite Forall_forall in Hcov.
  destruct (Hcov x Hx Hup) as (ex & Hex & Hle). rewrite Eid in Hex.
  unfold on_cooldown in Eon. rewrite Hex in Eon. apply Z.ltb_ge in Eon. lia.
Qed.

(** A cooldown that is started when none runs keeps the earlier ones covered. *)
Lemma covered_started before rule a a' :
  covered before a → on_cooldown (r_id rule) a = false → 0 <= r_cooldown rule →
  al_cooldown a' = <[alert_cooldown_key (r_id rule) :=
    w_now (al_world a) + r_cooldown rule * 60 * second]> (al_cooldown a) →
  covered before a'.
Proof.
  intros Hcov Eon Hr Ec. pose proof (λ x, covered_now _ _ _ x Hcov Eon) as Hnow.
  unfold covered in *. rewrite Ec, Forall_forall in *. intros x Hx Hup.
  destruct (decide (dv_rule x = r_id rule)) as [Eid|Hne].
  - eexists. split; [by rewrite Eid, lookup_insert_eq|].
    specialize (Hnow x Hx Hup Eid). unfold second in *. nia.
  - destruct (Hcov x Hx Hup) as (ex & Hex & Hle). exists ex. split; [|done].
    rewrite lookup_insert_ne; [done|]. intros E%alert_cooldown_key_inj. by destruct Hne.
Qed.

Lemma deliveries_after l a before :
  covered before a → Forall (λ o, match o with Due r => 0 <= r_cooldown r | _ => True end) l →
  Forall (λ x, Forall (apart x) (deliveries l a)) before ∧ spaced (deliveries l a).
Proof.
  revert a before. induction l as [|[t f d h m|rule] l IH]; intros a before Hcov Hl.
  - split; [|constructor]. eapply Forall_impl; [exact Hcov|]. intros; constructor.
  - apply Forall_cons in Hl as [_ Hl]. cbn [deliveries]. by apply IH.
  - apply Forall_cons in Hl as [Hr Hl]. cbn [deliveries].
    destruct (send_alert_cooldown rule a) as [Hany Hdel].
    set (a' := (send_alert ip_address urljoin rule a).2) in *.
    assert (Hcov' : covered before a').
    { destruct Hany as [Ec|[Ec Eon]]; [unfold covered; by rewrite Ec|].
      by eapply covered_started. }
    destruct (delivered a a') eqn:Ed; [|by apply IH].
    destruct (Hdel eq_refl) as [Eon Hstart].
    set (new := {| dv_rule := r_id rule |}).
    assert (Hnew : covered (new :: before) a').
    { unfold covered. constructor; [|exact Hcov']. intros Hup. eexists.
      split; [by rewrite Hstart, lookup_insert_eq|]. cbn. lia. }
    destruct (IH a' (new :: before) Hnew Hl) as [Hafter Hsp].
    apply Forall_cons in Hafter as [Hn Hafter]. cbn [app]. split; [|by constructor].
    rewrite Forall_forall in *. intros x Hx. apply Forall_cons. split; [|by apply Hafter].
    intros Hup Eid. by eapply covered_now.
Qed.

(** C27: a rule does not reach anybody twice within its cooldown.  Over any
    sequence of due alerts of rules whose cooldown is not negative, with any answers of Redis, the resolver, the web and
    the mail server and any movement of the clock in between, take all posts
    that Slack accepted and all mails that went out, also of calls that raised:
    two of them for one rule, from different calls, are at least the first
    one's cooldown apart, if Redis answered the calls of the first.  (If Redis
    fails between the delivery and the storing of the cooldown, the rule alerts
    again at its next turn: [unstored_cooldown].) *)
Theorem alert_cooldown l a :
  Forall (λ o, match o with Due r => 0 <= r_cooldown r | _ => True end) l →
  spaced (deliveries l a).
Proof. intros Hl. by destruct (deliveries_after l a [] (Forall_nil_2 _) Hl). Qed.
End facts.

(** ** Witnesses *)

(** The text of the next location, taken as absolute. *)
Definition absolute (_ location : string) : string := location.

Definition slow : AlertRule := of_create (slow_rule "p1") "r1" 0.

(** The host resolves to a public address; port 443 is asked for. *)
Definition public_host (host : string) (_ : string) (port : Z) : option (list string) :=
  if port =? 443 then Some ["1.2.3.4"%string] else None.

(** The resolver that knows one host. *)
Definition knows (host name : string) (port : Z) : option (list string) :=
  if decide (name = host) then public_host host name port else None.

(** Slack's host resolves to a public address and answers 200. *)
Definition slack_up (t : timestamp) (faults : list (option exn)) : occasion :=
  Tick t faults [knows "hooks.slack.com"; knows "hooks.slack.com"] [HttpResponse 200 None] [].

Definition three_dues : list occasion :=
  [slack_up 0 []; Due slow; slack_up (5 * minute) []; Due slow; slack_up (10 * minute) []; Due slow].

Definition first_at (t : timestamp) (up : bool) : Delivery :=
  {| dv_rule := "r1"; dv_time := t; dv_cooldown := 10; dv_redis := up |}.

(** Of three due alerts the one within the ten minutes is not sent. *)
Lemma alert_cooldown_witness :
  deliveries public_ip absolute three_dues one_project_alerting
    = [first_at 0 true; first_at (10 * minute) true] ∧
  spaced (deliveries public_ip absolute three_dues one_project_alerting).
Proof.
  split; [by vm_compute|].
  apply (alert_cooldown public_ip absolute three_dues one_project_alerting).
  by repeat constructor.
Defined.

(** Redis fails after the first alert was posted: five minutes later the rule
    alerts again. *)
Example unstored_cooldown :
  deliveries public_ip absolute
    [slack_up 0 [None; Some (OtherError "RedisError")]; Due slow; slack_up (5 * minute) []; Due slow]
    one_project_alerting
  = [first_at 0 false; first_at (5 * minute) true].
Proof. by vm_compute. Qed.

(** A redirect to another host is not followed. *)
Example redirect_is_checked :
  let a := tick 0 [] [knows "hooks.slack.com"; knows "hooks.slack.com"; λ _ _, Some ["1.2.3.4"%string]]
    [HttpResponse 302 (Some "https://evil.test/x"%string); HttpResponse 200 None] []
    one_project_alerting in
  al_posts (send_alert public_ip absolute slow a).2
  = [(slack_hook, HttpResponse 302 (Some "https://evil.test/x"%string))].
Proof. by vm_compute. Qed.
