(* ===== verification/AlertEval.v ===== *)
(** * Evaluating alert rules

    [backend/app/services/anomaly.py] and the alert tasks of
    [workers/process_span.py]: anomalies of a batch, and the windowed rules that
    run every minute. *)

From S2P Require Import Prelude Text PyVal Url Decimal Schema App Cost SpanSchema Storage Pipeline Buckets Auth Projects FailedTasks Otlp Traces Alerts Notify.
From Stdlib Require Import SpecFloat.

Local Open Scope Z_scope.

Definition float_sub : pyfloat → pyfloat → pyfloat := SFsub 53 1024.

Section evaluation.
Context (ip_address : string → option Ip) (urljoin : string → string → string).
(** [float(Decimal)], and the aggregates of PostgreSQL over latencies *)
Context (float_of_decimal : decimal → pyfloat) (percentile_95 : list decimal → pyfloat)
        (avg : list decimal → decimal) (stddev : list decimal → option decimal).
(** The text of the message, and the identifier drawn for the event *)
Context (windowed_message : AlertRule → pyfloat → string)
        (anomaly_message : AlertRule → SpanData → string) (uuid : AlertRule → string).

(** ** Anomalies *)

Definition Z_SCORE_THRESHOLD : pyfloat := float_of_Z 3.
Definition MIN_OBSERVATIONS : Z := 30.
Definition STATS_CACHE_TTL : Z := 300 * second.

Definition stats_key (project_id model : string) : string :=
  "stats:" +:+ project_id +:+ ":" +:+ model.

(** The spans of a model since a time. *)
Definition model_spans (project : Z) (model : string) (since : timestamp) (w : World)
    : list SpanRow :=
  select (λ s, (sp_project s =? project) && String.eqb (sp_model s) model
               && (since <=? sp_started s)) (w_spans w).

Definition _get_stats_cached (project_id model : string) : M Alerting (option AnomalyStats) :=
  io_call;;
  t ← on_world now;
  cached ← gets (λ a, match al_stats a !! stats_key project_id model with
                      | Some (s, expires) => if t <? expires then Some s else None
                      | None => None
                      end);
  match cached with
  | Some s => mret (Some s)
  | None =>
      project ← lift (sql_uuid project_id);
      latencies ← on_world (sql_query (λ w, sp_latency <$>
        select (λ s, String.eqb (sp_status s) "ok") (model_spans project model (t - 24 * hour) w)));
      match latencies with
      | [] => mret None
      | _ =>
          let stats := {| st_mean := float_of_decimal (avg latencies);
                          st_stddev := match stddev latencies with
                                       | Some d => float_of_decimal d
                                       | None => float_of_Z 0
                                       end;
                          st_count := Z.of_nat (length latencies) |} in
          io_call;;
          modify (set_al_stats <[stats_key project_id model := (stats, t + STATS_CACHE_TTL)]>);;
          mret (Some stats)
      end
  end.

(** The test of one latency against the statistics. *)
Definition latency_spike (latency : pyfloat) (stats : AnomalyStats) : bool :=
  if (st_count stats <? MIN_OBSERVATIONS) || SFeqb (st_stddev stats) (float_of_Z 0) then false
  else SFltb Z_SCORE_THRESHOLD
         (SFabs (float_div (float_sub latency (st_mean stats)) (st_stddev stats))).

Definition span_latency (span : SpanData) : result pyfloat :=
  match sd_latency span with
  | Some x => Ok (float_of_decimal x)
  | None => Raise (KeyError "latency_ms")
  end.

Definition span_model (span : SpanData) : result string :=
  match sd_model span with Some m => Ok m | None => Raise (KeyError "model") end.

Definition _latency_anomaly (project_id : string) (span : SpanData) : M Alerting bool :=
  model ← lift (span_model span);
  stats ← _get_stats_cached project_id model;
  match stats with
  | None => mret false
  | Some s =>
      if (st_count s <? MIN_OBSERVATIONS) || SFeqb (st_stddev s) (float_of_Z 0) then mret false
      else latency ← lift (span_latency span); mret (latency_spike latency s)
  end.

(** More than a tenth of at least ten spans. *)
Definition too_many_errors (total errors : Z) : bool :=
  if total <? 10 then false
  else match true_div errors (Z.to_pos total), true_div 1 10 with
       | Ok rate, Ok limit => SFltb limit rate
       | _, _ => false
       end.

Definition _error_rate_anomaly (project_id model : string) : M Alerting bool :=
  project ← lift (sql_uuid project_id);
  t ← on_world now;
  rows ← on_world (sql_query (model_spans project model (t - 5 * minute)));
  mret (too_many_errors (Z.of_nat (length rows))
          (count_where (λ s, String.eqb (sp_status s) "error") rows)).

Definition check (project_id : string) (span : SpanData) : M Alerting (list string) :=
  spike ← _latency_anomaly project_id span;
  model ← lift (span_model span);
  errors ← _error_rate_anomaly project_id model;
  mret ((if (spike : bool) then ["latency_spike"%string] else [])
        ++ (if (errors : bool) then ["high_error_rate"%string] else [])).

Definition anomaly_rules (project_id : string) (rules : list AlertRule) : list AlertRule :=
  select (λ r, of_project project_id r && r_active r && String.eqb (r_metric r) "anomaly") rules.

Definition check_batch_anomalies (project_id : string) (spans : list SpanData)
    : M Alerting unit :=
  io_call;;
  rules ← gets (λ a, anomaly_rules project_id (al_rules a));
  for_each rules (λ rule, for_each spans (λ span,
    anomalies ← check project_id span;
    match anomalies with
    | [] => mret tt
    | _ =>
        record_alert_if_sent ip_address urljoin rule
          (match sd_latency span with Some x => float_of_decimal x | None => float_of_Z 0 end)
          (anomaly_message rule span) (uuid rule)
    end)).

(** ** Windowed rules *)

Definition _condition_matches (condition : string) (value threshold : pyfloat) : bool :=
  if String.eqb condition "gt" then SFltb threshold value
  else if String.eqb condition "lt" then SFltb value threshold
  else false.

Definition _rule_threshold (rule : AlertRule) : option pyfloat :=
  float_of_decimal <$> r_threshold rule.

(** [COALESCE(percentile_cont(0.95) ..., 0)] and [COUNT] of the window *)
Definition latency_p95 (project : Z) (window_minutes : Z) : M World (pyfloat * Z) :=
  t ← now;
  latencies ← sql_query (λ w, sp_latency <$> select (λ s, (sp_project s =? project)
                && (t - window_minutes * minute <=? sp_started s)) (w_spans w));
  mret (match latencies with [] => float_of_Z 0 | l => percentile_95 l end,
        Z.of_nat (length latencies)).

Definition windowed_value (project : Z) (rule : AlertRule) : M World (option (pyfloat * Z)) :=
  if String.eqb (r_metric rule) "latency_p95" then
    v ← latency_p95 project (r_window rule); mret (Some v)
  else if String.eqb (r_metric rule) "error_rate" || String.eqb (r_metric rule) "cost_hourly" then
    v ← query_bucketed_alert_value float_of_decimal project (r_metric rule) (r_window rule);
    mret (Some v)
  else mret None.

Definition evaluate_windowed_alert_rule (project_id : string) (rule : AlertRule)
    : M World (bool * pyfloat) :=
  match _rule_threshold rule with
  | None => mret (false, float_of_Z 0)
  | Some threshold =>
      project ← lift (sql_uuid project_id);
      v ← windowed_value project rule;
      mret match v with
           | None => (false, float_of_Z 0)
           | Some (value, sample_count) =>
               if sample_count <=? 0 then (false, value)
               else (_condition_matches (r_condition rule) value threshold, value)
           end
  end.

Definition scheduled_rules (rules : list AlertRule) : list AlertRule :=
  select (λ r, r_active r && inb (r_metric r) ["latency_p95"; "error_rate"; "cost_hourly"]) rules.

(** One turn of the loop. *)
Definition evaluate_rule (rule : AlertRule) : M Alerting unit :=
  c ← is_on_cooldown (r_id rule);
  if (c : bool) then mret tt
  else
    r ← on_world (get_db (evaluate_windowed_alert_rule (r_project rule) rule));
    let '(triggered, value) := r in
    if (triggered : bool) then
      record_alert_if_sent ip_address urljoin rule value (windowed_message rule value) (uuid rule)
    else mret tt.

Definition evaluate_scheduled_alert_rules : M Alerting unit :=
  io_call;;
  rules ← gets (λ a, scheduled_rules (al_rules a));
  for_each rules evaluate_rule.
End evaluation.

(** ** Facts *)

Section facts.
Context (ip_address : string → option Ip) (urljoin : string → string → string).
Context (float_of_decimal : decimal → pyfloat) (percentile_95 : list decimal → pyfloat).
Context (windowed_message : AlertRule → pyfloat → string) (uuid : AlertRule → string).

Abbreviation measured := (windowed_value float_of_decimal percentile_95).
Abbreviation evaluate := (evaluate_windowed_alert_rule float_of_decimal percentile_95).
Abbreviation run_scheduled :=
  (evaluate_scheduled_alert_rules ip_address urljoin float_of_decimal percentile_95
     windowed_message uuid).

Lemma reads_windowed_value project rule : reads (measured project rule).
Proof.
  unfold windowed_value, latency_p95, query_bucketed_alert_value, now.
  destruct (String.eqb (r_metric rule) "latency_p95"); [auto 8 with reads|].
  destruct (String.eqb (r_metric rule) "error_rate"), (String.eqb (r_metric rule) "cost_hourly");
    cbn [orb]; auto 8 with reads.
Qed.

Lemma reads_evaluate project_id rule : reads (evaluate project_id rule).
Proof.
  unfold evaluate_windowed_alert_rule. destruct (_rule_threshold _ rule); [|auto with reads].
  apply reads_bind; [auto with reads|]. intros project.
  apply reads_bind; [apply reads_windowed_value|]. auto with reads.
Qed.

(** What the condition of a rule asks of a value. *)
Definition condition_holds (rule : AlertRule) (value : pyfloat) : Prop :=
  ∃ threshold, r_threshold rule = Some threshold ∧
    (r_condition rule = "gt"%string ∧ SFltb (float_of_decimal threshold) value = true ∨
     r_condition rule = "lt"%string ∧ SFltb value (float_of_decimal threshold) = true).

(** The elements of [l] that have [P], each as often as it occurs in [l]. *)
Definition those {A} (P : A → Prop) (l inside : list A) : Prop :=
  ∃ outside, l ≡ₚ inside ++ outside ∧ Forall P inside ∧ Forall (λ x, ¬ P x) outside.

(** The value of a rule's metric for a project: the 95th percentile of the latency
    of the project's spans that started within the window; the percentage of
    errors, or the cost, in the project's buckets from the minute in which the
    window begins.  There is one only if the window has a span. *)
Inductive measurement (w : World) (project : Z) (rule : AlertRule) : pyfloat → Prop :=
| Measured_latency spans :
    r_metric rule = "latency_p95"%string →
    those (λ s, sp_project s = project ∧ w_now w - r_window rule * minute <= sp_started s)
      (w_spans w) spans →
    spans ≠ [] →
    measurement w project rule (percentile_95 (sp_latency <$> spans))
| Measured_errors rows :
    r_metric rule = "error_rate"%string →
    those (λ b, b.1.1 = project ∧ (w_now w - r_window rule * minute) / minute * minute <= b.1.2)
      (map_to_list (w_buckets w)) rows →
    0 < sum_of (λ b, bk_spans b.2) rows →
    measurement w project rule
      (float_mul (float_div (float_of_Z (sum_of (λ b, bk_errors b.2) rows))
                            (float_of_Z (sum_of (λ b, bk_spans b.2) rows))) (float_of_Z 100))
| Measured_cost rows :
    r_metric rule = "cost_hourly"%string →
    those (λ b, b.1.1 = project ∧ (w_now w - r_window rule * minute) / minute * minute <= b.1.2)
      (map_to_list (w_buckets w)) rows →
    0 < sum_of (λ b, bk_spans b.2) rows →
    measurement w project rule (float_of_decimal (mkdec (sum_of (λ b, bk_cost b.2) rows) (-8))).

(** The rule's metric has the value, which meets the rule's condition. *)
Definition fires (rule : AlertRule) (value : pyfloat) (w : World) : Prop :=
  ∃ project, sql_uuid (r_project rule) = Ok project ∧
    measurement w project rule value ∧ condition_holds rule value.

Lemma those_select {A} (p : A → bool) (P : A → Prop) l :
  (∀ x, p x = true ↔ P x) → those P l (select p l).
Proof.
  intros Hp. exists (select (λ x, negb (p x)) l). unfold select. split_and!.
  - induction l as [|x l IH]; [done|]. simpl. destruct (p x); simpl.
    + by f_equiv.
    + rewrite <- Permutation_middle. by f_equiv.
  - apply List.Forall_forall. intros x [_ Hx]%List.filter_In. by apply Hp.
  - apply List.Forall_forall. intros x [_ Hx%negb_true_iff]%List.filter_In Hx'%Hp. congruence.
Qed.

(** The metrics that are read from the buckets are measured over the window. *)
Lemma bucketed_measurement project rule value n w :
  r_metric rule = "error_rate"%string ∨ r_metric rule = "cost_hourly"%string →
  (query_bucketed_alert_value float_of_decimal project (r_metric rule) (r_window rule)
     (clear w)).1 = Ok (value, n) → 0 < n →
  measurement (clear w) project rule value.
Proof.
  intros Hm H Hn. set (since := (w_now (clear w) - r_window rule * minute) / minute * minute).
  set (p := λ kv : (Z * timestamp) * MetricBucket, (kv.1.1 =? project) && (since <=? kv.1.2)).
  set (rows := select p (map_to_list (w_buckets (clear w)))).
  assert (Hrows : those (λ b, b.1.1 = project ∧ since <= b.1.2)
    (map_to_list (w_buckets (clear w))) rows).
  { apply those_select. intros b. unfold p. by rewrite andb_true_iff, Z.eqb_eq, Z.leb_le. }
  assert (Hsum : ∀ f, sum_of f (map snd rows) = sum_of (λ b, f b.2) rows).
  { intros f. clearbody rows. clear. induction rows as [|b l IH]; [done|].
    apply (f_equal (Z.add (f b.2)) IH). }
  set (spans := sum_of bk_spans (map snd rows)).
  destruct Hm as [Em|Em]; rewrite Em in H.
  - assert (Ok (if spans =? 0 then float_of_Z 0
        else float_mul (float_div (float_of_Z (sum_of bk_errors (map snd rows)))
               (float_of_Z spans)) (float_of_Z 100), spans) = Ok (value, n)) as [= Hv <-]
      by exact H.
    destruct (Z.eqb_spec spans 0); [lia|]. subst value spans. rewrite !Hsum in *.
    by apply Measured_errors.
  - assert (Ok (float_of_decimal (mkdec (sum_of bk_cost (map snd rows)) (-8)), spans)
      = Ok (value, n)) as [= Hv <-] by exact H.
    subst value spans. rewrite !Hsum in *. by apply Measured_cost.
Qed.

(** What the code reads of a window is the measurement. *)
Lemma measured_measurement project rule value n w :
  (measured project rule (clear w)).1 = Ok (Some (value, n)) → 0 < n →
  measurement (clear w) project rule value.
Proof.
  unfold windowed_value. intros H Hn.
  destruct (String.eqb_spec (r_metric rule) "latency_p95") as [Em|_].
  - set (spans := select (λ s, (sp_project s =? project)
      && (w_now w - r_window rule * minute <=? sp_started s)) (w_spans (clear w))).
    assert (Hs : those (λ s, sp_project s = project ∧
      w_now (clear w) - r_window rule * minute <= sp_started s) (w_spans (clear w)) spans).
    { apply those_select. intros s. by rewrite andb_true_iff, Z.eqb_eq, Z.leb_le. }
    assert (Ok (Some (match sp_latency <$> spans with
                      | [] => float_of_Z 0
                      | _ => percentile_95 (sp_latency <$> spans) end,
                      Z.of_nat (length (sp_latency <$> spans)))) = Ok (Some (value, n)))
      as [= <- <-] by exact H.
    rewrite length_fmap in Hn. clearbody spans. destruct spans as [|s l]; [cbn in Hn; lia|].
    by apply (Measured_latency _ _ _ (s :: l)).
  - destruct (String.eqb (r_metric rule) "error_rate" || String.eqb (r_metric rule) "cost_hourly")
      eqn:Em; [|done].
    apply (bucketed_measurement _ _ _ n); [|revert H|done].
    { by apply orb_true_iff in Em as [Em%String.eqb_eq|Em%String.eqb_eq]; [left|right]. }
    unfold mbind, M_bind.
    destruct (query_bucketed_alert_value _ _ _ _ (clear w)) as [[v|e] w']; [|done].
    by intros [= ->].
Qed.

Lemma condition_matches_holds rule threshold value :
  r_threshold rule = Some threshold →
  _condition_matches (r_condition rule) value (float_of_decimal threshold) = true →
  condition_holds rule value.
Proof.
  intros Ht H. exists threshold. split; [done|]. unfold _condition_matches in H.
  destruct (String.eqb_spec (r_condition rule) "gt"); [by left|].
  destruct (String.eqb_spec (r_condition rule) "lt"); [by right|done].
Qed.

Lemma evaluate_fires rule value w w' :
  evaluate (r_project rule) rule (clear w) = (Ok (true, value), w') → fires rule value (clear w).
Proof.
  unfold evaluate_windowed_alert_rule, _rule_threshold.
  destruct (r_threshold rule) as [threshold|] eqn:Et; cbn [fmap option_fmap option_map]; [|done].
  intros H. apply bind_ok_inv in H as (project & w1 & [Ep ->]%lift_ok & H).
  apply bind_ok_inv in H as (v & w2 & Ev & [= E _]).
  destruct v as [[x n]|]; [|done]. destruct (Z.leb_spec n 0); [done|].
  injection E as Ec ->. exists project. split; [done|].
  split; [eapply measured_measurement; [by rewrite Ev|done]|by eapply condition_matches_holds].
Qed.

Lemma evaluate_rollback rule w : clear (get_db (evaluate (r_project rule) rule) w).2 = clear w.
Proof. apply (proj1 (reads_get_db _ (reads_evaluate (r_project rule) rule))). Qed.

(** Everything but the messages, cooldowns and events. *)
Definition data (a : Alerting) : World * list AlertRule := (clear (al_world a), al_rules a).

(** Between two states, only events of due rules whose condition holds are added. *)
Definition alerted (due : AlertRule → Prop) (a a' : Alerting) : Prop :=
  data a' = data a ∧
  ∃ new, al_events a' = al_events a ++ new ∧
    Forall (λ e, ∃ rule, due rule ∧ e_rule e = r_id rule ∧
                 fires rule (e_value e) (clear (al_world a))) new.

Lemma alerted_same due a a' :
  data a' = data a → al_events a' = al_events a → alerted due a a'.
Proof. intros Hd He. split; [done|]. exists []. rewrite app_nil_r. by split; [|constructor]. Qed.

Lemma alerted_trans due a a1 a2 : alerted due a a1 → alerted due a1 a2 → alerted due a a2.
Proof.
  intros (Hd1 & n1 & E1 & F1) (Hd2 & n2 & E2 & F2). split; [congruence|].
  exists (n1 ++ n2). split; [by rewrite E2, E1, app_assoc|]. apply Forall_app. split; [done|].
  apply (f_equal fst) in Hd1 as Hw. cbn in Hw. by rewrite <- Hw.
Qed.

(** A part that neither writes telemetry nor records an event. *)
Definition quiet {A} (m : M Alerting A) : Prop := preserves (λ a, (data a, al_events a)) m.

Lemma quiet_alerted {A} due (m : M Alerting A) a : quiet m → alerted due a (m a).2.
Proof. intros Hq. specialize (Hq a). by apply alerted_same; [apply (f_equal fst) in Hq|apply (f_equal snd) in Hq]. Qed.

Lemma quiet_on_world {A} (m : M World A) : preserves clear m → quiet (on_world m).
Proof.
  intros Hm a. unfold on_world. specialize (Hm (al_world a)).
  destruct (m (al_world a)) as [r w]. cbn in *. unfold data. cbn. by rewrite Hm.
Qed.

Lemma quiet_io_call : quiet io_call.
Proof. apply quiet_on_world. apply (proj1 reads_io). Qed.

Lemma quiet_send_alert rule : quiet (send_alert ip_address urljoin rule).
Proof.
  unfold send_alert. apply preserves_bind.
  { apply preserves_bind; [apply quiet_io_call|]. intros. apply preserves_gets. }
  intros [|]; [done|]. apply preserves_bind; [by apply try_slack_preserves|]. intros slack.
  apply preserves_bind; [by apply try_email_preserves|]. intros email.
  apply preserves_bind; [|done]. destruct (slack || email); [|done].
  apply preserves_bind; [apply quiet_io_call|]. intros _.
  apply preserves_bind; [by apply quiet_on_world|]. intros t. by apply preserves_modify.
Qed.

Lemma io_call_run a :
  ∃ r w, io_call a = (r, set_al_world (λ _, w) a) ∧ clear w = clear (al_world a).
Proof.
  unfold io_call, on_world. pose proof (proj1 reads_io (al_world a)) as H.
  destruct (io (al_world a)) as [r w]. by exists r, w.
Qed.

(** The transaction that stores the event: it stands or it is undone. *)
Lemma record_event_alerted due rule value message a :
  due rule → fires rule value (clear (al_world a)) →
  alerted due a (alert_tx (
      io_call;;
      t ← on_world now;
      modify (set_al_events (λ l, l ++
        [{| e_id := uuid rule; e_rule := r_id rule; e_triggered := t; e_value := value;
            e_message := message; e_resolved := None |}]));;
      io_call) a).2.
Proof.
  intros Hin Hf. unfold alert_tx, atomic.
  destruct (io_call_run a) as (r1 & w1 & E1 & Hw1). destruct r1 as [u|e].
  2: { rewrite (bind_run_raise _ _ _ _ _ E1). apply alerted_same; [|done].
       unfold data. cbn. by rewrite Hw1. }
  rewrite (bind_run _ _ _ _ _ E1). erewrite bind_run; [|reflexivity]. cbn [now gets fst].
  erewrite bind_run; [|reflexivity].
  match goal with |- context [io_call ?s] => set (a2 := s) end.
  destruct (io_call_run a2) as (r2 & w2 & E2 & Hw2). rewrite E2.
  assert (data (set_al_world (λ _, w2) a2) = data a) as Hd.
  { unfold data. cbn. rewrite Hw2. cbn. by rewrite Hw1. }
  destruct r2 as [u'|e]; cbn [snd].
  - split; [exact Hd|]. eexists [_]. split; [reflexivity|]. apply Forall_singleton.
    by exists rule.
  - apply alerted_same; [exact Hd|done].
Qed.

Lemma record_alert_alerted due rule value message a :
  due rule → fires rule value (clear (al_world a)) →
  alerted due a (record_alert_if_sent ip_address urljoin rule value message (uuid rule) a).2.
Proof.
  intros Hin Hf. unfold record_alert_if_sent.
  pose proof (quiet_alerted due _ a (quiet_send_alert rule)) as H1.
  unfold mbind at 1, M_bind at 1.
  destruct (send_alert ip_address urljoin rule a) as [[[]|e] a1]; cbn [snd] in H1; [|done..].
  eapply alerted_trans; [exact H1|]. apply record_event_alerted; [done|].
  destruct H1 as [Hd _]. apply (f_equal fst) in Hd as Hw. cbn in Hw. by rewrite Hw.
Qed.

Lemma evaluate_rule_alerted due rule a :
  due rule →
  alerted due a
    (evaluate_rule ip_address urljoin float_of_decimal percentile_95 windowed_message uuid rule a).2.
Proof.
  intros Hin. unfold evaluate_rule.
  assert (quiet (is_on_cooldown (r_id rule))) as Hc.
  { apply preserves_bind; [apply quiet_io_call|]. intros. apply preserves_gets. }
  pose proof (quiet_alerted due _ a Hc) as H1. unfold mbind at 1, M_bind at 1.
  destruct (is_on_cooldown (r_id rule) a) as [[[]|e] a1]; cbn [snd] in H1; [done| |done].
  eapply alerted_trans; [exact H1|]. clear H1 a Hc. rename a1 into a.
  pose proof (evaluate_rollback rule (al_world a)) as Hw.
  assert (alerted due a (set_al_world (λ _, (get_db (evaluate (r_project rule) rule)
    (al_world a)).2) a)) as H1.
  { apply alerted_same; [|done]. unfold data. cbn. by rewrite Hw. }
  unfold mbind at 1, M_bind at 1, on_world at 1.
  destruct (get_db (evaluate (r_project rule) rule) (al_world a)) as [[[[] value]|e] w1] eqn:E;
    cbn [snd] in *; [|done..].
  eapply alerted_trans; [exact H1|]. apply record_alert_alerted; [done|]. cbn. rewrite Hw.
  unfold get_db, atomic in E. destruct (evaluate (r_project rule) rule (al_world a)) as [[r|e] w2]
    eqn:E2; [|done]. injection E as -> ->.
  apply (proj2 (reads_evaluate _ _)) in E2. by apply evaluate_fires in E2.
Qed.

Lemma for_each_alerted due l a :
  (∀ rule, rule ∈ l → due rule) →
  alerted due a (for_each l (evaluate_rule ip_address urljoin float_of_decimal percentile_95
    windowed_message uuid) a).2.
Proof.
  revert a. induction l as [|rule l IH]; intros a Hl; [by apply alerted_same|]. cbn [for_each].
  pose proof (evaluate_rule_alerted due rule a (Hl rule ltac:(set_solver))) as H1.
  unfold mbind, M_bind. destruct (evaluate_rule _ _ _ _ _ _ _ a) as [[u|e] a1]; [|done].
  eapply alerted_trans; [exact H1|]. apply IH. set_solver.
Qed.

(** A rule of the table that is switched on. *)
Definition active (a : Alerting) (rule : AlertRule) : Prop :=
  rule ∈ al_rules a ∧ r_active rule = true.

Lemma scheduled_active a rule : rule ∈ scheduled_rules (al_rules a) → active a rule.
Proof.
  unfold scheduled_rules, select. rewrite list_elem_of_In, List.filter_In, <- list_elem_of_In.
  intros [Hin [Ha _]%andb_true_iff]. by split.
Qed.

(** C33: a scheduled run alerts only for what happened.  Whatever faults, answers
    and cooldowns it meets, a run of the windowed rules changes neither the
    telemetry nor the rules, and every event it adds belongs to an active rule of
    the table and records a value that meets the rule's condition: the 95th
    percentile of the latency over the spans that the rule's project started
    within the window, or the error percentage or cost of the project's buckets
    of the window, with at least one span in it. *)
Theorem scheduled_alerts_sound a : alerted (active a) a (run_scheduled a).2.
Proof.
  unfold evaluate_scheduled_alert_rules.
  pose proof (quiet_alerted (active a) _ a quiet_io_call) as H1.
  unfold mbind at 1, M_bind at 1. destruct (io_call a) as [[u|e] a1]; [|done].
  eapply alerted_trans; [exact H1|]. destruct H1 as [Hd _].
  apply (f_equal snd) in Hd. cbn in Hd.
  unfold mbind, M_bind, gets. rewrite Hd. apply for_each_alerted. apply scheduled_active.
Qed.
End facts.

(** ** Examples *)

(** Exact on integers, which is all that the examples need. *)
Definition float_of_int_decimal (d : decimal) : pyfloat := float_of_Z (coef d * 10 ^ expo d).

(** A rule whose condition is [anomaly] on a windowed metric needs no threshold
    to be accepted, and is never triggered. *)
Definition anomaly_on_window : AlertRuleCreate :=
  {| ac_project := "p1"; ac_name := "slow"; ac_metric := "latency_p95"; ac_condition := "anomaly";
     ac_threshold := None; ac_window := 5; ac_cooldown := 10;
     ac_slack := Some slack_hook; ac_email := None |}.

Example anomaly_on_window_accepted :
  validate_create public_ip any_email anomaly_on_window = Ok anomaly_on_window.
Proof. by vm_compute. Qed.

Lemma anomaly_on_window_never_fires float_of_decimal percentile_95 rule value w :
  r_condition rule = "anomaly"%string →
  ¬ fires float_of_decimal percentile_95 rule value w.
Proof.
  intros Hc (? & _ & _ & threshold & _ & [[E _]|[E _]]); congruence.
Qed.

(** The worst of some latencies, which the 95th percentile of few is. *)
Definition worst (l : list decimal) : pyfloat :=
  float_of_Z (foldr (λ d m, Z.max (coef d) m) 0 l).

Definition timed (id project latency : Z) (started : timestamp) : SpanRow :=
  {| sp_id := id; sp_trace := 9; sp_project := project; sp_parent := None; sp_name := "chat";
     sp_provider := "openai"; sp_model := "gpt-4o"; sp_input := 3; sp_output := 4;
     sp_cost := 0; sp_latency := mkdec latency 0; sp_status := "ok"; sp_error := None;
     sp_started := started; sp_payload_key := None; sp_payload_status := omitted;
     sp_drop_reason := None; sp_metadata := "{}" |}.

Definition watch (id : string) (is_active : bool) : AlertRule :=
  let r := of_create (slow_rule (str_of_uuid 1)) id 0 in
  {| r_id := r_id r; r_project := r_project r; r_name := r_name r; r_metric := r_metric r;
     r_condition := r_condition r; r_threshold := r_threshold r; r_window := r_window r;
     r_cooldown := r_cooldown r; r_slack := r_slack r; r_email := r_email r;
     r_active := is_active; r_created := r_created r |}.

(** An active and an inactive rule for latencies over 500 ms within five minutes;
    600 ms in the window, 900 ms before it, and 800 ms in another project. *)
Definition slow_service : Alerting :=
  set_al_rules (λ _, [watch "r0" false; watch "r1" true])
    (tick (3600 * second) [] [knows "hooks.slack.com"; knows "hooks.slack.com"]
       [HttpResponse 200 None] []
       (alerting (set_w_spans (λ _, [timed 1 1 600 (3500 * second); timed 2 1 900 (3200 * second);
                                     timed 3 2 800 (3500 * second)]) (empty_world 0 [])))).

Abbreviation run_slow :=
  (evaluate_scheduled_alert_rules public_ip absolute float_of_int_decimal worst
     (λ _ _, "slow"%string) (λ _, "e1"%string)).

(** One event: the active rule, with the 600 ms. *)
Lemma scheduled_alerts_sound_witness :
  map (λ e, (e_rule e, e_value e)) (al_events (run_slow slow_service).2)
    = [("r1"%string, float_of_Z 600)] ∧
  alerted float_of_int_decimal worst (active slow_service) slow_service (run_slow slow_service).2.
Proof.
  split; [by vm_compute|].
  apply (scheduled_alerts_sound public_ip absolute float_of_int_decimal worst
           (λ _ _, "slow"%string) (λ _, "e1"%string)).
Defined.
