(* ===== verification/Metrics.v ===== *)
(** * Dashboard metrics

    [backend/app/services/metrics_service.py] and [api/v1/metrics.py]: the
    aggregates of a project's spans over a period, and their cache.  Each SQL
    statement is a function of the rows of the window; PostgreSQL's arithmetic
    on averages and quotients, its percentiles and [regexp_replace] are
    parameters, and the session's time zone is UTC.  Rows that tie in an
    [ORDER BY] come in the order of their first span, which SQL leaves open. *)

From S2P Require Import Prelude Text PyVal Decimal Schema App SpanSchema Storage Pipeline Buckets Json Cost Auth Traces.
From Stdlib Require Import SpecFloat.

Local Open Scope Z_scope.

(** ** Periods *)

Inductive Period : Type := P1h | P24h | P7d | P30d.

#[export] Instance period_eq_dec : EqDecision Period.
Proof. solve_decision. Defined.

Definition period_name (p : Period) : string :=
  match p with P1h => "1h" | P24h => "24h" | P7d => "7d" | P30d => "30d" end.

(** [pattern="^(1h|24h|7d|30d)$"] *)
Definition parse_period (s : string) : option Period :=
  List.find (λ p, String.eqb (period_name p) s) [P1h; P24h; P7d; P30d].

Definition PERIOD_TO_INTERVAL (p : Period) : Z :=
  match p with P1h => hour | P24h => 24 * hour | P7d => 7 * day | P30d => 30 * day end.

Definition PERIOD_TO_BUCKET_SIZE (p : Period) : Z :=
  match p with P1h => minute | P24h => hour | P7d => hour | P30d => day end.

(** The length of [date_trunc]'s unit, ["minute"], ["hour"] or ["day"]. *)
Definition PERIOD_TO_GRANULARITY (p : Period) : Z :=
  match p with P1h => minute | P24h => hour | P7d => hour | P30d => day end.

Definition date_trunc (unit : Z) (t : timestamp) : timestamp := t / unit * unit.

(** [generate_series(start, stop, step)] *)
Definition generate_series (start stop step : Z) : list timestamp :=
  (λ k, start + Z.of_nat k * step) <$> seq 0 (Z.to_nat ((stop - start) / step + 1)).

(** ** Grouping *)

Section group_by.
Context {K A : Type} `{EqDecision K} (key : A → K).

Fixpoint add_to_group (x : A) (gs : list (K * list A)) : list (K * list A) :=
  match gs with
  | [] => [(key x, [x])]
  | (k, l) :: gs' =>
      if decide (k = key x) then (k, l ++ [x]) :: gs' else (k, l) :: add_to_group x gs'
  end.

(** [GROUP BY]: the groups in the order of their first row. *)
Definition group_by (rows : list A) : list (K * list A) :=
  foldl (λ gs x, add_to_group x gs) [] rows.
End group_by.

Definition lookup_group {K A} `{EqDecision K} (k : K) (gs : list (K * list A)) : option (list A) :=
  snd <$> List.find (λ g, bool_decide (g.1 = k)) gs.

(** ** Columns *)

Definition costs (rows : list SpanRow) : Z := sum_of sp_cost rows.
Definition tokens (rows : list SpanRow) : Z := sum_of (λ s, sp_input s + sp_output s) rows.
Definition count (rows : list SpanRow) : Z := Z.of_nat (length rows).
Definition errors (rows : list SpanRow) : Z :=
  count_where (λ s, String.eqb (sp_status s) "error") rows.
Definition first_start (rows : list SpanRow) : timestamp :=
  foldr (λ s t, Z.min (sp_started s) t) (default 0 (sp_started <$> head rows)) rows.
Definition last_start (rows : list SpanRow) : timestamp :=
  foldr (λ s t, Z.max (sp_started s) t) (default 0 (sp_started <$> head rows)) rows.

(** [COALESCE(NULLIF(error, ''), 'unknown error')] *)
Definition error_message (s : SpanRow) : string :=
  match sp_error s with
  | None | Some EmptyString => "unknown error"
  | Some e => e
  end.

(** Comparisons of an [ORDER BY a DESC, b DESC]. *)
Definition desc2 {A} (a b : A → Z) (x y : A) : bool :=
  (a y <? a x) || ((a x =? a y) && (b y <=? b x)).

(** [LIMIT 10] *)
Definition top10 {A} (le : A → A → bool) (l : list A) : list A := take 10 (sorted le l).

Section metrics.
(** [AVG] and [percentile_cont] of the latencies, which are double precision;
    [::numeric]; the quotient of two counts as [numeric] *)
Context (avg : list decimal → pyfloat) (percentile_cont : Z → list decimal → pyfloat)
        (numeric : pyfloat → decimal) (numeric_div : Z → Z → decimal).
(** [regexp_replace(text, pattern, replacement, flags)] *)
Context (regexp_replace : string → string → string → string → string).

(** [ROUND(x, 2)] of a [numeric] that is not negative: halves away from zero *)
Definition round2 (x : decimal) : decimal := mkdec (to_column 2 x) (-2).

(** [ROUND(errors::numeric / NULLIF(total, 0) * 100, 2)] *)
Definition error_rate_pct (errors total : Z) : option decimal :=
  if total =? 0 then None
  else let q := numeric_div errors total in Some (round2 (mkdec (coef q * 100) (expo q))).

Definition avg_latency (rows : list SpanRow) : option pyfloat :=
  match rows with [] => None | _ => Some (avg (sp_latency <$> rows)) end.
Definition percentile (pct : Z) (rows : list SpanRow) : option pyfloat :=
  match rows with [] => None | _ => Some (percentile_cont pct (sp_latency <$> rows)) end.

(** [WHERE project_id = :project_id AND started_at >= :cutoff] *)
Definition window (project : Z) (cutoff : timestamp) (w : World) : list SpanRow :=
  select (λ s, (sp_project s =? project) && (cutoff <=? sp_started s)) (w_spans w).

Definition failed (rows : list SpanRow) : list SpanRow :=
  select (λ s, String.eqb (sp_status s) "error") rows.

(** ** Overview *)

Record Overview : Type := {
  ov_total : Z; ov_errors : Z; ov_error_rate : option decimal;
  ov_avg_latency : option decimal; ov_p95 : option pyfloat; ov_p99 : option pyfloat;
  ov_cost : Z; ov_tokens : Z;
}.

Definition overview_row (rows : list SpanRow) : Overview :=
  {| ov_total := count rows; ov_errors := errors rows;
     ov_error_rate := error_rate_pct (errors rows) (count rows);
     ov_avg_latency := (round2 ∘ numeric) <$> avg_latency rows;
     ov_p95 := percentile 95 rows; ov_p99 := percentile 99 rows;
     ov_cost := costs rows; ov_tokens := tokens rows |}.

Definition get_overview (project_id : string) (p : Period) : M World Overview :=
  t ← now;
  project ← lift (sql_uuid project_id);
  rows ← get_db (sql_query (window project (t - PERIOD_TO_INTERVAL p)));
  mret (overview_row rows).

(** ** Time series *)

Record TimePoint : Type := {
  tp_bucket : timestamp; tp_cost : Z; tp_avg_latency : pyfloat; tp_spans : Z; tp_errors : Z;
}.

Definition by_bucket (p : Period) (rows : list SpanRow) : list (timestamp * list SpanRow) :=
  group_by (λ s, date_trunc (PERIOD_TO_GRANULARITY p) (sp_started s)) rows.

(** The [time_buckets] of the query. *)
Definition time_buckets (p : Period) (t : timestamp) : list timestamp :=
  let g := PERIOD_TO_GRANULARITY p in
  generate_series (date_trunc g (t - PERIOD_TO_INTERVAL p)) (date_trunc g t)
    (PERIOD_TO_BUCKET_SIZE p).

(** [LEFT JOIN metrics]: the rows of a bucket, none when it has no group. *)
Definition joined (p : Period) (rows : list SpanRow) (bucket : timestamp) : list SpanRow :=
  default [] (lookup_group bucket (by_bucket p rows)).

Definition time_point (bucket : timestamp) (rows : list SpanRow) : TimePoint :=
  {| tp_bucket := bucket; tp_cost := costs rows;
     tp_avg_latency := default (float_of_Z 0) (avg_latency rows);
     tp_spans := count rows; tp_errors := errors rows |}.

Definition timeseries_rows (p : Period) (t : timestamp) (rows : list SpanRow) : list TimePoint :=
  (λ b, time_point b (joined p rows b)) <$> time_buckets p t.

Definition get_timeseries (project_id : string) (p : Period) : M World (list TimePoint) :=
  t ← now;
  project ← lift (sql_uuid project_id);
  rows ← get_db (sql_query (window project (t - PERIOD_TO_INTERVAL p)));
  mret (timeseries_rows p t rows).

(** ** Analytics *)

Record CostRow : Type := { cr_key : string; cr_cost : Z; cr_tokens : Z; cr_spans : Z }.

(** [cost_by_model], [cost_by_provider] *)
Definition cost_by (key : SpanRow → string) (rows : list SpanRow) : list CostRow :=
  top10 (desc2 cr_cost cr_spans)
    ((λ g : string * list SpanRow, {| cr_key := g.1; cr_cost := costs g.2;
        cr_tokens := tokens g.2; cr_spans := count g.2 |}) <$> group_by key rows).

Record CostPoint : Type := { cp_bucket : timestamp; cp_cost : Z; cp_spans : Z }.

Definition cost_over_time (p : Period) (rows : list SpanRow) : list CostPoint :=
  sort_by cp_bucket
    ((λ g : timestamp * list SpanRow, {| cp_bucket := g.1; cp_cost := costs g.2;
        cp_spans := count g.2 |}) <$> by_bucket p rows).

Record LatencyRow : Type := {
  lr_key : string; lr_avg : option decimal; lr_p95 : option pyfloat; lr_spans : Z;
}.

(** [p95_latency_ms DESC NULLS LAST, span_count DESC] *)
Definition latency_le (x y : LatencyRow) : bool :=
  match lr_p95 x, lr_p95 y with
  | None, None => lr_spans y <=? lr_spans x
  | None, Some _ => false
  | Some _, None => true
  | Some a, Some b => SFltb b a || (SFeqb a b && (lr_spans y <=? lr_spans x))
  end.

(** [latency_by_model], [latency_by_provider] *)
Definition latency_by (key : SpanRow → string) (rows : list SpanRow) : list LatencyRow :=
  top10 latency_le
    ((λ g : string * list SpanRow, {| lr_key := g.1;
        lr_avg := (round2 ∘ numeric) <$> avg_latency g.2; lr_p95 := percentile 95 g.2;
        lr_spans := count g.2 |}) <$> group_by key rows).

Record TraceCost : Type := {
  tc_trace : Z; tc_cost : Z; tc_spans : Z; tc_started : timestamp;
}.

Definition top_expensive_traces (rows : list SpanRow) : list TraceCost :=
  top10 (desc2 tc_cost tc_spans)
    ((λ g : Z * list SpanRow, {| tc_trace := g.1; tc_cost := costs g.2; tc_spans := count g.2;
        tc_started := first_start g.2 |}) <$> group_by sp_trace rows).

(** The greatest latency, compared as a number. *)
Definition decimal_le (x y : decimal) : bool :=
  let e := Z.min (expo x) (expo y) in
  coef x * 10 ^ (expo x - e) <=? coef y * 10 ^ (expo y - e).
Definition max_latency (rows : list SpanRow) : option decimal :=
  match sp_latency <$> rows with
  | [] => None
  | x :: l => Some (foldl (λ m y, if decimal_le m y then y else m) x l)
  end.

Record SlowTrace : Type := {
  sl_trace : Z; sl_max : option decimal; sl_avg : option decimal; sl_spans : Z;
  sl_started : timestamp;
}.

(** A group is not empty, so its maximum is not null. *)
Definition slow_le (x y : SlowTrace) : bool :=
  match sl_max x, sl_max y with
  | Some a, Some b =>
      if decimal_le a b then decimal_le b a && (sl_spans y <=? sl_spans x) else true
  | _, None => true
  | None, Some _ => false
  end.

Definition slowest_traces (rows : list SpanRow) : list SlowTrace :=
  top10 slow_le
    ((λ g : Z * list SpanRow, {| sl_trace := g.1; sl_max := max_latency g.2;
        sl_avg := (round2 ∘ numeric) <$> avg_latency g.2; sl_spans := count g.2;
        sl_started := first_start g.2 |}) <$> group_by sp_trace rows).

Record RatePoint : Type := {
  rp_bucket : timestamp; rp_spans : Z; rp_errors : Z; rp_rate : decimal;
}.

Definition error_rate_trend (p : Period) (t : timestamp) (rows : list SpanRow) : list RatePoint :=
  (λ b, let l := joined p rows b in
        {| rp_bucket := b; rp_spans := count l; rp_errors := errors l;
           rp_rate := default (mkdec 0 0) (error_rate_pct (errors l) (count l)) |})
  <$> time_buckets p t.

Record ErrorMessage : Type := { em_message : string; em_errors : Z; em_last : timestamp }.

Definition top_error_messages (rows : list SpanRow) : list ErrorMessage :=
  top10 (desc2 em_errors em_last)
    ((λ g : string * list SpanRow, {| em_message := g.1; em_errors := count g.2;
        em_last := last_start g.2 |})
     <$> group_by (λ s, str_take 240 (error_message s)) (failed rows)).

Record ErrorRow : Type := {
  er_key : string; er_spans : Z; er_errors : Z; er_rate : option decimal;
}.

(** [error_count DESC, error_rate_pct DESC NULLS LAST] *)
Definition error_le (x y : ErrorRow) : bool :=
  (er_errors y <? er_errors x)
  || ((er_errors x =? er_errors y)
      && match er_rate x, er_rate y with
         | Some a, Some b => decimal_le b a
         | _, None => true
         | None, Some _ => false
         end).

(** [errors_by_model], [errors_by_provider] *)
Definition errors_by (key : SpanRow → string) (rows : list SpanRow) : list ErrorRow :=
  top10 error_le
    ((λ g : string * list SpanRow, {| er_key := g.1; er_spans := count g.2;
        er_errors := errors g.2; er_rate := error_rate_pct (errors g.2) (count g.2) |})
     <$> group_by key rows).

(** [(ARRAY_AGG(x ORDER BY started_at DESC))[1]] *)
Definition latest (f : SpanRow → string) (rows : list SpanRow) : string :=
  default EmptyString (f <$> head (sort_by (λ s, - sp_started s) rows)).

Record FailedTrace : Type := {
  ft_trace : Z; ft_started : timestamp; ft_errors : Z; ft_message : string;
}.

Definition recent_failed_traces (rows : list SpanRow) : list FailedTrace :=
  take 10 (sort_by (λ r, - ft_started r)
    ((λ g : Z * list SpanRow, {| ft_trace := g.1; ft_started := last_start g.2;
        ft_errors := count g.2; ft_message := str_take 240 (latest error_message g.2) |})
     <$> group_by sp_trace (failed rows))).

(** *** Fingerprints *)

Definition uuid_pattern : string :=
  "[0-9a-f]{8}-[0-9a-f]{4}-[0-9a-f]{4}-[0-9a-f]{4}-[0-9a-f]{12}".
Definition secret_pattern : string := "(sk-[A-Za-z0-9_-]+|llmobs_[A-Za-z0-9_-]+)".
Definition number_pattern : string := "\m[0-9]+\M".
Definition spaces_pattern : string := "\s+".

Definition masked (message : string) : string :=
  regexp_replace (regexp_replace message uuid_pattern "<uuid>" "gi")
    secret_pattern "<secret>" "gi".

Definition sample_message (s : SpanRow) : string := str_take 240 (masked (error_message s)).

Definition fingerprint (s : SpanRow) : string :=
  str_take 160
    (regexp_replace
      (regexp_replace
        (regexp_replace (lower (masked (error_message s))) uuid_pattern "<uuid>" "gi")
        number_pattern "<num>" "g")
      spaces_pattern " " "g").

(** [rank = 1] of [ORDER BY COUNT( * ) DESC, name ASC] *)
Definition most_frequent (key : SpanRow → string) (rows : list SpanRow) : option string :=
  fst <$> head (sorted (λ x y : string * list SpanRow,
      (count y.2 <? count x.2) || ((count x.2 =? count y.2) && String.leb x.1 y.1))
    (group_by key rows)).

Record Fingerprint : Type := {
  fp_fingerprint : string; fp_sample : string; fp_errors : Z; fp_traces : Z;
  fp_provider : option string; fp_model : option string; fp_last : timestamp;
}.

Definition error_fingerprints (rows : list SpanRow) : list Fingerprint :=
  top10 (desc2 fp_errors fp_last)
    ((λ g : string * list SpanRow, {| fp_fingerprint := g.1;
        fp_sample := latest sample_message g.2; fp_errors := count g.2;
        fp_traces := Z.of_nat (length (group_by sp_trace g.2));
        fp_provider := most_frequent sp_provider g.2; fp_model := most_frequent sp_model g.2;
        fp_last := last_start g.2 |}) <$> group_by fingerprint (failed rows)).

Record Analytics : Type := {
  an_cost_by_model : list CostRow; an_cost_by_provider : list CostRow;
  an_cost_over_time : list CostPoint;
  an_latency_by_model : list LatencyRow; an_latency_by_provider : list LatencyRow;
  an_expensive : list TraceCost; an_slowest : list SlowTrace;
  an_error_rate : list RatePoint; an_messages : list ErrorMessage;
  an_errors_by_model : list ErrorRow; an_errors_by_provider : list ErrorRow;
  an_failed : list FailedTrace; an_fingerprints : list Fingerprint;
}.

Definition get_analytics (project_id : string) (p : Period) : M World Analytics :=
  t ← now;
  project ← lift (sql_uuid project_id);
  let ask := λ A (f : list SpanRow → A),
    sql_query (λ w, f (window project (t - PERIOD_TO_INTERVAL p) w)) in
  get_db (
    cost_by_model ← ask _ (cost_by sp_model);
    cost_by_provider ← ask _ (cost_by sp_provider);
    costs ← ask _ (cost_over_time p);
    latency_by_model ← ask _ (latency_by sp_model);
    latency_by_provider ← ask _ (latency_by sp_provider);
    expensive ← ask _ top_expensive_traces;
    slowest ← ask _ slowest_traces;
    trend ← ask _ (error_rate_trend p t);
    messages ← ask _ top_error_messages;
    errors_by_model ← ask _ (errors_by sp_model);
    errors_by_provider ← ask _ (errors_by sp_provider);
    failed ← ask _ recent_failed_traces;
    fingerprints ← ask _ error_fingerprints;
    mret {| an_cost_by_model := cost_by_model; an_cost_by_provider := cost_by_provider;
            an_cost_over_time := costs; an_latency_by_model := latency_by_model;
            an_latency_by_provider := latency_by_provider; an_expensive := expensive;
            an_slowest := slowest; an_error_rate := trend; an_messages := messages;
            an_errors_by_model := errors_by_model; an_errors_by_provider := errors_by_provider;
            an_failed := failed; an_fingerprints := fingerprints |}).
End metrics.

(** ** The endpoints and their cache *)

Inductive Kind : Type := KOverview | KTimeseries | KAnalytics.

#[export] Instance kind_eq_dec : EqDecision Kind.
Proof. solve_decision. Defined.

Definition kind_name (k : Kind) : string :=
  match k with KOverview => "overview" | KTimeseries => "timeseries" | KAnalytics => "analytics" end.

Inductive Metric : Type :=
| OverviewOf (o : Overview)
| TimeseriesOf (l : list TimePoint)
| AnalyticsOf (a : Analytics).

(** [{"1h": 30, "24h": 60, "7d": 300, "30d": 300}[period]] *)
Definition ttl (p : Period) : Z :=
  match p with P1h => 30 | P24h => 60 | P7d => 300 | P30d => 300 end.

Definition metrics_key (k : Kind) (project_id : string) (p : Period) : string :=
  "metrics:" +:+ kind_name k +:+ ":" +:+ project_id +:+ ":" +:+ period_name p.

(** A response is the object the service made or, from the cache, what its text
    reads as. *)
Inductive Response : Type :=
| Computed (m : Metric)
| FromCache (v : pyval).

(** The program's state and [metrics:...] in Redis. *)
Record Dashboard : Type := {
  da_world : World;
  da_cache : gmap string (string * timestamp);
}.

Definition set_da_world (f : World → World) (d : Dashboard) : Dashboard :=
  {| da_world := f (da_world d); da_cache := da_cache d |}.
Definition set_da_cache (f : gmap string (string * timestamp) → gmap string (string * timestamp))
    (d : Dashboard) : Dashboard :=
  {| da_world := da_world d; da_cache := f (da_cache d) |}.

Definition on_da_world {A} (m : M World A) : M Dashboard A := λ d,
  match m (da_world d) with (r, w) => (r, set_da_world (λ _, w) d) end.

Section endpoints.
Context (avg : list decimal → pyfloat) (percentile_cont : Z → list decimal → pyfloat)
        (numeric : pyfloat → decimal) (numeric_div : Z → Z → decimal)
        (regexp_replace : string → string → string → string → string).
(** [json.dumps(result, default=str)] and [json.loads] *)
Context (dumps : Metric → string) (loads : string → result pyval).

Definition compute (k : Kind) (project_id : string) (p : Period) : M World Metric :=
  match k with
  | KOverview =>
      o ← get_overview avg percentile_cont numeric numeric_div project_id p; mret (OverviewOf o)
  | KTimeseries => l ← get_timeseries avg project_id p; mret (TimeseriesOf l)
  | KAnalytics =>
      a ← get_analytics avg percentile_cont numeric numeric_div regexp_replace project_id p;
      mret (AnalyticsOf a)
  end.

Definition metrics_endpoint (k : Kind) (project_id : string) (period : string)
    : M Dashboard Response :=
  p ← lift (match parse_period period with
            | Some p => Ok p
            | None => Raise (HTTPException 422 "period")
            end);
  let key := metrics_key k project_id p in
  on_da_world io;;
  t ← on_da_world now;
  cached ← gets (λ d, match da_cache d !! key with
                      | Some (s, expires) => if (t <? expires) && truthy s then Some s else None
                      | None => None
                      end);
  match cached with
  | Some s => v ← lift (loads s); mret (FromCache v)
  | None =>
      result ← on_da_world (compute k project_id p);
      on_da_world io;;
      t ← on_da_world now;
      modify (set_da_cache <[key := (dumps result, t + ttl p * second)]>);;
      mret (Computed result)
  end.
End endpoints.

(** ** Facts *)

Lemma sum_of_cons {A} (f : A → Z) x l : sum_of f (x :: l) = f x + sum_of f l.
Proof. done. Qed.

#[local] Arguments sum_of : simpl never.

(** *** Groups *)

Section group_facts.
Context {K A : Type} `{EqDecision K} (key : A → K).

Definition has_key (k : K) (x : A) : bool := bool_decide (key x = k).

Lemma lookup_add_to_group k x gs :
  lookup_group k (add_to_group key x gs)
  = if decide (key x = k) then Some (default [] (lookup_group k gs) ++ [x]) else lookup_group k gs.
Proof.
  unfold lookup_group. induction gs as [|[k' l] gs IH]; cbn.
  - by destruct (decide (key x = k)) as [->|Hne]; [rewrite bool_decide_true|rewrite bool_decide_false].
  - destruct (decide (k' = key x)) as [->|Hne]; cbn.
    + destruct (decide (key x = k)) as [->|Hk]; [by rewrite bool_decide_true|by rewrite bool_decide_false].
    + destruct (decide (k' = k)) as [->|Hk]; [rewrite bool_decide_true by done; cbn;
        by rewrite decide_False|]. rewrite bool_decide_false by done. exact IH.
Qed.

(** The group of a key is the rows with that key, in their order. *)
Lemma lookup_group_by k rows : default [] (lookup_group k (group_by key rows)) = select (has_key k) rows.
Proof.
  unfold group_by, select. induction rows as [|x rows IH] using rev_ind; [done|].
  rewrite foldl_snoc, lookup_add_to_group, List.filter_app. cbn. unfold has_key at 2.
  destruct (decide (key x = k)); [rewrite bool_decide_true by done; by rewrite <- IH|].
  rewrite bool_decide_false by done. by rewrite app_nil_r.
Qed.

(** What adds up over rows adds up over their groups. *)
Lemma sum_of_group_by f rows :
  sum_of (λ g, sum_of f g.2) (group_by key rows) = sum_of f rows.
Proof.
  assert (Hadd : ∀ x gs, sum_of (λ g, sum_of f g.2) (add_to_group key x gs)
                         = f x + sum_of (λ g, sum_of f g.2) gs).
  { intros x gs. induction gs as [|[k l] gs IH]; cbn [add_to_group].
    { rewrite !sum_of_cons. cbn [snd]. rewrite sum_of_cons. change (sum_of f []) with 0. lia. }
    destruct (decide (k = key x)); rewrite !sum_of_cons; cbn [snd]; [|lia].
    rewrite sum_of_app, sum_of_cons. change (sum_of f []) with 0. lia. }
  unfold group_by. induction rows as [|x rows IH] using rev_ind; [done|].
  rewrite foldl_snoc, Hadd, IH, sum_of_app, sum_of_cons. change (sum_of f []) with 0. lia.
Qed.

(** Keys that cover the rows split them. *)
Lemma sum_of_partition f ks rows :
  NoDup ks → Forall (λ x, key x ∈ ks) rows →
  sum_of (λ k, sum_of f (select (has_key k) rows)) ks = sum_of f rows.
Proof.
  intros Hnd. induction 1 as [|x rows Hx _ IH]; cbn [select List.filter].
  { clear Hnd. induction ks as [|k ks IH]; [done|]. rewrite sum_of_cons, IH. done. }
  rewrite sum_of_cons, <- IH. clear IH. induction ks as [|k ks IHk]; [set_solver|].
  apply NoDup_cons in Hnd as [Hk Hnd]. rewrite !sum_of_cons.
  destruct (decide (key x = k)) as [<-|Hne].
  - assert (has_key (key x) x = true) as -> by (by apply bool_decide_true).
    rewrite sum_of_cons, <- Z.add_assoc. do 2 f_equal.
    apply sum_of_ext. intros k Hin.
    assert (has_key k x = false) as ->; [|done]. apply bool_decide_false. intros E. apply Hk. by rewrite E.
  - assert (has_key k x = false) as -> by (by apply bool_decide_false).
    apply elem_of_cons in Hx as [Hx|Hx]; [by destruct Hne|]. rewrite IHk by done. unfold select. lia.
Qed.
End group_facts.

Lemma count_sum rows : count rows = sum_of (λ _, 1) rows.
Proof. unfold count. induction rows as [|x rows IH]; [done|]. rewrite sum_of_cons, <- IH. cbn [length]. lia. Qed.

Lemma errors_sum rows : errors rows = sum_of (λ s, is_error (sp_status s)) rows.
Proof.
  unfold errors, count_where, is_error. induction rows as [|s rows IH]; [done|].
  rewrite sum_of_cons, <- IH. cbn [List.filter].
  destruct (String.eqb (sp_status s) "error"); cbn [length]; lia.
Qed.

(** *** Time *)

Lemma generate_series_NoDup start stop step : 0 < step → NoDup (generate_series start stop step).
Proof.
  intros Hs. unfold generate_series. apply NoDup_fmap_2_strong, NoDup_seq.
  intros x y _ _ E. nia.
Qed.

(** The series of a window: the buckets between its ends. *)
Lemma date_trunc_in_series g lo hi s :
  0 < g → lo <= s → date_trunc g s <= date_trunc g hi →
  date_trunc g s ∈ generate_series (date_trunc g lo) (date_trunc g hi) g.
Proof.
  intros Hg Hlo Hhi. unfold date_trunc in Hhi |- *. unfold generate_series.
  apply list_elem_of_fmap.
  assert (lo / g <= s / g) by (apply Z.div_le_mono; lia).
  assert (s / g <= hi / g) by nia.
  exists (Z.to_nat (s / g - lo / g)). split.
  - rewrite Z2Nat.id by lia. unfold timestamp. ring.
  - apply elem_of_seq.
    replace (hi / g * g - lo / g * g) with ((hi / g - lo / g) * g) by ring.
    rewrite Z.div_mul by lia. lia.
Qed.

Lemma series_below g lo hi b :
  0 < g → b ∈ generate_series (date_trunc g lo) (date_trunc g hi) g → b <= date_trunc g hi.
Proof.
  intros Hg (i & -> & Hi%elem_of_seq)%list_elem_of_fmap. unfold date_trunc in *.
  replace (hi / g * g - lo / g * g) with ((hi / g - lo / g) * g) in Hi by ring.
  rewrite Z.div_mul in Hi by lia. nia.
Qed.

Lemma granularity_pos p : 0 < PERIOD_TO_GRANULARITY p.
Proof. by destruct p. Qed.

(** *** The series and the totals *)

Section series.
Context (avg : list decimal → pyfloat) (percentile_cont : Z → list decimal → pyfloat)
        (numeric : pyfloat → decimal) (numeric_div : Z → Z → decimal).

(** The rows of a bucket. *)
Definition starts_in (p : Period) (b : timestamp) (s : SpanRow) : bool :=
  bool_decide (date_trunc (PERIOD_TO_GRANULARITY p) (sp_started s) = b).

Lemma joined_select p rows b : joined p rows b = select (starts_in p b) rows.
Proof. apply lookup_group_by. Qed.

Lemma sum_of_fmap {A B} (g : A → B) (f : B → Z) l : sum_of f (g <$> l) = sum_of (f ∘ g) l.
Proof. induction l as [|x l IH]; [done|]. by rewrite fmap_cons, !sum_of_cons, IH. Qed.

Lemma select_select {A} (q r : A → bool) l :
  select q (select r l) = select (λ x, q x && r x) l.
Proof.
  unfold select. induction l as [|x l IH]; [done|]. cbn [List.filter].
  destruct (r x); cbn [List.filter]; destruct (q x); cbn [andb]; by rewrite IH.
Qed.

(** A span whose bucket comes after the present one. *)
Definition ahead (p : Period) (t : timestamp) (s : SpanRow) : bool :=
  date_trunc (PERIOD_TO_GRANULARITY p) t <? date_trunc (PERIOD_TO_GRANULARITY p) (sp_started s).

Lemma sum_of_select_split {A} (f : A → Z) (q : A → bool) l :
  sum_of f (select (λ x, negb (q x)) l) + sum_of f (select q l) = sum_of f l.
Proof.
  unfold select. induction l as [|x l IH]; [done|]. cbn [List.filter].
  destruct (q x); cbn [negb]; rewrite !sum_of_cons; lia.
Qed.

(** The points of the series add up to the rows that are not ahead. *)
Lemma timeseries_sum p t rows (F : list SpanRow → Z) f (col : TimePoint → Z) :
  (∀ l, F l = sum_of f l) → (∀ b l, col (time_point avg b l) = F l) →
  Forall (λ s, t - PERIOD_TO_INTERVAL p <= sp_started s) rows →
  sum_of col (timeseries_rows avg p t rows) + F (select (ahead p t) rows) = F rows.
Proof.
  intros HF Hcol Hrows. rewrite !HF, <- (sum_of_select_split f (ahead p t) rows). f_equal.
  set (now_rows := select (λ s, negb (ahead p t s)) rows). unfold timeseries_rows.
  assert (Hg : PERIOD_TO_BUCKET_SIZE p = PERIOD_TO_GRANULARITY p) by by destruct p.
  transitivity (sum_of (λ b, sum_of f (select (starts_in p b) now_rows)) (time_buckets p t)).
  - rewrite sum_of_fmap. apply sum_of_ext. intros b Hb. cbn. rewrite Hcol, HF, joined_select.
    f_equal. subst now_rows. rewrite select_select. unfold select. apply List.filter_ext. intros s.
    unfold time_buckets in Hb. rewrite Hg in Hb.
    apply series_below in Hb; [|apply granularity_pos]. unfold starts_in, ahead.
    case_bool_decide as E; [|done]. rewrite E. symmetry. apply negb_true_iff, Z.ltb_ge. lia.
  - unfold time_buckets. rewrite Hg.
    apply (sum_of_partition (λ s, date_trunc (PERIOD_TO_GRANULARITY p) (sp_started s))).
    + apply generate_series_NoDup, granularity_pos.
    + rewrite Forall_forall in *. intros s [Hs Hn%negb_true_iff%Z.ltb_ge]%elem_of_select.
      apply date_trunc_in_series; [apply granularity_pos|by apply Hrows|done].
Qed.

Lemma window_recent project cutoff w :
  Forall (λ s, cutoff <= sp_started s) (window project cutoff w).
Proof.
  rewrite Forall_forall. intros s [_ Hp]%elem_of_select.
  by apply andb_true_iff in Hp as [_ ?%Z.leb_le].
Qed.

(** The cost series is grouped, not joined; it adds up as well. *)
Lemma cost_over_time_sum p rows (F : list SpanRow → Z) f (col : CostPoint → Z) :
  (∀ l, F l = sum_of f l) →
  (∀ b l, col {| cp_bucket := b; cp_cost := costs l; cp_spans := count l |} = F l) →
  sum_of col (cost_over_time p rows) = F rows.
Proof.
  intros HF Hcol. unfold cost_over_time.
  rewrite (sum_of_Permutation _ _ _ (sort_by_Permutation _ _)), sum_of_fmap.
  rewrite HF, <- (sum_of_group_by (λ s, date_trunc (PERIOD_TO_GRANULARITY p) (sp_started s)) f).
  apply sum_of_ext. intros [b l] _. cbn. by rewrite Hcol, HF.
Qed.

(** C22: the charts add up to the overview.  When the database answers, the time
    series of a project has a point for every bucket of the period up to the
    present one, each over exactly the spans that start in it.  The counts,
    errors and costs of its points add up to those of the overview but for the
    spans that are dated ahead, in a bucket after the present one; the cost chart
    adds up to the overview as it is. *)
Theorem timeseries_reconciles project_id project p w :
  sql_uuid project_id = Ok project → w_faults w = [] →
  ∃ o ts, get_overview avg percentile_cont numeric numeric_div project_id p w = (Ok o, w) ∧
    get_timeseries avg project_id p w = (Ok ts, w) ∧
    let rows := window project (w_now w - PERIOD_TO_INTERVAL p) w in
    let late := select (ahead p (w_now w)) rows in
    ts = (λ b, time_point avg b (select (starts_in p b) rows)) <$> time_buckets p (w_now w) ∧
    sum_of tp_spans ts + count late = ov_total o ∧
    sum_of tp_errors ts + errors late = ov_errors o ∧
    sum_of tp_cost ts + costs late = ov_cost o ∧
    sum_of cp_spans (cost_over_time p rows) = ov_total o ∧
    sum_of cp_cost (cost_over_time p rows) = ov_cost o.
Proof.
  intros Hid Hf. set (rows := window project (w_now w - PERIOD_TO_INTERVAL p) w).
  exists (overview_row avg percentile_cont numeric numeric_div rows),
    (timeseries_rows avg p (w_now w) rows).
  assert (Hq : get_db (sql_query (window project (w_now w - PERIOD_TO_INTERVAL p))) w = (Ok rows, w)).
  { unfold get_db, atomic, sql_query. by rewrite (bind_run _ _ _ _ _ (io_run w Hf)). }
  pose proof (window_recent project (w_now w - PERIOD_TO_INTERVAL p) w) as Hrows.
  fold rows in Hrows. split; [|split].
  - unfold get_overview. erewrite bind_run; [|reflexivity]. rewrite Hid.
    erewrite bind_run; [|reflexivity]. by rewrite (bind_run _ _ _ _ _ Hq).
  - unfold get_timeseries. erewrite bind_run; [|reflexivity]. rewrite Hid.
    erewrite bind_run; [|reflexivity]. by rewrite (bind_run _ _ _ _ _ Hq).
  - cbv zeta. split; [|split_and!].
    + unfold timeseries_rows. apply list_fmap_ext. intros _ b _. by rewrite joined_select.
    + by apply (timeseries_sum _ _ _ count (λ _, 1)); [apply count_sum| |].
    + by eapply (timeseries_sum _ _ _ errors); [apply errors_sum| |].
    + by eapply (timeseries_sum _ _ _ costs sp_cost).
    + by apply (cost_over_time_sum _ _ count (λ _, 1)); [apply count_sum|].
    + by apply (cost_over_time_sum _ _ costs sp_cost).
Qed.
End series.

(** *** The cache *)

(** A request of a member of a project. *)
Record MetricsRequest : Type := { mq_kind : Kind; mq_project : string; mq_period : string }.

Lemma period_name_inj p q : period_name p = period_name q → p = q.
Proof. by destruct p, q. Qed.

Lemma parse_period_name s p : parse_period s = Some p → s = period_name p.
Proof. intros [_ E%String.eqb_eq]%find_some. done. Qed.

Lemma not_free c p t : free_of c (p +:+ String c t) = false.
Proof.
  unfold free_of. rewrite str_all_app. cbn. by rewrite Ascii.eqb_refl, andb_false_r.
Qed.

Lemma split_at_last_sep c (p1 p2 t1 t2 : string) :
  free_of c t1 = true → free_of c t2 = true →
  p1 +:+ String c t1 = p2 +:+ String c t2 → p1 = p2 ∧ t1 = t2.
Proof.
  intros H1 H2. revert p2. induction p1 as [|d p1 IH]; intros [|e p2] H.
  - by injection H.
  - rewrite str_app_cons in H. injection H as _ H. by rewrite H, not_free in H1.
  - rewrite str_app_cons in H. injection H as _ H. by rewrite <- H, not_free in H2.
  - rewrite !str_app_cons in H. injection H as -> H. by destruct (IH p2 H) as [-> ->].
Qed.

Lemma period_suffix (a b : string) p q :
  a +:+ ":" +:+ period_name p = b +:+ ":" +:+ period_name q → a = b ∧ p = q.
Proof.
  intros E. apply (split_at_last_sep ":") in E as [-> E]; [|by destruct p|by destruct q].
  split; [done|by apply period_name_inj].
Qed.

Lemma metrics_key_inj k k' a b p q :
  metrics_key k a p = metrics_key k' b q → k = k' ∧ a = b ∧ p = q.
Proof.
  unfold metrics_key. intros E%str_app_inj_l.
  assert (k = k') as -> by (destruct k, k'; first [done|by cbn in E; discriminate E]).
  apply str_app_inj_l, str_app_inj_l in E. split; [done|]. by apply period_suffix.
Qed.

Section cache.
Context (avg : list decimal → pyfloat) (percentile_cont : Z → list decimal → pyfloat)
        (numeric : pyfloat → decimal) (numeric_div : Z → Z → decimal)
        (regexp_replace : string → string → string → string → string).
Context (dumps : Metric → string) (loads : string → result pyval).

Abbreviation computed := (compute avg percentile_cont numeric numeric_div regexp_replace).

Definition handle (q : MetricsRequest) : M Dashboard Response :=
  metrics_endpoint avg percentile_cont numeric numeric_div regexp_replace dumps loads
    (mq_kind q) (mq_project q) (mq_period q).

(** Requests arrive while everything but the cache changes freely: each finds a
    world of its own. *)
Fixpoint cache_after (l : list (World * MetricsRequest))
    (cache : gmap string (string * timestamp)) : gmap string (string * timestamp) :=
  match l with
  | [] => cache
  | (w, q) :: l' => cache_after l' (da_cache (handle q {| da_world := w; da_cache := cache |}).2)
  end.

(** What the service makes of the data of a world. *)
Definition value_at (q : MetricsRequest) (p : Period) (w : World) (m : Metric) : Prop :=
  (computed (mq_kind q) (mq_project q) p (clear w)).1 = Ok m.

Lemma reads_window {A} (f : list SpanRow → A) project cutoff :
  reads (sql_query (λ w, f (window project cutoff w))).
Proof. by apply reads_query. Qed.

Lemma reads_compute k project_id p : reads (computed k project_id p).
Proof.
  unfold compute, get_overview, get_timeseries, get_analytics, now.
  destruct k; (apply reads_bind; [|auto with reads]).
  - apply reads_bind; [by apply reads_gets|]. intros t. apply reads_bind; [auto with reads|].
    intros project. apply reads_bind; [|auto with reads].
    apply reads_get_db. apply (reads_window (λ l, l)).
  - apply reads_bind; [by apply reads_gets|]. intros t. apply reads_bind; [auto with reads|].
    intros project. apply reads_bind; [|auto with reads].
    apply reads_get_db. apply (reads_window (λ l, l)).
  - apply reads_bind; [by apply reads_gets|]. intros t. apply reads_bind; [auto with reads|].
    intros project. apply reads_get_db.
    repeat (apply reads_bind; [apply reads_window|intros ?]). apply reads_ret.
Qed.

Lemma clear_now w w' : clear w = clear w' → w_now w = w_now w'.
Proof. intros E. apply (f_equal w_now E). Qed.

(** A reading part leaves the cache alone, and the world but for its faults. *)
Lemma on_da_world_reads {A} (m : M World A) w c :
  reads m → ∃ r w', on_da_world m {| da_world := w; da_cache := c |}
                    = (r, {| da_world := w'; da_cache := c |}) ∧
    clear w' = clear w ∧ ∀ x, r = Ok x → (m (clear w)).1 = Ok x.
Proof.
  intros [Hp Hm]. unfold on_da_world. cbn. specialize (Hp w). specialize (Hm w).
  destruct (m w) as [r w']. cbn in Hp. exists r, w'. do 2 (split; [done|]).
  intros x ->. by rewrite (Hm x w' eq_refl).
Qed.

(** A request is answered from the cache or computed and cached, or it fails and
    leaves the cache. *)
Lemma handle_spec q w c :
  let r := handle q {| da_world := w; da_cache := c |} in
  (∃ e, r.1 = Raise e ∧ da_cache r.2 = c) ∨
  ∃ p, parse_period (mq_period q) = Some p ∧
    let key := metrics_key (mq_kind q) (mq_project q) p in
    (∃ s expires v, c !! key = Some (s, expires) ∧ w_now w < expires ∧ loads s = Ok v ∧
       r.1 = Ok (FromCache v) ∧ da_cache r.2 = c) ∨
    (∃ m, value_at q p w m ∧ r.1 = Ok (Computed m) ∧
       da_cache r.2 = <[key := (dumps m, w_now w + ttl p * second)]> c).
Proof.
  cbv zeta. unfold handle, metrics_endpoint. destruct (parse_period (mq_period q)) as [p|]; [|by left; eexists].
  erewrite bind_run; [|reflexivity].
  destruct (on_da_world_reads io w c reads_io) as ([u|e] & w1 & E1 & Hw1 & _);
    [|rewrite (bind_run_raise _ _ _ _ _ E1); by left; eexists].
  rewrite (bind_run _ _ _ _ _ E1). erewrite bind_run; [|reflexivity].
  erewrite bind_run; [|reflexivity]. cbn [da_cache da_world set_da_world].
  rewrite (clear_now _ _ Hw1). set (key := metrics_key _ _ _).
  match goal with |- context [match (match c !! key with _ => _ end) with _ => _ end] =>
    destruct (match c !! key with
              | Some (s, expires) => if (w_now w <? expires) && truthy s then Some s else None
              | None => None end) as [s|] eqn:Ec end.
  { destruct (c !! key) as [[s' expires]|] eqn:Ek; [|done].
    destruct (Z.ltb_spec (w_now w) expires); [|done]. destruct (truthy s'); [|done].
    injection Ec as ->. destruct (loads s) as [v|e] eqn:El; [right|left; eexists; split; reflexivity].
    exists p. split; [done|]. left. by exists s, expires, v. }
  clear Ec. destruct (on_da_world_reads _ w1 c (reads_compute (mq_kind q) (mq_project q) p))
    as ([m|e] & w2 & E2 & Hw2 & Hm);
    [|rewrite (bind_run_raise _ _ _ _ _ E2); by left; eexists].
  rewrite (bind_run _ _ _ _ _ E2).
  destruct (on_da_world_reads io w2 c reads_io) as ([u'|e] & w3 & E3 & Hw3 & _);
    [|rewrite (bind_run_raise _ _ _ _ _ E3); by left; eexists].
  rewrite (bind_run _ _ _ _ _ E3). right. exists p. split; [done|]. right. exists m. split.
  - unfold value_at. rewrite <- Hw1. by apply Hm.
  - rewrite Hw2 in Hw3. rewrite Hw1 in Hw3. rewrite <- (clear_now _ _ Hw3). split; reflexivity.
Qed.

(** Every entry holds the text of what the service made, for its key, of the data
    of some request, and lasts the period's time from then. *)
Definition cache_ok (l : list (World * MetricsRequest)) (c : gmap string (string * timestamp))
    : Prop :=
  ∀ key s expires, c !! key = Some (s, expires) →
  ∃ w q p m, (w, q) ∈ l ∧ parse_period (mq_period q) = Some p ∧
    key = metrics_key (mq_kind q) (mq_project q) p ∧ value_at q p w m ∧
    s = dumps m ∧ expires = w_now w + ttl p * second.

Lemma cache_after_ok l l0 c :
  cache_ok l0 c → cache_ok (l0 ++ l) (cache_after l c).
Proof.
  revert l0 c. induction l as [|[w q] l IH]; intros l0 c Hc; [by rewrite app_nil_r|].
  cbn [cache_after]. rewrite (assoc_L (++) l0 [(w, q)] l : l0 ++ (w, q) :: l = (l0 ++ [(w, q)]) ++ l).
  apply IH. intros key s expires.
  assert (Hold : c !! key = Some (s, expires) → ∃ w0 q0 p m, (w0, q0) ∈ l0 ++ [(w, q)] ∧
    parse_period (mq_period q0) = Some p ∧ key = metrics_key (mq_kind q0) (mq_project q0) p ∧
    value_at q0 p w0 m ∧ s = dumps m ∧ expires = w_now w0 + ttl p * second).
  { intros (w0 & q0 & p & m & Hin & H)%Hc. exists w0, q0, p, m. split; [set_solver|exact H]. }
  destruct (handle_spec q w c) as [(e & _ & ->)|(p & Hp & [(s' & ex & v & _ & _ & _ & _ & ->)|
    (m & Hm & _ & ->)])]; [exact Hold|exact Hold|].
  intros [[<- [= <- <-]]|[_ H]]%lookup_insert_Some; [|by apply Hold].
  exists w, q, p, m. split; [set_solver|done].
Qed.

(** a dashboard answer is the service's, at most the cache time old.  Whatever
    happened to the data, the clock and the services between the requests, a
    request that is answered gets what the service computes for its own project,
    kind and period, from the data as they are or as an earlier request of the
    same three found them less than the period's cache time before. *)
Theorem metrics_fresh l q w response :
  (handle q {| da_world := w; da_cache := cache_after l ∅ |}).1 = Ok response →
  ∃ p w0 m, parse_period (mq_period q) = Some p ∧ value_at q p w0 m ∧
    match response with
    | Computed m' => w0 = w ∧ m' = m
    | FromCache v => (w0, q) ∈ l ∧ w_now w < w_now w0 + ttl p * second ∧ loads (dumps m) = Ok v
    end.
Proof.
  intros H. assert (Hc : cache_ok ([] ++ l) (cache_after l ∅))
    by (apply cache_after_ok; by intros ? ? ?; rewrite lookup_empty).
  destruct (handle_spec q w (cache_after l ∅)) as [(e & E & _)|(p & Hp & [(s & ex & v & Hk & Hn & Hl & E & _)|
    (m & Hm & E & _)])]; [congruence| |].
  - rewrite E in H. injection H as <-.
    destruct (Hc _ _ _ Hk) as (w0 & [k pid period] & p' & m & Hin & Hp' & Hkey & Hm & -> & ->).
    apply metrics_key_inj in Hkey as (Ek & Epid & <-). cbn in Ek, Epid, Hp'.
    assert (q = {| mq_kind := k; mq_project := pid; mq_period := period |}) as ->.
    { destruct q. cbn in *. apply parse_period_name in Hp, Hp'. congruence. }
    by exists p, w0, m.
  - rewrite E in H. injection H as <-. by exists p, w, m.
Qed.
End cache.

(** ** Witnesses *)

Definition first_latency (l : list decimal) : pyfloat := float_of_Z (coef (default (mkdec 0 0) (head l))).
Definition no_numeric (_ : pyfloat) : decimal := mkdec 0 0.
Definition percent_div (a b : Z) : decimal := mkdec (a * 10 ^ 20 / b) (-20).
Definition same_text (text _ _ _ : string) : string := text.

Definition charted (id cost : Z) (status : string) (started : timestamp) : SpanRow :=
  {| sp_id := id; sp_trace := 9; sp_project := 1; sp_parent := None; sp_name := "chat";
     sp_provider := "openai"; sp_model := "gpt-4o"; sp_input := 3; sp_output := 4;
     sp_cost := cost; sp_latency := mkdec 25 (-1); sp_status := status; sp_error := None;
     sp_started := started; sp_payload_key := None; sp_payload_status := omitted;
     sp_drop_reason := None; sp_metadata := "{}" |}.

(** Three spans of an hour, two of them in one minute, and one that is dated four
    minutes ahead, which the schema accepts. *)
Definition charted_world : World :=
  set_w_spans (λ _, [charted 1 10 "ok" (3590 * second); charted 2 20 "error" (3595 * second);
                     charted 3 5 "ok" (100 * second); charted 4 7 "ok" (3840 * second)])
    (empty_world (3600 * second) []).

Lemma sql_uuid_one : sql_uuid (str_of_uuid 1) = Ok 1.
Proof. unfold sql_uuid. by rewrite (uuid_roundtrip 1). Qed.

(** The span ahead costs 7 of 42 and is in no point of the series. *)
Lemma timeseries_reconciles_witness :
  ∃ o ts, get_timeseries first_latency (str_of_uuid 1) P1h charted_world = (Ok ts, charted_world) ∧
    sum_of tp_cost ts + 7 = ov_cost o ∧ ov_cost o = 42.
Proof.
  destruct (timeseries_reconciles first_latency (λ _, first_latency) no_numeric percent_div
    (str_of_uuid 1) 1 P1h charted_world sql_uuid_one eq_refl)
    as (o & ts & Ho & Hts & _ & _ & _ & Hc & _).
  exists o, ts. split; [exact Hts|]. split; [exact Hc|].
  unfold get_overview in Ho. erewrite bind_run in Ho; [|reflexivity].
  rewrite sql_uuid_one in Ho. injection Ho as <-. vm_compute. reflexivity.
Defined.

Definition one_request : MetricsRequest :=
  {| mq_kind := KOverview; mq_project := str_of_uuid 1; mq_period := "1h" |}.

Definition total_text (m : Metric) : string :=
  match m with OverviewOf o => str_of_int (ov_total o) | _ => "0" end.

Definition sample_handle : MetricsRequest → M Dashboard Response :=
  handle first_latency (λ _, first_latency) no_numeric percent_div same_text total_text
    (λ s, Ok (VStr s)).

(** Ten seconds later, with the spans gone, the answer is the earlier one. *)
Lemma metrics_fresh_witness :
  ∃ m, value_at first_latency (λ _, first_latency) no_numeric percent_div same_text
         one_request P1h charted_world m ∧ total_text m = "4"%string.
Proof.
  destruct (metrics_fresh first_latency (λ _, first_latency) no_numeric percent_div same_text
    total_text (λ s, Ok (VStr s)) [(charted_world, one_request)] one_request
    (empty_world (3610 * second) []) (FromCache (VStr "4"))) as (p & w0 & m & Hp & Hv & Hin & _ & Hl).
  - vm_compute. reflexivity.
  - apply list_elem_of_singleton in Hin as [= ->]. injection Hp as <-.
    exists m. split; [exact Hv|]. by injection Hl.
Defined.
