(* ===== verification/Gates.v ===== *)
(** * Dependency audit gates

    [scripts/pip_audit_gate.py] and [scripts/npm_audit_gate.py]: CI fails unless
    every vulnerability an audit reports is allowlisted.  The files and the
    output of the audit commands are inputs; [json.loads] and
    [date.fromisoformat] are parameters, a date being its ordinal. *)

From S2P Require Import Prelude Text PyVal Json.
From Stdlib Require SpecFloat.

Local Open Scope Z_scope.

(** [raise SystemExit(message)], which prints the message and exits with 1. *)
Definition SystemExit (msg : string) : exn := OtherError msg.

(** The status of the process for what [main] returned or raised. *)
Definition exit_status {A} (r : result (Z * A)) : Z :=
  match r with Ok (n, _) => n | Raise _ => 1 end.

(** [subprocess.run(..., capture_output=True)] *)
Record Completed : Type := { returncode : Z; stdout : string; stderr : string }.

(** ** Lists of strings *)

Definition as_str (v : pyval) : option string :=
  match v with VStr s => Some s | _ => None end.

Fixpoint all_strs (p : string → bool) (l : list pyval) : option (list string) :=
  match l with
  | [] => Some []
  | VStr s :: l' => if p s then cons s <$> all_strs p l' else None
  | _ => None
  end.

(** [isinstance(v, list) and all(isinstance(item, str) and p(item) for item in v)] *)
Definition str_list (p : string → bool) (v : pyval) : option (list string) :=
  match v with VList l => all_strs p l | _ => None end.

(** Comparison of tuples of strings *)
Fixpoint strs_le (a b : list string) : bool :=
  match a, b with
  | [], _ => true
  | _, [] => false
  | x :: a', y :: b' =>
      match String.compare x y with Lt => true | Gt => false | Eq => strs_le a' b' end
  end.

(** [allowlist.setdefault(package, []).append(entry)] *)
Definition add_entry {E} (package : string) (e : E) (l : list (string * list E))
    : list (string * list E) :=
  dict_set package (default [] (dict_get package l) ++ [e]) l.

Section gates.
Context (json_loads : string → result pyval) (decode_error : string → string).

Definition load_json_file (path : string) (file : option string) : result dict :=
  match file with
  | None => Raise (SystemExit ("allowlist file does not exist: " +:+ path))
  | Some text =>
      match json_loads text with
      | Raise JSONDecodeError =>
          Raise (SystemExit ("allowlist file is not valid JSON: " +:+ path +:+ ": "
                             +:+ decode_error text))
      | Raise e => Raise e
      | Ok (VDict raw) => Ok raw
      | Ok _ => Raise (SystemExit ("allowlist file must contain a JSON object: " +:+ path))
      end
  end.

(** [raw.get("ignore", [])] *)
Definition ignore_entries (raw : dict) : result (list pyval) :=
  match default (VList []) (dict_get "ignore" raw) with
  | VList entries => Ok entries
  | _ => Raise (SystemExit "allowlist field 'ignore' must be a list")
  end.

(** The loop over the entries. *)
Fixpoint load_entries {E} (load_entry : pyval → result E) (package : E → string)
    (entries : list pyval) (allowlist : list (string * list E))
    : result (list (string * list E)) :=
  match entries with
  | [] => Ok allowlist
  | entry :: entries' =>
      e ← load_entry entry;
      load_entries load_entry package entries' (add_entry (package e) e allowlist)
  end.

(** What both scripts make of a finished audit command, with their messages. *)
Definition read_audit (completed : Completed) (no_output invalid not_object failed : string)
    : result dict :=
  if negb (truthy (strip (stdout completed))) then
    Raise (SystemExit (if truthy (strip (stderr completed)) then strip (stderr completed)
                       else no_output))
  else match json_loads (stdout completed) with
  | Raise JSONDecodeError => Raise (SystemExit invalid)
  | Raise e => Raise e
  | Ok (VDict raw) =>
      if negb ((returncode completed =? 0) || (returncode completed =? 1)) then
        Raise (SystemExit (if truthy (strip (stderr completed)) then strip (stderr completed)
                           else failed))
      else Ok raw
  | Ok _ => Raise (SystemExit not_object)
  end.
End gates.

(** ** Shared facts *)

Lemma all_strs_elem p l strs : all_strs p l = Some strs →
  (∀ s, s ∈ strs ↔ VStr s ∈ l) ∧ Forall (λ s, p s = true) strs.
Proof.
  revert strs. induction l as [|v l IH]; intros strs H; [injection H as <-; split; [set_solver|done]|].
  destruct v as [| | | |s| |]; try done. cbn in H. destruct (p s) eqn:E; [|done].
  destruct (all_strs p l) as [l'|]; [|done]. injection H as <-.
  destruct (IH l' eq_refl) as [H1 H2]. split; [|by constructor].
  intros x. rewrite !elem_of_cons, H1. split; intros [Hx|Hx]; auto; left; congruence.
Qed.

Lemma add_entry_get {E} p q (e : E) l :
  default [] (dict_get q (add_entry p e l))
  = default [] (dict_get q l) ++ (if String.eqb q p then [e] else []).
Proof.
  unfold add_entry. destruct (String.eqb_spec q p) as [->|Hne].
  - by rewrite dict_get_set_eq.
  - by rewrite dict_get_set_ne, app_nil_r.
Qed.

(** An entry stands under its package. *)
Lemma load_entries_elem {E} (load_entry : pyval → result E) package entries acc al p e :
  load_entries load_entry package entries acc = Ok al →
  e ∈ default [] (dict_get p al) ↔
  e ∈ default [] (dict_get p acc) ∨
  ∃ entry, entry ∈ entries ∧ load_entry entry = Ok e ∧ package e = p.
Proof.
  revert acc. induction entries as [|entry entries IH]; intros acc H; cbn in H.
  - injection H as ->. set_solver.
  - destruct (load_entry entry) as [e'|] eqn:E1; [|done]. cbn in H. rewrite (IH _ H).
    rewrite add_entry_get, elem_of_app. split.
    + intros [[Hin|Hin]|(x & Hx & Hl & Hp)]; [by left| |right].
      * destruct (String.eqb_spec p (package e')) as [->|]; [|set_solver].
        apply list_elem_of_singleton in Hin as ->. right. exists entry. by repeat split; [left|].
      * exists x. by repeat split; [right|..].
    + intros [Hin|(x & [->|Hx]%elem_of_cons & Hl & Hp)]; [by left; left| |].
      * left; right. assert (e' = e) as -> by congruence. subst p.
        rewrite String.eqb_refl. by left.
      * right. by exists x.
Qed.

Lemma load_entries_all {E} (load_entry : pyval → result E) package entries acc al :
  load_entries load_entry package entries acc = Ok al →
  ∀ entry, entry ∈ entries → ∃ e, load_entry entry = Ok e.
Proof.
  revert acc. induction entries as [|x entries IH]; intros acc H entry Hin; [set_solver|].
  cbn in H. destruct (load_entry x) as [e|] eqn:Ex; [|done].
  apply elem_of_cons in Hin as [->|Hin]; [by exists e|by eapply IH].
Qed.

Section audit_facts.
Context (json_loads : string → result pyval) (decode_error : string → string).

Lemma load_json_file_ok path file raw :
  load_json_file json_loads decode_error path file = Ok raw →
  ∃ text, file = Some text ∧ json_loads text = Ok (VDict raw).
Proof.
  unfold load_json_file. destruct file as [text|]; [|done].
  destruct (json_loads text) as [[]|[]] eqn:E; try done.
  intros [= ->]. by exists text.
Qed.

Lemma read_audit_ok completed a b c d audit :
  read_audit json_loads completed a b c d = Ok audit →
  json_loads (stdout completed) = Ok (VDict audit) ∧
  (returncode completed = 0 ∨ returncode completed = 1).
Proof.
  unfold read_audit. destruct (negb (truthy _)); [done|].
  destruct (json_loads (stdout completed)) as [[]|[]] eqn:E; try done.
  destruct (Z.eqb_spec (returncode completed) 0), (Z.eqb_spec (returncode completed) 1);
    intros [= ->]; auto.
Qed.
End audit_facts.

(** ** [pip_audit_gate.py] *)

Module PipAudit.
Record AllowlistEntry : Type := {
  package : string; advisories : list string; reason : string; expires : Z;
}.

Record Vulnerability : Type := {
  project : string; vpackage : string; version : string; advisory : string;
  fix_versions : list string;
}.

Section pip.
Context (json_loads : string → result pyval) (decode_error : string → string).
Context (fromisoformat : string → option Z) (isoformat : Z → string).

Definition parse_expiry (value : option pyval) (package : string) : result Z :=
  match value with
  | Some (VStr v) =>
      if truthy v then
        match fromisoformat v with
        | Some d => Ok d
        | None => Raise (SystemExit ("allowlist entry for " +:+ package
                           +:+ " has invalid expires date: " +:+ v))
        end
      else Raise (SystemExit ("allowlist entry for " +:+ package +:+ " needs an expires date"))
  | _ => Raise (SystemExit ("allowlist entry for " +:+ package +:+ " needs an expires date"))
  end.

(** One turn of the loop over the entries. *)
Definition load_entry (today : Z) (entry : pyval) : result AllowlistEntry :=
  match entry with
  | VDict entry =>
      match dict_get "package" entry with
      | Some (VStr package) =>
          if negb (truthy package) then
            Raise (SystemExit "each allowlist entry needs a non-empty package")
          else match dict_get "advisories" entry ≫= str_list truthy with
          | None => Raise (SystemExit ("allowlist entry for " +:+ package +:+ " needs advisories"))
          | Some advisories =>
              match dict_get "reason" entry ≫= as_str with
              | Some (String c reason) =>
                  expires ← parse_expiry (dict_get "expires" entry) package;
                  if expires <? today then
                    Raise (SystemExit ("allowlist entry for " +:+ package +:+ " expired on "
                                       +:+ isoformat expires))
                  else Ok {| package := package; advisories := advisories;
                             reason := String c reason; expires := expires |}
              | _ => Raise (SystemExit ("allowlist entry for " +:+ package +:+ " needs a reason"))
              end
          end
      | _ => Raise (SystemExit "each allowlist entry needs a non-empty package")
      end
  | _ => Raise (SystemExit "each allowlist entry must be an object")
  end.

Definition load_allowlist (path : string) (file : option string) (today : Z)
    : result (list (string * list AllowlistEntry)) :=
  raw ← load_json_file json_loads decode_error path file;
  entries ← ignore_entries raw;
  load_entries (load_entry today) package entries [].

Definition run_pip_audit (project : string) (completed : Completed) : result dict :=
  read_audit json_loads completed
    ("pip-audit failed for " +:+ project)
    ("pip-audit returned invalid JSON for " +:+ project +:+ ": "
       +:+ decode_error (stdout completed))
    ("pip-audit JSON root must be an object for " +:+ project)
    ("pip-audit failed for " +:+ project +:+ ": " +:+ str_of_int (returncode completed)).

Definition read_vuln (project package version : string) (vuln : pyval) : option Vulnerability :=
  match vuln with
  | VDict vuln =>
      match dict_get "id" vuln with
      | Some (VStr advisory) =>
          Some {| project := project; vpackage := package; version := version;
                  advisory := advisory;
                  fix_versions := default []
                    (str_list (λ _, true) (default (VList []) (dict_get "fix_versions" vuln))) |}
      | _ => None
      end
  | _ => None
  end.

Definition read_dependency (project : string) (dependency : pyval) : list Vulnerability :=
  match dependency with
  | VDict dependency =>
      match dict_get "name" dependency, dict_get "version" dependency,
            default (VList []) (dict_get "vulns" dependency) with
      | Some (VStr package), Some (VStr version), VList vulns =>
          omap (read_vuln project package version) vulns
      | _, _, _ => []
      end
  | _ => []
  end.

Definition vulnerabilities_from_audit (project : string) (audit : dict)
    : result (list Vulnerability) :=
  match default (VList []) (dict_get "dependencies" audit) with
  | VList dependencies => Ok (mjoin (read_dependency project <$> dependencies))
  | _ => Raise (SystemExit ("pip-audit JSON did not contain dependencies: " +:+ project))
  end.

Definition is_allowed (allowlist : list (string * list AllowlistEntry)) (v : Vulnerability)
    : bool :=
  existsb (λ e, inb (advisory v) (advisories e)) (default [] (dict_get (vpackage v) allowlist)).

(** The audits run one after the other; the first that fails ends the script. *)
Fixpoint audit_all (projects : list (string * Completed)) : result (list Vulnerability) :=
  match projects with
  | [] => Ok []
  | (project, completed) :: projects' =>
      audit ← run_pip_audit project completed;
      vs ← vulnerabilities_from_audit project audit;
      rest ← audit_all projects';
      Ok (vs ++ rest)
  end.

Definition vuln_le (a b : Vulnerability) : bool :=
  strs_le [project a; vpackage a; advisory a] [project b; vpackage b; advisory b].

Definition report_line (v : Vulnerability) : string :=
  let fixes := join ", " (fix_versions v) in
  "- " +:+ project v +:+ ": " +:+ vpackage v +:+ " " +:+ version v +:+ ": " +:+ advisory v
    +:+ " (" +:+ (if truthy fixes then fixes else "no fix version") +:+ ")".

(** The exit status and the lines of the report. *)
Definition main (path : string) (file : option string) (today : Z)
    (projects : list (string * Completed)) : result (Z * list string) :=
  allowlist ← load_allowlist path file today;
  vulnerabilities ← audit_all projects;
  match List.filter (λ v, negb (is_allowed allowlist v)) vulnerabilities with
  | [] => Ok (0, ["pip-audit passed: no unallowlisted vulnerabilities"%string])
  | failing =>
      Ok (1, ("pip-audit failed: " +:+ str_of_int (Z.of_nat (length failing))
              +:+ " unallowlisted vulnerabilities")
             :: map report_line (sorted vuln_le failing))
  end.

(** *** Facts *)

(** The allowlist has an entry for the advisory with a reason, still valid. *)
Definition reviewed (today : Z) (package advisory : string) (entry : pyval) : Prop :=
  ∃ d advisories reason expires day,
    entry = VDict d ∧ dict_get "package" d = Some (VStr package) ∧
    dict_get "advisories" d = Some (VList advisories) ∧ VStr advisory ∈ advisories ∧
    dict_get "reason" d = Some (VStr reason) ∧ truthy reason = true ∧
    dict_get "expires" d = Some (VStr expires) ∧ fromisoformat expires = Some day ∧ today <= day.

(** The audit reports an advisory for an installed version of a package. *)
Definition reports (audit : dict) (package advisory : string) : Prop :=
  ∃ dependencies d version vulns v,
    dict_get "dependencies" audit = Some (VList dependencies) ∧ VDict d ∈ dependencies ∧
    dict_get "name" d = Some (VStr package) ∧ dict_get "version" d = Some (VStr version) ∧
    dict_get "vulns" d = Some (VList vulns) ∧ VDict v ∈ vulns ∧
    dict_get "id" v = Some (VStr advisory).

Lemma parse_expiry_ok value package day :
  parse_expiry value package = Ok day →
  ∃ s, value = Some (VStr s) ∧ fromisoformat s = Some day.
Proof.
  unfold parse_expiry. destruct value as [[]|]; try done. destruct (truthy s); [|done].
  destruct (fromisoformat s) eqn:E; [|done]. intros [= <-]. by exists s.
Qed.

Lemma load_entry_reviewed today entry e p a :
  load_entry today entry = Ok e →
  (package e = p ∧ inb a (advisories e) = true) ↔ reviewed today p a entry.
Proof.
  unfold load_entry. destruct entry as [| | | | | |d]; try done.
  destruct (dict_get "package" d) as [[| | | |q| |]|] eqn:Ep; try done.
  destruct (negb (truthy q)); [done|].
  destruct (dict_get "advisories" d) as [advs|] eqn:Ea; [|done]. cbn [mbind option_bind].
  destruct (str_list truthy advs) as [ids|] eqn:Es; [|done].
  destruct (dict_get "reason" d) as [[| | | |r| |]|] eqn:Er; try done. cbn [mbind option_bind as_str].
  destruct r as [|c r]; [done|].
  destruct (parse_expiry (dict_get "expires" d) q) as [day|] eqn:Ex; [|done]. cbn [mbind result_bind].
  destruct (Z.ltb_spec day today); [done|]. intros [= <-]. cbn [package advisories].
  apply parse_expiry_ok in Ex as (s & Ex & Ed). destruct advs as [| | | | |l|]; try done.
  destruct (all_strs_elem truthy l ids Es) as [Hids _]. rewrite inb_true, Hids. split.
  - intros [-> Hin]. exists d, l, (String c r), s, day. by repeat split.
  - intros (d' & l' & r' & s' & day' & [= <-] & H1 & H2 & H3 & _). split; congruence.
Qed.

Lemma read_vuln_ok project p version v x :
  read_vuln project p version v = Some x →
  vpackage x = p ∧ ∃ d, v = VDict d ∧ dict_get "id" d = Some (VStr (advisory x)).
Proof.
  unfold read_vuln. destruct v as [| | | | | |d]; try done.
  destruct (dict_get "id" d) as [[| | | |a| |]|] eqn:E; try done. intros [= <-].
  split; [done|]. by exists d.
Qed.

(** What is read off an audit is what it reports. *)
Lemma vulnerabilities_reported project audit vs p a :
  vulnerabilities_from_audit project audit = Ok vs →
  (∃ v, v ∈ vs ∧ vpackage v = p ∧ advisory v = a) ↔ reports audit p a.
Proof.
  unfold vulnerabilities_from_audit, reports.
  destruct (dict_get "dependencies" audit) as [[| | | | |deps|]|]; cbn [default]; try done.
  2: { intros [= <-]. cbn. split; [set_solver|]. by intros (? & ? & ? & ? & ? & ? & _). }
  intros [= <-]. split.
  - intros (v & Hv & Hp & Ha). apply list_elem_of_join in Hv as (l & Hl & Hd).
    apply list_elem_of_fmap in Hd as (dep & -> & Hdep). unfold read_dependency in Hl.
    destruct dep as [| | | | | |d]; try set_solver.
    destruct (dict_get "name" d) as [[| | | |n| |]|] eqn:En; try set_solver.
    destruct (dict_get "version" d) as [[| | | |ver| |]|] eqn:Ev; try set_solver.
    destruct (dict_get "vulns" d) as [[| | | | |vulns|]|] eqn:Eu; cbn [default] in Hl; try set_solver.
    apply list_elem_of_omap in Hl as (x & Hx & (Hn & dx & -> & Hid)%read_vuln_ok).
    exists deps, d, ver, vulns, dx. by simplify_eq.
  - intros (deps' & d & ver & vulns & v & [= <-] & Hd & En & Ev & Eu & Hv & Hid).
    eexists {| advisory := a |}. split; [|by split].
    apply list_elem_of_join. exists (read_dependency project (VDict d)).
    split; [|by apply list_elem_of_fmap_2].
    unfold read_dependency. rewrite En, Ev, Eu. apply list_elem_of_omap.
    exists (VDict v). split; [done|]. unfold read_vuln. by rewrite Hid.
Qed.

Lemma load_allowlist_ok path file today al :
  load_allowlist path file today = Ok al →
  ∃ text raw entries,
    file = Some text ∧ json_loads text = Ok (VDict raw) ∧ ignore_entries raw = Ok entries ∧
    ∀ v, is_allowed al v = true ↔
         ∃ entry, entry ∈ entries ∧ reviewed today (vpackage v) (advisory v) entry.
Proof.
  unfold load_allowlist. intros H.
  destruct (load_json_file json_loads decode_error path file) as [raw|] eqn:Er; [|done].
  apply load_json_file_ok in Er as (text & -> & Et). cbn in H.
  destruct (ignore_entries raw) as [entries|] eqn:Ee; [|done]. cbn in H.
  exists text, raw, entries. do 3 (split; [done|]). intros v. unfold is_allowed.
  rewrite existsb_exists. split.
  - intros (e & Hin%list_elem_of_In & Ha). rewrite (load_entries_elem _ _ _ _ _ _ _ H) in Hin.
    destruct Hin as [Hin|(entry & He & Hl & Hp)]; [set_solver|]. exists entry. split; [done|].
    by apply (load_entry_reviewed today entry e).
  - intros (entry & He & Hrev).
    destruct (load_entry today entry) as [e|x] eqn:El.
    + destruct (proj2 (load_entry_reviewed today entry e _ _ El) Hrev) as [Hp Ha]. exists e.
      split; [|done]. apply list_elem_of_In. rewrite (load_entries_elem _ _ _ _ _ _ _ H).
      right. by exists entry.
    + exfalso. by destruct (load_entries_all _ _ _ _ _ H entry He) as (e & E); rewrite El in E.
Qed.

(** The vulnerabilities are those of the audits, which all succeeded. *)
Lemma audit_all_ok projects vs :
  audit_all projects = Ok vs →
  ∃ audits,
    Forall2 (λ (pc : string * Completed) audit, json_loads (stdout pc.2) = Ok (VDict audit) ∧
      (returncode pc.2 = 0 ∨ returncode pc.2 = 1)) projects audits ∧
    ∀ p a, (∃ v, v ∈ vs ∧ vpackage v = p ∧ advisory v = a) ↔
           ∃ audit, audit ∈ audits ∧ reports audit p a.
Proof.
  revert vs. induction projects as [|[project c] projects IH]; intros vs H; cbn in H.
  { injection H as <-. exists []. split; [constructor|]. set_solver. }
  destruct (run_pip_audit project c) as [audit|] eqn:Er; [|done]. cbn in H.
  destruct (vulnerabilities_from_audit project audit) as [vs1|] eqn:Ev; [|done]. cbn in H.
  destruct (audit_all projects) as [vs2|]; [|done]. cbn in H. injection H as <-.
  destruct (IH vs2 eq_refl) as (audits & Hall & Hrep). exists (audit :: audits). split.
  { constructor; [|done]. by eapply read_audit_ok. }
  intros p a. pose proof (vulnerabilities_reported project audit vs1 p a Ev) as H1.
  specialize (Hrep p a). split.
  - intros (v & [Hv|Hv]%elem_of_app & Hp & Ha).
    + exists audit. split; [by left|]. apply H1. eauto.
    + destruct (proj1 Hrep) as (audit' & Hin & Hr); [eauto|]. exists audit'. by split; [right|].
  - intros (audit' & [->|Hin]%elem_of_cons & Hr).
    + apply H1 in Hr as (v & Hv & Hp & Ha). exists v. by rewrite elem_of_app; auto.
    + destruct (proj2 Hrep) as (v & Hv & Hp & Ha); [eauto|]. exists v. by rewrite elem_of_app; auto.
Qed.

(** the Python gate passes exactly when everything reported is reviewed.  When
    the script ends with status 0 the allowlist was read, every audit command
    ended with 0 or 1 and a JSON object, and each advisory reported for an
    installed version has an allowlist entry of its package with a reason that
    has not expired.  When it ends by itself with another status, some reported
    advisory has no such entry. *)
Theorem pip_gate_reviewed path file today projects :
  let audited := λ audits,
    Forall2 (λ (pc : string * Completed) audit, json_loads (stdout pc.2) = Ok (VDict audit) ∧
      (returncode pc.2 = 0 ∨ returncode pc.2 = 1)) projects audits in
  let allowlisted := λ entries, ∃ text raw,
    file = Some text ∧ json_loads text = Ok (VDict raw) ∧ ignore_entries raw = Ok entries in
  (exit_status (main path file today projects) = 0 →
   ∃ entries audits, allowlisted entries ∧ audited audits ∧
     ∀ audit p a, audit ∈ audits → reports audit p a →
       ∃ entry, entry ∈ entries ∧ reviewed today p a entry) ∧
  (∀ n lines, main path file today projects = Ok (n, lines) → n ≠ 0 →
   ∃ entries audits audit p a, allowlisted entries ∧ audited audits ∧
     audit ∈ audits ∧ reports audit p a ∧
     ∀ entry, entry ∈ entries → ¬ reviewed today p a entry).
Proof.
  intros audited allowlisted. unfold main.
  destruct (load_allowlist path file today) as [al|] eqn:Ea; [|done].
  apply load_allowlist_ok in Ea as (text & raw & entries & Ef & Et & Ee & Hal).
  assert (Hlist : allowlisted entries) by (by exists text, raw).
  cbn [mbind result_bind]. destruct (audit_all projects) as [vs|] eqn:Ev; [|done].
  apply audit_all_ok in Ev as (audits & Haud & Hrep). cbn [mbind result_bind].
  destruct (List.filter _ vs) as [|v l] eqn:Efl; (split; [|]).
  - intros _. exists entries, audits. do 2 (split; [done|]). intros audit p a Hin Hr.
    destruct (proj2 (Hrep p a)) as (v & Hv & <- & <-); [eauto|]. apply Hal.
    destruct (is_allowed al v) eqn:E; [done|].
    assert (In v (List.filter (λ v, negb (is_allowed al v)) vs)) as Hf; [|by rewrite Efl in Hf].
    apply filter_In. rewrite E. split; [by apply list_elem_of_In|done].
  - by intros n lines [= <- _].
  - done.
  - intros n lines _ _.
    assert (In v (List.filter (λ v, negb (is_allowed al v)) vs)) as [Hv Hn]%filter_In
      by (rewrite Efl; by left).
    destruct (proj1 (Hrep (vpackage v) (advisory v))) as (audit & Hin & Hr).
    { exists v. split; [by apply list_elem_of_In|done]. }
    exists entries, audits, audit, (vpackage v), (advisory v). do 4 (split; [done|]).
    intros entry He Hrev. apply negb_true_iff in Hn.
    rewrite (proj2 (Hal v)) in Hn; [done|]. by exists entry.
Qed.
End pip.
End PipAudit.

(** ** [npm_audit_gate.py] *)

Module NpmAudit.
(** [SEVERITY_RANK]: a value that is not a key has no rank. *)
Definition severity_rank (s : string) : option Z :=
  if String.eqb s "info" then Some 0
  else if String.eqb s "low" then Some 1
  else if String.eqb s "moderate" then Some 2
  else if String.eqb s "high" then Some 3
  else if String.eqb s "critical" then Some 4
  else None.

Definition rank (s : string) : Z := default 0 (severity_rank s).

Record AllowlistEntry : Type := { package : string; reason : string; advisories : list string }.

Record Vulnerability : Type := {
  vpackage : string; severity : string; vadvisories : list string; title : string;
}.

Section npm.
Context (json_loads : string → result pyval) (decode_error : string → string).

Definition load_entry (entry : pyval) : result AllowlistEntry :=
  match entry with
  | VDict entry =>
      match dict_get "package" entry with
      | Some (VStr package) =>
          if negb (truthy package) then
            Raise (SystemExit "each allowlist entry needs a non-empty package")
          else match dict_get "reason" entry ≫= as_str with
          | Some (String c reason) =>
              match str_list truthy (default (VList []) (dict_get "advisories" entry)) with
              | Some advisories =>
                  Ok {| package := package; reason := String c reason; advisories := advisories |}
              | None => Raise (SystemExit ("allowlist entry for " +:+ package
                                 +:+ " has invalid advisories"))
              end
          | _ => Raise (SystemExit ("allowlist entry for " +:+ package +:+ " needs a reason"))
          end
      | _ => Raise (SystemExit "each allowlist entry needs a non-empty package")
      end
  | _ => Raise (SystemExit "each allowlist entry must be an object")
  end.

Definition load_allowlist (path : string) (file : option string)
    : result (list (string * list AllowlistEntry)) :=
  raw ← load_json_file json_loads decode_error path file;
  entries ← ignore_entries raw;
  load_entries load_entry package entries [].

(** [value in SEVERITY_RANK] hashes the value. *)
Definition as_severity (value : option pyval) : result string :=
  match value with
  | Some (VStr s) => Ok (match severity_rank s with Some _ => s | None => "info" end)
  | Some (VList _) => Raise (TypeError "unhashable type: 'list'")
  | Some (VDict _) => Raise (TypeError "unhashable type: 'dict'")
  | _ => Ok "info"%string
  end.

Definition via_ids (item : pyval) : list string :=
  match item with
  | VStr s => [s]
  | VDict item =>
      omap (λ field, match dict_get field item with
                     | Some (VStr value) => if truthy value then Some value else None
                     | _ => None
                     end) ["source"; "url"; "title"]
  | _ => []
  end.

Definition advisory_ids (via : pyval) : list string :=
  match via with VList items => mjoin (via_ids <$> items) | _ => [] end.

(** The title of the first entry of [via] that has one. *)
Definition first_title (package : string) (via : pyval) : string :=
  let item_title := λ item,
    match item with VDict item => dict_get "title" item ≫= as_str | _ => None end in
  match via with
  | VList items => default package (head (omap item_title items))
  | _ => package
  end.

Fixpoint read_vulnerabilities (l : list (string * pyval)) : result (list Vulnerability) :=
  match l with
  | [] => Ok []
  | (package, VDict details) :: l' =>
      let via := default (VList []) (dict_get "via" details) in
      severity ← as_severity (dict_get "severity" details);
      rest ← read_vulnerabilities l';
      Ok ({| vpackage := package; severity := severity; vadvisories := advisory_ids via;
             title := first_title package via |} :: rest)
  | _ :: l' => read_vulnerabilities l'
  end.

Definition vulnerabilities_from_audit (raw : dict) : result (list Vulnerability) :=
  match default (VDict []) (dict_get "vulnerabilities" raw) with
  | VDict vulnerabilities => read_vulnerabilities vulnerabilities
  | _ => Raise (SystemExit "npm audit JSON did not contain a vulnerabilities object")
  end.

Definition entry_allows (v : Vulnerability) (e : AllowlistEntry) : bool :=
  match advisories e with
  | [] => true
  | l => existsb (λ a, inb a l) (vadvisories v)
  end.

Definition is_allowed (allowlist : list (string * list AllowlistEntry)) (v : Vulnerability)
    : bool :=
  existsb (entry_allows v) (default [] (dict_get (vpackage v) allowlist)).

Definition run_npm_audit (completed : Completed) : result dict :=
  read_audit json_loads completed "npm audit did not return JSON"
    ("npm audit returned invalid JSON: " +:+ decode_error (stdout completed))
    "npm audit JSON root must be an object"
    ("npm audit failed: " +:+ str_of_int (returncode completed)).

(** [key=lambda item: (-SEVERITY_RANK[item.severity], item.package)] *)
Definition vuln_le (a b : Vulnerability) : bool :=
  (rank (severity b) <? rank (severity a))
  || ((rank (severity a) =? rank (severity b)) && strs_le [vpackage a] [vpackage b]).

Definition report_line (v : Vulnerability) : string :=
  "- " +:+ vpackage v +:+ ": " +:+ severity v +:+ ": " +:+ title v.

(** Whether a vulnerability fails the gate. *)
Definition failing (audit_level : string) (allowlist : list (string * list AllowlistEntry))
    (v : Vulnerability) : bool :=
  (rank audit_level <=? rank (severity v)) && negb (is_allowed allowlist v).

Definition main (audit_level path : string) (file : option string) (completed : Completed)
    : result (Z * list string) :=
  allowlist ← load_allowlist path file;
  audit ← run_npm_audit completed;
  vulnerabilities ← vulnerabilities_from_audit audit;
  match List.filter (failing audit_level allowlist) vulnerabilities with
  | [] => Ok (0, ["npm audit passed: no unallowlisted " +:+ audit_level
                    +:+ "+ vulnerabilities"])
  | failing =>
      Ok (1, ("npm audit failed: " +:+ str_of_int (Z.of_nat (length failing))
              +:+ " unallowlisted " +:+ audit_level +:+ "+ vulnerabilities")
             :: map report_line (sorted vuln_le failing))
  end.

(** *** Facts *)

(** The allowlist has an entry for the package with a reason that names no
    advisory or one of [ids]. *)
Definition reviewed (p : string) (ids : list string) (entry : pyval) : Prop :=
  ∃ d reason,
    entry = VDict d ∧ dict_get "package" d = Some (VStr p) ∧
    dict_get "reason" d = Some (VStr reason) ∧ truthy reason = true ∧
    (default (VList []) (dict_get "advisories" d) = VList [] ∨
     ∃ l a, dict_get "advisories" d = Some (VList l) ∧ VStr a ∈ l ∧ a ∈ ids).

(** The audit reports a vulnerable package, with a severity and advisories. *)
Definition reports (audit : dict) (p severity : string) (ids : list string) : Prop :=
  ∃ vulnerabilities details,
    dict_get "vulnerabilities" audit = Some (VDict vulnerabilities) ∧
    (p, VDict details) ∈ vulnerabilities ∧
    as_severity (dict_get "severity" details) = Ok severity ∧
    ids = advisory_ids (default (VList []) (dict_get "via" details)).

Lemma entry_allows_spec v e :
  entry_allows v e = true ↔ advisories e = [] ∨ ∃ a, a ∈ advisories e ∧ a ∈ vadvisories v.
Proof.
  unfold entry_allows. destruct (advisories e) as [|x l]; [split; auto|].
  rewrite existsb_exists. split.
  - intros (a & Ha%list_elem_of_In & Hl%inb_true). right. by exists a.
  - intros [|(a & Hl & Ha)]; [done|]. exists a. split; [by apply list_elem_of_In|by apply inb_true].
Qed.

Lemma npm_entry_reviewed entry e v :
  load_entry entry = Ok e →
  (package e = vpackage v ∧ entry_allows v e = true) ↔
  reviewed (vpackage v) (vadvisories v) entry.
Proof.
  unfold load_entry. destruct entry as [| | | | | |d]; try done.
  destruct (dict_get "package" d) as [[| | | |q| |]|] eqn:Ep; try done.
  destruct (negb (truthy q)); [done|].
  destruct (dict_get "reason" d) as [[| | | |r| |]|] eqn:Er; try done. cbn [mbind option_bind as_str].
  destruct r as [|c r]; [done|].
  destruct (str_list truthy _) as [ids|] eqn:Es; [|done]. intros [= <-].
  rewrite entry_allows_spec. cbn [package advisories].
  destruct (default (VList []) (dict_get "advisories" d)) as [| | | | |l|] eqn:El; try done.
  destruct (all_strs_elem truthy l ids Es) as [Hids _].
  assert (Hnil : ids = [] ↔ l = []).
  { split; [intros ->|intros ->]; [destruct l as [|x l]; [done|]|by injection Es].
    cbn in Es. destruct x; try done. destruct (truthy s), (all_strs truthy l); done. }
  unfold reviewed. split.
  - intros [-> H]. exists d, (String c r). do 4 (split; [done|]). rewrite El, Hnil in *.
    destruct H as [->|(a & Ha & Hv)]; [by left|right].
    destruct (dict_get "advisories" d) as [x|] eqn:Ea; cbn in El.
    + subst x. exists l, a. by rewrite <- Hids.
    + injection El as <-. rewrite Hids in Ha. set_solver.
  - intros (d' & r' & [= <-] & H1 & _ & _ & H). split; [congruence|]. rewrite El in H.
    destruct H as [[= ->]|(l' & a & Ha & Hin & Hv)]; [left; by apply Hnil|right].
    rewrite Ha in El. injection El as ->. exists a. by rewrite Hids.
Qed.

Lemma npm_allowlist_ok path file al :
  load_allowlist path file = Ok al →
  ∃ text raw entries,
    file = Some text ∧ json_loads text = Ok (VDict raw) ∧ ignore_entries raw = Ok entries ∧
    ∀ v, is_allowed al v = true ↔
         ∃ entry, entry ∈ entries ∧ reviewed (vpackage v) (vadvisories v) entry.
Proof.
  unfold load_allowlist. intros H.
  destruct (load_json_file json_loads decode_error path file) as [raw|] eqn:Er; [|done].
  apply load_json_file_ok in Er as (text & -> & Et). cbn in H.
  destruct (ignore_entries raw) as [entries|] eqn:Ee; [|done]. cbn in H.
  exists text, raw, entries. do 3 (split; [done|]). intros v. unfold is_allowed.
  rewrite existsb_exists. split.
  - intros (e & Hin%list_elem_of_In & Ha). rewrite (load_entries_elem _ _ _ _ _ _ _ H) in Hin.
    destruct Hin as [Hin|(entry & He & Hl & Hp)]; [set_solver|]. exists entry. split; [done|].
    by apply (npm_entry_reviewed entry e).
  - intros (entry & He & Hrev).
    destruct (load_entries_all _ _ _ _ _ H entry He) as (e & El).
    destruct (proj2 (npm_entry_reviewed entry e v El) Hrev) as [Hp Ha]. exists e.
    split; [|done]. apply list_elem_of_In. rewrite (load_entries_elem _ _ _ _ _ _ _ H).
    right. by exists entry.
Qed.

Lemma read_vulnerabilities_spec l vs p sev ids :
  read_vulnerabilities l = Ok vs →
  (∃ v, v ∈ vs ∧ vpackage v = p ∧ severity v = sev ∧ vadvisories v = ids) ↔
  (∃ details, (p, VDict details) ∈ l ∧ as_severity (dict_get "severity" details) = Ok sev ∧
     ids = advisory_ids (default (VList []) (dict_get "via" details))).
Proof.
  revert vs. induction l as [|[q details] l IH]; intros vs H; cbn in H.
  { injection H as <-. set_solver. }
  destruct details as [| | | | | |d];
    try (rewrite (IH _ H); split; intros (x & Hx & Hr); exists x; split; try done;
         [by right|by apply elem_of_cons in Hx as [Hx|Hx]]).
  destruct (as_severity (dict_get "severity" d)) as [s|] eqn:Es; [|done]. cbn in H.
  destruct (read_vulnerabilities l) as [rest|]; [|done]. cbn in H. injection H as <-.
  specialize (IH rest eq_refl). split.
  - intros (v & [->|Hv]%elem_of_cons & Hp & Hs & Hi).
    + cbn in Hp, Hs, Hi. subst. exists d. by split; [left|].
    + destruct (proj1 IH) as (x & Hx & Hr); [by exists v|]. exists x. by split; [right|].
  - intros (x & [[= -> ->]|Hx]%elem_of_cons & Hs & Hi).
    + eexists. split; [by left|]. cbn. by rewrite Es in Hs; simplify_eq.
    + destruct (proj2 IH) as (v & Hv & Hr); [by exists x|]. exists v. by split; [right|].
Qed.

Lemma npm_vulnerabilities_reported audit vs p sev ids :
  vulnerabilities_from_audit audit = Ok vs →
  (∃ v, v ∈ vs ∧ vpackage v = p ∧ severity v = sev ∧ vadvisories v = ids) ↔
  reports audit p sev ids.
Proof.
  unfold vulnerabilities_from_audit, reports.
  destruct (dict_get "vulnerabilities" audit) as [[| | | | | |l]|]; cbn [default]; try done.
  - intros H. rewrite (read_vulnerabilities_spec l vs p sev ids H). split.
    + intros (d & Hd & Hr). by exists l, d.
    + intros (l' & d & [= <-] & Hd & Hr). by exists d.
  - intros [= <-]. split; [set_solver|]. by intros (? & ? & ? & _).
Qed.

(** the npm gate passes exactly when what it reads at its level is reviewed.
    When the script ends with status 0, every package the audit reports with a
    severity of at least the level has an allowlist entry with a reason that
    names none or one of its advisories; when it ends by itself with another
    status, some such package has no entry of the kind. *)
Theorem npm_gate_reviewed level path file completed :
  let allowlisted := λ entries, ∃ text raw,
    file = Some text ∧ json_loads text = Ok (VDict raw) ∧ ignore_entries raw = Ok entries in
  (exit_status (main level path file completed) = 0 →
   ∃ entries audit, allowlisted entries ∧ json_loads (stdout completed) = Ok (VDict audit) ∧
     ∀ p sev ids, reports audit p sev ids → rank level <= rank sev →
       ∃ entry, entry ∈ entries ∧ reviewed p ids entry) ∧
  (∀ n lines, main level path file completed = Ok (n, lines) → n ≠ 0 →
   ∃ entries audit p sev ids, allowlisted entries ∧
     json_loads (stdout completed) = Ok (VDict audit) ∧
     reports audit p sev ids ∧ rank level <= rank sev ∧
     ∀ entry, entry ∈ entries → ¬ reviewed p ids entry).
Proof.
  intros allowlisted. unfold main.
  destruct (load_allowlist path file) as [al|] eqn:Ea; [|done].
  apply npm_allowlist_ok in Ea as (text & raw & entries & Ef & Et & Ee & Hal).
  assert (Hlist : allowlisted entries) by (by exists text, raw).
  cbn [mbind result_bind]. destruct (run_npm_audit completed) as [audit|] eqn:Er; [|done].
  apply read_audit_ok in Er as [Er _]. cbn [mbind result_bind].
  destruct (vulnerabilities_from_audit audit) as [vs|] eqn:Ev; [|done]. cbn [mbind result_bind].
  assert (Hrep := λ p sev ids, npm_vulnerabilities_reported audit vs p sev ids Ev).
  destruct (List.filter _ vs) as [|v l] eqn:Efl; (split; [|]).
  - intros _. exists entries, audit. do 2 (split; [done|]). intros p sev ids Hr Hle.
    destruct (proj2 (Hrep p sev ids) Hr) as (v & Hv & <- & <- & <-). apply Hal.
    destruct (is_allowed al v) eqn:E; [done|].
    assert (In v (List.filter (failing level al) vs)) as Hf; [|by rewrite Efl in Hf].
    apply filter_In. split; [by apply list_elem_of_In|]. unfold failing.
    rewrite E. apply Z.leb_le in Hle. by rewrite Hle.
  - by intros n lines [= <- _].
  - done.
  - intros n lines _ _.
    assert (In v (List.filter (failing level al) vs)) as [Hv Hn]%filter_In
      by (rewrite Efl; by left).
    apply andb_true_iff in Hn as [Hle%Z.leb_le Hn%negb_true_iff].
    exists entries, audit, (vpackage v), (severity v), (vadvisories v).
    do 2 (split; [done|]). split; [|split; [done|]].
    + apply Hrep. exists v. split; [by apply list_elem_of_In|done].
    + intros entry He Hrev. rewrite (proj2 (Hal v)) in Hn; [done|]. by exists entry.
Qed.

(** What npm prints when the audit itself failed, with status 1, passes: the
    object has no [vulnerabilities]. *)
Lemma npm_error_passes level path raw completed e :
  json_loads "{}" = Ok (VDict []) → json_loads (stdout completed) = Ok (VDict [("error"%string, e)]) →
  strip (stdout completed) ≠ EmptyString → returncode completed = 1 → raw = "{}"%string →
  exit_status (main level path (Some raw) completed) = 0.
Proof.
  intros H1 H2 H3 H4 ->. unfold main, load_allowlist, load_json_file. rewrite H1. cbn.
  unfold run_npm_audit, read_audit. rewrite H2, H4. apply truthy_true in H3. by rewrite H3.
Qed.
End npm.
End NpmAudit.

(** ** Examples *)

Section examples.
Definition no_floats (_ : string) : pyfloat := SpecFloat.S754_nan.
Abbreviation loads := (json_loads no_floats).

(** The text of a JSON value. *)
Definition text_of (v : pyval) : string := json_dumps (λ _, EmptyString) "," ":" v.

Definition vulnerable_audit : pyval :=
  VDict [("dependencies"%string, VList [VDict [
    ("name"%string, VStr "requests"); ("version"%string, VStr "2.0");
    ("vulns"%string, VList [VDict [("id"%string, VStr "PYSEC-1")]])]])].

Definition entry_for (advisory : string) : pyval :=
  VDict [("ignore"%string, VList [VDict [
    ("package"%string, VStr "requests"); ("advisories"%string, VList [VStr advisory]);
    ("reason"%string, VStr "not reachable"); ("expires"%string, VStr "7")]])].

Definition pip_run (allowlist audit : pyval) : result (Z * list string) :=
  PipAudit.main loads (λ _, "bad"%string) (λ s, if String.eqb s "7" then Some 7 else None)
    str_of_int "allow.json" (Some (text_of allowlist)) 5
    [("backend"%string, {| returncode := 1; stdout := text_of audit; stderr := EmptyString |})].

Example reviewed_advisory_passes :
  exit_status (pip_run (entry_for "PYSEC-1") vulnerable_audit) = 0.
Proof. by vm_compute. Qed.

Example unreviewed_advisory_fails :
  pip_run (entry_for "PYSEC-2") vulnerable_audit
  = Ok (1, ["pip-audit failed: 1 unallowlisted vulnerabilities"%string;
            "- backend: requests 2.0: PYSEC-1 (no fix version)"%string]).
Proof. by vm_compute. Qed.

(** npm's report of its own failure. *)
Example npm_failure_passes :
  NpmAudit.main loads (λ _, "bad"%string) "high" "allow.json" (Some "{}"%string)
    {| returncode := 1; stderr := EmptyString;
       stdout := text_of (VDict [("error"%string, VDict [("code"%string, VStr "ENOLOCK")])]) |}
  = Ok (0, ["npm audit passed: no unallowlisted high+ vulnerabilities"%string]).
Proof. by vm_compute. Qed.
End examples.
