(* ===== verification/SdkIntegrations.v ===== *)
(** * The client SDK: provider integrations

    [sdk/llm_obs/integrations/openai.py] and [anthropic.py]: a client's method
    is replaced by one that records a span of every call, and a streamed answer
    is wrapped.  What the two files share is stated once, over the interface
    [Integration]; its instances are what they differ in. *)

From S2P Require Import Prelude Text PyVal Decimal Schema App SpanSchema Sdk SdkTrace Otlp.

Local Open Scope Z_scope.

(** ** Objects of the provider's library

    JSON-like values, objects with attributes, and lists of them. *)
Inductive obj : Type :=
| OVal (v : pyval)
| OInstance (attrs : list (string * obj))
| OList (l : list obj).

Abbreviation none := (OVal VNone).

Definition _get_value (o : obj) (name : string) (dflt : obj) : obj :=
  match o with
  | OVal (VDict d) => match dict_get name d with Some v => OVal v | None => dflt end
  | OInstance attrs => default dflt (dict_get name attrs)
  | _ => dflt
  end.

Definition truthy_obj (o : obj) : bool :=
  match o with
  | OVal v => truthy_val v
  | OInstance _ => true
  | OList l => match l with [] => false | _ => true end
  end.

(** [int(o or 0)] *)
Definition int_or_zero (o : obj) : result Z :=
  if truthy_obj o then
    match o with
    | OVal v => py_int v
    | _ => Raise (TypeError "int() argument must be a string or a number")
    end
  else Ok 0.

(** [o[0]] *)
Definition first_item (o : obj) : result obj :=
  match o with
  | OList (x :: _) => Ok x
  | OVal (VList (v :: _)) => Ok (OVal v)
  | OVal (VStr (String c _)) => Ok (OVal (VStr (String c EmptyString)))
  | OVal (VDict _) => Raise (KeyError "0")
  | OList [] | OVal (VList []) | OVal (VStr EmptyString) => Raise (OtherError "IndexError")
  | _ => Raise (TypeError "object is not subscriptable")
  end.

Definition is_none (o : obj) : bool := match o with none => true | _ => false end.

(** [EmptyString.join(parts) or None] *)
Fixpoint join_parts (parts : list obj) : result string :=
  match parts with
  | [] => Ok EmptyString
  | OVal (VStr s) :: parts' => rest ← join_parts parts'; Ok (s +:+ rest)
  | _ => Raise (TypeError "sequence item: expected str instance")
  end.

Definition output_of_parts (parts : list obj) : result obj :=
  s ← join_parts parts; Ok (if truthy s then OVal (VStr s) else none).

(** What a stream has shown so far. *)
Record Capture : Type := {
  _output_parts : list obj; _input_tokens : Z; _output_tokens : Z;
}.

Definition new_capture : Capture :=
  {| _output_parts := []; _input_tokens := 0; _output_tokens := 0 |}.

Definition add_part (delta : obj) (c : Capture) : Capture :=
  {| _output_parts := _output_parts c ++ [delta]; _input_tokens := _input_tokens c;
     _output_tokens := _output_tokens c |}.

Definition set_tokens (usage : Z * Z) (c : Capture) : Capture :=
  {| _output_parts := _output_parts c; _input_tokens := usage.1; _output_tokens := usage.2 |}.

(** ** The interface *)

Class Integration : Type := {
  span_name : string;
  span_provider : string;
  _extract_usage : obj → result (Z * Z);
  _extract_output : obj → result obj;
  (** [_capture_chunk], [_capture_event] *)
  capture_chunk : obj → M Capture unit;
  (** the metadata that does not concern streaming, from the [system] argument *)
  base_metadata : obj → list (string * obj);
  (** a call that raised has no response *)
  extract_usage_none : _extract_usage none = Ok (0, 0);
  extract_output_none : _extract_output none = Ok none;
}.

Definition usage_fields (input output : string) (usage : obj) : result (Z * Z) :=
  i ← int_or_zero (_get_value usage input (OVal (VInt 0)));
  o ← int_or_zero (_get_value usage output (OVal (VInt 0)));
  Ok (i, o).

(** [_get_value(obj, name, []) or []] *)
Definition items (o : obj) (name : string) : obj :=
  let v := _get_value o name (OList []) in if truthy_obj v then v else OList [].

(** *** OpenAI *)

Module OpenAI.
Definition _extract_usage (response : obj) : result (Z * Z) :=
  usage_fields "prompt_tokens" "completion_tokens" (_get_value response "usage" none).

Definition _extract_output (response : obj) : result obj :=
  let choices := items response "choices" in
  if negb (truthy_obj choices) then Ok none
  else choice ← first_item choices;
       Ok (_get_value (_get_value choice "message" none) "content" none).

Definition _extract_stream_delta (chunk : obj) : result obj :=
  let choices := items chunk "choices" in
  if negb (truthy_obj choices) then Ok (OVal (VStr EmptyString))
  else choice ← first_item choices;
       let content := _get_value (_get_value choice "delta" none) "content"
                        (OVal (VStr EmptyString)) in
       Ok (if truthy_obj content then content else OVal (VStr EmptyString)).

Definition _capture_chunk (chunk : obj) : M Capture unit :=
  delta ← lift (_extract_stream_delta chunk);
  (if truthy_obj delta then modify (add_part delta) else mret tt);;
  if is_none (_get_value chunk "usage" none) then mret tt
  else usage ← lift (_extract_usage chunk); modify (set_tokens usage).
End OpenAI.

#[export] Instance openai : Integration := {|
  span_name := "openai.chat.completions.create"; span_provider := "openai";
  _extract_usage := OpenAI._extract_usage; _extract_output := OpenAI._extract_output;
  capture_chunk := OpenAI._capture_chunk; base_metadata := λ _, [];
  extract_usage_none := eq_refl; extract_output_none := eq_refl;
|}.

(** *** Anthropic *)

Module Anthropic.
Definition _extract_usage (response : obj) : result (Z * Z) :=
  usage_fields "input_tokens" "output_tokens" (_get_value response "usage" none).

Definition _extract_output (response : obj) : result obj :=
  let content := items response "content" in
  if negb (truthy_obj content) then Ok none
  else block ← first_item content; Ok (_get_value block "text" none).

Section anthropic.
(** [str(o)] of an object that is not a string *)
Context (py_str : obj → string).

Definition str_obj (o : obj) : string := match o with OVal (VStr s) => s | _ => py_str o end.

Definition _extract_stream_delta (event : obj) : string :=
  let text := _get_value (_get_value event "delta" none) "text" none in
  if truthy_obj text then str_obj text
  else
    let text := _get_value (_get_value event "content_block" none) "text" none in
    if truthy_obj text then str_obj text else EmptyString.

Definition _extract_message_start_usage (event : obj) : result (Z * Z) :=
  usage_fields "input_tokens" "output_tokens"
    (_get_value (_get_value event "message" none) "usage" none).

Definition _capture_event (event : obj) : M Capture unit :=
  let delta := _extract_stream_delta event in
  (if truthy delta then modify (add_part (OVal (VStr delta))) else mret tt);;
  start ← lift (_extract_message_start_usage event);
  (if negb (start.1 =? 0) || negb (start.2 =? 0) then modify (set_tokens start) else mret tt);;
  let usage := _get_value event "usage" none in
  if is_none usage then mret tt
  else
    output_tokens ← lift (int_or_zero (_get_value usage "output_tokens" (OVal (VInt 0))));
    if output_tokens =? 0 then mret tt
    else modify (λ c, set_tokens (_input_tokens c, output_tokens) c).

Definition anthropic : Integration := {|
  span_name := "anthropic.messages.create"; span_provider := "anthropic";
  SdkIntegrations._extract_usage := _extract_usage;
  SdkIntegrations._extract_output := _extract_output;
  capture_chunk := _capture_event; base_metadata := λ system, [("system"%string, system)];
  extract_usage_none := eq_refl; extract_output_none := eq_refl;
|}.
End anthropic.
End Anthropic.

(** ** Calls *)

(** The keyword arguments that are looked at. *)
Record Kwargs : Type := {
  kw_messages : option obj; kw_model : option obj; kw_system : option obj;
  kw_stream : option obj;
}.

(** An asynchronous iterator of the library: the chunks to come, how it ends, and
    its [aclose] with what that raises, if it has one. *)
Record Stream : Type := {
  pending : list obj; failure : option exn; closing : option (option exn);
}.

Inductive Response : Type :=
| Answer (o : obj)
| Streaming (st : Stream).

(** [tracer.SpanData] as the integrations fill it in. *)
Record SdkSpan : Type := {
  x_trace_id : string; x_span_id : string; x_parent_span_id : option string;
  x_span_name : string; x_provider : string; x_model : obj; x_messages : obj;
  x_output : obj; x_error_text : option string; x_input_tokens : Z; x_output_tokens : Z;
  x_latency : Z; x_started_at : timestamp; x_metadata : list (string * obj);
}.

(** What the call knows of its span when it starts. *)
Record Info : Type := {
  i_trace : string; i_span : string; i_parent : option string; i_model : obj;
  i_messages : obj; i_system : obj; i_started : timestamp; i_start : Z;
}.

Inductive gen_state : Type := NotStarted | Suspended | Finished.

(** [_TracedOpenAIStream], [_TracedAnthropicStream], with the generator of its
    last [__aiter__]. *)
Record TracedStream : Type := {
  _stream : Stream; _info : Info; _capture : Capture; _recorded : bool; _gen : gen_state;
}.

Inductive Returned : Type :=
| Plain (r : Response)
| Wrapped (t : TracedStream).

Section integrations.
Context `{Integration}.
(** The rest of the program, and its clocks: [datetime.now] and [perf_counter] in
    milliseconds; the ids drawn; the text of an exception. *)
Context {U : Type} (wall perf : U → Z) (uuid4 : nat → string) (error_text : exn → string).

(** The rest of the program, the context variables, whether there is a tracer,
    and what was recorded. *)
Record State : Type := {
  user : U; ctx : Ctx; has_tracer : bool; recorded : list SdkSpan;
}.

Definition set_user (u : U) (s : State) : State :=
  {| user := u; ctx := ctx s; has_tracer := has_tracer s; recorded := recorded s |}.
Definition set_ctx (c : Ctx) (s : State) : State :=
  {| user := user s; ctx := c; has_tracer := has_tracer s; recorded := recorded s |}.

(** [try: _get_tracer().record(SpanData(...)) except Exception]: a span that
    cannot be built, or has no tracer, is dropped. *)
Definition try_record (span : result SdkSpan) (s : State) : State :=
  match span with
  | Ok x => if has_tracer s then
              {| user := user s; ctx := ctx s; has_tracer := true; recorded := recorded s ++ [x] |}
            else s
  | Raise _ => s
  end.

Definition span_of (i : Info) (output : obj) (error : option string) (tokens : Z * Z)
    (finish : Z) (metadata : list (string * obj)) : SdkSpan :=
  {| x_trace_id := i_trace i; x_span_id := i_span i; x_parent_span_id := i_parent i;
     x_span_name := span_name; x_provider := span_provider; x_model := i_model i;
     x_messages := i_messages i; x_output := output; x_error_text := error;
     x_input_tokens := tokens.1; x_output_tokens := tokens.2; x_latency := finish - i_start i;
     x_started_at := i_started i; x_metadata := metadata |}.

(** The span of an answered call; [None] is the response of a call that raised. *)
Definition call_span (i : Info) (response : obj) (error : option string) (finish : Z)
    : result SdkSpan :=
  tokens ← _extract_usage response;
  output ← _extract_output response;
  Ok (span_of i output error tokens finish (base_metadata (i_system i))).

Definition stream_span (i : Info) (c : Capture) (error : option string) (completed : bool)
    (finish : Z) : result SdkSpan :=
  output ← output_of_parts (_output_parts c);
  Ok (span_of i output error (_input_tokens c, _output_tokens c) finish
        (base_metadata (i_system i)
         ++ [("stream"%string, OVal (VBool true));
             ("stream_complete"%string, OVal (VBool completed))])).

(** What a response that is not a stream wrapper looks like to [_get_value]. *)
Definition response_obj (r : Response) : obj :=
  match r with Answer o => o | Streaming _ => OInstance [] end.

(** [traced] of a client's method [original]. *)
Definition traced (original : Kwargs → U → result Response * U) (kwargs : Kwargs)
    : M State Returned := λ s,
  let '(trace_id, span_id, n) := call_ids uuid4 false (ctx s) in
  let i := {| i_trace := trace_id; i_span := span_id; i_parent := _current_span_id (ctx s);
              i_model := default (OVal (VStr "unknown")) (kw_model kwargs);
              i_messages := default (OList []) (kw_messages kwargs);
              i_system := default none (kw_system kwargs);
              i_started := wall (user s); i_start := perf (user s) |} in
  let is_stream := truthy_obj (default none (kw_stream kwargs)) in
  let '(r, u) := original kwargs (user s) in
  let after := set_user u (set_ctx {| _current_trace_id := _current_trace_id (ctx s);
                                      _current_span_id := _current_span_id (ctx s);
                                      drawn := n; placed := placed (ctx s) |} s) in
  match r with
  | Ok (Streaming st) =>
      if is_stream then
        (Ok (Wrapped {| _stream := st; _info := i; _capture := new_capture;
                        _recorded := false; _gen := NotStarted |}), after)
      else (Ok (Plain (Streaming st)),
            try_record (call_span i (response_obj (Streaming st)) None (perf u)) after)
  | Ok (Answer o) => (Ok (Plain (Answer o)), try_record (call_span i o None (perf u)) after)
  | Raise e => (Raise e, try_record (call_span i none (Some (error_text e)) (perf u)) after)
  end.

(** ** Streams *)

(** One step of the library's iterator. *)
Definition next_chunk (st : Stream) : option (result obj) * Stream :=
  match pending st, failure st with
  | x :: rest, _ =>
      (Some (Ok x), {| pending := rest; failure := failure st; closing := closing st |})
  | [], Some e => (Some (Raise e), {| pending := []; failure := None; closing := closing st |})
  | [], None => (None, st)
  end.

Definition closed (st : Stream) : Stream :=
  {| pending := []; failure := None; closing := closing st |}.

Definition set_stream (st : Stream) (t : TracedStream) : TracedStream :=
  {| _stream := st; _info := _info t; _capture := _capture t; _recorded := _recorded t;
     _gen := _gen t |}.
Definition set_gen (g : gen_state) (t : TracedStream) : TracedStream :=
  {| _stream := _stream t; _info := _info t; _capture := _capture t; _recorded := _recorded t;
     _gen := g |}.
Definition set_capture (c : Capture) (t : TracedStream) : TracedStream :=
  {| _stream := _stream t; _info := _info t; _capture := c; _recorded := _recorded t;
     _gen := _gen t |}.

(** [_record] *)
Definition _record (error : option string) (completed : bool) (ts : TracedStream * State)
    : TracedStream * State :=
  let '(t, s) := ts in
  if _recorded t then (t, s)
  else ({| _stream := _stream t; _info := _info t; _capture := _capture t; _recorded := true;
           _gen := _gen t |},
        try_record (stream_span (_info t) (_capture t) error completed (perf (user s))) s).

(** The generator ends. *)
Definition finish (error : option string) (completed : bool) (t : TracedStream) (s : State)
    : TracedStream * State := _record error completed (set_gen Finished t, s).

(** What the consumer of a stream does: [aiter], [anext], [aclose] of the
    wrapper, and giving up the generator where it is suspended. *)
Inductive Op : Type := Aiter | Anext | Aclose | Abandon.

(** What it sees. *)
Inductive Seen : Type := Nothing | Item (o : obj) | End | Raised (e : exn).

Definition stream_op (op : Op) (ts : TracedStream * State) : Seen * (TracedStream * State) :=
  let '(t, s) := ts in
  match op with
  | Aiter => (Nothing, (set_gen NotStarted t, s))
  | Anext =>
      match _gen t with
      | Finished => (End, (t, s))
      | _ =>
          match next_chunk (_stream t) with
          | (None, st) => (End, finish None true (set_stream st t) s)
          | (Some (Raise e), st) => (Raised e, finish (Some (error_text e)) false (set_stream st t) s)
          | (Some (Ok x), st) =>
              match capture_chunk x (_capture t) with
              | (Ok _, c) => (Item x, (set_gen Suspended (set_capture c (set_stream st t)), s))
              | (Raise e, c) =>
                  (Raised e, finish (Some (error_text e)) false (set_capture c (set_stream st t)) s)
              end
          end
      end
  | Aclose =>
      match closing (_stream t) with
      | Some (Some e) => (Raised e, (t, s))
      | Some None => (Nothing, _record None false (set_stream (closed (_stream t)) t, s))
      | None => (Nothing, _record None false (t, s))
      end
  | Abandon =>
      match _gen t with
      | Suspended => (Nothing, finish None false t s)
      | _ => (Nothing, (set_gen Finished t, s))
      end
  end.

(** The rest of the program goes on before each operation. *)
Fixpoint consume (ops : list (U * Op)) (ts : TracedStream * State)
    : list Seen * (TracedStream * State) :=
  match ops with
  | [] => ([], ts)
  | (u, op) :: ops' =>
      let '(seen, ts1) := stream_op op (ts.1, set_user u ts.2) in
      let '(rest, ts2) := consume ops' ts1 in (seen :: rest, ts2)
  end.

(** *** The stream itself, iterated by a generator of its own *)

Definition bare_op (op : Op) (b : Stream * gen_state) : Seen * (Stream * gen_state) :=
  let '(st, g) := b in
  match op with
  | Aiter => (Nothing, (st, NotStarted))
  | Anext =>
      match g with
      | Finished => (End, b)
      | _ =>
          match next_chunk st with
          | (None, st') => (End, (st', Finished))
          | (Some (Raise e), st') => (Raised e, (st', Finished))
          | (Some (Ok x), st') => (Item x, (st', Suspended))
          end
      end
  | Aclose =>
      match closing st with
      | Some (Some e) => (Raised e, b)
      | Some None => (Nothing, (closed st, g))
      | None => (Nothing, b)
      end
  | Abandon => (Nothing, (st, Finished))
  end.

Fixpoint bare_consume (ops : list Op) (b : Stream * gen_state) : list Seen :=
  match ops with
  | [] => []
  | op :: ops' => let '(seen, b') := bare_op op b in seen :: bare_consume ops' b'
  end.

(** An operation with which the consumer is done with the stream: it meets its end
    or its failure, closes it, or gives it up after an item. *)
Definition settles (op : Op) (b : Stream * gen_state) : bool :=
  match op with
  | Aiter => false
  | Anext => match b.2, pending b.1 with
             | Finished, _ => false
             | _, [] => true
             | _, _ => false
             end
  | Aclose => match closing b.1 with Some (Some _) => false | _ => true end
  | Abandon => match b.2 with Suspended => true | _ => false end
  end.

Fixpoint settled (ops : list Op) (b : Stream * gen_state) : bool :=
  match ops with
  | [] => false
  | op :: ops' => settles op b || settled ops' (bare_op op b).2
  end.

(** ** Patching *)

(** The client's method: as it comes, or [traced] with the mark on it. *)
Inductive Method : Type :=
| Original (f : Kwargs → U → result Response * U)
| Traced (f : Kwargs → U → result Response * U).

Definition call_method (m : Method) (kwargs : Kwargs) : M State Returned :=
  match m with
  | Original f => λ s,
      let '(r, u) := f kwargs (user s) in
      (match r with Ok x => Ok (Plain x) | Raise e => Raise e end, set_user u s)
  | Traced f => traced f kwargs
  end.

(** [patch_openai], [patch_anthropic] *)
Definition patch (m : Method) : Method :=
  match m with Original f => Traced f | Traced f => Traced f end.

(** ** Facts *)

(** The answer without the wrapper. *)
Definition unwrap (r : result Returned) : result Response :=
  match r with
  | Ok (Plain x) => Ok x
  | Ok (Wrapped t) => Ok (Streaming (_stream t))
  | Raise e => Raise e
  end.

Lemma try_record_spec span s :
  let s' := try_record span s in
  user s' = user s ∧ ctx s' = ctx s ∧ has_tracer s' = has_tracer s ∧
  recorded s' = recorded s ++ match span with
                              | Ok x => if has_tracer s then [x] else []
                              | Raise _ => []
                              end.
Proof.
  unfold try_record. destruct span as [x|e]; [|by rewrite app_nil_r].
  destruct (has_tracer s) eqn:E; cbn; [done|by rewrite app_nil_r].
Qed.

Lemma call_span_ok i o error t x :
  call_span i o error t = Ok x →
  x_trace_id x = i_trace i ∧ x_span_id x = i_span i ∧ x_parent_span_id x = i_parent i ∧
  x_error_text x = error.
Proof.
  unfold call_span. destruct (_extract_usage o); [|done]. cbn.
  destruct (_extract_output o); [|done]. cbn. by intros [= <-].
Qed.

(** a patched client answers as the client does.  Whatever the method does and
    whatever goes wrong in recording, calling it through the patch returns or
    raises the same, streams wrapped, leaves the rest of the program the same
    and the trace context as it was, and records at most one span, under the
    enclosing span and in its trace; a call that raises is recorded with its
    error whenever there is a tracer, and patching again changes nothing. *)
Theorem patched_call_transparent f kwargs s :
  let '(r, u) := f kwargs (user s) in
  let '(r', s') := call_method (patch (Original f)) kwargs s in
  unwrap r' = r ∧ user s' = u ∧
  _current_trace_id (ctx s') = _current_trace_id (ctx s) ∧
  _current_span_id (ctx s') = _current_span_id (ctx s) ∧
  patch (patch (Original f)) = patch (Original f) ∧
  ∃ l, recorded s' = recorded s ++ l ∧ (length l <= 1)%nat ∧
    Forall (λ x, x_parent_span_id x = _current_span_id (ctx s) ∧
      (∀ t, _current_trace_id (ctx s) = Some t → truthy t = true → x_trace_id x = t) ∧
      x_error_text x = match r with Raise e => Some (error_text e) | Ok _ => None end) l ∧
    (∀ e, r = Raise e → has_tracer s = true → l ≠ []).
Proof.
  destruct (f kwargs (user s)) as [r u] eqn:Ef. cbn [patch call_method]. unfold traced.
  destruct (call_ids uuid4 false (ctx s)) as [[t sp] n] eqn:Eid. rewrite Ef.
  set (i := Build_Info _ _ _ _ _ _ _ _). set (after := set_user u _).
  assert (Ht : ∀ t0, _current_trace_id (ctx s) = Some t0 → truthy t0 = true → t = t0).
  { intros t0 Et Hv. unfold call_ids in Eid. rewrite Et, Hv in Eid. congruence. }
  assert (Hrec : ∀ o error, let s' := try_record (call_span i o error (perf u)) after in
    user s' = u ∧ _current_trace_id (ctx s') = _current_trace_id (ctx s) ∧
    _current_span_id (ctx s') = _current_span_id (ctx s) ∧
    ∃ l, recorded s' = recorded s ++ l ∧ (length l <= 1)%nat ∧
      Forall (λ x, x_parent_span_id x = _current_span_id (ctx s) ∧
        (∀ t, _current_trace_id (ctx s) = Some t → truthy t = true → x_trace_id x = t) ∧
        x_error_text x = error) l ∧
      (o = none → has_tracer s = true → l ≠ [])).
  { intros o error. cbv zeta.
    destruct (try_record_spec (call_span i o error (perf u)) after) as (-> & -> & _ & ->).
    split_and!; [done..|]. eexists. split; [reflexivity|].
    destruct (call_span i o error (perf u)) as [x|e] eqn:Ex.
    - apply call_span_ok in Ex as (E1 & E2 & E3 & E4).
      cbn [has_tracer after set_user set_ctx].
      destruct (has_tracer s); cbn; (split; [lia|]); split; try done.
      apply Forall_singleton. rewrite E1, E3. by split_and!.
    - split; [cbn; lia|]. split; [constructor|]. intros ->. unfold call_span in Ex.
      by rewrite extract_usage_none, extract_output_none in Ex. }
  destruct r as [[o|st]|e].
  - destruct (Hrec o None) as (H1 & H2 & H3 & l & H4 & H5 & H6 & _).
    split_and!; try done. by exists l.
  - destruct (truthy_obj _).
    + split_and!; try done. exists []. cbn. rewrite app_nil_r. split_and!; [done|lia|done|done].
    + destruct (Hrec (response_obj (Streaming st)) None) as (H1 & H2 & H3 & l & H4 & H5 & H6 & _).
      split_and!; try done. by exists l.
  - destruct (Hrec none (Some (error_text e))) as (H1 & H2 & H3 & l & H4 & H5 & H6 & H7).
    split_and!; try done. exists l. split_and!; try done. intros e' _. by apply H7.
Qed.

(** *** Streams *)

(** The chunks that [capture_chunk] can read. *)
Definition readable_chunk (x : obj) : Prop := ∀ c, (capture_chunk x c).1 = Ok tt.

(** What a stream has shown after some chunks. *)
Definition captured (l : list obj) : Capture :=
  foldl (λ c x, (capture_chunk x c).2) new_capture l.

Definition bare_of (t : TracedStream) : Stream * gen_state := (_stream t, _gen t).

Lemma record_frame error completed t s :
  bare_of (_record error completed (t, s)).1 = bare_of t ∧
  _capture (_record error completed (t, s)).1 = _capture t ∧
  _info (_record error completed (t, s)).1 = _info t ∧
  _recorded (_record error completed (t, s)).1 = true ∧
  ctx (_record error completed (t, s)).2 = ctx s ∧
  has_tracer (_record error completed (t, s)).2 = has_tracer s.
Proof.
  unfold _record. destruct (_recorded t) eqn:E; [done|]. cbn.
  by destruct (try_record_spec (stream_span (_info t) (_capture t) error completed (perf (user s))) s)
    as (_ & -> & -> & _).
Qed.

Ltac open_record :=
  match goal with |- context [_record ?er ?co (?t1, ?s1)] =>
    let Hb := fresh "Hb" in
    pose proof (record_frame er co t1 s1) as (Hb & _);
    destruct (_record er co (t1, s1)) as [? ?]; unfold bare_of in Hb; cbn in Hb;
    injection Hb as -> ->
  end.

(** An operation shows what it would show on the stream itself. *)
Lemma stream_op_bare op t s :
  Forall readable_chunk (pending (_stream t)) →
  let '(seen, (t', s')) := stream_op op (t, s) in
  bare_op op (bare_of t) = (seen, bare_of t') ∧ Forall readable_chunk (pending (_stream t')).
Proof.
  intros Hr. unfold bare_of. destruct op; cbn [stream_op bare_op].
  - by split.
  - destruct (_gen t) eqn:Eg; try by (cbn; rewrite Eg).
    all: unfold next_chunk; destruct (pending (_stream t)) as [|x rest] eqn:Ep.
    all: try (apply Forall_cons in Hr as [Hx Hr]; specialize (Hx (_capture t));
              destruct (capture_chunk x (_capture t)) as [[[]|e] c]; [by split|done]).
    all: destruct (failure (_stream t)) as [e|]; unfold finish.
    all: open_record; split; [done|].
    all: try constructor; cbn; by rewrite Ep.
  - destruct (closing (_stream t)) as [[e|]|]; [by split| |].
    all: open_record; split; [done|].
    + constructor.
    + done.
  - destruct (_gen t); [by split| |by split]. unfold finish.
    by open_record.
Qed.

(** What was recorded of the stream [chunks] since the state [s0]. *)
Definition logged (chunks : list obj) (i : Info) (s0 : State) (ts : TracedStream * State) : Prop :=
  let '(t, s) := ts in
  _info t = i ∧ ctx s = ctx s0 ∧ has_tracer s = has_tracer s0 ∧
  if _recorded t then
    ∃ k error completed finish,
      (completed = true → (length chunks <= k)%nat ∧ error = None) ∧
      recorded s = recorded s0 ++
        match stream_span i (captured (take k chunks)) error completed finish with
        | Ok x => if has_tracer s0 then [x] else []
        | Raise _ => []
        end
  else recorded s = recorded s0 ∧
       ∃ k, _capture t = captured (take k chunks) ∧ pending (_stream t) = drop k chunks.

Lemma logged_record chunks i s0 t s error completed k :
  _info t = i → ctx s = ctx s0 → has_tracer s = has_tracer s0 →
  recorded s = recorded s0 → _capture t = captured (take k chunks) → _recorded t = false →
  (completed = true → (length chunks <= k)%nat ∧ error = None) →
  logged chunks i s0 (_record error completed (t, s)).
Proof.
  intros Hi Hc Ht Hr Hcap Hrec Hdone. unfold _record, logged. rewrite Hrec. cbn.
  destruct (try_record_spec (stream_span (_info t) (_capture t) error completed (perf (user s))) s)
    as (_ & -> & -> & ->).
  do 3 (split; [done|]). exists k, error, completed, (perf (user s)). split; [done|].
  by rewrite Hi, Hcap, Hr, Ht.
Qed.

(** A stream that was recorded is not recorded again. *)
Lemma stream_op_recorded op t s :
  _recorded t = true →
  let '(_, (t', s')) := stream_op op (t, s) in
  s' = s ∧ _info t' = _info t ∧ _recorded t' = true.
Proof.
  intros E. unfold stream_op, finish, _record. cbn. rewrite E.
  destruct op; [done| |by destruct (closing (_stream t)) as [[e|]|]|by destruct (_gen t)].
  destruct (_gen t); [| |done]; destruct (next_chunk (_stream t)) as [[[x|e]|] st]; cbn;
    rewrite ?E; try done; by destruct (capture_chunk x (_capture t)) as [[u|e] c]; cbn; rewrite ?E.
Qed.

Lemma captured_snoc k chunks x rest :
  drop k chunks = x :: rest →
  captured (take (S k) chunks) = (capture_chunk x (captured (take k chunks))).2 ∧
  drop (S k) chunks = rest.
Proof.
  intros E. assert (chunks !! k = Some x) as Hx.
  { rewrite <- (Nat.add_0_r k), <- lookup_drop, E. done. }
  rewrite (take_S_r _ _ _ Hx). unfold captured. rewrite foldl_snoc. split; [done|].
  apply drop_S in Hx. rewrite E in Hx. by injection Hx.
Qed.

Lemma stream_op_logged chunks i s0 op t s :
  Forall readable_chunk (pending (_stream t)) → logged chunks i s0 (t, s) →
  logged chunks i s0 (stream_op op (t, s)).2.
Proof.
  intros Hr Hl. destruct (_recorded t) eqn:Erec.
  { pose proof (stream_op_recorded op t s Erec) as Hs.
    destruct (stream_op op (t, s)) as [seen [t' s']]. destruct Hs as (-> & Hi & Hrec).
    cbn. unfold logged in *. rewrite Erec in Hl. by rewrite Hi, Hrec. }
  destruct Hl as (Hi & Hc & Ht & Hl). rewrite Erec in Hl. destruct Hl as (Hrd & k & Hcap & Hp).
  destruct op; cbn [stream_op].
  - split_and!; try done. cbn. rewrite Erec. eauto.
  - assert (Hsame : logged chunks i s0 (t, s)).
    { split_and!; try done. rewrite Erec. eauto. }
    destruct (_gen t); [| |exact Hsame]; unfold next_chunk;
      (destruct (pending (_stream t)) as [|x rest] eqn:Ep;
       [symmetry in Hp; destruct (failure (_stream t)) as [e|];
          apply (logged_record _ _ _ _ _ _ _ k); try done;
          intros _; split; [by apply drop_nil_inv|done]|]);
      apply Forall_cons in Hr as [Hx _]; specialize (Hx (_capture t));
      destruct (captured_snoc k chunks x rest (eq_sym Hp)) as [Hk Hd]; rewrite <- Hcap in Hk;
      destruct (capture_chunk x (_capture t)) as [[[]|e] c]; try done;
      (split_and!; try done; cbn; rewrite Erec; split; [done|]; by exists (S k)).
  - destruct (closing (_stream t)) as [[e|]|].
    + split_and!; try done. cbn. rewrite Erec. eauto.
    + by apply (logged_record _ _ _ _ _ _ _ k).
    + by apply (logged_record _ _ _ _ _ _ _ k).
  - destruct (_gen t); [| by apply (logged_record _ _ _ _ _ _ _ k)|];
      (split_and!; try done; cbn; rewrite Erec; eauto).
Qed.

(** Other parts of the program do not touch the tracer while a stream is read. *)
Lemma consume_spec chunks i s0 ops t s :
  Forall readable_chunk (pending (_stream t)) → logged chunks i s0 (t, s) →
  (consume ops (t, s)).1 = bare_consume (snd <$> ops) (bare_of t) ∧
  logged chunks i s0 (consume ops (t, s)).2.
Proof.
  revert t s. induction ops as [|[u op] ops IH]; intros t s Hr Hl; [by split|].
  cbn [consume fst snd]. rewrite fmap_cons. cbn [bare_consume snd].
  assert (Hl' : logged chunks i s0 (t, set_user u s)) by exact Hl.
  pose proof (stream_op_bare op t (set_user u s) Hr) as Hb.
  pose proof (stream_op_logged chunks i s0 op t (set_user u s) Hr Hl') as Hg.
  destruct (stream_op op (t, set_user u s)) as [seen [t' s']]. destruct Hb as [-> Hr'].
  destruct (IH t' s' Hr' Hg) as [E1 E2].
  destruct (consume ops (t', s')) as [rest ts2]. cbn in *. by rewrite E1.
Qed.

Lemma stream_op_settles op t s :
  Forall readable_chunk (pending (_stream t)) →
  _recorded (stream_op op (t, s)).2.1 = _recorded t || settles op (bare_of t).
Proof.
  intros Hr. unfold settles, bare_of. cbn [fst snd]. destruct (_recorded t) eqn:Erec.
  { pose proof (stream_op_recorded op t s Erec) as Hs.
    destruct (stream_op op (t, s)) as [seen [t' s']]. by destruct Hs as (_ & _ & Hs). }
  cbn [orb]. destruct op; cbn [stream_op].
  - done.
  - destruct (_gen t); [| |done]; unfold next_chunk;
      (destruct (pending (_stream t)) as [|x rest] eqn:Ep;
        [destruct (failure (_stream t)); apply record_frame|]);
      apply Forall_cons in Hr as [Hx _]; specialize (Hx (_capture t));
      by destruct (capture_chunk x (_capture t)) as [[[]|e] c].
  - destruct (closing (_stream t)) as [[e|]|]; [done|apply record_frame..].
  - destruct (_gen t); [done|apply record_frame|done].
Qed.

Lemma consume_settled ops t s :
  Forall readable_chunk (pending (_stream t)) →
  _recorded (consume ops (t, s)).2.1 = _recorded t || settled (snd <$> ops) (bare_of t).
Proof.
  revert t s. induction ops as [|[u op] ops IH]; intros t s Hr; [cbn; by rewrite orb_false_r|].
  cbn [consume fst snd]. rewrite fmap_cons. cbn [settled snd].
  pose proof (stream_op_bare op t (set_user u s) Hr) as Hb.
  pose proof (stream_op_settles op t (set_user u s) Hr) as Hs.
  destruct (stream_op op (t, set_user u s)) as [seen [t' s']]. destruct Hb as [-> Hr'].
  specialize (IH t' s' Hr'). destruct (consume ops (t', s')) as [rest [t2 s2]].
  cbn in *. by rewrite IH, Hs, orb_assoc.
Qed.

End integrations.

(** ** Witnesses *)

Section witnesses.
Definition delta_chunk (text : string) : obj :=
  OInstance [("choices"%string, OList [OInstance [("delta"%string,
    OInstance [("content"%string, OVal (VStr text))])]])].

Definition usage_chunk : obj :=
  OInstance [("choices"%string, OList []); ("usage"%string,
    OVal (VDict [("prompt_tokens"%string, VInt 7); ("completion_tokens"%string, VInt 2)]))].

Definition chat_stream : Stream :=
  {| pending := [delta_chunk "Hel"; delta_chunk "lo"; usage_chunk]; failure := None;
     closing := None |}.

Definition started {U : Type} (u : U) : State :=
  {| user := u; ctx := fresh_ctx; has_tracer := true; recorded := [] |}.

Definition chat_info : Info :=
  {| i_trace := "t"; i_span := "s"; i_parent := None; i_model := OVal (VStr "gpt-4o");
     i_messages := OList []; i_system := none; i_started := 0; i_start := 0 |}.

Abbreviation clock_now := (λ t : Z, t).

Definition read_all : list (Z * Op) := [(1, Anext); (2, Anext); (3, Anext); (4, Anext)].

Definition chat_read : list Seen * (TracedStream * State) :=
  consume clock_now (λ _, "error"%string) read_all
    ({| _stream := chat_stream; _info := chat_info; _capture := new_capture;
        _recorded := false; _gen := NotStarted |}, started 0).

Lemma chat_chunks_readable : Forall readable_chunk (pending chat_stream).
Proof. repeat constructor. Qed.


(** A chunk whose token count is not a number raises in the consumer, which the
    stream itself does not do. *)
Example malformed_usage_breaks_the_stream :
  let bad := OInstance [("usage"%string, OVal (VDict [("prompt_tokens"%string, VStr "many")]))] in
  let st := {| pending := [bad]; failure := None; closing := None |} in
  (consume clock_now (λ _, "error"%string) [(1, Anext)]
    ({| _stream := st; _info := chat_info; _capture := new_capture; _recorded := false;
        _gen := NotStarted |}, started 0)).1
  = [Raised (ValueError "invalid literal for int()")] ∧
  bare_consume [Anext] (st, NotStarted) = [Item bad].
Proof. by vm_compute. Qed.
End witnesses.
