(* ===== verification/Http.v ===== *)
(** * The HTTP edge

    [backend/app/main.py] and [core/security_headers.py]: the limit on request
    bodies and the headers of every response, around an ASGI application.  An
    application is what it does with its [receive] and [send]; it may catch the
    exception its [receive] raises. *)

From S2P Require Import Prelude Text PyVal Otlp.

Local Open Scope Z_scope.

(** ** ASGI applications *)

(** [http.request] with its body, or [http.disconnect]. *)
Inductive Message : Type :=
| Request (body : string)
| Disconnect.

Inductive Event : Type :=
| ResponseStart (status : Z) (headers : list (string * string))
| ResponseBody (body : string).

(** [PayloadTooLargeError] *)
Definition PayloadTooLargeError : exn := OtherError "PayloadTooLargeError".

Inductive App : Type :=
| Return
| Fail (e : exn)
| Send (m : Event) (next : App)
| Receive (next : result Message → App).

(** Where a run stands: the events sent and how it ended. *)
Record Run : Type := { sent : list Event; ending : result unit; delivered : list Message }.

Definition sending (m : Event) (r : Run) : Run :=
  {| sent := m :: sent r; ending := ending r; delivered := delivered r |}.
Definition delivering (m : Message) (r : Run) : Run :=
  {| sent := sent r; ending := ending r; delivered := m :: delivered r |}.

(** The messages of the client come in order; after them it is gone. *)
Definition next_message (inbox : list Message) : Message * list Message :=
  match inbox with
  | [] => (Disconnect, [])
  | m :: rest => (m, rest)
  end.

(** An application on its own. *)
Fixpoint run (app : App) (inbox : list Message) : Run :=
  match app with
  | Return => {| sent := []; ending := Ok tt; delivered := [] |}
  | Fail e => {| sent := []; ending := Raise e; delivered := [] |}
  | Send m next => sending m (run next inbox)
  | Receive next =>
      let '(m, rest) := next_message inbox in delivering m (run (next (Ok m)) rest)
  end.

(** ** The limit *)

Section limit.
Context (max_bytes : Z).

Definition too_large_body : string :=
  json_dumps (λ _, EmptyString) "," ":"
    (VDict [("error"%string, VStr "payload_too_large"); ("max_bytes"%string, VInt max_bytes)]).

(** [_send_too_large] *)
Definition _send_too_large : list Event :=
  [ResponseStart 413 [("content-type"%string, "application/json"%string);
                      ("content-length"%string, str_of_int (len too_large_body))];
   ResponseBody too_large_body].

(** The value of the first [content-length], if it is an integer. *)
Fixpoint _content_length (headers : list (string * string)) : option Z :=
  match headers with
  | [] => None
  | (name, value) :: headers' =>
      if String.eqb name "content-length" then int_of_text value else _content_length headers'
  end.

Definition is_start (m : Event) : bool := match m with ResponseStart _ _ => true | _ => false end.

(** The application with [limited_receive] and [tracking_send]. *)
Fixpoint run_limited (app : App) (inbox : list Message) (received : Z) (started : bool) : Run :=
  match app with
  | Return => {| sent := []; ending := Ok tt; delivered := [] |}
  | Fail e =>
      if decide (e = PayloadTooLargeError) then
        if started then {| sent := []; ending := Raise e; delivered := [] |}
        else {| sent := _send_too_large; ending := Ok tt; delivered := [] |}
      else {| sent := []; ending := Raise e; delivered := [] |}
  | Send m next => sending m (run_limited next inbox received (started || is_start m))
  | Receive next =>
      let '(m, rest) := next_message inbox in
      match m with
      | Request body =>
          let received := received + len body in
          if max_bytes <? received then
            run_limited (next (Raise PayloadTooLargeError)) rest received started
          else delivering m (run_limited (next (Ok m)) rest received started)
      | Disconnect => delivering m (run_limited (next (Ok m)) rest received started)
      end
  end.

(** [PayloadSizeLimitMiddleware.__call__]; a scope that is not HTTP passes. *)
Definition limit (scope_type : string) (app : App) (headers : list (string * string))
    (inbox : list Message) : Run :=
  if negb (String.eqb scope_type "http") then run app inbox else
  match _content_length headers with
  | Some n => if max_bytes <? n then
                {| sent := _send_too_large; ending := Ok tt; delivered := [] |}
              else run_limited app inbox 0 false
  | None => run_limited app inbox 0 false
  end.

(** ** Facts *)

Definition body_size (m : Message) : Z := match m with Request b => len b | Disconnect => 0 end.

Definition total_size (l : list Message) : Z := sum_of body_size l.

(** An application that lets the exception pass. *)
Fixpoint passes_on (app : App) : Prop :=
  match app with
  | Return => True
  | Fail e => e ≠ PayloadTooLargeError
  | Send _ next => passes_on next
  | Receive next =>
      next (Raise PayloadTooLargeError) = Fail PayloadTooLargeError ∧
      ∀ m, passes_on (next (Ok m))
  end.

Definition has_start (l : list Event) : bool := existsb is_start l.

(** A run that ended as the limit ends it: with 413 in place of a response, or,
    when a response had begun, with the exception. *)
Definition cut (started : bool) (r : Run) : Prop :=
  (∃ pre, sent r = pre ++ _send_too_large ∧ has_start pre = false ∧ started = false ∧
          ending r = Ok tt) ∨
  (started || has_start (sent r) = true ∧ ending r = Raise PayloadTooLargeError).

Lemma len_nonneg s : 0 <= len s.
Proof. unfold len. lia. Qed.

Lemma total_size_cons m l : total_size (m :: l) = body_size m + total_size l.
Proof. done. Qed.

Lemma total_size_nonneg l : 0 <= total_size l.
Proof. apply sum_of_nonneg. intros [b|] _; [apply len_nonneg|done]. Qed.

(** No more than the limit reaches the application. *)
Lemma run_limited_delivered app inbox received started :
  received + total_size (delivered (run_limited app inbox received started))
  <= Z.max max_bytes received.
Proof.
  revert inbox received started.
  induction app as [|e|m next IH|next IH]; intros inbox received started; cbn.
  - unfold total_size, sum_of. cbn. lia.
  - destruct (decide _); [destruct started|]; unfold total_size, sum_of; cbn; lia.
  - apply IH.
  - destruct (next_message inbox) as [[b|] rest].
    + pose proof (len_nonneg b). destruct (Z.ltb_spec max_bytes (received + len b)).
      * pose proof (IH (Raise PayloadTooLargeError) rest (received + len b) started). lia.
      * cbn [delivering delivered]. rewrite total_size_cons. cbn [body_size].
        pose proof (IH (Ok (Request b)) rest (received + len b) started). lia.
    + cbn [delivering delivered]. rewrite total_size_cons. cbn [body_size].
      pose proof (IH (Ok Disconnect) rest received started). lia.
Qed.

Lemma next_message_size inbox m rest :
  next_message inbox = (m, rest) → total_size inbox = body_size m + total_size rest.
Proof. destruct inbox; [by intros [= <- <-]|]. intros [= <- <-]. apply total_size_cons. Qed.

(** Within the limit the application runs as on its own. *)
Lemma run_limited_within app inbox received started :
  received + total_size inbox <= max_bytes → ending (run app inbox) ≠ Raise PayloadTooLargeError →
  run_limited app inbox received started = run app inbox.
Proof.
  revert inbox received started.
  induction app as [|e|m next IH|next IH]; intros inbox received started Hsize He; cbn in *.
  - done.
  - destruct (decide (e = PayloadTooLargeError)); [congruence|done].
  - f_equal. by apply IH.
  - destruct (next_message inbox) as [[b|] rest] eqn:En;
      pose proof (next_message_size _ _ _ En) as Hs; cbn in Hs;
      pose proof (total_size_nonneg rest).
    + destruct (Z.ltb_spec max_bytes (received + len b)); [lia|]. f_equal. apply IH; [lia|done].
    + f_equal. apply IH; [lia|done].
Qed.

(** An application that lets the exception pass runs as on its own or is cut. *)
Lemma run_limited_cut app inbox received started :
  passes_on app →
  run_limited app inbox received started = run app inbox ∨
  cut started (run_limited app inbox received started).
Proof.
  revert inbox received started.
  induction app as [|e|m next IH|next IH]; intros inbox received started Hp; cbn in *.
  - by left.
  - left. by destruct (decide (e = PayloadTooLargeError)).
  - destruct (IH inbox received (started || is_start m) Hp) as [->|H]; [by left|right].
    destruct H as [(pre & Hs & Hn & Hst & He)|[Hst He]].
    + left. apply orb_false_iff in Hst as [Hst Hm]. exists (m :: pre). cbn.
      split_and!; [by rewrite Hs| |done..]. unfold has_start in *. cbn. by rewrite Hm.
    + right. unfold has_start. cbn. by rewrite orb_assoc.
  - destruct Hp as [Hfail Hp]. destruct (next_message inbox) as [[b|] rest].
    + destruct (max_bytes <? received + len b).
      * right. rewrite Hfail. cbn. destruct started; [by right|left]. by exists [].
      * destruct (IH (Ok (Request b)) rest (received + len b) started (Hp _)) as [->|H];
          [by left|by right].
    + destruct (IH (Ok Disconnect) rest received started (Hp _)) as [->|H]; [by left|by right].
Qed.

(** C31: request bodies are limited and nothing else is.  At most [max_bytes] of
    body reach the application, whatever it does; a request that declares more
    is answered 413 without running it; and a request within the limit is handled
    exactly as by the application alone.  One that overruns the limit without
    declaring it raises an exception out of the application's [receive]: an
    application that lets it pass has 413 sent in place of its answer, or the
    connection broken off if the answer had begun; one that catches it answers
    as it likes ([caught_is_not_413]). *)
Theorem payload_limit_enforced app headers inbox :
  0 <= max_bytes →
  let r := limit "http" app headers inbox in
  let declared := default 0 (_content_length headers) in
  total_size (delivered r) <= max_bytes ∧
  (max_bytes < declared → sent r = _send_too_large ∧ delivered r = [] ∧ ending r = Ok tt) ∧
  (declared <= max_bytes → total_size inbox <= max_bytes →
   ending (run app inbox) ≠ Raise PayloadTooLargeError → r = run app inbox) ∧
  (declared <= max_bytes → passes_on app → r = run app inbox ∨ cut false r).
Proof.
  intros Hmax. cbv zeta. unfold limit. cbn [String.eqb Ascii.eqb Bool.eqb negb].
  assert (Hd : total_size (delivered (run_limited app inbox 0 false)) <= max_bytes).
  { pose proof (run_limited_delivered app inbox 0 false). lia. }
  assert (Hw : total_size inbox <= max_bytes →
    ending (run app inbox) ≠ Raise PayloadTooLargeError →
    run_limited app inbox 0 false = run app inbox).
  { intros Hs He. by apply run_limited_within. }
  pose proof (run_limited_cut app inbox 0 false) as Hc.
  destruct (_content_length headers) as [n|]; cbn [default from_option id];
    [destruct (Z.ltb_spec max_bytes n)|].
  - split_and!; [done|done|intros ?; exfalso; lia..].
  - split_and!; [done|intros ?; exfalso; lia|by intros _|by intros _].
  - split_and!; [done|intros ?; exfalso; lia|by intros _|by intros _].
Qed.
End limit.

(** An application that reads two messages and answers. *)
Definition reader : App :=
  let answer := Send (ResponseStart 200 []) (Send (ResponseBody "ok") Return) in
  Receive (λ r, match r with
                | Raise e => Fail e
                | Ok _ => Receive (λ r, match r with Raise e => Fail e | Ok _ => answer end)
                end).

Lemma reader_passes_on : passes_on reader.
Proof. split; [done|]. intros m. split; [done|]. by intros m'. Qed.

Lemma payload_limit_enforced_witness :
  let r := limit 8 "http" reader [] [Request "12345"; Request "6789"] in
  sent r = _send_too_large 8 ∧ ending r = Ok tt ∧ delivered r = [Request "12345"] ∧
  total_size (delivered r) <= 8 ∧ (r = run reader [Request "12345"; Request "6789"] ∨ cut 8 false r).
Proof.
  destruct (payload_limit_enforced 8 reader [] [Request "12345"; Request "6789"] ltac:(lia))
    as (H1 & _ & _ & H4).
  split_and!; [vm_compute; reflexivity..|exact H1|].
  apply H4; [vm_compute; discriminate|exact reader_passes_on].
Defined.

(** An endpoint whose framework answers 400 to any exception it meets while it
    reads the body. *)
Definition body_parser : App :=
  Receive (λ r, match r with
    | Raise _ => Send (ResponseStart 400 []) (Send (ResponseBody "error parsing the body") Return)
    | Ok _ => Send (ResponseStart 202 []) (Send (ResponseBody "ok") Return)
    end).

(** It does not let the exception pass, and the oversized request gets its 400. *)
Example caught_is_not_413 :
  ¬ passes_on body_parser ∧
  sent (limit 8 "http" body_parser [] [Request "123456789"])
  = [ResponseStart 400 []; ResponseBody "error parsing the body"].
Proof. split; [by intros [H _]|by vm_compute]. Qed.

(** ** The security headers *)

(** [SECURITY_HEADERS] *)
Definition SECURITY_HEADERS : list (string * string) :=
  [("X-Content-Type-Options"%string, "nosniff"%string);
   ("X-Frame-Options"%string, "DENY"%string);
   ("Referrer-Policy"%string, "no-referrer"%string);
   ("Permissions-Policy"%string, "camera=(), microphone=(), geolocation=()"%string)].

Section security_headers.
(** Starlette's [MutableHeaders]: a lookup by name and [setdefault]. *)
Context {headers : Type} (lookup : headers → string → option string)
  (setdefault : headers → string → string → headers).
Hypothesis setdefault_spec : ∀ h name value name',
  lookup (setdefault h name value) name' =
    if String.eqb (lower name) (lower name') then Some (default value (lookup h name'))
    else lookup h name'.

(** [SecurityHeadersMiddleware.dispatch]: the headers of the response. *)
Definition dispatch (h : headers) : headers :=
  fold_left (λ h header, setdefault h header.1 header.2) SECURITY_HEADERS h.

Lemma setdefault_other h name value name' v :
  lookup h name' = Some v → lookup (setdefault h name value) name' = Some v.
Proof. intros Hl. rewrite setdefault_spec, Hl. by destruct (_ =? _)%string. Qed.

Lemma setdefault_all l h name :
  lookup (fold_left (λ h header, setdefault h header.1 header.2) l h) name =
  match lookup h name with
  | Some v => Some v
  | None => snd <$> find (λ header, (lower header.1 =? lower name)%string) l
  end.
Proof.
  revert h. induction l as [|[n v] l IH]; intros h; cbn; [by destruct (lookup h name)|].
  rewrite IH, setdefault_spec. cbn.
  destruct (lower n =? lower name)%string; [|done]. by destruct (lookup h name).
Qed.

(** Every response carries the security headers, the application's own where it
    set them, and no other header changes. *)
Lemma dispatch_headers h name :
  lookup (dispatch h) name =
  match lookup h name with
  | Some v => Some v
  | None => snd <$> find (λ header, (lower header.1 =? lower name)%string) SECURITY_HEADERS
  end.
Proof. apply setdefault_all. Qed.
End security_headers.
