(* ===== verification/Health.v ===== *)
(** * Health and operational gauges

    [backend/app/api/v1/health.py], [backend/app/workers/health.py] and the
    gauges of [backend/app/core/metrics.py] that look at the queue and the
    outbox.  What the dependencies answer is an argument; a duration is its
    number of microseconds.  Times are those of years a [datetime] can hold in
    UTC. *)

From Stdlib Require Import Floats.SpecFloat.
From S2P Require Import Prelude Text PyVal Json Schema SpanSchema Pipeline.

Local Open Scope Z_scope.

(** ** Readiness *)

Record DependencyCheck : Type := { dc_name : string; dc_status : string; dc_critical : bool }.

Inductive Response (A : Type) : Type :=
| Answer (a : A)
| Unavailable (detail : A).
Arguments Answer {A} a.
Arguments Unavailable {A} detail.

(** Liveness of a critical dependency. *)
Definition critical (name : string) (probe : result unit) : DependencyCheck * bool :=
  match probe with
  | Ok _ => ({| dc_name := name; dc_status := "ok"; dc_critical := true |}, true)
  | Raise _ => ({| dc_name := name; dc_status := "error"; dc_critical := true |}, false)
  end.

Definition readiness (postgres : result unit) (s3 : result string)
    (redis_cache redis_queue : result unit) : Response (list DependencyCheck) :=
  let '(pg, ok1) := critical "postgres" postgres in
  let bucket := {| dc_name := "s3"; dc_critical := false;
                   dc_status := match s3 with Ok s => s | Raise _ => "degraded" end |} in
  let '(cache, ok2) := critical "redis_cache" redis_cache in
  let '(queue, ok3) := critical "redis_queue" redis_queue in
  let checks := [pg; bucket; cache; queue] in
  if ok1 && ok2 && ok3 then Answer checks else Unavailable checks.

(** Ready exactly when the critical dependencies answer; the object store never
    decides. *)
Lemma readiness_critical postgres s3 cache queue :
  (∃ checks, readiness postgres s3 cache queue = Answer checks) ↔
  postgres = Ok tt ∧ cache = Ok tt ∧ queue = Ok tt.
Proof. destruct postgres as [[]|], cache as [[]|], queue as [[]|]; cbn; naive_solver. Qed.

(** ** The worker's heartbeat *)

(** The key in Redis: its value and when it expires. *)
Definition Heartbeat : Type := option (string * timestamp).

Inductive WorkerHealth : Type :=
| WorkerOk (last_seen : timestamp) (age_seconds : Z)
| WorkerStale (last_seen : timestamp) (age_seconds : Z)
| WorkerMissing
| WorkerInvalid (raw : string)
| WorkerUnknown.

Section heartbeat.
Context (isoformat : timestamp → string) (fromisoformat : string → option pydatetime)
  (worker_heartbeat_max_age_seconds worker_heartbeat_ttl_seconds : Z).

Definition second : Z := 1000000.

Definition write_worker_heartbeat (now : timestamp) : Heartbeat :=
  Some (isoformat now, now + worker_heartbeat_ttl_seconds * second).

(** What [redis.get] answers at a time. *)
Definition read (h : Heartbeat) (now : timestamp) : option string :=
  match h with
  | Some (raw, expires) => if now <? expires then Some raw else None
  | None => None
  end.

(** [worker_health], on what [redis.get] answers; the difference with a time
    without an offset raises. *)
Definition worker_health (answer : result (option string)) (now : timestamp)
    : result WorkerHealth :=
  match answer with
  | Raise _ => Ok WorkerUnknown
  | Ok None => Ok WorkerMissing
  | Ok (Some raw) =>
      if negb (truthy raw) then Ok WorkerMissing
      else
        match fromisoformat raw with
        | None => Ok (WorkerInvalid raw)
        | Some last_seen =>
            match dt_offset last_seen with
            | None => Raise (TypeError "can't subtract offset-naive and offset-aware datetimes")
            | Some _ =>
                let age_seconds := Z.max 0 (Z.quot (now - dt_utc last_seen) second) in
                if worker_heartbeat_max_age_seconds <? age_seconds
                then Ok (WorkerStale (dt_utc last_seen) age_seconds)
                else Ok (WorkerOk (dt_utc last_seen) age_seconds)
            end
        end
  end.

Hypothesis iso_roundtrip : ∀ t, fromisoformat (isoformat t) =
  Some {| dt_local := t; dt_offset := Some 0 |}.
Hypothesis iso_truthy : ∀ t, truthy (isoformat t) = true.

(** The worker is reported alive exactly while its last heartbeat is younger
    than the limit and has not expired. *)
Lemma heartbeat_window (seen now : timestamp) :
  0 <= worker_heartbeat_max_age_seconds → seen <= now →
  (∃ t age, worker_health (Ok (read (write_worker_heartbeat seen) now)) now = Ok (WorkerOk t age)) ↔
  now - seen < Z.min (worker_heartbeat_ttl_seconds * second)
                     ((worker_heartbeat_max_age_seconds + 1) * second).
Proof.
  intros Hmax Hle. unfold worker_health, read, write_worker_heartbeat, second.
  assert (Hq : Z.quot (now - seen) 1000000 = (now - seen) / 1000000)
    by (apply Z.quot_div_nonneg; unfold timestamp in *; lia).
  unfold timestamp in *.
  destruct (Z.ltb_spec now (seen + worker_heartbeat_ttl_seconds * 1000000)).
  - rewrite iso_truthy, iso_roundtrip. cbn [negb dt_offset]. unfold dt_utc. cbn [dt_offset dt_local].
    rewrite Z.sub_0_r, Hq. assert (0 <= (now - seen) / 1000000) by (apply Z.div_pos; lia).
    rewrite Z.max_r by done. destruct (Z.ltb_spec worker_heartbeat_max_age_seconds ((now - seen) / 1000000)).
    + split; [naive_solver|]. intros Hlt. exfalso.
      pose proof (Z.mul_div_le (now - seen) 1000000 ltac:(lia)). lia.
    + split; [|eauto]. intros _. apply Z.min_glb_lt; [lia|].
      pose proof (Z.mul_succ_div_gt (now - seen) 1000000 ltac:(lia)). lia.
  - split; [naive_solver|]. lia.
Qed.
End heartbeat.

(** ** The age of the oldest queued job *)

Definition _TASKIQ_QUEUE_TIMESTAMP_KEYS : list string :=
  ["enqueued_at"; "queued_at"; "created_at"; "sent_at"; "timestamp"]%string.

(** [value.replace("Z", "+00:00")] *)
Fixpoint replace_z (s : string) : string :=
  match s with
  | EmptyString => EmptyString
  | String c s' => (if Ascii.eqb c "Z" then "+00:00"%string else String c EmptyString) +:+ replace_z s'
  end.

Fixpoint first_some {A} (l : list (option A)) : option A :=
  match l with
  | [] => None
  | Some a :: _ => Some a
  | None :: l' => first_some l'
  end.

Section queue.
(** [datetime.fromisoformat]; [datetime.fromtimestamp(float(n), tz=UTC)] of an
    integer and of a float, [None] where it raises; [float] of a text. *)
Context (fromisoformat : string → option pydatetime)
  (fromtimestamp_int : Z → option timestamp) (fromtimestamp : pyfloat → option timestamp)
  (float_of_text : string → pyfloat).

Definition _parse_timestamp_value (v : pyval) : option timestamp :=
  match v with
  | VStr s => dt_utc <$> fromisoformat (replace_z s)
  | VInt z => fromtimestamp_int z
  | VBool b => fromtimestamp_int (if b then 1 else 0)
  | VFloat f => fromtimestamp f
  | VNone | VList _ | VDict _ => None
  end.

Definition own_timestamps (d : list (string * pyval)) : list (option timestamp) :=
  map (λ key, _parse_timestamp_value (default VNone (dict_get key d))) _TASKIQ_QUEUE_TIMESTAMP_KEYS.

Fixpoint _find_taskiq_timestamp (v : pyval) : option timestamp :=
  match v with
  | VDict d =>
      match first_some (own_timestamps d) with
      | Some t => Some t
      | None => first_some (map (λ kv, _find_taskiq_timestamp kv.2) d)
      end
  | VList l => first_some (map _find_taskiq_timestamp l)
  | _ => None
  end.

Definition parse_taskiq_queued_job_timestamp (raw_job : option string) : option timestamp :=
  match raw_job with
  | None => None
  | Some s => match json_loads float_of_text s with
              | Ok payload => _find_taskiq_timestamp payload
              | Raise _ => None
              end
  end.

Definition estimate_taskiq_queued_job_age_seconds (raw_job : option string) (now : timestamp) : Z :=
  match parse_taskiq_queued_job_timestamp raw_job with
  | None => 0
  | Some queued_at => Z.max (now - queued_at) 0
  end.

Definition taskiq_queue_depth_value (queue : result (list string)) : Z :=
  match queue with Ok jobs => Z.of_nat (length jobs) | Raise _ => 0 end.

(** The oldest job is the last of the list. *)
Definition taskiq_queue_oldest_job_age_value (queue : result (list string)) (now : timestamp) : Z :=
  match queue with
  | Ok [] | Raise _ => 0
  | Ok jobs => estimate_taskiq_queued_job_age_seconds (last jobs) now
  end.

(** ** The search, as the first of all candidates *)

(** The timestamps of a document: an object's own, by the order of the keys,
    then those inside its values. *)
Fixpoint timestamps (v : pyval) : list timestamp :=
  match v with
  | VDict d => omap id (own_timestamps d) ++ concat (map (λ kv, timestamps kv.2) d)
  | VList l => concat (map timestamps l)
  | _ => []
  end.

Lemma first_some_omap {A} (l : list (option A)) : first_some l = head (omap id l).
Proof. induction l as [|[a|] l IH]; cbn; [done|done|exact IH]. Qed.

Lemma first_some_concat {A B} (f : A → option B) (g : A → list B) l :
  Forall (λ a, f a = head (g a)) l → first_some (map f l) = head (concat (map g l)).
Proof.
  induction 1 as [|a l E _ IH]; cbn; [done|]. rewrite E, IH. by destruct (g a).
Qed.

Lemma find_first v : _find_taskiq_timestamp v = head (timestamps v).
Proof.
  induction v as [| | | | |l IH|d IH] using pyval_rec'; try done;
    cbn [_find_taskiq_timestamp timestamps].
  - by apply first_some_concat.
  - rewrite first_some_omap. rewrite (first_some_concat _ (λ kv, timestamps kv.2)) by done.
    by destruct (omap id (own_timestamps d)).
Qed.

(** The gauge is never negative, and is zero for an empty queue, for a queue that
    cannot be read and for a job without a timestamp. *)
Lemma oldest_age_bounds queue now :
  0 <= taskiq_queue_oldest_job_age_value queue now ∧
  ((∀ jobs job, queue = Ok jobs → last jobs = Some job →
     parse_taskiq_queued_job_timestamp (Some job) = None) →
   taskiq_queue_oldest_job_age_value queue now = 0).
Proof.
  unfold taskiq_queue_oldest_job_age_value.
  destruct queue as [[|j jobs]|]; [done| |done].
  unfold estimate_taskiq_queued_job_age_seconds. split.
  - destruct (parse_taskiq_queued_job_timestamp _); lia.
  - intros H. destruct (last (j :: jobs)) as [job|] eqn:E; [|done].
    by rewrite (H (j :: jobs) job eq_refl E).
Qed.
End queue.

(** ** The outbox backlog *)

Definition query_outbox_backlog_count (event_type : string) (status : outbox_status) (w : World) : Z :=
  count_where (λ e, String.eqb (ob_type e) event_type && bool_decide (ob_status e = status))
    (w_outbox w).

(** A tenant dates the job: the search goes through the arguments of the task down
    to the metadata of its spans. *)
Example metadata_dates_the_job :
  estimate_taskiq_queued_job_age_seconds (λ _, None) (λ z, Some (z * 1000000)) (λ _, None)
    (λ _, S754_nan)
    (Some (json_dumps (λ _, EmptyString) ", " ": " (VDict
       [("task_name", VStr "process_span_batch"); ("labels", VDict []); ("args", VList []);
        ("kwargs", VDict [("spans", VList [VDict [("started_at", VStr "2026-07-30T10:00:00Z");
           ("metadata", VDict [("timestamp", VInt 1000)])]])])]%string)))
    (5000 * 1000000) = 4000 * 1000000.
Proof. vm_compute. reflexivity. Qed.

(** ** The gauges

    A gauge is named by its metric and labels, and evaluated by the function
    that was last set for it. *)
Module Gauges.

Inductive Callback : Type :=
| QueueDepth (queue : string)
| OldestJobAge (queue : string)
| OutboxBacklog (event_type : string) (status : outbox_status).

Inductive Gauge : Type :=
| taskiq_queue_depth (queue : string)
| taskiq_queue_oldest_job_age_s (queue : string)
| outbox_backlog (event_type : string) (status : outbox_status).

#[export] Instance Gauge_eq_dec : EqDecision Gauge.
Proof. solve_decision. Defined.

(** The globals of the module and the functions set so far, latest first. *)
Record Registry : Type := {
  _taskiq_queue_callbacks_registered : bool;
  _outbox_backlog_callbacks_registered : bool;
  functions : list (Gauge * Callback);
}.

Definition fresh_registry : Registry :=
  {| _taskiq_queue_callbacks_registered := false;
     _outbox_backlog_callbacks_registered := false; functions := [] |}.

Definition TASKIQ_QUEUE_NAME : string := "taskiq".
Definition OUTBOX_BACKLOG_STATUSES : list outbox_status := [PENDING; FAILED].

(** [gauge.set_function(callback)] *)
Definition _set_gauge_callback (gauge : Gauge) (callback : Callback) (r : Registry) : Registry :=
  {| _taskiq_queue_callbacks_registered := _taskiq_queue_callbacks_registered r;
     _outbox_backlog_callbacks_registered := _outbox_backlog_callbacks_registered r;
     functions := (gauge, callback) :: functions r |}.

Definition register_taskiq_queue_metric_callbacks (queue_name : string) (r : Registry) : Registry :=
  if _taskiq_queue_callbacks_registered r then r
  else
    let r1 := _set_gauge_callback (taskiq_queue_depth queue_name) (QueueDepth queue_name) r in
    let r2 := _set_gauge_callback (taskiq_queue_oldest_job_age_s queue_name)
                (OldestJobAge queue_name) r1 in
    {| _taskiq_queue_callbacks_registered := true;
       _outbox_backlog_callbacks_registered := _outbox_backlog_callbacks_registered r2;
       functions := functions r2 |}.

Definition register_outbox_backlog_metric_callbacks (event_type : string) (r : Registry) : Registry :=
  if _outbox_backlog_callbacks_registered r then r
  else
    let r' := foldl (λ r status, _set_gauge_callback (outbox_backlog event_type status)
                                   (OutboxBacklog event_type status) r)
                r OUTBOX_BACKLOG_STATUSES in
    {| _taskiq_queue_callbacks_registered := _taskiq_queue_callbacks_registered r';
       _outbox_backlog_callbacks_registered := true; functions := functions r' |}.

Definition setup_metrics (r : Registry) : Registry :=
  register_outbox_backlog_metric_callbacks "span.inserted"
    (register_taskiq_queue_metric_callbacks TASKIQ_QUEUE_NAME r).

(** *** Evaluation *)

Definition _ASYNC_METRIC_QUERY_TIMEOUT_SECONDS : Z := 2.

(** The body of the thread: whatever raises counts as zero. *)
Definition run_query (answer : result Z) : Z :=
  match answer with Ok value => value | Raise _ => 0 end.

(** [took] is after how many microseconds the thread has its answer. *)
Definition _run_async_metric_query (answer : result Z) (took : Z) : Z :=
  if took <=? _ASYNC_METRIC_QUERY_TIMEOUT_SECONDS * second then run_query answer else 0.

(** [connect] is how the connection to the database ends. *)
Definition outbox_backlog_value (connect : result unit) (took : Z) (event_type : string)
    (status : outbox_status) (w : World) : Z :=
  _run_async_metric_query
    (match connect with
     | Ok _ => Ok (query_outbox_backlog_count event_type status w)
     | Raise e => Raise e
     end) took.

Section evaluate.
Context (fromisoformat : string → option pydatetime)
  (fromtimestamp_int : Z → option timestamp) (fromtimestamp : pyfloat → option timestamp)
  (float_of_text : string → pyfloat).

(** What a scrape reads: [queue] is how Redis answers, [connect] and [took] are
    of the query of the outbox. *)
Definition evaluate (queue : string → result (list string)) (connect : result unit) (took : Z)
    (w : World) (now : timestamp) (c : Callback) : Z :=
  match c with
  | QueueDepth q => taskiq_queue_depth_value (queue q)
  | OldestJobAge q =>
      taskiq_queue_oldest_job_age_value fromisoformat fromtimestamp_int fromtimestamp
        float_of_text (queue q) now
  | OutboxBacklog event_type status => outbox_backlog_value connect took event_type status w
  end.

(** A scrape never fails, and no gauge is negative. *)
Lemma evaluate_nonneg queue connect took w now c :
  0 <= evaluate queue connect took w now c.
Proof.
  destruct c as [q|q|t st]; cbn.
  - unfold taskiq_queue_depth_value. destruct (queue q); lia.
  - apply oldest_age_bounds.
  - unfold outbox_backlog_value, _run_async_metric_query, query_outbox_backlog_count, count_where.
    destruct (_ <=? _); [|lia]. destruct connect; cbn; lia.
Qed.
End evaluate.

(** Setting up twice is setting up once. *)
Lemma setup_metrics_idempotent r : setup_metrics (setup_metrics r) = setup_metrics r.
Proof.
  unfold setup_metrics, register_taskiq_queue_metric_callbacks,
    register_outbox_backlog_metric_callbacks.
  destruct (_taskiq_queue_callbacks_registered r) eqn:E1,
    (_outbox_backlog_callbacks_registered r) eqn:E2; cbn; by rewrite ?E1, ?E2.
Qed.

(** The gauges of a process that set them up: each is evaluated with its own
    function, and only the PENDING and FAILED events are counted. *)
Lemma setup_metrics_functions :
  functions (setup_metrics fresh_registry) =
  [(outbox_backlog "span.inserted" FAILED, OutboxBacklog "span.inserted" FAILED);
   (outbox_backlog "span.inserted" PENDING, OutboxBacklog "span.inserted" PENDING);
   (taskiq_queue_oldest_job_age_s "taskiq", OldestJobAge "taskiq");
   (taskiq_queue_depth "taskiq", QueueDepth "taskiq")].
Proof. reflexivity. Qed.

End Gauges.
