(* ===== verification/Lifespan.v ===== *)
(** * Connections and the life of the API process

    [Clients]: the two Redis clients of [backend/app/core/redis.py], made when
    they are first asked for and shared by every task, under any interleaving
    of the tasks that ask for them and close them.  [Process]: the [lifespan] of
    [backend/app/main.py], with the engines of [core/db.py]. *)

From S2P Require Import Prelude Text Storage PubSub.

(** ** The Redis clients *)

Module Clients.

(** What [Redis.from_url] is asked for; clients are numbered in the order in
    which they are made. *)
Record Client : Type := {
  cl_number : nat; cl_url : string; cl_encoding : string; cl_decode_responses : bool;
}.

Definition from_url (url : string) (n : nat) : Client :=
  {| cl_number := n; cl_url := url; cl_encoding := "utf-8"; cl_decode_responses := true |}.

(** A global of the module with its lock: the client, the task that holds the
    lock, how many clients were made and how often one was given up. *)
Record Slot : Type := {
  sl_client : option Client; sl_lock : option nat; sl_made : nat; sl_dropped : nat;
}.

Definition no_client : Slot :=
  {| sl_client := None; sl_lock := None; sl_made := 0; sl_dropped := 0 |}.

Definition set_lock (l : option nat) (s : Slot) : Slot :=
  {| sl_client := sl_client s; sl_lock := l; sl_made := sl_made s; sl_dropped := sl_dropped s |}.

(** [_redis_client = Redis.from_url(...)] *)
Definition add_client (url : string) (s : Slot) : Slot :=
  {| sl_client := Some (from_url url (sl_made s)); sl_lock := sl_lock s;
     sl_made := S (sl_made s); sl_dropped := sl_dropped s |}.

(** [_redis_client = None] *)
Definition drop_client (s : Slot) : Slot :=
  {| sl_client := None; sl_lock := sl_lock s; sl_made := sl_made s;
     sl_dropped := S (sl_dropped s) |}.

Section client.
Variable url : string.

(** What is done under the lock; [answer] is how [Redis.from_url] ends, which
    refuses a malformed URL. *)
Definition make_client (answer : result unit) : M Slot unit :=
  c ← gets sl_client;
  match c with
  | Some _ => mret tt
  | None => lift answer ;; modify (add_client url)
  end.

(** [get_redis] and [get_redis_queue], run by one task alone. *)
Definition get_redis (answer : result unit) : M Slot (option Client) :=
  c ← gets sl_client;
  match c with
  | Some c => mret (Some c)
  | None => make_client answer ;; gets sl_client
  end.

(** One half of [close_redis]; [answer] is how [close()] ends. *)
Definition close_client (answer : result unit) : M Slot unit :=
  c ← gets sl_client;
  match c with
  | None => mret tt
  | Some _ => lift answer ;; modify drop_client
  end.

(** *** Several tasks

    A task gives way to the others where it waits: for the lock and for
    [close()]. *)
Inductive Pc : Type :=
| Entered
| Waiting
| Locked
| Returned (c : option Client)
| Closing
| Closed
| Failed (e : exn).

Definition State : Type := Slot * gmap nat Pc.

(** The check before the lock. *)
Definition first_check (s : Slot) : Pc :=
  match sl_client s with Some c => Returned (Some c) | None => Waiting end.

(** The block under the lock, its release and the [return]. *)
Definition locked_block (answer : result unit) (s : Slot) : Slot * Pc :=
  match make_client answer s with
  | (Ok _, s') => (set_lock None s', Returned (sl_client s'))
  | (Raise e, s') => (set_lock None s', Failed e)
  end.

Inductive step : State → State → Prop :=
| step_get t s ts : ts !! t = None → step (s, ts) (s, <[t := Entered]> ts)
| step_check t s ts : ts !! t = Some Entered → step (s, ts) (s, <[t := first_check s]> ts)
| step_acquire t s ts : ts !! t = Some Waiting → sl_lock s = None →
    step (s, ts) (set_lock (Some t) s, <[t := Locked]> ts)
| step_locked t answer s ts : ts !! t = Some Locked →
    step (s, ts) ((locked_block answer s).1, <[t := (locked_block answer s).2]> ts)
| step_close t s ts : ts !! t = None →
    step (s, ts) (s, <[t := match sl_client s with Some _ => Closing | None => Closed end]> ts)
| step_closed t (answer : result unit) s ts : ts !! t = Some Closing →
    step (s, ts) (match answer with Ok _ => drop_client s | Raise _ => s end,
                  <[t := match answer with Ok _ => Closed | Raise e => Failed e end]> ts).

Definition start : State := (no_client, ∅).

Definition reachable (st : State) : Prop := rtc step start st.

(** *** The invariant *)

Definition slot_ok (s : Slot) : Prop :=
  sl_made s ≤ sl_dropped s + (if sl_client s then 1 else 0) ∧
  ∀ c, sl_client s = Some c → ∃ n, c = from_url url n ∧ sl_made s = S n.

Definition task_ok (s : Slot) (t : nat) (p : Pc) : Prop :=
  match p with
  | Returned r => ∃ n, r = Some (from_url url n) ∧ n < sl_made s
  | Locked => sl_lock s = Some t
  | _ => True
  end.

Definition state_ok (st : State) : Prop :=
  slot_ok st.1 ∧ ∀ t p, st.2 !! t = Some p → task_ok st.1 t p.

Lemma state_ok_start : state_ok start.
Proof. split; [by split|]. intros t p H. cbn in H. by rewrite lookup_empty in H. Qed.

(** A step of one task: the slot stays well formed, the task's new position
    fits it, and nothing else is taken away. *)
Lemma state_ok_update s s' ts t p :
  state_ok (s, ts) → slot_ok s' → task_ok s' t p → sl_made s ≤ sl_made s' →
  (∀ t', t' ≠ t → ts !! t' = Some Locked → sl_lock s' = Some t') →
  state_ok (s', <[t := p]> ts).
Proof.
  intros [_ Hts] Hs' Hp Hmade Hlock. split; [done|]. cbn. intros t' p' Ht'.
  destruct (decide (t' = t)) as [->|Hne].
  - rewrite lookup_insert_eq in Ht'. by injection Ht' as <-.
  - rewrite lookup_insert_ne in Ht' by done. specialize (Hts t' p' Ht').
    destruct p'; cbn in *; try done; [by apply Hlock|].
    destruct Hts as (n & -> & Hn). exists n. split; [done|lia].
Qed.

Lemma locked_block_ok answer s : slot_ok s →
  let r := locked_block answer s in
  slot_ok r.1 ∧ (∀ t, task_ok r.1 t r.2) ∧ sl_made s ≤ sl_made r.1 ∧ sl_lock r.1 = None.
Proof.
  intros [Hm Hc]. unfold locked_block. cbv [make_client gets lift modify mbind M_bind mret M_ret].
  destruct (sl_client s) as [c|] eqn:E.
  - destruct (Hc c eq_refl) as (n & -> & Hn). cbn. rewrite E. split_and!; [|intros _; exists n|lia|done].
    + split; cbn; rewrite E; [done|]. intros c [= <-]. by exists n.
    + split; [done|lia].
  - destruct answer as [[]|e]; cbn.
    + split_and!; [|intros _; exists (sl_made s)|lia|done]; [|split; [done|lia]].
      split; cbn; [lia|]. intros c [= <-]. by eexists.
    + split_and!; [|done|lia|done]. split; cbn; rewrite E; [done|]. by intros c [=].
Qed.

Lemma slot_ok_drop s : slot_ok s → slot_ok (drop_client s).
Proof. intros [Hm _]. split; cbn; [destruct (sl_client s); lia|]. by intros c [=]. Qed.

Lemma state_ok_step st st' : state_ok st → step st st' → state_ok st'.
Proof.
  intros H Hstep. pose proof H as [Hs Hts].
  assert (Hlock : ∀ t, st.2 !! t = Some Locked → sl_lock st.1 = Some t) by (intros t; apply Hts).
  destruct Hstep as [t s ts Ht|t s ts Ht|t s ts Ht Hl|t answer s ts Ht|t s ts Ht|t answer s ts Ht];
    cbn [fst snd] in *.
  - apply (state_ok_update s); try done; auto.
  - apply (state_ok_update s); try done; auto. unfold first_check. destruct (sl_client s) as [c|] eqn:E; [|done].
    destruct (proj2 Hs c E) as (n & -> & Hn). exists n. split; [done|lia].
  - apply (state_ok_update s); try done; auto.
    intros t' _ Ht'%Hlock. congruence.
  - destruct (locked_block_ok answer s Hs) as (? & ? & ? & _). apply (state_ok_update s); try done; auto.
    intros t' Hne Ht'%Hlock. apply Hlock in Ht. congruence.
  - apply (state_ok_update s); try done; auto. by destruct (sl_client s).
  - apply (state_ok_update s); destruct answer; cbn; try done; auto using slot_ok_drop.
Qed.

Lemma clients_reachable_ok st : reachable st → state_ok st.
Proof.
  intros H. unfold reachable in H. remember start as st0 eqn:E.
  assert (H0 : state_ok st0) by (subst; apply state_ok_start). clear E.
  induction H as [|st1 st2 st3 Hstep _ IH]; [done|]. apply IH. by apply (state_ok_step st1).
Qed.

(** C37: the tasks of a process share one Redis client.  Under any interleaving
    of [get_redis] and [close_redis], failures included, a task that returns
    has a client, at most one task is in the block that makes one, no more
    clients are made than were given up and one, and as long as none was given
    up every task has the same. *)
Theorem clients_shared st : reachable st →
  (∀ t r, st.2 !! t = Some (Returned r) → ∃ n, r = Some (from_url url n)) ∧
  (∀ t1 t2, st.2 !! t1 = Some Locked → st.2 !! t2 = Some Locked → t1 = t2) ∧
  sl_made st.1 ≤ sl_dropped st.1 + 1 ∧
  (sl_dropped st.1 = 0 → ∀ t r, st.2 !! t = Some (Returned r) → r = Some (from_url url 0)).
Proof.
  intros [[Hm _] Hts]%clients_reachable_ok.
  assert (Hmade : sl_made st.1 ≤ sl_dropped st.1 + 1) by (destruct (sl_client st.1); lia).
  split_and!; [| |done|].
  - intros t r (n & -> & _)%Hts. by exists n.
  - intros t1 t2 H1%Hts H2%Hts. cbn in *. congruence.
  - intros Hd t r (n & -> & Hn)%Hts. by replace n with 0 by lia.
Qed.

(** A task alone gets a client or the refusal of its URL. *)
Lemma get_redis_run answer s : slot_ok s →
  (∃ n s', get_redis answer s = (Ok (Some (from_url url n)), s') ∧ slot_ok s' ∧
     sl_client s' = Some (from_url url n) ∧ sl_lock s' = sl_lock s) ∨
  (∃ e, get_redis answer s = (Raise e, s) ∧ answer = Raise e ∧ sl_client s = None).
Proof.
  intros [Hm Hc]. unfold get_redis. cbv [make_client gets lift modify mbind M_bind mret M_ret].
  destruct (sl_client s) as [c|] eqn:E.
  - destruct (Hc c eq_refl) as (n & -> & Hn). left. exists n, s. split_and!; [done| |done|done].
    split; rewrite E; [done|]. intros c [= <-]. by exists n.
  - rewrite E. destruct answer as [[]|e]; [left|right; by exists e].
    exists (sl_made s), (add_client url s). split_and!; [done| |done|done].
    split; cbn; [lia|]. intros c [= <-]. by eexists.
Qed.

(** *** Schedules *)

Inductive Act : Type := Get | Close | Go (answer : result unit).

(** The step of task [t], when it can make one. *)
Definition turn (t : nat) (a : Act) (st : State) : option State :=
  let '(s, ts) := st in
  match a, ts !! t with
  | Get, None => Some (s, <[t := Entered]> ts)
  | Close, None =>
      Some (s, <[t := match sl_client s with Some _ => Closing | None => Closed end]> ts)
  | Go _, Some Entered => Some (s, <[t := first_check s]> ts)
  | Go _, Some Waiting =>
      match sl_lock s with
      | None => Some (set_lock (Some t) s, <[t := Locked]> ts)
      | Some _ => None
      end
  | Go answer, Some Locked =>
      Some ((locked_block answer s).1, <[t := (locked_block answer s).2]> ts)
  | Go answer, Some Closing =>
      Some (match answer with Ok _ => drop_client s | Raise _ => s end,
            <[t := match answer with Ok _ => Closed | Raise e => Failed e end]> ts)
  | _, _ => None
  end.

Fixpoint schedule (acts : list (nat * Act)) (st : State) : option State :=
  match acts with
  | [] => Some st
  | (t, a) :: acts' => st' ← turn t a st; schedule acts' st'
  end.

Lemma turn_step t a st st' : turn t a st = Some st' → step st st'.
Proof.
  destruct st as [s ts]. unfold turn.
  destruct a, (ts !! t) as [[]|] eqn:E; try done; try (intros [= <-]; by constructor).
  destruct (sl_lock s) eqn:El; [done|]. intros [= <-]. by constructor.
Qed.

Lemma schedule_reachable acts st : schedule acts start = Some st → reachable st.
Proof.
  unfold reachable. generalize start. induction acts as [|[t a] acts IH]; cbn; intros st0.
  - by intros [= <-].
  - destruct (turn t a st0) as [st1|] eqn:E; [|done]. cbn. intros H%IH.
    eapply rtc_l; [by eapply turn_step|done].
Qed.
End client.

(** Two tasks that both find no client: the second one to get the lock finds
    the client of the first. *)
Definition race : list (nat * Act) :=
  [(1, Get); (2, Get); (1, Go (Ok tt)); (2, Go (Ok tt)); (1, Go (Ok tt)); (1, Go (Ok tt));
   (2, Go (Ok tt)); (2, Go (Ok tt))].

Definition after_race : State := default start (schedule "redis://cache" race start).

Lemma clients_shared_witness :
  after_race.2 !! 1 = Some (Returned (Some (from_url "redis://cache" 0))) ∧
  ∀ r, after_race.2 !! 2 = Some (Returned r) → r = Some (from_url "redis://cache" 0).
Proof.
  split; [by vm_compute|].
  assert (H : reachable "redis://cache" after_race)
    by (apply (schedule_reachable _ race); by vm_compute).
  destruct (clients_shared "redis://cache" after_race H) as (_ & _ & _ & Hone).
  intros r. by apply Hone.
Defined.
End Clients.

(** ** The life of the process *)

Module Process.
Import Clients.

(** What the process holds: the state of the payload bucket, the two Redis
    clients, the listener for live spans, whether the two database engines were
    disposed of, and the steps of the shutdown that were logged as failed. *)
Record Api : Type := {
  ap_bucket : option string; ap_cache : Slot; ap_queue : Slot;
  ap_pubsub : PubSubManager; ap_engine_disposed : bool; ap_maintenance_disposed : bool;
  ap_failed_steps : list string;
}.

Definition fresh_api : Api :=
  {| ap_bucket := None; ap_cache := no_client; ap_queue := no_client;
     ap_pubsub := new_manager; ap_engine_disposed := false;
     ap_maintenance_disposed := false; ap_failed_steps := [] |}.

Definition set_bucket (b : string) (s : Api) : Api :=
  {| ap_bucket := Some b; ap_cache := ap_cache s; ap_queue := ap_queue s;
     ap_pubsub := ap_pubsub s; ap_engine_disposed := ap_engine_disposed s;
     ap_maintenance_disposed := ap_maintenance_disposed s;
     ap_failed_steps := ap_failed_steps s |}.

Definition set_slots (cache queue : Slot) (s : Api) : Api :=
  {| ap_bucket := ap_bucket s; ap_cache := cache; ap_queue := queue;
     ap_pubsub := ap_pubsub s; ap_engine_disposed := ap_engine_disposed s;
     ap_maintenance_disposed := ap_maintenance_disposed s;
     ap_failed_steps := ap_failed_steps s |}.

Definition with_pubsub (f : PubSubManager → PubSubManager) (s : Api) : Api :=
  {| ap_bucket := ap_bucket s; ap_cache := ap_cache s; ap_queue := ap_queue s;
     ap_pubsub := f (ap_pubsub s); ap_engine_disposed := ap_engine_disposed s;
     ap_maintenance_disposed := ap_maintenance_disposed s;
     ap_failed_steps := ap_failed_steps s |}.

Definition set_disposed (engine maintenance : bool) (s : Api) : Api :=
  {| ap_bucket := ap_bucket s; ap_cache := ap_cache s; ap_queue := ap_queue s;
     ap_pubsub := ap_pubsub s; ap_engine_disposed := engine;
     ap_maintenance_disposed := maintenance; ap_failed_steps := ap_failed_steps s |}.

(** [log.error("lifespan_shutdown_step_failed", step=name, ...)] *)
Definition log_failed (name : string) (s : Api) : Api :=
  {| ap_bucket := ap_bucket s; ap_cache := ap_cache s; ap_queue := ap_queue s;
     ap_pubsub := ap_pubsub s; ap_engine_disposed := ap_engine_disposed s;
     ap_maintenance_disposed := ap_maintenance_disposed s;
     ap_failed_steps := ap_failed_steps s ++ [name] |}.

Definition on_cache {A} (m : M Slot A) : M Api A := λ s,
  let '(r, c) := m (ap_cache s) in (r, set_slots c (ap_queue s) s).

Definition on_queue {A} (m : M Slot A) : M Api A := λ s,
  let '(r, q) := m (ap_queue s) in (r, set_slots (ap_cache s) q s).

(** How the calls of the libraries end in one life of the process. *)
Record Answers : Type := {
  an_open_s3 : result unit; an_head : result unit; an_create : result unit;
  an_from_url : result unit; an_close_cache : result unit; an_close_queue : result unit;
  an_dispose_engine : result unit; an_dispose_maintenance : result unit;
}.

Section lifespan.
Variables (redis_url : string) (an : Answers).

Definition startup : M Api unit :=
  lift (an_open_s3 an) ;;
  modify (set_bucket (ensure_payload_bucket (an_head an) (an_create an))) ;;
  on_cache (get_redis redis_url (an_from_url an)) ;;
  modify (with_pubsub PubSub.start).

Definition close_redis : M Api unit :=
  on_cache (close_client (an_close_cache an)) ;;
  on_queue (close_client (an_close_queue an)).

Definition close_db_engines : M Api unit :=
  lift (an_dispose_engine an) ;;
  modify (λ s, set_disposed true (ap_maintenance_disposed s) s) ;;
  lift (an_dispose_maintenance an) ;;
  modify (λ s, set_disposed (ap_engine_disposed s) true s).

Definition shutdown_steps : list (string * M Api unit) :=
  [("pubsub", modify (with_pubsub PubSub.stop)); ("redis", close_redis);
   ("database", close_db_engines)]%string.

(** The [finally] block: a step that raises is logged, the next one is run. *)
Definition shutdown : M Api unit :=
  for_each shutdown_steps
    (λ '(name, close), try_except close (λ _, modify (log_failed name))).

(** [lifespan], around what the process serves. *)
Definition lifespan (serve : M Api unit) : M Api unit :=
  startup ;; try_finally serve shutdown.

(** *** Facts *)

Lemma stop_stops m : running (PubSub.stop m) = false.
Proof. unfold PubSub.stop. by destruct (running m) eqn:E. Qed.

(** The shutdown always reaches its end and runs every step, whatever raises
    in it: the listener is stopped, and what could be closed is closed. *)
Lemma shutdown_run s :
  ∃ s', shutdown s = (Ok tt, s') ∧
    ap_pubsub s' = PubSub.stop (ap_pubsub s) ∧
    (an_close_cache an = Ok tt → sl_client (ap_cache s') = None) ∧
    (an_close_cache an = Ok tt → an_close_queue an = Ok tt → sl_client (ap_queue s') = None) ∧
    (an_dispose_engine an = Ok tt → ap_engine_disposed s' = true) ∧
    (an_dispose_engine an = Ok tt → an_dispose_maintenance an = Ok tt →
     ap_maintenance_disposed s' = true).
Proof.
  destruct s as [b c q p e mt l].
  unfold shutdown, shutdown_steps, for_each, try_except, close_redis, close_db_engines,
    on_cache, on_queue, close_client.
  cbv [gets lift modify mbind M_bind mret M_ret]. cbn.
  destruct (sl_client c) as [cl|] eqn:Ec, (sl_client q) as [ql|] eqn:Eq;
    destruct (an_close_cache an) as [[]|?], (an_close_queue an) as [[]|?],
      (an_dispose_engine an) as [[]|?], (an_dispose_maintenance an) as [[]|?]; cbn;
    rewrite ?Ec, ?Eq; cbn; eexists; split_and!; try done; cbn; intros; by rewrite ?Ec, ?Eq.
Qed.

(** However the serving ends, so does the lifespan, with the listener stopped
    and everything closed whose closing the libraries allow. *)
Lemma lifespan_releases serve s0 s1 r s2 :
  startup s0 = (Ok tt, s1) → serve s1 = (r, s2) →
  ∃ s', lifespan serve s0 = (r, s') ∧ running (ap_pubsub s') = false ∧
    (an_close_cache an = Ok tt → sl_client (ap_cache s') = None) ∧
    (an_close_cache an = Ok tt → an_close_queue an = Ok tt → sl_client (ap_queue s') = None) ∧
    (an_dispose_engine an = Ok tt → an_dispose_maintenance an = Ok tt →
     ap_engine_disposed s' = true ∧ ap_maintenance_disposed s' = true).
Proof.
  intros H0 H1. destruct (shutdown_run s2) as (s' & Hr & Hp & Hc & Hq & He & Hm).
  exists s'. unfold lifespan, try_finally. erewrite bind_run by exact H0. rewrite H1, Hr.
  split_and!; auto. rewrite Hp. apply stop_stops.
Qed.

(** A startup that returns has the process's client and starts the listener
    when none is running. *)
Lemma startup_run s0 s1 : slot_ok redis_url (ap_cache s0) → startup s0 = (Ok tt, s1) →
  (∃ n, sl_client (ap_cache s1) = Some (from_url redis_url n)) ∧
  ap_pubsub s1 = PubSub.start (ap_pubsub s0).
Proof.
  intros Hok. unfold startup, on_cache. cbv [lift modify mbind M_bind].
  destruct (an_open_s3 an) as [[]|]; [|done]. cbn [ap_cache set_bucket].
  destruct (get_redis_run redis_url (an_from_url an) (ap_cache s0) Hok)
    as [(n & c & -> & _ & Hc & _)|(e & -> & _)]; [|done].
  intros [= <-]. split; [by exists n|done].
Qed.

(** C36: no subscriber of the live stream is ever sent a span.  The listener
    that the API process starts reads from the client of [core/redis.py],
    which decodes what it receives, and [_listen] decodes it again: whatever
    is published, subscribed and read, and however often the listener is
    stopped and started, every queue stays empty, and a message that finds it
    listening puts it to sleep. *)
Theorem live_stream_silent s1 : startup fresh_api = (Ok tt, s1) →
  ∃ c, sl_client (ap_cache s1) = Some c ∧
    ∀ es q, let heard := run (cl_decode_responses c) es (ap_pubsub s1) in
      yielded (cl_decode_responses c) q es (ap_pubsub s1) = [] ∧ items q heard = [] ∧
      (∀ channel data, ps_task heard = Some Listening →
       ps_task (run (cl_decode_responses c) (es ++ [Message channel data]) (ap_pubsub s1))
       = Some Sleeping).
Proof.
  intros [[n Hn] Hp]%startup_run; [|by split].
  exists (from_url redis_url n). split; [done|]. intros es q. rewrite Hp.
  by apply decoding_client_silent.
Qed.
End lifespan.

Definition all_well : Answers :=
  {| an_open_s3 := Ok tt; an_head := Ok tt; an_create := Ok tt; an_from_url := Ok tt;
     an_close_cache := Ok tt; an_close_queue := Ok tt; an_dispose_engine := Ok tt;
     an_dispose_maintenance := Ok tt |}.

Definition started : Api := (startup "redis://cache" all_well fresh_api).2.

Definition spans_for_a : list event :=
  [Turn Subscribed; Subscribe "a"; Message "project:a:new_span" "x"; Read 0;
   Turn Woken; Turn Subscribed; Message "project:a:new_span" "y"; Read 0].

Lemma live_stream_silent_witness :
  ps_task (run false spans_for_a (ap_pubsub started)) = Some Listening ∧
  yielded false 0 spans_for_a (ap_pubsub started) = ["x"; "y"]%string ∧
  ∃ c, sl_client (ap_cache started) = Some c ∧
    yielded (cl_decode_responses c) 0 spans_for_a (ap_pubsub started) = [].
Proof.
  split; [by vm_compute|]. split; [by vm_compute|].
  destruct (live_stream_silent "redis://cache" all_well started) as (c & Hc & H); [done|].
  exists c. split; [done|]. apply (H spans_for_a 0).
Defined.
End Process.
