(* ===== verification/Catalogue.v ===== *)
(** * The schema of the database and the statements that change it

    What the migrations of [backend/alembic/versions/] act on: the part of the
    PostgreSQL catalogue they use, and one constructor per statement they issue,
    through [alembic.op] or as SQL.  [exec] is what PostgreSQL documents about
    the statement, with [None] where it is refused; a statement sees no rows, so
    one that would have to fill rows it cannot fill is refused.  The privileges
    and attributes are those of one role, the one the program connects as. *)

From S2P Require Import Prelude Text.

(** ** The catalogue *)

Inductive SqlType : Type :=
| UUID
| String_ (length : Z)
| Text_
| Integer
| BigInteger
| Boolean
| Float
| Numeric (precision_scale : option (Z * Z))
| TIMESTAMP
| JSONB
| INET.

#[export] Instance SqlType_eq_dec : EqDecision SqlType.
Proof. solve_decision. Defined.

Record Column : Type := {
  c_name : string; c_type : SqlType; c_nullable : bool; c_default : option string;
}.

#[export] Instance Column_eq_dec : EqDecision Column.
Proof. solve_decision. Defined.

Inductive Constraint : Type :=
| PrimaryKey (columns : list string)
| Unique (name : option string) (columns : list string)
| Check_ (name condition : string)
| ForeignKey (name : option string) (columns : list string) (table : string)
    (referenced : list string) (ondelete : string).

#[export] Instance Constraint_eq_dec : EqDecision Constraint.
Proof. solve_decision. Defined.

Record Table : Type := {
  t_name : string; t_columns : list Column; t_constraints : list Constraint;
  t_partition_by : option string;
  t_rls : bool; t_force : bool;
  (** name and condition *)
  t_policies : list (string * string);
}.

#[export] Instance Table_eq_dec : EqDecision Table.
Proof. solve_decision. Defined.

Inductive IndexKey : Type := Asc (column : string) | Desc (column : string).

#[export] Instance IndexKey_eq_dec : EqDecision IndexKey.
Proof. solve_decision. Defined.

Record Index : Type := {
  ix_name : string; ix_table : string; ix_keys : list IndexKey;
  ix_where : option string; ix_using : option string;
}.

#[export] Instance Index_eq_dec : EqDecision Index.
Proof. solve_decision. Defined.

Record Partition : Type := {
  pt_name : string; pt_parent : string;
  (** [None] for the default partition *)
  pt_bounds : option (string * string);
  pt_rls : bool; pt_force : bool;
}.

#[export] Instance Partition_eq_dec : EqDecision Partition.
Proof. solve_decision. Defined.

(** A sequence and the column that owns it. *)
Record Sequence : Type := { sq_name : string; sq_owner : option (string * string) }.

#[export] Instance Sequence_eq_dec : EqDecision Sequence.
Proof. solve_decision. Defined.

Record Role : Type := {
  r_password : string; r_login : bool; r_superuser : bool; r_createdb : bool;
  r_createrole : bool; r_inherit : bool; r_bypassrls : bool;
}.

#[export] Instance Role_eq_dec : EqDecision Role.
Proof. solve_decision. Defined.

Record Catalogue : Type := {
  tables : list Table; indexes : list Index; partitions : list Partition;
  sequences : list Sequence;
  (** the role of the program: whether it may use the schema, the tables and
      sequences it may use, whether it is given later ones, and its attributes *)
  usage : bool; table_grants : list string; sequence_grants : list string;
  default_table_grants : bool; default_sequence_grants : bool;
  role : option Role;
}.

#[export] Instance Catalogue_eq_dec : EqDecision Catalogue.
Proof. solve_decision. Defined.

(** A database before the first migration. *)
Definition no_schema (r : option Role) : Catalogue :=
  {| tables := []; indexes := []; partitions := []; sequences := []; usage := false;
     table_grants := []; sequence_grants := []; default_table_grants := false;
     default_sequence_grants := false; role := r |}.

(** ** Statements *)

Inductive Ddl : Type :=
| create_table (name : string) (columns : list Column) (constraints : list Constraint)
    (partition_by : option string)
| drop_table (name : string)
| add_column (table : string) (column : Column)
| drop_column (table column : string)
| create_index (name table : string) (keys : list IndexKey) (where_ using_ : option string)
| drop_index (name table : string)
| create_check_constraint (name table condition : string)
| create_foreign_key (name source referent : string) (columns referenced : list string)
    (ondelete : string)
| drop_constraint (name table : string)
| create_partition_if_not_exists (name parent : string) (bounds : option (string * string))
| drop_partition_if_exists (name : string)
| enable_rls (table : string)
| disable_rls (table : string)
| force_rls (table : string)
| no_force_rls (table : string)
| create_policy (name table condition : string)
| drop_policy_if_exists (name table : string)
| partitions_enable_force_rls (parents : list string)
| partitions_no_force_disable_rls (parents : list string)
| create_sequence_if_not_exists (name : string)
| setval_after_max (name table column : string)
| set_default (table column default : string)
| drop_default (table column : string)
| own_sequence (name table column : string)
| drop_sequence_if_exists (name : string)
| create_role (attributes : Role)
| alter_role (attributes : Role)
| grant_usage | revoke_usage
| grant_all_tables | revoke_all_tables
| grant_all_sequences | revoke_all_sequences
| default_grant_tables | default_revoke_tables
| default_grant_sequences | default_revoke_sequences.

(** ** Looking things up *)

Definition subset (l l' : list string) : bool := forallb (λ x, inb x l') l.

Definition remove_by {A} (f : A → bool) (l : list A) : list A := List.filter (λ x, negb (f x)) l.

Definition table_named (name : string) (t : Table) : bool := String.eqb name (t_name t).
Definition index_named (name : string) (i : Index) : bool := String.eqb name (ix_name i).
Definition partition_named (name : string) (p : Partition) : bool := String.eqb name (pt_name p).
Definition sequence_named (name : string) (s : Sequence) : bool := String.eqb name (sq_name s).

Definition has_table (name : string) (c : Catalogue) : bool := existsb (table_named name) (tables c).

(** Tables, indexes, partitions and sequences share their names. *)
Definition relation_names (c : Catalogue) : list string :=
  map t_name (tables c) ++ map ix_name (indexes c) ++ map pt_name (partitions c)
  ++ map sq_name (sequences c).

Definition fresh (name : string) (c : Catalogue) : bool := negb (inb name (relation_names c)).

Definition column_names (t : Table) : list string := map c_name (t_columns t).

Definition constraint_name (k : Constraint) : option string :=
  match k with
  | PrimaryKey _ => None
  | Unique n _ | ForeignKey n _ _ _ _ => n
  | Check_ n _ => Some n
  end.

Definition constraint_named (name : string) (k : Constraint) : bool :=
  match constraint_name k with Some n => String.eqb name n | None => false end.

Definition constraint_columns (k : Constraint) : list string :=
  match k with
  | PrimaryKey cs | Unique _ cs | ForeignKey _ cs _ _ _ => cs
  | Check_ _ _ => []
  end.

(** [k] refers to a table of that name. *)
Definition refers_to (name : string) (k : Constraint) : bool :=
  match k with ForeignKey _ _ t _ _ => String.eqb name t | _ => false end.

Definition key_column (k : IndexKey) : string := match k with Asc c | Desc c => c end.

Definition index_columns (i : Index) : list string := map key_column (ix_keys i).

(** There is a table of that name with these columns. *)
Definition has_columns (name : string) (cols : list string) (c : Catalogue) : bool :=
  existsb (λ t, table_named name t && subset cols (column_names t)) (tables c).

(** ** Changing things *)

Definition with_tables (f : list Table → list Table) (c : Catalogue) : Catalogue :=
  {| tables := f (tables c); indexes := indexes c; partitions := partitions c;
     sequences := sequences c; usage := usage c; table_grants := table_grants c;
     sequence_grants := sequence_grants c; default_table_grants := default_table_grants c;
     default_sequence_grants := default_sequence_grants c; role := role c |}.

Definition with_indexes (f : list Index → list Index) (c : Catalogue) : Catalogue :=
  {| tables := tables c; indexes := f (indexes c); partitions := partitions c;
     sequences := sequences c; usage := usage c; table_grants := table_grants c;
     sequence_grants := sequence_grants c; default_table_grants := default_table_grants c;
     default_sequence_grants := default_sequence_grants c; role := role c |}.

Definition with_partitions (f : list Partition → list Partition) (c : Catalogue) : Catalogue :=
  {| tables := tables c; indexes := indexes c; partitions := f (partitions c);
     sequences := sequences c; usage := usage c; table_grants := table_grants c;
     sequence_grants := sequence_grants c; default_table_grants := default_table_grants c;
     default_sequence_grants := default_sequence_grants c; role := role c |}.

Definition with_sequences (f : list Sequence → list Sequence) (c : Catalogue) : Catalogue :=
  {| tables := tables c; indexes := indexes c; partitions := partitions c;
     sequences := f (sequences c); usage := usage c; table_grants := table_grants c;
     sequence_grants := sequence_grants c; default_table_grants := default_table_grants c;
     default_sequence_grants := default_sequence_grants c; role := role c |}.

Definition with_grants (ts ss : list string → list string) (c : Catalogue) : Catalogue :=
  {| tables := tables c; indexes := indexes c; partitions := partitions c;
     sequences := sequences c; usage := usage c; table_grants := ts (table_grants c);
     sequence_grants := ss (sequence_grants c); default_table_grants := default_table_grants c;
     default_sequence_grants := default_sequence_grants c; role := role c |}.

Definition with_role (use dt ds : bool) (r : option Role) (c : Catalogue) : Catalogue :=
  {| tables := tables c; indexes := indexes c; partitions := partitions c;
     sequences := sequences c; usage := use; table_grants := table_grants c;
     sequence_grants := sequence_grants c; default_table_grants := dt;
     default_sequence_grants := ds; role := r |}.

(** [ALTER TABLE name]: refused unless there is a table of that name and the
    change is possible. *)
Definition on_table (name : string) (possible : Table → bool) (f : Table → Table)
    (c : Catalogue) : option Catalogue :=
  if has_table name c && forallb (λ t, implb (table_named name t) (possible t)) (tables c)
  then Some (with_tables (map (λ t, if table_named name t then f t else t)) c)
  else None.

Definition with_columns (f : list Column → list Column) (t : Table) : Table :=
  {| t_name := t_name t; t_columns := f (t_columns t); t_constraints := t_constraints t;
     t_partition_by := t_partition_by t; t_rls := t_rls t; t_force := t_force t;
     t_policies := t_policies t |}.

Definition with_constraints (f : list Constraint → list Constraint) (t : Table) : Table :=
  {| t_name := t_name t; t_columns := t_columns t; t_constraints := f (t_constraints t);
     t_partition_by := t_partition_by t; t_rls := t_rls t; t_force := t_force t;
     t_policies := t_policies t |}.

Definition with_security (rls force : bool) (policies : list (string * string)) (t : Table)
    : Table :=
  {| t_name := t_name t; t_columns := t_columns t; t_constraints := t_constraints t;
     t_partition_by := t_partition_by t; t_rls := rls; t_force := force;
     t_policies := policies |}.

Definition with_default (column : string) (d : option string) (k : Column) : Column :=
  if String.eqb column (c_name k)
  then {| c_name := c_name k; c_type := c_type k; c_nullable := c_nullable k; c_default := d |}
  else k.

Definition secure (rls force : bool) (p : Partition) : Partition :=
  {| pt_name := pt_name p; pt_parent := pt_parent p; pt_bounds := pt_bounds p;
     pt_rls := rls; pt_force := force |}.

(** The columns of a constraint, and the table it refers to, exist. *)
Definition constraint_possible (columns : list string) (c : Catalogue) (k : Constraint) : bool :=
  subset (constraint_columns k) columns &&
  match k with ForeignKey _ _ t referenced _ => has_columns t referenced c | _ => true end.

(** The primary key of a partitioned table has the column it is partitioned by. *)
Definition partition_key_in (k : Constraint) (partition_by : option string) : bool :=
  match k, partition_by with
  | PrimaryKey cs, Some column => inb column cs
  | _, _ => true
  end.

(** SQLAlchemy gives a sequence to the integer column that is a table's primary
    key alone, without a default and without referring to another table. *)
Definition serial_column (columns : list Column) (constraints : list Constraint) : option string :=
  match List.find (λ k, match k with PrimaryKey _ => true | _ => false end) constraints with
  | Some (PrimaryKey [column]) =>
      if existsb (λ k, String.eqb column (c_name k) && bool_decide (c_default k = None) &&
                       bool_decide (c_type k = Integer ∨ c_type k = BigInteger)) columns &&
         negb (existsb (λ k, match k with ForeignKey _ cs _ _ _ => inb column cs | _ => false end)
                 constraints)
      then Some column else None
  | _ => None
  end.

Definition serial_sequence (table column : string) : string := table +:+ "_" +:+ column +:+ "_seq".

Definition nextval (sequence : string) : string := "nextval('" +:+ sequence +:+ "')".

Definition new_table (name : string) (columns : list Column) (constraints : list Constraint)
    (partition_by : option string) : Table :=
  {| t_name := name; t_columns := columns; t_constraints := constraints;
     t_partition_by := partition_by; t_rls := false; t_force := false; t_policies := [] |}.

Definition add_table (name : string) (columns : list Column) (constraints : list Constraint)
    (partition_by : option string) (c : Catalogue) : Catalogue :=
  with_grants (λ g, g ++ (if default_table_grants c then [name] else [])) id
    (with_tables (λ ts, ts ++ [new_table name columns constraints partition_by]) c).

Definition add_sequence (name : string) (owner : option (string * string)) (c : Catalogue)
    : Catalogue :=
  with_grants id (λ g, g ++ (if default_sequence_grants c then [name] else []))
    (with_sequences (λ ss, ss ++ [{| sq_name := name; sq_owner := owner |}]) c).

Definition exec_create_table (name : string) (columns : list Column)
    (constraints : list Constraint) (partition_by : option string) (c : Catalogue)
    : option Catalogue :=
  if fresh name c && bool_decide (NoDup (map c_name columns)) &&
     forallb (constraint_possible (map c_name columns) c) constraints &&
     forallb (λ k, partition_key_in k partition_by) constraints
  then
    match serial_column columns constraints with
    | None => Some (add_table name columns constraints partition_by c)
    | Some column =>
        let sequence := serial_sequence name column in
        if fresh sequence c && negb (String.eqb sequence name)
        then Some (add_sequence sequence (Some (name, column))
                     (add_table name (map (with_default column (Some (nextval sequence))) columns)
                        constraints partition_by c))
        else None
    end
  else None.

(** Sequences go with the table or column that owns them, privileges with what
    they are for. *)
Definition drop_sequences (p : Sequence → bool) (c : Catalogue) : Catalogue :=
  let gone := map sq_name (List.filter p (sequences c)) in
  with_grants id (remove_by (λ s, inb s gone)) (with_sequences (remove_by p) c).

Definition drop_partitions (p : Partition → bool) (c : Catalogue) : Catalogue :=
  let gone := map pt_name (List.filter p (partitions c)) in
  with_grants (remove_by (λ t, inb t gone)) id (with_partitions (remove_by p) c).

Definition owned_by_table (name : string) (s : Sequence) : bool :=
  match sq_owner s with Some (t, _) => String.eqb name t | None => false end.

Definition owned_by_column (table column : string) (s : Sequence) : bool :=
  match sq_owner s with
  | Some (t, k) => String.eqb table t && String.eqb column k
  | None => false
  end.

Definition index_of (name : string) (i : Index) : bool := String.eqb name (ix_table i).
Definition partition_of (name : string) (p : Partition) : bool := String.eqb name (pt_parent p).

Definition index_on (table column : string) (i : Index) : bool :=
  index_of table i && inb column (index_columns i).

(** Refused while another table refers to it. *)
Definition exec_drop_table (name : string) (c : Catalogue) : option Catalogue :=
  if has_table name c &&
     negb (existsb (λ t, negb (table_named name t) && existsb (refers_to name) (t_constraints t))
             (tables c))
  then
    Some (drop_sequences (owned_by_table name)
            (drop_partitions (partition_of name)
              (with_indexes (remove_by (index_of name))
                (with_grants (remove_by (String.eqb name)) id
                  (with_tables (remove_by (table_named name)) c)))))
  else None.

(** The constraints and indexes of a column go with it; refused while another
    table refers to it. *)
Definition exec_drop_column (table column : string) (c : Catalogue) : option Catalogue :=
  if existsb (λ t, existsb (λ k, match k with
                                 | ForeignKey _ _ r cs _ => String.eqb table r && inb column cs
                                 | _ => false
                                 end) (t_constraints t)) (tables c)
  then None
  else
    c' ← on_table table (λ t, inb column (column_names t))
           (λ t, with_constraints (remove_by (λ k, inb column (constraint_columns k)))
                   (with_columns (remove_by (λ k, String.eqb column (c_name k))) t)) c;
    Some (drop_sequences (owned_by_column table column)
            (with_indexes (remove_by (index_on table column)) c')).

Definition add_constraint (table : string) (k : Constraint) (c : Catalogue) : option Catalogue :=
  on_table table
    (λ t, constraint_possible (column_names t) c k &&
          match constraint_name k with
          | Some n => negb (existsb (constraint_named n) (t_constraints t))
          | None => true
          end)
    (with_constraints (λ ks, ks ++ [k])) c.

Definition set_security (table : string) (rls force : Table → bool) : Catalogue → option Catalogue :=
  on_table table (λ _, true) (λ t, with_security (rls t) (force t) (t_policies t) t).

Definition with_attributes (a : Role) (c : Catalogue) : Catalogue :=
  with_role (usage c) (default_table_grants c) (default_sequence_grants c) (Some a) c.

(** A privilege is given to a role that exists. *)
Definition for_role (f : Catalogue → Catalogue) (c : Catalogue) : option Catalogue :=
  match role c with Some _ => Some (f c) | None => None end.

Definition exec (d : Ddl) (c : Catalogue) : option Catalogue :=
  match d with
  | create_table name columns constraints partition_by =>
      exec_create_table name columns constraints partition_by c
  | drop_table name => exec_drop_table name c
  | add_column table column =>
      (* a row already there needs a value *)
      if c_nullable column || bool_decide (is_Some (c_default column))
      then on_table table (λ t, negb (inb (c_name column) (column_names t)))
             (with_columns (λ cs, cs ++ [column])) c
      else None
  | drop_column table column => exec_drop_column table column c
  | create_index name table keys where_ using_ =>
      if fresh name c && has_columns table (map key_column keys) c
      then Some (with_indexes (λ l, l ++ [{| ix_name := name; ix_table := table; ix_keys := keys;
                                             ix_where := where_; ix_using := using_ |}]) c)
      else None
  | drop_index name table =>
      if existsb (index_named name) (indexes c)
      then Some (with_indexes (remove_by (index_named name)) c) else None
  | create_check_constraint name table condition => add_constraint table (Check_ name condition) c
  | create_foreign_key name source referent columns referenced ondelete =>
      add_constraint source (ForeignKey (Some name) columns referent referenced ondelete) c
  | drop_constraint name table =>
      on_table table (λ t, existsb (constraint_named name) (t_constraints t))
        (with_constraints (remove_by (constraint_named name))) c
  | create_partition_if_not_exists name parent bounds =>
      if negb (fresh name c) then Some c
      else if existsb (λ t, table_named parent t && bool_decide (is_Some (t_partition_by t))) (tables c)
      then Some (with_grants (λ g, g ++ (if default_table_grants c then [name] else [])) id
                   (with_partitions (λ ps, ps ++ [{| pt_name := name; pt_parent := parent;
                      pt_bounds := bounds; pt_rls := false; pt_force := false |}]) c))
      else None
  | drop_partition_if_exists name => Some (drop_partitions (partition_named name) c)
  | enable_rls table => set_security table (λ _, true) t_force c
  | disable_rls table => set_security table (λ _, false) t_force c
  | force_rls table => set_security table t_rls (λ _, true) c
  | no_force_rls table => set_security table t_rls (λ _, false) c
  | create_policy name table condition =>
      on_table table (λ t, negb (inb name (map fst (t_policies t))))
        (λ t, with_security (t_rls t) (t_force t) (t_policies t ++ [(name, condition)]) t) c
  | drop_policy_if_exists name table =>
      on_table table (λ _, true)
        (λ t, with_security (t_rls t) (t_force t)
                (remove_by (λ p, String.eqb name p.1) (t_policies t)) t) c
  | partitions_enable_force_rls parents =>
      Some (with_partitions (map (λ p, if inb (pt_parent p) parents then secure true true p else p)) c)
  | partitions_no_force_disable_rls parents =>
      Some (with_partitions (map (λ p, if inb (pt_parent p) parents then secure false false p else p)) c)
  | create_sequence_if_not_exists name =>
      if negb (fresh name c) then Some c else Some (add_sequence name None c)
  | setval_after_max name table column =>
      if existsb (sequence_named name) (sequences c) && has_columns table [column] c
      then Some c else None
  | set_default table column d =>
      on_table table (λ t, inb column (column_names t))
        (with_columns (map (with_default column (Some d)))) c
  | drop_default table column =>
      on_table table (λ t, inb column (column_names t))
        (with_columns (map (with_default column None))) c
  | own_sequence name table column =>
      if existsb (sequence_named name) (sequences c) && has_columns table [column] c
      then Some (with_sequences (map (λ s, if sequence_named name s
             then {| sq_name := sq_name s; sq_owner := Some (table, column) |} else s)) c)
      else None
  | drop_sequence_if_exists name =>
      (* refused while a column has its default from it *)
      if existsb (λ t, existsb (λ k, bool_decide (c_default k = Some (nextval name))) (t_columns t))
           (tables c)
      then None else Some (drop_sequences (sequence_named name) c)
  | create_role a => match role c with None => Some (with_attributes a c) | Some _ => None end
  | alter_role a => match role c with Some _ => Some (with_attributes a c) | None => None end
  | grant_usage =>
      for_role (with_role true (default_table_grants c) (default_sequence_grants c) (role c)) c
  | revoke_usage =>
      for_role (with_role false (default_table_grants c) (default_sequence_grants c) (role c)) c
  | grant_all_tables =>
      for_role (with_grants (λ g, g ++ List.filter (λ t, negb (inb t g))
                  (map t_name (tables c) ++ map pt_name (partitions c))) id) c
  | revoke_all_tables => for_role (with_grants (λ _, []) id) c
  | grant_all_sequences =>
      for_role (with_grants id (λ g, g ++ List.filter (λ s, negb (inb s g))
                  (map sq_name (sequences c)))) c
  | revoke_all_sequences => for_role (with_grants id (λ _, [])) c
  | default_grant_tables =>
      for_role (with_role (usage c) true (default_sequence_grants c) (role c)) c
  | default_revoke_tables =>
      for_role (with_role (usage c) false (default_sequence_grants c) (role c)) c
  | default_grant_sequences =>
      for_role (with_role (usage c) (default_table_grants c) true (role c)) c
  | default_revoke_sequences =>
      for_role (with_role (usage c) (default_table_grants c) false (role c)) c
  end.

(** ** Lists *)

Lemma subset_spec l l' : subset l l' = true ↔ ∀ x, x ∈ l → x ∈ l'.
Proof.
  unfold subset. rewrite forallb_forall. setoid_rewrite inb_true.
  by setoid_rewrite <- list_elem_of_In.
Qed.

Section remove_by.
Context {A : Type} (f : A → bool).

Lemma remove_by_none l : (∀ x, x ∈ l → f x = false) → remove_by f l = l.
Proof.
  induction l as [|x l IH]; intros H; [done|]. cbn. rewrite H by left. cbn.
  f_equal. apply IH. intros y Hy. apply H. by right.
Qed.

Lemma remove_by_app l l' : remove_by f (l ++ l') = remove_by f l ++ remove_by f l'.
Proof. unfold remove_by. induction l as [|x l IH]; [done|]. cbn. rewrite IH. by destruct (f x). Qed.

(** What was added last is what is removed. *)
Lemma remove_by_added l l' : (∀ x, x ∈ l → f x = false) → (∀ x, x ∈ l' → f x = true) →
  remove_by f (l ++ l') = l.
Proof.
  intros Hl Hl'. rewrite remove_by_app, remove_by_none by done.
  assert (E : remove_by f l' = []); [|by rewrite E, app_nil_r].
  induction l' as [|x l' IH]; [done|]. cbn. rewrite Hl' by left. cbn. apply IH.
  intros y Hy. apply Hl'. by right.
Qed.

Lemma filter_none l : (∀ x, x ∈ l → f x = false) → List.filter f l = [].
Proof.
  induction l as [|x l IH]; intros H; [done|]. cbn. rewrite H by left.
  apply IH. intros y Hy. apply H. by right.
Qed.
End remove_by.

Lemma remove_by_nothing (l : list string) : remove_by (λ x, inb x []) l = l.
Proof. by apply remove_by_none. Qed.

(** ** Well-formed catalogues

    Nothing refers to a table, column, partition or sequence that is not there. *)

Lemma has_columns_spec n cols c :
  has_columns n cols c = true ↔
  ∃ t, t ∈ tables c ∧ t_name t = n ∧ ∀ x, x ∈ cols → x ∈ column_names t.
Proof.
  unfold has_columns, table_named. rewrite existsb_exists. setoid_rewrite andb_true_iff.
  setoid_rewrite String.eqb_eq. setoid_rewrite subset_spec. setoid_rewrite <- list_elem_of_In.
  naive_solver.
Qed.

Lemma has_table_spec n c : has_table n c = true ↔ ∃ t, t ∈ tables c ∧ t_name t = n.
Proof.
  unfold has_table, table_named. rewrite existsb_exists. setoid_rewrite String.eqb_eq.
  setoid_rewrite <- list_elem_of_In. naive_solver.
Qed.

Arguments has_columns : simpl never.
Arguments has_table : simpl never.

Record wf (c : Catalogue) : Prop := {
  wf_index : ∀ i, i ∈ indexes c → has_columns (ix_table i) (index_columns i) c = true;
  wf_columns : ∀ t k, t ∈ tables c → k ∈ t_constraints t →
    subset (constraint_columns k) (column_names t) = true;
  wf_refers : ∀ t n cols r rs d, t ∈ tables c → ForeignKey n cols r rs d ∈ t_constraints t →
    has_columns r rs c = true;
  wf_partition : ∀ p, p ∈ partitions c → has_table (pt_parent p) c = true;
  wf_sequence : ∀ s t k, s ∈ sequences c → sq_owner s = Some (t, k) → has_columns t [k] c = true;
  wf_table_grant : ∀ g, g ∈ table_grants c → g ∈ map t_name (tables c) ++ map pt_name (partitions c);
  wf_sequence_grant : ∀ g, g ∈ sequence_grants c → g ∈ map sq_name (sequences c);
}.

Lemma wf_no_schema r : wf (no_schema r).
Proof. split; cbn; intros; by apply not_elem_of_nil in H. Qed.

Lemma has_columns_table n cols c : has_columns n cols c = true → has_table n c = true.
Proof. rewrite has_columns_spec, has_table_spec. naive_solver. Qed.

(** A name that is free is no table's, index's, partition's or sequence's. *)
Lemma fresh_spec name c : fresh name c = true →
  (∀ t, t ∈ tables c → table_named name t = false) ∧
  (∀ i, i ∈ indexes c → index_named name i = false) ∧
  (∀ p, p ∈ partitions c → partition_named name p = false) ∧
  (∀ s, s ∈ sequences c → sequence_named name s = false).
Proof.
  unfold fresh, relation_names. rewrite negb_true_iff, inb_false, !not_elem_of_app.
  rewrite !list_elem_of_fmap. intros (Ht & Hi & Hp & Hs).
  split_and!; intros x Hx; apply String.eqb_neq; intros ->; naive_solver.
Qed.

Lemma fresh_no_table name c : fresh name c = true → has_table name c = false.
Proof.
  intros (Ht & _)%fresh_spec. apply not_true_iff_false. rewrite has_table_spec.
  intros (t & Hin & <-). apply Ht in Hin. unfold table_named in Hin.
  by rewrite String.eqb_refl in Hin.
Qed.

(** Tables only grow. *)
Definition grows (c c' : Catalogue) : Prop :=
  ∀ t, t ∈ tables c → ∃ t', t' ∈ tables c' ∧ t_name t' = t_name t ∧
    ∀ x, x ∈ column_names t → x ∈ column_names t'.

Lemma grows_columns c c' n cols : grows c c' → has_columns n cols c = true →
  has_columns n cols c' = true.
Proof.
  rewrite !has_columns_spec. intros Hg (t & Ht & <- & Hc).
  destruct (Hg t Ht) as (t' & Ht' & <- & Hc'). exists t'. split_and!; auto.
Qed.

Lemma grows_table c c' n : grows c c' → has_table n c = true → has_table n c' = true.
Proof.
  rewrite !has_table_spec. intros Hg (t & Ht & <-).
  destruct (Hg t Ht) as (t' & Ht' & <- & _). by exists t'.
Qed.

Lemma grows_names c c' g : grows c c' → g ∈ map t_name (tables c) → g ∈ map t_name (tables c').
Proof.
  rewrite !list_elem_of_fmap. intros Hg (t & -> & Ht).
  destruct (Hg t Ht) as (t' & Ht' & E & _). by exists t'.
Qed.

(** ** Statements that undo one another

    [Undoes d d']: on a well-formed catalogue, what [d] does is well-formed and
    [d'] takes it back, whatever else the catalogue holds. *)

Class Undoes (d d' : Ddl) : Prop := {
  undoes_wf : ∀ c c', wf c → exec d c = Some c' → wf c';
  undoes_back : ∀ c c', wf c → exec d c = Some c' → exec d' c' = Some c;
}.

Lemma catalogue_eq c c' :
  tables c = tables c' → indexes c = indexes c' → partitions c = partitions c' →
  sequences c = sequences c' → usage c = usage c' → table_grants c = table_grants c' →
  sequence_grants c = sequence_grants c' → default_table_grants c = default_table_grants c' →
  default_sequence_grants c = default_sequence_grants c' → role c = role c' → c = c'.
Proof. destruct c, c'; cbn. by intros -> -> -> -> -> -> -> -> -> ->. Qed.

(** *** Indexes *)

#[export] Instance undoes_index name table keys where_ using_ :
  Undoes (create_index name table keys where_ using_) (drop_index name table).
Proof.
  split; intros c c' Hwf; cbn [exec];
    destruct (fresh name c && has_columns table (map key_column keys) c) eqn:E; try done;
    apply andb_true_iff in E as [Hf Hc]; intros [= <-].
  - destruct Hwf as [Hi Hk Hr Hp Hs Htg Hsg]. split; try done. cbn.
    intros i [Hin| ->%list_elem_of_singleton]%elem_of_app; [by apply Hi|done].
  - cbn [exec with_indexes indexes]. rewrite existsb_app. cbn [existsb]. unfold index_named at 2.
    cbn [ix_name]. rewrite String.eqb_refl, orb_true_r. f_equal.
    apply catalogue_eq; try done. cbn. apply remove_by_added.
    + by apply fresh_spec.
    + intros i ->%list_elem_of_singleton. unfold index_named. cbn. apply String.eqb_refl.
Qed.

(** *** Changes of one table *)

Lemma on_table_inv name possible f c c' : on_table name possible f c = Some c' →
  has_table name c = true ∧ (∀ t, t ∈ tables c → t_name t = name → possible t = true) ∧
  c' = with_tables (map (λ t, if table_named name t then f t else t)) c.
Proof.
  unfold on_table. destruct (_ && _) eqn:E; [|done]. apply andb_true_iff in E as [Ht Hp].
  intros [= <-]. split_and!; [done| |done]. intros t Hin Hn.
  rewrite forallb_forall in Hp. specialize (Hp t (proj1 (list_elem_of_In _ _) Hin)).
  unfold table_named in Hp. by rewrite Hn, String.eqb_refl in Hp.
Qed.

(** A change that keeps the names can be made again, and followed by the change
    back it gives the tables there were. *)
Lemma on_table_back name possible' f g c :
  (∀ t, t_name (f t) = t_name t) → has_table name c = true →
  (∀ t, t ∈ tables c → t_name t = name → possible' (f t) = true ∧ g (f t) = t) →
  on_table name possible' g (with_tables (map (λ t, if table_named name t then f t else t)) c)
  = Some c.
Proof.
  intros Hn Ht Hg. unfold on_table, has_table in *. cbn [with_tables tables].
  assert (Hnamed : ∀ t, table_named name (if table_named name t then f t else t) = table_named name t).
  { intros t. destruct (table_named name t) eqn:E; [|done]. unfold table_named. by rewrite Hn. }
  assert (existsb (table_named name) (map (λ t, if table_named name t then f t else t) (tables c))
          = true) as ->.
  { rewrite existsb_exists in *. destruct Ht as (t & Hin & E).
    exists (if table_named name t then f t else t). rewrite Hnamed. split; [|done].
    by apply (in_map (λ t, if table_named name t then f t else t)). }
  assert (forallb _ (map (λ t, if table_named name t then f t else t) (tables c)) = true) as ->.
  { apply forallb_forall. intros t' (t & <- & Hin)%in_map_iff. rewrite Hnamed.
    destruct (table_named name t) eqn:E; [|done]. cbn.
    apply (Hg t (proj2 (list_elem_of_In _ _) Hin)). by apply String.eqb_eq in E. }
  cbn. f_equal. apply catalogue_eq; try done. cbn. rewrite map_map.
  rewrite <- map_id. apply map_ext_in. intros t Hin. rewrite Hnamed.
  destruct (table_named name t) eqn:E; [|done].
  apply (Hg t (proj2 (list_elem_of_In _ _) Hin)). by apply String.eqb_eq in E.
Qed.

Lemma on_table_grows name f c :
  (∀ t, t_name (f t) = t_name t ∧ ∀ x, x ∈ column_names t → x ∈ column_names (f t)) →
  grows c (with_tables (map (λ t, if table_named name t then f t else t)) c).
Proof.
  intros Hf t Ht. exists (if table_named name t then f t else t). split.
  - cbn. by apply (list_elem_of_fmap_2 (λ t, if table_named name t then f t else t)).
  - destruct (table_named name t); [apply Hf|done].
Qed.

(** A change of a table that keeps its name and columns and whose constraints
    stay possible keeps the catalogue well-formed. *)
Lemma on_table_wf name f c :
  (∀ t, t_name (f t) = t_name t ∧ ∀ x, x ∈ column_names t → x ∈ column_names (f t)) →
  (∀ t k, t ∈ tables c → t_name t = name → k ∈ t_constraints (f t) → k ∈ t_constraints t ∨
     constraint_possible (column_names t) c k = true) →
  wf c → wf (with_tables (map (λ t, if table_named name t then f t else t)) c).
Proof.
  intros Hf Hk [Hi Hc Hr Hp Hs Htg Hsg]. pose proof (on_table_grows name f c Hf) as Hg.
  assert (Hkeep : ∀ t' k, t' ∈ map (λ t, if table_named name t then f t else t) (tables c) →
    k ∈ t_constraints t' → ∃ t, t ∈ tables c ∧ (∀ x, x ∈ column_names t → x ∈ column_names t') ∧
      (k ∈ t_constraints t ∨ constraint_possible (column_names t) c k = true)).
  { intros t' k Ht' Hin.
    apply (list_elem_of_fmap (λ t, if table_named name t then f t else t)) in Ht' as (t & -> & Ht).
    exists t. split; [done|]. destruct (table_named name t) eqn:E; [|by split; [|left]].
    split; [apply Hf|]. apply Hk; [done| |done]. by apply String.eqb_eq in E. }
  split; cbn.
  - intros i Hin. by apply (grows_columns c), Hi.
  - intros t' k Ht' Hin. destruct (Hkeep t' k Ht' Hin) as (t & Ht & Hsub & [Hold|Hnew]).
    + rewrite subset_spec. specialize (Hc t k Ht Hold). rewrite subset_spec in Hc. auto.
    + apply andb_true_iff in Hnew as [Hnew _]. rewrite subset_spec in *. auto.
  - intros t' n cols r rs d Ht' Hin. apply (grows_columns c); [done|].
    destruct (Hkeep t' _ Ht' Hin) as (t & Ht & _ & [Hold|Hnew]); [by eapply Hr|].
    by apply andb_true_iff in Hnew as [_ Hnew].
  - intros p Hin. by apply (grows_table c), Hp.
  - intros s t k Hin Ho. by apply (grows_columns c), (Hs s).
  - intros g Hin. apply Htg in Hin. rewrite elem_of_app in *. destruct Hin as [Hin|]; [left|by right].
    exact (grows_names _ _ g Hg Hin).
  - done.
Qed.

(** *** Constraints *)

Lemma existsb_false {A} (f : A → bool) l : existsb f l = false → ∀ x, x ∈ l → f x = false.
Proof.
  intros H x Hx. destruct (f x) eqn:E; [|done]. rewrite <- H. symmetry. apply existsb_exists.
  exists x. split; [by apply list_elem_of_In|done].
Qed.

Lemma add_constraint_wf table k c c' : wf c → add_constraint table k c = Some c' → wf c'.
Proof.
  intros Hwf (Ht & Hp & ->)%on_table_inv. apply on_table_wf; [by split| |done].
  intros t k' Hin Hn [Hk| ->%list_elem_of_singleton]%elem_of_app; [by left|right].
  specialize (Hp t Hin Hn). by apply andb_true_iff in Hp as [Hp _].
Qed.

Lemma add_constraint_back table name k c c' : constraint_name k = Some name →
  add_constraint table k c = Some c' → exec (drop_constraint name table) c' = Some c.
Proof.
  intros Hname (Ht & Hp & ->)%on_table_inv. cbn [exec]. apply on_table_back; [done|done|].
  intros t Hin Hn. specialize (Hp t Hin Hn). rewrite Hname in Hp.
  apply andb_true_iff in Hp as [_ Hp%negb_true_iff].
  assert (Hk : constraint_named name k = true)
    by (unfold constraint_named; rewrite Hname; apply String.eqb_refl).
  split.
  - cbn. rewrite existsb_app. cbn. by rewrite Hk, orb_true_r.
  - destruct t as [tn tc tk tp tr tf tps]. unfold with_constraints. cbn in *. f_equal.
    apply remove_by_added; [by apply existsb_false|]. by intros k' ->%list_elem_of_singleton.
Qed.

#[export] Instance undoes_check name table condition :
  Undoes (create_check_constraint name table condition) (drop_constraint name table).
Proof.
  split; intros c c' Hwf; [by apply add_constraint_wf|by apply add_constraint_back].
Qed.

#[export] Instance undoes_foreign_key name source referent columns referenced ondelete :
  Undoes (create_foreign_key name source referent columns referenced ondelete)
    (drop_constraint name source).
Proof.
  split; intros c c' Hwf; [by apply add_constraint_wf|by apply add_constraint_back].
Qed.

(** *** Columns *)

Lemma drop_sequences_none p c : (∀ s, s ∈ sequences c → p s = false) → drop_sequences p c = c.
Proof.
  intros H. unfold drop_sequences. rewrite filter_none by done.
  apply catalogue_eq; try done; cbn; [by apply remove_by_none|apply remove_by_nothing].
Qed.

Lemma drop_partitions_none p c : (∀ s, s ∈ partitions c → p s = false) → drop_partitions p c = c.
Proof.
  intros H. unfold drop_partitions. rewrite filter_none by done.
  apply catalogue_eq; try done; cbn; [by apply remove_by_none|apply remove_by_nothing].
Qed.

Lemma drop_indexes_none p c : (∀ i, i ∈ indexes c → p i = false) → with_indexes (remove_by p) c = c.
Proof. intros H. apply catalogue_eq; try done. by apply remove_by_none. Qed.

(** A column that the tables of that name do not have is not among the columns
    that something names. *)
Lemma has_columns_without table column cols c :
  (∀ t, t ∈ tables c → t_name t = table → inb column (column_names t) = false) →
  has_columns table cols c = true → inb column cols = false.
Proof.
  intros H (t & Hin & Hn & Hsub)%has_columns_spec. specialize (H t Hin Hn).
  rewrite inb_false in *. auto.
Qed.

#[export] Instance undoes_column table column :
  Undoes (add_column table column) (drop_column table (c_name column)).
Proof.
  split; intros c c' Hwf; cbn [exec];
    (destruct (c_nullable column || _); [|done]); intros (Ht & Hp & ->)%on_table_inv.
  - apply on_table_wf; [|by left|done]. intros t. split; [done|].
    intros x Hx. unfold column_names, with_columns. cbn. rewrite map_app. set_solver.
  - assert (Hno : ∀ t, t ∈ tables c → t_name t = table → inb (c_name column) (column_names t) = false).
    { intros t Hin Hn. by apply negb_true_iff, Hp. }
    pose proof (λ cols, has_columns_without table (c_name column) cols c Hno) as Hnone.
    unfold exec_drop_column. destruct (existsb _ _) eqn:E.
    { exfalso. apply existsb_exists in E as (t' & Ht'%list_elem_of_In & E).
      apply existsb_exists in E as (k & Hk%list_elem_of_In & E).
      apply (list_elem_of_fmap (λ t, if table_named table t then _ t else t)) in Ht' as (t & -> & Hin).
      destruct k as [| | |n cols r rs d]; try done. apply andb_true_iff in E as [<-%String.eqb_eq E].
      assert (has_columns table rs c = true) as H%Hnone; [|congruence].
      eapply wf_refers; [done|exact Hin|]. by destruct (table_named table t). }
    erewrite on_table_back; [|done|done|].
    + cbn [mbind option_bind]. f_equal. rewrite drop_indexes_none.
      * apply drop_sequences_none. intros s Hs. unfold owned_by_column.
        destruct (sq_owner s) as [[t k]|] eqn:Eo; [|done]. apply andb_false_iff.
        destruct (String.eqb_spec table t) as [<-|]; [right|by left].
        assert (H : has_columns table [k] c = true) by by eapply wf_sequence.
        apply Hnone, inb_false in H. apply String.eqb_neq. intros <-. apply H. by left.
      * intros i Hi. unfold index_on, index_of. apply andb_false_iff.
        destruct (String.eqb_spec table (ix_table i)) as [E'|]; [right|by left].
        apply Hnone. rewrite E'. by apply wf_index.
    + intros t Hin Hn. specialize (Hno t Hin Hn). rewrite inb_false in Hno. split.
      * apply inb_true. unfold column_names, with_columns. cbn. rewrite map_app. set_solver.
      * destruct t as [tn tc tk tp tr tf tps]. unfold with_columns, with_constraints. cbn in *.
        f_equal; [apply remove_by_added|apply remove_by_none].
        -- intros k Hk. apply String.eqb_neq. intros E'. apply Hno. rewrite E'.
           by apply list_elem_of_fmap_2.
        -- intros k ->%list_elem_of_singleton. apply String.eqb_refl.
        -- intros k Hk. apply inb_false. intros Hin'. apply Hno.
           pose proof (wf_columns c Hwf _ k Hin Hk) as Hsub. rewrite subset_spec in Hsub. auto.
Qed.

(** *** Tables *)

Lemma serial_column_in cols ks k : serial_column cols ks = Some k → k ∈ map c_name cols.
Proof.
  unfold serial_column. destruct (List.find _ ks) as [[[|x [|y l]]| | |]|]; try done.
  destruct (existsb _ cols) eqn:E; [|done]. cbn. destruct (negb _); [|done]. intros [= <-].
  apply existsb_exists in E as (c & Hin%list_elem_of_In & E).
  apply andb_true_iff in E as [E _]. apply andb_true_iff in E as [->%String.eqb_eq _].
  by apply list_elem_of_fmap_2.
Qed.

Lemma with_default_names k d cols : map c_name (map (with_default k d) cols) = map c_name cols.
Proof. rewrite map_map. apply map_ext. intros c. unfold with_default. by destruct (String.eqb _ _). Qed.

Lemma grows_add_table name cols ks p c : grows c (add_table name cols ks p c).
Proof. intros t Ht. exists t. split; [|done]. cbn. apply elem_of_app. by left. Qed.

Lemma add_table_wf name cols cols' ks p c : wf c → map c_name cols' = map c_name cols →
  forallb (constraint_possible (map c_name cols) c) ks = true →
  wf (add_table name cols' ks p c).
Proof.
  intros [Hi Hc Hr Hp Hs Htg Hsg] Hcols Hks. pose proof (grows_add_table name cols' ks p c) as Hg.
  assert (Hk : ∀ k, k ∈ ks → constraint_possible (map c_name cols) c k = true).
  { intros k Hin. rewrite forallb_forall in Hks. by apply Hks, list_elem_of_In. }
  split.
  - intros i Hin. by apply (grows_columns c), Hi.
  - intros t k [Ht| ->%list_elem_of_singleton]%elem_of_app Hin; [by apply Hc|].
    apply Hk, andb_true_iff in Hin as [Hin _]. unfold column_names. cbn. by rewrite Hcols.
  - intros t n cs r rs d Ht Hin. apply (grows_columns c); [done|].
    apply elem_of_app in Ht as [Ht| ->%list_elem_of_singleton]; [by eapply Hr|].
    cbn in Hin. by apply Hk, andb_true_iff in Hin as [_ Hin].
  - intros q Hin. by apply (grows_table c), Hp.
  - intros s t k Hin Ho. by apply (grows_columns c), (Hs s).
  - intros g. cbn. rewrite map_app, !elem_of_app. intros [Hin|Hin].
    + apply Htg, elem_of_app in Hin as [?|?]; [by left; left|by right].
    + destruct (default_table_grants c); [|by apply not_elem_of_nil in Hin].
      apply list_elem_of_singleton in Hin as ->. left. right. by apply list_elem_of_singleton.
  - intros g. cbn. apply Hsg.
Qed.

Lemma add_sequence_wf name table column c : wf c → has_columns table [column] c = true →
  wf (add_sequence name (Some (table, column)) c).
Proof.
  intros [Hi Hc Hr Hp Hs Htg Hsg] Ht. split; try done.
  - intros s t k [Hin| ->%list_elem_of_singleton]%elem_of_app Ho; [by apply (Hs s)|].
    cbn in Ho. by injection Ho as <- <-.
  - intros g. cbn. rewrite map_app, !elem_of_app. intros [Hin|Hin]; [left; by apply Hsg|right].
    destruct (default_sequence_grants c); [|by apply not_elem_of_nil in Hin].
    by apply list_elem_of_singleton in Hin as ->; apply list_elem_of_singleton.
Qed.

(** What [drop_table] finds of a table that was just created: the table last,
    and perhaps a last sequence that it owns. *)
Lemma drop_new_table name cols ks p c : wf c → fresh name c = true →
  exec_drop_table name (add_table name cols ks p c) = Some c.
Proof.
  intros Hwf Hf. pose proof (fresh_spec name c Hf) as (Hft & _ & Hfp & _).
  pose proof (fresh_no_table name c Hf) as Hnt. destruct Hwf as [Hi Hc Hr Hp Hs Htg Hsg].
  unfold exec_drop_table.
  assert (has_table name (add_table name cols ks p c) = true) as ->.
  { apply has_table_spec. exists (new_table name cols ks p). split; [|done].
    apply elem_of_app. right. by apply list_elem_of_singleton. }
  assert (existsb (λ t, negb (table_named name t) && existsb (refers_to name) (t_constraints t))
            (tables (add_table name cols ks p c)) = false) as ->.
  { apply not_true_iff_false. intros (t & Ht%list_elem_of_In & E)%existsb_exists.
    apply andb_true_iff in E as [En E]. apply existsb_exists in E as (k & Hk%list_elem_of_In & E).
    apply elem_of_app in Ht as [Ht| ->%list_elem_of_singleton].
    - destruct k as [| | |n cs r rs d]; try done. apply String.eqb_eq in E as <-.
      pose proof (Hr _ _ _ _ _ _ Ht Hk) as H%has_columns_table. congruence.
    - unfold table_named in En. cbn in En. by rewrite String.eqb_refl in En. }
  cbn [andb negb]. f_equal. rewrite drop_indexes_none.
  - rewrite drop_partitions_none; [rewrite drop_sequences_none|].
    + apply catalogue_eq; try done; cbn.
      * apply remove_by_added; [done|]. intros t ->%list_elem_of_singleton. apply String.eqb_refl.
      * apply remove_by_added.
        -- intros g Hg. apply String.eqb_neq. intros <-. apply Htg, elem_of_app in Hg as [Hg|Hg].
           ++ apply list_elem_of_fmap in Hg as (t & -> & Ht). apply Hft in Ht.
              unfold table_named in Ht. by rewrite String.eqb_refl in Ht.
           ++ apply list_elem_of_fmap in Hg as (q & -> & Hq). apply Hfp in Hq.
              unfold partition_named in Hq. by rewrite String.eqb_refl in Hq.
        -- intros g. destruct (default_table_grants c); [|by intros ?%not_elem_of_nil].
           intros ->%list_elem_of_singleton. apply String.eqb_refl.
    + intros s Hin. unfold owned_by_table. destruct (sq_owner s) as [[t k]|] eqn:Eo; [|done].
      apply String.eqb_neq. intros ->. pose proof (Hs s t k Hin Eo) as H%has_columns_table. congruence.
    + intros q Hq. apply String.eqb_neq. intros ->. apply Hp in Hq. congruence.
  - intros i Hin. apply String.eqb_neq. intros ->. apply Hi, has_columns_table in Hin. congruence.
Qed.

Lemma drop_new_serial_table name column cols ks p c : wf c → fresh name c = true →
  let sequence := serial_sequence name column in fresh sequence c = true →
  exec_drop_table name (add_sequence sequence (Some (name, column)) (add_table name cols ks p c))
  = Some c.
Proof.
  intros Hwf Hf sequence Hfs. pose proof (drop_new_table name cols ks p c Hwf Hf) as H.
  pose proof (fresh_no_table name c Hf) as Hnt.
  pose proof (fresh_spec sequence c Hfs) as (_ & _ & _ & Hss).
  assert (Hown : ∀ s, s ∈ sequences c → owned_by_table name s = false).
  { intros s Hin. unfold owned_by_table. destruct (sq_owner s) as [[t k]|] eqn:Eo; [|done].
    apply String.eqb_neq. intros ->.
    pose proof (wf_sequence c Hwf s t k Hin Eo) as Ht%has_columns_table. congruence. }
  unfold exec_drop_table in *.
  change (tables (add_sequence _ _ ?x)) with (tables x).
  change (has_table name (add_sequence _ _ ?x)) with (has_table name x).
  destruct (_ && _); [|done]. injection H as H. f_equal.
  apply catalogue_eq; cbn.
  - by apply (f_equal tables) in H.
  - by apply (f_equal indexes) in H.
  - by apply (f_equal partitions) in H.
  - apply remove_by_added; [done|]. intros s ->%list_elem_of_singleton. apply String.eqb_refl.
  - done.
  - by apply (f_equal table_grants) in H.
  - rewrite (List.filter_app (owned_by_table name)), (filter_none _ _ Hown). cbn [app]. unfold owned_by_table. cbn.
    rewrite String.eqb_refl. cbn. apply remove_by_added.
    + intros g Hg. apply inb_false. intros ->%list_elem_of_singleton.
      apply (wf_sequence_grant c Hwf), list_elem_of_fmap in Hg as (s & E & Hs).
      apply Hss in Hs. unfold sequence_named in Hs. by rewrite E, String.eqb_refl in Hs.
    + intros g. destruct (default_sequence_grants c); [|by intros ?%not_elem_of_nil].
      intros ->%list_elem_of_singleton. apply inb_true. by left.
  - done.
  - done.
  - done.
Qed.

#[export] Instance undoes_table name columns constraints partition_by :
  Undoes (create_table name columns constraints partition_by) (drop_table name).
Proof.
  split; intros c c' Hwf; cbn [exec]; unfold exec_create_table;
    (destruct (_ && _) eqn:E; [|done]);
    apply andb_true_iff in E as [[[Hf Hnd]%andb_true_iff Hks]%andb_true_iff _];
    (destruct (serial_column columns constraints) as [k|] eqn:Ek;
      [destruct (_ && _) eqn:Es; [|done]; apply andb_true_iff in Es as [Hfs _]|]); intros [= <-].
  - apply add_sequence_wf; [by apply (add_table_wf _ columns); [|apply with_default_names|]|].
    apply has_columns_spec. eexists. split; [apply elem_of_app; right; by apply list_elem_of_singleton|].
    split; [done|]. intros x ->%list_elem_of_singleton. unfold column_names. cbn.
    rewrite with_default_names. by apply (serial_column_in _ constraints).
  - by apply (add_table_wf _ columns).
  - by apply drop_new_serial_table.
  - by apply drop_new_table.
Qed.

(** ** Scripts

    A migration is a list of statements; it stops at the first that is refused. *)

Definition ProgrammingError : exn := SQLAlchemyError "ProgrammingError".

Definition op (d : Ddl) : M Catalogue unit := λ c,
  match exec d c with Some c' => (Ok tt, c') | None => (Raise ProgrammingError, c) end.

Definition script (ds : list Ddl) : M Catalogue unit := for_each ds op.

Lemma script_cons d ds c c' : script (d :: ds) c = (Ok tt, c') ↔
  ∃ c1, exec d c = Some c1 ∧ script ds c1 = (Ok tt, c').
Proof.
  unfold script. cbn. unfold op, mbind, M_bind. destruct (exec d c); naive_solver.
Qed.

Lemma script_app ds ds' c c' : script (ds ++ ds') c = (Ok tt, c') ↔
  ∃ c1, script ds c = (Ok tt, c1) ∧ script ds' c1 = (Ok tt, c').
Proof.
  revert c. induction ds as [|d ds IH]; intros c.
  - cbn. split; [by eexists|]. by intros (? & [= <-] & ?).
  - cbn [app]. setoid_rewrite script_cons. setoid_rewrite IH. naive_solver.
Qed.

(** Statements undone in the opposite order. *)
Theorem script_back ds ds' : Forall2 Undoes ds ds' → ∀ c c', wf c →
  script ds c = (Ok tt, c') → wf c' ∧ script (rev ds') c' = (Ok tt, c).
Proof.
  induction 1 as [|d d' ds ds' Hd _ IH]; intros c c' Hwf.
  - by intros [= <-].
  - intros (c1 & H1 & H2)%script_cons.
    destruct (IH c1 c') as [Hwf' Hback]; [by eapply undoes_wf|done|]. split; [done|]. cbn.
    apply script_app. exists c1. split; [done|]. apply script_cons. exists c.
    split; [by eapply undoes_back|done].
Qed.
