(* ===== verification/Migrations.v ===== *)
(** * Migrations

    The revisions of [backend/alembic/versions/], each with its [upgrade] and
    [downgrade] as the statements they issue, and how [backend/alembic/env.py]
    runs them.  A revision that is undone statement by statement restores every
    well-formed catalogue; the chain as a whole is evaluated from an empty
    database. *)

From S2P Require Import Prelude Text Catalogue.

(** ** Columns

    [sa.Column(name, type, nullable=..., server_default=...)]; a column is
    nullable unless it says otherwise. *)

Definition not_null (name : string) (type : SqlType) : Column :=
  {| c_name := name; c_type := type; c_nullable := false; c_default := None |}.

Definition nullable (name : string) (type : SqlType) : Column :=
  {| c_name := name; c_type := type; c_nullable := true; c_default := None |}.

Definition defaulted (name : string) (type : SqlType) (server_default : string) : Column :=
  {| c_name := name; c_type := type; c_nullable := false; c_default := Some server_default |}.

Definition now_utc : string := "TIMEZONE('utc', now())".

(** A default given as a string is quoted, one given as [sa.text] is not. *)
Definition quoted (s : string) : string := "'" +:+ s +:+ "'".

Local Open Scope string_scope.

(** ** 891391a704b3: initial schema *)

Definition create_audit_log : Ddl :=
  create_table "audit_log"
    [not_null "id" BigInteger; not_null "org_id" UUID; nullable "user_id" UUID;
     not_null "action" (String_ 100); nullable "resource_id" UUID;
     nullable "ip_address" INET; nullable "user_agent" (String_ 500);
     not_null "metadata" JSONB; defaulted "created_at" TIMESTAMP now_utc]
    [PrimaryKey ["id"]] None.

Definition create_failed_tasks : Ddl :=
  create_table "failed_tasks"
    [not_null "id" BigInteger; not_null "task_name" (String_ 255); nullable "task_args" Text_;
     nullable "error" Text_; nullable "attempts" Integer;
     defaulted "failed_at" TIMESTAMP now_utc; defaulted "resolved" Boolean "false"]
    [PrimaryKey ["id"]] None.

Definition create_model_pricing : Ddl :=
  create_table "model_pricing"
    [not_null "id" Integer; not_null "provider" (String_ 50); not_null "model" (String_ 100);
     not_null "input_cost_per_1k_tokens" (Numeric (Some (12, 10)%Z));
     not_null "output_cost_per_1k_tokens" (Numeric (Some (12, 10)%Z));
     defaulted "valid_from" TIMESTAMP now_utc; nullable "valid_to" TIMESTAMP]
    [PrimaryKey ["id"]; Unique None ["provider"; "model"; "valid_from"]] None.

Definition create_organizations : Ddl :=
  create_table "organizations"
    [not_null "id" UUID; not_null "name" (String_ 255); not_null "slug" (String_ 100);
     defaulted "created_at" TIMESTAMP now_utc]
    [PrimaryKey ["id"]; Unique None ["slug"]] None.

Definition create_spans : Ddl :=
  create_table "spans"
    [not_null "id" UUID; not_null "trace_id" UUID; not_null "project_id" UUID;
     nullable "parent_span_id" UUID; not_null "name" (String_ 255);
     not_null "provider" (String_ 50); not_null "model" (String_ 100);
     not_null "input_tokens" Integer; not_null "output_tokens" Integer;
     not_null "cost_usd" (Numeric (Some (12, 8)%Z)); not_null "latency_ms" Float;
     not_null "status" (String_ 20); nullable "error" Text_; not_null "started_at" TIMESTAMP;
     nullable "payload_s3_key" (String_ 500); not_null "metadata" JSONB]
    [PrimaryKey ["id"; "started_at"]] (Some "started_at").

Definition create_traces : Ddl :=
  create_table "traces"
    [not_null "id" UUID; not_null "project_id" UUID; not_null "started_at" TIMESTAMP;
     nullable "ended_at" TIMESTAMP; not_null "total_tokens" Integer;
     not_null "total_cost_usd" (Numeric (Some (12, 8)%Z)); not_null "span_count" Integer;
     not_null "status" (String_ 20)]
    [PrimaryKey ["id"; "started_at"]] (Some "started_at").

Definition create_projects : Ddl :=
  create_table "projects"
    [not_null "id" UUID; not_null "org_id" UUID; not_null "name" (String_ 255);
     not_null "api_key_hash" (String_ 64); not_null "retention_days" Integer;
     defaulted "is_active" Boolean "true"; defaulted "created_at" TIMESTAMP now_utc]
    [ForeignKey None ["org_id"] "organizations" ["id"] "CASCADE"; PrimaryKey ["id"];
     Unique None ["api_key_hash"]; Unique None ["org_id"; "name"]] None.

Definition create_users : Ddl :=
  create_table "users"
    [not_null "id" UUID; not_null "org_id" UUID; not_null "email" (String_ 255);
     not_null "password_hash" (String_ 255); defaulted "role" (String_ 20) "'member'";
     defaulted "is_active" Boolean "true"; defaulted "created_at" TIMESTAMP now_utc]
    [Check_ "ck_users_role" "role IN ('admin', 'member', 'viewer')";
     ForeignKey None ["org_id"] "organizations" ["id"] "CASCADE"; PrimaryKey ["id"];
     Unique None ["email"]] None.

Definition initial_indexes : list Ddl :=
  [create_index "idx_spans_project_time" "spans" [Asc "project_id"; Desc "started_at"] None None;
   create_index "idx_spans_trace" "spans" [Asc "trace_id"; Desc "started_at"] None None;
   create_index "idx_spans_model" "spans" [Asc "project_id"; Asc "model"; Desc "started_at"]
     None None;
   create_index "idx_spans_errors" "spans" [Asc "project_id"; Desc "started_at"]
     (Some "status = 'error'") None;
   create_index "idx_spans_metadata" "spans" [Asc "metadata"] None (Some "gin");
   create_index "idx_traces_project" "traces" [Asc "project_id"; Desc "started_at"] None None;
   create_index "idx_audit_org" "audit_log" [Asc "org_id"; Desc "created_at"] None None].

Definition initial_partitions : list Ddl :=
  [create_partition_if_not_exists "spans_2026_05" "spans" (Some ("2026-05-01", "2026-06-01"));
   create_partition_if_not_exists "spans_2026_06" "spans" (Some ("2026-06-01", "2026-07-01"));
   create_partition_if_not_exists "traces_2026_05" "traces" (Some ("2026-05-01", "2026-06-01"));
   create_partition_if_not_exists "traces_2026_06" "traces" (Some ("2026-06-01", "2026-07-01"))].

Definition upgrade_891391a704b3 : list Ddl :=
  [create_audit_log; create_failed_tasks; create_model_pricing; create_organizations;
   create_spans; create_traces; create_projects; create_users]
  ++ initial_indexes ++ initial_partitions.

Definition downgrade_891391a704b3 : list Ddl :=
  [drop_table "users"; drop_table "projects"; drop_table "traces"; drop_table "spans";
   drop_table "organizations"; drop_table "model_pricing"; drop_table "failed_tasks";
   drop_table "audit_log"].

(** ** f37d7ee64540: alert tables *)

Definition create_alert_rules : Ddl :=
  create_table "alert_rules"
    [not_null "id" UUID; not_null "project_id" UUID; not_null "name" (String_ 255);
     not_null "metric" (String_ 50); not_null "condition" (String_ 20);
     nullable "threshold" (Numeric None); not_null "window_minutes" Integer;
     nullable "notify_slack_webhook" (String_ 500); nullable "notify_email" (String_ 255);
     not_null "cooldown_minutes" Integer; not_null "is_active" Boolean;
     defaulted "created_at" TIMESTAMP now_utc]
    [Check_ "ck_alert_rules_condition" "condition IN ('gt','lt','anomaly')";
     Check_ "ck_alert_rules_metric"
       "metric IN ('latency_p95','error_rate','cost_hourly','anomaly')";
     ForeignKey None ["project_id"] "projects" ["id"] "CASCADE"; PrimaryKey ["id"]] None.

Definition create_alert_events : Ddl :=
  create_table "alert_events"
    [not_null "id" UUID; not_null "rule_id" UUID; defaulted "triggered_at" TIMESTAMP now_utc;
     not_null "value" (Numeric None); not_null "message" Text_; nullable "resolved_at" TIMESTAMP]
    [ForeignKey None ["rule_id"] "alert_rules" ["id"] "CASCADE"; PrimaryKey ["id"]] None.

Definition upgrade_f37d7ee64540 : list Ddl :=
  [create_alert_rules; create_alert_events;
   create_index "idx_alert_events" "alert_events" [Asc "rule_id"; Desc "triggered_at"] None None].

Definition downgrade_f37d7ee64540 : list Ddl :=
  [drop_index "idx_alert_events" "alert_events"; drop_table "alert_events";
   drop_table "alert_rules"].

(** ** bf79868b5f76: row-level security *)

Definition NULL_SAFE_CONTEXT : string :=
  "NULLIF(current_setting('app.current_project_id', true), '')::uuid".
Definition STRICT_CONTEXT : string :=
  "current_setting('app.current_project_id', true)::uuid".

Definition project_is (context : string) : string := "project_id = " +:+ context.

Definition upgrade_bf79868b5f76 : list Ddl :=
  [enable_rls "spans"; enable_rls "traces";
   create_policy "spans_project_isolation" "spans" (project_is NULL_SAFE_CONTEXT);
   create_policy "traces_project_isolation" "traces" (project_is NULL_SAFE_CONTEXT)].

Definition downgrade_bf79868b5f76 : list Ddl :=
  [drop_policy_if_exists "spans_project_isolation" "spans";
   drop_policy_if_exists "traces_project_isolation" "traces";
   disable_rls "spans"; disable_rls "traces"].

(** ** 7c1f2e8a9b34: default partitions *)

Definition upgrade_7c1f2e8a9b34 : list Ddl :=
  [create_partition_if_not_exists "spans_default" "spans" None;
   create_partition_if_not_exists "traces_default" "traces" None].

Definition downgrade_7c1f2e8a9b34 : list Ddl :=
  [drop_partition_if_exists "spans_default"; drop_partition_if_exists "traces_default"].

(** ** 4a6c9d2e1f03: scope of failed tasks *)

Definition upgrade_4a6c9d2e1f03 : list Ddl :=
  [add_column "failed_tasks" (nullable "org_id" UUID);
   add_column "failed_tasks" (nullable "project_id" UUID);
   create_index "idx_failed_tasks_org" "failed_tasks" [Asc "org_id"; Asc "resolved"] None None;
   create_index "idx_failed_tasks_project" "failed_tasks" [Asc "project_id"; Asc "resolved"]
     None None;
   create_foreign_key "fk_failed_tasks_org" "failed_tasks" "organizations" ["org_id"] ["id"]
     "SET NULL";
   create_foreign_key "fk_failed_tasks_project" "failed_tasks" "projects" ["project_id"] ["id"]
     "SET NULL"].

Definition downgrade_4a6c9d2e1f03 : list Ddl :=
  [drop_constraint "fk_failed_tasks_project" "failed_tasks";
   drop_constraint "fk_failed_tasks_org" "failed_tasks";
   drop_index "idx_failed_tasks_project" "failed_tasks";
   drop_index "idx_failed_tasks_org" "failed_tasks";
   drop_column "failed_tasks" "project_id"; drop_column "failed_tasks" "org_id"].

(** ** 9d8c7b6a5f4e: invites *)

Definition create_organization_invites : Ddl :=
  create_table "organization_invites"
    [not_null "id" UUID; not_null "org_id" UUID; not_null "email" (String_ 255);
     not_null "role" (String_ 20); not_null "token_hash" (String_ 64);
     not_null "expires_at" TIMESTAMP; nullable "accepted_at" TIMESTAMP;
     nullable "created_by_user_id" UUID; defaulted "created_at" TIMESTAMP now_utc]
    [Check_ "ck_organization_invites_role" "role IN ('admin', 'member', 'viewer')";
     ForeignKey None ["org_id"] "organizations" ["id"] "CASCADE"; PrimaryKey ["id"];
     Unique None ["token_hash"]] None.

Definition upgrade_9d8c7b6a5f4e : list Ddl :=
  [create_organization_invites;
   create_index "idx_org_invites_org_created" "organization_invites"
     [Asc "org_id"; Desc "created_at"] None None;
   create_index "idx_org_invites_pending_email" "organization_invites" [Asc "org_id"; Asc "email"]
     (Some "accepted_at IS NULL") None].

Definition downgrade_9d8c7b6a5f4e : list Ddl :=
  [drop_index "idx_org_invites_pending_email" "organization_invites";
   drop_index "idx_org_invites_org_created" "organization_invites";
   drop_table "organization_invites"].

(** ** 0f4d3c2b1a9e: API keys *)

Definition create_project_api_keys : Ddl :=
  create_table "project_api_keys"
    [not_null "id" UUID; not_null "project_id" UUID; not_null "name" (String_ 100);
     nullable "description" Text_; not_null "key_hash" (String_ 64);
     not_null "scope" (String_ 20); defaulted "is_active" Boolean "true";
     defaulted "created_at" TIMESTAMP now_utc; nullable "last_used_at" TIMESTAMP;
     nullable "revoked_at" TIMESTAMP]
    [Check_ "ck_project_api_keys_scope" "scope IN ('ingest', 'read', 'read_write')";
     ForeignKey None ["project_id"] "projects" ["id"] "CASCADE"; PrimaryKey ["id"];
     Unique None ["key_hash"]] None.

Definition upgrade_0f4d3c2b1a9e : list Ddl :=
  [create_project_api_keys;
   create_index "idx_project_api_keys_project_created" "project_api_keys"
     [Asc "project_id"; Desc "created_at"] None None].

Definition downgrade_0f4d3c2b1a9e : list Ddl :=
  [drop_index "idx_project_api_keys_project_created" "project_api_keys";
   drop_table "project_api_keys"].

(** ** 2e6a4d9c8b10: privacy settings *)

Definition upgrade_2e6a4d9c8b10 : list Ddl :=
  [add_column "projects" (defaulted "payload_storage_mode" (String_ 20) (quoted "all"));
   add_column "projects" (defaulted "payload_max_bytes" Integer (quoted "262144"));
   add_column "projects" (defaulted "payload_redact_keys" Text_
     (quoted "api_key,password,secret,token,authorization"));
   create_check_constraint "ck_projects_payload_storage_mode" "projects"
     "payload_storage_mode IN ('all', 'errors', 'none')";
   create_check_constraint "ck_projects_payload_max_bytes" "projects"
     "payload_max_bytes >= 0 AND payload_max_bytes <= 10485760"].

Definition downgrade_2e6a4d9c8b10 : list Ddl :=
  [drop_constraint "ck_projects_payload_max_bytes" "projects";
   drop_constraint "ck_projects_payload_storage_mode" "projects";
   drop_column "projects" "payload_redact_keys"; drop_column "projects" "payload_max_bytes";
   drop_column "projects" "payload_storage_mode"].

(** ** 6d4b8a2e9c11: identifiers of the audit log *)

Definition upgrade_6d4b8a2e9c11 : list Ddl :=
  [create_sequence_if_not_exists "audit_log_id_seq";
   setval_after_max "audit_log_id_seq" "audit_log" "id";
   set_default "audit_log" "id" (nextval "audit_log_id_seq");
   own_sequence "audit_log_id_seq" "audit_log" "id"].

Definition downgrade_6d4b8a2e9c11 : list Ddl :=
  [drop_default "audit_log" "id"; drop_sequence_if_exists "audit_log_id_seq"].

(** ** 3b9f1a2c4d6e: security of the partitions *)

Definition upgrade_3b9f1a2c4d6e : list Ddl :=
  [force_rls "spans"; force_rls "traces"; partitions_enable_force_rls ["spans"; "traces"]].

Definition downgrade_3b9f1a2c4d6e : list Ddl :=
  [partitions_no_force_disable_rls ["spans"; "traces"]; no_force_rls "spans";
   no_force_rls "traces"].

(** ** 8f2c1d4e9a7b: memberships *)

Definition create_project_memberships : Ddl :=
  create_table "project_memberships"
    [not_null "id" UUID; not_null "project_id" UUID; not_null "user_id" UUID;
     not_null "role" (String_ 20); defaulted "created_at" TIMESTAMP now_utc;
     defaulted "updated_at" TIMESTAMP now_utc]
    [Check_ "ck_project_memberships_role" "role IN ('member', 'viewer')";
     ForeignKey None ["project_id"] "projects" ["id"] "CASCADE";
     ForeignKey None ["user_id"] "users" ["id"] "CASCADE"; PrimaryKey ["id"];
     Unique (Some "uq_project_memberships_project_user") ["project_id"; "user_id"]] None.

Definition upgrade_8f2c1d4e9a7b : list Ddl :=
  [create_project_memberships;
   create_index "idx_project_memberships_project" "project_memberships" [Asc "project_id"]
     None None;
   create_index "idx_project_memberships_user" "project_memberships" [Asc "user_id"] None None].

Definition downgrade_8f2c1d4e9a7b : list Ddl :=
  [drop_index "idx_project_memberships_user" "project_memberships";
   drop_index "idx_project_memberships_project" "project_memberships";
   drop_table "project_memberships"].

(** ** c7e4a9b2d135: projects of an invite *)

Definition upgrade_c7e4a9b2d135 : list Ddl :=
  [add_column "organization_invites" (defaulted "project_assignments" JSONB "'[]'::jsonb")].

Definition downgrade_c7e4a9b2d135 : list Ddl :=
  [drop_column "organization_invites" "project_assignments"].

(** ** d4e5f6a7b8c9: the role of the program *)

(** [POSTGRES_APP_USER] and [POSTGRES_APP_PASSWORD]. *)
Record Environment : Type := { app_user : option string; app_password : option string }.

(** An environment variable that is set and not empty. *)
Definition given_variable (v : option string) : option string :=
  match v with Some s => if truthy s then Some s else None | None => None end.

Definition runtime_attributes (password : string) : Role :=
  {| r_password := password; r_login := true; r_superuser := false; r_createdb := false;
     r_createrole := false; r_inherit := false; r_bypassrls := false |}.

(** The role is altered when it exists and created when it does not, if a
    password is given; [false] when there is no role to prepare. *)
Definition _role_sql (env : Environment) : M Catalogue bool :=
  match given_variable (app_user env) with
  | None => mret false
  | Some _ =>
      match given_variable (app_password env) with
      | None => mret true
      | Some password =>
          existing ← gets role;
          match existing with
          | Some _ => op (alter_role (runtime_attributes password))
          | None => op (create_role (runtime_attributes password))
          end ;;
          mret true
      end
  end.

Definition upgrade_d4e5f6a7b8c9 (env : Environment) : M Catalogue unit :=
  prepared ← _role_sql env;
  if negb prepared then mret tt
  else script [grant_usage; grant_all_tables; grant_all_sequences; default_grant_tables;
               default_grant_sequences].

Definition downgrade_d4e5f6a7b8c9 (env : Environment) : M Catalogue unit :=
  prepared ← _role_sql env;
  if negb prepared then mret tt
  else script [default_revoke_tables; default_revoke_sequences; revoke_all_sequences;
               revoke_all_tables; revoke_usage].

(** ** e5f6a7b8c9d0: policies without an error for an empty context *)

Definition replace_policies (context : string) : list Ddl :=
  [drop_policy_if_exists "spans_project_isolation" "spans";
   drop_policy_if_exists "traces_project_isolation" "traces";
   create_policy "spans_project_isolation" "spans" (project_is context);
   create_policy "traces_project_isolation" "traces" (project_is context)].

Definition upgrade_e5f6a7b8c9d0 : list Ddl := replace_policies NULL_SAFE_CONTEXT.

Definition downgrade_e5f6a7b8c9d0 : list Ddl := replace_policies STRICT_CONTEXT.

(** ** a1b2c3d4e5f6: status of a payload *)

Definition upgrade_a1b2c3d4e5f6 : list Ddl :=
  [add_column "spans" (nullable "payload_status" (String_ 30));
   add_column "spans" (nullable "payload_drop_reason" (String_ 100))].

Definition downgrade_a1b2c3d4e5f6 : list Ddl :=
  [drop_column "spans" "payload_drop_reason"; drop_column "spans" "payload_status"].

(** ** b1c2d3e4f5a6: idempotency records *)

Definition create_idempotency_records : Ddl :=
  create_table "idempotency_records"
    [not_null "project_id" UUID; not_null "idempotency_key" (String_ 128);
     not_null "request_hash" (String_ 64); not_null "status" (String_ 20);
     nullable "result" JSONB; defaulted "created_at" TIMESTAMP now_utc;
     defaulted "updated_at" TIMESTAMP now_utc]
    [Check_ "ck_idempotency_records_status" "status IN ('PENDING', 'COMMITTED', 'FAILED')";
     ForeignKey None ["project_id"] "projects" ["id"] "CASCADE";
     PrimaryKey ["project_id"; "idempotency_key"]] None.

Definition upgrade_b1c2d3e4f5a6 : list Ddl :=
  [create_idempotency_records;
   create_index "idx_idempotency_records_project_status" "idempotency_records"
     [Asc "project_id"; Asc "status"] None None].

Definition downgrade_b1c2d3e4f5a6 : list Ddl :=
  [drop_index "idx_idempotency_records_project_status" "idempotency_records";
   drop_table "idempotency_records"].

(** ** c2d3e4f5a6b7: the outbox *)

Definition create_outbox_events : Ddl :=
  create_table "outbox_events"
    [not_null "id" UUID; not_null "project_id" UUID; not_null "event_type" (String_ 80);
     not_null "event_key" (String_ 160); not_null "payload" JSONB;
     defaulted "status" (String_ 20) "'PENDING'"; defaulted "attempts" Integer "0";
     defaulted "available_at" TIMESTAMP now_utc; nullable "locked_at" TIMESTAMP;
     nullable "delivered_at" TIMESTAMP; nullable "last_error" Text_;
     defaulted "created_at" TIMESTAMP now_utc; defaulted "updated_at" TIMESTAMP now_utc]
    [Check_ "ck_outbox_events_status"
       "status IN ('PENDING', 'PROCESSING', 'DELIVERED', 'FAILED')";
     ForeignKey None ["project_id"] "projects" ["id"] "CASCADE"; PrimaryKey ["id"];
     Unique (Some "uq_outbox_events_project_type_key") ["project_id"; "event_type"; "event_key"]]
    None.

Definition upgrade_c2d3e4f5a6b7 : list Ddl :=
  [create_outbox_events;
   create_index "idx_outbox_events_claim" "outbox_events"
     [Asc "event_type"; Asc "status"; Asc "available_at"; Asc "created_at"] None None;
   create_index "idx_outbox_events_project_status" "outbox_events"
     [Asc "project_id"; Asc "status"] None None].

Definition downgrade_c2d3e4f5a6b7 : list Ddl :=
  [drop_index "idx_outbox_events_project_status" "outbox_events";
   drop_index "idx_outbox_events_claim" "outbox_events"; drop_table "outbox_events"].

(** ** d8e7f6a5b4c3: platform administrators *)

Definition upgrade_d8e7f6a5b4c3 : list Ddl :=
  [add_column "users" (defaulted "is_platform_admin" Boolean "false")].

Definition downgrade_d8e7f6a5b4c3 : list Ddl := [drop_column "users" "is_platform_admin"].

(** ** e9a1b2c3d4f5: metric buckets *)

Definition create_span_metric_buckets : Ddl :=
  create_table "span_metric_buckets"
    [not_null "project_id" UUID; not_null "bucket_start" TIMESTAMP;
     defaulted "span_count" Integer "0"; defaulted "error_count" Integer "0";
     defaulted "total_cost_usd" (Numeric (Some (18, 8)%Z)) "0";
     defaulted "latency_sum_ms" (Numeric (Some (18, 3)%Z)) "0";
     defaulted "created_at" TIMESTAMP now_utc; defaulted "updated_at" TIMESTAMP now_utc]
    [ForeignKey None ["project_id"] "projects" ["id"] "CASCADE";
     PrimaryKey ["project_id"; "bucket_start"]] None.

Definition TEXT_CONTEXT : string :=
  "current_setting('app.current_project_id', true) <> '' AND project_id::text = current_setting('app.current_project_id', true)".

Definition upgrade_e9a1b2c3d4f5 : list Ddl :=
  [create_span_metric_buckets;
   create_index "idx_span_metric_buckets_project_time" "span_metric_buckets"
     [Asc "project_id"; Desc "bucket_start"] None None;
   enable_rls "span_metric_buckets"; force_rls "span_metric_buckets";
   create_policy "span_metric_buckets_project_isolation" "span_metric_buckets" TEXT_CONTEXT].

Definition downgrade_e9a1b2c3d4f5 : list Ddl :=
  [drop_policy_if_exists "span_metric_buckets_project_isolation" "span_metric_buckets";
   drop_index "idx_span_metric_buckets_project_time" "span_metric_buckets";
   drop_table "span_metric_buckets"].

(** ** The revisions *)

Record Revision : Type := {
  revision : string; down_revision : option string;
  upgrade : Environment → M Catalogue unit; downgrade : Environment → M Catalogue unit;
}.

Definition scripted (r : string) (down : option string) (up dn : list Ddl) : Revision :=
  {| revision := r; down_revision := down; upgrade := λ _, script up; downgrade := λ _, script dn |}.

(** [versions/], by file name. *)
Definition versions : list Revision :=
  [scripted "0f4d3c2b1a9e" (Some "9d8c7b6a5f4e") upgrade_0f4d3c2b1a9e downgrade_0f4d3c2b1a9e;
   scripted "2e6a4d9c8b10" (Some "0f4d3c2b1a9e") upgrade_2e6a4d9c8b10 downgrade_2e6a4d9c8b10;
   scripted "3b9f1a2c4d6e" (Some "6d4b8a2e9c11") upgrade_3b9f1a2c4d6e downgrade_3b9f1a2c4d6e;
   scripted "4a6c9d2e1f03" (Some "7c1f2e8a9b34") upgrade_4a6c9d2e1f03 downgrade_4a6c9d2e1f03;
   scripted "6d4b8a2e9c11" (Some "2e6a4d9c8b10") upgrade_6d4b8a2e9c11 downgrade_6d4b8a2e9c11;
   scripted "7c1f2e8a9b34" (Some "bf79868b5f76") upgrade_7c1f2e8a9b34 downgrade_7c1f2e8a9b34;
   scripted "891391a704b3" None upgrade_891391a704b3 downgrade_891391a704b3;
   scripted "8f2c1d4e9a7b" (Some "3b9f1a2c4d6e") upgrade_8f2c1d4e9a7b downgrade_8f2c1d4e9a7b;
   scripted "9d8c7b6a5f4e" (Some "4a6c9d2e1f03") upgrade_9d8c7b6a5f4e downgrade_9d8c7b6a5f4e;
   scripted "a1b2c3d4e5f6" (Some "e5f6a7b8c9d0") upgrade_a1b2c3d4e5f6 downgrade_a1b2c3d4e5f6;
   scripted "b1c2d3e4f5a6" (Some "a1b2c3d4e5f6") upgrade_b1c2d3e4f5a6 downgrade_b1c2d3e4f5a6;
   scripted "bf79868b5f76" (Some "f37d7ee64540") upgrade_bf79868b5f76 downgrade_bf79868b5f76;
   scripted "c2d3e4f5a6b7" (Some "b1c2d3e4f5a6") upgrade_c2d3e4f5a6b7 downgrade_c2d3e4f5a6b7;
   scripted "c7e4a9b2d135" (Some "8f2c1d4e9a7b") upgrade_c7e4a9b2d135 downgrade_c7e4a9b2d135;
   {| revision := "d4e5f6a7b8c9"; down_revision := Some "c7e4a9b2d135";
      upgrade := upgrade_d4e5f6a7b8c9; downgrade := downgrade_d4e5f6a7b8c9 |};
   scripted "d8e7f6a5b4c3" (Some "c2d3e4f5a6b7") upgrade_d8e7f6a5b4c3 downgrade_d8e7f6a5b4c3;
   scripted "e5f6a7b8c9d0" (Some "d4e5f6a7b8c9") upgrade_e5f6a7b8c9d0 downgrade_e5f6a7b8c9d0;
   scripted "e9a1b2c3d4f5" (Some "d8e7f6a5b4c3") upgrade_e9a1b2c3d4f5 downgrade_e9a1b2c3d4f5;
   scripted "f37d7ee64540" (Some "891391a704b3") upgrade_f37d7ee64540 downgrade_f37d7ee64540].

(** ** Running them

    Alembic keeps the current revision in the database and follows the
    [down_revision] links; two revisions with the same one are refused. *)

Definition next_revisions (v : option string) : list Revision :=
  List.filter (λ r, bool_decide (down_revision r = v)) versions.

(** The revisions from [v] to the head, oldest first; every turn uses one file. *)
Fixpoint plan (fuel : nat) (v : option string) : option (list Revision) :=
  match fuel, next_revisions v with
  | _, [] => Some []
  | S fuel', [r] => rs ← plan fuel' (Some (revision r)); Some (r :: rs)
  | _, _ => None
  end.

(** The chain of all revisions. *)
Definition chain : list Revision := default [] (plan (length versions) None).

(** The revisions up to [v], newest first. *)
Fixpoint until (v : string) (rs acc : list Revision) : list Revision :=
  match rs with
  | [] => acc
  | r :: rs' => if String.eqb (revision r) v then r :: acc else until v rs' (r :: acc)
  end.

Definition applied (v : option string) : list Revision :=
  match v with None => [] | Some v => until v chain [] end.

Record Database : Type := { catalogue : Catalogue; version : option string }.

Definition new_database (r : option Role) : Database :=
  {| catalogue := no_schema r; version := None |}.

Definition step (m : M Catalogue unit) (v : option string) : M Database unit := λ d,
  match m (catalogue d) with
  | (Ok _, c) => (Ok tt, {| catalogue := c; version := v |})
  | (Raise e, c) => (Raise e, {| catalogue := c; version := version d |})
  end.

Inductive Command : Type := UpgradeHead | DowngradeBase.

(** [context.run_migrations()] *)
Definition run_migrations (env : Environment) (cmd : Command) : M Database unit :=
  v ← gets version;
  match cmd with
  | UpgradeHead =>
      match plan (length versions) v with
      | Some rs => for_each rs (λ r, step (upgrade r env) (Some (revision r)))
      | None => raise (OtherError "MultipleHeads")
      end
  | DowngradeBase => for_each (applied v) (λ r, step (downgrade r env) (down_revision r))
  end.

(** [do_run_migrations] of [env.py]: one transaction for all of it. *)
Definition do_run_migrations (env : Environment) (cmd : Command) : M Database unit :=
  atomic (λ old _, old) (run_migrations env cmd).

(** The catalogue before and after each revision of a run. *)
Fixpoint stages (env : Environment) (rs : list Revision) (c : Catalogue)
    : option (list (Revision * Catalogue * Catalogue)) :=
  match rs with
  | [] => Some []
  | r :: rs' =>
      match upgrade r env c with
      | (Ok _, c') => l ← stages env rs' c'; Some ((r, c, c') :: l)
      | (Raise _, _) => None
      end
  end.

(** ** The chain *)

Definition head : string := "e9a1b2c3d4f5".

Lemma chain_complete :
  map revision chain =
  ["891391a704b3"; "f37d7ee64540"; "bf79868b5f76"; "7c1f2e8a9b34"; "4a6c9d2e1f03";
   "9d8c7b6a5f4e"; "0f4d3c2b1a9e"; "2e6a4d9c8b10"; "6d4b8a2e9c11"; "3b9f1a2c4d6e";
   "8f2c1d4e9a7b"; "c7e4a9b2d135"; "d4e5f6a7b8c9"; "e5f6a7b8c9d0"; "a1b2c3d4e5f6";
   "b1c2d3e4f5a6"; "c2d3e4f5a6b7"; "d8e7f6a5b4c3"; "e9a1b2c3d4f5"] ∧
  length chain = length versions.
Proof. by vm_compute. Qed.

(** ** Revisions undone statement by statement *)

Lemma script_reversible up dn c c' : Forall2 Undoes up (rev dn) → wf c →
  script up c = (Ok tt, c') → wf c' ∧ script dn c' = (Ok tt, c).
Proof.
  intros H Hwf Hup. destruct (script_back _ _ H c c' Hwf Hup) as [Hwf' Hdn].
  by rewrite rev_involutive in Hdn.
Qed.

Definition reversible : list string :=
  ["f37d7ee64540"; "4a6c9d2e1f03"; "9d8c7b6a5f4e"; "0f4d3c2b1a9e"; "2e6a4d9c8b10";
   "8f2c1d4e9a7b"; "c7e4a9b2d135"; "a1b2c3d4e5f6"; "b1c2d3e4f5a6"; "c2d3e4f5a6b7";
   "d8e7f6a5b4c3"].

Lemma reversible_upgrades r : r ∈ versions → revision r ∈ reversible →
  ∃ up dn, (∀ env, upgrade r env = script up) ∧ (∀ env, downgrade r env = script dn) ∧
    Forall2 Undoes up (rev dn).
Proof.
  intros Hr Hrev. unfold versions in Hr.
  repeat (apply elem_of_cons in Hr as [->|Hr];
    [first [exfalso; revert Hrev; by refine (bool_decide_eq_true_1 (¬ _) _)
           |eexists _, _; split; [done|split; [done|]]; repeat (constructor; [apply _|]); constructor]|]).
  by apply not_elem_of_nil in Hr.
Qed.

(** C38: eleven revisions can be taken back on any database.  Whatever else is
    in a well-formed catalogue, such as partitions made since, other tables or
    privileges: when the upgrade of such a revision succeeds, its downgrade
    succeeds and leaves exactly the catalogue there was. *)
Theorem revisions_reversible env r c c' :
  r ∈ versions → revision r ∈ reversible → wf c → upgrade r env c = (Ok tt, c') →
  wf c' ∧ downgrade r env c' = (Ok tt, c).
Proof.
  intros Hr Hrev Hwf. destruct (reversible_upgrades r Hr Hrev) as (up & dn & -> & -> & H).
  by apply script_reversible.
Qed.

Definition with_users : Catalogue :=
  (script [create_organizations; create_users] (no_schema None)).2.

Definition platform_admin : Revision :=
  scripted "d8e7f6a5b4c3" (Some "c2d3e4f5a6b7") upgrade_d8e7f6a5b4c3 downgrade_d8e7f6a5b4c3.

Definition with_platform_admin : Catalogue :=
  (upgrade platform_admin {| app_user := None; app_password := None |} with_users).2.

Lemma revisions_reversible_witness :
  with_platform_admin ≠ with_users ∧
  downgrade platform_admin {| app_user := None; app_password := None |} with_platform_admin
  = (Ok tt, with_users).
Proof.
  split; [by vm_compute|].
  apply (revisions_reversible _ platform_admin with_users with_platform_admin).
  - unfold versions. do 15 right. left.
  - apply (bool_decide_eq_true_1 (revision platform_admin ∈ reversible)). by vm_compute.
  - apply (script_reversible [create_organizations; create_users]
             [drop_table "users"; drop_table "organizations"] (no_schema None));
      [repeat (constructor; [apply _|]); constructor|apply wf_no_schema|by vm_compute].
  - by vm_compute.
Defined.

(** ** The chain from an empty database *)

(** The role can be given privileges: it exists already, it can be created, or
    none is named. *)
Definition role_ready (env : Environment) (r : option Role) : bool :=
  match given_variable (app_user env), given_variable (app_password env), r with
  | Some _, None, None => false
  | _, _, _ => true
  end.

(** The schema, without the attributes of the role. *)
Definition schema (c : Catalogue) : Catalogue :=
  with_role (usage c) (default_table_grants c) (default_sequence_grants c) None c.

(** Every case of the environment and the role. *)
Ltac each_environment env r H :=
  destruct env as [[[|? ?]|] [[|? ?]|]], r as [?|]; cbn in H; try discriminate H; clear H.

(** The downgrade of [r] takes back what its upgrade did to [c]. *)
Definition taken_back (env : Environment) (stage : Revision * Catalogue * Catalogue) : Prop :=
  let '(r, c, c') := stage in
  ∃ c'', downgrade r env c' = (Ok tt, c'') ∧ schema c'' = schema c.

Definition irreversible : list string := ["6d4b8a2e9c11"; "e5f6a7b8c9d0"].

(** The run from an empty database, revision by revision, to the head and back. *)
Definition check_stage (env : Environment) (stage : Revision * Catalogue * Catalogue) : bool :=
  let '(r, c, c') := stage in
  inb (revision r) irreversible ||
  match downgrade r env c' with
  | (Ok _, c'') => bool_decide (schema c'' = schema c)
  | _ => false
  end.

Definition check_down (env : Environment) (d : Database) : bool :=
  match do_run_migrations env DowngradeBase d with
  | (Ok _, d') => bool_decide (version d' = None) && bool_decide (schema (catalogue d') = no_schema None)
  | _ => false
  end.

Definition check_roundtrip (env : Environment)
    (run : option (list (Revision * Catalogue * Catalogue))) (up : result unit * Database)
    (names : list string) : bool :=
  match run, up with
  | Some l, (Ok _, d) =>
      forallb (check_stage env) l && bool_decide (map (λ s, revision s.1.1) l = names) &&
      bool_decide (version d = Some head) && check_down env d
  | _, _ => false
  end.

Lemma check_roundtrip_true env r : role_ready env r = true →
  check_roundtrip env (stages env chain (no_schema r))
    (do_run_migrations env UpgradeHead (new_database r)) (map revision chain) = true.
Proof. intros H. each_environment env r H; by vm_compute. Qed.

(** C20: the migrations build the schema and take it down again.  On an empty
    database, with or without a role for the program, the chain of all
    revisions runs to the head; each of them can be taken back where it stands
    but 6d4b8a2e9c11, which drops the sequence the table was created with, and
    e5f6a7b8c9d0, which leaves other policies than it found; and from the head
    everything can be taken down to an empty schema. *)
Theorem migrations_roundtrip env r : role_ready env r = true →
  ∃ l d d', stages env chain (no_schema r) = Some l ∧
    map (λ s, revision s.1.1) l = map revision chain ∧
    (∀ s, s ∈ l → revision s.1.1 ∉ irreversible → taken_back env s) ∧
    do_run_migrations env UpgradeHead (new_database r) = (Ok tt, d) ∧ version d = Some head ∧
    do_run_migrations env DowngradeBase d = (Ok tt, d') ∧ version d' = None ∧
    schema (catalogue d') = no_schema None.
Proof.
  intros H%check_roundtrip_true. revert H.
  generalize (stages env chain (no_schema r)) (do_run_migrations env UpgradeHead (new_database r))
    (map revision chain).
  intros [l|] [[[]|] d] names H; try done. unfold check_roundtrip, check_down in H.
  destruct (do_run_migrations env DowngradeBase d) as [[[]|] d'] eqn:Ed;
    [|by rewrite andb_false_r in H].
  rewrite !andb_true_iff, !bool_decide_eq_true in H. destruct H as (((Hl & Hm) & Hv) & Hv' & Hs).
  exists l, d, d'. split_and!; try done. intros [[rv c] c'] Hin Hrev.
  rewrite forallb_forall in Hl. apply list_elem_of_In, Hl in Hin. unfold check_stage in Hin.
  cbn [fst] in Hrev. apply inb_false in Hrev. rewrite Hrev in Hin. cbn [orb] in Hin.
  unfold taken_back. destruct (downgrade rv env c') as [[[]|] c'']; [|done].
  exists c''. by apply bool_decide_eq_true in Hin.
Qed.

Lemma migrations_roundtrip_witness :
  role_ready {| app_user := Some "app"; app_password := Some "secret" |} None = true ∧
  ∃ d, do_run_migrations {| app_user := Some "app"; app_password := Some "secret" |} UpgradeHead
         (new_database None) = (Ok tt, d) ∧ version d = Some head.
Proof.
  split; [done|].
  destruct (migrations_roundtrip {| app_user := Some "app"; app_password := Some "secret" |} None)
    as (_ & d & _ & _ & _ & _ & Hd & Hv & _); [done|].
  exact (ex_intro _ d (conj Hd Hv)).
Defined.

(** A run that fails changes nothing. *)
Lemma failed_run env cmd d e d' : do_run_migrations env cmd d = (Raise e, d') → d' = d.
Proof.
  unfold do_run_migrations, atomic. destruct (run_migrations env cmd d) as [[]]; [done|].
  by intros [= _ <-].
Qed.

(** What taking back the revision of the audit log's identifiers leaves: a
    column that must have a value and has none of its own. *)
Example audit_log_id_lost :
  let env := {| app_user := None; app_password := None |} in
  let up := (script (upgrade_891391a704b3 ++ upgrade_6d4b8a2e9c11) (no_schema None)).2 in
  let back := (script downgrade_6d4b8a2e9c11 up).2 in
  let audit_id c := filter (λ k, c_name k = "id") (concat (map t_columns
                      (filter (λ t, t_name t = "audit_log") (tables c)))) in
  audit_id (script upgrade_891391a704b3 (no_schema None)).2
  = [defaulted "id" BigInteger "nextval('audit_log_id_seq')"] ∧
  audit_id back = [not_null "id" BigInteger].
Proof. by vm_compute. Qed.

(** ** What the head guarantees *)

Definition tenant_tables : list (string * string * string) :=
  [("spans", "spans_project_isolation", project_is NULL_SAFE_CONTEXT);
   ("traces", "traces_project_isolation", project_is NULL_SAFE_CONTEXT);
   ("span_metric_buckets", "span_metric_buckets_project_isolation", TEXT_CONTEXT)].

Definition secured (t : Table) : bool :=
  forallb (λ '(name, policy, condition),
    implb (table_named name t)
      (t_rls t && t_force t && bool_decide (t_policies t = [(policy, condition)]))) tenant_tables.

Definition check_head (env : Environment) (up : result unit * Database) : bool :=
  match up with
  | (Ok _, d) =>
      let c := catalogue d in
      forallb (λ n, has_table n.1.1 c) tenant_tables && forallb secured (tables c) &&
      forallb (λ p, pt_rls p && pt_force p) (partitions c) &&
      match given_variable (app_user env) with
      | None => true
      | Some _ => usage c &&
          bool_decide (map t_name (tables c) ⊆ table_grants c) &&
          bool_decide (map sq_name (sequences c) ⊆ sequence_grants c) &&
          match given_variable (app_password env), role c with
          | Some _, Some a => negb (r_superuser a) && negb (r_bypassrls a) && negb (r_createrole a)
          | Some _, None => false
          | None, _ => true
          end
      end
  | _ => false
  end.

Lemma check_head_true env r : role_ready env r = true →
  check_head env (do_run_migrations env UpgradeHead (new_database r)) = true.
Proof. intros H. each_environment env r H; by vm_compute. Qed.

(** C11: the schema at the head isolates the projects.  The tables of spans,
    traces and buckets have row-level security enabled and forced, with exactly
    the policy that compares the project of a row with the session's, and every
    partition has it enabled and forced; when a role is named for the program,
    it may use every table and every sequence, those made after the grant
    included, and one that was given a password is neither superuser nor exempt
    from the policies. *)
Theorem head_secures_tenants env r : role_ready env r = true →
  ∃ d, do_run_migrations env UpgradeHead (new_database r) = (Ok tt, d) ∧
    (∀ n policy condition, (n, policy, condition) ∈ tenant_tables →
       has_table n (catalogue d) = true ∧
       ∀ t, t ∈ tables (catalogue d) → t_name t = n →
         t_rls t = true ∧ t_force t = true ∧ t_policies t = [(policy, condition)]) ∧
    (∀ p, p ∈ partitions (catalogue d) → pt_rls p = true ∧ pt_force p = true) ∧
    (∀ user, given_variable (app_user env) = Some user →
       usage (catalogue d) = true ∧
       (∀ t, t ∈ tables (catalogue d) → t_name t ∈ table_grants (catalogue d)) ∧
       (∀ s, s ∈ sequences (catalogue d) → sq_name s ∈ sequence_grants (catalogue d)) ∧
       ∀ password, given_variable (app_password env) = Some password →
         ∃ a, role (catalogue d) = Some a ∧ r_superuser a = false ∧ r_bypassrls a = false ∧
           r_createrole a = false).
Proof.
  intros H%check_head_true. revert H.
  generalize (do_run_migrations env UpgradeHead (new_database r)).
  intros [[[]|] d] H; [|done]. exists d. split; [done|]. unfold check_head in H.
  rewrite !andb_true_iff, !forallb_forall in H. destruct H as (((Hn & Ht) & Hp) & Hu).
  split_and!.
  - intros n policy condition Hin. split.
    + apply (Hn (n, policy, condition)). by apply list_elem_of_In.
    + intros t Ht' Hname. apply list_elem_of_In, Ht in Ht'. unfold secured in Ht'.
      rewrite forallb_forall in Ht'. apply list_elem_of_In, Ht' in Hin.
      unfold table_named in Hin. rewrite Hname, String.eqb_refl in Hin. cbn [implb] in Hin.
      by rewrite !andb_true_iff, bool_decide_eq_true in Hin; destruct Hin as ((? & ?) & ?).
  - intros p Hin. by apply list_elem_of_In, Hp, andb_true_iff in Hin.
  - intros user Huser. rewrite Huser in Hu.
    rewrite !andb_true_iff, !bool_decide_eq_true in Hu. destruct Hu as (((Hus & Htg) & Hsg) & Hr).
    split_and!; [done| | |].
    + intros t Hin. apply Htg. by apply list_elem_of_fmap_2.
    + intros s Hin. apply Hsg. by apply list_elem_of_fmap_2.
    + intros password Hpw. rewrite Hpw in Hr. destruct (role (catalogue d)) as [a|]; [|done].
      rewrite !andb_true_iff, !negb_true_iff in Hr. exists a. naive_solver.
Qed.

Lemma head_secures_tenants_witness :
  ∃ d, do_run_migrations {| app_user := Some "app"; app_password := Some "secret" |} UpgradeHead
         (new_database None) = (Ok tt, d) ∧
    ∃ a, role (catalogue d) = Some a ∧ r_bypassrls a = false.
Proof.
  destruct (head_secures_tenants {| app_user := Some "app"; app_password := Some "secret" |} None)
    as (d & Hd & _ & _ & Hu); [done|]. exists d. split; [exact Hd|].
  destruct (Hu "app" eq_refl) as (_ & _ & _ & Hpw).
  destruct (Hpw "secret" eq_refl) as (a & Ha & _ & Hb & _). exact (ex_intro _ a (conj Ha Hb)).
Defined.
