(* ===== verification/Models.v ===== *)
(** * The tables as the program declares them

    The classes of [backend/app/models/], with SQLAlchemy's rules for the type
    and nullability of a column that does not state them, and what it is for
    them to describe the tables that the migrations build. *)

From S2P Require Import Prelude Text Catalogue Migrations.

Local Open Scope string_scope.

(** ** Declarations *)

(** The type inside [Mapped[...]]. *)
Inductive Annotation : Type :=
| AUuid | AInt | AStr | ABool | AFloat | ADecimal | ADatetime | ADict.

(** [Mapped[annotation]] or [Mapped[annotation | None]], and the arguments of
    [mapped_column]; [default] is a value that Python supplies. *)
Record MappedColumn : Type := {
  k_name : string; k_annotation : Annotation; k_optional : bool;
  k_type : option SqlType; k_primary : bool; k_nullable : option bool; k_unique : bool;
  k_foreign : option (string * string); k_default : bool; k_server_default : option string;
}.

Record Model : Type := {
  __tablename__ : string; m_columns : list MappedColumn; __table_args__ : list Constraint;
  m_partition_by : option string;
}.

(** A column whose type is that of its annotation or of the column it refers
    to. *)
Definition effective_type (k : MappedColumn) : SqlType :=
  match k_type k with
  | Some t => t
  | None => match k_annotation k with
            | AUuid => UUID | AInt => Integer | AStr => Text_ | ABool => Boolean
            | AFloat => Float | ADecimal => Numeric None | ADatetime => TIMESTAMP | ADict => JSONB
            end
  end.

(** [nullable] as given; a primary key never is, any other column when its
    annotation allows [None]. *)
Definition effective_nullable (k : MappedColumn) : bool :=
  if k_primary k then false
  else match k_nullable k with Some b => b | None => k_optional k end.

Section columns.
Variables (name : string) (a : Annotation) (t : option SqlType).

Definition mapped (optional : bool) (nullable : option bool) (default : bool)
    (server_default : option string) : MappedColumn :=
  {| k_name := name; k_annotation := a; k_optional := optional; k_type := t; k_primary := false;
     k_nullable := nullable; k_unique := false; k_foreign := None; k_default := default;
     k_server_default := server_default |}.

(** [Mapped[a] = mapped_column(t, nullable=False)], [Mapped[a | None] =
    mapped_column(t)], [Mapped[a] = mapped_column(t, server_default=...)]. *)
Definition required : MappedColumn := mapped false (Some false) false None.
Definition optional : MappedColumn := mapped true None false None.
Definition served (d : string) : MappedColumn := mapped false None false (Some d).
Definition required_served (d : string) : MappedColumn := mapped false (Some false) false (Some d).
(** with [default=...], with and without [nullable=False] *)
Definition required_default : MappedColumn := mapped false (Some false) true None.
Definition with_python_default : MappedColumn := mapped false None true None.

Definition primary (default : bool) : MappedColumn :=
  {| k_name := name; k_annotation := a; k_optional := false; k_type := t; k_primary := true;
     k_nullable := None; k_unique := false; k_foreign := None; k_default := default;
     k_server_default := None |}.
End columns.

Definition unique (k : MappedColumn) : MappedColumn :=
  {| k_name := k_name k; k_annotation := k_annotation k; k_optional := k_optional k;
     k_type := k_type k; k_primary := k_primary k; k_nullable := k_nullable k; k_unique := true;
     k_foreign := k_foreign k; k_default := k_default k; k_server_default := k_server_default k |}.

(** [ForeignKey(table.id, ondelete=...)] *)
Definition foreign (table ondelete : string) (k : MappedColumn) : MappedColumn :=
  {| k_name := k_name k; k_annotation := k_annotation k; k_optional := k_optional k;
     k_type := k_type k; k_primary := k_primary k; k_nullable := k_nullable k;
     k_unique := k_unique k; k_foreign := Some (table, ondelete); k_default := k_default k;
     k_server_default := k_server_default k |}.

(** ** The models *)

Definition uuid_id : MappedColumn := primary "id" AUuid (Some UUID) true.
Definition created_at : MappedColumn := served "created_at" ADatetime (Some TIMESTAMP) now_utc.

Definition Organization : Model :=
  {| __tablename__ := "organizations"; __table_args__ := []; m_partition_by := None;
     m_columns :=
       [uuid_id; required "name" AStr (Some (String_ 255));
        unique (required "slug" AStr (Some (String_ 100))); created_at] |}.

Definition User : Model :=
  {| __tablename__ := "users"; m_partition_by := None;
     __table_args__ := [Check_ "ck_users_role" "role IN ('admin', 'member', 'viewer')"];
     m_columns :=
       [uuid_id; foreign "organizations" "CASCADE" (required "org_id" AUuid None);
        unique (required "email" AStr (Some (String_ 255)));
        required "password_hash" AStr (Some (String_ 255));
        required_served "role" AStr (Some (String_ 20)) "'member'";
        required_served "is_active" ABool (Some Boolean) "true";
        required_served "is_platform_admin" ABool (Some Boolean) "false"; created_at] |}.

Definition Project : Model :=
  {| __tablename__ := "projects"; m_partition_by := None;
     __table_args__ := [Unique None ["org_id"; "name"]];
     m_columns :=
       [uuid_id; foreign "organizations" "CASCADE" (required "org_id" AUuid None);
        required "name" AStr (Some (String_ 255));
        unique (required "api_key_hash" AStr (Some (String_ 64)));
        required_default "retention_days" AInt (Some Integer);
        mapped "payload_storage_mode" AStr (Some (String_ 20)) false (Some false) true
          (Some "'all'");
        mapped "payload_max_bytes" AInt (Some Integer) false (Some false) true (Some "262144");
        mapped "payload_redact_keys" AStr (Some Text_) false (Some false) true
          (Some "'api_key,password,secret,token,authorization'");
        required_served "is_active" ABool (Some Boolean) "true"; created_at] |}.

Definition ProjectMembership : Model :=
  {| __tablename__ := "project_memberships"; m_partition_by := None;
     __table_args__ :=
       [Check_ "ck_project_memberships_role" "role IN ('member', 'viewer')";
        Unique (Some "uq_project_memberships_project_user") ["project_id"; "user_id"]];
     m_columns :=
       [uuid_id; foreign "projects" "CASCADE" (required "project_id" AUuid None);
        foreign "users" "CASCADE" (required "user_id" AUuid None);
        required "role" AStr (Some (String_ 20)); created_at;
        served "updated_at" ADatetime (Some TIMESTAMP) now_utc] |}.

Definition AuditLog : Model :=
  {| __tablename__ := "audit_log"; __table_args__ := []; m_partition_by := None;
     m_columns :=
       [primary "id" AInt (Some BigInteger) false; required "org_id" AUuid (Some UUID);
        optional "user_id" AUuid (Some UUID); required "action" AStr (Some (String_ 100));
        optional "resource_id" AUuid (Some UUID); optional "ip_address" AStr (Some INET);
        optional "user_agent" AStr (Some (String_ 500));
        required_default "metadata" ADict (Some JSONB); created_at] |}.

Definition ModelPrice : Model :=
  {| __tablename__ := "model_pricing"; m_partition_by := None;
     __table_args__ := [Unique None ["provider"; "model"; "valid_from"]];
     m_columns :=
       [primary "id" AInt None false; required "provider" AStr (Some (String_ 50));
        required "model" AStr (Some (String_ 100));
        required "input_cost_per_1k_tokens" ADecimal (Some (Numeric (Some (12, 10)%Z)));
        required "output_cost_per_1k_tokens" ADecimal (Some (Numeric (Some (12, 10)%Z)));
        required_served "valid_from" ADatetime (Some TIMESTAMP) now_utc;
        optional "valid_to" ADatetime (Some TIMESTAMP)] |}.

Definition FailedTask : Model :=
  {| __tablename__ := "failed_tasks"; __table_args__ := []; m_partition_by := None;
     m_columns :=
       [primary "id" AInt (Some BigInteger) false; optional "org_id" AUuid (Some UUID);
        optional "project_id" AUuid (Some UUID); required "task_name" AStr (Some (String_ 255));
        optional "task_args" AStr (Some Text_); optional "error" AStr (Some Text_);
        optional "attempts" AInt (Some Integer);
        served "failed_at" ADatetime (Some TIMESTAMP) now_utc;
        served "resolved" ABool (Some Boolean) "false"] |}.

Definition Span : Model :=
  {| __tablename__ := "spans"; __table_args__ := []; m_partition_by := Some "started_at";
     m_columns :=
       [uuid_id; required "trace_id" AUuid (Some UUID); required "project_id" AUuid (Some UUID);
        optional "parent_span_id" AUuid (Some UUID); required "name" AStr (Some (String_ 255));
        required "provider" AStr (Some (String_ 50)); required "model" AStr (Some (String_ 100));
        required_default "input_tokens" AInt (Some Integer);
        required_default "output_tokens" AInt (Some Integer);
        with_python_default "cost_usd" ADecimal (Some (Numeric (Some (12, 8)%Z)));
        required "latency_ms" AFloat (Some Float);
        required_default "status" AStr (Some (String_ 20)); optional "error" AStr (Some Text_);
        primary "started_at" ADatetime (Some TIMESTAMP) false;
        optional "payload_s3_key" AStr (Some (String_ 500));
        optional "payload_status" AStr (Some (String_ 30));
        optional "payload_drop_reason" AStr (Some (String_ 100));
        required_default "metadata" ADict (Some JSONB)] |}.

Definition Trace : Model :=
  {| __tablename__ := "traces"; __table_args__ := []; m_partition_by := Some "started_at";
     m_columns :=
       [uuid_id; required "project_id" AUuid (Some UUID);
        primary "started_at" ADatetime (Some TIMESTAMP) false;
        mapped "ended_at" ADatetime (Some TIMESTAMP) true (Some true) false None;
        with_python_default "total_tokens" AInt (Some Integer);
        with_python_default "total_cost_usd" ADecimal (Some (Numeric (Some (12, 8)%Z)));
        with_python_default "span_count" AInt (Some Integer);
        with_python_default "status" AStr (Some (String_ 20))] |}.

Definition SpanMetricBucket : Model :=
  {| __tablename__ := "span_metric_buckets"; __table_args__ := []; m_partition_by := None;
     m_columns :=
       [primary "project_id" AUuid (Some UUID) false;
        primary "bucket_start" ADatetime (Some TIMESTAMP) false;
        required_default "span_count" AInt (Some Integer);
        required_default "error_count" AInt (Some Integer);
        required_default "total_cost_usd" ADecimal (Some (Numeric (Some (18, 8)%Z)));
        required_default "latency_sum_ms" ADecimal (Some (Numeric (Some (18, 3)%Z)));
        mapped "created_at" ADatetime (Some TIMESTAMP) false None false None;
        mapped "updated_at" ADatetime (Some TIMESTAMP) false None false None] |}.

Definition IdempotencyRecord : Model :=
  {| __tablename__ := "idempotency_records"; m_partition_by := None;
     __table_args__ :=
       [Check_ "ck_idempotency_records_status" "status IN ('PENDING', 'COMMITTED', 'FAILED')"];
     m_columns :=
       [foreign "projects" "CASCADE" (primary "project_id" AUuid (Some UUID) false);
        primary "idempotency_key" AStr (Some (String_ 128)) false;
        required "request_hash" AStr (Some (String_ 64)); required "status" AStr (Some (String_ 20));
        optional "result" ADict (Some JSONB);
        required_served "created_at" ADatetime (Some TIMESTAMP) now_utc;
        required_served "updated_at" ADatetime (Some TIMESTAMP) now_utc] |}.

Definition OutboxEvent : Model :=
  {| __tablename__ := "outbox_events"; m_partition_by := None;
     __table_args__ :=
       [Check_ "ck_outbox_events_status"
          "status IN ('PENDING', 'PROCESSING', 'DELIVERED', 'FAILED')";
        Unique (Some "uq_outbox_events_project_type_key")
          ["project_id"; "event_type"; "event_key"]];
     m_columns :=
       [uuid_id; foreign "projects" "CASCADE" (required "project_id" AUuid (Some UUID));
        required "event_type" AStr (Some (String_ 80)); required "event_key" AStr (Some (String_ 160));
        required "payload" ADict (Some JSONB);
        required_served "status" AStr (Some (String_ 20)) "'PENDING'";
        required_served "attempts" AInt (Some Integer) "0";
        required_served "available_at" ADatetime (Some TIMESTAMP) now_utc;
        optional "locked_at" ADatetime (Some TIMESTAMP);
        optional "delivered_at" ADatetime (Some TIMESTAMP); optional "last_error" AStr (Some Text_);
        required_served "created_at" ADatetime (Some TIMESTAMP) now_utc;
        required_served "updated_at" ADatetime (Some TIMESTAMP) now_utc] |}.

Definition AlertRule : Model :=
  {| __tablename__ := "alert_rules"; m_partition_by := None;
     __table_args__ :=
       [Check_ "ck_alert_rules_metric"
          "metric IN ('latency_p95','error_rate','cost_hourly','anomaly')";
        Check_ "ck_alert_rules_condition" "condition IN ('gt','lt','anomaly')"];
     m_columns :=
       [uuid_id; foreign "projects" "CASCADE" (required "project_id" AUuid None);
        required "name" AStr (Some (String_ 255)); required "metric" AStr (Some (String_ 50));
        required "condition" AStr (Some (String_ 20));
        optional "threshold" ADecimal (Some (Numeric None));
        required_default "window_minutes" AInt (Some Integer);
        optional "notify_slack_webhook" AStr (Some (String_ 500));
        optional "notify_email" AStr (Some (String_ 255));
        required_default "cooldown_minutes" AInt (Some Integer);
        with_python_default "is_active" ABool (Some Boolean); created_at] |}.

Definition AlertEvent : Model :=
  {| __tablename__ := "alert_events"; __table_args__ := []; m_partition_by := None;
     m_columns :=
       [uuid_id; foreign "alert_rules" "CASCADE" (required "rule_id" AUuid None);
        served "triggered_at" ADatetime (Some TIMESTAMP) now_utc;
        required "value" ADecimal (Some (Numeric None)); required "message" AStr (Some Text_);
        optional "resolved_at" ADatetime (Some TIMESTAMP)] |}.

(** [Base.metadata], what [env.py] compares the database with. *)
Definition metadata : list Model :=
  [AlertEvent; AlertRule; AuditLog; FailedTask; IdempotencyRecord; ModelPrice; Organization;
   OutboxEvent; Project; ProjectMembership; Span; SpanMetricBucket; Trace; User].

(** ** What a model says of its table *)

(** Name, type and nullability. *)
Definition declared_columns (m : Model) : list (string * SqlType * bool) :=
  map (λ k, (k_name k, effective_type k, effective_nullable k)) (m_columns m).

Definition table_columns (t : Table) : list (string * SqlType * bool) :=
  map (λ k, (c_name k, c_type k, c_nullable k)) (t_columns t).

Definition foreign_key (k : MappedColumn) : list Constraint :=
  match k_foreign k with
  | Some (table, ondelete) => [ForeignKey None [k_name k] table ["id"] ondelete]
  | None => []
  end.

Definition declared_constraints (m : Model) : list Constraint :=
  PrimaryKey (map k_name (List.filter k_primary (m_columns m)))
    :: map (λ k, Unique None [k_name k]) (List.filter k_unique (m_columns m))
    ++ concat (map foreign_key (m_columns m)) ++ __table_args__ m.

(** PostgreSQL reads a quoted literal by the type of its column. *)
Definition default_text (t : SqlType) (d : string) : string :=
  match t with
  | Integer | BigInteger => strip_by (λ c, Ascii.eqb c "'") d
  | _ => d
  end.

(** A single integer primary key that refers to nothing and has no default of its
    own is numbered by a sequence. *)
Definition autoincrement (m : Model) : list (string * string) :=
  match List.filter k_primary (m_columns m) with
  | [k] =>
      if bool_decide (effective_type k = Integer ∨ effective_type k = BigInteger)
         && bool_decide (k_foreign k = None) && negb (k_default k)
         && bool_decide (k_server_default k = None)
      then [(k_name k, nextval (serial_sequence (__tablename__ m) (k_name k)))] else []
  | _ => []
  end.

(** The columns for whose value the model counts on the database, and the value. *)
Definition declared_defaults (m : Model) : list (string * string) :=
  (autoincrement m ++
   omap (λ k, d ← k_server_default k; Some (k_name k, default_text (effective_type k) d))
     (m_columns m))%list.

Definition table_defaults (t : Table) : list (string * string) :=
  omap (λ k, d ← c_default k; Some (c_name k, default_text (c_type k) d)) (t_columns t).

(** The constraints and the defaults that the migrations make and no model
    declares. *)
Definition undeclared_constraints (table : string) : list Constraint :=
  if String.eqb table "failed_tasks" then
    [ForeignKey (Some "fk_failed_tasks_org") ["org_id"] "organizations" ["id"] "SET NULL";
     ForeignKey (Some "fk_failed_tasks_project") ["project_id"] "projects" ["id"] "SET NULL"]
  else if String.eqb table "span_metric_buckets" then
    [ForeignKey None ["project_id"] "projects" ["id"] "CASCADE"]
  else if String.eqb table "projects" then
    [Check_ "ck_projects_payload_storage_mode"
       "payload_storage_mode IN ('all', 'errors', 'none')";
     Check_ "ck_projects_payload_max_bytes"
       "payload_max_bytes >= 0 AND payload_max_bytes <= 10485760"]
  else [].

Definition undeclared_defaults (table : string) : list (string * string) :=
  if String.eqb table "span_metric_buckets" then
    [("span_count", "0"); ("error_count", "0"); ("total_cost_usd", "0"); ("latency_sum_ms", "0");
     ("created_at", now_utc); ("updated_at", now_utc)]
  else [].

(** The model is a description of the table, but for what it leaves undeclared: the
    same columns, constraints and defaults, the same partitioning. *)
Record describes (m : Model) (t : Table) : Prop := {
  describes_name : t_name t = __tablename__ m;
  describes_columns : ∀ x, x ∈ declared_columns m ↔ x ∈ table_columns t;
  describes_constraints : ∀ x,
    x ∈ (declared_constraints m ++ undeclared_constraints (t_name t))%list ↔ x ∈ t_constraints t;
  describes_partition : t_partition_by t = m_partition_by m;
  describes_defaults : ∀ x,
    x ∈ (declared_defaults m ++ undeclared_defaults (t_name t))%list ↔ x ∈ table_defaults t;
}.

Definition same_elements {A} `{EqDecision A} (l k : list A) : bool :=
  bool_decide (l ⊆ k) && bool_decide (k ⊆ l).

Lemma same_elements_true {A} `{EqDecision A} (l k : list A) :
  same_elements l k = true → ∀ x, x ∈ l ↔ x ∈ k.
Proof.
  unfold same_elements. rewrite andb_true_iff, !bool_decide_eq_true.
  intros [H1 H2] x. split; auto.
Qed.

Definition describesb (m : Model) (t : Table) : bool :=
  bool_decide (t_name t = __tablename__ m) &&
  same_elements (declared_columns m) (table_columns t) &&
  same_elements (declared_constraints m ++ undeclared_constraints (t_name t))%list (t_constraints t) &&
  bool_decide (t_partition_by t = m_partition_by m) &&
  same_elements (declared_defaults m ++ undeclared_defaults (t_name t))%list (table_defaults t).

Lemma describesb_sound m t : describesb m t = true → describes m t.
Proof.
  unfold describesb. rewrite !andb_true_iff, !bool_decide_eq_true.
  intros ((((Hn & Hc) & Hk) & Hp) & Hd). split; try done; by apply same_elements_true.
Qed.

Definition unmodelled : list string := ["organization_invites"; "project_api_keys"].

Definition check_models (up : result unit * Database) : bool :=
  match up with
  | (Ok _, d) =>
      forallb (λ m, existsb (describesb m) (tables (catalogue d))) metadata &&
      forallb (λ t, inb (t_name t) (map __tablename__ metadata) || inb (t_name t) unmodelled)
        (tables (catalogue d)) &&
      forallb (λ n, has_table n (catalogue d) && negb (inb n (map __tablename__ metadata))) unmodelled
  | _ => false
  end.

Lemma check_models_true env r : role_ready env r = true →
  check_models (do_run_migrations env UpgradeHead (new_database r)) = true.
Proof. intros H. each_environment env r H; by vm_compute. Qed.

(** C21: the models and the migrations agree.  In the schema at the head every
    model describes its table, in both directions: the same columns with their
    types and nullability, the same primary, unique and foreign keys and checks,
    the same partitioning, and the same default values, a sequence for an integer
    key among them.  What the migrations make and no model declares is listed: two
    foreign keys of the failed tasks, one of the metric buckets, two checks of the
    projects and the defaults of the metric buckets.  The tables without a model
    are those of invites and API keys. *)
Theorem models_describe_schema env r : role_ready env r = true →
  ∃ d, do_run_migrations env UpgradeHead (new_database r) = (Ok tt, d) ∧
    (∀ m, m ∈ metadata → ∃ t, t ∈ tables (catalogue d) ∧ describes m t) ∧
    (∀ n, n ∈ unmodelled ↔
       n ∈ map t_name (tables (catalogue d)) ∧ n ∉ map __tablename__ metadata).
Proof.
  intros H%check_models_true. revert H.
  generalize (do_run_migrations env UpgradeHead (new_database r)).
  intros [[[]|] d] H; [|done]. exists d. split; [done|]. unfold check_models in H.
  rewrite !andb_true_iff, !forallb_forall in H. destruct H as ((Hm & Ht) & Hu). split.
  - intros m Hin%list_elem_of_In%Hm. apply existsb_exists in Hin as (t & Hin & Hd).
    exists t. split; [by apply list_elem_of_In|by apply describesb_sound].
  - intros n. split.
    + intros Hin%list_elem_of_In%Hu. apply andb_true_iff in Hin as [Hn Hno%negb_true_iff].
      apply has_table_spec in Hn as (t & Hin & <-). apply inb_false in Hno.
      split; [by apply list_elem_of_fmap_2|done].
    + intros [(t & -> & Hin)%list_elem_of_fmap Hno]. apply list_elem_of_In, Ht, orb_true_iff in Hin.
      destruct Hin as [Hin|Hin]; apply inb_true in Hin; [by destruct Hno|done].
Qed.

Lemma models_describe_schema_witness :
  ∃ d, do_run_migrations {| app_user := None; app_password := None |} UpgradeHead
         (new_database None) = (Ok tt, d) ∧ ∃ t, t ∈ tables (catalogue d) ∧ describes Span t.
Proof.
  destruct (models_describe_schema {| app_user := None; app_password := None |} None)
    as (d & Hd & Hm & _); [done|].
  destruct (Hm Span) as (t & Hin & Ht).
  - unfold metadata. do 10 right. left.
  - exact (ex_intro _ d (conj Hd (ex_intro _ t (conj Hin Ht)))).
Defined.
