(* ===== verification/Partitions.v ===== *)
(** * Monthly partitions

    The partitions of [spans] and [traces]: the migrations that create the first
    ones, the default partitions and their row-level security, and the nightly
    task of [backend/app/workers/maintenance.py] that prepares the coming months.
    PostgreSQL's rules for range partitions are written out: a name that exists
    is not created again, bounds may not overlap, and a row of the default
    partition may not belong to a new one.  A row is its [started_at].  Calendar
    arithmetic is that of Python's [datetime], for years 1 to 9999. *)

From S2P Require Import Prelude Text Schema Retention.

Local Open Scope Z_scope.

(** ** Months *)

Definition is_leap (y : Z) : bool :=
  (y mod 4 =? 0) && (negb (y mod 100 =? 0) || (y mod 400 =? 0)).

Definition days_before_year (year : Z) : Z :=
  let y := year - 1 in y * 365 + y / 4 - y / 100 + y / 400.

Definition days_before_month (y m : Z) : Z :=
  nth (Z.to_nat (m - 1)) [0; 31; 59; 90; 120; 151; 181; 212; 243; 273; 304; 334] 0 +
  (if (2 <? m) && is_leap y then 1 else 0).

(** The start of a month in UTC: microseconds since 1970. *)
Definition month_ts (m : Z * Z) : timestamp :=
  (days_before_year m.1 + days_before_month m.1 m.2 + 1 - 719163) * 86400000000.

Definition valid_month (m : Z * Z) : Prop := 1 <= m.1 ∧ 1 <= m.2 <= 12.

(** ** The catalogue *)

Record Partition : Type := {
  pt_table : string; pt_name : string;
  (** [None] for the default partition *)
  pt_bounds : option (timestamp * timestamp);
  pt_rls : bool; pt_force : bool;
  pt_rows : list timestamp;
}.

Definition Catalog : Type := list Partition.

Definition in_range (lo hi t : timestamp) : bool := (lo <=? t) && (t <? hi).

Definition contains (p : Partition) (t : timestamp) : bool :=
  match pt_bounds p with Some (lo, hi) => in_range lo hi t | None => false end.

Definition of_table (table : string) (p : Partition) : bool := String.eqb (pt_table p) table.
Definition named (name : string) (p : Partition) : bool := String.eqb (pt_name p) name.
Definition is_default (p : Partition) : bool :=
  match pt_bounds p with None => true | Some _ => false end.

Definition overlaps (lo hi : timestamp) (p : Partition) : bool :=
  match pt_bounds p with Some (lo', hi') => (lo <? hi') && (lo' <? hi) | None => false end.

Definition on_partition (name : string) (f : Partition → Partition) (c : Catalog) : Catalog :=
  map (λ p, if named name p then f p else p) c.

Definition enable_rls (p : Partition) : Partition :=
  {| pt_table := pt_table p; pt_name := pt_name p; pt_bounds := pt_bounds p;
     pt_rls := true; pt_force := pt_force p; pt_rows := pt_rows p |}.
Definition force_rls (p : Partition) : Partition :=
  {| pt_table := pt_table p; pt_name := pt_name p; pt_bounds := pt_bounds p;
     pt_rls := pt_rls p; pt_force := true; pt_rows := pt_rows p |}.
Definition with_rows (f : list timestamp → list timestamp) (p : Partition) : Partition :=
  {| pt_table := pt_table p; pt_name := pt_name p; pt_bounds := pt_bounds p;
     pt_rls := pt_rls p; pt_force := pt_force p; pt_rows := f (pt_rows p) |}.

Definition new_partition (table name : string) (bounds : option (timestamp * timestamp))
    : Partition :=
  {| pt_table := table; pt_name := name; pt_bounds := bounds;
     pt_rls := false; pt_force := false; pt_rows := [] |}.

(** [CREATE TABLE IF NOT EXISTS name PARTITION OF table FOR VALUES FROM lo TO hi] *)
Definition create_partition (table name : string) (lo hi : timestamp) : M Catalog unit :=
  c ← gets id;
  if existsb (named name) c then mret tt
  else
    raise_when (existsb (λ p, of_table table p && overlaps lo hi p) c)
      (OtherError "partition would overlap partition");;
    raise_when (existsb (λ p, of_table table p && is_default p &&
                              existsb (in_range lo hi) (pt_rows p)) c)
      (OtherError "updated partition constraint for default partition would be violated");;
    modify (λ c, c ++ [new_partition table name (Some (lo, hi))]).

(** [ALTER TABLE name ... ROW LEVEL SECURITY] *)
Definition alter (name : string) (f : Partition → Partition) : M Catalog unit :=
  c ← gets id;
  raise_when (negb (existsb (named name) c)) (OtherError "relation does not exist");;
  modify (on_partition name f).

(** Where PostgreSQL puts a row. *)
Definition route (c : Catalog) (table : string) (t : timestamp) : option string :=
  match find (λ p, of_table table p && contains p t) c with
  | Some p => Some (pt_name p)
  | None => pt_name <$> find (λ p, of_table table p && is_default p) c
  end.

Definition insert_row (table : string) (t : timestamp) : M Catalog unit :=
  c ← gets id;
  match route c table t with
  | Some name => modify (on_partition name (with_rows (cons t)))
  | None => raise (OtherError "no partition of relation found for row")
  end.

Definition delete_rows (table : string) (gone : timestamp → bool) (c : Catalog) : Catalog :=
  map (λ p, if of_table table p then with_rows (List.filter (λ t, negb (gone t))) p else p) c.

Definition rows_of (table : string) (c : Catalog) : list timestamp :=
  concat (map (λ p, if of_table table p then pt_rows p else []) c).

(** ** The nightly task *)

Definition partition_name (table : string) (m : Z * Z) : string :=
  table +:+ "_" +:+ _partition_suffix m.

Definition default_name (table : string) : string := table +:+ "_default".

(** Whether the session's role bypasses row-level security: a superuser does, the
    owner of the tables does not, since it is forced. *)
Section task.
Context (bypasses : bool).

(** The rows of a partition that a query of its own sees: the policies are those
    of the parent table, and a forced partition without any shows nothing. *)
Definition visible (p : Partition) : list timestamp :=
  if bypasses || negb (pt_rls p && pt_force p) then pt_rows p else [].

Definition _default_partition_row_count (table_name : string) (range : option (timestamp * timestamp))
    : M Catalog Z :=
  raise_when (negb (inb table_name ["spans"; "traces"]%string))
    (ValueError "Unsupported partitioned table");;
  c ← gets id;
  let keep t := match range with Some (lo, hi) => in_range lo hi t | None => true end in
  mret (Z.of_nat (length (List.filter keep
          (concat (map visible (List.filter (named (default_name table_name)) c)))))).

Definition _log_default_partition_growth : M Catalog (list (string * Z)) :=
  spans ← _default_partition_row_count "spans" None;
  traces ← _default_partition_row_count "traces" None;
  mret [("spans"%string, spans); ("traces"%string, traces)].

(** The start of a month as the database session reads the date literal. *)
Context (midnight : Z * Z → timestamp).

Definition _create_month_partition (table_name : string) (month_start : Z * Z) : M Catalog bool :=
  raise_when (negb (inb table_name ["spans"; "traces"]%string))
    (ValueError "Unsupported partitioned table");;
  let month_end := _add_months month_start 1 in
  default_rows ← _default_partition_row_count table_name
                   (Some (month_ts month_start, month_ts month_end));
  if 0 <? default_rows then mret false
  else
    let name := partition_name table_name month_start in
    create_partition table_name name (midnight month_start) (midnight month_end);;
    alter name enable_rls;;
    alter name force_rls;;
    mret true.

Definition create_next_month_partition (now : Z * Z) (lookahead_months : Z) : M Catalog unit :=
  atomic (λ before _, before)
    (_ ← _log_default_partition_growth;
     for_each (_future_partition_months now lookahead_months) (λ month_start,
       for_each ["traces"; "spans"]%string (λ table_name,
         _ ← _create_month_partition table_name month_start; mret tt))).

(** ** The migrations *)

(** [891391a704b3]: the first partitions. *)
Definition initial_partitions : M Catalog unit :=
  let create table m :=
    create_partition table (partition_name table m) (midnight m) (midnight (_add_months m 1)) in
  create "spans" (2026, 5);; create "spans" (2026, 6);;
  create "traces" (2026, 5);; create "traces" (2026, 6).

(** [7c1f2e8a9b34]: the default partitions. *)
Definition add_default_partitions : M Catalog unit :=
  modify (λ c, c ++ [new_partition "spans" (default_name "spans") None;
                     new_partition "traces" (default_name "traces") None]).

(** [3b9f1a2c4d6e]: row-level security of every partition. *)
Definition force_rls_on_partitions : M Catalog unit :=
  modify (map (λ p, force_rls (enable_rls p))).

Definition migrated : Catalog :=
  ((initial_partitions;; add_default_partitions;; force_rls_on_partitions) []).2.

(** What happens to the tables: rows come and go, and the task runs. *)
Inductive reachable : Catalog → Prop :=
| r_migrated : reachable migrated
| r_insert c table t : reachable c → reachable (insert_row table t c).2
| r_delete c table gone : reachable c → reachable (delete_rows table gone c)
| r_task c now lookahead : reachable c → valid_month now →
    reachable (create_next_month_partition now lookahead c).2.
End task.

(** ** Facts about months *)

Lemma month_cases (P : Z → Prop) :
  P 1 → P 2 → P 3 → P 4 → P 5 → P 6 → P 7 → P 8 → P 9 → P 10 → P 11 → P 12 →
  ∀ m, 1 <= m <= 12 → P m.
Proof.
  intros. assert (m = 1 ∨ m = 2 ∨ m = 3 ∨ m = 4 ∨ m = 5 ∨ m = 6 ∨ m = 7 ∨ m = 8 ∨ m = 9 ∨
    m = 10 ∨ m = 11 ∨ m = 12) as Hm by lia.
  repeat destruct Hm as [->|Hm]; [assumption..|by rewrite Hm].
Qed.

Lemma year_days y : 364 <= days_before_year (y + 1) - days_before_year y.
Proof.
  unfold days_before_year. replace (y + 1 - 1) with y by lia. cbv zeta.
  Z.to_euclidean_division_equations. lia.
Qed.

Lemma add_months_next y m :
  1 <= m <= 12 →
  _add_months (y, m) 1 = if m =? 12 then (y + 1, 1) else (y, m + 1).
Proof.
  revert m. apply month_cases; unfold _add_months; cbn; f_equal;
    Z.to_euclidean_division_equations; lia.
Qed.

Lemma month_days y m :
  1 <= m <= 12 →
  0 <= days_before_month y m <= 335 ∧
  (m ≠ 12 → days_before_month y m < days_before_month y (m + 1)).
Proof.
  revert m. apply month_cases; unfold days_before_month; destruct (is_leap y);
    cbv -[Z.le Z.lt not]; (split; [lia|intros]); lia.
Qed.

Lemma month_ts_next m : valid_month m → month_ts m < month_ts (_add_months m 1).
Proof.
  destruct m as [y m]. intros [_ Hm]. cbn [fst snd] in Hm. rewrite add_months_next by done.
  pose proof (year_days y). pose proof (month_days y m Hm) as [Hd Hlt].
  pose proof (month_days (y + 1) 1 ltac:(lia)) as [Hd' _].
  unfold month_ts. destruct (Z.eqb_spec m 12) as [->|Hne]; cbn [fst snd]; [lia|].
  specialize (Hlt Hne). lia.
Qed.

Lemma add_months_valid_month m n : valid_month m → 0 <= n → valid_month (_add_months m n).
Proof.
  intros [Hy Hm] Hn. split; [|apply add_months_valid]. cbn.
  assert (0 <= (m.2 - 1 + n) / 12) by (apply Z.div_pos; lia). lia.
Qed.

Lemma add_months_0 m : valid_month m → _add_months m 0 = m.
Proof.
  destruct m as [y m]. intros [_ Hm]. cbn [fst snd] in Hm. unfold _add_months. cbn [fst snd].
  rewrite Z.add_0_r, Z.div_small, Z.mod_small by lia. f_equal; lia.
Qed.

Lemma month_ts_later m n :
  valid_month m → month_ts m <= month_ts (_add_months m (Z.of_nat n)).
Proof.
  intros Hm. induction n as [|n IH]; [by rewrite add_months_0|].
  pose proof (month_ts_next (_add_months m (Z.of_nat n))
    (add_months_valid_month m (Z.of_nat n) Hm ltac:(lia))) as Hn.
  rewrite add_months_compose in Hn. replace (Z.of_nat (S n)) with (Z.of_nat n + 1) by lia. lia.
Qed.

(** A month is its distance from any earlier one. *)
Lemma month_distance m m' :
  valid_month m → valid_month m' → 12 * m.1 + m.2 <= 12 * m'.1 + m'.2 →
  m' = _add_months m (12 * m'.1 + m'.2 - (12 * m.1 + m.2)).
Proof.
  destruct m as [y m], m' as [y' m']. intros [_ Hm] [_ Hm'] Hle. cbn [fst snd] in *.
  unfold _add_months. cbn [fst snd].
  replace (m - 1 + (12 * y' + m' - (12 * y + m))) with (m' - 1 + (y' - y) * 12) by lia.
  rewrite Z.div_add, Z.mod_add, Z.div_small, Z.mod_small by lia. f_equal; lia.
Qed.

Lemma month_ts_order m m' :
  valid_month m → valid_month m' →
  m = m' ∨ month_ts (_add_months m 1) <= month_ts m' ∨ month_ts (_add_months m' 1) <= month_ts m.
Proof.
  assert (Hlt : ∀ a b, valid_month a → valid_month b → 12 * a.1 + a.2 < 12 * b.1 + b.2 →
    month_ts (_add_months a 1) <= month_ts b).
  { intros a b Ha Hb Hab. rewrite (month_distance a b Ha Hb) by lia.
    set (d := 12 * b.1 + b.2 - (12 * a.1 + a.2)).
    pose proof (month_ts_later (_add_months a 1) (Z.to_nat (d - 1))
      (add_months_valid_month a 1 Ha ltac:(lia))) as H.
    rewrite add_months_compose in H. replace (1 + Z.of_nat (Z.to_nat (d - 1))) with d in H by lia.
    done. }
  intros Hm Hm'.
  destruct (Z.lt_trichotomy (12 * m.1 + m.2) (12 * m'.1 + m'.2)) as [|[He|]].
  - right; left. by apply Hlt.
  - left. rewrite (month_distance m m' Hm Hm') by lia.
    rewrite He, Z.sub_diag. by rewrite add_months_0.
  - right; right. by apply Hlt.
Qed.

(** ** Facts about names *)

Lemma app_inj_tails s1 s2 t1 t2 :
  s1 +:+ t1 = s2 +:+ t2 → String.length t1 = String.length t2 → s1 = s2 ∧ t1 = t2.
Proof.
  intros E El. assert (El' := f_equal String.length E). rewrite !str_app_length in El'.
  assert (Hs : String.length s1 = String.length s2) by lia. clear El El'.
  revert s2 E Hs. induction s1 as [|c s1 IH]; intros [|c' s2] E Hs; try discriminate Hs; [done|].
  rewrite !str_app_cons in E. injection E as -> E. injection Hs as Hs.
  by destruct (IH _ E Hs) as [-> ->].
Qed.

Lemma str_02d_length m : 1 <= m <= 12 → String.length (str_02d m) = 2%nat.
Proof. revert m. apply month_cases; reflexivity. Qed.

Lemma str_02d_inj m m' : 1 <= m <= 12 → 1 <= m' <= 12 → str_02d m = str_02d m' → m = m'.
Proof.
  intros Hm Hm'. revert m Hm m' Hm'.
  apply (month_cases (λ m, ∀ m', 1 <= m' <= 12 → str_02d m = str_02d m' → m = m'));
    match goal with |- ∀ m', _ → str_02d ?m = _ → _ =>
      apply (month_cases (λ m', str_02d m = str_02d m' → m = m')) end;
    intros E; (reflexivity || discriminate E).
Qed.

Lemma partition_suffix_inj m m' :
  valid_month m → valid_month m' → _partition_suffix m = _partition_suffix m' → m = m'.
Proof.
  destruct m as [y m], m' as [y' m']. intros [_ Hm] [_ Hm'] E. cbn [fst snd] in *.
  apply app_inj_tails in E as [Ey Em].
  - f_equal; [by apply (inj pretty)|]. injection Em as Em. by apply str_02d_inj.
  - by rewrite !str_app_length, !str_02d_length.
Qed.

Definition is_partitioned (table : string) : Prop := table = "spans"%string ∨ table = "traces"%string.

Lemma partition_name_inj table table' m m' :
  is_partitioned table → is_partitioned table' → valid_month m → valid_month m' →
  partition_name table m = partition_name table' m' → table = table' ∧ m = m'.
Proof.
  intros [-> | ->] [-> | ->] Hm Hm' E; try discriminate E; injection E as E;
    (split; [done|by apply partition_suffix_inj]).
Qed.

Lemma partition_name_default table table' m :
  is_partitioned table' → valid_month m → partition_name table m ≠ default_name table'.
Proof.
  intros Ht [_ Hm] E. unfold partition_name, _partition_suffix in E.
  assert (Ea : ∀ a b c d : string, a +:+ b +:+ c +:+ d = (a +:+ b +:+ c) +:+ d)
    by (intros; by rewrite !str_app_assoc).
  rewrite Ea in E.
  assert (∃ s, default_name table' = s +:+ "ult") as [s Es].
  { destruct Ht as [-> | ->]; [by exists "spans_defa"%string|by exists "traces_defa"%string]. }
  rewrite Es in E. apply app_inj_tails in E as [_ E]; [discriminate E|].
  by rewrite str_app_length, str_02d_length.
Qed.

(** ** The catalogue's invariant *)

Record part_ok (c : Catalog) (p : Partition) : Prop := {
  po_kind : (pt_name p = default_name (pt_table p) ∧ pt_bounds p = None) ∨
    ∃ m, valid_month m ∧ pt_name p = partition_name (pt_table p) m ∧
         pt_bounds p = Some (month_ts m, month_ts (_add_months m 1));
  po_table : is_partitioned (pt_table p);
  po_secure : pt_rls p = true ∧ pt_force p = true;
  po_rows : ∀ t, t ∈ pt_rows p →
    if is_default p then ∀ q, q ∈ c → pt_table q = pt_table p → contains q t = false
    else contains p t = true;
}.

Record ok (c : Catalog) : Prop := {
  ok_names : NoDup (map pt_name c);
  ok_parts : ∀ p, p ∈ c → part_ok c p;
  ok_defaults : ∀ table, is_partitioned table → ∃ p, p ∈ c ∧ pt_name p = default_name table;
}.

(** A month has its partition, or rows that keep it in the default partition. *)
Definition month_ready (c : Catalog) (table : string) (m : Z * Z) : Prop :=
  (∃ p, p ∈ c ∧ pt_table p = table ∧
        pt_bounds p = Some (month_ts m, month_ts (_add_months m 1))) ∨
  (∃ p t, p ∈ c ∧ pt_table p = table ∧ is_default p = true ∧ t ∈ pt_rows p ∧
          month_ts m <= t < month_ts (_add_months m 1)).

Lemma existsb_named name c :
  existsb (named name) c = true ↔ ∃ p, p ∈ c ∧ pt_name p = name.
Proof.
  rewrite existsb_exists. split; intros (p & Hp & Hn); exists p; unfold named in *;
    rewrite String.eqb_eq in *; by rewrite <- list_elem_of_In in *.
Qed.

Lemma existsb_not_named name c :
  existsb (named name) c = false → ∀ p, p ∈ c → pt_name p ≠ name.
Proof.
  intros H p Hp En. assert (existsb (named name) c = true) by (apply existsb_named; eauto).
  congruence.
Qed.

Lemma on_partition_other name f c :
  (∀ p, p ∈ c → pt_name p ≠ name) → on_partition name f c = c.
Proof.
  induction c as [|p c IH]; intros H; [done|]. cbn. unfold named.
  destruct (String.eqb_spec (pt_name p) name) as [E|_]; [by destruct (H p (list_elem_of_here _ _))|].
  f_equal. apply IH. intros q Hq. apply H. by right.
Qed.

Lemma on_partition_id name f c :
  (∀ p, p ∈ c → f p = p) → on_partition name f c = c.
Proof.
  intros H. unfold on_partition. rewrite <-(map_id c) at 2. apply map_ext_in. intros p Hp.
  destruct (named name p); [|done]. by apply H, list_elem_of_In.
Qed.

Lemma in_range_spec lo hi t : in_range lo hi t = true ↔ lo <= t < hi.
Proof. unfold in_range. rewrite andb_true_iff, Z.leb_le, Z.ltb_lt. done. Qed.

(** Partitions of a table do not share an instant. *)
Lemma ok_disjoint c p q t :
  ok c → p ∈ c → q ∈ c → pt_table p = pt_table q →
  contains p t = true → contains q t = true → p = q.
Proof.
  intros Hok Hp Hq Et Cp Cq. unfold contains in *.
  destruct (po_kind _ _ (ok_parts _ Hok _ Hp)) as [[_ Eb]|(m & Hm & Em & Eb)];
    rewrite Eb in Cp; [done|].
  destruct (po_kind _ _ (ok_parts _ Hok _ Hq)) as [[_ Eb']|(m' & Hm' & Em' & Eb')];
    rewrite Eb' in Cq; [done|].
  apply in_range_spec in Cp, Cq. destruct (month_ts_order m m' Hm Hm') as [-> |[H|H]]; [|lia..].
  apply (NoDup_column_inj pt_name c); [apply Hok|done..|]. congruence.
Qed.

Lemma ok_default c p table :
  ok c → p ∈ c → is_partitioned table →
  pt_name p = default_name table ↔ pt_table p = table ∧ is_default p = true.
Proof.
  intros Hok Hp Ht. unfold is_default.
  destruct (ok_parts _ Hok _ Hp) as [[[En ->]|(m & Hm & En & ->)] Hpt _ _]; rewrite En.
  - split; [|by intros [-> _]]. intros E. split; [|done].
    destruct Hpt as [Hp'|Hp'], Ht as [-> | ->]; rewrite Hp' in *; done.
  - split; [|by intros [_ ?]]. intros E. by destruct (partition_name_default (pt_table p) table m).
Qed.

Lemma count_default c table lo hi :
  ok c → is_partitioned table →
  _default_partition_row_count true table (Some (lo, hi)) c =
  (Ok (Z.of_nat (length (List.filter (in_range lo hi)
     (concat (map pt_rows (List.filter (named (default_name table)) c)))))), c).
Proof. by intros _ [-> | ->]. Qed.

Lemma elem_of_default_rows c table t :
  ok c → is_partitioned table →
  t ∈ concat (map pt_rows (List.filter (named (default_name table)) c)) ↔
  ∃ p, p ∈ c ∧ pt_table p = table ∧ is_default p = true ∧ t ∈ pt_rows p.
Proof.
  intros Hok Ht. rewrite list_elem_of_In, in_concat. split.
  - intros (l & Hl & Hi). apply in_map_iff in Hl as (p & <- & Hp).
    apply filter_In in Hp as [Hp Hn]. apply String.eqb_eq in Hn.
    apply list_elem_of_In in Hp, Hi. exists p.
    apply (ok_default c p table Hok Hp Ht) in Hn as [? ?]. done.
  - intros (p & Hp & Ep & Ed & Hi). exists (pt_rows p). rewrite list_elem_of_In in Hi.
    split; [|done]. apply in_map, filter_In. split; [by apply list_elem_of_In|].
    apply String.eqb_eq. by apply (ok_default c p table Hok Hp Ht).
Qed.

(** Adding the partition of a month that has none, and no default rows. *)
Lemma ok_add c table m :
  ok c → is_partitioned table → valid_month m →
  (∀ p, p ∈ c → pt_name p ≠ partition_name table m) →
  (∀ p t, p ∈ c → pt_table p = table → is_default p = true → t ∈ pt_rows p →
     ¬ month_ts m <= t < month_ts (_add_months m 1)) →
  ok (c ++ [force_rls (enable_rls (new_partition table (partition_name table m)
              (Some (month_ts m, month_ts (_add_months m 1)))))]).
Proof.
  intros Hok Ht Hm Hn Hd. set (new := force_rls _). constructor.
  - rewrite map_app. apply NoDup_app. split; [apply Hok|]. split; [|apply NoDup_singleton].
    intros n Hi Hi'. apply list_elem_of_singleton in Hi' as ->.
    apply list_elem_of_fmap in Hi as (p & E & Hp). by apply (Hn p Hp).
  - intros p [Hp|Hp]%elem_of_app.
    + destruct (ok_parts _ Hok _ Hp) as [Hk Hpt Hs Hr]. constructor; [done..|].
      intros t Hi. specialize (Hr t Hi). destruct (is_default p) eqn:Ed; [|done].
      intros q [Hq|Hq]%elem_of_app Eq; [by apply Hr|].
      apply list_elem_of_singleton in Hq as ->. apply not_true_iff_false. intros Hc.
      apply in_range_spec in Hc. by apply (Hd p t).
    + apply list_elem_of_singleton in Hp as ->. constructor; [right; by exists m|done|done|].
      intros t Hi. by apply elem_of_nil in Hi.
  - intros table' Ht'. destruct (ok_defaults _ Hok _ Ht') as (p & Hp & E). exists p.
    split; [by apply elem_of_app; left|done].
Qed.

Lemma month_ready_app c l table m : month_ready c table m → month_ready (c ++ l) table m.
Proof.
  intros [(p & Hp & H)|(p & t & Hp & H)]; [left; exists p|right; exists p, t];
    (split; [by apply elem_of_app; left|done]).
Qed.

Section task_facts.
Context (midnight : Z * Z → timestamp).
Hypothesis midnight_utc : ∀ m, midnight m = month_ts m.

Lemma create_partition_fresh c table m :
  ok c → is_partitioned table → valid_month m →
  existsb (named (partition_name table m)) c = false →
  (∀ p t, p ∈ c → pt_table p = table → is_default p = true → t ∈ pt_rows p →
     ¬ month_ts m <= t < month_ts (_add_months m 1)) →
  create_partition table (partition_name table m) (month_ts m) (month_ts (_add_months m 1)) c =
  (Ok tt, c ++ [new_partition table (partition_name table m)
                  (Some (month_ts m, month_ts (_add_months m 1)))]).
Proof.
  intros Hok Ht Hm Hn Hd. unfold create_partition.
  erewrite bind_run; [|reflexivity]. cbn [id]. rewrite Hn.
  assert (Hover : existsb (λ p, of_table table p &&
            overlaps (month_ts m) (month_ts (_add_months m 1)) p) c = false).
  { apply not_true_iff_false. intros (p & Hp & Ho)%existsb_exists.
    apply list_elem_of_In in Hp. apply andb_true_iff in Ho as [Et Ho].
    apply String.eqb_eq in Et. unfold overlaps in Ho.
    destruct (po_kind _ _ (ok_parts _ Hok _ Hp)) as [[_ Eb]|(m' & Hm' & En & Eb)];
      rewrite Eb in Ho; [done|].
    apply andb_true_iff in Ho as [H1%Z.ltb_lt H2%Z.ltb_lt].
    destruct (month_ts_order m m' Hm Hm') as [-> |[H|H]]; [|lia..].
    rewrite Et in En. by apply (existsb_not_named _ _ Hn p). }
  assert (Hdef : existsb (λ p, of_table table p && is_default p &&
            existsb (in_range (month_ts m) (month_ts (_add_months m 1))) (pt_rows p)) c = false).
  { apply not_true_iff_false. intros (p & Hp & Ho)%existsb_exists.
    apply list_elem_of_In in Hp. apply andb_true_iff in Ho as [Ho (t & Hi & Hr)%existsb_exists].
    apply andb_true_iff in Ho as [Et%String.eqb_eq Ed].
    apply list_elem_of_In in Hi. apply in_range_spec in Hr. by apply (Hd p t). }
  rewrite Hover, Hdef. done.
Qed.

Lemma alter_run name f c :
  existsb (named name) c = true → alter name f c = (Ok tt, on_partition name f c).
Proof. intros E. unfold alter. erewrite bind_run; [|reflexivity]. cbn [id]. by rewrite E. Qed.

Lemma on_partition_last name f c p :
  (∀ q, q ∈ c → pt_name q ≠ name) → pt_name p = name →
  on_partition name f (c ++ [p]) = c ++ [f p].
Proof.
  intros Hn Ep. unfold on_partition. rewrite map_app. f_equal.
  - by apply on_partition_other.
  - cbn. unfold named. by rewrite Ep, String.eqb_refl.
Qed.

Lemma secure_id c p : ok c → p ∈ c → enable_rls p = p ∧ force_rls p = p.
Proof.
  intros Hok Hp. destruct (po_secure _ _ (ok_parts _ Hok _ Hp)) as [H1 H2].
  destruct p; cbn in *; subst. done.
Qed.

(** One month of one table: nothing changes, or an empty partition is added. *)
Lemma create_month_runs c table m :
  ok c → is_partitioned table → valid_month m →
  ∃ b c', _create_month_partition true midnight table m c = (Ok b, c') ∧ ok c' ∧
    (∃ l, c' = c ++ l ∧ rows_of table l = [] ∧ Forall (λ p, pt_rows p = []) l) ∧
    month_ready c' table m.
Proof.
  intros Hok Ht Hm. unfold _create_month_partition.
  erewrite bind_run; [|by destruct Ht as [-> | ->]]. cbv zeta.
  erewrite bind_run; [|by apply count_default]. rewrite !midnight_utc.
  pose proof (elem_of_default_rows c table) as Hrows.
  destruct (List.filter (in_range _ _) _) as [|t l] eqn:Ef; cbn [length].
  2: { exists false, c. split; [done|]. split; [done|]. split; [by exists []; rewrite app_nil_r|].
    right. assert (Hi : t ∈ t :: l) by by left. rewrite <-Ef in Hi.
    apply list_elem_of_In, filter_In in Hi as [Hi Hr]. apply in_range_spec in Hr.
    apply list_elem_of_In, Hrows in Hi as (p & ?); [|done..]. exists p, t. naive_solver. }
  change (0 <? Z.of_nat 0) with false. cbv iota.
  assert (Hfree : ∀ p t, p ∈ c → pt_table p = table → is_default p = true → t ∈ pt_rows p →
    ¬ month_ts m <= t < month_ts (_add_months m 1)).
  { intros p t Hp Et Ed Hi Hr. apply in_range_spec in Hr.
    assert (Hin : t ∈ concat (map pt_rows (List.filter (named (default_name table)) c)))
      by (apply Hrows; eauto).
    apply list_elem_of_In in Hin. pose proof (proj2 (filter_In (in_range (month_ts m) (month_ts (_add_months m 1))) t _) (conj Hin Hr)) as Hx.
    by rewrite Ef in Hx. }
  destruct (existsb (named (partition_name table m)) c) eqn:En.
  - exists true, c. split_and!; [|done|by exists []; rewrite app_nil_r|].
    + erewrite bind_run; [|unfold create_partition; erewrite bind_run; [|reflexivity];
        cbn [id]; by rewrite En].
      erewrite bind_run; [|by apply alter_run].
      rewrite on_partition_id by (intros; by apply (secure_id c)).
      erewrite bind_run; [|by apply alter_run].
      by rewrite on_partition_id by (intros; by apply (secure_id c)).
    + left. apply existsb_named in En as (p & Hp & En). exists p. split; [done|].
      destruct (ok_parts _ Hok _ Hp) as [[[Ed _]|(m' & Hm' & Em & Eb)] Hpt _ _].
      * destruct (partition_name_default table (pt_table p) m); [done..|congruence].
      * rewrite Em in En. apply partition_name_inj in En as [-> ->]; done.
  - pose proof (existsb_not_named _ _ En) as Hn. exists true, (c ++ [force_rls (enable_rls (new_partition table (partition_name table m)
      (Some (month_ts m, month_ts (_add_months m 1)))))]). split; [|split].
    + erewrite bind_run; [|by apply create_partition_fresh].
      erewrite bind_run; [|apply alter_run; rewrite existsb_app; cbn; unfold named; cbn;
        by rewrite String.eqb_refl, orb_true_r].
      rewrite on_partition_last by done.
      erewrite bind_run; [|apply alter_run; rewrite existsb_app; cbn; unfold named; cbn;
        by rewrite String.eqb_refl, orb_true_r].
      rewrite on_partition_last by done. reflexivity.
    + by apply ok_add.
    + split.
      * eexists. split; [done|]. unfold rows_of. cbn.
        split; [by case_match|by repeat constructor].
      * left. eexists. split; [apply elem_of_app; right; by apply list_elem_of_singleton|done].
Qed.

(** Both tables of a month, and the months in turn. *)
Lemma month_runs c m :
  ok c → valid_month m →
  ∃ l, for_each ["traces"; "spans"]%string (λ table_name,
         _ ← _create_month_partition true midnight table_name m; mret tt) c = (Ok tt, c ++ l) ∧
    ok (c ++ l) ∧ Forall (λ p, pt_rows p = []) l ∧
    ∀ table, is_partitioned table → month_ready (c ++ l) table m.
Proof.
  intros Hok Hm.
  destruct (create_month_runs c "traces" m Hok ltac:(by right) Hm)
    as (b & c1 & E1 & Hok1 & (l1 & -> & _ & Hl1) & Hr1).
  destruct (create_month_runs (c ++ l1) "spans" m Hok1 ltac:(by left) Hm)
    as (b' & c2 & E2 & Hok2 & (l2 & -> & _ & Hl2) & Hr2).
  exists (l1 ++ l2). rewrite app_assoc. split_and!; [|done|by apply Forall_app|].
  - cbn [for_each]. erewrite bind_run; [|by erewrite bind_run; [|apply E1]].
    by erewrite bind_run; [|by erewrite bind_run; [|apply E2]].
  - intros table [-> | ->]; [done|by apply month_ready_app].
Qed.

Lemma months_run c months :
  ok c → Forall valid_month months →
  ∃ l, for_each months (λ month_start,
         for_each ["traces"; "spans"]%string (λ table_name,
           _ ← _create_month_partition true midnight table_name month_start; mret tt)) c
       = (Ok tt, c ++ l) ∧
    ok (c ++ l) ∧ Forall (λ p, pt_rows p = []) l ∧
    ∀ table m, is_partitioned table → m ∈ months → month_ready (c ++ l) table m.
Proof.
  intros Hok Hms. revert c Hok. induction Hms as [|m months Hm Hms IH]; intros c Hok.
  - exists []. rewrite app_nil_r. split_and!; [done|done|done|].
    intros table m _ Hi. by apply elem_of_nil in Hi.
  - destruct (month_runs c m Hok Hm) as (l1 & E1 & Hok1 & Hl1 & Hr1).
    destruct (IH _ Hok1) as (l2 & E2 & Hok2 & Hl2 & Hr2).
    exists (l1 ++ l2). rewrite app_assoc. split_and!; [|done|by apply Forall_app|].
    + cbn [for_each] in *. by erewrite bind_run; [|apply E1].
    + intros table m' Ht [-> |Hi]%elem_of_cons; [by apply month_ready_app, Hr1|by apply Hr2].
Qed.

Lemma future_months_valid now lookahead :
  valid_month now → Forall valid_month (_future_partition_months now lookahead).
Proof.
  intros Hn. apply Forall_forall. intros m Hm. apply list_elem_of_fmap in Hm as (n & -> & _).
  apply add_months_valid_month; [done|lia].
Qed.

Lemma task_runs c now lookahead :
  ok c → valid_month now →
  ∃ l, create_next_month_partition true midnight now lookahead c = (Ok tt, c ++ l) ∧
    ok (c ++ l) ∧ Forall (λ p, pt_rows p = []) l ∧
    ∀ table m, is_partitioned table → m ∈ _future_partition_months now lookahead →
      month_ready (c ++ l) table m.
Proof.
  intros Hok Hn.
  destruct (months_run c _ Hok (future_months_valid now lookahead Hn)) as (l & E & H).
  exists l. split; [|done]. unfold create_next_month_partition, atomic.
  erewrite bind_run; [|reflexivity]. by rewrite E.
Qed.
End task_facts.

(** ** Rows come and go *)

Lemma ok_rows c (g : Partition → list timestamp) :
  ok c →
  (∀ p t, p ∈ c → t ∈ g p →
    if is_default p then ∀ q, q ∈ c → pt_table q = pt_table p → contains q t = false
    else contains p t = true) →
  ok (map (λ p, with_rows (λ _, g p) p) c).
Proof.
  intros Hok Hg. constructor.
  - rewrite map_map. apply Hok.
  - intros p Hp. apply list_elem_of_fmap in Hp as (p0 & -> & Hp).
    destruct (ok_parts _ Hok _ Hp) as [Hk Hpt Hs _]. constructor; [done..|].
    intros t Hi. specialize (Hg p0 t Hp Hi). destruct (is_default p0) eqn:Ed.
    + unfold is_default in *. cbn in *. rewrite Ed. intros q Hq.
      apply list_elem_of_fmap in Hq as (q0 & -> & Hq). apply (Hg q0 Hq).
    + unfold is_default in *. cbn in *. by rewrite Ed.
  - intros table Ht. destruct (ok_defaults _ Hok _ Ht) as (p & Hp & E).
    exists (with_rows (λ _, g p) p). split; [|done].
    apply list_elem_of_fmap. by exists p.
Qed.

Lemma with_rows_id p : with_rows (λ _, pt_rows p) p = p.
Proof. by destruct p. Qed.

Lemma route_located c table t name p :
  ok c → route c table t = Some name → p ∈ c → pt_name p = name →
  if is_default p then ∀ q, q ∈ c → pt_table q = pt_table p → contains q t = false
  else contains p t = true.
Proof.
  unfold route. intros Hok Hr Hp En.
  assert (Hsame : ∀ x, x ∈ c → pt_name x = name → p = x)
    by (intros x Hx Ex; apply (NoDup_column_inj pt_name c); [apply Hok|done..|congruence]).
  destruct (find (λ p, of_table table p && contains p t) c) as [x|] eqn:Ef.
  - injection Hr as Ex. apply find_some in Ef as [Hx Hc]. apply list_elem_of_In in Hx.
    rewrite (Hsame x Hx Ex). apply andb_true_iff in Hc as [_ Hc]. unfold is_default.
    destruct (pt_bounds x) eqn:Eb; [done|]. unfold contains in Hc. by rewrite Eb in Hc.
  - apply fmap_Some in Hr as (x & Hf & Ex). apply find_some in Hf as [Hx Hd].
    apply list_elem_of_In in Hx. rewrite (Hsame x Hx (eq_sym Ex)).
    apply andb_true_iff in Hd as [Et%String.eqb_eq ->].
    intros q Hq Eq. apply list_elem_of_In in Hq. pose proof (find_none _ _ Ef q Hq) as Hn.
    cbn in Hn. unfold of_table in Hn. by rewrite Eq, Et, String.eqb_refl in Hn.
Qed.

Lemma insert_row_run c table t :
  insert_row table t c =
  match route c table t with
  | Some name => (Ok tt, on_partition name (with_rows (cons t)) c)
  | None => (Raise (OtherError "no partition of relation found for row"), c)
  end.
Proof. unfold insert_row. erewrite bind_run; [|reflexivity]. cbn [id]. by destruct (route _ _ _). Qed.

Lemma insert_keeps_ok c table t : ok c → ok (insert_row table t c).2.
Proof.
  intros Hok. rewrite insert_row_run. destruct (route c table t) as [name|] eqn:Er; [|done].
  unfold on_partition. cbn [snd].
  erewrite map_ext; [apply (ok_rows c (λ p, if named name p then t :: pt_rows p else pt_rows p) Hok)|].
  - intros p t' Hp Hi. assert (Hold : t' ∈ pt_rows p → _) by apply (po_rows _ _ (ok_parts _ Hok _ Hp) t').
    unfold named in Hi. destruct (String.eqb_spec (pt_name p) name) as [En|]; [|by apply Hold].
    apply elem_of_cons in Hi as [-> |Hi]; [|by apply Hold]. by apply (route_located c table t name).
  - intros p. cbn. destruct (named name p); [done|]. by rewrite with_rows_id.
Qed.

Lemma delete_keeps_ok c table gone : ok c → ok (delete_rows table gone c).
Proof.
  intros Hok. unfold delete_rows.
  erewrite map_ext; [apply (ok_rows c (λ p, if of_table table p
     then List.filter (λ t, negb (gone t)) (pt_rows p) else pt_rows p) Hok)|].
  - intros p t Hp Hi. apply (po_rows _ _ (ok_parts _ Hok _ Hp) t).
    destruct (of_table table p); [|done]. apply list_elem_of_In, filter_In in Hi as [Hi _].
    by apply list_elem_of_In.
  - intros p. cbn. destruct (of_table table p); [done|]. by rewrite with_rows_id.
Qed.

(** A partitioned table takes every row. *)
Lemma insert_runs c table t : ok c → is_partitioned table → (insert_row table t c).1 = Ok tt.
Proof.
  intros Hok Ht. rewrite insert_row_run.
  destruct (route c table t) as [name|] eqn:Er; [done|]. exfalso. unfold route in Er.
  destruct (find (λ p, of_table table p && contains p t) c); [done|].
  destruct (ok_defaults _ Hok _ Ht) as (p & Hp & En).
  apply (ok_default c p table Hok Hp Ht) in En as [Et Ed].
  apply fmap_None in Er. apply list_elem_of_In in Hp. pose proof (find_none _ _ Er p Hp) as Hn.
  cbn in Hn. unfold of_table in Hn. by rewrite Et, String.eqb_refl, Ed in Hn.
Qed.

Lemma rows_of_app table c l :
  Forall (λ p, pt_rows p = []) l → rows_of table (c ++ l) = rows_of table c.
Proof.
  intros Hl. unfold rows_of. rewrite map_app, concat_app.
  assert (concat (map (λ p, if of_table table p then pt_rows p else []) l) = []) as ->;
    [|by rewrite app_nil_r].
  induction Hl as [|p l E _ IH]; [done|]. cbn. rewrite E, IH. by destruct (of_table table p).
Qed.

Section reached.
Context (midnight : Z * Z → timestamp).
Hypothesis midnight_utc : ∀ m, midnight m = month_ts m.

Lemma migrated_ok : ok (migrated midnight).
Proof.
  assert (migrated midnight = migrated month_ts) as ->.
  { unfold migrated, initial_partitions. cbv zeta. by rewrite !midnight_utc. }
  assert (Hm : ∀ n, (1 <= n <= 12) → valid_month (2026, n)) by (intros; done).
  constructor.
  - vm_compute. repeat (apply NoDup_cons; split; [set_solver|]). apply NoDup_nil_2.
  - assert (Forall (part_ok (migrated month_ts)) (migrated month_ts)) as Hf;
      [|by intros p Hp; revert Hf; rewrite Forall_forall; intros Hf; apply Hf].
    repeat (apply Forall_cons; split);
      try (constructor; [|by (left + right)|done|by intros t Hi%elem_of_nil]);
      [right; exists (2026, 5)|right; exists (2026, 6)|right; exists (2026, 5)
      |right; exists (2026, 6)|left|left|by apply Forall_nil]; done.
  - intros table [-> | ->].
    + exists (nth 4 (migrated month_ts) (new_partition "" "" None)). split; [|done].
      vm_compute. set_solver.
    + exists (nth 5 (migrated month_ts) (new_partition "" "" None)). split; [|done].
      vm_compute. set_solver.
Qed.

Lemma reachable_ok c : reachable true midnight c → ok c.
Proof.
  induction 1 as [|c table t _ IH|c table gone _ IH|c now lookahead _ IH Hn].
  - apply migrated_ok.
  - by apply insert_keeps_ok.
  - by apply delete_keeps_ok.
  - destruct (task_runs midnight midnight_utc c now lookahead IH Hn) as (l & -> & Hok & _). done.
Qed.

(** C9: if the task runs as a role exempt from row-level security and its database
    session is in UTC ([partitions_need_bypass] and [partitions_need_utc] show
    what happens otherwise), then however rows come and go and whenever the nightly task runs, every
    partition forces row-level security; no instant belongs to two partitions of
    a table; every row is in the partition its time belongs to, and in the
    default partition only if none has it; the tables take every row; and the
    task always succeeds, moves no row, and leaves each coming month with its
    partition unless the default partition already holds rows of it. *)
Theorem partitions_sound c :
  reachable true midnight c →
  (∀ p, p ∈ c → pt_rls p = true ∧ pt_force p = true) ∧
  (∀ p q t, p ∈ c → q ∈ c → pt_table p = pt_table q →
     contains p t = true → contains q t = true → p = q) ∧
  (∀ p t, p ∈ c → t ∈ pt_rows p →
     if is_default p then ∀ q, q ∈ c → pt_table q = pt_table p → contains q t = false
     else contains p t = true) ∧
  (∀ table t, is_partitioned table → (insert_row table t c).1 = Ok tt) ∧
  (∀ now lookahead, valid_month now →
     ∃ c', create_next_month_partition true midnight now lookahead c = (Ok tt, c') ∧
       (∀ table, rows_of table c' = rows_of table c) ∧
       ∀ table m, is_partitioned table → m ∈ _future_partition_months now lookahead →
         month_ready c' table m).
Proof.
  intros Hc%reachable_ok. split_and!.
  - intros p Hp. apply (ok_parts _ Hc _ Hp).
  - intros p q t. by apply ok_disjoint.
  - intros p t Hp. apply (ok_parts _ Hc _ Hp).
  - intros table t. by apply insert_runs.
  - intros now lookahead Hn.
    destruct (task_runs midnight midnight_utc c now lookahead Hc Hn) as (l & E & _ & Hl & Hr).
    exists (c ++ l). split; [done|]. split; [|done]. intros table. by apply rows_of_app.
Qed.
End reached.

(** An owner that does not bypass row-level security sees no row of the default
    partitions, creates the partition of their month, and fails: the partitions
    of the other months are rolled back with it. *)
Example partitions_need_bypass :
  let c := (insert_row "spans" (month_ts (2026, 9)) (migrated month_ts)).2 in
  _default_partition_row_count false "spans" None c = (Ok 0, c) ∧
  create_next_month_partition false month_ts (2026, 7) 2 c =
    (Raise (OtherError "updated partition constraint for default partition would be violated"), c) ∧
  map pt_name (create_next_month_partition true month_ts (2026, 7) 2 c).2 =
    map pt_name c ++ ["traces_2026_08"; "spans_2026_08"; "traces_2026_09"]%string.
Proof. split_and!; vm_compute; reflexivity. Qed.

(** 30 July 2026: a span of that day and one of two years ago; then the task. *)
Definition july : Catalog :=
  (create_next_month_partition true month_ts (2026, 7) 2
     (insert_row "spans" (month_ts (2024, 7))
        (insert_row "spans" (month_ts (2026, 8) - 86400000000) (migrated month_ts)).2).2).2.

Example july_partitions :
  month_ts (2026, 7) = 1782864000000000 ∧
  map pt_name july =
    ["spans_2026_05"; "spans_2026_06"; "traces_2026_05"; "traces_2026_06"; "spans_default";
     "traces_default"; "traces_2026_08"; "spans_2026_08"; "traces_2026_09"; "spans_2026_09"]%string ∧
  route july "spans" (month_ts (2026, 8)) = Some "spans_2026_08"%string ∧
  rows_of "spans" july = [month_ts (2024, 7); month_ts (2026, 8) - 86400000000].
Proof. split_and!; vm_compute; reflexivity. Qed.

Lemma partitions_sound_witness :
  reachable true month_ts july ∧ (∀ p, p ∈ july → pt_rls p = true ∧ pt_force p = true) ∧
  ∃ c', create_next_month_partition true month_ts (2026, 11) 2 july = (Ok tt, c') ∧
    month_ready c' "spans" (2027, 1).
Proof.
  assert (Hj : reachable true month_ts july).
  { unfold july. apply r_task; [|done]. apply r_insert, r_insert. apply r_migrated. }
  destruct (partitions_sound month_ts (λ _, eq_refl) july Hj) as (H1 & _ & _ & _ & H5).
  split; [exact Hj|]. split; [exact H1|].
  destruct (H5 (2026, 11) 2 ltac:(done)) as (c' & E & _ & Hr). exists c'. split; [exact E|].
  apply Hr; [by left|]. by right; left.
Defined.

(** With a database session three hours ahead of UTC, the bounds are not those
    the task checked, and a row of the last hours of the month before makes it
    fail. *)
Example partitions_need_utc :
  let midnight m := month_ts m - 3 * 3600000000 in
  (create_next_month_partition true midnight (2026, 7) 2
     (insert_row "spans" (month_ts (2026, 8) - 3600000000) (migrated midnight)).2).1 =
  Raise (OtherError "updated partition constraint for default partition would be violated").
Proof. vm_compute. reflexivity. Qed.
