(* ===== verification/AuditTrail.v ===== *)
(** * Reading the audit trail

    [backend/app/api/v1/audit.py]: the events of an organisation, newest first,
    a page at a time.  The database gives each row of the trail a serial number
    and a time when it is written; they are functions of its position here.
    [ILIKE] and the cast of a text to a UUID are parameters, [None] being the
    cast's error. *)

From S2P Require Import Prelude Text PyVal Json Schema App SpanSchema Otlp Paging.

Local Open Scope Z_scope.

Record AuditRow : Type := { au_id : Z; au_created : timestamp; au_log : AuditLog }.

Record AuditFilters : Type := {
  af_action : option string; af_user : option string;
  af_from : option pydatetime; af_to : option pydatetime;
}.

Record AuditLogEvent : Type := {
  ev_id : Z; ev_action : string; ev_user : option string; ev_email : option string;
  ev_resource : option string; ev_metadata : list (string * pyval); ev_created : timestamp;
}.

Record AuditLogResponse : Type := { ar_events : list AuditLogEvent; ar_next : option string }.

(** [str(x) if x else None] *)
Definition str_or_none (s : option string) : option string :=
  match s with Some v => if truthy v then Some v else None | None => None end.

Section audit.
Context (serial : nat → Z) (created : nat → timestamp).
Context (ilike : string → string → bool) (cast_uuid : string → option string)
        (float_of_text : string → pyfloat).

(** The table, its rows numbered. *)
Fixpoint number (i : nat) (t : list AuditLog) : list AuditRow :=
  match t with
  | [] => []
  | r :: t' => {| au_id := serial i; au_created := created i; au_log := r |} :: number (S i) t'
  end.

Definition audit_rows (d : Db) : list AuditRow := number 0 (audit_log d).

Definition parse_metadata (value : pyval) : list (string * pyval) :=
  match value with
  | VDict d => d
  | VStr s => match json_loads float_of_text s with Ok (VDict d) => d | _ => [] end
  | _ => []
  end.

Definition pattern (action : option string) : option string :=
  match action with
  | Some a => if truthy a && truthy (strip a) then Some ("%" +:+ strip a +:+ "%") else None
  | None => None
  end.

(** [CAST(:x AS t) IS NULL OR ...] *)
Definition if_given {A} (x : option A) (p : A → bool) : bool :=
  match x with Some a => p a | None => true end.

(** The [WHERE] clause, without and with the cursor. *)
Definition audit_matches (org : string) (f : AuditFilters) (user_id : option string)
    (r : AuditRow) : bool :=
  String.eqb (a_org (au_log r)) org &&
  if_given (pattern (af_action f)) (ilike (a_action (au_log r))) &&
  if_given user_id (λ u, bool_decide (a_user (au_log r) = Some u)) &&
  if_given (af_from f) (λ dt, dt_utc dt <=? au_created r) &&
  if_given (af_to f) (λ dt, au_created r <=? dt_utc dt).

Definition before (cursor : option Z) (r : AuditRow) : bool :=
  if_given cursor (λ c, au_id r <? c).

(** [LEFT JOIN users] *)
Definition user_email (d : Db) (r : AuditRow) : option string :=
  match a_user (au_log r) with
  | Some u => u_email <$> select_one (λ x, String.eqb (u_id x) u) (users d)
  | None => None
  end.

Definition event (d : Db) (r : AuditRow) : AuditLogEvent :=
  {| ev_id := au_id r; ev_action := a_action (au_log r);
     ev_user := str_or_none (a_user (au_log r)); ev_email := user_email d r;
     ev_resource := str_or_none (a_resource (au_log r));
     ev_metadata := parse_metadata (a_metadata (au_log r)); ev_created := au_created r |}.

(** What FastAPI checks of the query string. *)
Definition query_ok (f : AuditFilters) (cursor : option Z) (page_size : Z) : bool :=
  if_given (af_action f) (λ a, len a <=? 100) && if_given cursor (λ c, 1 <=? c) &&
  (1 <=? page_size) && (page_size <=? 100).

Definition list_audit_events (f : AuditFilters) (cursor : option Z) (page_size : Z)
    (user : CurrentUser) : M App AuditLogResponse :=
  raise_when (negb (query_ok f cursor page_size)) (HTTPException 422 "");;
  require_admin user;;
  user_id ← lift (match af_user f with
                  | None => Ok None
                  | Some s => match cast_uuid s with
                              | Some u => Ok (Some u)
                              | None => Raise (SQLAlchemyError "DataError")
                              end
                  end);
  d ← query id;
  let rows := take (Z.to_nat page_size + 1)
    (sort_by (λ r, - au_id r)
       (select (λ r, audit_matches (cu_org user) f user_id r && before cursor r)
          (audit_rows d))) in
  let page := take (Z.to_nat page_size) rows in
  mret {| ar_events := map (event d) page;
          ar_next := if (Z.to_nat page_size <? length rows)%nat
                     then (λ r, str_of_int (au_id r)) <$> last page else None |}.

(** The request as it comes: the cursor is a text that must read as an integer. *)
Definition audit_request (f : AuditFilters) (page_size : Z) (user : CurrentUser)
    (cursor : option string) : M App AuditLogResponse :=
  match cursor with
  | None => list_audit_events f None page_size user
  | Some s => match int_of_text s with
              | Some c => list_audit_events f (Some c) page_size user
              | None => raise (HTTPException 422 "")
              end
  end.

Definition audit_listing (f : AuditFilters) (page_size : Z) (user : CurrentUser)
    : Listing App AuditLogEvent AuditLogResponse :=
  {| request := audit_request f page_size user; page_rows := ar_events;
     page_next := ar_next; row_cursor := λ e, str_of_int (ev_id e) |}.

(** ** Facts *)

(** [BIGSERIAL]: positive and rising. *)
Hypothesis serial_rises : ∀ i, 1 <= serial i < serial (S i).

Lemma serial_later i j : (i < j)%nat → serial i < serial j.
Proof.
  induction 1 as [|j _ IH]; [apply serial_rises|]. pose proof (serial_rises j). lia.
Qed.

Lemma number_ids i t r : r ∈ number i t → ∃ j, (i ≤ j)%nat ∧ au_id r = serial j.
Proof.
  revert i. induction t as [|x t IH]; intros i Hr; [by apply elem_of_nil in Hr|].
  apply elem_of_cons in Hr as [-> |Hr]; [by exists i|].
  destruct (IH _ Hr) as (j & Hj & E). exists j. split; [lia|done].
Qed.

Lemma audit_ids_unique d : NoDup ((λ r, - au_id r) <$> audit_rows d).
Proof.
  unfold audit_rows. generalize 0%nat as i. induction (audit_log d) as [|x t IH]; intros i; cbn.
  - apply NoDup_nil_2.
  - apply NoDup_cons. split; [|by apply IH].
    intros (r & E & Hr)%list_elem_of_fmap. apply number_ids in Hr as (j & Hj & Ej).
    cbn in E. pose proof (serial_later i j ltac:(lia)). lia.
Qed.

(** The events of the organisation that match, newest first. *)
Definition matching_events (f : AuditFilters) (user_id : option string) (user : CurrentUser)
    (d : Db) : list AuditRow :=
  sort_by (λ r, - au_id r) (select (audit_matches (cu_org user) f user_id) (audit_rows d)).

Section pages.
Context (f : AuditFilters) (user_id : option string) (page_size : Z) (user : CurrentUser) (s : App).
Hypothesis Hadmin : cu_role user = "admin".
Hypothesis Hcast : match af_user f with
  | None => user_id = None
  | Some t => ∃ u, cast_uuid t = Some u ∧ user_id = Some u
  end.
Hypothesis Hquery : query_ok f None page_size = true.

Abbreviation rows := (matching_events f user_id user (db s)).

(** One query, at a cursor that the whole of [rest] lies after. *)
Lemma audit_page cursor rest :
  if_given cursor (λ c, 1 <=? c) = true →
  sort_by (λ r, - au_id r)
    (select (λ r, audit_matches (cu_org user) f user_id r && before cursor r)
       (audit_rows (db s))) = rest →
  let n := Z.to_nat page_size in
  list_audit_events f cursor page_size user s =
  (Ok {| ar_events := map (event (db s)) (take n rest);
         ar_next := if (n <? length rest)%nat
                    then (λ r, str_of_int (au_id r)) <$> last (take n rest) else None |}, s).
Proof.
  intros Hc E n. unfold list_audit_events.
  assert (Hq : query_ok f cursor page_size = true).
  { unfold query_ok in *. rewrite !andb_true_iff in *. naive_solver. }
  rewrite Hq. cbn [negb]. erewrite bind_run; [|reflexivity].
  erewrite bind_run; [|by apply require_admin_run].
  erewrite bind_run; [|unfold lift; destruct (af_user f); [|by rewrite Hcast];
    destruct Hcast as (u & -> & ->); reflexivity].
  erewrite bind_run; [|reflexivity]. unfold id. rewrite E. fold n.
  assert (Htake : take n (take (n + 1) rest) = take n rest)
    by (rewrite take_take; f_equal; lia).
  assert (Hlen : (n <? length (take (n + 1) rest))%nat = (n <? length rest)%nat).
  { rewrite length_take. apply eq_true_iff_eq. rewrite !Nat.ltb_lt. lia. }
  cbv zeta. by rewrite Htake, Hlen.
Qed.

Lemma audit_lawful :
  lawful (audit_listing f page_size user) (Z.to_nat page_size) (map (event (db s)) rows) s.
Proof.
  intros pre rest cursor Hpos E. set (n := Z.to_nat page_size).
  apply map_eq_app in E as (pre' & rest' & Er & <- & <-).
  assert (Hpage : ∀ c, if_given c (λ c, 1 <=? c) = true →
    sort_by (λ r, - au_id r)
      (select (λ r, audit_matches (cu_org user) f user_id r && before c r)
         (audit_rows (db s))) = rest' →
    audit_request f page_size user (str_of_int <$> c) s = list_audit_events f c page_size user s →
    ∃ page, audit_request f page_size user (str_of_int <$> c) s = (Ok page, s) ∧
      ar_events page = take n (map (event (db s)) rest') ∧
      ar_next page = if (n <? length (map (event (db s)) rest'))%nat
        then (λ e, str_of_int (ev_id e)) <$> last (take n (map (event (db s)) rest')) else None).
  { intros c Hc Ec ->. rewrite (audit_page c rest' Hc Ec). eexists. split; [reflexivity|].
    cbn [ar_events ar_next]. rewrite length_map, <- fmap_take, fmap_last. split; [done|].
    fold n. destruct (n <? length rest')%nat; [|done]. by destruct (last (take n rest')). }
  inversion Hpos as [Hp Hc|l e Hp Hc].
  - destruct pre'; [|done]. apply (Hpage None); [done| |done].
    cbn in Er. rewrite <- Er. unfold matching_events. f_equal. unfold select.
    apply List.filter_ext. intros x. by rewrite andb_true_r.
  - symmetry in Hp. apply map_eq_app in Hp as (pre & [|r [|]] & -> & <- & [= <-]).
    rewrite <- app_assoc in Er. cbn [app] in Er.
    assert (Hr : r ∈ audit_rows (db s)).
    { assert (r ∈ rows) as [? _]%sort_by_elem_of%elem_of_select by (rewrite Er; set_solver). done. }
    assert (Hpos' : 1 <= au_id r).
    { apply number_ids in Hr as (j & _ & ->). apply serial_rises. }
    apply (Hpage (Some (au_id r))).
    + by apply Z.leb_le.
    + apply (sort_by_after (λ r, - au_id r) _ _ _ pre r); [apply audit_ids_unique|exact Er|].
      intros x _ _. cbn. apply eq_true_iff_eq. rewrite !Z.ltb_lt. lia.
    + unfold audit_request. cbn. by rewrite int_of_str_of_int.
Qed.
End pages.

(** an admin who pages through the audit trail sees every matching event of
    the organisation once, newest first, and nothing of another organisation. *)
Theorem audit_pages_complete f user_id page_size user s fuel :
  cu_role user = "admin" →
  match af_user f with
  | None => user_id = None
  | Some t => ∃ u, cast_uuid t = Some u ∧ user_id = Some u
  end →
  query_ok f None page_size = true →
  (length (audit_log (db s)) < fuel)%nat →
  (∃ pages, read_pages (audit_listing f page_size user) fuel None s = (Ok pages, s) ∧
     concat (ar_events <$> pages) = map (event (db s)) (matching_events f user_id user (db s)) ∧
     Forall (λ p, (length (ar_events p) ≤ Z.to_nat page_size)%nat) pages) ∧
  ∀ r, r ∈ matching_events f user_id user (db s) ↔
    r ∈ audit_rows (db s) ∧ audit_matches (cu_org user) f user_id r = true.
Proof.
  intros Ha Hc Hq Hl. split.
  - destruct (read_pages_all (audit_listing f page_size user) (Z.to_nat page_size)
      (map (event (db s)) (matching_events f user_id user (db s))) s) with fuel
      as (pages & Hp & Hrows & Hsize & _); [| | |by exists pages].
    + unfold query_ok in Hq. rewrite !andb_true_iff in Hq. destruct Hq as [[_ Hq%Z.leb_le] _]. lia.
    + by apply audit_lawful.
    + rewrite length_map. unfold matching_events. rewrite sort_by_length.
      eapply Nat.le_lt_trans; [apply List.filter_length_le|]. eapply Nat.le_lt_trans; [|exact Hl].
      unfold audit_rows. generalize 0%nat. induction (audit_log (db s)) as [|x t IH]; cbn; [lia|].
      intros i. specialize (IH ltac:(cbn in Hl; lia) (S i)). lia.
  - intros r. unfold matching_events. by rewrite sort_by_elem_of, elem_of_select.
Qed.
End audit.

(** Three events of an organisation and one of another. *)
Definition sample_audit : App :=
  let log org action := {| a_org := org; a_user := None; a_action := action;
                           a_resource := Some "r"%string; a_metadata := VDict [] |} in
  {| db := set_audit_log (λ _, [log "o1" "project.create"; log "o2" "user.delete";
                                log "o1" "api_key.create"; log "o1" "api_key.revoke"]%string) empty_db;
     apikey_cache := ∅; pricing_cache := ∅; audit_fault := None |}.

Definition any_event : AuditFilters :=
  {| af_action := None; af_user := None; af_from := None; af_to := None |}.

Definition o1_admin : CurrentUser :=
  {| sub := "u1"; cu_org := "o1"; cu_role := "admin"; cu_platform_admin := false |}.

Lemma audit_pages_complete_witness :
  let serial i := Z.of_nat i + 1 in
  ∃ pages, read_pages (audit_listing serial (λ i, Z.of_nat i) (λ _ _, true) Some
      (λ _, SpecFloat.S754_nan) any_event 2 o1_admin) 5 None sample_audit
      = (Ok pages, sample_audit) ∧
    map ev_action (concat (ar_events <$> pages)) =
      ["api_key.revoke"; "api_key.create"; "project.create"]%string.
Proof.
  cbv zeta.
  assert (Hs : ∀ i : nat, 1 <= Z.of_nat i + 1 < Z.of_nat (S i) + 1) by lia.
  destruct (audit_pages_complete (λ i, Z.of_nat i + 1) (λ i, Z.of_nat i) (λ _ _, true) Some
    (λ _, SpecFloat.S754_nan) Hs any_event None 2 o1_admin sample_audit 5)
    as [(pages & Hp & Hc & _) _]; [done|done|done|cbn; lia|].
  exists pages. split; [exact Hp|]. rewrite Hc. by vm_compute.
Defined.
