(* ===== verification/Isolation.v ===== *)
(** * What an operation of one project may touch

    [view q] is the part of the pipeline's state that belongs to project [q]:
    its rows, buckets, idempotency keys, batch statuses and payload objects.
    Requests, tasks and retention turns run for another project leave it as it
    was ([foreign_steps_view]), in every state the program can reach. *)

From S2P Require Import Prelude Text PyVal Decimal Schema App Cost SpanSchema Storage Pipeline Ingest Outbox Buckets Worker Retention Paging.

Import OutboxService.

Local Open Scope Z_scope.

(** ** The part of a project *)

Definition payload_prefix (q : Z) : string := "payloads/" +:+ str_of_uuid q +:+ "/".
Definition batch_prefix (q : Z) : string := "ingest_batch:" +:+ str_of_uuid q +:+ ":".

Definition own_objects (q : Z) (m : gmap string string) : gmap string string :=
  filter (λ kv, startswith (payload_prefix q) kv.1 = true) m.
Definition own_batches (q : Z) (m : gmap string (BatchStatus * timestamp))
    : gmap string (BatchStatus * timestamp) :=
  filter (λ kv, startswith (batch_prefix q) kv.1 = true) m.
Definition own_keys (q : Z) (m : gmap (string * string) IdempotencyRecord)
    : gmap (string * string) IdempotencyRecord :=
  filter (λ kv, kv.1.1 = str_of_uuid q) m.
Definition own_buckets (q : Z) (m : gmap (Z * timestamp) MetricBucket)
    : gmap (Z * timestamp) MetricBucket :=
  filter (λ kv, kv.1.1 = q) m.

Record View : Type := {
  v_spans : list SpanRow; v_traces : list TraceRow; v_events : list OutboxEvent;
  v_buckets : gmap (Z * timestamp) MetricBucket;
  v_idempotency : gmap (string * string) IdempotencyRecord;
  v_batches : gmap string (BatchStatus * timestamp);
  v_objects : gmap string string;
}.

Definition view (q : Z) (w : World) : View :=
  {| v_spans := select (λ r, sp_project r =? q) (w_spans w);
     v_traces := select (λ r, tr_project r =? q) (w_traces w);
     v_events := select (λ e, ob_project e =? q) (w_outbox w);
     v_buckets := own_buckets q (w_buckets w);
     v_idempotency := own_keys q (w_idempotency w);
     v_batches := own_batches q (w_batches w);
     v_objects := own_objects q (w_objects w) |}.

(** ** Keys of different projects *)

Lemma app_inj_heads s1 s2 t1 t2 :
  s1 +:+ t1 = s2 +:+ t2 → String.length s1 = String.length s2 → s1 = s2.
Proof.
  revert s2. induction s1 as [|c s1 IH]; intros [|c' s2] E El; try discriminate El; [done|].
  rewrite !str_app_cons in E. injection E as -> E. injection El as El. by rewrite (IH _ E El).
Qed.

Lemma str_of_uuid_length n : String.length (str_of_uuid n) = 36%nat.
Proof. unfold str_of_uuid. by rewrite !str_app_length, !hex_pad_length. Qed.

Definition valid (q : Z) : Prop := 0 <= q < 2 ^ 128.

Lemma str_of_uuid_inj p q : valid p → valid q → str_of_uuid p = str_of_uuid q → p = q.
Proof.
  intros Hp Hq E%(f_equal uuid_of_str). rewrite !uuid_of_str_of_uuid in E by done. congruence.
Qed.

(** A key that begins with one project's prefix does not begin with another's. *)
Lemma prefix_foreign before after p q rest :
  valid p → valid q → p ≠ q →
  startswith (before +:+ str_of_uuid q +:+ after) (before +:+ str_of_uuid p +:+ rest) = false.
Proof.
  intros Hp Hq Hne. apply not_true_iff_false. intros [t E]%startswith_spec.
  rewrite !str_app_assoc in E. apply str_app_inj_l, app_inj_heads in E;
    [|by rewrite !str_of_uuid_length]. by apply Hne, str_of_uuid_inj.
Qed.

(** ** Accepting a batch

    Outside its queue, the project's batches and the project's idempotency keys,
    the endpoint changes nothing. *)

Definition keys_apart (pid : string)
    (g : gmap (string * string) IdempotencyRecord → gmap (string * string) IdempotencyRecord)
    : Prop :=
  ∀ t k key, k ≠ pid → g t !! (k, key) = t !! (k, key).

Section ingest.
Context {B : Type} (f : World → B) (pid : string).
Hypothesis f_faults : ∀ g w, f (set_w_faults g w) = f w.
Hypothesis f_queue : ∀ g w, f (set_w_queue g w) = f w.
Hypothesis f_batches : ∀ b v w, f (set_w_batches <[batch_key pid b := v]> w) = f w.
Hypothesis f_keys : ∀ g w, keys_apart pid g → f (set_w_idempotency g w) = f w.
Hypothesis f_rollback : ∀ w w', f w' = f w → f (db_rollback w w') = f w.

Lemma within_apart g : keys_within (λ pk, pk.1 = pid) g → keys_apart pid g.
Proof. intros Hg t k key Hk. by apply Hg. Qed.

Lemma ingest_outside sha iso lf fr check payload id :
  preserves f check → preserves f (ingest_spans sha iso lf fr check pid payload id).
Proof.
  intros Hc. apply (ingest_touches f pid (λ pk, pk.1 = pid)); try done.
  intros g w Hg. by apply f_keys, within_apart.
Qed.
End ingest.

(** *** Retention

    It deletes objects under the project's prefix and rows of the project. *)

Section retention.
Context (refused : World → list string → list string) (p : Z) (I : World → Prop).
Hypothesis I_faults : ∀ g w, I w → I (set_w_faults g w).
Hypothesis I_objects : ∀ ks w,
  (∀ k, k ∈ ks → startswith (payload_prefix p) k = true) →
  I w → I (set_w_objects (λ b, foldr delete b ks) w).
Hypothesis I_spans : ∀ gone w, (∀ r, gone r = true → sp_project r = p) →
  I w → I (set_w_spans (delete_where gone) w).
Hypothesis I_traces : ∀ gone w, (∀ r, gone r = true → tr_project r = p) →
  I w → I (set_w_traces (delete_where gone) w).
Hypothesis I_rollback : ∀ w w', I w → I w' → I (db_rollback w w').

Lemma io_keeps : keeps I io.
Proof.
  intros w Hw. unfold io, next_fault, mbind, M_bind.
  destruct (w_faults w) as [|[e|] rest]; cbn; auto.
Qed.

Lemma query_keeps {A} (f : World → A) : keeps I (sql_query f).
Proof. apply keeps_bind; [apply io_keeps|intros _; apply keeps_gets]. Qed.

Lemma get_db_keeps {A} (m : M World A) : keeps I m → keeps I (get_db m).
Proof. intros Hm. by apply keeps_atomic. Qed.

Lemma commit_keeps {A} (a : A) : keeps I (commit;; mret a : M World A).
Proof. apply keeps_bind; [apply io_keeps|intros _; apply keeps_ret]. Qed.

Lemma delete_in_batches_keeps fuel ks deleted :
  (∀ k, k ∈ ks → startswith (payload_prefix p) k = true) →
  keeps I (delete_in_batches refused fuel ks deleted).
Proof.
  revert ks deleted. induction fuel as [|fuel IH]; intros ks deleted Hks; [apply keeps_ret|].
  destruct ks as [|k ks]; [apply keeps_ret|]. intros w Hw. cbn [delete_in_batches].
  assert (Hd : keeps I (delete_objects refused (take S3_DELETE_BATCH_SIZE (k :: ks)))).
  { apply keeps_bind; [apply io_keeps|intros _]. apply keeps_bind; [apply keeps_gets|].
    intros failed. apply keeps_bind; [|intros _; apply keeps_ret]. apply keeps_modify.
    intros w0. apply I_objects. intros x [Hx _]%elem_of_select.
    by apply Hks, (elem_of_take_subset S3_DELETE_BATCH_SIZE). }
  specialize (Hd w Hw). destruct (delete_objects _ _ w) as [[l|e] w']; cbn in *; [|done].
  apply IH; [|done]. intros x Hx. by apply Hks, (subseteq_drop S3_DELETE_BATCH_SIZE).
Qed.

Lemma retention_turn_keeps cutoff : keeps I (retention_turn refused p cutoff).
Proof.
  unfold retention_turn. apply keeps_bind; [apply get_db_keeps, query_keeps|].
  intros [|r batch]; [apply keeps_ret|]. apply keeps_bind; [|intros deleted].
  { apply delete_in_batches_keeps. intros k Hk. by apply elem_of_select in Hk as [_ Hk]. }
  apply keeps_bind; [|intros n; apply keeps_ret]. unfold _delete_span_batch.
  destruct (_ <$> _) as [|k ks]; [apply keeps_ret|]. apply get_db_keeps.
  apply keeps_bind; [apply query_keeps|intros n].
  apply keeps_bind; [apply keeps_modify; intros w|intros _; apply commit_keeps].
  apply I_spans. by intros x [Hx%Z.eqb_eq _]%andb_true_iff.
Qed.

Lemma retention_loop_keeps fuel cutoff n : keeps I (retention_loop refused fuel p cutoff n).
Proof.
  revert n. induction fuel as [|fuel IH]; intros n; cbn [retention_loop]; [apply keeps_ret|].
  apply keeps_bind; [apply retention_turn_keeps|]. intros [d|]; [|apply keeps_ret].
  destruct (d =? 0); [apply keeps_ret|apply IH].
Qed.

Lemma retain_keeps days : keeps I (retain_project refused p days).
Proof.
  unfold retain_project, _delete_stale_traces. apply keeps_bind; [apply keeps_gets|intros t].
  apply keeps_bind; [apply keeps_gets|intros fuel].
  apply keeps_bind; [apply retention_loop_keeps|intros n].
  apply keeps_bind; [|intros m; apply keeps_ret].
  apply get_db_keeps, keeps_bind; [apply query_keeps|intros m].
  apply keeps_bind; [apply keeps_modify; intros w|intros _; apply commit_keeps].
  apply I_traces. by intros x [[Hx%Z.eqb_eq _]%andb_true_iff _]%andb_true_iff.
Qed.
End retention.

(** ** What an operation may touch *)

Section confined.
Context (p q : Z).
Hypothesis Hp : valid p.
Hypothesis Hq : valid q.
Hypothesis Hne : p ≠ q.

Abbreviation pid := (str_of_uuid p).

Lemma pid_uuid : uuid_of_str pid = Some p.
Proof. by apply uuid_of_str_of_uuid. Qed.

Lemma pid_parses : parse_uuid pid = Ok p.
Proof. unfold parse_uuid. by rewrite pid_uuid. Qed.

Lemma pid_not_qid : pid ≠ str_of_uuid q.
Proof. intros E. by apply Hne, str_of_uuid_inj. Qed.

Lemma view_objects k v w :
  view q (set_w_objects <[payload_key pid k := v]> w) = view q w.
Proof.
  unfold view. f_equal. apply map_filter_insert_not. cbn. intros _.
  unfold payload_key, payload_prefix. rewrite prefix_foreign by done. done.
Qed.

Lemma view_batches b v w :
  view q (set_w_batches <[batch_key pid b := v]> w) = view q w.
Proof.
  unfold view. f_equal. apply map_filter_insert_not. cbn. intros _.
  unfold batch_key, batch_prefix. rewrite prefix_foreign by done. done.
Qed.

Lemma view_idempotency f w :
  keys_apart pid f → view q (set_w_idempotency f w) = view q w.
Proof.
  intros Hf. unfold view. f_equal. apply map_eq. intros [k key]. cbn.
  unfold own_keys. rewrite !map_lookup_filter. cbn. destruct (decide (k = pid)) as [-> |Hk].
  - apply option_eq. intros x. rewrite !bind_Some. split; intros (y & _ & Hy);
      apply bind_Some in Hy as (Hd & _ & _); by destruct (pid_not_qid Hd).
  - by rewrite Hf by done.
Qed.

(** A session that changes no view leaves none changed when it rolls back. *)
Lemma view_rollback w w' : view q w' = view q w → view q (db_rollback w w') = view q w.
Proof. unfold view. intros [= E1 E2 E3 E4 E5 E6 E7]. cbn. by f_equal. Qed.

Lemma view_get_db {A} (m : M World A) : preserves (view q) m → preserves (view q) (get_db m).
Proof. intros Hm. apply get_db_preserves; [done|]. apply view_rollback. Qed.

Lemma view_io : preserves (view q) io.
Proof. by apply io_preserves. Qed.

Lemma view_query {A} (f : World → A) : preserves (view q) (sql_query f).
Proof. apply preserves_bind; [apply view_io|preserve]. Qed.

Lemma view_exec f : (∀ w, view q (f w) = view q w) → preserves (view q) (sql_exec f).
Proof. intros Hf. apply preserves_bind; [apply view_io|]. intros _. by apply preserves_modify. Qed.

Lemma view_kiq t : preserves (view q) (kiq t).
Proof. by apply view_exec. Qed.

#[local] Hint Resolve view_io view_query view_kiq view_get_db : preserves.

(** A bind whose second half may rely on the first having returned. *)
Lemma preserves_bind_ok {A B C} (f : World → C) (m : M World A) (k : A → M World B) :
  preserves f m → (∀ s a s', m s = (Ok a, s') → f (k a s').2 = f s') →
  preserves f (m ≫= k).
Proof.
  intros Hm Hk s. unfold mbind, M_bind. specialize (Hm s).
  destruct (m s) as [[a|e] s'] eqn:E; cbn in *; [by rewrite (Hk s a s' E)|done].
Qed.

Lemma ingest_confined sha iso lf fr check payload id :
  preserves (view q) check →
  preserves (view q) (ingest_spans sha iso lf fr check pid payload id).
Proof.
  intros Hc. apply ingest_outside; try done.
  - apply view_batches.
  - apply view_idempotency.
  - apply view_rollback.
Qed.

(** *** Processing a batch *)

Lemma select_app {A} (f : A → bool) l1 l2 : select f (l1 ++ l2) = select f l1 ++ select f l2.
Proof. apply List.filter_app. Qed.

Lemma view_spans g w :
  select (λ r, sp_project r =? q) (g (w_spans w)) = select (λ r, sp_project r =? q) (w_spans w) →
  view q (set_w_spans g w) = view q w.
Proof. intros Hg. unfold view. by f_equal. Qed.

(** Rows of the project, appended. *)
Lemma select_foreign rows t :
  (∀ r, r ∈ rows → sp_project r = p) →
  select (λ r, sp_project r =? q) (t ++ rows) = select (λ r, sp_project r =? q) t.
Proof.
  intros Hr. rewrite select_app, (select_none _ rows), app_nil_r; [done|].
  intros r Hi. rewrite (Hr r Hi). by apply Z.eqb_neq.
Qed.

Lemma select_update_foreign {A} (own hit : A → bool) f (t : list A) :
  (∀ r, r ∈ t → hit r = true → own r = false ∧ own (f r) = false) →
  select own (update_where hit f t) = select own t.
Proof.
  unfold select, update_where. induction t as [|r t IH]; intros H; [done|]. cbn.
  rewrite IH by (intros x Hx; apply H; by right).
  destruct (hit r) eqn:Eh; [|done]. destruct (H r ltac:(by left) Eh) as [-> ->]. done.
Qed.

Lemma select_delete_where {A} (own gone : A → bool) (t : list A) :
  (∀ r, r ∈ t → gone r = true → own r = false) →
  select own (delete_where gone t) = select own t.
Proof.
  unfold select, delete_where. induction t as [|r t IH]; intros H; [done|]. cbn.
  destruct (gone r) eqn:Eg; cbn; rewrite IH by (intros x Hx; apply H; by right); [|done].
  by rewrite (H r ltac:(by left) Eg).
Qed.

Lemma view_traces f w :
  (∀ t, select (λ r, tr_project r =? q) (f t) = select (λ r, tr_project r =? q) t) →
  view q (set_w_traces f w) = view q w.
Proof. intros Hf. unfold view. f_equal. apply Hf. Qed.

Lemma is_trace_foreign tid r : is_trace p tid r = true → (tr_project r =? q) = false.
Proof. intros [H%Z.eqb_eq _]%andb_true_iff. rewrite H. by apply Z.eqb_neq. Qed.

Lemma ensure_trace_confined tid t st : preserves (view q) (ensure_trace_row p tid t st).
Proof.
  unfold ensure_trace_row. apply preserves_bind; [preserve|]. intros [r|].
  - destruct (_ <=? _); [preserve|]. apply preserves_bind; [preserve|intros _].
    apply preserves_bind; [preserve|intros c]. apply preserves_bind; [preserve|intros _].
    apply preserves_bind; [|preserve]. apply preserves_modify. intros w. apply view_traces.
    intros l. apply select_update_foreign. intros x _ [Hx _]%andb_true_iff.
    pose proof (is_trace_foreign _ _ Hx). done.
  - apply preserves_bind; [|preserve]. apply view_exec. intros w. apply view_traces.
    intros l. unfold insert_trace. destruct (existsb _ l); [done|].
    rewrite select_app. unfold select at 2. cbn.
    assert ((p =? q) = false) as -> by by apply Z.eqb_neq. apply app_nil_r.
Qed.

Lemma ensure_traces_confined m : preserves (view q) (ensure_traces p m).
Proof.
  induction m as [|[tid s] m IH]; cbn; [preserve|].
  apply preserves_bind; [apply ensure_trace_confined|intros t].
  apply preserves_bind; [done|preserve].
Qed.

Lemma enqueue_confined ty k pl : preserves (view q) (enqueue_outbox_event p ty k pl).
Proof.
  unfold enqueue_outbox_event. apply preserves_bind; [preserve|intros t]. apply view_exec.
  intros w. unfold view. f_equal. cbn. unfold insert_event. destruct (existsb _ _); [done|].
  rewrite select_app. unfold select at 2. cbn.
  assert ((p =? q) = false) as -> by by apply Z.eqb_neq. apply app_nil_r.
Qed.

Lemma upserts_foreign rows m : own_buckets q (foldl (upsert p) m rows) = own_buckets q m.
Proof.
  revert m. induction rows as [|row rows IH]; intros m; [done|]. cbn. rewrite IH.
  unfold upsert, own_buckets. apply map_filter_insert_not. cbn. intros _ E. by apply Hne.
Qed.

Lemma buckets_confined spans : preserves (view q) (update_span_metric_buckets p spans).
Proof.
  unfold update_span_metric_buckets. destruct spans; [preserve|]. apply view_exec.
  intros w. unfold view. f_equal. apply upserts_foreign.
Qed.

Section worker.
Context (parse_dt : string → result pydatetime) (driver_utc : Z → timestamp)
        (gzip_compress : string → string)
        (latency_float : decimal → pyfloat) (float_repr : pyfloat → string)
        (latency_interval : decimal → Z).

Lemma bulk_insert_confined ps :
  (∀ s, s ∈ ps → ps_project s = p) → preserves (view q) (bulk_insert_spans driver_utc ps).
Proof.
  intros Hs. unfold bulk_insert_spans. destruct ps as [|s0 ps]; [preserve|].
  apply preserves_bind; [preserve|intros _]. apply preserves_bind; [preserve|intros _].
  apply preserves_bind; [preserve|intros ids]. apply preserves_bind; [|preserve].
  apply preserves_modify. intros w. apply view_spans. rewrite insert_spans_spec.
  apply select_foreign. intros r Hr%new_rows_sub.
  apply list_elem_of_fmap in Hr as (s & -> & Hin). by apply Hs.
Qed.

Lemma preserves_bind_lift {A B C} (f : World → C) (a : A) (k : A → M World B) :
  preserves f (k a) → preserves f (lift (Ok a) ≫= k).
Proof. done. Qed.

Lemma store_prepared_confined ps n :
  (∀ s, s ∈ ps → ps_project s = p) →
  preserves (view q) (store_prepared driver_utc latency_float float_repr pid ps n).
Proof.
  intros Hs. unfold store_prepared. rewrite pid_parses.
  pose proof ensure_traces_confined. pose proof buckets_confined.
  apply preserves_bind; [by apply bulk_insert_confined|intros ids].
  apply preserves_bind; [|intros starts].
  { destruct (trace_map _); [preserve|]. by apply preserves_bind_lift. }
  apply preserves_bind; [|intros _; apply preserves_bind; [apply view_io|done]].
  destruct (select_inserted_spans ps ids); [preserve|]. apply preserves_bind_lift.
  apply preserves_bind; [|done]. apply preserves_for_each. intros s. apply enqueue_confined.
Qed.

Lemma prepares_outside : outside_prepare pid (view q).
Proof. split_and!; try done. intros. apply view_objects. Qed.

Lemma store_batch_confined sds :
  preserves (view q)
    (store_batch parse_dt driver_utc gzip_compress latency_float float_repr pid sds).
Proof.
  unfold store_batch. apply view_get_db.
  apply preserves_bind; [apply preserves_bind; [apply view_query|preserve]|intros st].
  apply preserves_bind; [preserve|intros _].
  apply preserves_bind_ok; [apply prepare_all_preserves, prepares_outside|].
  intros w [ps n] w' H. apply prepare_all_ok in H as (_ & _ & H & _).
  apply store_prepared_confined. intros s Hs. destruct (H s Hs) as (sd & _ & Hsd).
  apply pf_project in Hsd. rewrite pid_parses in Hsd. by injection Hsd.
Qed.

Lemma merge_confined b u : preserves (view q) (_merge pid b u).
Proof. apply merge_preserves; [done|]. intros. apply view_batches. Qed.

Lemma process_confined b sds :
  preserves (view q)
    (process_span_batch parse_dt driver_utc gzip_compress latency_float float_repr b pid sds).
Proof.
  unfold process_span_batch. apply preserves_bind; [apply preserves_bind; preserve|intros _].
  apply preserves_bind; [apply merge_confined|intros _].
  apply preserves_try; [|intros e; apply preserves_bind; [apply merge_confined|done]].
  apply preserves_bind; [apply store_batch_confined|intros r].
  apply after_commit_preserves. split_and!; try done. intros. apply view_batches.
Qed.

Lemma aggregates_confined tid t :
  preserves (view q) (update_trace_aggregates latency_interval pid tid t).
Proof.
  unfold update_trace_aggregates. rewrite pid_parses. apply preserves_bind_lift, view_get_db.
  apply preserves_bind; [preserve|intros _]. apply preserves_bind; [preserve|intros rows].
  apply preserves_bind; [preserve|intros _]. apply preserves_bind; [|intros _; apply view_io].
  apply preserves_modify. intros w. apply view_traces. intros l. apply select_update_foreign.
  intros x _ [Hx _]%andb_true_iff. pose proof (is_trace_foreign _ _ Hx). done.
Qed.
End worker.

(** *** Retention *)

Lemma own_objects_delete (ks : list string) m :
  (∀ k, k ∈ ks → startswith (payload_prefix p) k = true) →
  own_objects q (foldr delete m ks) = own_objects q m.
Proof.
  induction ks as [|k ks IH]; intros Hks; [done|]. cbn.
  rewrite <- IH by (intros x Hx; apply Hks; by right). unfold own_objects.
  apply map_filter_delete_not. intros v _. cbn.
  assert (Hk := Hks k ltac:(by left)). apply startswith_spec in Hk as [rest ->].
  unfold payload_prefix. rewrite !str_app_assoc, prefix_foreign by done. done.
Qed.

Lemma retain_confined refused days : preserves (view q) (retain_project refused p days).
Proof.
  apply preserves_keeps. intros v. apply retain_keeps; [done| | | |].
  - intros ks w Hks <-. unfold view. f_equal. by apply own_objects_delete.
  - intros gone w Hgone <-. apply view_spans, select_delete_where. intros r _ Hr.
    rewrite (Hgone r Hr). by apply Z.eqb_neq.
  - intros gone w Hgone <-. apply view_traces. intros l. apply select_delete_where.
    intros r _ Hr. rewrite (Hgone r Hr). by apply Z.eqb_neq.
  - intros w w' E1 E2. rewrite view_rollback; congruence.
Qed.

(** *** Delivery

    An update by id reaches the project's events alone, as ids are unique. *)

Definition event_ids (w : World) : list Z := ob_id <$> w_outbox w.

Definition view_and_contents (w : World)
    : View * list (Z * Z * string * string * string) := (view q w, contents w).

(** The ids are those of events of the project. *)
Definition ids_of_p (ids : list Z) (w : World) : Prop :=
  ∀ r, r ∈ w_outbox w → has_id ids r = true → ob_project r = p.

Lemma update_events_confined ids g w :
  ids_of_p ids w → (∀ e, content (g e) = content e) →
  view_and_contents (set_w_outbox (update_where (has_id ids) g) w) = view_and_contents w.
Proof.
  intros Hids Hg. unfold view_and_contents, contents. f_equal.
  - unfold view. f_equal. cbn. apply select_update_foreign. intros r Hr Hi.
    assert (ob_project (g r) = ob_project r) as ->.
    { specialize (Hg r). unfold content in Hg. congruence. }
    rewrite (Hids r Hr Hi). split; by apply Z.eqb_neq.
  - cbn. by apply update_where_content.
Qed.

Lemma ids_of_p_contents ids w w' : contents w' = contents w → ids_of_p ids w → ids_of_p ids w'.
Proof.
  intros E H r Hr Hi. assert (Hc : content r ∈ contents w).
  { rewrite <- E. by apply list_elem_of_fmap_2. }
  apply list_elem_of_fmap in Hc as (r' & Er & Hr'). unfold content in Er.
  assert (ob_project r = ob_project r') as -> by congruence. apply H; [done|].
  unfold has_id in *. by replace (ob_id r') with (ob_id r) by congruence.
Qed.

Lemma rollback_confined w w' :
  view_and_contents w' = view_and_contents w →
  view_and_contents (db_rollback w w') = view_and_contents w.
Proof.
  unfold view_and_contents, view. intros [= E1 E2 E3 E4 E5 E6 E7 E8]. unfold contents. cbn.
  by rewrite E6, E7.
Qed.

Lemma get_db_run {A B} (f : World → B) (m : M World A) w :
  f (m w).2 = f w → (∀ w', f w' = f w → f (db_rollback w w') = f w) →
  f (get_db m w).2 = f w.
Proof. unfold get_db, atomic. destruct (m w) as [[a|e] w']; cbn; auto. Qed.

Lemma events_io : preserves view_and_contents io.
Proof. by apply io_preserves. Qed.

Lemma exec_events_confined ids g w :
  ids_of_p ids w → (∀ e, content (g e) = content e) →
  view_and_contents (get_db (sql_exec (set_w_outbox (update_where (has_id ids) g));; commit) w).2
  = view_and_contents w.
Proof.
  intros Hids Hg. apply get_db_run; [|intros w'; apply rollback_confined].
  unfold sql_exec, commit. rewrite bind_assoc_run. unfold mbind at 1, M_bind at 1.
  pose proof (events_io w) as E. destruct (io w) as [[u|e] w1]; cbn in *; [|done].
  change (view_and_contents (io (set_w_outbox (update_where (has_id ids) g) w1)).2
          = view_and_contents w).
  rewrite events_io, <- E. apply update_events_confined; [|done]. eapply ids_of_p_contents; [|exact Hids].
  exact (f_equal snd E).
Qed.

(** An event in the project's hands. *)
Definition of_p (w : World) (e : OutboxEvent) : Prop :=
  content e ∈ contents w ∧ ob_project e = p.

Lemma of_p_ids w e : NoDup (event_ids w) → of_p w e → ids_of_p [ob_id e] w.
Proof.
  intros Hn [He Hpe] r Hr Hid%has_id_one.
  pose proof (same_content w e r Hn He Hr Hid) as E. unfold content in E. congruence.
Qed.

Lemma deliver_event_confined e w :
  NoDup (event_ids w) → of_p w e →
  view_and_contents (deliver_event e w).2 = view_and_contents w.
Proof.
  intros Hn He. assert (Hpub : preserves view_and_contents (publish (message e))).
  { apply preserves_bind; [apply events_io|preserve]. }
  assert (Hmark : ∀ g w', (∀ x, content (g x) = content x) →
    view_and_contents w' = view_and_contents w → view_and_contents
      (get_db (sql_exec (set_w_outbox (update_where (has_id [ob_id e]) g));; commit) w').2
    = view_and_contents w).
  { intros g w' Hg E. rewrite exec_events_confined; [done| |done].
    eapply ids_of_p_contents; [exact (f_equal snd E)|by apply of_p_ids]. }
  unfold deliver_event, try_except, mbind, M_bind. specialize (Hpub w).
  destruct (publish (message e) w) as [[u|x] w1]; cbn in *.
  - by apply Hmark.
  - specialize (Hmark (failed (w_now w1) (exn_str x)) w1 ltac:(done) Hpub).
    unfold OutboxService.mark_failed, now, gets, mbind, M_bind.
    destruct (get_db _ w1) as [[u|y] w2]; cbn in *; exact Hmark.
Qed.

Lemma deliver_all_confined events w :
  NoDup (event_ids w) → (∀ e, e ∈ events → of_p w e) →
  view_and_contents (for_each events deliver_event w).2 = view_and_contents w.
Proof.
  revert w. induction events as [|e l IH]; intros w Hn He; [done|]. cbn.
  unfold mbind, M_bind. pose proof (deliver_event_confined e w Hn (He e ltac:(by left))) as E.
  destruct (deliver_event e w) as [[u|x] w1]; cbn in *; [|done].
  pose proof (f_equal snd E) as Ec. cbn in Ec. rewrite IH; [by apply E| |].
  - unfold event_ids. rewrite ids_of_contents, Ec, <- ids_of_contents. exact Hn.
  - intros x Hx. destruct (He x ltac:(by right)) as [Hx1 Hx2]. split; [by rewrite Ec|done].
Qed.

Lemma claim_confined ty limit w :
  NoDup (event_ids w) →
  view_and_contents (claim_pending ty (Some p) limit w).2 = view_and_contents w.
Proof.
  intros Hn. unfold claim_pending. rewrite (bind_run now _ w (w_now w) w eq_refl).
  apply get_db_run; [|intros w'; apply rollback_confined].
  unfold sql_query, commit. rewrite bind_assoc_run. unfold mbind at 1, M_bind at 1.
  pose proof (io_ok_inv w) as Hio. pose proof (events_io w) as E.
  destruct (io w) as [[u|e] w1]; cbn in *; [|done].
  destruct (Hio u w1 eq_refl) as [fs ->]. clear Hio.
  set (ids := next_events ty (Some p) limit (w_now w) (w_outbox w)).
  assert (Hids : ids_of_p ids w).
  { intros r Hr Hi. apply next_events_claimable in Hi; [|done|done].
    unfold claimable in Hi. apply andb_true_iff in Hi as [_ Hi]. by apply Z.eqb_eq. }
  set (w2 := set_w_outbox (update_where (has_id ids) (processing (w_now w)))
    (set_w_faults (λ _, fs) w)).
  change (view_and_contents ((io ≫= λ _, mret (select (has_id ids) (w_outbox w2))) w2).2
          = view_and_contents w).
  rewrite (preserves_bind _ io); [|apply events_io|done]. rewrite <- E.
  by apply update_events_confined.
Qed.

Lemma deliver_confined limit w :
  NoDup (event_ids w) →
  view_and_contents (deliver_span_outbox_events (Some p) limit w).2 = view_and_contents w.
Proof.
  intros Hn. unfold deliver_span_outbox_events, mbind, M_bind.
  pose proof (claim_confined OUTBOX_SPAN_INSERTED limit w Hn) as E.
  destruct (claim_pending _ _ _ w) as [[rows|e] w1] eqn:Ec; cbn in *; [|done].
  pose proof (f_equal snd E) as Econt. cbn in Econt.
  rewrite deliver_all_confined; [done| |].
  { unfold event_ids. rewrite ids_of_contents, Econt, <- ids_of_contents. exact Hn. }
  intros r Hr. apply claim_pending_run in Ec as (_ & _ & [[_ [x [=]]]|[Ho [= ->]]]).
  apply elem_of_select in Hr as [Hr Hi].
  assert (Hc : content r ∈ contents w1) by by apply list_elem_of_fmap_2.
  split; [done|]. rewrite Econt in Hc. apply list_elem_of_fmap in Hc as (r' & Er & Hr').
  unfold content in Er. assert (ob_project r = ob_project r') as -> by congruence.
  unfold has_id in Hi. assert (ob_id r = ob_id r') as Eid by congruence. rewrite Eid in Hi.
  apply next_events_claimable in Hi; [|done|done].
  unfold claimable in Hi. apply andb_true_iff in Hi as [_ Hi]. by apply Z.eqb_eq.
Qed.
End confined.

(** ** Ids of events stay unique *)

Section ids.
Context (parse_dt : string → result pydatetime) (driver_utc : Z → timestamp)
        (gzip_compress : string → string)
        (latency_float : decimal → pyfloat) (float_repr : pyfloat → string)
        (latency_interval : decimal → Z)
        (refused : World → list string → list string).

Lemma with_events_ids project t spans l :
  NoDup (ob_id <$> l) →
  NoDup (ob_id <$> with_events latency_float float_repr project t spans l).
Proof.
  unfold with_events. revert l. induction spans as [|s spans IH]; intros l Hl; [done|].
  cbn. by apply IH, insert_event_ids.
Qed.

Lemma process_ids p b sds w :
  valid p → NoDup (event_ids w) →
  NoDup (event_ids (process_span_batch parse_dt driver_utc gzip_compress latency_float
                      float_repr b (str_of_uuid p) sds w).2).
Proof.
  intros Hp Hn. destruct (process_span_batch _ _ _ _ _ _ _ _ w) as [res w'] eqn:E. cbn.
  apply process_tables in E as [E|(st & rk & ps & n & wa & wb & r & wc & _ & Eb & Es & E)].
  - unfold event_ids. unfold tables in E. by replace (w_outbox w') with (w_outbox w) by congruence.
  - apply (store_prepared_ok _ _ _ _ p) in Es as (_ & _ & _ & Eo & _); [|intros; by apply pid_parses].
    unfold event_ids. unfold tables in E, Eb.
    replace (w_outbox w') with (w_outbox wc) by congruence. rewrite Eo.
    apply with_events_ids. by replace (w_outbox wb) with (w_outbox w) by congruence.
Qed.

Lemma deliver_contents p limit : preserves contents (deliver_span_outbox_events p limit).
Proof.
  unfold deliver_span_outbox_events. apply preserves_bind; [apply claim_pending_contents|].
  intros events. apply preserves_for_each, deliver_event_contents.
Qed.

Lemma retain_outbox p days : preserves w_outbox (retain_project refused p days).
Proof.
  apply preserves_keeps. intros l. apply retain_keeps; try done.
Qed.

Lemma aggregates_outbox p tid t :
  preserves w_outbox (update_trace_aggregates latency_interval p tid t).
Proof.
  unfold update_trace_aggregates. apply preserves_bind; [preserve|intros z].
  apply get_db_preserves; [|done]. unfold commit. preserve.
Qed.
End ids.

(** ** The operations of a project *)

Section tenants.
Context (parse_dt : string → result pydatetime) (driver_utc : Z → timestamp)
        (gzip_compress : string → string) (latency_float : decimal → pyfloat)
        (float_repr : pyfloat → string) (latency_interval : decimal → Z)
        (sha256 : string → string) (iso : pydatetime → string)
        (refused : World → list string → list string).

(** A request, a task or a turn of retention for the project, whatever fails;
    time passes; the control plane changes its own tables.  The limiter keeps to
    its own keys. *)
Inductive step_of (p : Z) : World → World → Prop :=
| step_time t fs w :
    step_of p w (set_w_faults (λ _, fs) (set_w_now (λ _, t) w))
| step_control g w : step_of p w (set_w_app g w)
| step_ingest check payload id w :
    preserves clear check →
    step_of p w (ingest_spans sha256 iso latency_float float_repr check
                   (str_of_uuid p) payload id w).2
| step_process batch_id spans w :
    step_of p w (process_span_batch parse_dt driver_utc gzip_compress latency_float
                   float_repr batch_id (str_of_uuid p) spans w).2
| step_aggregates tid t w :
    step_of p w (update_trace_aggregates latency_interval (str_of_uuid p) tid t w).2
| step_deliver limit w :
    step_of p w (deliver_span_outbox_events (Some p) limit w).2
| step_retain days w :
    step_of p w (retain_project refused p days w).2.

Definition any_step (w w' : World) : Prop := ∃ p, valid p ∧ step_of p w w'.

(** A step of a project that is not [q]. *)
Definition foreign_step (q : Z) (w w' : World) : Prop := ∃ p, valid p ∧ p ≠ q ∧ step_of p w w'.

(** *** The idempotency table *)

Lemma process_idempotency b pid sds : preserves w_idempotency
  (process_span_batch parse_dt driver_utc gzip_compress latency_float float_repr b pid sds).
Proof.
  assert (Hm : ∀ u, preserves w_idempotency (_merge pid b u)) by (intros; by apply merge_preserves).
  unfold process_span_batch. apply preserves_bind; [apply preserves_bind; preserve|intros _].
  apply preserves_bind; [apply Hm|intros _].
  apply preserves_try; [|intros e; apply preserves_bind; [apply Hm|done]].
  apply preserves_bind; [|intros r; by apply after_commit_preserves].
  unfold store_batch, store_prepared, load_payload_privacy_settings, bulk_insert_spans,
    update_span_metric_buckets, commit, sql_query.
  apply get_db_preserves; [|done]. apply preserves_bind; [preserve|intros st].
  apply preserves_bind; [preserve|intros _].
  apply preserves_bind; [by apply prepare_all_preserves|intros [l n]].
  apply preserves_bind; [destruct l; preserve|intros ids].
  apply preserves_bind; [|intros ts].
  { destruct (trace_map _); [preserve|].
    apply preserves_bind; [preserve|intros q]. by apply ensure_traces_preserves. }
  apply preserves_bind; [|preserve]. destruct (select_inserted_spans _ _); [preserve|].
  apply preserves_bind; [preserve|intros q]. apply preserves_bind; [|intros _; preserve].
  apply preserves_for_each. intros s. preserve.
Qed.

Lemma deliver_idempotency p limit :
  preserves w_idempotency (deliver_span_outbox_events p limit).
Proof.
  unfold deliver_span_outbox_events, claim_pending, sql_query, commit, now.
  apply preserves_bind.
  { apply preserves_bind; [preserve|intros t]. apply get_db_preserves; [preserve|done]. }
  intros es. apply preserves_for_each. intros e.
  unfold deliver_event, publish, OutboxService.mark_failed, mark_delivered, sql_exec, commit, now.
  assert (Hm : ∀ A (m : M World A), preserves w_idempotency m → preserves w_idempotency (get_db m)).
  { intros A m Hm. by apply get_db_preserves. }
  apply preserves_bind; [apply preserves_try; [preserve|intros x]|intros _];
    repeat (apply preserves_bind; [|preserve]); preserve.
Qed.

(** A step of a project is one of those [Ingest.meanwhile] allows between two
    requests with a key. *)
Lemma step_meanwhile p w w' :
  step_of p w w' → meanwhile sha256 iso latency_float float_repr w w'.
Proof.
  destruct 1 as [| |check payload id w Hc|b sds w|tid t w|limit w|days w];
    [by apply meanwhile_other..| | | | |]; [|apply meanwhile_other..].
  - apply meanwhile_ingest. split; intros w0; specialize (Hc w0);
      [by apply (f_equal w_idempotency) in Hc|by apply (f_equal w_queue) in Hc].
  - apply process_idempotency.
  - revert w. change (preserves w_idempotency
      (update_trace_aggregates latency_interval (str_of_uuid p) tid t)).
    unfold update_trace_aggregates. apply preserves_bind; [preserve|intros z].
    apply get_db_preserves; [|done]. unfold commit. preserve.
  - apply deliver_idempotency.
  - revert w. change (preserves w_idempotency (retain_project refused p days)).
    apply preserves_keeps. intros l. by apply retain_keeps.
Qed.

(** The state of a deployment that began without spans and events. *)
Definition reachable (w : World) : Prop :=
  ∃ w0, w_spans w0 = [] ∧ w_outbox w0 = [] ∧ rtc any_step w0 w.

(** *** What holds of every state *)

Lemma deliver_spans p limit : preserves w_spans (deliver_span_outbox_events p limit).
Proof.
  assert (Hm : ∀ A (m : M World A), preserves w_spans m → preserves w_spans (get_db m)).
  { intros A m Hm. by apply get_db_preserves. }
  unfold deliver_span_outbox_events, claim_pending, sql_query, commit, now.
  apply preserves_bind.
  { apply preserves_bind; [preserve|intros t]. apply Hm. preserve. }
  intros es. apply preserves_for_each. intros e.
  unfold deliver_event, publish, OutboxService.mark_failed, mark_delivered, sql_exec, commit, now.
  apply preserves_bind; [apply preserves_try; [preserve|intros x]|intros _];
    repeat (apply preserves_bind; [|preserve]); preserve.
Qed.

Record shared_inv (w : World) : Prop := {
  si_ids : NoDup (event_ids w);
  si_placed : ∀ r k, r ∈ w_spans w → sp_payload_key r = Some k →
    startswith (payload_prefix (sp_project r)) k = true;
}.

Lemma shared_inv_same w w' :
  w_spans w' = w_spans w → event_ids w' = event_ids w → shared_inv w → shared_inv w'.
Proof. intros E1 E2 [H1 H2]. split; [by rewrite E2|]. by rewrite E1. Qed.

(** Everything an operation preserves, the parts of the invariant included. *)
Lemma shared_inv_preserves {A} (m : M World A) w :
  preserves (λ w, (w_spans w, event_ids w)) m → shared_inv w → shared_inv (m w).2.
Proof. intros Hm. specialize (Hm w). injection Hm as E1 E2. by apply shared_inv_same. Qed.

Lemma process_inv p b sds w :
  valid p → shared_inv w →
  shared_inv (process_span_batch parse_dt driver_utc gzip_compress latency_float
                float_repr b (str_of_uuid p) sds w).2.
Proof.
  intros Hp [Hn Hpl]. split; [by apply process_ids|].
  destruct (process_span_batch _ _ _ _ _ _ _ _ w) as [res w'] eqn:E. cbn.
  intros r k. apply process_tables in E as [E|(st & rk & ps & n & wa & wb & x & wc & Eps & Eb & Es & E)].
  { unfold tables in E. replace (w_spans w') with (w_spans w) by congruence. apply Hpl. }
  apply (store_prepared_ok _ _ _ _ p) in Es as (_ & _ & Esp & _); [|intros; by apply pid_parses].
  unfold tables in E, Eb. replace (w_spans w') with (w_spans wc) by congruence.
  rewrite Esp. replace (w_spans wb) with (w_spans w) by congruence.
  intros [Hr|Hr%new_rows_sub]%elem_of_app; [by apply Hpl|]. intros Hk.
  apply list_elem_of_fmap in Hr as (s & -> & Hs).
  apply prepare_all_ok in Eps as (_ & _ & Eps & _). destruct (Eps s Hs) as (sd & _ & Hsd).
  apply (pf_key _ _ _ _ Hsd) in Hk as [id ->]. apply pf_project in Hsd.
  rewrite (pid_parses p Hp) in Hsd. injection Hsd as Hsd.
  change (sp_project (span_row driver_utc s)) with (ps_project s). rewrite <- Hsd.
  apply startswith_spec. unfold payload_prefix, payload_key. eexists. by rewrite !str_app_assoc.
Qed.

Lemma any_step_inv w w' : any_step w w' → shared_inv w → shared_inv w'.
Proof.
  intros (p & Hp & Hs) Hw. destruct Hs as [t fs w|g w|check payload id w Hc|b sds w|tid t w|limit w
    |days w].
  - by revert Hw; apply shared_inv_same.
  - by revert Hw; apply shared_inv_same.
  - apply shared_inv_preserves, Hw. apply ingest_outside; try done.
    + intros w1. specialize (Hc w1). by apply (f_equal (λ w, (w_spans w, event_ids w))) in Hc.
  - by apply process_inv.
  - apply shared_inv_preserves, Hw. unfold update_trace_aggregates.
    apply preserves_bind; [preserve|intros z]. apply get_db_preserves; [|by intros ?? [= ??]].
    unfold commit. preserve.
  - destruct Hw as [Hn Hpl]. split.
    + unfold event_ids. by rewrite ids_of_contents, deliver_contents, <- ids_of_contents.
    + by rewrite deliver_spans.
  - revert w Hw. apply retain_keeps.
    + by intros g w [].
    + by intros ks w _ [].
    + intros gone w _ [H1 H2]. split; [done|]. cbn. intros r k [Hr _]%elem_of_delete_where.
      by apply H2.
    + by intros gone w _ [].
    + by intros w w' [H1 H2] _.
Qed.

Lemma reachable_shared_inv w : reachable w → shared_inv w.
Proof.
  intros (w0 & Es & Eo & Hr). assert (H0 : shared_inv w0).
  { split; [unfold event_ids; rewrite Eo; constructor|]. rewrite Es. set_solver. }
  revert H0. clear Es Eo. induction Hr as [w|w1 w2 w3 H1 _ IH]; [done|].
  intros H0. by eapply IH, any_step_inv.
Qed.

(** *** What a foreign step leaves alone *)

Lemma foreign_step_view q w w' :
  valid q → foreign_step q w w' → shared_inv w → view q w' = view q w.
Proof.
  intros Hq (p & Hp & Hne & Hs) Hw. destruct Hs as [t fs w|g w|check payload id w Hc|b sds w
    |tid t w|limit w|days w]; [done|done|..].
  - apply ingest_confined; [done..|]. intros w1. by apply (f_equal (view q) (Hc w1)).
  - by apply process_confined.
  - by apply aggregates_confined.
  - by pose proof (f_equal fst (deliver_confined p q Hne limit w (si_ids w Hw))).
  - by apply retain_confined.
Qed.

Lemma foreign_steps_view q w w' :
  valid q → rtc (foreign_step q) w w' → shared_inv w → view q w' = view q w.
Proof.
  intros Hq. induction 1 as [w|w1 w2 w3 H1 _ IH]; intros Hw; [done|].
  rewrite IH; [by apply foreign_step_view|].
  destruct H1 as (p & Hp & _ & Hs). eapply any_step_inv; [by exists p|done].
Qed.
End tenants.

