(* ===== verification/Tenants.v ===== *)
(** * Isolation of tenants

    What a project is told depends on its own part of the state only: the
    endpoints agree on worlds with the same [view].  With [Isolation], a project
    cannot tell whether the others were there. *)

From S2P Require Import Prelude Text PyVal Json Decimal Schema App Cost SpanSchema Storage Pipeline Ingest Outbox Buckets Worker Retention Auth FailedTasks Otlp Paging Traces Metrics Isolation.

Import OutboxService.

Local Open Scope Z_scope.

(** ** What a project's requests depend on

    Worlds with the same view, at the same time and under the same faults. *)

Record same_for (q : Z) (w1 w2 : World) : Prop := {
  same_view : view q w1 = view q w2;
  same_now : w_now w1 = w_now w2;
  same_faults : w_faults w1 = w_faults w2;
}.

#[export] Instance same_for_equivalence q : Equivalence (same_for q).
Proof.
  split.
  - by intros w.
  - intros w1 w2 []. by split.
  - intros w1 w2 w3 [] []. split; congruence.
Qed.

(** The computation gives equal results and worlds that are the same again. *)
Abbreviation agrees q := (Proper (same_for q ==> prod_relation eq (same_for q))).

Section agrees.
Context (q : Z).

Lemma agrees_ret {A} (a : A) : agrees q (mret a : M World A).
Proof. intros w1 w2 Hw. by split. Qed.

Lemma agrees_raise {A} e : agrees q (raise e : M World A).
Proof. intros w1 w2 Hw. by split. Qed.

Lemma agrees_lift {A} (r : result A) : agrees q (lift r : M World A).
Proof. intros w1 w2 Hw. by split. Qed.

Lemma agrees_raise_when b e : agrees q (raise_when b e : M World unit).
Proof. destruct b; [apply agrees_raise|apply agrees_ret]. Qed.

Lemma agrees_gets {A} (f : World → A) : Proper (same_for q ==> eq) f → agrees q (gets f).
Proof. intros Hf w1 w2 Hw. split; [|done]. cbn. by rewrite (Hf w1 w2 Hw). Qed.

Lemma agrees_modify f : Proper (same_for q ==> same_for q) f → agrees q (modify f).
Proof. intros Hf w1 w2 Hw. split; [done|]. by apply Hf. Qed.

(** The second half, where the first returned. *)
Lemma agrees_bind_at {A B} (m : M World A) (k : A → M World B) w1 w2 :
  agrees q m → same_for q w1 w2 →
  (∀ a v1 v2, m w1 = (Ok a, v1) → same_for q v1 v2 →
    prod_relation eq (same_for q) (k a v1) (k a v2)) →
  prod_relation eq (same_for q) ((m ≫= k) w1) ((m ≫= k) w2).
Proof.
  intros Hm Hw Hk. unfold mbind, M_bind. destruct (Hm w1 w2 Hw) as [E1 E2].
  destruct (m w1) as [r1 v1], (m w2) as [r2 v2]. cbn in *. subst r2.
  destruct r1 as [a|e]; [by apply Hk|by split].
Qed.

Lemma agrees_bind {A B} (m : M World A) (k : A → M World B) :
  agrees q m → (∀ a, agrees q (k a)) → agrees q (m ≫= k).
Proof.
  intros Hm Hk w1 w2 Hw. apply agrees_bind_at; [done..|]. intros a v1 v2 _. apply Hk.
Qed.

Lemma agrees_try {A} (m : M World A) h :
  agrees q m → (∀ e, agrees q (h e)) → agrees q (try_except m h).
Proof.
  intros Hm Hh w1 w2 Hw. unfold try_except. destruct (Hm w1 w2 Hw) as [E1 E2].
  destruct (m w1) as [r1 v1], (m w2) as [r2 v2]. cbn in *. subst r2.
  destruct r1 as [a|e]; [by split|by apply Hh].
Qed.

Lemma agrees_get_db {A} (m : M World A) : agrees q m → agrees q (get_db m).
Proof.
  intros Hm w1 w2 Hw. unfold get_db, atomic. destruct (Hm w1 w2 Hw) as [E1 [V N F]].
  destruct Hw as [V0 _ _].
  destruct (m w1) as [r1 v1], (m w2) as [r2 v2]. cbn in *. subst r2.
  destruct r1 as [a|e]; [by split|]. split; [done|]. split; [|done..]. cbn.
  unfold view in *. injection V as V1 V2 V3 V4 V5 V6 V7.
  injection V0 as W1 W2 W3 W4 W5 W6 W7. cbn. by f_equal.
Qed.

Lemma agrees_next_fault : agrees q next_fault.
Proof.
  intros w1 w2 [V N F]. unfold next_fault. rewrite <- F.
  destruct (w_faults w1) as [|o rest] eqn:E; split; try done; split; try done.
  by cbn; congruence.
Qed.

Lemma agrees_now : agrees q now.
Proof. apply agrees_gets. by intros w1 w2 [_ N _]. Qed.
End agrees.

Create HintDb agrees discriminated.
#[export] Hint Resolve agrees_ret agrees_raise agrees_lift agrees_raise_when agrees_bind
  agrees_try agrees_get_db agrees_next_fault agrees_now : agrees.
#[export] Hint Extern 1 (∀ _, Proper _ _) => intros : agrees.
#[export] Hint Extern 3 (Proper _ (match ?x with _ => _ end)) => destruct x : agrees.

Ltac agree := repeat (intros; eauto 20 with agrees).

Section requests.
Context (q : Z).
Hypothesis Hq : valid q.
Abbreviation qid := (str_of_uuid q).

Lemma agrees_io : agrees q io.
Proof. unfold io. apply agrees_bind; [apply agrees_next_fault|]. intros [e|]; agree. Qed.

Lemma agrees_query {A} (f : World → A) :
  Proper (same_for q ==> eq) f → agrees q (sql_query f).
Proof.
  intros Hf. apply agrees_bind; [apply agrees_io|intros _]. by apply agrees_gets.
Qed.

Lemma agrees_exec f : Proper (same_for q ==> same_for q) f → agrees q (sql_exec f).
Proof.
  intros Hf. apply agrees_bind; [apply agrees_io|intros _]. by apply agrees_modify.
Qed.

Lemma agrees_kiq t : agrees q (kiq t).
Proof. apply agrees_exec. by intros w1 w2 []. Qed.

#[local] Hint Resolve agrees_io agrees_kiq : agrees.

(** *** Rows and keys of the project *)

Lemma select_within {A} (f own : A → bool) l :
  (∀ r, f r = true → own r = true) → select f l = select f (select own l).
Proof.
  intros H. induction l as [|r l IH]; [done|]. unfold select in *. cbn.
  destruct (own r) eqn:Eo; cbn; [by rewrite IH|].
  destruct (f r) eqn:Ef; [|done]. by rewrite (H r Ef) in Eo.
Qed.

Lemma select_one_within {A} (f own : A → bool) l :
  (∀ r, f r = true → own r = true) → select_one f l = select_one f (select own l).
Proof.
  intros H. induction l as [|r l IH]; [done|]. unfold select_one, select in *. cbn.
  destruct (own r) eqn:Eo; cbn; [by rewrite IH|].
  destruct (f r) eqn:Ef; [|done]. by rewrite (H r Ef) in Eo.
Qed.

Lemma view_field {A} (g : View → A) w1 w2 : same_for q w1 w2 → g (view q w1) = g (view q w2).
Proof. intros [V _ _]. by f_equal. Qed.

#[local] Instance traces_proper f : (∀ r, f r = true → (tr_project r =? q) = true) →
  Proper (same_for q ==> eq) (λ w, select f (w_traces w)).
Proof.
  intros Hf w1 w2 Hw. cbn. rewrite (select_within f (λ r, tr_project r =? q) (w_traces w1)),
    (select_within f (λ r, tr_project r =? q) (w_traces w2)) by done.
  f_equal. by apply (view_field v_traces).
Qed.

#[local] Instance spans_proper f : (∀ r, f r = true → (sp_project r =? q) = true) →
  Proper (same_for q ==> eq) (λ w, select f (w_spans w)).
Proof.
  intros Hf w1 w2 Hw. cbn. rewrite (select_within f (λ r, sp_project r =? q) (w_spans w1)),
    (select_within f (λ r, sp_project r =? q) (w_spans w2)) by done.
  f_equal. by apply (view_field v_spans).
Qed.

Lemma window_proper cutoff : Proper (same_for q ==> eq) (window q cutoff).
Proof. apply spans_proper. by intros r [? _]%andb_true_iff. Qed.

Lemma own_batch b w1 w2 : same_for q w1 w2 →
  w_batches w1 !! batch_key qid b = w_batches w2 !! batch_key qid b.
Proof.
  intros Hw%(view_field v_batches). cbn in Hw.
  assert (E : ∀ m : gmap string (BatchStatus * timestamp),
    own_batches q m !! batch_key qid b = m !! batch_key qid b).
  { intros m. unfold own_batches. rewrite map_lookup_filter.
    destruct (m !! batch_key qid b) as [v|]; [|done]. cbn.
    rewrite option_guard_True; [done|]. apply startswith_spec.
    exists b. unfold batch_key, batch_prefix. by rewrite !str_app_assoc. }
  by rewrite <- (E (w_batches w1)), <- (E (w_batches w2)), Hw.
Qed.

Lemma own_key key w1 w2 : same_for q w1 w2 →
  w_idempotency w1 !! (qid, key) = w_idempotency w2 !! (qid, key).
Proof.
  intros Hw%(view_field v_idempotency). cbn in Hw.
  assert (E : ∀ m : gmap (string * string) IdempotencyRecord,
    own_keys q m !! (qid, key) = m !! (qid, key)).
  { intros m. unfold own_keys. rewrite map_lookup_filter.
    destruct (m !! (qid, key)) as [v|]; [|done]. cbn. by rewrite option_guard_True. }
  by rewrite <- (E (w_idempotency w1)), <- (E (w_idempotency w2)), Hw.
Qed.

Lemma own_object k w1 w2 : same_for q w1 w2 → startswith (payload_prefix q) k = true →
  w_objects w1 !! k = w_objects w2 !! k.
Proof.
  intros Hw%(view_field v_objects) Hk. cbn in Hw.
  assert (E : ∀ m : gmap string string, own_objects q m !! k = m !! k).
  { intros m. unfold own_objects. rewrite map_lookup_filter.
    destruct (m !! k) as [v|]; [|done]. cbn. by rewrite option_guard_True. }
  by rewrite <- (E (w_objects w1)), <- (E (w_objects w2)), Hw.
Qed.

(** Statements that write one key of the project. *)
Lemma batch_write b v : Proper (same_for q ==> same_for q)
  (set_w_batches <[batch_key qid b := v]>).
Proof.
  intros w1 w2 [V N F]. split; [|done..]. unfold view in *. injection V as V1 V2 V3 V4 V5 V6 V7.
  cbn. f_equal; try done. unfold own_batches in *.
  rewrite !map_filter_insert_True; [by rewrite V6|..]; cbn; apply startswith_spec;
    exists b; unfold batch_key, batch_prefix; by rewrite !str_app_assoc.
Qed.

Lemma key_write g :
  keys_apart qid g → (∀ t t' key, t !! (qid, key) = t' !! (qid, key) →
    g t !! (qid, key) = g t' !! (qid, key)) →
  Proper (same_for q ==> same_for q) (set_w_idempotency g).
Proof.
  intros Hg Hown w1 w2 Hw. pose proof Hw as [V N F]. split; [|done..].
  unfold view in *. injection V as V1 V2 V3 V4 V5 V6 V7. cbn. f_equal; try done.
  apply map_eq. intros [k key]. unfold own_keys. rewrite !map_lookup_filter. cbn.
  destruct (decide (k = qid)) as [-> |Hk].
  - by rewrite (Hown (w_idempotency w1) (w_idempotency w2) key) by by apply own_key.
  - apply option_eq. intros x. rewrite !bind_Some.
    split; intros (y & _ & Hy); apply bind_Some in Hy as (Hd & _ & _); by destruct (Hk Hd).
Qed.

(** *** The endpoints *)

Lemma agrees_get_batch b : agrees q (get_batch qid b).
Proof.
  unfold get_batch. apply agrees_bind; [apply agrees_io|intros _]. apply agrees_gets.
  intros w1 w2 Hw. unfold batch_lookup. pose proof (own_batch b w1 w2 Hw) as E.
  unfold timestamp in *. rewrite E. by destruct Hw as [_ -> _].
Qed.

Lemma agrees_save b st : agrees q (_save qid b st).
Proof.
  unfold _save. apply agrees_bind; [apply agrees_io|intros _].
  apply agrees_bind; [apply agrees_now|intros t]. apply agrees_modify, batch_write.
Qed.

Lemma agrees_merge b u : agrees q (_merge qid b u).
Proof.
  unfold _merge. apply agrees_bind; [apply agrees_get_batch|intros o].
  apply agrees_bind; [apply agrees_now|intros t]. apply agrees_save.
Qed.

Lemma agrees_reserve key h r : agrees q (reserve qid key h r).
Proof.
  assert (Hget : ∀ A (f : option IdempotencyRecord → A),
    Proper (same_for q ==> eq) (λ w, f (w_idempotency w !! (qid, key)))).
  { intros A f w1 w2 Hw. by rewrite (own_key key w1 w2 Hw). }
  unfold reserve, commit. apply agrees_get_db, agrees_bind; [apply agrees_io|intros _].
  apply agrees_bind; [apply agrees_gets|intros ins].
  { intros w1 w2 Hw. unfold insert_pending. by rewrite (own_key key w1 w2 Hw); destruct (_ !! _). }
  apply agrees_bind; [apply agrees_modify, key_write|intros _].
  { by apply within_apart, insert_pending_within. }
  { intros t t' key' E. unfold insert_pending. destruct (decide (key' = key)) as [-> |Hk].
    - rewrite <- E. destruct (t !! (qid, key)) eqn:Et; cbn; [congruence|].
      by rewrite !lookup_insert_eq.
    - destruct (t !! (qid, key)), (t' !! (qid, key)); cbn;
        rewrite ?lookup_insert_ne by congruence; done. }
  destruct ins; [agree|]. apply agrees_bind; [apply agrees_query, (Hget _ (λ o, o))|].
  intros [row|]; [|agree]. apply agrees_bind; [agree|]. intros [o []]; cbn; [|agree].
  apply agrees_bind; [apply agrees_exec, key_write|agree].
  - by apply within_apart, reopen_within.
  - intros t t' key' E. unfold reopen. destruct (decide (key' = key)) as [-> |Hk].
    + by rewrite !lookup_alter_eq, E.
    + by rewrite !lookup_alter_ne by congruence.
Qed.

Lemma agrees_set_status key h st r : agrees q (_set_status qid key h st r).
Proof.
  unfold _set_status, commit. apply agrees_get_db, agrees_bind; [|agree].
  apply agrees_exec, key_write; [by apply within_apart, set_status_within|].
  intros t t' key' E. unfold set_status. destruct (decide (key' = key)) as [-> |Hk].
  - by rewrite !lookup_alter_eq, E.
  - by rewrite !lookup_alter_ne by congruence.
Qed.

Lemma agrees_ingest sha iso lf fr check payload id :
  agrees q check → agrees q (ingest_spans sha iso lf fr check qid payload id).
Proof.
  intros Hc. pose proof agrees_reserve. pose proof agrees_set_status.
  assert (Ha : ∀ ss b, agrees q (accept_batch iso qid ss b id)).
  { intros ss b. unfold accept_batch, create_accepted.
    apply agrees_bind; [apply agrees_bind; [agree|intros; apply agrees_save]|intros _].
    apply agrees_bind; [apply agrees_try; [agree|]|agree].
    intros e. apply agrees_bind; [apply agrees_merge|agree]. }
  unfold ingest_spans, mark_idempotency_failed, commit_idempotency_result.
  apply agrees_bind; [done|intros _]. destruct (idempotency_key payload) as [key|]; [|agree].
  destruct (truthy key); [|agree].
  apply agrees_bind; [apply agrees_try; [done|agree]|]. intros [r|]; [agree|].
  apply agrees_bind; [apply agrees_try; [done|]; intros e; agree|]. agree.
Qed.

Lemma qid_sql : sql_uuid qid = Ok q.
Proof. unfold sql_uuid. by rewrite uuid_of_str_of_uuid. Qed.

Lemma agrees_bind_lift {A B} (a : A) (k : A → M World B) :
  agrees q (k a) → agrees q (lift (Ok a) ≫= k).
Proof. done. Qed.

Lemma agrees_list_traces iso fromiso repr fr ft filters cursor size :
  agrees q (list_traces iso fromiso repr fr ft qid filters cursor size).
Proof.
  unfold list_traces, list_with_cursor. apply agrees_bind; [agree|intros _].
  apply agrees_bind; [apply agrees_try; [|intros e; destruct e; agree]|agree].
  apply agrees_bind; [destruct (opt_truthy cursor); agree|intros at_].
  apply agrees_bind; [|agree]. apply agrees_get_db. rewrite qid_sql.
  apply agrees_bind_lift, agrees_bind; [agree|intros _]. apply agrees_query.
  intros w1 w2 Hw. do 2 f_equal. apply traces_proper; [|done].
  intros r [[[[Hr _]%andb_true_iff _]%andb_true_iff _]%andb_true_iff _]%andb_true_iff. done.
Qed.

Lemma agrees_compute avg pc num nd re k p : agrees q (compute avg pc num nd re k qid p).
Proof.
  assert (Hw : ∀ A (f : list SpanRow → A) cutoff,
    agrees q (sql_query (λ w, f (window q cutoff w)))).
  { intros A f cutoff. apply agrees_query. intros w1 w2 Hw. by rewrite (window_proper _ w1 w2 Hw). }
  unfold compute, get_overview, get_timeseries, get_analytics. rewrite qid_sql.
  destruct k; (apply agrees_bind; [|agree]);
    (apply agrees_bind; [agree|intros t]); apply agrees_bind_lift.
  - apply agrees_bind; [apply agrees_get_db, (Hw _ (λ l, l))|agree].
  - apply agrees_bind; [apply agrees_get_db, (Hw _ (λ l, l))|agree].
  - apply agrees_get_db. repeat (apply agrees_bind; [apply Hw|intros ?]). agree.
Qed.

(** *** Payloads *)

Section payloads.
Context (gzip_decompress : string → result string) (read_json : string → result pyval).

(** [StorageService.get_payload], on the bucket of the world. *)
Definition load_object (key : string) : M World (option pyval) :=
  o ← next_fault;
  on_objects (get_payload gzip_decompress read_json key o).

Lemma get_payload_reads key o (b b' : gmap string string) : b !! key = b' !! key →
  (get_payload gzip_decompress read_json key o b).1
    = (get_payload gzip_decompress read_json key o b').1 ∧
  (get_payload gzip_decompress read_json key o b).2 = b.
Proof.
  intros E. unfold get_payload, try_except, mbind, M_bind, gets, lift, mret, M_ret. rewrite E.
  destruct o as [e|]; [done|]. destruct (b' !! key) as [body|]; [|done].
  destruct (gzip_decompress body) as [data|e]; [|done]. by destruct (read_json data).
Qed.

Lemma agrees_load key : startswith (payload_prefix q) key = true → agrees q (load_object key).
Proof.
  intros Hk. unfold load_object. apply agrees_bind; [apply agrees_next_fault|]. intros o w1 w2 Hw.
  unfold on_objects. pose proof (own_object key w1 w2 Hw Hk) as E.
  destruct (get_payload_reads key o _ _ E) as [E1 E2].
  destruct (get_payload_reads key o _ _ (eq_sym E)) as [_ E3].
  destruct (get_payload _ _ key o (w_objects w1)) as [r1 b1],
    (get_payload _ _ key o (w_objects w2)) as [r2 b2]. cbn in *. subst. split; [done|].
  by destruct w1, w2.
Qed.

Lemma agrees_gather keys :
  (∀ k, k ∈ keys → startswith (payload_prefix q) k = true) →
  agrees q (gather_payloads load_object keys).
Proof.
  induction keys as [|k keys IH]; intros Hk; cbn; [agree|].
  apply agrees_bind; [apply agrees_load, Hk; by left|intros o].
  apply agrees_bind; [apply IH; intros x Hx; apply Hk; by right|]. intros rest. agree.
Qed.

(** Payloads of the project's spans are stored under its prefix. *)
Definition own_payloads (w : World) : Prop :=
  ∀ s k, s ∈ v_spans (view q w) → sp_payload_key s = Some k →
    startswith (payload_prefix q) k = true.

Lemma agrees_get_with_spans tid start : agrees q (get_with_spans tid qid start).
Proof.
  unfold get_with_spans. apply agrees_get_db, agrees_bind; [agree|intros t]. rewrite qid_sql.
  apply agrees_bind_lift, agrees_bind.
  { destruct start; [agree|]. apply agrees_query. intros w1 w2 Hw. do 3 f_equal.
    apply traces_proper; [|done]. by intros r [_ Hr]%andb_true_iff. }
  intros [t0|]; [|agree]. apply agrees_bind.
  { apply agrees_query. intros w1 w2 Hw.
    assert (Hf : ∀ r, (tr_id r =? t) && (tr_project r =? q) && (tr_started r =? t0) = true →
      (tr_project r =? q) = true) by by intros r [[_ Hr]%andb_true_iff _]%andb_true_iff.
    cbn. rewrite (select_one_within _ _ (w_traces w1) Hf), (select_one_within _ _ (w_traces w2) Hf).
    pose proof (view_field v_traces w1 w2 Hw) as E. cbn in E. by rewrite E. }
  intros [r|]; [|agree]. apply agrees_bind; [|agree]. apply agrees_query.
  intros w1 w2 Hw. f_equal. apply spans_proper; [|done].
  by intros s [[_ Hs]%andb_true_iff _]%andb_true_iff.
Qed.

Lemma get_with_spans_own tid start w r spans w' :
  get_with_spans tid qid start w = (Ok (Some (r, spans)), w') →
  ∀ s, s ∈ spans → s ∈ v_spans (view q w).
Proof.
  unfold get_with_spans. rewrite qid_sql. intros H s Hs. apply get_db_ok in H.
  apply bind_ok_inv in H as (t & w0 & [_ ->]%lift_ok & H).
  apply bind_ok_inv in H as (q' & w1 & [[= <-] ->]%lift_ok & H).
  apply bind_ok_inv in H as (t0 & w1 & H1 & H).
  assert (E1 : w_spans w1 = w_spans w).
  { destruct start; [by run_inv|]. by apply sql_query_ok in H1 as (fs & -> & _). }
  destruct t0 as [t0|]; [|by run_inv].
  apply bind_ok_inv in H as (o & w2 & (fs & -> & _)%sql_query_ok & H).
  destruct o as [r'|]; [|by run_inv].
  apply bind_ok_inv in H as (l & w3 & (fs' & -> & ->)%sql_query_ok & H). run_inv.
  rewrite sort_by_elem_of in Hs. apply elem_of_select in Hs as [Hs Hf].
  apply elem_of_select. rewrite <- E1. split; [done|].
  by apply andb_true_iff in Hf as [[_ Hf]%andb_true_iff _].
Qed.

Lemma agrees_trace_detail tid incl start w1 w2 :
  own_payloads w1 → same_for q w1 w2 →
  prod_relation eq (same_for q)
    (get_trace_detail load_object tid qid incl start w1)
    (get_trace_detail load_object tid qid incl start w2).
Proof.
  intros Hown Hw. unfold get_trace_detail.
  apply agrees_bind_at; [apply agrees_get_with_spans|done|]. intros [[r spans]|] v1 v2 E Hv;
    [|by apply agrees_raise].
  apply agrees_bind; [|agree|done]. destruct incl; [|agree]. apply agrees_gather.
  intros k Hk. apply (elem_of_select truthy) in Hk as [Hk _].
  apply list_elem_of_omap in Hk as (s & Hs & Es).
  by eapply Hown; [eapply get_with_spans_own|].
Qed.
End payloads.
End requests.

(** ** Isolation *)

(** What a project may ask. *)
Inductive Request : Type :=
| ListTraces (filters : TraceFilters) (cursor : option string) (page_size : Z)
| TraceDetail (trace_id : string) (include_payload : bool) (started_at : option pydatetime)
| MetricOf (kind : Kind) (period : Period)
| BatchStatusOf (batch_id : string)
| SendSpans (payload : IngestRequest) (new_id : string).

Inductive Answer : Type :=
| Listed (page : TracePage)
| Detailed (detail : TraceRow * list (SpanRow * option pyval))
| Measured (m : Metric)
| Status (b : BatchStatus)
| Accepted (r : IngestResponse).

(** The world at a time, with the faults to come. *)
Definition at_ (t : timestamp) (faults : list (option exn)) (w : World) : World :=
  set_w_faults (λ _, faults) (set_w_now (λ _, t) w).

Lemma same_for_at q t fs w1 w2 :
  view q w1 = view q w2 → same_for q (at_ t fs w1) (at_ t fs w2).
Proof. intros V. by split. Qed.

Section isolation.
Context (parse_dt : string → result pydatetime) (driver_utc : Z → timestamp)
        (gzip_compress : string → string) (latency_float : decimal → pyfloat)
        (float_repr : pyfloat → string) (latency_interval : decimal → Z)
        (sha256 : string → string) (iso : pydatetime → string)
        (refused : World → list string → list string).
Context (isoformat : timestamp → string) (fromisoformat : string → option pydatetime)
        (repr : pyval → string) (float_of_text : string → pyfloat)
        (gzip_decompress : string → result string).
Context (avg : list decimal → pyfloat) (percentile_cont : Z → list decimal → pyfloat)
        (numeric : pyfloat → decimal) (numeric_div : Z → Z → decimal)
        (regexp_replace : string → string → string → string → string).

Abbreviation state := (reachable parse_dt driver_utc gzip_compress latency_float float_repr
  latency_interval sha256 iso refused).
Abbreviation foreign := (foreign_step parse_dt driver_utc gzip_compress latency_float float_repr
  latency_interval sha256 iso refused).

(** A request within the rate limit. *)
Definition answer (q : Z) (r : Request) : M World Answer :=
  let project_id := str_of_uuid q in
  match r with
  | ListTraces filters cursor page_size =>
      page ← list_traces isoformat fromisoformat repr float_repr float_of_text project_id
               filters cursor page_size;
      mret (Listed page)
  | TraceDetail trace_id include_payload started_at =>
      detail ← get_trace_detail (load_object gzip_decompress (json_loads float_of_text))
                 trace_id project_id include_payload started_at;
      mret (Detailed detail)
  | MetricOf kind period =>
      m ← compute avg percentile_cont numeric numeric_div regexp_replace kind project_id period;
      mret (Measured m)
  | BatchStatusOf batch_id =>
      b ← get_ingest_batch_status project_id batch_id;
      mret (Status b)
  | SendSpans payload new_id =>
      r ← ingest_spans sha256 iso latency_float float_repr (mret tt) project_id payload new_id;
      mret (Accepted r)
  end.

Lemma agrees_answer q r w1 w2 :
  valid q → own_payloads q w1 → same_for q w1 w2 →
  prod_relation eq (same_for q) (answer q r w1) (answer q r w2).
Proof.
  intros Hq Hown Hw. destruct r as [f c n|tid incl start|k p|b|payload id]; cbn.
  2: { destruct (agrees_trace_detail q Hq gzip_decompress (json_loads float_of_text) tid incl start
         w1 w2 Hown Hw) as [E1 E2]. unfold mbind, M_bind.
       destruct (get_trace_detail _ tid _ incl start w1) as [r1 v1],
         (get_trace_detail _ tid _ incl start w2) as [r2 v2]. cbn in *. subst r2. by destruct r1. }
  all: apply (agrees_bind q); [|agree|done].
  - by apply agrees_list_traces.
  - by apply agrees_compute.
  - apply (agrees_bind q); [by apply agrees_get_batch|agree].
  - apply agrees_ingest, agrees_ret.
Qed.

(** C2: a project sees and keeps nothing but its own. From any state the program
    can reach, whatever the requests, tasks and retention turns of other
    projects do and however they fail, the project's listings, trace details
    and payloads, metrics, batch statuses and answers to its uploads, errors
    included, are those of the state in which nothing of it happened. *)
Theorem tenant_isolation q w w' r t faults :
  valid q → state w → rtc (foreign q) w w' →
  (answer q r (at_ t faults w')).1 = (answer q r (at_ t faults w)).1.
Proof.
  intros Hq Hw Hs. apply reachable_shared_inv in Hw.
  assert (V : view q w' = view q w) by by eapply foreign_steps_view.
  apply agrees_answer; [done| |by apply same_for_at].
  intros s k Hin. change (s ∈ v_spans (view q w')) in Hin. rewrite V in Hin.
  apply elem_of_select in Hin as [Hin Hp%Z.eqb_eq]. rewrite <- Hp. by apply (si_placed w Hw).
Qed.
End isolation.

(** ** Two projects side by side *)

Definition sample_task (p : Z) : list SpanData → World → result unit * World :=
  process_span_batch sample_parse_dt id id (λ _, SpecFloat.S754_zero false) (λ _, "0.0")
    "b" (str_of_uuid p).

(** Project 7 has its batch; project 8 sends one of its own, or the same again. *)
Definition neighbour : World :=
  (sample_task 8 [sample_data 21 "2026-01-01T00:01:05Z"] after_batch).2.
Definition resent : World := (sample_task 8 dated after_batch).2.

Definition sample_answer : Z → Request → M World Answer :=
  answer (λ _, SpecFloat.S754_zero false) (λ _, "0.0") (λ _, "hash") (λ _, "2026")
    (λ _, "2026-01-01T00:00:00+00:00") (λ _, None) (λ _, "x")
    (λ _, SpecFloat.S754_zero false) Ok first_latency
    (λ _, first_latency) no_numeric percent_div same_text.

Lemma tenant_isolation_witness :
  length (w_spans neighbour) = 3%nat ∧
  let overview w := sample_answer 7 (MetricOf KOverview P24h) (at_ (1767225700 * second) [] w) in
  (overview neighbour).1 = (overview after_batch).1 ∧
  match (overview neighbour).1 with
  | Ok (Measured (OverviewOf o)) => ov_total o = 2
  | _ => False
  end.
Proof.
  split; [by vm_compute|]. intros overview. split; [|by vm_compute].
  unfold overview, sample_answer.
  apply (tenant_isolation sample_parse_dt id id (λ _, SpecFloat.S754_zero false) (λ _, "0.0")
    (λ _, 0) (λ _, "hash") (λ _, "2026") (λ _ _, [])).
  - by vm_compute.
  - exists (empty_world 0 []). split; [done|]. split; [done|]. apply rtc_once.
    exists 7. split; [by vm_compute|]. unfold after_batch, sample_process. apply step_process.
  - apply rtc_once. exists 8. split; [by vm_compute|]. split; [done|].
    unfold neighbour, sample_task. apply step_process.
Defined.

(** Row identities are not the project's own: the batch project 8 sends again
    with the ids of project 7 is reported as processed, and none of it stored. *)
Example span_ids_shared :
  (sample_task 8 dated after_batch).1 = Ok tt ∧
  v_spans (view 8 resent) = [] ∧ v_traces (view 8 resent) = [] ∧
  (b_status <$> batch_lookup (batch_key (str_of_uuid 8) "b") resent) = Some "processed".
Proof. by vm_compute. Qed.

(** A project whose trace starts at the instant of another project's trace of
    the same id has its spans stored, but no trace. *)
Example trace_ids_shared :
  length (v_spans (view 8 neighbour)) = 1%nat ∧ v_traces (view 8 neighbour) = [].
Proof. by vm_compute. Qed.
