(* ===== verification/Flow.v ===== *)
(** * From an upload to the dashboard

    The ingest endpoint, the task queue and the workers put together: a batch is
    accepted, the worker takes the tasks in the order they were enqueued, and
    with the services up every span of the batch ends as a row with its cost, an
    event on the project's channel and a trace with its totals. *)

From S2P Require Import Prelude Text PyVal Decimal Schema App Cost SpanSchema Storage Pipeline Ingest Outbox Buckets Worker Auth Traces Url Alerts Notify AlertEval Isolation.
From Stdlib Require Import SpecFloat.

Import OutboxService.

Local Open Scope Z_scope.

(** ** Running with the services up

    A call neither fails nor changes the answers to come. *)

Definition up (w : World) : Prop := w_faults w = [].

Lemma next_fault_run w : up w → next_fault w = (Ok None, w).
Proof. unfold up, next_fault. by intros ->. Qed.

Lemma sql_exec_run f w : up w → sql_exec f w = (Ok tt, f w).
Proof. intros Hw. unfold sql_exec. by rewrite (bind_run _ _ _ _ _ (io_run w Hw)). Qed.

Lemma sql_query_run {A} (f : World → A) w : up w → sql_query f w = (Ok (f w), w).
Proof. intros Hw. unfold sql_query. by rewrite (bind_run _ _ _ _ _ (io_run w Hw)). Qed.

Lemma kiq_run t w : up w → kiq t w = (Ok tt, set_w_queue (λ q, q ++ [t]) w).
Proof. apply (sql_exec_run (set_w_queue (λ q, q ++ [t]))). Qed.

Lemma get_db_run_ok {A} (m : M World A) w a w' : m w = (Ok a, w') → get_db m w = (Ok a, w').
Proof. unfold get_db, atomic. by intros ->. Qed.

Lemma bind_run_eq {S A B} (m : M S A) (k : A → M S B) s a s1 r :
  m s = (Ok a, s1) → k a s1 = r → (m ≫= k) s = r.
Proof. intros E <-. by apply bind_run. Qed.

(** *** Batch statuses *)

Lemma get_batch_run p b w : up w → get_batch p b w = (Ok (batch_lookup (batch_key p b) w), w).
Proof. apply sql_query_run. Qed.

(** The status [_merge] writes. *)
Definition merged (p b : string) (u : BatchStatus → BatchStatus) (w : World) : BatchStatus :=
  let t := w_now w in
  let old := match batch_lookup (batch_key p b) w with
             | Some b => b
             | None => {| b_batch := b; b_status := EmptyString; b_accepted := 0;
                          b_processed := 0; b_failed := 0; b_error := None;
                          b_created := t; b_updated := t |}
             end in
  let s := u old in
  {| b_batch := b_batch s; b_status := b_status s; b_accepted := b_accepted s;
     b_processed := b_processed s; b_failed := b_failed s; b_error := b_error s;
     b_created := b_created s; b_updated := t |}.

Definition put_status (p b : string) (st : BatchStatus) (w : World) : World :=
  set_w_batches <[batch_key p b := (st, w_now w + BATCH_STATUS_TTL)]> w.

Lemma save_run p b st w : up w → _save p b st w = (Ok tt, put_status p b st w).
Proof. intros Hw. unfold _save. by rewrite (bind_run _ _ _ _ _ (io_run w Hw)). Qed.

Lemma merge_run p b u w : up w → _merge p b u w = (Ok tt, put_status p b (merged p b u w) w).
Proof.
  intros Hw. unfold _merge. rewrite (bind_run _ _ _ _ _ (get_batch_run p b w Hw)).
  rewrite (bind_run now _ w (w_now w) w eq_refl).
  unfold merged. by destruct (batch_lookup _ w); apply save_run.
Qed.

Lemma put_status_lookup p b st w : batch_lookup (batch_key p b) (put_status p b st w) = Some st.
Proof.
  unfold batch_lookup, put_status. cbn. rewrite lookup_insert_eq.
  assert (w_now w <? w_now w + BATCH_STATUS_TTL = true) as ->; [|done].
  apply Z.ltb_lt. unfold BATCH_STATUS_TTL, second. lia.
Qed.

(** The request carries no idempotency key, or one its project has not used. *)
Definition unused_key (pid : string) (payload : IngestRequest) (w : World) : Prop :=
  ∀ key, idempotency_key payload = Some key → w_idempotency w !! (pid, key) = None.

Lemma accept_unkeyed iso p ss id w :
  up w →
  ∃ st, accept_batch iso p ss None id w
    = (Ok id, set_w_queue (λ q, q ++ [process_span_batch_task id p (map (span_data iso) ss)])
                (put_status p id st w)).
Proof.
  intros Hw. eexists. unfold accept_batch, create_accepted. eapply bind_run_eq.
  { rewrite (bind_run now _ w (w_now w) w eq_refl). by apply save_run. }
  eapply bind_run_eq; [|done]. unfold try_except. by rewrite kiq_run.
Qed.

Lemma ingest_run sha iso lf fr p payload id w :
  up w → truthy id = true → unused_key p payload w →
  ∃ st g, ingest_spans sha iso lf fr (mret tt) p payload id w
    = (Ok {| resp_batch := id; resp_accepted := Z.of_nat (length (spans payload)) |},
       set_w_idempotency g
         (set_w_queue (λ q, q ++ [process_span_batch_task id p
                                    (map (span_data iso) (spans payload))])
            (put_status p id st w))).
Proof.
  intros Hw Hid Hk.
  destruct (accept_unkeyed iso p (spans payload) id w Hw) as [st Ea].
  assert (Hplain : (b ← accept_batch iso p (spans payload) None id;
      mret {| resp_batch := b; resp_accepted := Z.of_nat (length (spans payload)) |}) w
    = (Ok {| resp_batch := id; resp_accepted := Z.of_nat (length (spans payload)) |},
       set_w_idempotency (λ t, t)
         (set_w_queue (λ q, q ++ [process_span_batch_task id p
                                    (map (span_data iso) (spans payload))])
            (put_status p id st w)))) by by rewrite (bind_run _ _ _ _ _ Ea).
  unfold ingest_spans. destruct (idempotency_key payload) as [key|] eqn:Ek;
    [destruct (truthy key)|];
    [|exists st, (λ t, t); by apply bind_run_eq with (a := tt) (s1 := w)..].
  set (h := ingest_request_hash _ _ _ _ _).
  set (r := {| resp_batch := id; resp_accepted := _ |}).
  set (w1 := set_w_idempotency (λ t, (insert_pending (p, key) h r t).2) w).
  pose proof (accept_batch_run iso p (spans payload) id w1 Hw Hid) as Hacc.
  set (w2 := set_w_queue _ _) in Hacc. assert (Hw2 : w_faults w2 = []) by exact Hw.
  exists {| b_batch := id; b_status := "accepted";
            b_accepted := Z.of_nat (length (spans payload)); b_processed := 0; b_failed := 0;
            b_error := None; b_created := w_now w; b_updated := w_now w |},
    (λ t, set_status (p, key) h ICommitted (Some r) (insert_pending (p, key) h r t).2).
  eapply bind_run_eq; [done|]. apply bind_run_eq with (a := None) (s1 := w1).
  { unfold try_except. by rewrite reserve_fresh; [|done|apply Hk]. }
  apply bind_run_eq with (a := id) (s1 := w2); [unfold try_except; by rewrite Hacc|].
  eapply bind_run_eq; [by apply (set_status_run p key h ICommitted (Some r) w2 Hw2)|].
  reflexivity.
Qed.

(** ** Processing a batch *)

(** What the cost service works on. *)
Definition cost_view (w : World) : CostState := {| app := w_app w; batch := w_pricing w |}.

Section flow.
Context (parse_dt : string → result pydatetime) (driver_utc : Z → timestamp)
        (gzip_compress : string → string) (latency_float : decimal → pyfloat)
        (float_repr : pyfloat → string) (latency_interval : decimal → Z)
        (sha256 : string → string) (iso : pydatetime → string).

Lemma span_cost_run pr m i o at_ off w c :
  up w → priced (cost_view w) → free_of ":" pr = true → dt_offset at_ = Some off →
  cost_spec (model_pricing (db (w_app w))) pr m i o (dt_utc at_) = Ok c →
  ∃ a b, span_cost driver_utc pr m i o at_ w
      = (Ok c, set_w_pricing (λ _, b) (set_w_app (λ _, a) w)) ∧
    priced {| app := a; batch := b |} ∧ db a = db (w_app w).
Proof.
  intros Hw Hp Hpr Hoff Hc. unfold span_cost.
  do 3 rewrite (bind_run _ _ _ _ _ (next_fault_run w Hw)).
  unfold on_cost. rewrite Hoff. fold (cost_view w). unfold calculate, mbind, M_bind.
  pose proof (_get_batch_pricing_ok no_faults pr m (dt_utc at_) (cost_view w) Hpr Hp)
    as (Hok & Hdb & Hpr').
  fold no_faults. unfold cost_spec in Hc.
  destruct (_get_batch_pricing no_faults pr m (dt_utc at_) (cost_view w)) as [[g|e] s'];
    cbn in *; [|by destruct Hok as [?|[?|?]]].
  exists (app s'), (batch s'). split; [|by destruct s'].
  destruct (pricing_row _ pr m (dt_utc at_)) as [r|]; cbn in Hok; subst g; cbn.
  - unfold lift. by rewrite Hc.
  - unfold mret, M_ret. congruence.
Qed.

(** A span the schema lets through: its ids parse, its time reads back and has
    an offset of whole minutes, its price is known and fits the column. *)
Record acceptable (rows : list ModelPrice) (s : SpanSchema) : Prop := {
  acc_id : ∃ n, parse_uuid (span_id s) = Ok n;
  acc_trace : ∃ n, parse_uuid (trace_id s) = Ok n;
  acc_parent : ∀ t, parent_span_id s = Some t → truthy t = true → ∃ n, parse_uuid t = Ok n;
  acc_started : parse_dt (iso (started_at s)) = Ok (started_at s);
  acc_offset : ∃ off, dt_offset (started_at s) = Some off ∧ off mod minute = 0;
  acc_provider : free_of ":" (provider s) = true;
  acc_price : ∃ c, cost_spec rows (provider s) (model s) (input_tokens s) (output_tokens s)
                     (dt_utc (started_at s)) = Ok c ∧ Z.abs (to_column 8 c) < 10 ^ 12;
}.

(** The prepared span of an accepted one. *)
Record prepared_as (rows : list ModelPrice) (p : Z) (s : SpanSchema) (ps : PreparedSpan)
    : Prop := {
  pa_id : parse_uuid (span_id s) = Ok (ps_id ps);
  pa_trace : parse_uuid (trace_id s) = Ok (ps_trace ps);
  pa_project : ps_project ps = p;
  pa_started : ps_started ps = started_at s;
  pa_texts : (ps_name ps, ps_provider ps, ps_model ps) = (name s, provider s, model s);
  pa_tokens : (ps_input ps, ps_output ps) = (input_tokens s, output_tokens s);
  pa_cost : cost_spec rows (provider s) (model s) (input_tokens s) (output_tokens s)
              (dt_utc (started_at s)) = Ok (ps_cost ps);
  pa_column : Z.abs (to_column 8 (ps_cost ps)) < 10 ^ 12;
}.

Abbreviation prepare := (prepare_span parse_dt driver_utc gzip_compress float_repr).
Abbreviation prepares := (prepare_all parse_dt driver_utc gzip_compress float_repr).

Lemma put_payload_run st rk p sd w : up w → is_Some (sd_span_id sd) →
  ∃ r o, put_payload gzip_compress float_repr st rk p sd w = (Ok r, set_w_objects (λ _, o) w).
Proof.
  intros Hw [id Hid]. assert (Hs : set_w_objects (λ _, w_objects w) w = w) by by destruct w.
  unfold put_payload. destruct (should_store_payload _ _).
  2: { eexists _, (w_objects w). by rewrite Hs. }
  rewrite Hid. cbn [getitem]. rewrite (bind_run _ _ w id w eq_refl),
    (bind_run _ _ _ _ _ (next_fault_run w Hw)).
  unfold on_objects, store_payload. destruct (_ <? _); by eexists _, _.
Qed.

Lemma prepare_span_run st rk rows p pid s w :
  up w → priced (cost_view w) → model_pricing (db (w_app w)) = rows →
  parse_uuid pid = Ok p → acceptable rows s →
  ∃ ps a b o, prepare st rk pid (span_data iso s) w
      = (Ok ps, set_w_objects (λ _, o) (set_w_pricing (λ _, b) (set_w_app (λ _, a) w))) ∧
    priced {| app := a; batch := b |} ∧ db a = db (w_app w) ∧ prepared_as rows p s ps.
Proof.
  intros Hw Hp Hr Hpid [[n Hn] [t Ht] Hpar Hst [off [Hoff _]] Hprov [c [Hc Hcol]]].
  destruct (span_cost_run (provider s) (model s) (input_tokens s) (output_tokens s)
    (started_at s) off w c Hw Hp Hprov Hoff ltac:(by rewrite Hr)) as (a & b & Ecost & Hab & Hdb).
  set (w1 := set_w_pricing (λ _, b) (set_w_app (λ _, a) w)) in *.
  destruct (put_payload_run st rk pid (span_data iso s) w1 Hw ltac:(by eexists))
    as (r & o & Eput).
  assert (Hparent : ∃ parent, match parent_span_id s with
    | Some p => if truthy p then n ← parse_uuid p; Ok (Some n) else Ok None
    | None => Ok None end = Ok parent).
  { destruct (parent_span_id s) as [x|]; [|by eexists].
    destruct (truthy x) eqn:Ex; [|by eexists]. destruct (Hpar x eq_refl Ex) as [m ->].
    by eexists. }
  destruct Hparent as [parent Eparent].
  eexists _, a, b, o. split.
  - unfold prepare_span. cbn -[parse_uuid].
    eapply bind_run_eq; [done|]. eapply bind_run_eq; [unfold lift; by rewrite Hst|].
    do 4 (eapply bind_run_eq; [done|]). eapply bind_run_eq; [exact Ecost|].
    eapply bind_run_eq; [exact Eput|]. eapply bind_run_eq; [done|].
    eapply bind_run_eq; [unfold lift; by rewrite Hn|]. eapply bind_run_eq; [done|].
    eapply bind_run_eq; [unfold lift; by rewrite Ht|].
    eapply bind_run_eq; [unfold lift; by rewrite Hpid|].
    eapply bind_run_eq; [unfold lift; by rewrite Eparent|].
    eapply bind_run_eq; [done|]. done.
  - split; [done|]. split; [done|]. by constructor.
Qed.

Lemma prepare_all_run st rk rows p pid ss w :
  up w → priced (cost_view w) → model_pricing (db (w_app w)) = rows →
  parse_uuid pid = Ok p → (∀ s, s ∈ ss → acceptable rows s) →
  ∃ l a b o, prepares st rk pid (map (span_data iso) ss) w
      = (Ok (l, 0), set_w_objects (λ _, o) (set_w_pricing (λ _, b) (set_w_app (λ _, a) w))) ∧
    db a = db (w_app w) ∧ Forall2 (prepared_as rows p) ss l.
Proof.
  revert w. induction ss as [|s ss IH]; intros w Hw Hp Hr Hpid Hss.
  - exists [], (w_app w), (w_pricing w), (w_objects w). split; [by destruct w|done].
  - destruct (prepare_span_run st rk rows p pid s w Hw Hp Hr Hpid (Hss s ltac:(by left)))
      as (ps & a & b & o & E & Hab & Hdb & Hps).
    set (w1 := set_w_objects (λ _, o) (set_w_pricing (λ _, b) (set_w_app (λ _, a) w))) in *.
    destruct (IH w1) as (l & a' & b' & o' & E' & Hdb' & Hl); try done.
    { cbn. by rewrite Hdb. }
    { intros x Hx. apply Hss. by right. }
    exists (ps :: l), a', b', o'. split; [|split; [cbn in Hdb'; congruence|by constructor]].
    cbn [map prepare_all]. eapply bind_run_eq.
    { unfold try_except. by rewrite (bind_run _ _ _ _ _ E). }
    by eapply bind_run_eq.
Qed.

(** *** The traces of the batch *)

(** No row of another project stands where the trace would go. *)
Lemma ensure_trace_row_run project ids tid t0 st w :
  up w → one_row (w_traces w) → own_ids project ids (w_traces w) → tid ∈ ids →
  ∃ t f, ensure_trace_row project tid t0 st w = (Ok t, set_w_traces f w).
Proof.
  intros Hw Hone Hown Hid. unfold ensure_trace_row.
  rewrite (bind_run _ _ _ _ _ (sql_query_run _ w Hw)).
  destruct (head _) as [r|] eqn:Eh.
  2: { exists t0. eexists. eapply bind_run_eq; [by apply sql_exec_run|done]. }
  pose proof (sort_by_head_elem_of _ _ _ Eh) as Hr. apply elem_of_select in Hr as [Hr Hir].
  destruct (Z.leb_spec (tr_started r) t0) as [Hle|Hlt].
  { exists (tr_started r), id. by destruct w. }
  exists t0. eexists. rewrite (bind_run _ _ _ _ _ (io_run w Hw)).
  eapply bind_run_eq; [done|].
  assert (existsb (λ r', (tr_id r' =? tid) && (tr_started r' =? t0)) (w_traces w) = false) as ->.
  { apply exists_where_false. intros r' Hr'. apply andb_false_iff.
    destruct (Z.eqb_spec (tr_id r') tid) as [E|]; [right|by left].
    apply Z.eqb_neq. intros Est. apply is_trace_spec in Hir.
    assert (r' = r) as ->; [|lia]. apply (one_row_unique (w_traces w)); [done..|].
    rewrite Hir. unfold Worker.trace_key. rewrite E. f_equal. apply (Hown r' Hr'). congruence. }
  done.
Qed.

(** The rows of other traces stay as they are. *)
Lemma ensure_trace_row_others project tid t0 st w t w' r :
  ensure_trace_row project tid t0 st w = (Ok t, w') →
  r ∈ w_traces w → is_trace project tid r = false → r ∈ w_traces w'.
Proof.
  unfold ensure_trace_row. intros H Hr Hir.
  apply bind_ok_inv in H as (row0 & w1 & (fs & -> & ->)%sql_query_ok & H). cbn in H.
  destruct (head _) as [r0|].
  - destruct (tr_started r0 <=? t0); [by run_inv|].
    apply bind_ok_inv in H as (? & w2 & (fs2 & ->)%io_ok_inv & H). run_inv.
    apply elem_of_update_where. exists r. by rewrite Hir.
  - apply bind_ok_inv in H as (? & w2 & (fs2 & ->)%sql_exec_ok & H). run_inv.
    unfold insert_trace. destruct (existsb _ _); [done|]. apply elem_of_app. by left.
Qed.

(** The starts the task returns are those of the rows, one for each trace. *)
Lemma ensure_traces_run project ids m w :
  up w → one_row (w_traces w) → own_ids project ids (w_traces w) → m.*1 ⊆ ids → NoDup m.*1 →
  ∃ ts f, ensure_traces project m w = (Ok ts, set_w_traces f w) ∧ ts.*1 = m.*1 ∧
    (∀ r, r ∈ w_traces w → (∀ tid, tid ∈ m.*1 → is_trace project tid r = false) →
       r ∈ f (w_traces w)) ∧
    ∀ tid t, (tid, t) ∈ ts → ∃ r, r ∈ f (w_traces w) ∧ is_trace project tid r = true ∧
      tr_started r = t.
Proof.
  revert w. induction m as [|[tid s] m IH]; intros w Hw Hone Hown Hsub Hnd.
  - exists [], id. split; [by destruct w|]. split_and!; [done..|].
    by intros ? ? ?%not_elem_of_nil.
  - rewrite fmap_cons in *. apply NoDup_cons in Hnd as [Hni Hnd].
    assert (Hid : tid ∈ ids) by (apply Hsub; left).
    destruct (ensure_trace_row_run project ids tid (dt_utc (ps_started s)) (ps_status s) w)
      as (t & f & E); [done..|].
    pose proof (λ x, ensure_trace_row_others project tid _ _ w t _ x E) as Hoth.
    destruct (ensure_trace_row_ok project ids _ _ _ _ _ _ E) as [G1 G2 _ (r & Hr & Hir & Hrt) _];
      [done..|].
    destruct (IH (set_w_traces f w)) as (ts & g & E' & Ets & Hkeep & Hts); try done.
    { intros x Hx. apply Hsub. by right. }
    exists ((tid, t) :: ts), (g ∘ f). split.
    { cbn [ensure_traces]. rewrite (bind_run _ _ _ _ _ E), (bind_run _ _ _ _ _ E'). done. }
    split; [cbn; by rewrite Ets|]. split.
    + intros x Hx Hm. apply Hkeep; [apply Hoth; [done|]|intros i Hi]; apply Hm; set_solver.
    + intros tid' t' [[= -> ->]|Hin]%elem_of_cons; [|by apply Hts].
      exists r. split; [|done]. apply Hkeep; [done|]. intros i Hi.
      apply not_true_iff_false. intros Hi'. apply is_trace_spec in Hir, Hi'.
      rewrite Hir in Hi'. injection Hi' as ->. by destruct Hni.
Qed.

Lemma trace_map_set_keys s m : NoDup m.*1 → NoDup (trace_map_set s m).*1.
Proof.
  induction m as [|[tid first] m IH]; intros Hm; [by apply NoDup_singleton|]. cbn.
  apply NoDup_cons in Hm as [Hni Hm]. destruct (Z.eqb_spec tid (ps_trace s)) as [->|Hne].
  - by destruct (_ <? _); apply NoDup_cons.
  - apply NoDup_cons. split; [|by apply IH].
    intros Hin. apply (trace_map_set_spec s m) in Hin as [?|?]; [done|by destruct Hni].
Qed.

Lemma trace_map_keys l : NoDup (trace_map l).*1.
Proof.
  unfold trace_map. induction l as [|s l IH] using rev_ind; [by apply NoDup_nil|].
  rewrite foldl_app. by apply trace_map_set_keys.
Qed.

(** *** The transaction, for spans that are new *)

Abbreviation row := (span_row driver_utc).

Lemma new_rows_all rows t :
  NoDup (row_identity <$> rows) → (∀ r, r ∈ rows → row_identity r ∉ row_identity <$> t) →
  new_rows t rows = rows.
Proof.
  revert t. induction rows as [|r rows IH]; intros t Hnd Ht; [done|]. cbn.
  rewrite fmap_cons in Hnd. apply NoDup_cons in Hnd as [Hr Hnd].
  rewrite decide_False by (apply Ht; by left). f_equal. apply IH; [done|].
  intros x Hx. rewrite fmap_app, elem_of_app. intros [Hin|Hin].
  - apply (Ht x); [by right|done].
  - apply list_elem_of_singleton in Hin. destruct Hr. rewrite <- Hin. by apply list_elem_of_fmap_2.
Qed.

Lemma select_inserted_all l :
  Forall aware l → select_inserted_spans l (row_identity <$> map row l) = l.
Proof.
  induction l as [|s l IH]; intros Ha; [done|]. apply Forall_cons in Ha as [Hs Ha].
  cbn [select_inserted_spans map]. rewrite (aware_identity driver_utc s Hs), fmap_cons.
  rewrite decide_True by by left. cbn [remove_first]. rewrite decide_True by done.
  by rewrite IH.
Qed.

(** New spans have an event each, after those that were there. *)
Lemma with_events_new project t l old :
  NoDup ((str_of_uuid ∘ ps_id) <$> l) →
  (∀ s e, s ∈ l → e ∈ old →
     same_event project OUTBOX_SPAN_INSERTED (str_of_uuid (ps_id s)) e = false) →
  ∃ evs, with_events latency_float float_repr project t l old = old ++ evs ∧
    Forall2 (λ s e, e = pending_event (ob_id e) project OUTBOX_SPAN_INSERTED
      (str_of_uuid (ps_id s)) (event_payload latency_float float_repr s) t) l evs.
Proof.
  unfold with_events. revert old. induction l as [|s l IH]; intros old Hnd Hold.
  { exists []. by rewrite app_nil_r. }
  rewrite fmap_cons in Hnd. apply NoDup_cons in Hnd as [Hs Hnd].
  set (e := pending_event (fresh_event_id old) project OUTBOX_SPAN_INSERTED
    (str_of_uuid (ps_id s)) (event_payload latency_float float_repr s) t).
  assert (Ei : insert_event project OUTBOX_SPAN_INSERTED (str_of_uuid (ps_id s))
    (event_payload latency_float float_repr s) t old = old ++ [e]).
  { unfold insert_event. assert (existsb _ old = false) as ->; [|done].
    apply exists_where_false. intros x Hx. apply Hold; [by left|done]. }
  cbn [foldl]. rewrite Ei. destruct (IH (old ++ [e]) Hnd) as (evs & E & Hevs).
  { intros s' x Hs' [Hx| ->%list_elem_of_singleton]%elem_of_app; [apply Hold; [by right|done]|].
    unfold same_event, e. cbn. rewrite Z.eqb_refl. cbn.
    apply String.eqb_neq. intros Ek. destruct Hs. cbn. rewrite Ek.
    by apply (list_elem_of_fmap_2 (str_of_uuid ∘ ps_id)). }
  exists (e :: evs). rewrite E, <- app_assoc. split; [done|]. by constructor.
Qed.

(** New spans of a project, ready for their transaction. *)
Record fresh_batch (p : Z) (w : World) (l : list PreparedSpan) : Prop := {
  fb_aware : Forall aware l;
  fb_columns : ∀ s, s ∈ l → Z.abs (to_column 8 (ps_cost s)) < 10 ^ 12;
  fb_ids : NoDup (ps_id <$> l);
  fb_spans : ∀ s r, s ∈ l → r ∈ w_spans w → sp_id r ≠ ps_id s;
  fb_one : one_row (w_traces w);
  fb_own : own_ids p (ps_trace <$> l) (w_traces w);
}.

Lemma NoDup_map_weaken {A B C} (f : A → B) (g : B → C) (l : list A) :
  NoDup ((g ∘ f) <$> l) → NoDup (f <$> l).
Proof. rewrite list_fmap_compose. apply NoDup_fmap_1. Qed.

Lemma fresh_rows p w l : fresh_batch p w l → new_rows (w_spans w) (map row l) = map row l.
Proof.
  intros [_ _ Hid Hsp _ _]. apply new_rows_all.
  - apply (NoDup_map_weaken row_identity fst). rewrite list_fmap_compose.
    change (map row l) with (row <$> l). by rewrite <- !list_fmap_compose.
  - intros r Hr Hin. apply list_elem_of_fmap in Hr as (s & -> & Hs).
    apply list_elem_of_fmap in Hin as (r & E & Hr). apply (Hsp s r Hs Hr). by injection E.
Qed.

Lemma bulk_insert_run p w l : up w → fresh_batch p w l → l ≠ [] →
  bulk_insert_spans driver_utc l w
  = (Ok (row_identity <$> map row l), set_w_spans (λ t, t ++ map row l) w).
Proof.
  intros Hw Hf Hne. pose proof (fresh_rows p w l Hf) as Hrows.
  assert (Hc : existsb (λ s, 10 ^ 12 <=? Z.abs (to_column 8 (ps_cost s))) l = false).
  { apply exists_where_false. intros s Hs. apply Z.leb_gt. by apply (fb_columns p w l Hf). }
  unfold bulk_insert_spans. destruct l as [|s0 l0] eqn:El; [done|]. rewrite <- El in *.
  rewrite (bind_run _ _ _ _ _ (io_run w Hw)), Hc.
  eapply bind_run_eq; [done|]. eapply bind_run_eq; [done|]. eapply bind_run_eq; [done|].
  unfold mret, M_ret. rewrite insert_spans_spec, Hrows. cbn [snd]. f_equal.
  unfold set_w_spans. cbn. by rewrite insert_spans_spec, Hrows.
Qed.

Lemma enqueue_all_run p l w : up w →
  for_each l (enqueue_span_event latency_float float_repr p) w
  = (Ok tt, set_w_outbox (with_events latency_float float_repr p (w_now w) l) w).
Proof.
  revert w. induction l as [|s l IH]; intros w Hw; [by destruct w|]. cbn [for_each].
  eapply bind_run_eq.
  { unfold enqueue_span_event, enqueue_outbox_event.
    rewrite (bind_run now _ w (w_now w) w eq_refl). by apply sql_exec_run. }
  by rewrite IH.
Qed.

(** The tables after the transaction; [f] is what happens to the traces. *)
Definition committed (p : Z) (l : list PreparedSpan) (f : list TraceRow → list TraceRow)
    (w : World) : World :=
  set_w_buckets (λ t, foldl (upsert p) t (_bucket_payload (accumulate l)))
    (set_w_outbox (with_events latency_float float_repr p (w_now w) l)
      (set_w_traces f (set_w_spans (λ t, t ++ map row l) w))).

(** The starts of the traces of the batch, as rows and as tasks. *)
Record started (p : Z) (l : list PreparedSpan) (old new : list TraceRow)
    (ts : list (Z * timestamp)) : Prop := {
  sd_one : one_row new;
  sd_new : ∀ s, s ∈ l → Worker.covered new p (ps_trace s) (dt_utc (ps_started s));
  sd_old : ∀ q i t, Worker.covered old q i t → Worker.covered new q i t;
  sd_all : ∀ s, s ∈ l → ps_trace s ∈ ts.*1;
  sd_rows : ∀ tid t, (tid, t) ∈ ts →
    ∃ r, r ∈ new ∧ is_trace p tid r = true ∧ tr_started r = t;
}.

Lemma ensure_batch_run p w l :
  up w → one_row (w_traces w) → own_ids p (ps_trace <$> l) (w_traces w) →
  ∃ ts f, ensure_traces p (trace_map l) w = (Ok ts, set_w_traces f w) ∧
    started p l (w_traces w) (f (w_traces w)) ts.
Proof.
  intros Hw Hone Hown. destruct (trace_map_spec l) as [Hm1 Hm2].
  destruct (ensure_traces_run p (ps_trace <$> l) (trace_map l) w) as (ts & f & E & Ets & _ & Hts);
    [done..|exact Hm2|apply trace_map_keys|].
  exists ts, f. split; [done|].
  destruct (ensure_traces_ok p (ps_trace <$> l) _ _ _ _ E) as (K1 & K2 & K3);
    [done..|exact Hm2|].
  constructor; [exact K1| |exact K3| |exact Hts].
  - intros s Hs. destruct (Hm1 s Hs) as (s' & Hs' & Hle).
    destruct (K2 _ _ Hs') as (r & Hr & Hir & Hrt). exists r. split_and!; [done..|]. lia.
  - intros s Hs. rewrite Ets. destruct (Hm1 s Hs) as (s' & Hs' & _).
    by apply (list_elem_of_fmap_2 fst (trace_map l) (ps_trace s, s')).
Qed.

Lemma buckets_run p l w : up w → l ≠ [] →
  update_span_metric_buckets p l w
  = (Ok tt, set_w_buckets (λ t, foldl (upsert p) t (_bucket_payload (accumulate l))) w).
Proof. intros Hw Hl. destruct l as [|s l]; [done|]. by apply (sql_exec_run _ w Hw). Qed.

Lemma store_prepared_run p pid w l :
  up w → parse_uuid pid = Ok p → fresh_batch p w l → l ≠ [] →
  ∃ ts f, store_prepared driver_utc latency_float float_repr pid l 0 w
      = (Ok {| st_inserted := l; st_starts := ts; st_failed := 0 |}, committed p l f w) ∧
    started p l (w_traces w) (f (w_traces w)) ts.
Proof.
  intros Hw Hpid Hf Hne. set (w1 := set_w_spans (λ t, t ++ map row l) w).
  assert (Hm : ∃ ts f, match trace_map l with
    | [] => mret []
    | m => project ← lift (parse_uuid pid); ensure_traces project m
    end w1 = (Ok ts, set_w_traces f w1) ∧ started p l (w_traces w) (f (w_traces w)) ts).
  { destruct (ensure_batch_run p w1 l Hw) as (ts & f & E & Hs); [apply Hf|apply Hf|].
    exists ts, f. split; [|done]. rewrite Hpid. destruct (trace_map l) as [|ks m]; exact E. }
  destruct Hm as (ts & f & Em & Hs). exists ts, f. split; [|done].
  unfold store_prepared. rewrite (bind_run _ _ _ _ _ (bulk_insert_run p w l Hw Hf Hne)).
  rewrite select_inserted_all by apply Hf. fold w1. rewrite (bind_run _ _ _ _ _ Em).
  destruct l as [|s0 l0] eqn:El; [done|]. rewrite <- El in *. rewrite Hpid.
  eapply bind_run_eq.
  - eapply bind_run_eq; [done|]. eapply bind_run_eq; [by apply enqueue_all_run|].
    apply buckets_run; [done|by rewrite El].
  - eapply bind_run_eq; [by apply io_run|]. unfold committed, w1. by rewrite El.
Qed.

(** *** The task *)

Lemma for_each_kiq_run {A} (l : list A) (g : A → Task) w : up w →
  for_each l (λ x, kiq (g x)) w = (Ok tt, set_w_queue (λ q, q ++ map g l) w).
Proof.
  revert w. induction l as [|x l IH]; intros w Hw; cbn [for_each map].
  { destruct w; unfold set_w_queue; cbn. by rewrite app_nil_r. }
  rewrite (bind_run _ _ _ _ _ (kiq_run (g x) w Hw)), IH by done.
  unfold set_w_queue. cbn. by rewrite <- app_assoc.
Qed.

(** The tasks that follow a batch. *)
Definition follow_up (pid : string) (ts : list (Z * timestamp)) (sds : list SpanData)
    : list Task :=
  deliver_span_outbox_events_task (Some pid)
  :: map (λ t, update_trace_aggregates_task pid t.1 t.2) ts
  ++ [check_batch_anomalies_task pid sds].

Lemma after_commit_run b pid sds r w : up w → st_inserted r ≠ [] →
  ∃ st, after_commit b pid sds r w
    = (Ok tt, put_status pid b st (set_w_queue (λ q, q ++ follow_up pid (st_starts r) sds) w)) ∧
    b_status st = (if negb (st_failed r =? 0) then "partial_failed" else "processed") ∧
    b_processed st = Z.of_nat (length (st_inserted r)) ∧ b_failed st = st_failed r.
Proof.
  intros Hw Hne. set (w1 := set_w_queue (λ q, q ++ follow_up pid (st_starts r) sds) w).
  exists (merged pid b (λ b0,
    {| b_batch := b_batch b0;
       b_status := if negb (st_failed r =? 0) then "partial_failed" else "processed";
       b_accepted := b_accepted b0; b_processed := Z.of_nat (length (st_inserted r));
       b_failed := st_failed r;
       b_error := None; b_created := b_created b0; b_updated := b_updated b0 |}) w1).
  split; [|done]. unfold after_commit. eapply bind_run_eq.
  { destruct (st_inserted r); [by destruct Hne|]. unfold try_except. by rewrite kiq_run. }
  eapply bind_run_eq; [by apply for_each_kiq_run|].
  eapply bind_run_eq; [by apply kiq_run|]. unfold mark_finished.
  assert (E : set_w_queue (λ q, q ++ [check_batch_anomalies_task pid sds])
    (set_w_queue (λ q, q ++ map (λ x, update_trace_aggregates_task pid x.1 x.2) (st_starts r))
      (set_w_queue (λ q, q ++ [deliver_span_outbox_events_task (Some pid)]) w)) = w1).
  { unfold w1, set_w_queue, follow_up. cbn. by rewrite <- !app_assoc. }
  rewrite E. by apply merge_run.
Qed.

(** What a run of the task leaves. *)
Record processed (p : Z) (pid b : string) (sds : list SpanData) (l : list PreparedSpan)
    (ts : list (Z * timestamp)) (w w' : World) : Prop := {
  pr_up : up w';
  pr_now : w_now w' = w_now w;
  pr_spans : w_spans w' = w_spans w ++ map row l;
  pr_outbox : w_outbox w' = with_events latency_float float_repr p (w_now w) l (w_outbox w);
  pr_traces : started p l (w_traces w) (w_traces w') ts;
  pr_published : w_published w' = w_published w;
  pr_queue : w_queue w' = w_queue w ++ follow_up pid ts sds;
  pr_status : ∃ st, batch_lookup (batch_key pid b) w' = Some st ∧ b_status st = "processed" ∧
    b_processed st = Z.of_nat (length l) ∧ b_failed st = 0;
}.

Lemma load_settings_run pid w : up w →
  ∃ st, load_payload_privacy_settings pid w = (Ok st, w).
Proof. intros Hw. eexists. eapply bind_run_eq; [by apply sql_query_run|done]. Qed.

Lemma store_batch_run p pid ss w :
  up w → parse_uuid pid = Ok p → catalogue_ok (w_app w) → ss ≠ [] →
  (∀ s, s ∈ ss → acceptable (model_pricing (db (w_app w))) s) →
  (∀ l, Forall2 (prepared_as (model_pricing (db (w_app w))) p) ss l → fresh_batch p w l) →
  ∃ l ts f a b o,
    store_batch parse_dt driver_utc gzip_compress latency_float float_repr pid
      (map (span_data iso) ss) w
    = (Ok {| st_inserted := l; st_starts := ts; st_failed := 0 |},
       committed p l f (set_w_objects (λ _, o) (set_w_pricing (λ _, b) (set_w_app (λ _, a) w)))) ∧
    Forall2 (prepared_as (model_pricing (db (w_app w))) p) ss l ∧
    started p l (w_traces w) (f (w_traces w)) ts.
Proof.
  intros Hw Hpid [Hd Hc Hk] Hne Hss Hfresh. destruct (load_settings_run pid w Hw) as [st Est].
  set (w1 := set_w_pricing (λ _, ∅) w).
  destruct (prepare_all_run st (parse_redact_keys (Some (payload_redact_keys st)))
    (model_pricing (db (w_app w))) p pid ss w1) as (l & a & b & o & Ep & _ & Hl); try done.
  set (w2 := set_w_objects (λ _, o) (set_w_pricing (λ _, b) (set_w_app (λ _, a) w1))) in *.
  assert (Hln : l ≠ []) by (intros ->; by apply Forall2_nil_inv_r in Hl).
  destruct (store_prepared_run p pid w2 l Hw Hpid) as (ts & f & Es & Hts); [|done|].
  { by destruct (Hfresh l Hl). }
  exists l, ts, f, a, b, o. split; [|done]. apply get_db_run_ok.
  eapply bind_run_eq; [exact Est|]. eapply bind_run_eq; [done|].
  eapply bind_run_eq; [exact Ep|]. exact Es.
Qed.

Lemma process_run p pid b ss w :
  up w → parse_uuid pid = Ok p → catalogue_ok (w_app w) → ss ≠ [] →
  (∀ s, s ∈ ss → acceptable (model_pricing (db (w_app w))) s) →
  (∀ l, Forall2 (prepared_as (model_pricing (db (w_app w))) p) ss l → fresh_batch p w l) →
  ∃ l ts w', process_span_batch parse_dt driver_utc gzip_compress latency_float float_repr b pid
      (map (span_data iso) ss) w = (Ok tt, w') ∧
    Forall2 (prepared_as (model_pricing (db (w_app w))) p) ss l ∧
    processed p pid b (map (span_data iso) ss) l ts w w'.
Proof.
  intros Hw Hpid Hcat Hne Hss Hfresh. unfold process_span_batch, mark_processing.
  set (u := λ b0, _ : BatchStatus). set (w1 := put_status pid b (merged pid b u w) w).
  destruct (store_batch_run p pid ss w1 Hw Hpid Hcat Hne Hss)
    as (l & ts & f & a & c & o & Es & Hl & Hts).
  { intros l Hl. by destruct (Hfresh l Hl). }
  set (w2 := committed p l f _) in Es. assert (Hw2 : up w2) by exact Hw.
  assert (Hln : l ≠ []) by (intros ->; by apply Forall2_nil_inv_r in Hl).
  destruct (after_commit_run b pid (map (span_data iso) ss)
    {| st_inserted := l; st_starts := ts; st_failed := 0 |} w2 Hw2 Hln)
    as (st & Ea & Hst1 & Hst2 & Hst3).
  eexists l, ts, _. split; [|split; [done|]].
  - eapply bind_run_eq; [by apply get_batch_run|]. eapply bind_run_eq; [by apply merge_run|].
    unfold try_except. fold w1. by rewrite (bind_run _ _ _ _ _ Es), Ea.
  - constructor; try done. exists st. by rewrite put_status_lookup.
Qed.

(** *** Trace totals *)

(** The totals of a trace row are those of all its spans. *)
Definition summed (spans : list SpanRow) (r : TraceRow) : Prop :=
  let all := spans_of (tr_project r) (tr_id r) spans in
  tr_tokens r = sum_of (λ s, sp_input s + sp_output s) all ∧ tr_cost r = sum_of sp_cost all ∧
  tr_spans r = Z.of_nat (length all) ∧
  (tr_status r = "error" ↔ ∃ s, s ∈ all ∧ sp_status s = "error").

Definition all_covered (spans : list SpanRow) (traces : list TraceRow) : Prop :=
  one_row traces ∧
  ∀ s, s ∈ spans → Worker.covered traces (sp_project s) (sp_trace s) (sp_started s).

(** What the task of a trace does to the table. *)
Definition aggregated (p : Z) (spans : list SpanRow) (x : Z * timestamp)
    (traces : list TraceRow) : list TraceRow :=
  update_where (λ r, is_trace p x.1 r && (tr_started r =? x.2))
    (aggregate latency_interval (trace_spans p x.1 x.2 spans)) traces.

Lemma aggregates_run p pid x w :
  up w → parse_uuid pid = Ok p → sum_of (λ r, Z.abs (sp_cost r)) (w_spans w) < 10 ^ 12 →
  update_trace_aggregates latency_interval pid x.1 x.2 w
  = (Ok tt, set_w_traces (aggregated p (w_spans w) x) w).
Proof.
  intros Hw Hpid Hc. unfold update_trace_aggregates. rewrite Hpid.
  eapply bind_run_eq; [done|]. apply get_db_run_ok.
  eapply bind_run_eq; [by apply io_run|]. eapply bind_run_eq; [done|].
  assert (Hsum : Z.abs (sum_of sp_cost (trace_spans p x.1 x.2 (w_spans w))) < 10 ^ 12).
  { eapply Z.le_lt_trans; [|exact Hc]. unfold trace_spans, select.
    generalize (w_spans w) as l. clear. induction l as [|r l IH]; [done|]. cbn.
    destruct (_ && _); cbn; unfold sum_of in *; lia. }
  apply Z.leb_gt in Hsum. rewrite Hsum.
  eapply bind_run_eq; [done|]. eapply bind_run_eq; [done|]. by apply io_run.
Qed.

Lemma aggregate_summed spans traces p tid r :
  all_covered spans traces → r ∈ traces → is_trace p tid r = true →
  summed spans (aggregate latency_interval (trace_spans p tid (tr_started r) spans) r).
Proof.
  intros [Hone Hc] Hr Hir. rewrite (trace_spans_all spans traces) by done.
  apply is_trace_spec in Hir. injection Hir as Hp Ht. unfold summed. cbn. rewrite Hp, Ht.
  split; [done|]. split; [done|]. split; [done|].
  destruct (existsb _ _) eqn:Ex; cbn.
  - apply exists_where_true in Ex as (s & Hs & ?%String.eqb_eq). split; [by exists s|done].
  - split; [done|]. intros (s & Hs & Hst).
    eapply exists_where_false in Ex; [|exact Hs]. by rewrite Hst in Ex.
Qed.

Lemma aggregated_covered p spans x traces :
  all_covered spans traces → all_covered spans (aggregated p spans x traces).
Proof.
  intros [Hone Hc]. split.
  - unfold one_row, aggregated. by rewrite update_where_column.
  - intros s Hs. destruct (Hc s Hs) as (r & Hr & Hir & Hle).
    eexists. split; [apply elem_of_update_where; exists r; split; [exact Hr|reflexivity]|].
    by destruct (_ && _).
Qed.

(** The row at a start, with its totals. *)
Definition totalled (p : Z) (spans : list SpanRow) (traces : list TraceRow)
    (x : Z * timestamp) : Prop :=
  ∃ r, r ∈ traces ∧ is_trace p x.1 r = true ∧ tr_started r = x.2 ∧ summed spans r.

Lemma aggregated_row p spans x traces r :
  r ∈ traces → is_trace p x.1 r = true → tr_started r = x.2 →
  aggregate latency_interval (trace_spans p x.1 x.2 spans) r ∈ aggregated p spans x traces.
Proof.
  intros Hr Hir Hst. apply elem_of_update_where. exists r.
  by rewrite Hir, Hst, Z.eqb_refl.
Qed.

Lemma aggregated_keeps p spans x y traces :
  all_covered spans traces → totalled p spans traces y →
  totalled p spans (aggregated p spans x traces) y.
Proof.
  intros Hc (r & Hr & Hir & Hst & Hs).
  destruct (is_trace p x.1 r && (tr_started r =? x.2)) eqn:Ex.
  - apply andb_true_iff in Ex as [Ex1 Ex2%Z.eqb_eq].
    exists (aggregate latency_interval (trace_spans p x.1 x.2 spans) r).
    split; [by apply aggregated_row|]. split; [done|]. split; [done|].
    rewrite <- Ex2. by eapply aggregate_summed.
  - exists r. split; [|done]. apply elem_of_update_where. exists r. by rewrite Ex.
Qed.

Lemma aggregated_all p spans (ts : list (Z * timestamp)) traces :
  all_covered spans traces →
  (∀ x, x ∈ ts → ∃ r, r ∈ traces ∧ is_trace p x.1 r = true ∧ tr_started r = x.2) →
  ∀ x, x ∈ ts → totalled p spans (foldl (λ l x, aggregated p spans x l) traces ts) x.
Proof.
  assert (Hfold : ∀ ts traces y, all_covered spans traces → totalled p spans traces y →
    totalled p spans (foldl (λ l x, aggregated p spans x l) traces ts) y).
  { intros us. induction us as [|u us IH]; intros l y Hl Hy; [done|]. cbn.
    apply IH; [by apply aggregated_covered|by apply aggregated_keeps]. }
  revert traces. induction ts as [|x ts IH]; intros traces Hc Hrows y Hy;
    [by apply not_elem_of_nil in Hy|]. cbn.
  apply elem_of_cons in Hy as [->|Hy].
  - apply Hfold; [by apply aggregated_covered|].
    destruct (Hrows x ltac:(by left)) as (r & Hr & Hir & Hst).
    exists (aggregate latency_interval (trace_spans p x.1 x.2 spans) r).
    split; [by apply aggregated_row|]. split; [done|]. split; [done|].
    rewrite <- Hst. by eapply aggregate_summed.
  - apply IH; [by apply aggregated_covered| |done]. intros z Hz.
    destruct (Hrows z ltac:(by right)) as (r & Hr & Hir & Hst).
    eexists. split; [apply elem_of_update_where; exists r; split; [exact Hr|reflexivity]|].
    by destruct (_ && _).
Qed.

(** ** The queue

    A worker takes the task at the head of the queue. *)

Section worker.
Context (ip_address : string → option Ip) (urljoin : string → string → string)
        (float_of_decimal : decimal → pyfloat)
        (avg : list decimal → decimal) (stddev : list decimal → option decimal)
        (anomaly_message : AlertRule → SpanData → string) (uuid : AlertRule → string).

Definition run_task (t : Task) : M Alerting unit :=
  match t with
  | process_span_batch_task batch_id project_id spans =>
      on_world (process_span_batch parse_dt driver_utc gzip_compress latency_float float_repr
                  batch_id project_id spans)
  | deliver_span_outbox_events_task project_id =>
      on_world (
        project ← lift (match project_id with
                        | Some s => n ← sql_uuid s; Ok (Some n)
                        | None => Ok None
                        end);
        deliver_span_outbox_events project 100)
  | update_trace_aggregates_task project_id trace_id started_at =>
      on_world (update_trace_aggregates latency_interval project_id trace_id started_at)
  | check_batch_anomalies_task project_id spans =>
      check_batch_anomalies ip_address urljoin float_of_decimal avg stddev anomaly_message uuid
        project_id spans
  end.

Definition run_next : M Alerting unit :=
  head ← gets (λ a, head (w_queue (al_world a)));
  match head with
  | None => mret tt
  | Some t => on_world (modify (set_w_queue tail));; run_task t
  end.

Fixpoint run_tasks (n : nat) : M Alerting unit :=
  match n with
  | O => mret tt
  | S n' => run_next;; run_tasks n'
  end.

Definition with_world (w : World) (a : Alerting) : Alerting := set_al_world (λ _, w) a.

Lemma run_next_run t q a r :
  w_queue (al_world a) = t :: q →
  run_task t (with_world (set_w_queue (λ _, q) (al_world a)) a) = r → run_next a = r.
Proof.
  intros Hq <-. unfold run_next. eapply bind_run_eq; [done|]. rewrite Hq. cbn [head].
  eapply bind_run_eq; [done|]. unfold modify, with_world. cbn.
  by replace (set_w_queue tail (al_world a)) with (set_w_queue (λ _, q) (al_world a))
    by (unfold set_w_queue; by rewrite Hq).
Qed.

Lemma run_deliver p pid a w' :
  parse_uuid pid = Ok p → deliver_span_outbox_events (Some p) 100 (al_world a) = (Ok tt, w') →
  run_task (deliver_span_outbox_events_task (Some pid)) a = (Ok tt, with_world w' a).
Proof.
  intros Hp Hd. assert (Hsql : sql_uuid pid = Ok p).
  { unfold parse_uuid in Hp. unfold sql_uuid. by destruct (uuid_of_str pid). }
  cbn [run_task]. rewrite Hsql. unfold on_world.
  by rewrite (bind_run (lift _) _ _ (Some p) (al_world a) eq_refl), Hd.
Qed.

(** The tasks of the traces. *)
Lemma run_aggregates p pid ts rest a :
  up (al_world a) → parse_uuid pid = Ok p →
  sum_of (λ r, Z.abs (sp_cost r)) (w_spans (al_world a)) < 10 ^ 12 →
  w_queue (al_world a) = map (λ t, update_trace_aggregates_task pid t.1 t.2) ts ++ rest →
  run_tasks (length ts) a
  = (Ok tt, with_world (set_w_queue (λ _, rest) (set_w_traces
      (λ l, foldl (λ l x, aggregated p (w_spans (al_world a)) x l) l ts) (al_world a))) a).
Proof.
  revert a. induction ts as [|x ts IH]; intros a Hw Hpid Hc Hq.
  - cbn in *. destruct a as [w]; unfold with_world; cbn in *. by destruct w; cbn in *; subst.
  - cbn [run_tasks length map foldl] in *. eapply bind_run_eq.
    { eapply run_next_run; [exact Hq|]. cbn [run_task]. unfold on_world.
      by rewrite (aggregates_run p pid x) by done. }
    rewrite IH; done.
Qed.

(** ** An upload becomes visible *)

(** The cost of a span at the catalogue's prices, in the column's unit. *)
Definition price (rows : list ModelPrice) (s : SpanSchema) : Z :=
  match cost_spec rows (provider s) (model s) (input_tokens s) (output_tokens s)
          (dt_utc (started_at s)) with
  | Ok c => to_column 8 c
  | Raise _ => 0
  end.

(** A batch of new spans and a program at rest with its services up: an empty
    queue, a coherent catalogue, traces that cover their spans, room in one run
    of delivery and in the columns for the new totals. *)
Record uploadable (p : Z) (ss : list SpanSchema) (w : World) : Prop := {
  ul_services : up w;
  ul_queue : w_queue w = [];
  ul_catalogue : catalogue_ok (w_app w);
  ul_traces : all_covered (w_spans w) (w_traces w);
  ul_events : NoDup (event_ids w);
  ul_some : ss ≠ [];
  ul_spans : ∀ s, s ∈ ss → acceptable (model_pricing (db (w_app w))) s;
  ul_ids : NoDup ((λ s, parse_uuid (span_id s)) <$> ss);
  ul_new : ∀ s n, s ∈ ss → parse_uuid (span_id s) = Ok n →
    (∀ r, r ∈ w_spans w → sp_id r ≠ n) ∧
    (∀ e, e ∈ w_outbox w → same_event p OUTBOX_SPAN_INSERTED (str_of_uuid n) e = false);
  ul_own : ∀ s n t, s ∈ ss → parse_uuid (trace_id s) = Ok n → t ∈ w_traces w →
    tr_id t = n → tr_project t = p;
  ul_backlog :
    (length (select (claimable OUTBOX_SPAN_INSERTED (Some p) (w_now w)) (w_outbox w))
     + length ss ≤ 100)%nat;
  ul_total : sum_of (λ r, Z.abs (sp_cost r)) (w_spans w)
    + sum_of (λ s, Z.abs (price (model_pricing (db (w_app w))) s)) ss < 10 ^ 12;
}.

(** The row of a span. *)
Record row_of_span (rows : list ModelPrice) (p : Z) (s : SpanSchema) (r : SpanRow) : Prop := {
  rs_id : parse_uuid (span_id s) = Ok (sp_id r);
  rs_trace : parse_uuid (trace_id s) = Ok (sp_trace r);
  rs_project : sp_project r = p;
  rs_started : sp_started r = dt_utc (started_at s);
  rs_texts : (sp_name r, sp_provider r, sp_model r) = (name s, provider s, model s);
  rs_tokens : (sp_input r, sp_output r) = (input_tokens s, output_tokens s);
  rs_cost : sp_cost r = price rows s;
}.

(** The event of a row was published, its trace totalled. *)
Record visible (w : World) (r : SpanRow) : Prop := {
  vi_event : ∃ e, e ∈ w_outbox w ∧ ob_status e = DELIVERED ∧ message e ∈ w_published w ∧
    same_event (sp_project r) OUTBOX_SPAN_INSERTED (str_of_uuid (sp_id r)) e = true;
  vi_trace : ∃ t, t ∈ w_traces w ∧ is_trace (sp_project r) (sp_trace r) t = true ∧
    tr_started t <= sp_started r ∧ summed (w_spans w) t;
}.

Lemma prepared_row rows p s ps :
  acceptable rows s → prepared_as rows p s ps → row_of_span rows p s (row ps).
Proof.
  intros [_ _ _ _ [off [Hoff _]] _ _] [H1 H2 H3 H4 H5 H6 H7 _]. split; try done; cbn.
  - unfold db_time. by rewrite H4, Hoff.
  - unfold price. by rewrite H7.
Qed.

Lemma prepared_rows rows p ss l :
  (∀ s, s ∈ ss → acceptable rows s) → Forall2 (prepared_as rows p) ss l →
  Forall2 (row_of_span rows p) ss (map row l).
Proof.
  intros Ha Hl. induction Hl as [|s ps ss l Hs _ IH]; [by constructor|]. constructor.
  - apply prepared_row; [apply Ha; by left|done].
  - apply IH. intros x Hx. apply Ha. by right.
Qed.

Lemma prepared_from_span rows p ss l ps :
  Forall2 (prepared_as rows p) ss l → ps ∈ l → ∃ s, s ∈ ss ∧ prepared_as rows p s ps.
Proof.
  intros Hl. induction Hl as [|s x ss l Hs _ IH]; [by intros ?%not_elem_of_nil|].
  intros [->|Hin]%elem_of_cons; [exists s; split; [by left|done]|].
  destruct (IH Hin) as (s' & ? & ?). exists s'. split; [by right|done].
Qed.

Lemma uploadable_fresh p ss w l :
  uploadable p ss w → Forall2 (prepared_as (model_pricing (db (w_app w))) p) ss l →
  fresh_batch p w l.
Proof.
  intros Hu Hl. constructor.
  - apply Forall_forall. intros ps Hps.
    destruct (prepared_from_span _ _ _ _ _ Hl Hps) as (s & Hs & Hp).
    destruct (acc_offset _ _ (ul_spans _ _ _ Hu s Hs)) as [off [Hoff _]].
    exists off. by rewrite (pa_started _ _ _ _ Hp).
  - intros ps Hps. destruct (prepared_from_span _ _ _ _ _ Hl Hps) as (s & _ & Hp).
    apply Hp.
  - assert (E : (λ s, parse_uuid (span_id s)) <$> ss = Ok <$> (ps_id <$> l)).
    { clear Hu. induction Hl as [|s ps ss l Hs _ IH]; [done|]. cbn. f_equal; [apply Hs|exact IH]. }
    pose proof (ul_ids _ _ _ Hu) as Hn. rewrite E in Hn. by apply NoDup_fmap_1 in Hn.
  - intros ps r Hps. destruct (prepared_from_span _ _ _ _ _ Hl Hps) as (s & Hs & Hp).
    apply (ul_new _ _ _ Hu s); [done|apply Hp].
  - apply (ul_traces _ _ _ Hu).
  - intros t Ht Hin. apply list_elem_of_fmap in Hin as (ps & Etr & Hps).
    destruct (prepared_from_span _ _ _ _ _ Hl Hps) as (s & Hs & Hp).
    apply (ul_own _ _ _ Hu s (tr_id t) t Hs); [|done|done]. rewrite Etr. apply Hp.
Qed.

(** *** Delivery *)

(** New events are claimable, and delivery leaves each published and marked. *)
Lemma delivery_run p l evs w :
  up w → NoDup (event_ids w) →
  Forall2 (λ s e, e = pending_event (ob_id e) p OUTBOX_SPAN_INSERTED (str_of_uuid (ps_id s))
    (event_payload latency_float float_repr s) (w_now w)) l evs →
  ∀ old, w_outbox w = old ++ evs →
  (length (select (claimable OUTBOX_SPAN_INSERTED (Some p) (w_now w)) old) + length l ≤ 100)%nat →
  ∃ f g, deliver_span_outbox_events (Some p) 100 w = (Ok tt, set_w_outbox f (set_w_published g w)) ∧
    ∀ s, s ∈ l → ∃ e, e ∈ f (w_outbox w) ∧ ob_status e = DELIVERED ∧
      message e ∈ g (w_published w) ∧
      same_event p OUTBOX_SPAN_INSERTED (str_of_uuid (ps_id s)) e = true.
Proof.
  intros Hw Hn Hev old Ho Hlen.
  set (cl := claimable OUTBOX_SPAN_INSERTED (Some p) (w_now w)).
  assert (Hcl : ∀ s e, e = pending_event (ob_id e) p OUTBOX_SPAN_INSERTED (str_of_uuid (ps_id s))
    (event_payload latency_float float_repr s) (w_now w) → cl e = true).
  { intros s e ->. unfold cl, claimable. cbn. by rewrite Z.leb_refl, Z.eqb_refl. }
  assert (Hsel : select cl evs = evs).
  { clear Ho Hlen. induction Hev as [|s e l evs E _ IH]; [done|]. unfold select in *. cbn.
    by rewrite (Hcl s e E), IH. }
  assert (Hready : select cl (w_outbox w) = select cl old ++ evs).
  { rewrite Ho. unfold select. by rewrite List.filter_app; f_equal. }
  eexists _, _. split.
  - apply deliver_run; [done|done|]. fold cl. rewrite Hready, length_app.
    by rewrite <- (Forall2_length _ _ _ Hev).
  - fold cl. intros s Hs.
    assert (He : ∃ e, e ∈ evs ∧ e = pending_event (ob_id e) p OUTBOX_SPAN_INSERTED
      (str_of_uuid (ps_id s)) (event_payload latency_float float_repr s) (w_now w)).
    { clear -Hev Hs. induction Hev as [|x e l evs E _ IH]; [by apply not_elem_of_nil in Hs|].
      apply elem_of_cons in Hs as [->|Hs]; [exists e; split; [by left|done]|].
      destruct (IH Hs) as (e' & ? & ?). exists e'. split; [by right|done]. }
    destruct He as (e & He & E). exists (delivered (w_now w) (processing (w_now w) e)).
    split_and!; [|done| |].
    + apply elem_of_update_where. exists e. rewrite (Hcl s e E). split; [|done].
      rewrite Ho. apply elem_of_app. by right.
    + apply elem_of_app. right. rewrite Hready, map_app. apply elem_of_app. right.
      apply list_elem_of_fmap. by exists e.
    + rewrite E. unfold same_event. cbn. by rewrite Z.eqb_refl, String.eqb_refl.
Qed.

(** *** Everything together *)

Lemma aggregated_fold_covered p spans (ts : list (Z * timestamp)) traces :
  all_covered spans traces →
  all_covered spans (foldl (λ l x, aggregated p spans x l) traces ts).
Proof.
  revert traces. induction ts as [|x ts IH]; intros traces Hc; [done|].
  by apply IH, aggregated_covered.
Qed.

(** The tables after the batch: every span has a row that covers it. *)
Lemma processed_covered p pid b sds l ts w w' :
  processed p pid b sds l ts w w' → Forall aware l → (∀ s, s ∈ l → ps_project s = p) →
  all_covered (w_spans w) (w_traces w) → all_covered (w_spans w') (w_traces w').
Proof.
  intros Hpr Ha Hproj [_ Hc]. pose proof (pr_traces _ _ _ _ _ _ _ _ Hpr) as Hs.
  split; [apply Hs|]. rewrite (pr_spans _ _ _ _ _ _ _ _ Hpr).
  intros r [Hr|Hr]%elem_of_app; [by eapply sd_old, Hc|].
  apply list_elem_of_fmap in Hr as (s & -> & Hin). cbn. rewrite (Hproj s Hin).
  rewrite Forall_forall in Ha. destruct (Ha s Hin) as [off Hoff].
  unfold db_time. rewrite Hoff. by eapply sd_new.
Qed.

Lemma totalled_visible p spans traces ts s :
  all_covered spans traces → row s ∈ spans → aware s → ps_project s = p →
  (∀ x, x ∈ ts → totalled p spans traces x) → ps_trace s ∈ (ts : list (Z * timestamp)).*1 →
  ∃ t, t ∈ traces ∧ is_trace (sp_project (row s)) (sp_trace (row s)) t = true ∧
    tr_started t <= sp_started (row s) ∧ summed spans t.
Proof.
  intros [Hone Hc] Hs [off Hoff] Hp Hts Htid.
  apply list_elem_of_fmap in Htid as ([tid t] & Etid & Hin). cbn in Etid. subst tid.
  destruct (Hts _ Hin) as (r & Hr & Hir & _ & Hsum). cbn in Hir.
  exists r. cbn [span_row sp_project sp_trace]. rewrite Hp. split_and!; [done..| |done].
  destruct (Hc _ Hs) as (r1 & Hr1 & Hi1 & Hle). cbn [span_row sp_project sp_trace] in Hi1.
  rewrite Hp in Hi1. apply is_trace_spec in Hir, Hi1.
  by rewrite (one_row_unique _ r1 r Hone Hr1 Hr) in Hle by congruence.
Qed.

Lemma prepared_keys rows p ss l :
  Forall2 (prepared_as rows p) ss l → NoDup (ps_id <$> l) →
  NoDup ((str_of_uuid ∘ ps_id) <$> l).
Proof.
  intros Hl Hn. rewrite list_fmap_compose. apply NoDup_fmap_2_strong; [|done].
  intros x y Hx Hy. apply list_elem_of_fmap in Hx as (s & -> & Hs), Hy as (s' & -> & Hs').
  assert (Hv : ∀ s, s ∈ l → valid (ps_id s)).
  { intros s0 Hs0. destruct (prepared_from_span _ _ _ _ _ Hl Hs0) as (x & _ & [Hid _ _ _ _ _ _ _]).
    unfold parse_uuid in Hid. destruct (uuid_of_str (span_id x)) as [n|] eqn:E; [|done].
    injection Hid as <-. by eapply uuid_of_str_range. }
  apply str_of_uuid_inj; by apply Hv.
Qed.

Lemma prepared_prices rows p ss l :
  Forall2 (prepared_as rows p) ss l →
  sum_of (λ r, Z.abs (sp_cost r)) (map row l) = sum_of (λ s, Z.abs (price rows s)) ss.
Proof.
  induction 1 as [|s ps ss l Hs _ IH]; [done|]. unfold sum_of in *. cbn [map foldr].
  rewrite IH. f_equal. unfold price. by rewrite (pa_cost _ _ _ _ Hs).
Qed.

(** The outbox after the batch: an event for each span, ids still unique. *)
Lemma processed_events p pid b sds ss l ts w w' :
  uploadable p ss w → Forall2 (prepared_as (model_pricing (db (w_app w))) p) ss l →
  processed p pid b sds l ts w w' →
  NoDup (event_ids w') ∧ ∃ evs, w_outbox w' = w_outbox w ++ evs ∧
    Forall2 (λ s e, e = pending_event (ob_id e) p OUTBOX_SPAN_INSERTED (str_of_uuid (ps_id s))
      (event_payload latency_float float_repr s) (w_now w')) l evs.
Proof.
  intros Hu Hl Hpr. pose proof (uploadable_fresh p ss w l Hu Hl) as Hf.
  rewrite (pr_now _ _ _ _ _ _ _ _ Hpr). unfold event_ids.
  rewrite (pr_outbox _ _ _ _ _ _ _ _ Hpr). split; [by apply with_events_ids, Hu|].
  apply with_events_new; [by eapply prepared_keys, Hf|].
  intros s e Hs He. destruct (prepared_from_span _ _ _ _ _ Hl Hs) as (x & Hx & Hpx).
  apply (ul_new _ _ _ Hu x (ps_id s)); [done|apply Hpx|done].
Qed.

(** The follow-up tasks of the batch. *)
Lemma follow_up_run p pid b sds ss l ts w a :
  uploadable p ss w → parse_uuid pid = Ok p →
  Forall2 (prepared_as (model_pricing (db (w_app w))) p) ss l →
  processed p pid b sds l ts w (al_world a) →
  ∃ a', run_tasks (S (length ts)) a = (Ok tt, a') ∧
    let w' := al_world a' in
    w_queue w' = [check_batch_anomalies_task pid sds] ∧
    w_batches w' = w_batches (al_world a) ∧ w_now w' = w_now (al_world a) ∧
    w_spans w' = w_spans (al_world a) ∧ ∀ s, s ∈ l → visible w' (row s).
Proof.
  intros Hu Hpid Hl Hpr. pose proof (uploadable_fresh p ss w l Hu Hl) as Hf.
  destruct (processed_events p pid b sds ss l ts w (al_world a) Hu Hl Hpr)
    as (Hids & evs & Hout & Hevs).
  assert (Hproj : ∀ s, s ∈ l → ps_project s = p).
  { intros s Hs. by destruct (prepared_from_span _ _ _ _ _ Hl Hs) as (x & _ & []). }
  assert (Hcov := processed_covered _ _ _ _ _ _ _ _ Hpr (fb_aware _ _ _ Hf) Hproj
    (ul_traces _ _ _ Hu)).
  pose proof Hpr as [Hw Hnow Hspans _ Hts _ Hqueue _]. rewrite (ul_queue _ _ _ Hu) in Hqueue.
  set (w4 := set_w_queue (λ _, tail (follow_up pid ts sds)) (al_world a)).
  destruct (delivery_run p l evs w4 Hw Hids Hevs (w_outbox w) Hout) as (f & g & Edel & Hdel).
  { change (w_now w4) with (w_now (al_world a)). rewrite Hnow.
    rewrite <- (Forall2_length _ _ _ Hl). apply Hu. }
  set (w5 := set_w_outbox f (set_w_published g w4)).
  eexists. split.
  - cbn [run_tasks]. eapply bind_run_eq.
    + eapply run_next_run; [exact Hqueue|]. by eapply run_deliver.
    + apply (run_aggregates p pid ts [check_batch_anomalies_task pid sds] (with_world w5 a));
        [done|done| |done].
      change (w_spans (al_world (with_world w5 a))) with (w_spans (al_world a)).
      rewrite Hspans, sum_of_app, (prepared_prices _ _ _ _ Hl). apply Hu.
  - cbn [al_world with_world set_al_world]. split_and!; try done. intros s Hs. constructor.
    + cbn [span_row sp_project sp_id]. rewrite (Hproj s Hs). by apply Hdel.
    + apply (totalled_visible p (w_spans (al_world a)) _ ts).
      * by apply aggregated_fold_covered.
      * rewrite Hspans. apply elem_of_app. right. by apply list_elem_of_fmap_2.
      * assert (Ha := fb_aware _ _ _ Hf). rewrite Forall_forall in Ha. by apply Ha.
      * by apply Hproj.
      * intros x Hx. apply aggregated_all; [done| |done]. intros [tid t] Hy.
        by apply (sd_rows _ _ _ _ _ Hts).
      * by apply (sd_all _ _ _ _ _ Hts).
Qed.

End worker.
End flow.

(** ** A batch of two spans *)

Definition one_instant : pydatetime :=
  {| dt_local := 1767225665 * second; dt_offset := Some 0 |}.

Definition uploaded (id : Z) : SpanSchema :=
  {| span_id := str_of_uuid id; trace_id := str_of_uuid 1; parent_span_id := None;
     name := "chat"; provider := "openai"; model := "gpt-4o"; input_messages := [];
     output := Some "hi"; error := None; input_tokens := 10; output_tokens := 20;
     latency_ms := mkdec 125 (-1); started_at := one_instant; metadata := [] |}.

Definition two_spans : IngestRequest :=
  {| spans := [uploaded 11; uploaded 12]; idempotency_key := Some "sdk-1" |}.

(** A program with prices and nothing else yet. *)
Definition at_rest : Alerting :=
  alerting (set_w_app (λ _, app_of_rows sample_rows) (empty_world (1767225700 * second) [])).

Lemma two_spans_uploadable :
  uploadable sample_parse_dt (λ _, "2026-01-01T00:01:05Z") 7 (spans two_spans) (al_world at_rest).
Proof.
  constructor.
  - done.
  - done.
  - destruct sample_priced. by constructor.
  - split; [by apply NoDup_nil|]. by intros s ?%not_elem_of_nil.
  - by apply NoDup_nil.
  - done.
  - intros s Hs. change (s ∈ [uploaded 11; uploaded 12]) in Hs. assert (∃ n, s = uploaded n ∧ 0 <= n < 2 ^ 128) as (n & -> & Hn).
    { enum_rows; [by exists 11|by exists 12]. }
    constructor; [| |done|done|by exists 0|done|].
    + exists n. cbn -[str_of_uuid]. unfold parse_uuid. by rewrite uuid_of_str_of_uuid.
    + exists 1. by vm_compute.
    + eexists. split; [by vm_compute|]. by vm_compute.
  - apply (bool_decide_unpack (NoDup [Ok 11; Ok 12])). by vm_compute.
  - intros s n _ _. split; [by intros r ?%not_elem_of_nil|by intros e ?%not_elem_of_nil].
  - by intros s n t _ _ ?%not_elem_of_nil.
  - apply (bool_decide_unpack (0 + 2 ≤ 100)%nat). by vm_compute.
  - by vm_compute.
Qed.

Definition run_two_spans : M Alerting IngestResponse :=
  r ← on_world (ingest_spans (λ _, "hash") (λ _, "2026-01-01T00:01:05Z")
                  (λ _, SpecFloat.S754_zero false) (λ _, "0.0") (mret tt)
                  (str_of_uuid 7) two_spans (str_of_uuid 5));
  run_tasks sample_parse_dt id id (λ _, SpecFloat.S754_zero false) (λ _, "0.0") (λ _, 0)
    (λ _, None) (λ _ s, s) (λ _, SpecFloat.S754_zero false) (λ _, mkdec 0 0) (λ _, None)
    (λ _ _, "m") (λ _, "u") 3;;
  mret r.

(** Three tasks later both spans are priced, announced and totalled. *)
Example two_spans_run :
  let w := al_world (run_two_spans at_rest).2 in
  w_queue w = [check_batch_anomalies_task (str_of_uuid 7)
                 (map (span_data (λ _, "2026-01-01T00:01:05Z")) (spans two_spans))] ∧
  map sp_cost (w_spans w) = [18000; 18000] ∧ length (w_published w) = 2%nat ∧
  map tr_cost (w_traces w) = [36000].
Proof. split; [by vm_compute|]. split; [by vm_compute|]. split; by vm_compute. Qed.

