(* ===== verification/Seed.v ===== *)
(** * Demo data

    [backend/seed/create_demo_data.py]: one session that inserts an
    organization, a project and two thousand spans, and commits.  What
    [random] and [uuid] give, and the hash of the demo key, are variables.  A
    statement on [spans] is subject to the policy of the migrations unless the
    role of the session is exempt from it; [projects.org_id] refers to
    [organizations], [spans.project_id] to nothing. *)

From S2P Require Import Prelude Text Schema.

Local Open Scope Z_scope.

Definition MODELS : list (string * string) :=
  [("openai", "gpt-4o"); ("openai", "gpt-4o-mini"); ("anthropic", "claude-sonnet-4-5")]%string.

Definition NAMES : list string := ["llm.completion"; "rag.retrieve"; "agent.step"]%string.

Definition SPANS : nat := 2000.

(** What the generator draws for one span: an index into each list, how many
    microseconds ago it started, the two token counts, the latency in
    microseconds, the cost in units of 1e-8 and whether it failed. *)
Record Draw : Type := {
  dr_model : nat; dr_name : nat; dr_ago : Z; dr_input : Z; dr_output : Z;
  dr_latency : Z; dr_cost : Z; dr_error : bool;
}.

Record SeedSpan : Type := {
  ss_id : string; ss_trace : string; ss_project : string; ss_name : string;
  ss_provider : string; ss_model : string; ss_input : Z; ss_output : Z;
  ss_latency : Z; ss_cost : Z; ss_status : string; ss_started : timestamp;
}.

(** The control plane and the table of spans. *)
Record SeedDb : Type := { sd_db : Db; sd_spans : list SeedSpan }.

(** [INSERT ... ON CONFLICT DO NOTHING] *)
Definition insert_or_skip {A} (conflict : A → A → bool) (r : A) (t : list A) : list A :=
  if existsb (conflict r) t then t else t ++ [r].

(** [project_id = NULLIF(current_setting('app.current_project_id', true), '')::uuid],
    which a new row has to satisfy as well. *)
Definition policy_admits (context : option string) (project_id : string) : bool :=
  match context with Some c => truthy c && String.eqb project_id c | None => false end.

Definition policy_violation : exn := SQLAlchemyError "InsufficientPrivilegeError".

Section seed.
(** The successive results of [uuid.uuid4()], the draws of each span, the
    SHA-256 digest of the demo key; whether the role of [DATABASE_URL] is exempt
    from row-level security; the clock. *)
Context (uuid4 : nat → string) (draw : nat → Draw) (key_hash : string) (exempt : bool)
  (now : timestamp).

Definition demo_organization (id : string) : Organization :=
  {| org_id := id; org_name := "Demo Org"; org_slug := "demo-org" |}.

Definition demo_project (id org : string) : Project :=
  {| p_id := id; p_org := org; p_name := "Default"; p_key_hash := key_hash;
     p_retention_days := 90; p_payload_mode := "all"; p_payload_max_bytes := 262144;
     p_redact_keys := "api_key,password,secret,token,authorization"; p_active := true;
     p_created := now |}.

Definition demo_span (project_id : string) (first : nat) (i : nat) : SeedSpan :=
  let d := draw i in
  let '(provider, model) := nth (dr_model d) MODELS ("", "")%string in
  let hours_ago := Z.min (dr_ago d) (7 * day) in
  {| ss_id := uuid4 (first + 2 * i); ss_trace := uuid4 (first + 2 * i + 1);
     ss_project := project_id; ss_name := nth (dr_name d) NAMES ""; ss_provider := provider;
     ss_model := model; ss_input := Z.max 0 (dr_input d); ss_output := Z.max 0 (dr_output d);
     ss_latency := Z.max 50000 (dr_latency d); ss_cost := dr_cost d;
     ss_status := if dr_error d then "error" else "ok"; ss_started := now - hours_ago |}.

Definition add_demo_organization (org : string) (s : SeedDb) : SeedDb :=
  {| sd_db := set_organizations
       (insert_or_skip organization_conflict (demo_organization org)) (sd_db s);
     sd_spans := sd_spans s |}.

(** A project that conflicts with none, of an organization that is not there, is
    refused by the foreign key. *)
Definition add_demo_project (project_id org : string) : M SeedDb unit :=
  s ← gets id;
  let p := demo_project project_id org in
  if existsb (project_conflict p) (projects (sd_db s)) then mret tt
  else
    raise_when (negb (existsb (λ o, String.eqb (org_id o) org) (organizations (sd_db s))))
      (SQLAlchemyError "IntegrityError") ;;
    modify (λ s, {| sd_db := set_projects (λ t, t ++ [p]) (sd_db s); sd_spans := sd_spans s |}).

(** [drawn] counts the identifiers drawn by earlier runs.  The session has no
    project in its context. *)
Definition seed (drawn : nat) : M SeedDb unit :=
  atomic (λ before _, before)
    (let org := uuid4 drawn in
     let project_id := uuid4 (S drawn) in
     modify (add_demo_organization org) ;;
     add_demo_project project_id org ;;
     let spans := map (demo_span project_id (S (S drawn))) (seq 0 SPANS) in
     raise_when (negb (exempt || forallb (λ x, policy_admits None (ss_project x)) spans))
       policy_violation ;;
     modify (λ s, {| sd_db := sd_db s; sd_spans := sd_spans s ++ spans |})).

(** ** Facts *)

Lemma demo_span_project p first i : ss_project (demo_span p first i) = p.
Proof. unfold demo_span. by destruct (nth _ MODELS _). Qed.

(** Every generated span is of the last seven days and has plausible numbers. *)
Lemma demo_span_plausible p first i : 0 <= dr_ago (draw i) →
  let s := demo_span p first i in
  now - 7 * day <= ss_started s <= now ∧ 0 <= ss_input s ∧ 0 <= ss_output s ∧
  50000 <= ss_latency s.
Proof.
  intros Hago. unfold demo_span. destruct (nth _ MODELS _) as [provider model]. cbn.
  unfold timestamp, day, hour, minute, second in *. lia.
Qed.

Lemma spans_refused p first :
  forallb (λ x, policy_admits None (ss_project x)) (map (demo_span p first) (seq 0 SPANS)) = false.
Proof. done. Qed.

(** With a role that row-level security binds, the script always fails and
    leaves the database as it was. *)
Lemma seed_refused drawn s : exempt = false → ∃ e, seed drawn s = (Raise e, s).
Proof.
  intros He. unfold seed, atomic. cbv [modify mbind M_bind].
  destruct (add_demo_project _ _ _) as [[[]|e] s1]; [|by eexists].
  cbv zeta. rewrite spans_refused, He. by eexists.
Qed.

(** With an exempt role, where nothing of the demo is there, it adds the
    organization, its project and two thousand spans of that project. *)
Lemma seed_first drawn s : exempt = true →
  existsb (organization_conflict (demo_organization (uuid4 drawn)))
    (organizations (sd_db s)) = false →
  existsb (project_conflict (demo_project (uuid4 (S drawn)) (uuid4 drawn)))
    (projects (sd_db s)) = false →
  ∃ s' new, seed drawn s = (Ok tt, s') ∧ sd_spans s' = sd_spans s ++ new ∧
    length new = SPANS ∧ (∀ x, x ∈ new → ss_project x = uuid4 (S drawn)) ∧
    projects (sd_db s') =
      projects (sd_db s) ++ [demo_project (uuid4 (S drawn)) (uuid4 drawn)] ∧
    organizations (sd_db s') = organizations (sd_db s) ++ [demo_organization (uuid4 drawn)].
Proof.
  intros He Ho Hp. unfold seed, atomic, add_demo_project. cbv [modify mbind M_bind gets id].
  assert (Eo : organizations (sd_db (add_demo_organization (uuid4 drawn) s)) =
               organizations (sd_db s) ++ [demo_organization (uuid4 drawn)]).
  { cbn. unfold insert_or_skip. by rewrite Ho. }
  change (projects (sd_db (add_demo_organization _ s))) with (projects (sd_db s)).
  rewrite Hp, Eo, existsb_app. cbn [existsb org_id demo_organization].
  rewrite String.eqb_refl, orb_true_r, He. cbv zeta.
  eexists _, _. split; [reflexivity|]. split; [reflexivity|].
  split; [by rewrite length_map, length_seq|]. split; [|done].
  intros x (i & -> & _)%list_elem_of_fmap. apply demo_span_project.
Qed.

(** Where the demo project is there already, the spans of another run belong to
    no project: the new identifier was drawn, but no row has it. *)
Lemma seed_again_orphans drawn s p : exempt = true →
  p ∈ projects (sd_db s) → p_key_hash p = key_hash →
  (∀ q, q ∈ projects (sd_db s) → p_id q ≠ uuid4 (S drawn)) →
  ∃ s' new, seed drawn s = (Ok tt, s') ∧ sd_spans s' = sd_spans s ++ new ∧
    length new = SPANS ∧ projects (sd_db s') = projects (sd_db s) ∧
    ∀ x q, x ∈ new → q ∈ projects (sd_db s') → p_id q ≠ ss_project x.
Proof.
  intros He Hp Hk Hfresh.
  assert (Hc : existsb (project_conflict (demo_project (uuid4 (S drawn)) (uuid4 drawn)))
                 (projects (sd_db s)) = true).
  { apply existsb_exists. exists p. split; [by apply list_elem_of_In|].
    unfold project_conflict. cbn. rewrite Hk, String.eqb_refl. by rewrite orb_true_r. }
  unfold seed, atomic, add_demo_project. cbv [modify mbind M_bind gets id].
  change (projects (sd_db (add_demo_organization _ s))) with (projects (sd_db s)).
  rewrite Hc, He. eexists _, _. split; [reflexivity|]. split; [reflexivity|].
  split; [by rewrite length_map, length_seq|]. split; [reflexivity|].
  intros x q (i & -> & _)%list_elem_of_fmap Hq. rewrite demo_span_project. by apply Hfresh.
Qed.
End seed.
