(* ===== verification/Lag.v ===== *)
(** * Observed durations

    The histograms of [backend/app/workers/process_span.py]: the durations the
    worker observes, in microseconds.  The difference of a time with and one
    without a UTC offset raises; the spans observed are those [select_inserted_spans]
    keeps, which have one, so observing never fails a batch. *)

From S2P Require Import Prelude Text Schema SpanSchema Buckets Worker.

Local Open Scope Z_scope.

(** [(ended_at - started_at).total_seconds()] *)
Definition subtract (ended_at started_at : pydatetime) : result Z :=
  match dt_offset ended_at, dt_offset started_at with
  | Some _, Some _ => Ok (dt_utc ended_at - dt_utc started_at)
  | None, None => Ok (dt_local ended_at - dt_local started_at)
  | _, _ => Raise (TypeError "can't subtract offset-naive and offset-aware datetimes")
  end.

(** What is observed, if anything. *)
Definition observe_duration (started_at ended_at : option pydatetime) : result (list Z) :=
  match started_at, ended_at with
  | Some started_at, Some ended_at =>
      seconds ← subtract ended_at started_at;
      Ok [Z.max seconds 0]
  | _, _ => Ok []
  end.

(** For each span the observations of the two histograms, in order. *)
Fixpoint observe_inserted_span_lag (spans : list PreparedSpan) (accepted_at : option pydatetime)
    (processed_at : pydatetime) : result (list Z) :=
  match spans with
  | [] => Ok []
  | s :: rest =>
      a ← observe_duration (Some (ps_started s)) accepted_at;
      b ← observe_duration (Some (ps_started s)) (Some processed_at);
      l ← observe_inserted_span_lag rest accepted_at processed_at;
      Ok (a ++ b ++ l)
  end.

Lemma selected_aware prepared ids s :
  s ∈ select_inserted_spans prepared ids → is_Some (dt_offset (ps_started s)).
Proof.
  revert ids. induction prepared as [|x l IH]; intros ids; cbn; [by intros ?%not_elem_of_nil|].
  unfold identity at 1. destruct (dt_offset (ps_started x)) as [off|] eqn:E; [|apply IH].
  destruct (decide _); [|apply IH].
  intros [->|Hin]%elem_of_cons; [by rewrite E|by eapply IH].
Qed.

Lemma observe_aware s e : is_Some (dt_offset s) → is_Some (dt_offset e) →
  ∃ d, observe_duration (Some s) (Some e) = Ok [d] ∧ 0 <= d.
Proof.
  intros [o Ho] [o' Ho']. unfold observe_duration, subtract. rewrite Ho, Ho'. cbn.
  eexists. split; [done|]. lia.
Qed.

(** Observing the lag of the spans a batch inserted never raises, and no
    observation is negative. *)
Lemma lags_observed prepared ids accepted_at processed_at :
  (∀ a, accepted_at = Some a → is_Some (dt_offset a)) → is_Some (dt_offset processed_at) →
  ∃ l, observe_inserted_span_lag (select_inserted_spans prepared ids) accepted_at processed_at
       = Ok l ∧ Forall (λ d, 0 <= d) l.
Proof.
  intros Ha Hp. pose proof (selected_aware prepared ids) as Hs.
  induction (select_inserted_spans prepared ids) as [|s spans IH]; [by eexists|].
  destruct IH as (l & El & Hl); [intros x Hx; apply Hs; by right|].
  pose proof (Hs s ltac:(by left)) as Hoff.
  cbn [observe_inserted_span_lag].
  destruct (observe_aware _ _ Hoff Hp) as (b & Eb & Hb).
  assert (Hacc : ∃ a, observe_duration (Some (ps_started s)) accepted_at = Ok a ∧
                      Forall (λ d, 0 <= d) a).
  { destruct accepted_at as [a|]; [|by eexists].
    destruct (observe_aware _ a Hoff (Ha a eq_refl)) as (d & Ed & Hd). exists [d].
    split; [done|by constructor]. }
  destruct Hacc as (a & Ea & Hnn). rewrite Ea. cbn [mbind result_bind]. rewrite Eb.
  cbn [mbind result_bind]. rewrite El. eexists. split; [done|].
  apply Forall_app. split; [done|]. by constructor.
Qed.

(** A span without an offset would fail the batch here. *)
Example naive_lag_raises t t' :
  observe_duration (Some {| dt_local := t; dt_offset := None |})
    (Some {| dt_local := t'; dt_offset := Some 0 |})
  = Raise (TypeError "can't subtract offset-naive and offset-aware datetimes").
Proof. done. Qed.
